(* ===== verification/_CoqProject ===== *)
-Q . S2P
Prelude.v
Errors.v
Go.v
Platform.v
Sha256.v
Storage.v
Concrete.v
Balance.v
Action.v
Transfer.v
ProofEnvelope.v
AmmMath.v
Pools.v
PoolFacts.v
Vai.v
Treasury.v
VaiFacts.v
TreasuryFacts.v
ProofEnvelopeFacts.v
Metrics.v
Markets.v
Proofs.v
MarketFacts.v
ProofFacts.v
Genesis.v
Server.v
Zk.v
Circuits.v
Client.v
Tools.v
Bench.v
Chain.v
Wire.v
Results.v
Network.v
BenchReport.v
BenchRun.v
Smoke.v
Fixture.v
Footprint.v
Ledger.v
Lifecycle.v
Authority.v
Reference.v
Refinement.v
GenesisFacts.v
TypedStore.v
Completion.v
Progress.v
ServerFacts.v
ZkFacts.v
Settlement.v
CircuitFacts.v
ClientFacts.v
ToolFacts.v
BenchFacts.v
Capacity.v
ReportFacts.v
RunFacts.v
CacheFacts.v
SmokeFacts.v
FixtureFacts.v
Node.v
