(* ===== verification/Prelude.v ===== *)
(** * VeilVM: a verification library

    VeilVM is a virtual machine for prediction-market batches: accounts hold VEIL
    and the stablecoin VAI, trade them in one constant-product pool, open
    markets, commit and reveal sealed orders, and clear batches that a
    zero-knowledge proof backs. Its state is a key/value store the platform
    ([hypersdk], [avalanchego]) owns; an action is a struct the platform parses,
    asks for the keys it will touch, and executes on a view of the store.

    ** The parts and where they are modelled

    - [Prelude.v]: bytes, machine integers, big-endian encodings, fixed arrays,
      sums over maps, and the lemmas and tactics on them.
    - [Errors.v]: the sentinel errors ([storage/errors.go], [actions/*.go]).
    - [Go.v]: the results of Go functions ([Outcome]: a value, an error, a
      panic) and state passing [ST], with the tactics that take a run apart.
    - [Platform.v]: what the source calls of the platform, as classes with
      their documented laws: checked arithmetic, permissions, the linear codec
      ([Platform], [PlatformSpec]); the store ([Mutable], [MutableSpec]: which
      keys are granted, what is in it). [Concrete.v] has an instance of each, on
      which the witnesses run.
    - [Sha256.v]: SHA-256, so that commitments can be evaluated.
    - [Storage.v], [Balance.v]: [storage/]: keys, records with their encodings
      and parsers, getters and setters, and the three families of balances.
    - [Action.v]: the type identifiers and the [Bytes]/[Unmarshal] pattern of
      every action file.
    - [Transfer.v], [AmmMath.v], [Pools.v], [Vai.v], [Treasury.v], [Markets.v],
      [Proofs.v]: the nineteen actions of [actions/], one Module per file with
      the file's operations under their own names; [ProofEnvelope.v]: preimages,
      envelopes, the verifier hook and glyphs; [Metrics.v]: the collector the
      batch actions report to.
    - [Chain.v]: the registry of [vm/vm.go] and the dispatch over the actions.
    - [Genesis.v]: [genesis/genesis.go]: the tokenomics of a genesis file, their
      defaults and validation, and the state written before the first block.
    - [Server.v], [Client.v]: the JSON-RPC methods of [vm/server.go], which read
      the state the actions write and the collector they report to, and the
      requests of [vm/client.go].
    - [Zk.v]: [zk/verifier.go] and [vm/option.go]: the verifier behind the hook
      of [ProofEnvelope.v] and how the configuration, the environment and the
      fixture key install it. [Circuits.v]: the two circuits of [zk/], whose
      digests are the public inputs the chain computes.
    - [Results.v]: the parsers of the actions' results that [vm/vm.go] registers
      beside those of the actions.
    - [Tools.v], [Bench.v]: of [cmd/], the genesis of the key generator, the
      samples of the fixture tool, and what the benchmark computes for itself:
      configuration, payloads, proofs and fees.
    - [Network.v]: what the programs of [cmd/] use of a node, a clock and a disk,
      as classes over the world, and of the standard library. On it
      [BenchRun.v], the benchmark from its configuration to its report, with
      the cache of the constraint system; [BenchReport.v], its percentiles and
      files; [Smoke.v], the smoke run; [Fixture.v], the fixture tool from its
      flags to its files, the key generator and the identity of the VM.
    - [Node.v]: package initialisation, which registers the parsers, [New] of
      [vm/vm.go] and the plugin of [cmd/veilvm]; no registration collides.

    An operation [Type.Method] of a Go file is [Module.Method] here. A handler is
    an [ST M bytes] over any store [M]; a handler with a deferred metrics report
    is over [M * zkMetricsCollector], and what it reads from the clock is an
    argument. Mutations made before an error stay in the returned state, as in
    the source; that the platform then discards the view is used only where a
    run of the chain is defined ([Ledger.chain_run] takes successful steps).

    ** What the theorems show

    - [ProofFacts.v]: exactly when a clear is accepted; a window takes one proof,
      from the authority and in time; an accepted proof can be cleared.
    - [Ledger.v], [Lifecycle.v], [Authority.v]: runs of the whole chain. VEIL is
      accounted for to the unit, VAI equals its debt, the pool stays consistent;
      markets follow their life cycle, outcomes and proofs are final; only the
      governance address and the mint authority change what is theirs.
    - [Footprint.v]: an action writes only what it declares.
    - [PoolFacts.v], [AmmMath.v]: the constant product, no profit from a deposit
      and withdrawal, no dilution, the integer square root.
    - [VaiFacts.v], [TreasuryFacts.v]: limits on minting and releases,
      conservation of routed fees, and where 64-bit products wrap.
    - [Transfer.v]: refinement of an abstract ledger. [Wire.v],
      [ProofEnvelopeFacts.v]: round trips and separation of encodings.
      [Metrics.v]: the collector's invariant and its snapshots.
    - [GenesisFacts.v]: what genesis writes, when a file is accepted, and the
      supply of the whole history from genesis on.
    - [ServerFacts.v], [ClientFacts.v]: the server reports what the actions see,
      the reserve report is the condition of minting, and which of its methods
      the client asks for under a name the server lacks.
    - [Settlement.v]: the composition: what the chain settles under the proof gate
      was proved to the verifier behind the hook, for exactly that result.
    - [Reference.v], [Refinement.v]: an abstract machine of the whole chain, without
      bytes, keys or database errors, whose state is functions from accounts,
      markets and windows to typed values, up to pointwise equality; [abs] reads
      its state out of the database, and every accepted run of the chain is a run
      of it. What is proved of the machine holds of the chain: nobody spends for
      others, and nodes that read the same state stay in agreement.
    - [Completion.v], [Progress.v]: the converse: a calculus for handlers that
      complete, and that the chain accepts exactly what the abstract machine accepts,
      where the platform grants the declared keys and the data fits its cells.
    - [TypedStore.v]: what no action breaks: every cell of the state reads back, so
      that after genesis no getter fails on what is stored.
    - [Results.v]: the output of every action is read back as its result.
    - [ZkFacts.v], [CircuitFacts.v]: exactly which proofs the verifier accepts,
      that a payload backs one hash, what is installed at start, and that the
      circuits hold exactly for the preimages and digests of the chain.
    - [ToolFacts.v], [BenchFacts.v]: the generated genesis is valid, samples and
      benchmark windows can be proved and fit the actions, fees are saturated
      sums, truncated envelopes are refused.
    - [Capacity.v]: which sealed orders the store takes, and that only small batches
      of the benchmark are among them.
    - [RunFacts.v], [CacheFacts.v], [ReportFacts.v]: a report of the benchmark
      stands for transactions the node said succeeded; the cache is as it
      was, absent or complete, whatever fails; percentiles are those of the nearest
      rank.
    - [SmokeFacts.v]: what a passed smoke run would have seen, and that none passes
      against this server. [FixtureFacts.v]: a node accepts what the fixture tool
      wrote.

    ** Bounds and fuel

    [intSqrt_loop] gets 66 steps, and [intSqrt_correct] proves them enough for
    every 64-bit argument. The trimming of white space gets one step a byte,
    since each step removes at least one. Integers are kept at their Go width:
    what the source checks is checked, what it does not is wrapped. The loops
    that poll a node have the rounds of the source: 60 and 120 in the benchmark,
    30 in the smoke run. The buffered writer gets a step per byte, and writes a
    block of 4096 in each. [percentile_nearest_rank] is for at most 1000 values,
    which are checked one by one.

    ** Not modelled

    The text of errors ([errors.Is] is equality of sentinels), except where a
    program of [cmd/] looks into it ([wrapf]); logging and what the programs
    print on the way; locks, because every method that takes one is one step
    under it; contexts, which are the world's to end; the command line and the
    plugin host around [cmd/veilvm]. JSON, HTTP, the node a client talks to, the
    registry of parsers, the authentication modules, the clock, randomness,
    signing, the files, the environment and [gnark] are parameters
    ([GenesisFile], [Requester], [CoreClient], [TypeRegistry], [Authentication],
    [PluginHost], [Host], [Random], [Signing], [Files], [OS], [Gnark], [Frontend],
    [Prover], [Setup]) with the laws the theorems need. *)
From Stdlib Require Export ZArith NArith Lia Strings.Byte.
From stdpp Require Export base gmap list strings numbers.

#[global] Set Default Goal Selector "!".
#[global] Open Scope Z_scope.

(** ** Bytes *)

#[global] Instance byte_eq_dec : EqDecision byte := Byte.byte_eq_dec.

#[global] Instance byte_countable : Countable byte :=
  inj_countable Byte.to_N Byte.of_N Byte.of_to_N.

Abbreviation bytes := (list byte).

Definition Z_of_byte (b : byte) : Z := Z.of_N (Byte.to_N b).

Definition byte_of_Z (z : Z) : byte :=
  default x00 (Byte.of_N (Z.to_N (z mod 256))).

Lemma Z_of_byte_range b : 0 <= Z_of_byte b < 256.
Proof.
  unfold Z_of_byte. pose proof (Byte.to_N_bounded b). lia.
Qed.

Lemma Z_of_byte_of_Z z : Z_of_byte (byte_of_Z z) = z mod 256.
Proof.
  unfold Z_of_byte, byte_of_Z.
  pose proof (Z.mod_pos_bound z 256 eq_refl).
  destruct (Byte.of_N (Z.to_N (z mod 256))) as [b|] eqn:E; simpl.
  - apply Byte.to_of_N in E. rewrite E. lia.
  - apply Byte.of_N_None_iff in E. lia.
Qed.

Lemma Z_of_byte_inj a b : Z_of_byte a = Z_of_byte b -> a = b.
Proof.
  unfold Z_of_byte. intros H%N2Z.inj.
  pose proof (Byte.of_to_N a) as Ha. rewrite H, Byte.of_to_N in Ha. congruence.
Qed.

Lemma byte_of_Z_of_byte b : byte_of_Z (Z_of_byte b) = b.
Proof.
  apply Z_of_byte_inj. rewrite Z_of_byte_of_Z.
  apply Z.mod_small, Z_of_byte_range.
Qed.

(** ** Machine integers

    A Go integer of width [w] is a [Z] in its range; arithmetic that can leave
    the range is wrapped explicitly where the source does not check it. *)

Definition u8 (z : Z) : Prop := 0 <= z < 2 ^ 8.
Definition u16 (z : Z) : Prop := 0 <= z < 2 ^ 16.
Definition u32 (z : Z) : Prop := 0 <= z < 2 ^ 32.
Definition u64 (z : Z) : Prop := 0 <= z < 2 ^ 64.
Definition i64 (z : Z) : Prop := - 2 ^ 63 <= z < 2 ^ 63.

Definition wrap_u8 (z : Z) : Z := z mod 2 ^ 8.
Definition wrap_u16 (z : Z) : Z := z mod 2 ^ 16.
Definition wrap_u32 (z : Z) : Z := z mod 2 ^ 32.
Definition wrap_u64 (z : Z) : Z := z mod 2 ^ 64.
Definition wrap_i64 (z : Z) : Z := (z + 2 ^ 63) mod 2 ^ 64 - 2 ^ 63.

Lemma wrap_u64_range z : u64 (wrap_u64 z).
Proof. apply Z.mod_pos_bound. lia. Qed.

Lemma wrap_i64_range z : i64 (wrap_i64 z).
Proof.
  unfold wrap_i64, i64. pose proof (Z.mod_pos_bound (z + 2 ^ 63) (2 ^ 64) eq_refl). lia.
Qed.

Lemma wrap_u64_small z : u64 z -> wrap_u64 z = z.
Proof. apply Z.mod_small. Qed.

Lemma wrap_u32_small z : u32 z -> wrap_u32 z = z.
Proof. apply Z.mod_small. Qed.

Lemma wrap_u16_small z : u16 z -> wrap_u16 z = z.
Proof. apply Z.mod_small. Qed.

Lemma wrap_i64_small z : i64 z -> wrap_i64 z = z.
Proof. unfold i64, wrap_i64. intros. rewrite Z.mod_small; lia. Qed.

(** [int64(uint64(x)) = x] *)
Lemma wrap_i64_u64 z : i64 z -> wrap_i64 (wrap_u64 z) = z.
Proof.
  intros H. unfold wrap_i64, wrap_u64.
  rewrite Zplus_mod_idemp_l. change ((z + 2 ^ 63) mod 2 ^ 64 - 2 ^ 63) with (wrap_i64 z).
  by apply wrap_i64_small.
Qed.

(** ** Big-endian encodings ([encoding/binary]) *)

(** The [n]-byte big-endian image of [z]: [binary.BigEndian.PutUintN]. *)
Fixpoint be (n : nat) (z : Z) : bytes :=
  match n with
  | O => []
  | S n' => byte_of_Z (z / 256 ^ Z.of_nat n') :: be n' z
  end.

(** The value of a big-endian byte string: [binary.BigEndian.UintN]. *)
Definition unbe (l : bytes) : Z := foldl (fun acc b => acc * 256 + Z_of_byte b) 0 l.

Lemma length_be n z : length (be n z) = n.
Proof. induction n; simpl; congruence. Qed.

Lemma foldl_unbe l a :
  foldl (fun acc b => acc * 256 + Z_of_byte b) a l = a * 256 ^ Z.of_nat (length l) + unbe l.
Proof.
  unfold unbe. revert a. induction l as [|b l IH]; intros a; cbn [foldl length].
  - change (Z.of_nat 0) with 0. lia.
  - rewrite IH, (IH (0 * 256 + _)), Nat2Z.inj_succ, Z.pow_succ_r by lia. lia.
Qed.

Lemma unbe_cons b l : unbe (b :: l) = Z_of_byte b * 256 ^ Z.of_nat (length l) + unbe l.
Proof.
  unfold unbe at 1. cbn [foldl]. rewrite foldl_unbe. lia.
Qed.

Lemma unbe_range l : 0 <= unbe l < 256 ^ Z.of_nat (length l).
Proof.
  induction l as [|b l IH]; [done|].
  rewrite unbe_cons. cbn [length]. rewrite Nat2Z.inj_succ, Z.pow_succ_r by lia.
  pose proof (Z_of_byte_range b). nia.
Qed.

Lemma unbe_be n z : unbe (be n z) = z mod 256 ^ Z.of_nat n.
Proof.
  induction n as [|n IH]; cbn [be].
  - change (Z.of_nat 0) with 0. by rewrite Z.mod_1_r.
  - rewrite unbe_cons, length_be, IH, Z_of_byte_of_Z, Nat2Z.inj_succ, Z.pow_succ_r by lia.
    rewrite (Z.mul_comm 256), Z.rem_mul_r by lia. lia.
Qed.

Lemma be_mod n z : be n (z mod 256 ^ Z.of_nat n) = be n z.
Proof.
  enough (H : forall m, (n <= m)%nat -> be n (z mod 256 ^ Z.of_nat m) = be n z) by eauto.
  induction n as [|n IH]; intros m Hm; cbn [be]; [done|].
  rewrite IH by lia. f_equal.
  apply Z_of_byte_inj. rewrite !Z_of_byte_of_Z.
  replace (Z.of_nat m) with (Z.of_nat n + (1 + Z.of_nat (m - n - 1))) by lia.
  rewrite Z.pow_add_r, Z.rem_mul_r by lia.
  pose proof (Z.mod_pos_bound z (256 ^ Z.of_nat n)).
  rewrite Z.mul_comm, Z.div_add, (Z.div_small (z mod _)), Z.add_0_l by lia.
  rewrite Z.pow_add_r, Z.rem_mul_r by lia. change (256 ^ 1) with 256.
  rewrite (Z.mul_comm 256), Z_mod_plus_full, Z.mod_mod by lia. done.
Qed.

Lemma be_unbe l : be (length l) (unbe l) = l.
Proof.
  induction l as [|b l IH]; [done|].
  cbn [length be]. rewrite unbe_cons. f_equal.
  - rewrite Z.div_add_l by lia.
    rewrite (Z.div_small (unbe l)) by apply unbe_range.
    rewrite Z.add_0_r. apply byte_of_Z_of_byte.
  - rewrite <-be_mod, Z.add_comm, Z_mod_plus_full, be_mod. done.
Qed.

Lemma unbe_be_small n z : 0 <= z < 256 ^ Z.of_nat n -> unbe (be n z) = z.
Proof. intros. by rewrite unbe_be, Z.mod_small. Qed.

Lemma be_inj n a b :
  0 <= a < 256 ^ Z.of_nat n -> 0 <= b < 256 ^ Z.of_nat n -> be n a = be n b -> a = b.
Proof.
  intros Ha Hb H%(f_equal unbe). by rewrite !unbe_be_small in H.
Qed.

(** [be] at the widths the source uses. *)
Lemma unbe_be_1 z : u8 z -> unbe (be 1 z) = z.
Proof. apply (unbe_be_small 1). Qed.
Lemma unbe_be_2 z : u16 z -> unbe (be 2 z) = z.
Proof. apply (unbe_be_small 2). Qed.
Lemma unbe_be_4 z : u32 z -> unbe (be 4 z) = z.
Proof. apply (unbe_be_small 4). Qed.
Lemma unbe_be_8 z : u64 z -> unbe (be 8 z) = z.
Proof. apply (unbe_be_small 8). Qed.
Lemma unbe_be_8_wrap z : unbe (be 8 z) = wrap_u64 z.
Proof. apply (unbe_be 8). Qed.

(** A byte slice [v[off : off+len]]; the callers check the bounds first. *)
Definition slice (off len : nat) (v : bytes) : bytes := take len (drop off v).

Definition uint_at (off len : nat) (v : bytes) : Z := unbe (slice off len v).

Lemma slice_app_skip l1 l2 off len :
  length l1 = off -> slice off len (l1 ++ l2) = take len l2.
Proof. intros <-. unfold slice. by rewrite drop_app_length. Qed.

Lemma length_slice off len (v : bytes) :
  (off + len <= length v)%nat -> length (slice off len v) = len.
Proof. intros. unfold slice. rewrite length_take, length_drop. lia. Qed.

Lemma uint_at_range off len v : 0 <= uint_at off len v < 256 ^ Z.of_nat len.
Proof.
  unfold uint_at. pose proof (unbe_range (slice off len v)) as [? Hlt]. split; [done|].
  eapply Z.lt_le_trans; [done|]. apply Z.pow_le_mono_r; [lia|].
  unfold slice. rewrite length_take. lia.
Qed.

Lemma uint_at_2_range off v : u16 (uint_at off 2 v).
Proof. apply (uint_at_range off 2). Qed.
Lemma uint_at_4_range off v : u32 (uint_at off 4 v).
Proof. apply (uint_at_range off 4). Qed.
Lemma uint_at_8_range off v : u64 (uint_at off 8 v).
Proof. apply (uint_at_range off 8). Qed.

(** [int64(binary.BigEndian.Uint64(v[off:off+8]))] *)
Definition int64_at (off : nat) (v : bytes) : Z := wrap_i64 (uint_at off 8 v).

(** ** Fixed-size byte arrays ([[n]byte])

    The length is part of the type, as in Go; two arrays are equal exactly when
    their bytes are. *)

Record array (n : nat) := mk_array {
  array_bytes : bytes;
  array_size : bool_decide (length array_bytes = n)
}.
Arguments mk_array {_} _ _.
Arguments array_bytes {_} _.
Arguments array_size {_} _.
Coercion array_bytes : array >-> list.

Lemma length_array {n} (a : array n) : length (array_bytes a) = n.
Proof. destruct a as [l H]. exact (bool_decide_unpack _ H). Qed.

Lemma array_eq {n} (a b : array n) : array_bytes a = array_bytes b -> a = b.
Proof.
  destruct a as [l Hl], b as [l' Hl']; simpl. intros <-. f_equal. apply proof_irrel.
Qed.

#[global] Instance array_eq_dec n : EqDecision (array n).
Proof.
  refine (fun a b => cast_if (decide (array_bytes a = array_bytes b)));
    [by apply array_eq | congruence].
Defined.

Lemma length_copy_bytes n (src : bytes) :
  length (take n src ++ replicate (n - length src) x00) = n.
Proof. rewrite length_app, length_take, length_replicate. lia. Qed.

(** [var a [n]byte; copy(a[:], src)] *)
Definition copy_array (n : nat) (src : bytes) : array n :=
  mk_array (take n src ++ replicate (n - length src) x00)
    (bool_decide_pack _ (length_copy_bytes n src)).

(** The zero value of [[n]byte]. *)
Definition zero_array (n : nat) : array n := copy_array n [].

Lemma copy_array_bytes n (src : bytes) :
  length src = n -> array_bytes (copy_array n src) = src.
Proof.
  intros <-. simpl. by rewrite Nat.sub_diag, app_nil_r, take_ge.
Qed.

Lemma copy_array_id {n} (a : array n) : copy_array n (array_bytes a) = a.
Proof. apply array_eq, copy_array_bytes, length_array. Qed.

(** ** Sums over a finite map *)

Section map_sum.
Context {K A : Type} `{Countable K}.
Implicit Types (m : gmap K A) (f : K -> A -> Z).

Definition map_sum (f : K -> A -> Z) (m : gmap K A) : Z :=
  map_fold (fun k x acc => f k x + acc) 0 m.

Lemma map_sum_empty f : map_sum f ∅ = 0.
Proof. apply map_fold_empty. Qed.

Lemma map_sum_insert_new f m k x :
  m !! k = None -> map_sum f (<[k := x]> m) = f k x + map_sum f m.
Proof.
  intros Hk. unfold map_sum. rewrite map_fold_insert_L; [done| |done].
  intros. lia.
Qed.

(** What the entry at [k] contributes to the sum. *)
Definition contrib f m k : Z := from_option (f k) 0 (m !! k).

Lemma map_sum_delete f m k : map_sum f (delete k m) = map_sum f m - contrib f m k.
Proof.
  unfold contrib. destruct (m !! k) as [x|] eqn:E; simpl.
  - rewrite <-(insert_delete_id m k x E) at 2.
    rewrite map_sum_insert_new by apply lookup_delete_eq. lia.
  - rewrite delete_id by done. lia.
Qed.

Lemma map_sum_insert f m k x :
  map_sum f (<[k := x]> m) = map_sum f m - contrib f m k + f k x.
Proof.
  rewrite <-insert_delete_eq, map_sum_insert_new by apply lookup_delete_eq.
  rewrite map_sum_delete. lia.
Qed.

Lemma map_sum_nonneg f m : (forall k x, 0 <= f k x) -> 0 <= map_sum f m.
Proof.
  intros Hf. induction m as [|k x m Hk IH] using map_ind.
  - by rewrite map_sum_empty.
  - rewrite map_sum_insert_new by done. specialize (Hf k x). lia.
Qed.

(** One entry is at most the whole sum, when all entries are non-negative. *)
Lemma contrib_le_map_sum f m k : (forall k x, 0 <= f k x) -> contrib f m k <= map_sum f m.
Proof.
  intros Hf. pose proof (map_sum_nonneg f (delete k m) Hf) as Hd.
  rewrite map_sum_delete in Hd. lia.
Qed.

(** An update at a key that contributes nothing, before and after. *)
Lemma map_sum_insert_irrelevant f m k x :
  (forall y, f k y = 0) -> map_sum f (<[k := x]> m) = map_sum f m.
Proof.
  intros Hf. rewrite map_sum_insert, Hf. unfold contrib.
  destruct (m !! k); simpl; rewrite ?Hf; lia.
Qed.

Lemma map_sum_delete_irrelevant f m k :
  (forall y, f k y = 0) -> map_sum f (delete k m) = map_sum f m.
Proof.
  intros Hf. rewrite map_sum_delete. unfold contrib.
  destruct (m !! k); simpl; rewrite ?Hf; lia.
Qed.
End map_sum.

(** ** Division facts shared by the arithmetic of the AMM, the fee router and
    the treasury *)

Lemma div_mul_le_mul_div a b c : 0 <= a -> 0 <= b -> 0 < c -> (a / c) * b <= a * b / c.
Proof.
  intros. apply Z.div_le_lower_bound; [lia|].
  pose proof (Z.mul_div_le a c). nia.
Qed.

(** A share [a * n / d] of [a] with [n <= d] is at most [a]. *)
Lemma share_le a n d : 0 <= a -> 0 <= n <= d -> 0 < d -> a * n / d <= a.
Proof. intros. apply Z.div_le_upper_bound; nia. Qed.

Lemma share_lt a n d : 0 < a -> 0 <= n < d -> a * n / d < a.
Proof. intros. apply Z.div_lt_upper_bound; nia. Qed.

(** ** Taking concatenated encodings apart *)

(** Go's [len]. *)
Definition len (v : bytes) : Z := Z.of_nat (length v).

Lemma slice_app_ge k off n (l1 l2 : bytes) :
  length l1 = k -> (k <= off)%nat -> slice off n (l1 ++ l2) = slice (off - k) n l2.
Proof.
  intros <- H. unfold slice. by rewrite drop_app_ge by done.
Qed.

Lemma slice_app_here n (l1 l2 : bytes) : length l1 = n -> slice 0 n (l1 ++ l2) = l1.
Proof. intros <-. unfold slice. by rewrite drop_0, take_app_length. Qed.

Lemma slice_all n (l : bytes) : length l = n -> slice 0 n l = l.
Proof. intros <-. unfold slice. by rewrite drop_0, firstn_all. Qed.

Lemma drop_app_ge' k off (l1 l2 : bytes) :
  length l1 = k -> (k <= off)%nat -> drop off (l1 ++ l2) = drop (off - k) l2.
Proof. intros <- H. by rewrite drop_app_ge by done. Qed.

#[global] Arguments be : simpl never.
#[global] Arguments unbe : simpl never.
#[global] Arguments slice : simpl never.
#[global] Arguments copy_array : simpl never.

Create Rewrite HintDb lengths.
#[export] Hint Rewrite @length_app length_be @length_array @length_cons @length_nil
  @length_replicate : lengths.

(** Prove an equation by evaluation, reading nothing back. *)
Ltac evaluate := match goal with |- ?x = _ => vm_cast_no_check (eq_refl x) end.

(** Solve a side condition on the length of a segment. *)
Ltac seg_length := solve [apply length_be | apply length_array | reflexivity | eassumption
                         | autorewrite with lengths; lia].

(** Evaluate the slices of a concatenation of fixed-size segments. *)
Ltac slices :=
  unfold int64_at, uint_at;
  repeat first
    [ rewrite slice_app_here by seg_length
    | erewrite slice_app_ge; [ cbn [Nat.sub Nat.add Nat.mul] | seg_length | lia ]
    | erewrite drop_app_ge'; [ cbn [Nat.sub Nat.add Nat.mul] | seg_length | lia ]
    | rewrite slice_all by seg_length ].
