(* ===== verification/Errors.v ===== *)
(** * Error values

    The sentinel errors of [storage/errors.go] and of the files of [actions/],
    the errors the platform packages return, and formatted messages. An error
    built with [fmt.Errorf] and the [%w] verb satisfies [errors.Is] for the
    sentinel it wraps and is represented by that sentinel: its message text is
    not modelled, except where a program looks into it ([Network.wrapf]). *)
From S2P Require Import Prelude.
From stdpp Require Import strings.

Inductive Error : Type :=
(* storage/errors.go *)
| ErrInvalidAddress | ErrInvalidBalance | ErrMarketNotFound | ErrMarketExists
| ErrMarketNotActive | ErrMarketNotResolved | ErrMarketResolved | ErrInvalidOutcome
| ErrDisputeWindow
| ErrUnauthorized | ErrInvalidTokenomicsConfig | ErrInvalidFeeRouterConfig
| ErrInvalidFeeAmount | ErrInvalidReleaseAmount | ErrInsufficientLockedCOL
| ErrReleaseTooEarly | ErrReleaseCapExceeded | ErrInvalidVAIAmount
| ErrVAIDebtCeilingExceeded | ErrVAIEpochMintLimitExceeded | ErrVAIDebtInvariant
| ErrBackingRatioViolation | ErrInvalidRiskConfig | ErrInvalidReserveState
| ErrInvalidReserveUpdate
| ErrUnsupportedAsset | ErrInvalidAssetPair | ErrInvalidPoolFee | ErrPoolNotFound
| ErrPoolExists | ErrInvalidLiquidityAmount | ErrInvalidSwapAmount
| ErrInsufficientLiquidity | ErrInsufficientLPBalance | ErrSlippageExceeded
| ErrInvalidProofConfig | ErrProofNotFound | ErrProofAlreadySubmitted
| ErrInvalidProofEnvelope | ErrProofTypeMismatch | ErrProofCircuitMismatch
| ErrUnsupportedProofCircuit | ErrProofDeadlineMissed | ErrProofFillsMismatch
| ErrProofCommitmentMismatch | ErrProofPublicInputsMismatch
| ErrProofVerifierUnavailable | ErrProofVerificationFailed | ErrVellumProofNotFound
| ErrInvalidVellumProof | ErrInvalidBloodsworn | ErrGlyphNotFound | ErrInvalidGlyph
(* the var blocks of actions/*.go *)
| ErrOutputValueZero | ErrOutputMemoTooLarge
| ErrInvalidOutcomes | ErrInvalidResolutionTime | ErrCreatorBondZero | ErrQuestionTooLarge
| ErrEnvelopeEmpty | ErrEnvelopeTooLarge | ErrCommitmentEmpty | ErrCommitmentTooLarge
| ErrDecryptionShareEmpty | ErrDecryptionShareTooLarge
| ErrFillsHashEmpty | ErrFillsHashTooLarge | ErrFillsHashWrongSize | ErrClearPriceZero
| ErrSignatureEmpty | ErrSignatureTooLarge
| ErrBondZero | ErrEvidenceEmpty | ErrEvidenceTooLarge
| ErrUnmarshalEmpty (typeID : Z)  (* ErrUnmarshalEmptyTransfer and its siblings *)
| ErrUnexpectedTypeID (got want : Z)
(* errors.New / fmt.Errorf without %w, by their format string *)
| ErrMessage (msg : string)
(* avalanchego and hypersdk *)
| database_ErrNotFound
| smath_ErrOverflow
| smath_ErrUnderflow
| ErrExternal (code : Z).

#[global] Instance Error_eq_dec : EqDecision Error.
Proof. solve_decision. Defined.

(** [errors.Is(err, target)] for the errors above: each represents its chain. *)
Definition errors_Is (err target : Error) : bool := bool_decide (err = target).
