(* ===== verification/Go.v ===== *)
(** * Go control flow: results, state passing, early return

    A Go function that returns [(T, error)] is a value of [Outcome T]: [Ok] for
    a nil error, [Err] for a non-nil one (the other results are then unused by
    every caller in the source), [Panic] for a run-time panic. A function that
    also mutates the state [S] it is given is an [ST S T]: the mutations made
    before an error stay in the returned state, as in the source. *)
From S2P Require Import Prelude Errors.

Inductive Outcome (A : Type) : Type :=
| Ok (a : A)
| Err (e : Error)
| Panic.
Arguments Ok {_} _.
Arguments Err {_} _.
Arguments Panic {_}.

Definition ST (S A : Type) : Type := S -> Outcome A * S.

(** ** Pure results *)

Definition obind {A B} (o : Outcome A) (k : A -> Outcome B) : Outcome B :=
  match o with Ok a => k a | Err e => Err e | Panic => Panic end.

(** [if cond { return ..., e }] in a function without state. *)
Definition guard (b : bool) (e : Error) : Outcome unit := if b then Err e else Ok tt.

(** ** Stateful computations *)

Section combinators.
Context {S : Type}.

Definition ret {A} (a : A) : ST S A := fun s => (Ok a, s).
Definition fail {A} (e : Error) : ST S A := fun s => (Err e, s).
Definition panic {A} : ST S A := fun s => (Panic, s).
Definition lift {A} (o : Outcome A) : ST S A := fun s => (o, s).

Definition bind {A B} (c : ST S A) (k : A -> ST S B) : ST S B := fun s =>
  match c s with
  | (Ok a, s') => k a s'
  | (Err e, s') => (Err e, s')
  | (Panic, s') => (Panic, s')
  end.

(** [if cond { return nil, e }] *)
Definition fail_if (b : bool) (e : Error) : ST S unit := if b then fail e else ret tt.

(** [_, err := c; if err == nil {ok} else if !errors.Is(err, miss) {return err}]:
    the result of [c] as data, for the handlers that test it. *)
Definition catch {A} (c : ST S A) : ST S (A + Error) := fun s =>
  match c s with
  | (Ok a, s') => (Ok (inl a), s')
  | (Err e, s') => (Ok (inr e), s')
  | (Panic, s') => (Panic, s')
  end.
End combinators.

Declare Scope go_scope.
Delimit Scope go_scope with go.
Notation "'let*' x ':=' c 'in' k" := (bind c (fun x => k))
  (at level 10, x pattern, c at level 200, k at level 200,
   format "'[v' 'let*'  x  ':='  c  'in' '/' k ']'") : go_scope.
Notation "c ';;;' k" := (bind c (fun _ => k))
  (at level 199, right associativity, format "'[v' c  ';;;' '/' k ']'") : go_scope.
Notation "'let?' x ':=' c 'in' k" := (obind c (fun x => k))
  (at level 10, x pattern, c at level 200, k at level 200,
   format "'[v' 'let?'  x  ':='  c  'in' '/' k ']'") : go_scope.
#[global] Open Scope go_scope.

(** ** Laws *)

Section laws.
Context {S : Type}.

Lemma bind_ret_l {A B} (a : A) (k : A -> ST S B) s : bind (ret a) k s = k a s.
Proof. done. Qed.

Lemma bind_ret_r {A} (c : ST S A) s : bind c ret s = c s.
Proof. unfold bind, ret. by destruct (c s) as [[] ?]. Qed.

Lemma bind_assoc {A B C} (c : ST S A) (k : A -> ST S B) (h : B -> ST S C) s :
  bind (bind c k) h s = bind c (fun a => bind (k a) h) s.
Proof. unfold bind. by destruct (c s) as [[] ?]. Qed.

(** Running a bind whose first part is known. *)
Lemma bind_run {A B} (c : ST S A) (k : A -> ST S B) a s s1 :
  c s = (Ok a, s1) -> bind c k s = k a s1.
Proof. unfold bind. by intros ->. Qed.

Lemma bind_stop {A B} (c : ST S A) (k : A -> ST S B) e s s1 :
  c s = (Err e, s1) -> bind c k s = (Err e, s1).
Proof. unfold bind. by intros ->. Qed.

(** Inverting a successful bind. *)
Lemma bind_ok {A B} (c : ST S A) (k : A -> ST S B) b s s' :
  bind c k s = (Ok b, s') -> exists a s1, c s = (Ok a, s1) /\ k a s1 = (Ok b, s').
Proof. unfold bind. destruct (c s) as [[] ?]; intros; simplify_eq; eauto. Qed.

Lemma fail_if_ok b e (u : unit) (s s' : S) :
  fail_if b e s = (Ok u, s') -> b = false /\ s' = s.
Proof. destruct b; cbv; intros [= ? ?]; by subst. Qed.

Lemma lift_ok {A} (o : Outcome A) a (s s' : S) :
  lift o s = (Ok a, s') -> o = Ok a /\ s' = s.
Proof. unfold lift. intros. by simplify_eq. Qed.

Lemma catch_ok {A} (c : ST S A) r (s s' : S) :
  catch c s = (Ok r, s') ->
  match r with inl a => c s = (Ok a, s') | inr e => c s = (Err e, s') end.
Proof. unfold catch. destruct (c s) as [[] ?]; intros; simplify_eq; done. Qed.
End laws.

Lemma obind_ok {A B} (o : Outcome A) (k : A -> Outcome B) b :
  obind o k = Ok b -> exists a, o = Ok a /\ k a = Ok b.
Proof. destruct o; simpl; intros; simplify_eq; eauto. Qed.

Lemma guard_false b e : b = false -> guard b e = Ok tt.
Proof. by intros ->. Qed.

Lemma guard_ok b e u : guard b e = Ok u -> b = false.
Proof. by destruct b. Qed.

(** ** Automation: take a successful run apart *)

Ltac bool_simpl :=
  repeat match goal with
  | H : (_ || _)%bool = false |- _ => apply orb_false_iff in H; destruct H
  | H : (_ && _)%bool = true |- _ => apply andb_true_iff in H; destruct H
  | H : negb _ = false |- _ => apply negb_false_iff in H
  | H : negb _ = true |- _ => apply negb_true_iff in H
  | H : (_ =? _) = true |- _ => apply Z.eqb_eq in H
  | H : (_ =? _) = false |- _ => apply Z.eqb_neq in H
  | H : (_ <? _) = true |- _ => apply Z.ltb_lt in H
  | H : (_ <? _) = false |- _ => apply Z.ltb_ge in H
  | H : (_ <=? _) = true |- _ => apply Z.leb_le in H
  | H : (_ <=? _) = false |- _ => apply Z.leb_gt in H
  | H : bool_decide _ = true |- _ => apply bool_decide_eq_true in H
  | H : bool_decide _ = false |- _ => apply bool_decide_eq_false in H
  end.

(** One step of inverting [H : prog s = (Ok r, s')] or [H : prog = Ok r]. *)
Ltac go_step :=
  match goal with
  | H : bind _ _ _ = (Ok _, _) |- _ =>
      let a := fresh "r" in let s := fresh "s" in let E := fresh "E" in
      apply bind_ok in H; destruct H as (a & s & E & H); cbn beta iota in H
  | H : obind _ _ = Ok _ |- _ =>
      let a := fresh "r" in let E := fresh "E" in
      apply obind_ok in H; destruct H as (a & E & H); cbn beta iota in H
  | H : fail_if _ _ _ = (Ok _, _) |- _ =>
      let E := fresh "G" in apply fail_if_ok in H; destruct H as [E H]; try subst
  | H : guard _ _ = Ok _ |- _ => apply guard_ok in H
  | H : lift _ _ = (Ok _, _) |- _ =>
      let E := fresh "L" in apply lift_ok in H; destruct H as [E H]; try subst
  | H : (match ?r with _ => _ end) _ = (Ok _, _) |- _ =>
      is_var r; lazymatch type of r with prod _ _ => destruct r; cbn beta iota in H end
  | H : ret _ _ = (Ok _, _) |- _ => unfold ret in H; simplify_eq H; clear H; intros; subst
  | H : fail _ _ = (Ok _, _) |- _ => discriminate H
  | H : Ok _ = Ok _ |- _ => simplify_eq H; clear H; intros; subst
  | H : Err _ = Ok _ |- _ => discriminate H
  | H : Panic = Ok _ |- _ => discriminate H
  | H : (Ok _, _) = (Ok _, _) |- _ => simplify_eq H; clear H; intros; subst
  | H : (Err _, _) = (Ok _, _) |- _ => discriminate H
  | H : (Panic, _) = (Ok _, _) |- _ => discriminate H
  end.

Ltac go_inv := repeat go_step; bool_simpl; try subst.
