(* ===== verification/Platform.v ===== *)
(** * The packages VeilVM is built on, as interfaces

    [avalanchego] and [hypersdk] are not part of the repository. What the
    source calls of them is a parameter here: [Platform] for the pure helpers
    (checked arithmetic, key prefixes, permissions, the linear codec),
    [Mutable] for [state.Mutable]. The [Spec] classes state the documented
    behaviour the source relies on; [Concrete.v] has an instance of each. *)
From S2P Require Import Prelude Errors Go.

(** ** Serialised struct fields ([serialize:"true"] tags)

    The linear codec walks the tagged fields of a struct in order; a struct is
    given to it as the list of its fields. *)
Inductive Field : Type :=
| FBool (b : bool)
| FU8 (z : Z)
| FU16 (z : Z)
| FU32 (z : Z)
| FU64 (z : Z)
| FI64 (z : Z)
| FBytes (l : bytes)
| FArray (l : bytes).

Inductive FieldType : Type :=
| TBool | TU8 | TU16 | TU32 | TU64 | TI64 | TBytes | TArray (n : nat).

(** A field value fits a field type. *)
Definition field_ok (t : FieldType) (f : Field) : Prop :=
  match t, f with
  | TBool, FBool _ => True
  | TU8, FU8 z => u8 z
  | TU16, FU16 z => u16 z
  | TU32, FU32 z => u32 z
  | TU64, FU64 z => u64 z
  | TI64, FI64 z => i64 z
  | TBytes, FBytes l => u32 (Z.of_nat (length l))
  | TArray n, FArray l => length l = n
  | _, _ => False
  end.

(** [wrappers.Packer] *)
Record Packer := { p_Bytes : bytes; p_MaxSize : Z }.

Class Platform : Type := {
  (* hypersdk/state/metadata *)
  DefaultMinimumPrefix : Z;
  (* avalanchego/utils/math *)
  smath_Add : Z -> Z -> Outcome Z;
  smath_Sub : Z -> Z -> Outcome Z;
  smath_Mul : Z -> Z -> Outcome Z;
  (* avalanchego/database *)
  ParseUInt64 : bytes -> Outcome Z;
  (* hypersdk/state: Permissions and its constants, [|], [Has] *)
  Permissions : Type;
  state_Read : Permissions;
  state_Write : Permissions;
  state_Allocate : Permissions;
  state_All : Permissions;
  perm_or : Permissions -> Permissions -> Permissions;
  perm_Has : Permissions -> Permissions -> bool;
  (* avalanchego/utils/wrappers and hypersdk/codec *)
  PackByte : Packer -> Z -> Packer;
  MarshalInto : list Field -> Packer -> Outcome unit * Packer;
  UnmarshalFrom : list FieldType -> bytes -> Outcome (list Field)
}.

Class PlatformSpec {PF : Platform} : Prop := {
  (* the prefix constants of storage.go are byte constants *)
  DefaultMinimumPrefix_range : 0 <= DefaultMinimumPrefix /\ DefaultMinimumPrefix + 20 < 256;
  smath_Add_spec a b : u64 a -> u64 b ->
    smath_Add a b = if a + b <? 2 ^ 64 then Ok (a + b) else Err smath_ErrOverflow;
  smath_Sub_spec a b : u64 a -> u64 b ->
    smath_Sub a b = if b <=? a then Ok (a - b) else Err smath_ErrUnderflow;
  smath_Mul_spec a b : u64 a -> u64 b ->
    smath_Mul a b = if a * b <? 2 ^ 64 then Ok (a * b) else Err smath_ErrOverflow;
  ParseUInt64_spec v : length v = 8%nat -> ParseUInt64 v = Ok (unbe v);
  ParseUInt64_length v n : ParseUInt64 v = Ok n -> length v = 8%nat;
  ParseUInt64_error v e : ParseUInt64 v = Err e -> e <> database_ErrNotFound;
  ParseUInt64_no_panic v : ParseUInt64 v <> Panic;
  Has_Read_Read : perm_Has state_Read state_Read = true;
  Has_Read_Write : perm_Has state_Read state_Write = false;
  Has_Read_Allocate : perm_Has state_Read state_Allocate = false;
  Has_RW_Read : perm_Has (perm_or state_Read state_Write) state_Read = true;
  Has_RW_Write : perm_Has (perm_or state_Read state_Write) state_Write = true;
  Has_RW_Allocate : perm_Has (perm_or state_Read state_Write) state_Allocate = false;
  Has_All p : In p [state_Read; state_Write; state_Allocate] -> perm_Has state_All p = true;
  PackByte_spec p b : Z.of_nat (length (p_Bytes p)) < p_MaxSize p ->
    PackByte p b = {| p_Bytes := p_Bytes p ++ [byte_of_Z b]; p_MaxSize := p_MaxSize p |};
  (* what MarshalInto appends is read back by UnmarshalFrom *)
  MarshalInto_roundtrip ts fs p p' : Forall2 field_ok ts fs ->
    MarshalInto fs p = (Ok tt, p') ->
    exists w, p_Bytes p' = p_Bytes p ++ w /\ UnmarshalFrom ts w = Ok fs
}.

(** ** The checked arithmetic, inverted *)

Section checked.
Context {PF : Platform} {PS : PlatformSpec}.

Lemma smath_Add_ok a b r : u64 a -> u64 b -> smath_Add a b = Ok r -> r = a + b /\ u64 r.
Proof.
  intros Ha Hb. rewrite smath_Add_spec by done. destruct (_ <? _) eqn:E; [|done].
  intros [= <-]. bool_simpl. unfold u64 in *. lia.
Qed.
Lemma smath_Sub_ok a b r : u64 a -> u64 b -> smath_Sub a b = Ok r -> r = a - b /\ u64 r.
Proof.
  intros Ha Hb. rewrite smath_Sub_spec by done. destruct (_ <=? _) eqn:E; [|done].
  intros [= <-]. bool_simpl. unfold u64 in *. lia.
Qed.
Lemma smath_Mul_ok a b r : u64 a -> u64 b -> smath_Mul a b = Ok r -> r = a * b /\ u64 r.
Proof.
  intros Ha Hb. rewrite smath_Mul_spec by done. destruct (_ <? _) eqn:E; [|done].
  intros [= <-]. bool_simpl. unfold u64 in *. nia.
Qed.
End checked.

Ltac smath_step :=
  match goal with
  | H : smath_Add _ _ = Ok _ |- _ =>
      let E := fresh "A" in let R := fresh "U" in
      apply smath_Add_ok in H; [destruct H as [E R] | u64_side | u64_side]
  | H : smath_Sub _ _ = Ok _ |- _ =>
      let E := fresh "A" in let R := fresh "U" in
      apply smath_Sub_ok in H; [destruct H as [E R] | u64_side | u64_side]
  | H : smath_Mul _ _ = Ok _ |- _ =>
      let E := fresh "A" in let R := fresh "U" in
      apply smath_Mul_ok in H; [destruct H as [E R] | u64_side | u64_side]
  end
with u64_side := first [assumption | unfold u64, u32, u16, u8 in *; lia].

(** ** [state.Mutable] *)

(** The number of 64-byte chunks a key allows its value: its last two bytes. *)
Definition key_chunks (k : bytes) : Z := unbe (drop (length k - 2) k).

Class Mutable (M : Type) : Type := {
  GetValue : M -> bytes -> Outcome bytes;
  Insert : M -> bytes -> bytes -> Outcome unit * M;
  Remove : M -> bytes -> Outcome unit * M
}.

(** A store has [contents]; an access fails without changing them, or has its
    effect. [granted] says that a key was declared with every permission: its
    accesses fail only when a value exceeds the chunks its key allows. *)
Class MutableSpec (M : Type) {MU : Mutable M} : Type := {
  contents : M -> gmap bytes bytes;
  granted : M -> bytes -> Prop;
  GetValue_sound m k :
    match GetValue m k with
    | Ok v => contents m !! k = Some v
    | Err e => e = database_ErrNotFound -> contents m !! k = None
    | Panic => False
    end;
  (* the errors of a store are its own *)
  GetValue_error m k e : GetValue m k = Err e ->
    e = database_ErrNotFound \/ exists c, e = ErrExternal c;
  Insert_sound m k v :
    match Insert m k v with
    | (Ok _, m') => contents m' = <[k := v]> (contents m)
    | (Err _, m') => contents m' = contents m
    | (Panic, _) => False
    end;
  Remove_sound m k :
    match Remove m k with
    | (Ok _, m') => contents m' = delete k (contents m)
    | (Err _, m') => contents m' = contents m
    | (Panic, _) => False
    end;
  granted_GetValue m k : granted m k ->
    GetValue m k =
      match contents m !! k with Some v => Ok v | None => Err database_ErrNotFound end;
  granted_Insert m k v : granted m k ->
    (Insert m k v).1 = Ok tt <-> Z.of_nat (length v) <= 64 * key_chunks k;
  granted_Remove m k : granted m k -> (Remove m k).1 = Ok tt;
  granted_after_Insert m k v k' : granted m k' -> granted (Insert m k v).2 k';
  granted_after_Remove m k k' : granted m k' -> granted (Remove m k).2 k'
}.

(** A store next to other state (the metrics of the process, the local variables
    of a handler) is accessed through its first component. *)
#[export] Instance Mutable_pair {M L : Type} {MU : Mutable M} : Mutable (M * L) :=
  {| GetValue s k := GetValue s.1 k;
     Insert s k v := let '(r, m) := Insert s.1 k v in (r, (m, s.2));
     Remove s k := let '(r, m) := Remove s.1 k in (r, (m, s.2)) |}.

#[export, refine] Instance MutableSpec_pair {M L : Type} {MU : Mutable M}
    {MS : MutableSpec M} : MutableSpec (M * L) :=
  {| contents s := contents s.1; granted s k := granted s.1 k |}.
Proof.
  - intros s k. apply (GetValue_sound s.1 k).
  - intros s k e. apply (GetValue_error s.1 k e).
  - intros s k v. cbn. pose proof (Insert_sound s.1 k v). by destruct (Insert s.1 k v).
  - intros s k. cbn. pose proof (Remove_sound s.1 k). by destruct (Remove s.1 k).
  - intros s k. apply (granted_GetValue s.1 k).
  - intros s k v G. cbn. pose proof (granted_Insert s.1 k v G). by destruct (Insert s.1 k v).
  - intros s k G. cbn. pose proof (granted_Remove s.1 k G). by destruct (Remove s.1 k).
  - intros s k v k' G. cbn. pose proof (granted_after_Insert s.1 k v k' G).
    by destruct (Insert s.1 k v).
  - intros s k k' G. cbn. pose proof (granted_after_Remove s.1 k k' G).
    by destruct (Remove s.1 k).
Defined.

(** ** Accesses as computations, and what a successful one means *)

Section access.
Context {M : Type} {MU : Mutable M}.

(** [v, err := mu.GetValue(ctx, k)] *)
Definition get_value (k : bytes) : ST M bytes := fun s => (GetValue s k, s).

(** The getters' opening lines: [ErrNotFound] becomes the getter's own error,
    other errors are returned. *)
Definition get_or (k : bytes) (miss : Error) : ST M bytes := fun s =>
  match GetValue s k with
  | Err e => (Err (if errors_Is e database_ErrNotFound then miss else e), s)
  | r => (r, s)
  end.

(** [mu.Insert(ctx, k, v)] *)
Definition put (k v : bytes) : ST M unit := fun s => Insert s k v.

(** [mu.Remove(ctx, k)] *)
Definition remove (k : bytes) : ST M unit := fun s => Remove s k.

Context {MS : MutableSpec M}.

Lemma get_value_ok k v s s' :
  get_value k s = (Ok v, s') -> s' = s /\ contents s !! k = Some v.
Proof.
  unfold get_value. intros [= E <-]. pose proof (GetValue_sound s k) as H.
  by rewrite E in H.
Qed.

Lemma get_or_ok k e v s s' :
  get_or k e s = (Ok v, s') -> s' = s /\ contents s !! k = Some v.
Proof.
  unfold get_or. pose proof (GetValue_sound s k) as H.
  destruct (GetValue s k); intros; by simplify_eq.
Qed.

Lemma get_or_state k e r s s' : get_or k e s = (r, s') -> s' = s.
Proof. unfold get_or. destruct (GetValue s k); congruence. Qed.

Lemma get_or_granted k e s :
  granted s k ->
  get_or k e s = (match contents s !! k with Some v => Ok v | None => Err e end, s).
Proof.
  intros G. unfold get_or. rewrite granted_GetValue by done.
  by destruct (contents s !! k).
Qed.

Lemma put_ok k v u s s' :
  put k v s = (Ok u, s') -> contents s' = <[k := v]> (contents s).
Proof. unfold put. pose proof (Insert_sound s k v) as H. by intros E; rewrite E in H. Qed.

Lemma remove_ok k u s s' :
  remove k s = (Ok u, s') -> contents s' = delete k (contents s).
Proof. unfold remove. pose proof (Remove_sound s k) as H. by intros E; rewrite E in H. Qed.

Lemma put_granted k v s :
  granted s k -> Z.of_nat (length v) <= 64 * key_chunks k ->
  exists s', put k v s = (Ok tt, s') /\ contents s' = <[k := v]> (contents s) /\
    forall k', granted s k' -> granted s' k'.
Proof.
  intros G Hl. unfold put. pose proof (Insert_sound s k v) as H.
  pose proof (granted_after_Insert s k v) as Hg.
  apply (granted_Insert s k v G) in Hl.
  destruct (Insert s k v) as [r s']; simpl in *; subst. eauto.
Qed.

Lemma remove_granted k s :
  granted s k ->
  exists s', remove k s = (Ok tt, s') /\ contents s' = delete k (contents s) /\
    forall k', granted s k' -> granted s' k'.
Proof.
  intros G. unfold remove. pose proof (Remove_sound s k) as H.
  pose proof (granted_after_Remove s k) as Hg.
  pose proof (granted_Remove s k G) as Hr.
  destruct (Remove s k) as [r s']; simpl in *; subst. eauto.
Qed.
End access.

(** ** Write footprints

    [writes_only P c]: whatever [c] returns, an error or a panic included, the
    keys outside [P] keep their value. *)

Definition writes_only {M A} {MU : Mutable M} {MS : MutableSpec M}
    (P : bytes -> Prop) (c : ST M A) : Prop :=
  forall s r s', c s = (r, s') -> forall k, ~ P k -> contents s' !! k = contents s !! k.

Section footprint.
Context {M : Type} {MU : Mutable M} {MS : MutableSpec M}.
Implicit Types (P : bytes -> Prop).

Lemma wo_ret {A} P (a : A) : writes_only P (ret (S := M) a).
Proof. by intros s r s' [= _ <-]. Qed.
Lemma wo_fail {A} P e : writes_only P (fail (S := M) (A := A) e).
Proof. by intros s r s' [= _ <-]. Qed.
Lemma wo_panic {A} P : writes_only P (panic (S := M) (A := A)).
Proof. by intros s r s' [= _ <-]. Qed.
Lemma wo_lift {A} P (o : Outcome A) : writes_only P (lift (S := M) o).
Proof. by intros s r s' [= _ <-]. Qed.
Lemma wo_fail_if P b e : writes_only P (fail_if (S := M) b e).
Proof. destruct b; [apply wo_fail | apply wo_ret]. Qed.
Lemma wo_get_value P k : writes_only P (get_value (M := M) k).
Proof. by intros s r s' [= _ <-]. Qed.
Lemma wo_get_or P k e : writes_only P (get_or (M := M) k e).
Proof. intros s r s' ->%get_or_state. done. Qed.

Lemma wo_put P k v : P k -> writes_only P (put (M := M) k v).
Proof.
  intros HP s r s' E k' Hk'. unfold put in E. pose proof (Insert_sound s k v) as H.
  rewrite E in H. destruct r; [| by rewrite H |done].
  rewrite H, lookup_insert_ne; [done|]. by intros ->.
Qed.

Lemma wo_remove P k : P k -> writes_only P (remove (M := M) k).
Proof.
  intros HP s r s' E k' Hk'. unfold remove in E. pose proof (Remove_sound s k) as H.
  rewrite E in H. destruct r; [| by rewrite H |done].
  rewrite H, lookup_delete_ne; [done|]. by intros ->.
Qed.

Lemma wo_bind {A B} P (c : ST M A) (k : A -> ST M B) :
  writes_only P c -> (forall a, writes_only P (k a)) -> writes_only P (bind c k).
Proof.
  intros Hc Hk s r s' E key HP. unfold bind in E.
  destruct (c s) as [[a|e|] s1] eqn:E1; [|simplify_eq; by eapply Hc..].
  rewrite (Hk a _ _ _ E key HP). by eapply Hc.
Qed.

Lemma wo_catch {A} P (c : ST M A) : writes_only P c -> writes_only P (catch c).
Proof.
  intros Hc s r s' E. unfold catch in E.
  destruct (c s) as [[a|e|] s1] eqn:E1; simplify_eq; by eapply Hc.
Qed.

Lemma wo_weaken {A} P Q (c : ST M A) :
  (forall k, P k -> Q k) -> writes_only P c -> writes_only Q c.
Proof. intros HPQ Hc s r s' E k Hk. eapply Hc; [done|]. naive_solver. Qed.
End footprint.

Create HintDb footprint.
#[export] Hint Resolve wo_ret wo_fail wo_panic wo_lift wo_fail_if wo_get_value wo_get_or
  wo_put wo_remove wo_bind wo_catch : footprint.

(** Footprint of a handler: walk its binds and its branches. *)
Ltac footprint_step :=
  match goal with
  | |- writes_only _ (bind _ _) => apply wo_bind; [|intros ?]
  | |- writes_only _ (match ?x with _ => _ end) => destruct x
  | |- writes_only _ (let '(_, _) := ?x in _) => destruct x
  | |- writes_only _ _ => solve [eauto with footprint]
  end.
Ltac footprint := repeat footprint_step.
