(* ===== verification/Sha256.v ===== *)
(** * SHA-256 ([crypto/sha256])

    An executable SHA-256 (FIPS 180-4) over the byte strings of the model, so
    that commitments, public-input digests and glyph entropy evaluate. The test
    vectors at the end are the published ones. *)
From S2P Require Import Prelude.

Definition word32 : Type := Z.

Definition add32 (a b : word32) : word32 := wrap_u32 (a + b).
Definition rotr32 (n : Z) (x : word32) : word32 :=
  Z.lor (Z.shiftr x n) (wrap_u32 (Z.shiftl x (32 - n))).
Definition not32 (x : word32) : word32 := Z.lxor x 0xffffffff.

Definition big_sigma0 (x : word32) : word32 :=
  Z.lxor (rotr32 2 x) (Z.lxor (rotr32 13 x) (rotr32 22 x)).
Definition big_sigma1 (x : word32) : word32 :=
  Z.lxor (rotr32 6 x) (Z.lxor (rotr32 11 x) (rotr32 25 x)).
Definition small_sigma0 (x : word32) : word32 :=
  Z.lxor (rotr32 7 x) (Z.lxor (rotr32 18 x) (Z.shiftr x 3)).
Definition small_sigma1 (x : word32) : word32 :=
  Z.lxor (rotr32 17 x) (Z.lxor (rotr32 19 x) (Z.shiftr x 10)).
Definition choose (e f g : word32) : word32 := Z.lxor (Z.land e f) (Z.land (not32 e) g).
Definition majority (a b c : word32) : word32 :=
  Z.lxor (Z.land a b) (Z.lxor (Z.land a c) (Z.land b c)).

(** The round constants, four to a row. *)
Definition round_constants : list word32 :=
  [1116352408; 1899447441; 3049323471; 3921009573;
   961987163; 1508970993; 2453635748; 2870763221;
   3624381080; 310598401; 607225278; 1426881987;
   1925078388; 2162078206; 2614888103; 3248222580;
   3835390401; 4022224774; 264347078; 604807628;
   770255983; 1249150122; 1555081692; 1996064986;
   2554220882; 2821834349; 2952996808; 3210313671;
   3336571891; 3584528711; 113926993; 338241895;
   666307205; 773529912; 1294757372; 1396182291;
   1695183700; 1986661051; 2177026350; 2456956037;
   2730485921; 2820302411; 3259730800; 3345764771;
   3516065817; 3600352804; 4094571909; 275423344;
   430227734; 506948616; 659060556; 883997877;
   958139571; 1322822218; 1537002063; 1747873779;
   1955562222; 2024104815; 2227730452; 2361852424;
   2428436474; 2756734187; 3204031479; 3329325298].

Record regs := Regs { ra : word32; rb : word32; rc : word32; rd : word32;
                      re : word32; rf : word32; rg : word32; rh : word32 }.

Definition initial_regs : regs :=
  Regs 1779033703 3144134277 1013904242 2773480762 1359893119 2600822924 528734635 1541459225.

(** Message padding: a one bit, zeros to 56 modulo 64, the length in bits. *)
Definition pad_zeros (n : nat) : nat := Z.to_nat ((55 - Z.of_nat n) mod 64).
Definition pad (msg : bytes) : bytes :=
  msg ++ [x80] ++ replicate (pad_zeros (length msg)) x00
      ++ be 8 (8 * Z.of_nat (length msg)).

Lemma pad_aligned msg : exists n, length (pad msg) = (64 * n)%nat.
Proof.
  unfold pad, pad_zeros. rewrite !length_app, length_replicate, length_be. cbn [length].
  set (k := Z.of_nat (length msg)).
  exists (Z.to_nat (1 - (55 - k) / 64)).
  pose proof (Z.mod_pos_bound (55 - k) 64 eq_refl).
  pose proof (Z.div_mod (55 - k) 64). lia.
Qed.

Fixpoint words (l : bytes) : list word32 :=
  match l with
  | a :: b :: c :: d :: r => unbe [a; b; c; d] :: words r
  | _ => []
  end.

(** The message schedule, newest word first. *)
Fixpoint extend (n : nat) (w : list word32) : list word32 :=
  match n with
  | O => w
  | S n' =>
      extend n' (add32 (add32 (small_sigma1 (nth 1 w 0)) (nth 6 w 0))
                       (add32 (small_sigma0 (nth 14 w 0)) (nth 15 w 0)) :: w)
  end.
Definition schedule (block : bytes) : list word32 := rev (extend 48 (rev (words block))).

Definition round (r : regs) (kw : word32 * word32) : regs :=
  let t1 := add32 (rh r) (add32 (big_sigma1 (re r))
              (add32 (choose (re r) (rf r) (rg r)) (add32 kw.1 kw.2))) in
  let t2 := add32 (big_sigma0 (ra r)) (majority (ra r) (rb r) (rc r)) in
  Regs (add32 t1 t2) (ra r) (rb r) (rc r) (add32 (rd r) t1) (re r) (rf r) (rg r).

Definition compress (h : regs) (block : bytes) : regs :=
  let r := foldl round h (zip round_constants (schedule block)) in
  Regs (add32 (ra h) (ra r)) (add32 (rb h) (rb r)) (add32 (rc h) (rc r)) (add32 (rd h) (rd r))
       (add32 (re h) (re r)) (add32 (rf h) (rf r)) (add32 (rg h) (rg r)) (add32 (rh h) (rh r)).

Fixpoint compress_blocks (n : nat) (h : regs) (l : bytes) : regs :=
  match n with
  | O => h
  | S n' => compress_blocks n' (compress h (take 64 l)) (drop 64 l)
  end.

Definition digest (h : regs) : bytes :=
  be 4 (ra h) ++ be 4 (rb h) ++ be 4 (rc h) ++ be 4 (rd h) ++
  be 4 (re h) ++ be 4 (rf h) ++ be 4 (rg h) ++ be 4 (rh h).

(** [sha256.Sum256] *)
Definition Sum256 (msg : bytes) : array 32 :=
  let p := pad msg in
  copy_array 32 (digest (compress_blocks (Nat.div (length p) 64) initial_regs p)).

Lemma Sum256_bytes msg :
  array_bytes (Sum256 msg) =
  digest (compress_blocks (Nat.div (length (pad msg)) 64) initial_regs (pad msg)).
Proof.
  unfold Sum256. apply copy_array_bytes. unfold digest. by rewrite !length_app, !length_be.
Qed.

Example Sum256_empty :
  unbe (Sum256 []) = 0xe3b0c44298fc1c149afbf4c8996fb92427ae41e4649b934ca495991b7852b855.
Proof. vm_compute. reflexivity. Qed.

Example Sum256_abc :
  unbe (Sum256 [x61; x62; x63])
  = 0xba7816bf8f01cfea414140de5dae2223b00361a396177a9cb410ff61f20015ad.
Proof. vm_compute. reflexivity. Qed.

Example Sum256_two_blocks :
  unbe (Sum256 (String.list_byte_of_string
                  "abcdbcdecdefdefgefghfghighijhijkijkljklmklmnlmnomnopnopq"))
  = 0x248d6a61d20638b8e5c026930c3e6039a33ce45964ff2167f6ecedd419db06c1.
Proof. vm_compute. reflexivity. Qed.
