(* ===== verification/Storage.v ===== *)
(** * Chain state layout ([storage/storage.go], [storage/balance_handler.go])

    The records of the chain state, their keys and encodings, the getters and
    setters, and the balance arithmetic. Records live in modules named after
    the Go types; [encode] is the byte image a setter stores and [parse] what
    the getter does with the bytes it reads. *)
From S2P Require Import Prelude Errors Go Platform.

(** [codec.Address], [ids.ID] and SHA-256 digests *)
Definition AddressLen : nat := 33.
Definition IDLen : nat := 32.
Abbreviation Address := (array 33).
Abbreviation ID := (array 32).
Abbreviation Hash := (array 32).

(** ** Prefixes and chunk limits *)

Section prefixes.
Context {PF : Platform}.

Definition prefix (i : Z) : byte := byte_of_Z (DefaultMinimumPrefix + i).

Definition balancePrefix := prefix 0.
Definition marketPrefix := prefix 1.
Definition commitmentPrefix := prefix 2.
Definition batchPrefix := prefix 3.
Definition oraclePrefix := prefix 4.
Definition treasuryConfigPrefix := prefix 5.
Definition treasuryStatePrefix := prefix 6.
Definition feeRouterConfigPrefix := prefix 7.
Definition feeRouterStatePrefix := prefix 8.
Definition vaiConfigPrefix := prefix 9.
Definition vaiStatePrefix := prefix 10.
Definition vaiBalancePrefix := prefix 11.
Definition poolPrefix := prefix 12.
Definition lpBalancePrefix := prefix 13.
Definition riskConfigPrefix := prefix 14.
Definition reserveStatePrefix := prefix 15.
Definition proofConfigPrefix := prefix 16.
Definition batchProofPrefix := prefix 17.
Definition vellumProofPrefix := prefix 18.
Definition bloodswornPrefix := prefix 19.
Definition glyphPrefix := prefix 20.
End prefixes.

Definition BalanceChunks : Z := 1.
Definition MarketChunks : Z := 8.
Definition CommitmentChunks : Z := 16.
Definition BatchChunks : Z := 4.
Definition OracleChunks : Z := 8.
Definition TreasuryConfigChunks : Z := 4.
Definition TreasuryStateChunks : Z := 4.
Definition FeeRouterConfigChunks : Z := 2.
Definition FeeRouterStateChunks : Z := 4.
Definition VAIConfigChunks : Z := 4.
Definition VAIStateChunks : Z := 4.
Definition VAIBalanceChunks : Z := 1.
Definition PoolChunks : Z := 4.
Definition LPBalanceChunks : Z := 1.
Definition RiskConfigChunks : Z := 4.
Definition ReserveStateChunks : Z := 4.
Definition ProofConfigChunks : Z := 4.
Definition BatchProofChunks : Z := 8.
Definition VellumProofChunks : Z := 128.
Definition BloodswornChunks : Z := 4.
Definition GlyphChunks : Z := 16.

Definition bipsDenominator : Z := 10000.
Definition maxVellumProofBytes : Z := 131072.

Definition MarketStatusActive : Z := 0.
Definition MarketStatusResolved : Z := 1.
Definition MarketStatusDisputed : Z := 2.

(* consts/zk.go *)
Definition ProofTypeGroth16 : Z := 1.
Definition ProofTypePlonk : Z := 2.

(** ** Keys *)

Definition sortedAssetPair (asset0 asset1 : Z) : Z * Z :=
  if asset0 <=? asset1 then (asset0, asset1) else (asset1, asset0).

Section keys.
Context {PF : Platform}.

Definition BalanceKey (addr : Address) : bytes :=
  balancePrefix :: addr ++ be 2 BalanceChunks.
Definition MarketKey (marketID : ID) : bytes :=
  marketPrefix :: marketID ++ be 2 MarketChunks.
Definition CommitmentKey (marketID : ID) (windowID : Z) (actor : Address) : bytes :=
  commitmentPrefix :: marketID ++ be 8 windowID ++ actor ++ be 2 CommitmentChunks.
Definition BatchKey (marketID : ID) (windowID : Z) : bytes :=
  batchPrefix :: marketID ++ be 8 windowID ++ be 2 BatchChunks.
Definition OracleKey (marketID : ID) (validatorIndex : Z) : bytes :=
  oraclePrefix :: marketID ++ be 4 validatorIndex ++ be 2 OracleChunks.
Definition DisputeKey (marketID : ID) : bytes := OracleKey marketID 0xFFFFFFFF.
Definition PoolKey (asset0 asset1 : Z) : bytes :=
  let '(a0, a1) := sortedAssetPair asset0 asset1 in
  poolPrefix :: be 1 a0 ++ be 1 a1 ++ be 2 PoolChunks.
Definition LPBalanceKey (asset0 asset1 : Z) (addr : Address) : bytes :=
  let '(a0, a1) := sortedAssetPair asset0 asset1 in
  lpBalancePrefix :: be 1 a0 ++ be 1 a1 ++ addr ++ be 2 LPBalanceChunks.

Definition singletonKey (pfx : byte) (chunks : Z) : bytes := pfx :: be 2 chunks.
Definition TreasuryConfigKey := singletonKey treasuryConfigPrefix TreasuryConfigChunks.
Definition TreasuryStateKey := singletonKey treasuryStatePrefix TreasuryStateChunks.
Definition FeeRouterConfigKey := singletonKey feeRouterConfigPrefix FeeRouterConfigChunks.
Definition FeeRouterStateKey := singletonKey feeRouterStatePrefix FeeRouterStateChunks.
Definition VAIConfigKey := singletonKey vaiConfigPrefix VAIConfigChunks.
Definition VAIStateKey := singletonKey vaiStatePrefix VAIStateChunks.
Definition RiskConfigKey := singletonKey riskConfigPrefix RiskConfigChunks.
Definition ReserveStateKey := singletonKey reserveStatePrefix ReserveStateChunks.
Definition ProofConfigKey := singletonKey proofConfigPrefix ProofConfigChunks.

Definition BatchProofKey (marketID : ID) (windowID : Z) : bytes :=
  batchProofPrefix :: marketID ++ be 8 windowID ++ be 2 BatchProofChunks.
Definition VellumProofKey (marketID : ID) (windowID : Z) : bytes :=
  vellumProofPrefix :: marketID ++ be 8 windowID ++ be 2 VellumProofChunks.
Definition BloodswornKey (addr : Address) : bytes :=
  bloodswornPrefix :: addr ++ be 2 BloodswornChunks.
Definition GlyphKey (marketID : ID) (windowID : Z) : bytes :=
  glyphPrefix :: marketID ++ be 8 windowID ++ be 2 GlyphChunks.
Definition VAIBalanceKey (addr : Address) : bytes :=
  vaiBalancePrefix :: addr ++ be 2 VAIBalanceChunks.
End keys.

(** ** Records, their encodings and parsers *)

Module Market.
Record t := mk { Status : Z; Outcomes : Z; ResolutionTime : Z; ResolvedOutcome : Z;
                 Question : bytes }.
Definition ok (m : t) : Prop :=
  u8 (Status m) /\ u8 (Outcomes m) /\ i64 (ResolutionTime m) /\ u8 (ResolvedOutcome m).
Definition encode (m : t) : bytes :=
  be 1 (Status m) ++ be 1 (Outcomes m) ++ be 8 (wrap_u64 (ResolutionTime m))
  ++ be 1 (ResolvedOutcome m) ++ Question m.
Definition parse (v : bytes) : Outcome t :=
  let? _ := guard (len v <? 11) (ErrMessage "invalid market data length: %d") in
  Ok (mk (uint_at 0 1 v) (uint_at 1 1 v) (int64_at 2 v) (uint_at 10 1 v) (drop 11 v)).
End Market.

Module Pool.
Record t := mk { Asset0 : Z; Asset1 : Z; FeeBips : Z; Reserve0 : Z; Reserve1 : Z;
                 TotalLP : Z }.
Definition ok (p : t) : Prop :=
  u8 (Asset0 p) /\ u8 (Asset1 p) /\ u16 (FeeBips p) /\
  u64 (Reserve0 p) /\ u64 (Reserve1 p) /\ u64 (TotalLP p).
Definition encode (p : t) : bytes :=
  let '(a0, a1) := sortedAssetPair (Asset0 p) (Asset1 p) in
  be 1 a0 ++ be 1 a1 ++ be 2 (FeeBips p) ++ be 8 (Reserve0 p) ++ be 8 (Reserve1 p)
  ++ be 8 (TotalLP p).
Definition parse (v : bytes) : Outcome t :=
  let? _ := guard (len v <? 28) (ErrMessage "invalid pool data length: %d") in
  Ok (mk (uint_at 0 1 v) (uint_at 1 1 v) (uint_at 2 2 v) (uint_at 4 8 v) (uint_at 12 8 v)
         (uint_at 20 8 v)).
End Pool.

Module TreasuryConfig.
Record t := mk { Governance : Address; Operations : Address; MaxReleaseBips : Z;
                 ReleaseEpochSeconds : Z }.
Definition ok (c : t) : Prop := u16 (MaxReleaseBips c) /\ i64 (ReleaseEpochSeconds c).
Definition encode (c : t) : bytes :=
  Governance c ++ Operations c ++ be 2 (MaxReleaseBips c)
  ++ be 8 (wrap_u64 (ReleaseEpochSeconds c)).
Definition parse (v : bytes) : Outcome t :=
  let? _ := guard (len v <? 76) ErrInvalidTokenomicsConfig in
  Ok (mk (copy_array 33 (slice 0 33 v)) (copy_array 33 (slice 33 33 v)) (uint_at 66 2 v)
         (int64_at 68 v)).
End TreasuryConfig.

Module TreasuryState.
Record t := mk { Locked : Z; Live : Z; Released : Z; LastReleaseUnix : Z }.
Definition ok (s : t) : Prop :=
  u64 (Locked s) /\ u64 (Live s) /\ u64 (Released s) /\ i64 (LastReleaseUnix s).
Definition encode (s : t) : bytes :=
  be 8 (Locked s) ++ be 8 (Live s) ++ be 8 (Released s)
  ++ be 8 (wrap_u64 (LastReleaseUnix s)).
Definition parse (v : bytes) : Outcome t :=
  let? _ := guard (len v <? 32) ErrInvalidTokenomicsConfig in
  Ok (mk (uint_at 0 8 v) (uint_at 8 8 v) (uint_at 16 8 v) (int64_at 24 v)).
End TreasuryState.

Module FeeRouterConfig.
Record t := mk { MSRBBips : Z; COLBips : Z; OpsBips : Z }.
Definition ok (c : t) : Prop :=
  u16 (MSRBBips c) /\ u16 (COLBips c) /\ u16 (OpsBips c) /\
  MSRBBips c + COLBips c + OpsBips c = bipsDenominator.
Definition encode (c : t) : bytes :=
  be 2 (MSRBBips c) ++ be 2 (COLBips c) ++ be 2 (OpsBips c).
Definition parse (v : bytes) : Outcome t :=
  let? _ := guard (len v <? 6) ErrInvalidFeeRouterConfig in
  let c := mk (uint_at 0 2 v) (uint_at 2 2 v) (uint_at 4 2 v) in
  let? _ := guard (negb (MSRBBips c + COLBips c + OpsBips c =? bipsDenominator))
                  ErrInvalidFeeRouterConfig in
  Ok c.
End FeeRouterConfig.

Module FeeRouterState.
Record t := mk { MSRBBudget : Z; COLBudget : Z; OpsBudget : Z }.
Definition ok (s : t) : Prop := u64 (MSRBBudget s) /\ u64 (COLBudget s) /\ u64 (OpsBudget s).
Definition encode (s : t) : bytes :=
  be 8 (MSRBBudget s) ++ be 8 (COLBudget s) ++ be 8 (OpsBudget s).
Definition parse (v : bytes) : Outcome t :=
  let? _ := guard (len v <? 24) ErrInvalidFeeRouterConfig in
  Ok (mk (uint_at 0 8 v) (uint_at 8 8 v) (uint_at 16 8 v)).
End FeeRouterState.

Module VAIConfig.
Record t := mk { MintAuthority : Address; DebtCeiling : Z; EpochMintLimit : Z;
                 MintEpochSeconds : Z }.
Definition ok (c : t) : Prop :=
  u64 (DebtCeiling c) /\ u64 (EpochMintLimit c) /\ i64 (MintEpochSeconds c).
Definition encode (c : t) : bytes :=
  MintAuthority c ++ be 8 (DebtCeiling c) ++ be 8 (EpochMintLimit c)
  ++ be 8 (wrap_u64 (MintEpochSeconds c)).
Definition parse (v : bytes) : Outcome t :=
  let? _ := guard (len v <? 57) ErrInvalidTokenomicsConfig in
  Ok (mk (copy_array 33 (slice 0 33 v)) (uint_at 33 8 v) (uint_at 41 8 v) (int64_at 49 v)).
End VAIConfig.

Module VAIState.
Record t := mk { TotalDebt : Z; EpochStartUnix : Z; EpochMinted : Z }.
Definition ok (s : t) : Prop :=
  u64 (TotalDebt s) /\ i64 (EpochStartUnix s) /\ u64 (EpochMinted s).
Definition encode (s : t) : bytes :=
  be 8 (TotalDebt s) ++ be 8 (wrap_u64 (EpochStartUnix s)) ++ be 8 (EpochMinted s).
Definition parse (v : bytes) : Outcome t :=
  let? _ := guard (len v <? 24) ErrInvalidTokenomicsConfig in
  Ok (mk (uint_at 0 8 v) (int64_at 8 v) (uint_at 16 8 v)).
End VAIState.

Module RiskConfig.
Record t := mk { BackingFloorBips : Z; VEILLtvBips : Z; WVEILLtvBips : Z;
                 WSVEILLtvBips : Z; VEILHaircutBips : Z; WVEILHaircutBips : Z;
                 WSVEILHaircutBips : Z }.
Definition in_range (c : t) : Prop :=
  u32 (BackingFloorBips c) /\ u16 (VEILLtvBips c) /\ u16 (WVEILLtvBips c) /\
  u16 (WSVEILLtvBips c) /\ u16 (VEILHaircutBips c) /\ u16 (WVEILHaircutBips c) /\
  u16 (WSVEILHaircutBips c).
Definition validateRiskConfig (c : t) : Outcome unit :=
  let? _ := guard (BackingFloorBips c =? 0) ErrInvalidRiskConfig in
  let? _ := guard ((bipsDenominator <? VEILLtvBips c) || (bipsDenominator <? WVEILLtvBips c)
                   || (bipsDenominator <? WSVEILLtvBips c)) ErrInvalidRiskConfig in
  let? _ := guard ((bipsDenominator <? VEILHaircutBips c)
                   || (bipsDenominator <? WVEILHaircutBips c)
                   || (bipsDenominator <? WSVEILHaircutBips c)) ErrInvalidRiskConfig in
  let? _ := guard (negb (WSVEILLtvBips c =? 0)) ErrInvalidRiskConfig in
  Ok tt.
Definition encode (c : t) : bytes :=
  be 4 (BackingFloorBips c) ++ be 2 (VEILLtvBips c) ++ be 2 (WVEILLtvBips c)
  ++ be 2 (WSVEILLtvBips c) ++ be 2 (VEILHaircutBips c) ++ be 2 (WVEILHaircutBips c)
  ++ be 2 (WSVEILHaircutBips c).
Definition parse (v : bytes) : Outcome t :=
  let? _ := guard (len v <? 16) ErrInvalidRiskConfig in
  let c := mk (uint_at 0 4 v) (uint_at 4 2 v) (uint_at 6 2 v) (uint_at 8 2 v)
              (uint_at 10 2 v) (uint_at 12 2 v) (uint_at 14 2 v) in
  let? _ := validateRiskConfig c in
  Ok c.
End RiskConfig.

Module ReserveState.
Record t := mk { ExogenousReserve : Z; VAIBuffer : Z }.
Definition ok (s : t) : Prop := u64 (ExogenousReserve s) /\ u64 (VAIBuffer s).
Definition encode (s : t) : bytes := be 8 (ExogenousReserve s) ++ be 8 (VAIBuffer s).
Definition parse (v : bytes) : Outcome t :=
  let? _ := guard (len v <? 16) ErrInvalidReserveState in
  Ok (mk (uint_at 0 8 v) (uint_at 8 8 v)).
End ReserveState.

Module ProofConfig.
Record t := mk { RequireProof : bool; RequiredProofType : Z; BatchWindowMs : Z;
                 ProofDeadlineMs : Z; ProverAuthority : Address }.
Definition in_range (c : t) : Prop :=
  u8 (RequiredProofType c) /\ i64 (BatchWindowMs c) /\ i64 (ProofDeadlineMs c).
Definition validateProofConfig (c : t) : Outcome unit :=
  let? _ := guard (negb (RequiredProofType c =? ProofTypeGroth16)
                   && negb (RequiredProofType c =? ProofTypePlonk)) ErrInvalidProofConfig in
  let? _ := guard ((BatchWindowMs c <=? 0) || (ProofDeadlineMs c <=? 0))
                  ErrInvalidProofConfig in
  let? _ := guard (bool_decide (ProverAuthority c = zero_array 33)) ErrInvalidProofConfig in
  Ok tt.
Definition encode (c : t) : bytes :=
  be 1 (if RequireProof c then 1 else 0) ++ be 1 (RequiredProofType c)
  ++ be 8 (wrap_u64 (BatchWindowMs c)) ++ be 8 (wrap_u64 (ProofDeadlineMs c))
  ++ ProverAuthority c.
Definition parse (v : bytes) : Outcome t :=
  let? _ := guard (len v <? 51) ErrInvalidProofConfig in
  let c := mk (uint_at 0 1 v =? 1) (uint_at 1 1 v) (int64_at 2 v) (int64_at 10 v)
              (copy_array 33 (drop 18 v)) in
  let? _ := validateProofConfig c in
  Ok c.
End ProofConfig.

Module BatchProofRecord.
Record t := mk { ProofType : Z; SubmittedAtMs : Z; WindowCloseAtMs : Z; Prover : Address;
                 ProofCommitment : Hash; PublicInputsHash : bytes; FillsHash : bytes }.
Definition maxPublicInputsHashLen : Z := 32.
Definition maxFillsHashLen : Z := 64.
Definition in_range (r : t) : Prop :=
  u8 (ProofType r) /\ i64 (SubmittedAtMs r) /\ i64 (WindowCloseAtMs r).
(** The checks of [PutBatchProofRecord]. *)
Definition check (r : t) : Outcome unit :=
  let? _ := guard ((len (PublicInputsHash r) =? 0)
                   || (maxPublicInputsHashLen <? len (PublicInputsHash r)))
                  ErrInvalidProofEnvelope in
  let? _ := guard ((len (FillsHash r) =? 0) || (maxFillsHashLen <? len (FillsHash r)))
                  ErrInvalidProofEnvelope in
  Ok tt.
Definition encode (r : t) : bytes :=
  be 1 (ProofType r) ++ be 8 (wrap_u64 (SubmittedAtMs r))
  ++ be 8 (wrap_u64 (WindowCloseAtMs r)) ++ Prover r ++ ProofCommitment r
  ++ be 2 (wrap_u16 (len (PublicInputsHash r))) ++ PublicInputsHash r
  ++ be 2 (wrap_u16 (len (FillsHash r))) ++ FillsHash r.
Definition parse (v : bytes) : Outcome t :=
  let? _ := guard (len v <? 86) ErrInvalidProofEnvelope in
  let? _ := guard (len (drop 82 v) <? 2) ErrInvalidProofEnvelope in
  let pihLen := uint_at 82 2 v in
  let? _ := guard ((pihLen <=? 0) || (maxPublicInputsHashLen <? pihLen)
                   || (len (drop 84 v) <? pihLen + 2)) ErrInvalidProofEnvelope in
  let offset := (84 + Z.to_nat pihLen)%nat in
  let fillsLen := uint_at offset 2 v in
  let? _ := guard ((fillsLen <=? 0) || (maxFillsHashLen <? fillsLen)
                   || (len (drop (offset + 2) v) <? fillsLen)) ErrInvalidProofEnvelope in
  Ok (mk (uint_at 0 1 v) (int64_at 1 v) (int64_at 9 v) (copy_array 33 (slice 17 33 v))
         (copy_array 32 (slice 50 32 v)) (slice 84 (Z.to_nat pihLen) v)
         (slice (offset + 2) (Z.to_nat fillsLen) v)).
End BatchProofRecord.

Module VellumProof.
Definition check (proof : bytes) : Outcome unit :=
  guard ((len proof =? 0) || (maxVellumProofBytes <? len proof)) ErrInvalidVellumProof.
Definition encode (proof : bytes) : bytes := be 4 (wrap_u32 (len proof)) ++ proof.
Definition parse (v : bytes) : Outcome bytes :=
  let? _ := guard (len v <? 4) ErrInvalidVellumProof in
  let proofLen := uint_at 0 4 v in
  let? _ := guard ((proofLen <=? 0) || (maxVellumProofBytes <? proofLen)
                   || negb (len v =? 4 + proofLen)) ErrInvalidVellumProof in
  Ok (drop 4 v).
End VellumProof.

Module Bloodsworn.
Record t := mk { TotalAcceptedProofs : Z; ActiveStreak : Z; LastProofAtMs : Z;
                 ScarCount : Z }.
Definition zero : t := mk 0 0 0 0.
Definition ok (b : t) : Prop :=
  u64 (TotalAcceptedProofs b) /\ u64 (ActiveStreak b) /\ i64 (LastProofAtMs b) /\
  u32 (ScarCount b).
Definition encode (b : t) : bytes :=
  be 8 (TotalAcceptedProofs b) ++ be 8 (ActiveStreak b)
  ++ be 8 (wrap_u64 (LastProofAtMs b)) ++ be 4 (ScarCount b).
Definition parse (v : bytes) : Outcome t :=
  let? _ := guard (len v <? 28) ErrInvalidBloodsworn in
  Ok (mk (uint_at 0 8 v) (uint_at 8 8 v) (int64_at 16 v) (uint_at 24 4 v)).
End Bloodsworn.

Module Glyph.
Record t := mk { Class : Z; Rarity : Z; CreatedAtMs : Z; Prover : Address;
                 ProofCommitment : Hash; PublicInputsHash : Hash; Entropy : Hash }.
Definition ok (g : t) : Prop := u8 (Class g) /\ u8 (Rarity g) /\ i64 (CreatedAtMs g).
(** The check of [PutGlyph]. *)
Definition check (g : t) : Outcome unit :=
  guard ((Class g =? 0) || (Rarity g =? 0) || (CreatedAtMs g <=? 0)) ErrInvalidGlyph.
Definition encode (g : t) : bytes :=
  be 1 (Class g) ++ be 1 (Rarity g) ++ be 8 (wrap_u64 (CreatedAtMs g)) ++ Prover g
  ++ ProofCommitment g ++ PublicInputsHash g ++ Entropy g.
Definition parse (v : bytes) : Outcome t :=
  let? _ := guard (len v <? 139) ErrInvalidGlyph in
  Ok (mk (uint_at 0 1 v) (uint_at 1 1 v) (int64_at 2 v) (copy_array 33 (slice 10 33 v))
         (copy_array 32 (slice 43 32 v)) (copy_array 32 (slice 75 32 v))
         (copy_array 32 (slice 107 32 v))).
End Glyph.

(** ** Getters and setters *)

(** [storage.ReadState] asked for one key: the value or the error at index 0. *)
Definition ReadState : Type := list bytes -> list bytes * list (option Error).

Definition read_one (f : ReadState) (k : bytes) : Outcome bytes :=
  match f [k] with
  | (v :: _, None :: _) => Ok v
  | (_, Some e :: _) => Err e
  | _ => Panic
  end.

(** [v := read(k)] with [ErrNotFound] mapped to the getter's own error. *)
Definition miss_as {A} (e : Error) (o : Outcome A) : Outcome A :=
  match o with
  | Err e' => Err (if errors_Is e' database_ErrNotFound then e else e')
  | r => r
  end.

Section state.
Context {PF : Platform} {M : Type} {MU : Mutable M}.

Definition get_parsed {A} (k : bytes) (miss : Error) (parse : bytes -> Outcome A) : ST M A :=
  let* v := get_or k miss in lift (parse v).

Definition PutMarket (marketID : ID) (m : Market.t) : ST M unit :=
  put (MarketKey marketID) (Market.encode m).
Definition GetMarket (marketID : ID) : ST M Market.t :=
  get_parsed (MarketKey marketID) ErrMarketNotFound Market.parse.
Definition GetMarketFromState (f : ReadState) (marketID : ID) : Outcome Market.t :=
  let? v := miss_as ErrMarketNotFound (read_one f (MarketKey marketID)) in Market.parse v.

Definition PutCommitment (marketID : ID) (windowID : Z) (actor : Address)
    (envelope commitment : bytes) : ST M unit :=
  put (CommitmentKey marketID windowID actor) (commitment ++ envelope).

Definition PutBatchResult (marketID : ID) (windowID clearPrice totalVolume : Z)
    (fillsHash : bytes) : ST M unit :=
  put (BatchKey marketID windowID) (be 8 clearPrice ++ be 8 totalVolume ++ fillsHash).

Definition PutDispute (marketID : ID) (bond : Z) (evidence : bytes) : ST M unit :=
  put (DisputeKey marketID) (be 8 bond ++ evidence).

Definition PutPool (pool : Pool.t) : ST M unit :=
  put (PoolKey (Pool.Asset0 pool) (Pool.Asset1 pool)) (Pool.encode pool).
Definition GetPool (asset0 asset1 : Z) : ST M Pool.t :=
  get_parsed (PoolKey asset0 asset1) ErrPoolNotFound Pool.parse.
Definition GetPoolFromState (f : ReadState) (asset0 asset1 : Z) : Outcome Pool.t :=
  let? v := miss_as ErrPoolNotFound (read_one f (PoolKey asset0 asset1)) in Pool.parse v.

Definition PutTreasuryConfig (cfg : TreasuryConfig.t) : ST M unit :=
  put TreasuryConfigKey (TreasuryConfig.encode cfg).
Definition GetTreasuryConfig : ST M TreasuryConfig.t :=
  get_parsed TreasuryConfigKey ErrInvalidTokenomicsConfig TreasuryConfig.parse.

Definition PutTreasuryState (s : TreasuryState.t) : ST M unit :=
  put TreasuryStateKey (TreasuryState.encode s).
Definition GetTreasuryState : ST M TreasuryState.t :=
  get_parsed TreasuryStateKey ErrInvalidTokenomicsConfig TreasuryState.parse.

Definition PutFeeRouterConfig (cfg : FeeRouterConfig.t) : ST M unit :=
  put FeeRouterConfigKey (FeeRouterConfig.encode cfg).
Definition GetFeeRouterConfig : ST M FeeRouterConfig.t :=
  get_parsed FeeRouterConfigKey ErrInvalidFeeRouterConfig FeeRouterConfig.parse.

Definition PutFeeRouterState (s : FeeRouterState.t) : ST M unit :=
  put FeeRouterStateKey (FeeRouterState.encode s).
Definition GetFeeRouterState : ST M FeeRouterState.t :=
  get_parsed FeeRouterStateKey ErrInvalidFeeRouterConfig FeeRouterState.parse.

Definition PutVAIConfig (cfg : VAIConfig.t) : ST M unit :=
  put VAIConfigKey (VAIConfig.encode cfg).
Definition GetVAIConfig : ST M VAIConfig.t :=
  get_parsed VAIConfigKey ErrInvalidTokenomicsConfig VAIConfig.parse.

Definition PutVAIState (s : VAIState.t) : ST M unit :=
  put VAIStateKey (VAIState.encode s).
Definition GetVAIState : ST M VAIState.t :=
  get_parsed VAIStateKey ErrInvalidTokenomicsConfig VAIState.parse.

Definition PutRiskConfig (cfg : RiskConfig.t) : ST M unit :=
  lift (RiskConfig.validateRiskConfig cfg) ;;;
  put RiskConfigKey (RiskConfig.encode cfg).
Definition GetRiskConfig : ST M RiskConfig.t :=
  get_parsed RiskConfigKey ErrInvalidRiskConfig RiskConfig.parse.

Definition PutReserveState (s : ReserveState.t) : ST M unit :=
  put ReserveStateKey (ReserveState.encode s).
Definition GetReserveState : ST M ReserveState.t :=
  get_parsed ReserveStateKey ErrInvalidReserveState ReserveState.parse.

Definition PutProofConfig (cfg : ProofConfig.t) : ST M unit :=
  lift (ProofConfig.validateProofConfig cfg) ;;;
  put ProofConfigKey (ProofConfig.encode cfg).
Definition GetProofConfig : ST M ProofConfig.t :=
  get_parsed ProofConfigKey ErrInvalidProofConfig ProofConfig.parse.

Definition PutBatchProofRecord (marketID : ID) (windowID : Z) (record : BatchProofRecord.t)
    : ST M unit :=
  lift (BatchProofRecord.check record) ;;;
  put (BatchProofKey marketID windowID) (BatchProofRecord.encode record).
Definition GetBatchProofRecord (marketID : ID) (windowID : Z) : ST M BatchProofRecord.t :=
  get_parsed (BatchProofKey marketID windowID) ErrProofNotFound BatchProofRecord.parse.

Definition PutVellumProof (marketID : ID) (windowID : Z) (proof : bytes) : ST M unit :=
  lift (VellumProof.check proof) ;;;
  put (VellumProofKey marketID windowID) (VellumProof.encode proof).
Definition GetVellumProof (marketID : ID) (windowID : Z) : ST M bytes :=
  get_parsed (VellumProofKey marketID windowID) ErrVellumProofNotFound VellumProof.parse.
Definition GetVellumProofFromState (f : ReadState) (marketID : ID) (windowID : Z)
    : Outcome bytes :=
  let? v := miss_as ErrVellumProofNotFound (read_one f (VellumProofKey marketID windowID)) in
  VellumProof.parse v.

Definition PutBloodsworn (addr : Address) (b : Bloodsworn.t) : ST M unit :=
  put (BloodswornKey addr) (Bloodsworn.encode b).
(** A missing record is the zero record, not an error. *)
Definition GetBloodsworn (addr : Address) : ST M Bloodsworn.t := fun s =>
  (match GetValue s (BloodswornKey addr) with
   | Ok v => Bloodsworn.parse v
   | Err e => if errors_Is e database_ErrNotFound then Ok Bloodsworn.zero else Err e
   | Panic => Panic
   end, s).
Definition GetBloodswornFromState (f : ReadState) (addr : Address) : Outcome Bloodsworn.t :=
  match read_one f (BloodswornKey addr) with
  | Ok v => Bloodsworn.parse v
  | Err e => if errors_Is e database_ErrNotFound then Ok Bloodsworn.zero else Err e
  | Panic => Panic
  end.

Definition PutGlyph (marketID : ID) (windowID : Z) (glyph : Glyph.t) : ST M unit :=
  lift (Glyph.check glyph) ;;;
  put (GlyphKey marketID windowID) (Glyph.encode glyph).
Definition GetGlyph (marketID : ID) (windowID : Z) : ST M Glyph.t :=
  get_parsed (GlyphKey marketID windowID) ErrGlyphNotFound Glyph.parse.
Definition GetGlyphFromState (f : ReadState) (marketID : ID) (windowID : Z)
    : Outcome Glyph.t :=
  let? v := miss_as ErrGlyphNotFound (read_one f (GlyphKey marketID windowID)) in
  Glyph.parse v.
End state.

(** ** Keys never collide

    [Slot] names every cell of the chain state; two slots share a key only when
    they are the same slot. The one cell with two names is the dispute record,
    which the source places at the oracle index [0xFFFFFFFF]. *)

Inductive Slot : Type :=
| SBalance (addr : Address) | SMarket (m : ID) | SCommitment (m : ID) (w : Z) (a : Address)
| SBatch (m : ID) (w : Z) | SOracle (m : ID) (idx : Z)
| STreasuryConfig | STreasuryState | SFeeRouterConfig | SFeeRouterState
| SVAIConfig | SVAIState | SVAIBalance (addr : Address) | SPool (a0 a1 : Z)
| SLPBalance (a0 a1 : Z) (addr : Address) | SRiskConfig | SReserveState | SProofConfig
| SBatchProof (m : ID) (w : Z) | SVellumProof (m : ID) (w : Z) | SBloodsworn (addr : Address)
| SGlyph (m : ID) (w : Z).

Definition slot_ok (s : Slot) : Prop :=
  match s with
  | SCommitment _ w _ | SBatch _ w | SBatchProof _ w | SVellumProof _ w | SGlyph _ w => u64 w
  | SOracle _ idx => u32 idx
  | SPool a0 a1 | SLPBalance a0 a1 _ => u8 a0 /\ u8 a1 /\ a0 <= a1
  | _ => True
  end.

Definition slot_key {PF : Platform} (s : Slot) : bytes :=
  match s with
  | SBalance a => BalanceKey a | SMarket m => MarketKey m
  | SCommitment m w a => CommitmentKey m w a | SBatch m w => BatchKey m w
  | SOracle m i => OracleKey m i
  | STreasuryConfig => TreasuryConfigKey | STreasuryState => TreasuryStateKey
  | SFeeRouterConfig => FeeRouterConfigKey | SFeeRouterState => FeeRouterStateKey
  | SVAIConfig => VAIConfigKey | SVAIState => VAIStateKey | SVAIBalance a => VAIBalanceKey a
  | SPool a0 a1 => PoolKey a0 a1 | SLPBalance a0 a1 a => LPBalanceKey a0 a1 a
  | SRiskConfig => RiskConfigKey | SReserveState => ReserveStateKey
  | SProofConfig => ProofConfigKey | SBatchProof m w => BatchProofKey m w
  | SVellumProof m w => VellumProofKey m w | SBloodsworn a => BloodswornKey a
  | SGlyph m w => GlyphKey m w
  end.

(** The index of the slot's prefix. *)
Definition slot_tag (s : Slot) : Z :=
  match s with
  | SBalance _ => 0 | SMarket _ => 1 | SCommitment _ _ _ => 2 | SBatch _ _ => 3
  | SOracle _ _ => 4 | STreasuryConfig => 5 | STreasuryState => 6 | SFeeRouterConfig => 7
  | SFeeRouterState => 8 | SVAIConfig => 9 | SVAIState => 10 | SVAIBalance _ => 11
  | SPool _ _ => 12 | SLPBalance _ _ _ => 13 | SRiskConfig => 14 | SReserveState => 15
  | SProofConfig => 16 | SBatchProof _ _ => 17 | SVellumProof _ _ => 18 | SBloodsworn _ => 19
  | SGlyph _ _ => 20
  end.

Lemma sortedAssetPair_sorted a b : a <= b -> sortedAssetPair a b = (a, b).
Proof. unfold sortedAssetPair. intros H%Z.leb_le. by rewrite H. Qed.

Lemma sortedAssetPair_comm a b : sortedAssetPair a b = sortedAssetPair b a.
Proof.
  unfold sortedAssetPair. destruct (a <=? b) eqn:E1, (b <=? a) eqn:E2; try done.
  - assert (a = b) as -> by lia. done.
  - lia.
Qed.

Lemma PoolKey_comm {PF : Platform} a b : PoolKey a b = PoolKey b a.
Proof. unfold PoolKey. by rewrite sortedAssetPair_comm. Qed.

Lemma slot_tag_range s : 0 <= slot_tag s <= 20.
Proof. destruct s; simpl; lia. Qed.

Lemma slot_key_head {PF : Platform} s : head (slot_key s) = Some (prefix (slot_tag s)).
Proof.
  destruct s; try reflexivity; simpl;
    [unfold PoolKey | unfold LPBalanceKey]; by destruct (sortedAssetPair a0 a1).
Qed.

Lemma prefix_inj {PF : Platform} {PS : PlatformSpec} i j :
  0 <= i <= 20 -> 0 <= j <= 20 -> prefix i = prefix j -> i = j.
Proof.
  intros Hi Hj Hp%(f_equal Z_of_byte). unfold prefix in Hp.
  pose proof DefaultMinimumPrefix_range.
  rewrite !Z_of_byte_of_Z, !Z.mod_small in Hp by lia. lia.
Qed.

Lemma slot_key_tag {PF : Platform} {PS : PlatformSpec} s1 s2 :
  slot_key s1 = slot_key s2 -> slot_tag s1 = slot_tag s2.
Proof.
  intros Hk%(f_equal head). rewrite !slot_key_head in Hk.
  apply prefix_inj; [apply slot_tag_range..|congruence].
Qed.

(** Two segments of the same known length can be compared separately. *)
Lemma array_app_inj {n} (a b : array n) (l l' : bytes) :
  array_bytes a ++ l = array_bytes b ++ l' -> a = b /\ l = l'.
Proof.
  intros H. apply app_inj_1 in H as [H ->]; [|by rewrite !length_array].
  split; [by apply array_eq | done].
Qed.

Lemma be_app_inj n a b (l l' : bytes) :
  0 <= a < 256 ^ Z.of_nat n -> 0 <= b < 256 ^ Z.of_nat n ->
  be n a ++ l = be n b ++ l' -> a = b /\ l = l'.
Proof.
  intros Ha Hb H. apply app_inj_1 in H as [H ->]; [|by rewrite !length_be].
  split; [by eapply be_inj | done].
Qed.

(** Take equalities of concatenated segments apart, left to right. *)
Ltac segs_inj :=
  repeat match goal with
  | E : array_bytes _ ++ _ = array_bytes _ ++ _ |- _ => apply array_app_inj in E; destruct E
  | E : be ?n _ ++ _ = be ?n _ ++ _ |- _ =>
      apply be_app_inj in E; [destruct E | assumption | assumption]
  end.

Lemma slot_key_inj {PF : Platform} {PS : PlatformSpec} s1 s2 :
  slot_ok s1 -> slot_ok s2 -> slot_key s1 = slot_key s2 -> s1 = s2.
Proof.
  intros Hs1 Hs2 Hk. pose proof (slot_key_tag _ _ Hk) as Ht.
  destruct s1, s2; try discriminate Ht; clear Ht; try reflexivity; simpl in Hs1, Hs2, Hk;
    cbv [BalanceKey MarketKey CommitmentKey BatchKey OracleKey PoolKey LPBalanceKey
         BatchProofKey VellumProofKey BloodswornKey GlyphKey VAIBalanceKey] in Hk;
    destruct_and?; rewrite ?sortedAssetPair_sorted in Hk by done;
    apply (f_equal tail) in Hk; cbn [tail] in Hk; segs_inj; by subst.
Qed.

(** Keys with different prefixes differ: [key_ne] proves it for two slots. *)
Lemma slot_key_ne {PF : Platform} {PS : PlatformSpec} s1 s2 :
  slot_tag s1 <> slot_tag s2 -> slot_key s1 <> slot_key s2.
Proof. intros Ht Hk. by apply slot_key_tag in Hk. Qed.

(** The slot of a key expression. *)
Ltac slot_of k :=
  lazymatch k with
  | BalanceKey ?a => constr:(SBalance a)
  | MarketKey ?m => constr:(SMarket m)
  | CommitmentKey ?m ?w ?a => constr:(SCommitment m w a)
  | BatchKey ?m ?w => constr:(SBatch m w)
  | OracleKey ?m ?i => constr:(SOracle m i)
  | DisputeKey ?m => constr:(SOracle m 0xFFFFFFFF)
  | TreasuryConfigKey => constr:(STreasuryConfig)
  | TreasuryStateKey => constr:(STreasuryState)
  | FeeRouterConfigKey => constr:(SFeeRouterConfig)
  | FeeRouterStateKey => constr:(SFeeRouterState)
  | VAIConfigKey => constr:(SVAIConfig)
  | VAIStateKey => constr:(SVAIState)
  | VAIBalanceKey ?a => constr:(SVAIBalance a)
  | PoolKey ?a ?b => constr:(SPool a b)
  | LPBalanceKey ?a ?b ?c => constr:(SLPBalance a b c)
  | RiskConfigKey => constr:(SRiskConfig)
  | ReserveStateKey => constr:(SReserveState)
  | ProofConfigKey => constr:(SProofConfig)
  | BatchProofKey ?m ?w => constr:(SBatchProof m w)
  | VellumProofKey ?m ?w => constr:(SVellumProof m w)
  | BloodswornKey ?a => constr:(SBloodsworn a)
  | GlyphKey ?m ?w => constr:(SGlyph m w)
  | slot_key ?s => constr:(s)
  end.

Ltac key_ne :=
  lazymatch goal with
  | |- ?k1 <> ?k2 =>
      let s1 := slot_of k1 in let s2 := slot_of k2 in
      apply (slot_key_ne s1 s2); discriminate
  end.

(** The chunk count each key carries in its last two bytes. *)
Definition slot_chunks (s : Slot) : Z :=
  match s with
  | SBalance _ => BalanceChunks | SMarket _ => MarketChunks
  | SCommitment _ _ _ => CommitmentChunks | SBatch _ _ => BatchChunks
  | SOracle _ _ => OracleChunks | STreasuryConfig => TreasuryConfigChunks
  | STreasuryState => TreasuryStateChunks | SFeeRouterConfig => FeeRouterConfigChunks
  | SFeeRouterState => FeeRouterStateChunks | SVAIConfig => VAIConfigChunks
  | SVAIState => VAIStateChunks | SVAIBalance _ => VAIBalanceChunks
  | SPool _ _ => PoolChunks | SLPBalance _ _ _ => LPBalanceChunks
  | SRiskConfig => RiskConfigChunks | SReserveState => ReserveStateChunks
  | SProofConfig => ProofConfigChunks | SBatchProof _ _ => BatchProofChunks
  | SVellumProof _ _ => VellumProofChunks | SBloodsworn _ => BloodswornChunks
  | SGlyph _ _ => GlyphChunks
  end.

Lemma key_chunks_be l c : u16 c -> key_chunks (l ++ be 2 c) = c.
Proof.
  intros Hc. unfold key_chunks. rewrite length_app, length_be, drop_app_length' by lia.
  by apply unbe_be_2.
Qed.

Lemma key_chunks_slot {PF : Platform} s : key_chunks (slot_key s) = slot_chunks s.
Proof.
  assert (E : exists l, slot_key s = l ++ be 2 (slot_chunks s)).
  { destruct s; cbn [slot_key slot_chunks];
      cbv [BalanceKey MarketKey CommitmentKey BatchKey OracleKey PoolKey LPBalanceKey
           BatchProofKey VellumProofKey BloodswornKey GlyphKey VAIBalanceKey];
      try destruct (sortedAssetPair _ _);
      first [ by eexists [_] | rewrite ?app_comm_cons, ?app_assoc; by eexists ]. }
  destruct E as [l ->]. apply key_chunks_be. destruct s; cbv; split; congruence.
Qed.

(** Evaluate the chunk count of a key. *)
Ltac chunks :=
  match goal with
  | |- context [key_chunks ?k] =>
      let s := slot_of k in
      let E := fresh in
      pose proof (key_chunks_slot s : key_chunks k = slot_chunks s) as E; rewrite E; clear E;
      cbn [slot_chunks]
  end.

(** ** Encodings round trip *)

(** A record type with the bytes it is stored as. [sc_valid] is the range of
    the Go field types, with the validation its setter performs. *)
Class StateCodec (A : Type) : Type := {
  sc_valid : A -> Prop;
  sc_encode : A -> bytes;
  sc_parse : bytes -> Outcome A;
  sc_roundtrip a : sc_valid a -> sc_parse (sc_encode a) = Ok a
}.

(** Reduce [parse (encode r)] for a record of fixed-size segments. *)
Ltac len_false :=
  match goal with
  | |- context [len ?v <? ?n] =>
      replace (len v <? n) with false
        by (symmetry; apply Z.ltb_ge; unfold len; autorewrite with lengths;
            rewrite ?length_drop; autorewrite with lengths; lia)
  end.
Ltac decode_fields :=
  rewrite ?unbe_be_1, ?unbe_be_2, ?unbe_be_4, ?unbe_be_8, ?wrap_i64_u64, ?copy_array_id
    by (assumption || apply wrap_u64_range).

Lemma Market_roundtrip m : Market.ok m -> Market.parse (Market.encode m) = Ok m.
Proof.
  intros (? & ? & ? & ?). unfold Market.parse, Market.encode. len_false. cbn [guard obind].
  slices. decode_fields. by destruct m.
Qed.

Lemma Pool_roundtrip p :
  Pool.ok p -> Pool.Asset0 p <= Pool.Asset1 p -> Pool.parse (Pool.encode p) = Ok p.
Proof.
  intros (? & ? & ? & ? & ? & ?) Hs. unfold Pool.parse, Pool.encode.
  rewrite sortedAssetPair_sorted by done. len_false. cbn [guard obind].
  slices. decode_fields. by destruct p.
Qed.

Lemma TreasuryConfig_roundtrip c :
  TreasuryConfig.ok c -> TreasuryConfig.parse (TreasuryConfig.encode c) = Ok c.
Proof.
  intros (? & ?). unfold TreasuryConfig.parse, TreasuryConfig.encode. len_false.
  cbn [guard obind]. slices. decode_fields. by destruct c.
Qed.

Lemma TreasuryState_roundtrip s :
  TreasuryState.ok s -> TreasuryState.parse (TreasuryState.encode s) = Ok s.
Proof.
  intros (? & ? & ? & ?). unfold TreasuryState.parse, TreasuryState.encode. len_false.
  cbn [guard obind]. slices. decode_fields. by destruct s.
Qed.

Lemma FeeRouterConfig_roundtrip c :
  FeeRouterConfig.ok c -> FeeRouterConfig.parse (FeeRouterConfig.encode c) = Ok c.
Proof.
  intros (? & ? & ? & Hsum). unfold FeeRouterConfig.parse, FeeRouterConfig.encode. len_false.
  cbn [guard obind]. slices. decode_fields. cbn.
  rewrite Hsum, Z.eqb_refl. by destruct c.
Qed.

Lemma FeeRouterState_roundtrip s :
  FeeRouterState.ok s -> FeeRouterState.parse (FeeRouterState.encode s) = Ok s.
Proof.
  intros (? & ? & ?). unfold FeeRouterState.parse, FeeRouterState.encode. len_false.
  cbn [guard obind]. slices. decode_fields. by destruct s.
Qed.

Lemma VAIConfig_roundtrip c : VAIConfig.ok c -> VAIConfig.parse (VAIConfig.encode c) = Ok c.
Proof.
  intros (? & ? & ?). unfold VAIConfig.parse, VAIConfig.encode. len_false.
  cbn [guard obind]. slices. decode_fields. by destruct c.
Qed.

Lemma VAIState_roundtrip s : VAIState.ok s -> VAIState.parse (VAIState.encode s) = Ok s.
Proof.
  intros (? & ? & ?). unfold VAIState.parse, VAIState.encode. len_false.
  cbn [guard obind]. slices. decode_fields. by destruct s.
Qed.

Lemma RiskConfig_roundtrip c :
  RiskConfig.in_range c -> RiskConfig.validateRiskConfig c = Ok tt ->
  RiskConfig.parse (RiskConfig.encode c) = Ok c.
Proof.
  intros (? & ? & ? & ? & ? & ? & ?) Hv. unfold RiskConfig.parse, RiskConfig.encode. len_false.
  cbn [guard obind]. slices. decode_fields. destruct c; cbn in *. by rewrite Hv.
Qed.

Lemma ReserveState_roundtrip s :
  ReserveState.ok s -> ReserveState.parse (ReserveState.encode s) = Ok s.
Proof.
  intros (? & ?). unfold ReserveState.parse, ReserveState.encode. len_false.
  cbn [guard obind]. slices. decode_fields. by destruct s.
Qed.

Lemma ProofConfig_roundtrip c :
  ProofConfig.in_range c -> ProofConfig.validateProofConfig c = Ok tt ->
  ProofConfig.parse (ProofConfig.encode c) = Ok c.
Proof.
  intros (? & ? & ?) Hv. unfold ProofConfig.parse, ProofConfig.encode. len_false.
  assert (u8 (if ProofConfig.RequireProof c then 1 else 0)) by (unfold u8; case_match; lia).
  cbn [guard obind]. slices. rewrite drop_0. decode_fields.
  destruct c as [[] ? ? ? ?]; cbn in *; by rewrite Hv.
Qed.

Lemma Bloodsworn_roundtrip b :
  Bloodsworn.ok b -> Bloodsworn.parse (Bloodsworn.encode b) = Ok b.
Proof.
  intros (? & ? & ? & ?). unfold Bloodsworn.parse, Bloodsworn.encode. len_false.
  cbn [guard obind]. slices. decode_fields. by destruct b.
Qed.

Lemma Glyph_roundtrip g : Glyph.ok g -> Glyph.parse (Glyph.encode g) = Ok g.
Proof.
  intros (? & ? & ?). unfold Glyph.parse, Glyph.encode. len_false.
  cbn [guard obind]. slices. decode_fields. by destruct g.
Qed.

Lemma VellumProof_roundtrip p :
  VellumProof.check p = Ok tt -> VellumProof.parse (VellumProof.encode p) = Ok p.
Proof.
  unfold VellumProof.check, VellumProof.parse, VellumProof.encode, maxVellumProofBytes.
  intros Hc%guard_ok. bool_simpl.
  assert (u32 (len p)) by (unfold u32, len in *; lia).
  rewrite wrap_u32_small by done. len_false. cbn [guard obind].
  assert (Hlen : len (be 4 (len p) ++ p) = 4 + len p)
    by (unfold len; autorewrite with lengths; lia).
  rewrite Hlen. slices. decode_fields. rewrite drop_0, Z.eqb_refl.
  replace (len p <=? 0) with false by (unfold len in *; lia).
  replace (131072 <? len p) with false by lia. done.
Qed.

(** A fixed header followed by two length-prefixed byte strings, as in
    [BatchProofRecord]: where each part is found. *)
Section two_strings.
Context (h : nat) (hdr p f : bytes).
Context (Hh : length hdr = h) (Hp : u16 (len p)) (Hf : u16 (len f)).
Let v := hdr ++ be 2 (len p) ++ p ++ be 2 (len f) ++ f.

Lemma two_strings_plen : uint_at h 2 v = len p.
Proof.
  unfold uint_at, v. rewrite slice_app_skip by done.
  rewrite take_app_length' by (by rewrite length_be). by apply unbe_be_2.
Qed.

Lemma two_strings_p : slice (h + 2) (length p) v = p.
Proof.
  unfold v. rewrite app_assoc, slice_app_skip by (autorewrite with lengths; lia).
  by rewrite take_app_length.
Qed.

Lemma two_strings_rest : drop (h + 2) v = p ++ be 2 (len f) ++ f.
Proof.
  unfold v. rewrite app_assoc. apply drop_app_length'. autorewrite with lengths. lia.
Qed.

Lemma two_strings_flen : uint_at (h + 2 + length p) 2 v = len f.
Proof.
  unfold uint_at, v. rewrite (app_assoc hdr), (app_assoc _ p).
  rewrite slice_app_skip by (autorewrite with lengths; lia).
  rewrite take_app_length' by (by rewrite length_be). by apply unbe_be_2.
Qed.

Lemma two_strings_f_rest : drop (h + 2 + length p + 2) v = f.
Proof.
  unfold v. rewrite (app_assoc hdr), (app_assoc _ p), (app_assoc _ (be 2 (len f))).
  apply drop_app_length'. autorewrite with lengths. lia.
Qed.

Lemma two_strings_f : slice (h + 2 + length p + 2) (length f) v = f.
Proof. unfold slice. by rewrite two_strings_f_rest, firstn_all. Qed.
End two_strings.

Lemma BatchProofRecord_roundtrip r :
  BatchProofRecord.in_range r -> BatchProofRecord.check r = Ok tt ->
  BatchProofRecord.parse (BatchProofRecord.encode r) = Ok r.
Proof.
  intros (? & ? & ?) Hc. unfold BatchProofRecord.check in Hc. go_inv.
  destruct r as [ty sub wc prover commit pih fh]; cbn in *.
  unfold BatchProofRecord.maxPublicInputsHashLen, BatchProofRecord.maxFillsHashLen in *.
  assert (u16 (len pih)) by (unfold u16, len in *; lia).
  assert (u16 (len fh)) by (unfold u16, len in *; lia).
  unfold BatchProofRecord.parse, BatchProofRecord.encode; cbn -[Nat.add].
  rewrite !wrap_u16_small by done. len_false; cbn -[Nat.add].
  set (hdr := be 1 ty ++ be 8 (wrap_u64 sub) ++ be 8 (wrap_u64 wc) ++ prover ++ commit).
  replace (be 1 ty ++ _) with (hdr ++ be 2 (len pih) ++ pih ++ be 2 (len fh) ++ fh)
    by (unfold hdr; by rewrite <-!app_assoc).
  assert (Hh : length hdr = 82%nat) by (unfold hdr; by autorewrite with lengths).
  set (v := hdr ++ _).
  assert (Hv : forall off n, (off + n <= 82)%nat -> slice off n v = slice off n hdr).
  { intros off n Hn. unfold v, slice. rewrite drop_app_le, take_app_le; [done| |]; 
    rewrite ?length_drop; lia. }
  pose proof (two_strings_plen 82 hdr pih fh Hh) as E1.
  pose proof (two_strings_p 82 hdr pih fh Hh) as E2.
  pose proof (two_strings_rest 82 hdr pih fh Hh) as E3.
  pose proof (two_strings_flen 82 hdr pih fh Hh) as E4.
  pose proof (two_strings_f_rest 82 hdr pih fh Hh) as E5.
  pose proof (two_strings_f 82 hdr pih fh Hh) as E6.
  fold v in E1, E2, E3, E4, E5, E6. cbn [Nat.add] in E1, E2, E3.
  specialize (E1 ltac:(done)). specialize (E4 ltac:(done)).
  assert (E0 : (len (drop 82 v) <? 2) = false).
  { apply Z.ltb_ge. unfold v. rewrite drop_app_length' by done. unfold len.
    autorewrite with lengths. clear. lia. }
  assert (Hn : Z.to_nat (len pih) = length pih) by (unfold len; lia).
  assert (Hn' : Z.to_nat (len fh) = length fh) by (unfold len; lia).
  rewrite E0, E1, E3, Hn. change (84 + length pih)%nat with (82 + 2 + length pih)%nat.
  rewrite E4, E5, E2, Hn', E6. cbn [guard obind].
  unfold int64_at, uint_at. rewrite !Hv by lia. clear Hv E0 E1 E2 E3 E4 E5 E6 v.
  unfold BatchProofRecord.maxPublicInputsHashLen, BatchProofRecord.maxFillsHashLen.
  rewrite !guard_false.
  - cbn [obind]. unfold hdr. slices. decode_fields. done.
  - unfold len in *. lia.
  - assert (len (pih ++ be 2 (len fh) ++ fh) = len pih + 2 + len fh) as ->
      by (unfold len; autorewrite with lengths; lia).
    unfold len in *. lia.
Qed.

#[export, refine] Instance Market_codec : StateCodec Market.t :=
  {| sc_valid := Market.ok; sc_encode := Market.encode; sc_parse := Market.parse |}.
Proof. exact Market_roundtrip. Defined.

#[export, refine] Instance Pool_codec : StateCodec Pool.t :=
  {| sc_valid p := Pool.ok p /\ Pool.Asset0 p <= Pool.Asset1 p;
     sc_encode := Pool.encode; sc_parse := Pool.parse |}.
Proof. intros p []. by apply Pool_roundtrip. Defined.

#[export, refine] Instance TreasuryConfig_codec : StateCodec TreasuryConfig.t :=
  {| sc_valid := TreasuryConfig.ok; sc_encode := TreasuryConfig.encode;
     sc_parse := TreasuryConfig.parse |}.
Proof. exact TreasuryConfig_roundtrip. Defined.

#[export, refine] Instance TreasuryState_codec : StateCodec TreasuryState.t :=
  {| sc_valid := TreasuryState.ok; sc_encode := TreasuryState.encode;
     sc_parse := TreasuryState.parse |}.
Proof. exact TreasuryState_roundtrip. Defined.

#[export, refine] Instance FeeRouterConfig_codec : StateCodec FeeRouterConfig.t :=
  {| sc_valid := FeeRouterConfig.ok; sc_encode := FeeRouterConfig.encode;
     sc_parse := FeeRouterConfig.parse |}.
Proof. exact FeeRouterConfig_roundtrip. Defined.

#[export, refine] Instance FeeRouterState_codec : StateCodec FeeRouterState.t :=
  {| sc_valid := FeeRouterState.ok; sc_encode := FeeRouterState.encode;
     sc_parse := FeeRouterState.parse |}.
Proof. exact FeeRouterState_roundtrip. Defined.

#[export, refine] Instance VAIConfig_codec : StateCodec VAIConfig.t :=
  {| sc_valid := VAIConfig.ok; sc_encode := VAIConfig.encode; sc_parse := VAIConfig.parse |}.
Proof. exact VAIConfig_roundtrip. Defined.

#[export, refine] Instance VAIState_codec : StateCodec VAIState.t :=
  {| sc_valid := VAIState.ok; sc_encode := VAIState.encode; sc_parse := VAIState.parse |}.
Proof. exact VAIState_roundtrip. Defined.

#[export, refine] Instance RiskConfig_codec : StateCodec RiskConfig.t :=
  {| sc_valid c := RiskConfig.in_range c /\ RiskConfig.validateRiskConfig c = Ok tt;
     sc_encode := RiskConfig.encode; sc_parse := RiskConfig.parse |}.
Proof. intros c []. by apply RiskConfig_roundtrip. Defined.

#[export, refine] Instance ReserveState_codec : StateCodec ReserveState.t :=
  {| sc_valid := ReserveState.ok; sc_encode := ReserveState.encode;
     sc_parse := ReserveState.parse |}.
Proof. exact ReserveState_roundtrip. Defined.

#[export, refine] Instance ProofConfig_codec : StateCodec ProofConfig.t :=
  {| sc_valid c := ProofConfig.in_range c /\ ProofConfig.validateProofConfig c = Ok tt;
     sc_encode := ProofConfig.encode; sc_parse := ProofConfig.parse |}.
Proof. intros c []. by apply ProofConfig_roundtrip. Defined.

#[export, refine] Instance BatchProofRecord_codec : StateCodec BatchProofRecord.t :=
  {| sc_valid r := BatchProofRecord.in_range r /\ BatchProofRecord.check r = Ok tt;
     sc_encode := BatchProofRecord.encode; sc_parse := BatchProofRecord.parse |}.
Proof. intros r []. by apply BatchProofRecord_roundtrip. Defined.

#[export, refine] Instance Bloodsworn_codec : StateCodec Bloodsworn.t :=
  {| sc_valid := Bloodsworn.ok; sc_encode := Bloodsworn.encode; sc_parse := Bloodsworn.parse |}.
Proof. exact Bloodsworn_roundtrip. Defined.

#[export, refine] Instance Glyph_codec : StateCodec Glyph.t :=
  {| sc_valid := Glyph.ok; sc_encode := Glyph.encode; sc_parse := Glyph.parse |}.
Proof. exact Glyph_roundtrip. Defined.

(** ** What the getters and setters do to the contents *)

(** The record stored at [k], when there is one that parses. *)
Definition stored {A} (parse : bytes -> Outcome A) (m : gmap bytes bytes) (k : bytes)
    : option A :=
  match m !! k with
  | Some v => match parse v with Ok a => Some a | _ => None end
  | None => None
  end.

Lemma stored_insert_eq {A} (parse : bytes -> Outcome A) m k v a :
  parse v = Ok a -> stored parse (<[k := v]> m) k = Some a.
Proof. intros Hv. unfold stored. by rewrite lookup_insert_eq, Hv. Qed.

Lemma stored_insert_codec `{!StateCodec A} m k (a : A) :
  sc_valid a -> stored sc_parse (<[k := sc_encode a]> m) k = Some a.
Proof. intros Hv. by apply stored_insert_eq, sc_roundtrip. Qed.

(** Read back the record that was just written. *)
Ltac stored_put :=
  match goal with
  | |- context [stored ?f (<[?k := ?e ?a]> ?m) ?k] =>
      let E := constr:(stored_insert_codec m k a) in
      rewrite (E : sc_valid a -> stored f (<[k := e a]> m) k = Some a)
  end.

Lemma stored_insert_ne {A} (parse : bytes -> Outcome A) m k k' v :
  k <> k' -> stored parse (<[k := v]> m) k' = stored parse m k'.
Proof. intros Hk. unfold stored. by rewrite lookup_insert_ne. Qed.

Lemma stored_delete_ne {A} (parse : bytes -> Outcome A) m k k' :
  k <> k' -> stored parse (delete k m) k' = stored parse m k'.
Proof. intros Hk. unfold stored. by rewrite lookup_delete_ne. Qed.

Section getters.
Context {M : Type} {MU : Mutable M} {MS : MutableSpec M}.

Lemma get_parsed_ok {A} k e (parse : bytes -> Outcome A) a (s s' : M) :
  get_parsed k e parse s = (Ok a, s') -> s' = s /\ stored parse (contents s) k = Some a.
Proof.
  unfold get_parsed. intros H. go_inv. apply get_or_ok in E as [-> E].
  unfold stored. by rewrite E, L.
Qed.

Lemma get_parsed_state {A} k e (parse : bytes -> Outcome A) r (s s' : M) :
  get_parsed k e parse s = (r, s') -> s' = s.
Proof.
  unfold get_parsed, bind. destruct (get_or k e s) as [[] s1] eqn:E;
    apply get_or_state in E; subst; unfold lift; intros; by simplify_eq.
Qed.

Lemma get_parsed_granted {A} k e (parse : bytes -> Outcome A) a (s : M) :
  granted s k -> stored parse (contents s) k = Some a ->
  get_parsed k e parse s = (Ok a, s).
Proof.
  intros G Hs. unfold get_parsed, bind. rewrite get_or_granted by done.
  unfold stored in Hs. destruct (contents s !! k); [|done].
  unfold lift. destruct (parse l); congruence.
Qed.

Lemma get_parsed_missing {A} k e (parse : bytes -> Outcome A) (s : M) :
  granted s k -> contents s !! k = None -> get_parsed k e parse s = (Err e, s).
Proof.
  intros G Hs. unfold get_parsed, bind. by rewrite get_or_granted, Hs by done.
Qed.

(** The getter's own error means that the cell is missing. *)
Lemma get_parsed_missed {A} k e (parse : bytes -> Outcome A) (s s' : M) :
  (forall v, parse v <> Err e) -> (forall c, e <> ErrExternal c) ->
  get_parsed k e parse s = (Err e, s') -> s' = s /\ contents s !! k = None.
Proof.
  intros Hp Hx H. pose proof (get_parsed_state _ _ _ _ _ _ H) as ->. split; [done|].
  unfold get_parsed, bind, get_or in H.
  pose proof (GetValue_sound s k) as Hg. pose proof (GetValue_error s k) as Hge.
  destruct (GetValue s k) as [v|e'|]; [by injection H as ?%Hp| |done].
  unfold errors_Is in H. destruct (Hge e' eq_refl) as [->|[c ->]]; [by apply Hg|].
  cbn in H. injection H as <-. by destruct (Hx c).
Qed.

(** A record that was stored is the record that is read back. *)
Lemma put_then_get `{!StateCodec A} k e (a : A) u (s s' : M) :
  sc_valid a -> granted s' k -> put k (sc_encode a) s = (Ok u, s') ->
  get_parsed k e sc_parse s' = (Ok a, s').
Proof.
  intros Hv G Hp%put_ok. apply get_parsed_granted; [done|].
  rewrite Hp. by apply stored_insert_codec.
Qed.

Lemma wo_get_parsed {A} P k e (parse : bytes -> Outcome A) :
  writes_only P (get_parsed (M := M) k e parse).
Proof. unfold get_parsed. footprint. Qed.
End getters.
#[export] Hint Resolve wo_get_parsed : footprint.

(** ** Every parsed record is in the range of its Go type *)

Section parse_range.
Local Ltac range := unfold int64_at;
  repeat split; try apply uint_at_2_range; try apply uint_at_4_range;
  try apply uint_at_8_range; try apply wrap_i64_range; try apply (uint_at_range _ 1).

Lemma Market_parse_ok v m : Market.parse v = Ok m -> Market.ok m.
Proof. unfold Market.parse. intros H. go_inv. range. Qed.
Lemma Pool_parse_ok v p : Pool.parse v = Ok p -> Pool.ok p.
Proof. unfold Pool.parse. intros H. go_inv. range. Qed.
Lemma TreasuryState_parse_ok v s : TreasuryState.parse v = Ok s -> TreasuryState.ok s.
Proof. unfold TreasuryState.parse. intros H. go_inv. range. Qed.
Lemma TreasuryConfig_parse_ok v c : TreasuryConfig.parse v = Ok c -> TreasuryConfig.ok c.
Proof. unfold TreasuryConfig.parse. intros H. go_inv. range. Qed.
Lemma FeeRouterConfig_parse_ok v c : FeeRouterConfig.parse v = Ok c -> FeeRouterConfig.ok c.
Proof. unfold FeeRouterConfig.parse. intros H. go_inv. range. done. Qed.
Lemma FeeRouterState_parse_ok v s : FeeRouterState.parse v = Ok s -> FeeRouterState.ok s.
Proof. unfold FeeRouterState.parse. intros H. go_inv. range. Qed.
Lemma VAIConfig_parse_ok v c : VAIConfig.parse v = Ok c -> VAIConfig.ok c.
Proof. unfold VAIConfig.parse. intros H. go_inv. range. Qed.
Lemma VAIState_parse_ok v s : VAIState.parse v = Ok s -> VAIState.ok s.
Proof. unfold VAIState.parse. intros H. go_inv. range. Qed.
Lemma RiskConfig_parse_ok v c :
  RiskConfig.parse v = Ok c -> RiskConfig.in_range c /\ RiskConfig.validateRiskConfig c = Ok tt.
Proof.
  unfold RiskConfig.parse. intros H. go_inv. split; [range|].
  unfold RiskConfig.validateRiskConfig in *. by destruct r0.
Qed.
Lemma Bloodsworn_parse_ok v b : Bloodsworn.parse v = Ok b -> Bloodsworn.ok b.
Proof. unfold Bloodsworn.parse. intros H. go_inv. range. Qed.
Lemma ReserveState_parse_ok v s : ReserveState.parse v = Ok s -> ReserveState.ok s.
Proof. unfold ReserveState.parse. intros H. go_inv. range. Qed.
Lemma ProofConfig_parse_ok v c :
  ProofConfig.parse v = Ok c ->
  ProofConfig.in_range c /\ ProofConfig.validateProofConfig c = Ok tt.
Proof.
  unfold ProofConfig.parse. intros H. go_inv. split; [range|]. by destruct r0.
Qed.
End parse_range.

(** What is [stored] is in range. *)
Lemma stored_ok {A} (parse : bytes -> Outcome A) (P : A -> Prop) m k a :
  (forall v a, parse v = Ok a -> P a) -> stored parse m k = Some a -> P a.
Proof.
  unfold stored. intros HP Hs. destruct (m !! k); [|done].
  destruct (parse l) eqn:E; simplify_eq. eauto.
Qed.
