(* ===== verification/Concrete.v ===== *)
(** * A concrete platform and store

    One instance of each interface of [Platform.v], to evaluate the model on
    concrete inputs and to show that the specifications are inhabited: exact
    checked arithmetic, permission bits, a length-prefixed codec, and a store
    that is a finite map with every key granted. *)
From S2P Require Import Prelude Errors Go Platform Storage.

(** ** The codec: fixed-width big-endian integers, 4-byte length prefixes *)

Definition enc_field (f : Field) : bytes :=
  match f with
  | FBool b => be 1 (if b then 1 else 0)
  | FU8 z => be 1 z
  | FU16 z => be 2 z
  | FU32 z => be 4 z
  | FU64 z => be 8 z
  | FI64 z => be 8 (wrap_u64 z)
  | FBytes l => be 4 (len l) ++ l
  | FArray l => l
  end.

(** Read [n] bytes, or fail. *)
Definition take_bytes (n : nat) (v : bytes) : Outcome (bytes * bytes) :=
  if (length v <? n)%nat then Err (ErrExternal 1) else Ok (take n v, drop n v).

Definition dec_field (t : FieldType) (v : bytes) : Outcome (Field * bytes) :=
  let fixed n (k : bytes -> Field) := let? (w, r) := take_bytes n v in Ok (k w, r) in
  match t with
  | TBool => fixed 1%nat (fun w => FBool (unbe w =? 1))
  | TU8 => fixed 1%nat (fun w => FU8 (unbe w))
  | TU16 => fixed 2%nat (fun w => FU16 (unbe w))
  | TU32 => fixed 4%nat (fun w => FU32 (unbe w))
  | TU64 => fixed 8%nat (fun w => FU64 (unbe w))
  | TI64 => fixed 8%nat (fun w => FI64 (wrap_i64 (unbe w)))
  | TArray n => fixed n FArray
  | TBytes => let? (h, r) := take_bytes 4 v in
              let? (w, r') := take_bytes (Z.to_nat (unbe h)) r in Ok (FBytes w, r')
  end.

Fixpoint dec_fields (ts : list FieldType) (v : bytes) : Outcome (list Field) :=
  match ts with
  | [] => Ok []
  | t :: ts' => let? (f, r) := dec_field t v in let? fs := dec_fields ts' r in Ok (f :: fs)
  end.

Definition enc_fields (fs : list Field) : bytes := concat (map enc_field fs).

Definition parse_uint64 (v : bytes) : Outcome Z :=
  if bool_decide (length v = 8%nat) then Ok (unbe v) else Err (ErrExternal 2).

#[export] Instance platform : Platform :=
  {| DefaultMinimumPrefix := 3;
     smath_Add a b := if a + b <? 2 ^ 64 then Ok (a + b) else Err smath_ErrOverflow;
     smath_Sub a b := if b <=? a then Ok (a - b) else Err smath_ErrUnderflow;
     smath_Mul a b := if a * b <? 2 ^ 64 then Ok (a * b) else Err smath_ErrOverflow;
     ParseUInt64 := parse_uint64;
     Permissions := Z;
     state_Read := 1;
     state_Allocate := 3;
     state_Write := 5;
     state_All := 7;
     perm_or := Z.lor;
     perm_Has p q := Z.land p q =? q;
     PackByte p b :=
       if len (p_Bytes p) <? p_MaxSize p
       then {| p_Bytes := p_Bytes p ++ [byte_of_Z b]; p_MaxSize := p_MaxSize p |} else p;
     MarshalInto fs p :=
       let v := p_Bytes p ++ enc_fields fs in
       if len v <=? p_MaxSize p
       then (Ok tt, {| p_Bytes := v; p_MaxSize := p_MaxSize p |})
       else (Err (ErrExternal 3), p);
     UnmarshalFrom := dec_fields |}.

Lemma take_bytes_app n v r : length v = n -> take_bytes n (v ++ r) = Ok (v, r).
Proof.
  intros <-. unfold take_bytes. rewrite length_app.
  replace (length v + length r <? length v)%nat with false by (symmetry; apply Nat.ltb_ge; lia).
  by rewrite take_app_length, drop_app_length.
Qed.

Lemma dec_field_enc t f r :
  field_ok t f -> dec_field t (enc_field f ++ r) = Ok (f, r).
Proof.
  destruct t, f; cbn [field_ok]; try done; intros Hf; cbn [enc_field dec_field].
  - rewrite take_bytes_app by apply length_be. cbn [obind].
    rewrite unbe_be_1 by (unfold u8; destruct b; lia). by destruct b.
  - rewrite take_bytes_app by apply length_be. cbn [obind]. by rewrite unbe_be_1.
  - rewrite take_bytes_app by apply length_be. cbn [obind]. by rewrite unbe_be_2.
  - rewrite take_bytes_app by apply length_be. cbn [obind]. by rewrite unbe_be_4.
  - rewrite take_bytes_app by apply length_be. cbn [obind]. by rewrite unbe_be_8.
  - rewrite take_bytes_app by apply length_be. cbn [obind].
    by rewrite unbe_be_8, wrap_i64_u64 by first [done | apply wrap_u64_range].
  - rewrite <-app_assoc, take_bytes_app by apply length_be. cbn [obind].
    rewrite unbe_be_4 by done. by rewrite take_bytes_app by (unfold len; lia).
  - by rewrite take_bytes_app.
Qed.

Lemma dec_fields_enc ts fs : Forall2 field_ok ts fs -> dec_fields ts (enc_fields fs) = Ok fs.
Proof.
  induction 1 as [|t f ts fs Hf _ IH]; [done|].
  unfold enc_fields in *. cbn [map concat dec_fields]. rewrite dec_field_enc by done.
  cbn [obind]. by rewrite IH.
Qed.

#[export] Instance platform_spec : PlatformSpec (PF := platform).
Proof.
  split; try reflexivity; cbn.
  - lia.
  - intros v Hv. unfold parse_uint64. by rewrite bool_decide_true.
  - intros v n. unfold parse_uint64. by case_bool_decide.
  - intros v e. unfold parse_uint64. case_bool_decide; [done|]. by intros [= <-].
  - intros v. unfold parse_uint64. by case_bool_decide.
  - intros p [<-|[<-|[<-|[]]]]; reflexivity.
  - intros p b Hp. unfold len. by rewrite (proj2 (Z.ltb_lt _ _) Hp).
  - intros ts fs p p' Hfs. destruct (_ <=? _); [|done]. intros [= <-].
    exists (enc_fields fs). split; [done|]. by apply dec_fields_enc.
Qed.

(** ** The store *)

Abbreviation Store := (gmap bytes bytes).

#[export] Instance store : Mutable Store :=
  {| GetValue m k := match m !! k with Some v => Ok v | None => Err database_ErrNotFound end;
     Insert m k v :=
       if len v <=? 64 * key_chunks k then (Ok tt, <[k := v]> m) else (Err (ErrExternal 4), m);
     Remove m k := (Ok tt, delete k m) |}.

#[export, refine] Instance store_spec : MutableSpec Store :=
  {| contents m := m; granted _ _ := True |}.
Proof.
  - intros m k. cbn. by destruct (m !! k).
  - intros m k e. cbn. destruct (m !! k); [done|]. intros [= <-]. by left.
  - intros m k v. cbn. by destruct (_ <=? _).
  - done.
  - done.
  - intros m k v _. cbn. unfold len. destruct (_ <=? _) eqn:E; cbn; bool_simpl;
      split; intros; done || lia.
  - done.
  - done.
  - done.
Defined.

(** ** Sample data for evaluations *)

Definition addr (i : Z) : Address := copy_array 33 (be 33 i).
Definition mkt (i : Z) : ID := copy_array 32 (be 32 i).
Definition no_tx : ID := zero_array 32.

(** A store from a list of cells. *)
Definition cells (l : list (bytes * bytes)) : Store :=
  foldl (fun m kv => <[kv.1 := kv.2]> m) ∅ l.

(** The outcome and the final store of a run, for statements about evaluations. *)
Definition outcome {S A} (c : ST S A) (s : S) : Outcome A := (c s).1.
Definition final {S A} (c : ST S A) (s : S) : S := (c s).2.

Lemma run_eq {S A} (c : ST S A) s a : outcome c s = Ok a -> c s = (Ok a, final c s).
Proof. unfold outcome, final. intros <-. by destruct (c s). Qed.

(** A run that succeeds, found by evaluating only whether it does. *)
Definition succeeds {S A} (c : ST S A) (s : S) : bool :=
  match outcome c s with Ok _ => true | _ => false end.

Lemma run_succeeds {S A} (c : ST S A) s :
  succeeds c s = true -> exists a, c s = (Ok a, final c s).
Proof.
  unfold succeeds. destruct (outcome c s) as [a| |] eqn:E; [|done..].
  intros _. exists a. by apply run_eq.
Qed.

(** Close a hypothesis of a witness by evaluation. *)
Ltac eval_ok := first [ apply run_eq | idtac ]; vm_compute; first [ reflexivity | done | intuition congruence ].
