(* ===== verification/Balance.v ===== *)
(** * Balances ([storage.go] Add/Sub, [balance_handler.go], [actions/transfer.go])

    VEIL, VAI and LP balances are 8-byte cells of the chain state; a missing
    cell is a zero balance and a cell that reaches zero is removed. The three
    families differ in their keys and in the errors they report. *)
From S2P Require Import Prelude Errors Go Platform Storage.

Section balances.
Context {PF : Platform} {M : Type} {MU : Mutable M}.

(** [innerGetBalance]: the value, and whether the cell exists. *)
Definition innerGetBalance (r : Outcome bytes) : Outcome (Z * bool) :=
  match r with
  | Ok v => let? val := ParseUInt64 v in Ok (val, true)
  | Err e => if errors_Is e database_ErrNotFound then Ok (0, false) else Err e
  | Panic => Panic
  end.

(** [getBalance], [getLPBalance], [getVAIBalance], by key. *)
Definition read_cell (k : bytes) : ST M (Z * bool) := fun s =>
  (innerGetBalance (GetValue s k), s).

(** [setBalance], [setLPBalance], [setVAIBalance] *)
Definition setBalance (k : bytes) (balance : Z) : ST M unit := put k (be 8 balance).

(** An error of the checked arithmetic is replaced by the caller's own. *)
Definition or_err {A} (o : Outcome A) (e : Error) : Outcome A :=
  match o with Err _ => Err e | r => r end.

(** The body shared by [AddBalance], [AddLPBalance] and [AddVAIBalance]. *)
Definition add_cell (k : bytes) (amount : Z) (overflow : Error) : ST M Z :=
  let* (bal, _) := read_cell k in
  let* nbal := lift (or_err (smath_Add bal amount) overflow) in
  setBalance k nbal ;;;
  ret nbal.

(** The body shared by [SubBalance], [SubLPBalance] and [SubVAIBalance]: a
    cell that is missing or unreadable reports [ok = false] first. *)
Definition sub_cell (k : bytes) (amount : Z) (err : Error) : ST M Z :=
  let* r := catch (read_cell k) in
  match r with
  | inl (bal, true) =>
      let* nbal := lift (or_err (smath_Sub bal amount) err) in
      if nbal =? 0 then (remove k ;;; ret 0) else (setBalance k nbal ;;; ret nbal)
  | _ => fail err
  end.

Definition GetBalance (addr : Address) : ST M Z :=
  let* (bal, _) := read_cell (BalanceKey addr) in ret bal.
Definition GetBalanceFromState (f : ReadState) (addr : Address) : Outcome Z :=
  let? (bal, _) := innerGetBalance (read_one f (BalanceKey addr)) in Ok bal.
Definition SetBalance (addr : Address) (balance : Z) : ST M unit :=
  setBalance (BalanceKey addr) balance.
Definition AddBalance (addr : Address) (amount : Z) : ST M Z :=
  add_cell (BalanceKey addr) amount ErrInvalidBalance.
Definition SubBalance (addr : Address) (amount : Z) : ST M Z :=
  sub_cell (BalanceKey addr) amount ErrInvalidBalance.

Definition GetLPBalance (asset0 asset1 : Z) (addr : Address) : ST M Z :=
  let* (bal, _) := read_cell (LPBalanceKey asset0 asset1 addr) in ret bal.
Definition GetLPBalanceFromState (f : ReadState) (asset0 asset1 : Z) (addr : Address)
    : Outcome Z :=
  let? (bal, _) := innerGetBalance (read_one f (LPBalanceKey asset0 asset1 addr)) in Ok bal.
Definition AddLPBalance (asset0 asset1 : Z) (addr : Address) (amount : Z) : ST M Z :=
  add_cell (LPBalanceKey asset0 asset1 addr) amount ErrInvalidBalance.
Definition SubLPBalance (asset0 asset1 : Z) (addr : Address) (amount : Z) : ST M Z :=
  sub_cell (LPBalanceKey asset0 asset1 addr) amount ErrInsufficientLPBalance.

Definition GetVAIBalance (addr : Address) : ST M Z :=
  let* (bal, _) := read_cell (VAIBalanceKey addr) in ret bal.
Definition GetVAIBalanceFromState (f : ReadState) (addr : Address) : Outcome Z :=
  let? (bal, _) := innerGetBalance (read_one f (VAIBalanceKey addr)) in Ok bal.
Definition AddVAIBalance (addr : Address) (amount : Z) : ST M Z :=
  add_cell (VAIBalanceKey addr) amount ErrInvalidBalance.
Definition SubVAIBalance (addr : Address) (amount : Z) : ST M Z :=
  sub_cell (VAIBalanceKey addr) amount ErrInvalidBalance.
End balances.

(** ** [storage.BalanceHandler]: what the platform charges fees with *)

Module BalanceHandler.
Section handler.
Context {PF : Platform} {M : Type} {MU : Mutable M}.

Definition SponsorStateKeys (addr : Address) : gmap bytes Permissions :=
  {[ BalanceKey addr := perm_or state_Read state_Write ]}.
Definition CanDeduct (addr : Address) (amount : Z) : ST M unit :=
  let* bal := GetBalance addr in fail_if (bal <? amount) ErrInvalidBalance.
Definition Deduct (addr : Address) (amount : Z) : ST M unit :=
  let* _ := SubBalance addr amount in ret tt.
Definition AddBalance (addr : Address) (amount : Z) : ST M unit :=
  let* _ := Balance.AddBalance addr amount in ret tt.
Definition GetBalance (addr : Address) : ST M Z := Balance.GetBalance addr.
End handler.
End BalanceHandler.

(** ** What a balance operation does to the contents *)

(** The balance held in a cell: a missing cell counts as zero. *)
Definition cell (m : gmap bytes bytes) (k : bytes) : Z := from_option unbe 0 (m !! k).

(** A cell is absent or holds exactly eight bytes. *)
Definition cell_wf (m : gmap bytes bytes) (k : bytes) : Prop :=
  match m !! k with Some v => length v = 8%nat | None => True end.

(** The contents after a balance is written: zero balances are not stored. *)
Definition set_cell (m : gmap bytes bytes) (k : bytes) (n : Z) : gmap bytes bytes :=
  if n =? 0 then delete k m else <[k := be 8 n]> m.

Lemma cell_insert m k n : u64 n -> cell (<[k := be 8 n]> m) k = n.
Proof. intros. unfold cell. rewrite lookup_insert_eq. by apply unbe_be_8. Qed.

Lemma cell_insert_ne m k k' v : k <> k' -> cell (<[k := v]> m) k' = cell m k'.
Proof. intros. unfold cell. by rewrite lookup_insert_ne. Qed.

Lemma cell_set m k n : u64 n -> cell (set_cell m k n) k = n.
Proof.
  intros Hn. unfold set_cell. destruct (n =? 0) eqn:E.
  - apply Z.eqb_eq in E as ->. unfold cell. by rewrite lookup_delete_eq.
  - by apply cell_insert.
Qed.

Lemma cell_set_ne m k k' n : k <> k' -> cell (set_cell m k n) k' = cell m k'.
Proof.
  intros. unfold set_cell. destruct (n =? 0); [|by apply cell_insert_ne].
  unfold cell. by rewrite lookup_delete_ne.
Qed.

Lemma lookup_set_ne m k k' n : k <> k' -> set_cell m k n !! k' = m !! k'.
Proof.
  intros. unfold set_cell. destruct (n =? 0);
    [by rewrite lookup_delete_ne | by rewrite lookup_insert_ne].
Qed.

Lemma stored_set_ne {A} (parse : bytes -> Outcome A) m k k' n :
  k <> k' -> stored parse (set_cell m k n) k' = stored parse m k'.
Proof. intros. unfold stored. by rewrite lookup_set_ne. Qed.

(** The cells with a given prefix, summed. *)
Definition prefix_weight (p : byte) (k v : bytes) : Z :=
  if bool_decide (head k = Some p) then unbe v else 0.
Definition prefix_total (p : byte) (m : gmap bytes bytes) : Z := map_sum (prefix_weight p) m.

Lemma prefix_weight_nonneg p k v : 0 <= prefix_weight p k v.
Proof.
  unfold prefix_weight. pose proof (unbe_range v). case_bool_decide; lia.
Qed.

Lemma prefix_total_nonneg p m : 0 <= prefix_total p m.
Proof. apply map_sum_nonneg, prefix_weight_nonneg. Qed.

Lemma prefix_contrib p m k :
  contrib (prefix_weight p) m k = if bool_decide (head k = Some p) then cell m k else 0.
Proof.
  unfold contrib, cell, prefix_weight. by destruct (m !! k); case_bool_decide.
Qed.

Lemma cell_le_total p m k : head k = Some p -> cell m k <= prefix_total p m.
Proof.
  intros Hk. pose proof (contrib_le_map_sum (prefix_weight p) m k (prefix_weight_nonneg p)) as H.
  by rewrite prefix_contrib, bool_decide_true in H.
Qed.

Lemma prefix_total_insert p m k n :
  u64 n -> head k = Some p ->
  prefix_total p (<[k := be 8 n]> m) = prefix_total p m - cell m k + n.
Proof.
  intros Hn Hk. unfold prefix_total. rewrite map_sum_insert, prefix_contrib.
  unfold prefix_weight at 2. rewrite bool_decide_true by done.
  by rewrite unbe_be_8.
Qed.

Lemma prefix_total_set p m k n :
  u64 n -> head k = Some p ->
  prefix_total p (set_cell m k n) = prefix_total p m - cell m k + n.
Proof.
  intros Hn Hk. unfold set_cell. destruct (n =? 0) eqn:E.
  - apply Z.eqb_eq in E as ->. unfold prefix_total.
    rewrite map_sum_delete, prefix_contrib, bool_decide_true by done. lia.
  - by apply prefix_total_insert.
Qed.

Lemma prefix_total_insert_other p m k v :
  head k <> Some p -> prefix_total p (<[k := v]> m) = prefix_total p m.
Proof.
  intros Hk. apply map_sum_insert_irrelevant. intros y. unfold prefix_weight.
  by rewrite bool_decide_false.
Qed.

Lemma prefix_total_set_other p m k n :
  head k <> Some p -> prefix_total p (set_cell m k n) = prefix_total p m.
Proof.
  intros Hk. unfold set_cell. destruct (n =? 0); [|by apply prefix_total_insert_other].
  apply map_sum_delete_irrelevant. intros y. unfold prefix_weight. by rewrite bool_decide_false.
Qed.

Section balance_lemmas.
Context {PF : Platform} {PS : PlatformSpec} {M : Type} {MU : Mutable M} {MS : MutableSpec M}.
Implicit Types (s : M).

Lemma read_cell_ok k bal ex s s' :
  read_cell k s = (Ok (bal, ex), s') ->
  s' = s /\ bal = cell (contents s) k /\ u64 bal /\
  (if ex then is_Some (contents s !! k) else contents s !! k = None) /\
  cell_wf (contents s) k.
Proof.
  unfold read_cell, innerGetBalance, cell, cell_wf. intros [= E <-].
  pose proof (GetValue_sound s k) as Hg. destruct (GetValue s k) as [v|e|] eqn:Ev; [..|done].
  - rewrite Hg. apply obind_ok in E as (val & Hp & [= <- <-]).
    pose proof (ParseUInt64_length _ _ Hp) as Hl. rewrite ParseUInt64_spec in Hp by done.
    simplify_eq. simpl. pose proof (unbe_range v) as Hr. rewrite Hl in Hr.
    split; [done|]. split; [done|]. split; [exact Hr|]. eauto.
  - unfold errors_Is in E. case_bool_decide; [|done]. simplify_eq.
    rewrite Hg by done. simpl. split; [done|]. split; [done|].
    split; [unfold u64; lia|done].
Qed.

Lemma read_cell_state k r s s' : read_cell k s = (r, s') -> s' = s.
Proof. unfold read_cell. congruence. Qed.

Lemma or_err_ok {A} (o : Outcome A) e a : or_err o e = Ok a -> o = Ok a.
Proof. by destruct o. Qed.

(** A successful addition: the new balance is the old one plus the amount,
    without wrap-around, and only this cell changes. *)
Lemma add_cell_ok k amount e n s s' :
  u64 amount -> add_cell k amount e s = (Ok n, s') ->
  n = cell (contents s) k + amount /\ u64 n /\ u64 (cell (contents s) k) /\
  contents s' = <[k := be 8 n]> (contents s).
Proof.
  intros Ha H. unfold add_cell in H. go_step. destruct r as [bal ex]. go_inv.
  apply read_cell_ok in E as (-> & -> & Hb & _ & _).
  apply or_err_ok in L. rewrite smath_Add_spec in L by done.
  destruct (_ <? _) eqn:Hlt in L; [|done]. simplify_eq.
  match goal with Hp : setBalance _ _ _ = _ |- _ => apply put_ok in Hp as -> end.
  unfold u64 in *. split_and!; try done; lia.
Qed.

(** A successful subtraction: the cell held at least the amount, and keeps
    the rest; a cell left at zero is removed. *)
Lemma sub_cell_ok k amount e n s s' :
  u64 amount -> sub_cell k amount e s = (Ok n, s') ->
  cell (contents s) k = n + amount /\ u64 n /\ u64 (cell (contents s) k) /\
  is_Some (contents s !! k) /\
  contents s' = set_cell (contents s) k n.
Proof.
  intros Ha H. unfold sub_cell in H. go_step. apply catch_ok in E.
  destruct r as [[bal []]|e']; [|done..].
  apply read_cell_ok in E as (-> & -> & Hb & Hex & _).
  go_inv. apply or_err_ok in L. rewrite smath_Sub_spec in L by done.
  destruct (_ <=? _) eqn:Hle in L; [|done]. simplify_eq.
  unfold set_cell. destruct (_ =? 0) eqn:Hz; go_inv.
  - match goal with Hp : remove _ _ = _ |- _ => apply remove_ok in Hp as -> end.
    unfold u64 in *. split_and!; try done; lia.
  - match goal with Hp : setBalance _ _ _ = _ |- _ => apply put_ok in Hp as -> end.
    rewrite (proj2 (Z.eqb_neq _ _)) by done. unfold u64 in *.
    split_and!; try done; lia.
Qed.

Lemma wo_read_cell P k : writes_only P (read_cell (M := M) k).
Proof. intros s r s' ->%read_cell_state. done. Qed.

Lemma wo_add_cell (P : bytes -> Prop) k amount e :
  P k -> writes_only P (add_cell (M := M) k amount e).
Proof.
  intros HP. apply wo_bind; [apply wo_read_cell|]. intros [bal ex].
  unfold setBalance. footprint.
Qed.

Lemma wo_sub_cell (P : bytes -> Prop) k amount e :
  P k -> writes_only P (sub_cell (M := M) k amount e).
Proof.
  intros HP. apply wo_bind; [apply wo_catch, wo_read_cell|].
  intros [[bal []]|?]; unfold setBalance; footprint.
Qed.

(** On a granted, well-formed cell the operations are total: each returns the
    new balance, or its error with the contents untouched. *)
Lemma read_cell_granted k s :
  granted s k -> cell_wf (contents s) k ->
  read_cell k s = (Ok (cell (contents s) k, bool_decide (is_Some (contents s !! k))), s).
Proof.
  intros G Hwf. unfold read_cell, innerGetBalance, cell, cell_wf in *.
  rewrite granted_GetValue by done. destruct (contents s !! k) as [v|].
  - rewrite ParseUInt64_spec by done. done.
  - unfold errors_Is. by rewrite bool_decide_true.
Qed.

Lemma cell_wf_u64 m k : cell_wf m k -> u64 (cell m k).
Proof.
  unfold cell_wf, cell. destruct (m !! k) as [v|]; simpl; [|unfold u64; lia].
  intros Hl. pose proof (unbe_range v) as Hr. by rewrite Hl in Hr.
Qed.

Lemma add_cell_granted k amount e s :
  granted s k -> cell_wf (contents s) k -> u64 amount -> 1 <= key_chunks k ->
  exists s', (forall k', granted s k' -> granted s' k') /\
    if cell (contents s) k + amount <? 2 ^ 64
    then add_cell k amount e s = (Ok (cell (contents s) k + amount), s') /\
         contents s' = <[k := be 8 (cell (contents s) k + amount)]> (contents s)
    else add_cell k amount e s = (Err e, s') /\ contents s' = contents s.
Proof.
  intros G Hwf Ha Hc. pose proof (cell_wf_u64 _ _ Hwf).
  unfold add_cell, bind, lift. rewrite read_cell_granted by done.
  rewrite smath_Add_spec by done. destruct (_ <? _) eqn:E; cbn; [|eauto].
  destruct (put_granted k (be 8 (cell (contents s) k + amount)) s G)
    as (s' & Hp & Hs' & G'); [rewrite length_be; lia|].
  unfold setBalance. rewrite Hp. exists s'. done.
Qed.

Lemma sub_cell_granted k amount e s :
  granted s k -> cell_wf (contents s) k -> u64 amount -> 1 <= key_chunks k ->
  exists s', (forall k', granted s k' -> granted s' k') /\
    if (bool_decide (is_Some (contents s !! k)) && (amount <=? cell (contents s) k))%bool
    then sub_cell k amount e s = (Ok (cell (contents s) k - amount), s') /\
         contents s' = set_cell (contents s) k (cell (contents s) k - amount)
    else sub_cell k amount e s = (Err e, s') /\ contents s' = contents s.
Proof.
  intros G Hwf Ha Hc. pose proof (cell_wf_u64 _ _ Hwf).
  unfold sub_cell, bind, catch, lift. rewrite read_cell_granted by done.
  destruct (bool_decide (is_Some _)) eqn:Ex; cbn; [|eauto].
  rewrite smath_Sub_spec by done. destruct (amount <=? _) eqn:E; cbn; [|eauto].
  unfold set_cell. destruct (_ - _ =? 0) eqn:Hz.
  - destruct (remove_granted k s G) as (s' & Hr & Hs' & G'). rewrite Hr.
    exists s'. apply Z.eqb_eq in Hz. by rewrite Hz.
  - destruct (put_granted k (be 8 (cell (contents s) k - amount)) s G)
      as (s' & Hp & Hs' & G'); [rewrite length_be; lia|].
    unfold setBalance. rewrite Hp. exists s'. done.
Qed.
End balance_lemmas.
#[export] Hint Resolve wo_read_cell wo_add_cell wo_sub_cell : footprint.

(** ** Reading sums and cells through writes at other slots *)

Lemma head_slot_ne {PF : Platform} {PS : PlatformSpec} s j :
  0 <= j <= 20 -> slot_tag s <> j -> head (slot_key s) <> Some (prefix j).
Proof.
  intros Hj Hs. rewrite slot_key_head. intros [= H]. apply prefix_inj in H; try done.
  apply slot_tag_range.
Qed.

Ltac prefix_index p :=
  let p' := eval cbv [balancePrefix vaiBalancePrefix lpBalancePrefix] in p in
  lazymatch p' with prefix ?j => constr:(j) end.

Ltac head_eq :=
  lazymatch goal with
  | |- head ?k = Some _ => let s := slot_of k in exact (slot_key_head s)
  end.
Ltac head_ne :=
  lazymatch goal with
  | |- head ?k <> Some ?p =>
      let s := slot_of k in let j := prefix_index p in
      apply (head_slot_ne s j); [lia | cbn; lia]
  end.

(** Rewrite one [prefix_total], [cell] or [stored] of an updated map. *)
Ltac read_step :=
  match goal with
  | |- context [prefix_total ?p (<[?k := be 8 ?n]> ?m)] =>
      rewrite (prefix_total_insert p m k n) by (u64_goal || head_eq)
  | |- context [prefix_total ?p (set_cell ?m ?k ?n)] =>
      rewrite (prefix_total_set p m k n) by (u64_goal || head_eq)
  | |- context [prefix_total ?p (<[?k := ?v]> ?m)] =>
      rewrite (prefix_total_insert_other p m k v) by head_ne
  | |- context [prefix_total ?p (set_cell ?m ?k ?n)] =>
      rewrite (prefix_total_set_other p m k n) by head_ne
  | |- context [cell (<[?k := be 8 ?n]> ?m) ?k] => rewrite (cell_insert m k n) by u64_goal
  | |- context [cell (set_cell ?m ?k ?n) ?k] => rewrite (cell_set m k n) by u64_goal
  | |- context [cell (<[?k := ?v]> ?m) ?k'] => rewrite (cell_insert_ne m k k' v) by key_ne
  | |- context [cell (set_cell ?m ?k ?n) ?k'] => rewrite (cell_set_ne m k k' n) by key_ne
  | |- context [stored ?f (<[?k := ?v]> ?m) ?k'] => rewrite (stored_insert_ne f m k k' v) by key_ne
  | |- context [stored ?f (set_cell ?m ?k ?n) ?k'] => rewrite (stored_set_ne f m k k' n) by key_ne
  | |- context [(<[?k := ?v]> ?m) !! ?k'] => rewrite (lookup_insert_ne m k k' v) by key_ne
  | |- context [set_cell ?m ?k ?n !! ?k'] => rewrite (lookup_set_ne m k k' n) by key_ne
  end
with u64_goal := lazymatch goal with |- u64 _ => u64_side end.
Ltac reads := repeat read_step.
(** The same in the equations about cells among the hypotheses. *)
Ltac reads_hyps :=
  repeat match goal with
  | C : _ = cell _ _ + _ |- _ => revert C
  | C : cell _ _ = _ |- _ => revert C
  | C : u64 (cell _ _ + _) |- _ => revert C
  end; reads; intros.
