(* ===== verification/Action.v ===== *)
(** * What the action files share

    The type identifiers of [consts/types.go], the [Bytes]/[Unmarshal] pattern
    every file of [actions/] repeats around the linear codec, and state-key
    maps. *)
From S2P Require Import Prelude Errors Go Platform Storage Balance.

Definition TransferID : Z := 0.
Definition CreateMarketID : Z := 1.
Definition CommitOrderID : Z := 2.
Definition RevealBatchID : Z := 3.
Definition ClearBatchID : Z := 4.
Definition ResolveMarketID : Z := 5.
Definition DisputeID : Z := 6.
Definition RouteFeesID : Z := 7.
Definition ReleaseCOLTrancheID : Z := 8.
Definition MintVAIID : Z := 9.
Definition BurnVAIID : Z := 10.
Definition CreatePoolID : Z := 11.
Definition AddLiquidityID : Z := 12.
Definition RemoveLiquidityID : Z := 13.
Definition SwapExactInID : Z := 14.
Definition UpdateReserveStateID : Z := 15.
Definition SetRiskParamsID : Z := 16.
Definition SubmitBatchProofID : Z := 17.
Definition SetProofConfigID : Z := 18.

(** ** Structs the linear codec serialises

    [s_fields] lists the tagged fields in declaration order, [s_types] their Go
    types, [s_of_fields] rebuilds the struct; [s_ok] is the range of the field
    types. *)
Class Struct (A : Type) : Type := {
  s_types : list FieldType;
  s_fields : A -> list Field;
  s_of_fields : list Field -> option A;
  s_ok : A -> Prop;
  s_of_fields_fields a : s_of_fields (s_fields a) = Some a;
  s_fields_ok a : s_ok a -> Forall2 field_ok s_types (s_fields a)
}.

(** The two laws of a [Struct] instance. *)
Ltac struct_laws :=
  first
    [ intros []; cbn; rewrite ?copy_array_id; reflexivity
    | intros []; cbn; intros; destruct_and?;
      repeat (constructor; [first [apply length_array | done] |]); constructor ].

Section codec.
Context {PF : Platform}.

(** The packer after [p.PackByte(id)] and [MarshalInto(a, p)]. *)
Definition marshal_into `{!Struct A} (id maxSize : Z) (a : A) : Outcome unit * Packer :=
  MarshalInto (s_fields a) (PackByte {| p_Bytes := []; p_MaxSize := maxSize |} id).

(** [(a *T) Bytes()]: a marshalling error panics. *)
Definition pack `{!Struct A} (id maxSize : Z) (a : A) : Outcome bytes :=
  match marshal_into id maxSize a with
  | (Ok _, p) => Ok (p_Bytes p)
  | _ => Panic
  end.

(** [(r *TResult) Bytes()]: a marshalling error is ignored. *)
Definition pack_result `{!Struct A} (id maxSize : Z) (a : A) : bytes :=
  p_Bytes (marshal_into id maxSize a).2.

(** [UnmarshalT]: empty input, wrong type byte, then the codec. *)
Definition unpack `{!Struct A} (id : Z) (b : bytes) : Outcome A :=
  match b with
  | [] => Err (ErrUnmarshalEmpty id)
  | b0 :: rest =>
      let? _ := guard (negb (Z_of_byte b0 =? id)) (ErrUnexpectedTypeID (Z_of_byte b0) id) in
      let? fs := UnmarshalFrom s_types rest in
      match s_of_fields fs with Some a => Ok a | None => Panic end
  end.

(** [UnmarshalTResult]: slices [b[1:]] without looking at [b]. *)
Definition unpack_result `{!Struct A} (b : bytes) : Outcome A :=
  match b with
  | [] => Panic
  | _ :: rest =>
      let? fs := UnmarshalFrom s_types rest in
      match s_of_fields fs with Some a => Ok a | None => Panic end
  end.

Context {PS : PlatformSpec}.

Lemma marshal_into_ok `{!Struct A} id maxSize (a : A) p :
  s_ok a -> 0 < maxSize -> marshal_into id maxSize a = (Ok tt, p) ->
  exists w, p_Bytes p = byte_of_Z id :: w /\ UnmarshalFrom s_types w = Ok (s_fields a).
Proof.
  intros Ha Hm H. unfold marshal_into in H.
  rewrite PackByte_spec in H by (simpl; lia). simpl in H.
  apply (MarshalInto_roundtrip s_types) in H as (w & Hp & Hu); [|by apply s_fields_ok].
  exists w. by rewrite Hp.
Qed.

(** What [Bytes] produced, [Unmarshal] reads back. *)
Lemma unpack_pack `{!Struct A} id maxSize (a : A) b :
  s_ok a -> u8 id -> 0 < maxSize -> pack id maxSize a = Ok b -> unpack id b = Ok a.
Proof.
  intros Ha Hid Hm H. unfold pack in H.
  destruct (marshal_into id maxSize a) as [[[]|e|] p] eqn:E; simplify_eq.
  apply marshal_into_ok in E as (w & -> & Hu); [|done..].
  unfold unpack. rewrite Z_of_byte_of_Z, Z.mod_small, Z.eqb_refl by done.
  cbn [guard negb obind]. rewrite Hu. cbn [obind]. by rewrite s_of_fields_fields.
Qed.

Lemma unpack_result_pack `{!Struct A} id maxSize (a : A) p :
  s_ok a -> 0 < maxSize -> marshal_into id maxSize a = (Ok tt, p) ->
  unpack_result (pack_result id maxSize a) = Ok a.
Proof.
  intros Ha Hm E. unfold pack_result. rewrite E.
  apply marshal_into_ok in E as (w & Hp & Hu); [|done..]. simpl. rewrite Hp.
  unfold unpack_result. rewrite Hu. cbn [obind]. by rewrite s_of_fields_fields.
Qed.

(** [Unmarshal] accepts only bytes that carry the action's own type byte. *)
Lemma unpack_type_byte `{!Struct A} id b (a : A) :
  unpack id b = Ok a -> exists b0 rest, b = b0 :: rest /\ Z_of_byte b0 = id.
Proof.
  destruct b as [|b0 rest]; simpl; [done|]. intros H. go_step. go_inv. eauto.
Qed.
End codec.

(** ** [state.Keys] literals *)

Definition state_keys {P : Type} (l : list (bytes * P)) : gmap bytes P :=
  foldl (fun m kp => <[kp.1 := kp.2]> m) ∅ l.

(** Every action returns this pair from [ValidRange]. *)
Definition AlwaysValid : Z * Z := (-1, -1).

(** ** Inverting the storage operations of a successful handler *)

Ltac op_step :=
  match goal with
  | H : put _ _ _ = (Ok _, _) |- _ => apply put_ok in H
  | H : remove _ _ = (Ok _, _) |- _ => apply remove_ok in H
  | H : get_parsed _ _ _ _ = (Ok _, _) |- _ =>
      let E := fresh "S" in apply get_parsed_ok in H; destruct H as [E H]; subst
  | H : add_cell _ ?amt _ _ = (Ok _, _) |- _ =>
      let E := fresh "N" in let R := fresh "R" in let R' := fresh "R" in
      apply add_cell_ok in H; [destruct H as (E & R & R' & H) | u64_side]
  | H : sub_cell _ ?amt _ _ = (Ok _, _) |- _ =>
      let E := fresh "N" in let R := fresh "R" in let R' := fresh "R" in
      let I := fresh "I" in
      apply sub_cell_ok in H; [destruct H as (E & R & R' & I & H) | u64_side]
  end.

(** Name what a getter returned and what a setter stored. *)
Ltac store_step :=
  match goal with
  | H : GetTreasuryConfig _ = (Ok _, _) |- _ => apply get_parsed_ok in H as [-> H]
  | H : GetTreasuryState _ = (Ok _, _) |- _ => apply get_parsed_ok in H as [-> H]
  | H : GetFeeRouterConfig _ = (Ok _, _) |- _ => apply get_parsed_ok in H as [-> H]
  | H : GetFeeRouterState _ = (Ok _, _) |- _ => apply get_parsed_ok in H as [-> H]
  | H : GetVAIConfig _ = (Ok _, _) |- _ => apply get_parsed_ok in H as [-> H]
  | H : GetVAIState _ = (Ok _, _) |- _ => apply get_parsed_ok in H as [-> H]
  | H : GetRiskConfig _ = (Ok _, _) |- _ => apply get_parsed_ok in H as [-> H]
  | H : GetReserveState _ = (Ok _, _) |- _ => apply get_parsed_ok in H as [-> H]
  | H : GetProofConfig _ = (Ok _, _) |- _ => apply get_parsed_ok in H as [-> H]
  | H : GetMarket _ _ = (Ok _, _) |- _ => apply get_parsed_ok in H as [-> H]
  | H : GetPool _ _ _ = (Ok _, _) |- _ => apply get_parsed_ok in H as [-> H]
  | H : GetBatchProofRecord _ _ _ = (Ok _, _) |- _ => apply get_parsed_ok in H as [-> H]
  | H : GetVellumProof _ _ _ = (Ok _, _) |- _ => apply get_parsed_ok in H as [-> H]
  | H : GetGlyph _ _ _ = (Ok _, _) |- _ => apply get_parsed_ok in H as [-> H]
  | H : PutPool _ _ = (Ok _, _) |- _ => apply put_ok in H
  | H : PutTreasuryConfig _ _ = (Ok _, _) |- _ => apply put_ok in H
  | H : PutTreasuryState _ _ = (Ok _, _) |- _ => apply put_ok in H
  | H : PutFeeRouterConfig _ _ = (Ok _, _) |- _ => apply put_ok in H
  | H : PutFeeRouterState _ _ = (Ok _, _) |- _ => apply put_ok in H
  | H : PutVAIConfig _ _ = (Ok _, _) |- _ => apply put_ok in H
  | H : PutVAIState _ _ = (Ok _, _) |- _ => apply put_ok in H
  | H : PutReserveState _ _ = (Ok _, _) |- _ => apply put_ok in H
  | H : PutMarket _ _ _ = (Ok _, _) |- _ => apply put_ok in H
  | H : PutBloodsworn _ _ _ = (Ok _, _) |- _ => apply put_ok in H
  | H : PutDispute _ _ _ _ = (Ok _, _) |- _ => apply put_ok in H
  | H : PutBatchResult _ _ _ _ _ _ = (Ok _, _) |- _ => apply put_ok in H
  | H : PutCommitment _ _ _ _ _ _ = (Ok _, _) |- _ => apply put_ok in H
  | H : PutRiskConfig _ _ = (Ok _, _) |- _ => unfold PutRiskConfig in H; go_inv
  | H : PutProofConfig _ _ = (Ok _, _) |- _ => unfold PutProofConfig in H; go_inv
  | H : PutBatchProofRecord _ _ _ _ = (Ok _, _) |- _ => unfold PutBatchProofRecord in H; go_inv
  | H : PutVellumProof _ _ _ _ = (Ok _, _) |- _ => unfold PutVellumProof in H; go_inv
  | H : PutGlyph _ _ _ _ = (Ok _, _) |- _ => unfold PutGlyph in H; go_inv
  end.
