(* ===== verification/Transfer.v ===== *)
(** * Transfer ([actions/transfer.go]) *)
From S2P Require Import Prelude Errors Go Platform Storage Concrete Balance Action.

Module Transfer.

Definition TransferComputeUnits : Z := 1.
Definition MaxMemoSize : Z := 256.
Definition MaxTransferSize : Z := 1024.

Record t := mk { To : Address; Value : Z; Memo : bytes }.

#[global, refine] Instance struct : Struct t :=
  {| s_types := [TArray 33; TU64; TBytes];
     s_fields a := [FArray (To a); FU64 (Value a); FBytes (Memo a)];
     s_of_fields fs := match fs with
                       | [FArray to; FU64 v; FBytes m] => Some (mk (copy_array 33 to) v m)
                       | _ => None
                       end;
     s_ok a := u64 (Value a) /\ u32 (len (Memo a)) |}.
Proof. all: struct_laws. Defined.

Module Result.
Record t := mk { SenderBalance : Z; ReceiverBalance : Z }.
#[global, refine] Instance struct : Struct t :=
  {| s_types := [TU64; TU64];
     s_fields r := [FU64 (SenderBalance r); FU64 (ReceiverBalance r)];
     s_of_fields fs := match fs with [FU64 s; FU64 r] => Some (mk s r) | _ => None end;
     s_ok r := u64 (SenderBalance r) /\ u64 (ReceiverBalance r) |}.
Proof. all: struct_laws. Defined.
End Result.

Section action.
Context {PF : Platform} {M : Type} {MU : Mutable M}.

Definition GetTypeID : Z := TransferID.
Definition StateKeys (a : t) (actor : Address) (_ : ID) : gmap bytes Permissions :=
  state_keys [(BalanceKey actor, perm_or state_Read state_Write);
              (BalanceKey (To a), state_All)].
Definition Bytes (a : t) : Outcome bytes := pack TransferID MaxTransferSize a.
Definition Unmarshal (b : bytes) : Outcome t :=
  let? a := unpack TransferID b in
  let? _ := guard (MaxMemoSize <? len (Memo a)) ErrOutputMemoTooLarge in
  Ok a.
Definition ResultBytes (r : Result.t) : bytes := pack_result TransferID MaxTransferSize r.
Definition UnmarshalResult (b : bytes) : Outcome Result.t := unpack_result b.

Definition Execute (a : t) (_ : Z) (actor : Address) (_ : ID) : ST M bytes :=
  fail_if (Value a =? 0) ErrOutputValueZero ;;;
  fail_if (MaxMemoSize <? len (Memo a)) ErrOutputMemoTooLarge ;;;
  let* senderBalance := SubBalance actor (Value a) in
  let* receiverBalance := AddBalance (To a) (Value a) in
  ret (ResultBytes (Result.mk senderBalance receiverBalance)).

Definition ComputeUnits : Z := TransferComputeUnits.
Definition ValidRange : Z * Z := AlwaysValid.
End action.

(** ** Correctness *)

Section correctness.
Context {PF : Platform} {PS : PlatformSpec} {M : Type} {MU : Mutable M} {MS : MutableSpec M}.

(** The contents after a transfer: a debit, then a credit. *)
Lemma Execute_ok a ts actor tx out (s s' : M) :
  s_ok a -> Execute a ts actor tx s = (Ok out, s') ->
  exists sb rb m1,
    0 < Value a /\ len (Memo a) <= MaxMemoSize /\
    cell (contents s) (BalanceKey actor) = sb + Value a /\ u64 sb /\
    m1 = set_cell (contents s) (BalanceKey actor) sb /\
    rb = cell m1 (BalanceKey (To a)) + Value a /\ u64 rb /\
    contents s' = <[BalanceKey (To a) := be 8 rb]> m1 /\
    out = ResultBytes (Result.mk sb rb).
Proof.
  intros [Hv _] H. unfold Execute, SubBalance, AddBalance in H. go_inv.
  repeat op_step. subst.
  do 3 eexists. unfold u64 in Hv. split_and!; try done; lia.
Qed.

(** ** The abstract ledger: a balance per address *)

Definition ledger (m : gmap bytes bytes) (x : Address) : Z := cell m (BalanceKey x).

Definition upd (L : Address -> Z) (x : Address) (v : Z) : Address -> Z :=
  fun y => if bool_decide (y = x) then v else L y.

(** What a transfer promises: refuse zero, an overdraft and an overflow;
    otherwise debit, then credit. *)
Definition spec_transfer (from to : Address) (v : Z) (L : Address -> Z)
    : option (Address -> Z) :=
  if v =? 0 then None
  else if L from <? v then None
  else let L1 := upd L from (L from - v) in
       if L1 to + v <? 2 ^ 64 then Some (upd L1 to (L1 to + v)) else None.

Lemma BalanceKey_inj x y : BalanceKey x = BalanceKey y -> x = y.
Proof. intros H. by apply (slot_key_inj (SBalance x) (SBalance y)) in H as [= ->]. Qed.

Lemma ledger_set m x n y :
  u64 n -> ledger (set_cell m (BalanceKey x) n) y = upd (ledger m) x n y.
Proof.
  intros Hn. unfold ledger, upd. case_bool_decide as E; [subst; by apply cell_set|].
  apply cell_set_ne. by intros H%BalanceKey_inj.
Qed.

Lemma ledger_insert m x n y :
  u64 n -> ledger (<[BalanceKey x := be 8 n]> m) y = upd (ledger m) x n y.
Proof.
  intros Hn. unfold ledger, upd. case_bool_decide as E; [subst; by apply cell_insert|].
  apply cell_insert_ne. by intros H%BalanceKey_inj.
Qed.
End correctness.

(** ** Properties *)

Section properties.
Context {PF : Platform} {PS : PlatformSpec} {M : Type} {MU : Mutable M} {MS : MutableSpec M}.

(** A transfer that succeeds moves VEIL and creates none: the sum of all
    balances is what it was. *)
Theorem transfer_conserves_VEIL a ts actor tx out (s s' : M) :
  s_ok a -> Execute a ts actor tx s = (Ok out, s') ->
  prefix_total balancePrefix (contents s') = prefix_total balancePrefix (contents s).
Proof.
  intros Ha H. apply Execute_ok in H as (sb & rb & m1 & _ & _ & Hc & Hsb & -> & Hrb & Hr & -> & _);
    [|done].
  rewrite prefix_total_insert, prefix_total_set by done. lia.
Qed.

(** The handler implements the abstract transfer. Over a store that grants
    the two keys, it succeeds exactly when the abstract transfer is defined,
    and then every address has the balance the abstract ledger gives it. *)
Theorem transfer_refines_ledger a ts actor tx (s : M) :
  s_ok a -> len (Memo a) <= MaxMemoSize ->
  granted s (BalanceKey actor) -> granted s (BalanceKey (To a)) ->
  cell_wf (contents s) (BalanceKey actor) -> cell_wf (contents s) (BalanceKey (To a)) ->
  match spec_transfer actor (To a) (Value a) (ledger (contents s)) with
  | Some L' => exists out s', Execute a ts actor tx s = (Ok out, s') /\
                 forall x, ledger (contents s') x = L' x
  | None => exists e s', Execute a ts actor tx s = (Err e, s')
  end.
Proof.
  intros [Hv _] Hm Ga Gt Wa Wt. unfold spec_transfer, Execute, SubBalance, AddBalance.
  destruct (Value a =? 0) eqn:E0; [by do 2 eexists|].
  rewrite (proj2 (Z.ltb_ge _ _) Hm). cbn [fail_if]. rewrite !(bind_run _ _ tt s s) by done.
  pose proof (cell_wf_u64 _ _ Wa) as Ua. apply Z.eqb_neq in E0.
  destruct (sub_cell_granted (BalanceKey actor) (Value a) ErrInvalidBalance s Ga Wa Hv)
    as (s1 & G1 & H1); [by chunks|].
  change (cell (contents s) (BalanceKey actor)) with (ledger (contents s) actor) in *.
  destruct (bool_decide _ && _)%bool eqn:Eb; destruct H1 as [H1 C1].
  2:{ assert (ledger (contents s) actor < Value a) as ->%Z.ltb_lt.
      { apply andb_false_iff in Eb as [Eb|Eb]; bool_simpl; [|lia].
        unfold ledger, cell in *. apply eq_None_not_Some in Eb. rewrite Eb.
        unfold u64 in *. simpl in *. lia. }
      do 2 eexists. by apply bind_stop. }
  bool_simpl. rewrite (proj2 (Z.ltb_ge _ _)) by done. rewrite (bind_run _ _ _ _ _ H1).
  assert (Un : u64 (ledger (contents s) actor - Value a)) by (unfold u64 in *; lia).
  destruct (add_cell_granted (BalanceKey (To a)) (Value a) ErrInvalidBalance s1)
    as (s2 & _ & H2); [by apply G1| |done|by chunks|].
  { unfold cell_wf. rewrite C1. destruct (decide (To a = actor)) as [->|Hne].
    - unfold set_cell. destruct (_ =? 0); [by rewrite lookup_delete_eq|].
      by rewrite lookup_insert_eq, length_be.
    - rewrite lookup_set_ne; [done|]. by intros HK%BalanceKey_inj. }
  change (cell (contents s1) (BalanceKey (To a))) with (ledger (contents s1) (To a)) in H2.
  rewrite C1, ledger_set in H2 by done.
  destruct (_ <? 2 ^ 64) eqn:Eo; destruct H2 as [H2 C2]; cycle 1.
  { do 2 eexists. by apply bind_stop. }
  eexists _, s2. split; [by rewrite (bind_run _ _ _ _ _ H2)|]. intros x. rewrite C2.
  bool_simpl. rewrite ledger_insert.
  - unfold upd at 1 3. case_bool_decide; [done|]. by apply ledger_set.
  - unfold upd, u64 in *. case_bool_decide; [lia|].
    pose proof (cell_wf_u64 _ _ Wt). unfold ledger, u64 in *. lia.
Qed.
End properties.

(** Alice (1) holds 100 and sends 40 to Bob (2). *)
Definition sample : t := mk (addr 2) 40 [].
Definition sample_store : Store := cells [(BalanceKey (addr 1), be 8 100)].

Lemma transfer_conserves_VEIL_witness : exists out,
  outcome (Execute sample 0 (addr 1) no_tx) sample_store = Ok out /\
  prefix_total balancePrefix (contents (final (Execute sample 0 (addr 1) no_tx) sample_store))
  = prefix_total balancePrefix (contents sample_store).
Proof.
  eexists. split; [vm_compute; reflexivity|].
  eapply (transfer_conserves_VEIL sample 0 (addr 1) no_tx _ sample_store
            (final (Execute sample 0 (addr 1) no_tx) sample_store)); eval_ok.
Defined.

Lemma transfer_refines_ledger_witness :
  let L := ledger (contents sample_store) in
  spec_transfer (addr 1) (addr 2) 40 L <> None /\
  match spec_transfer (addr 1) (To sample) (Value sample) L with
  | Some L' => exists out s', Execute sample 0 (addr 1) no_tx sample_store = (Ok out, s') /\
                 forall x, ledger (contents s') x = L' x
  | None => exists e s', Execute sample 0 (addr 1) no_tx sample_store = (Err e, s')
  end.
Proof.
  split; [vm_compute; discriminate|].
  apply (transfer_refines_ledger sample 0 (addr 1) no_tx sample_store); eval_ok.
Defined.

End Transfer.
