(* ===== verification/ProofEnvelope.v ===== *)
(** * Proof payloads and public inputs

    [actions/proof_hash.go], [actions/proof_verifier.go] and [actions/glyph.go]:
    the preimages the prover commits to, the VZK1/VZK2 envelopes, the
    process-wide verifier hook, and the glyph minted for an accepted proof. *)
From Stdlib Require Import Strings.String.
From S2P Require Import Prelude Errors Go Platform Sha256 Storage.

(** ** Public inputs ([proof_hash.go]) *)

Definition ClearInputsDomainTag : bytes := list_byte_of_string "VEIL_CLEAR_V1".
Definition ShieldedLedgerInputsDomainTag : bytes := list_byte_of_string "VEIL_SHIELDED_LEDGER_V1".
Definition ExpectedFillsHashSize : Z := 32.

Definition BuildClearPublicInputsPreimage (marketID : ID) (windowID clearPrice totalVolume : Z)
    (fillsHash : bytes) : bytes :=
  ClearInputsDomainTag ++ marketID ++ be 8 windowID ++ be 8 clearPrice ++ be 8 totalVolume
  ++ be 2 (wrap_u16 (len fillsHash)) ++ fillsHash.

Definition ComputeClearPublicInputsHash (marketID : ID) (windowID clearPrice totalVolume : Z)
    (fillsHash : bytes) : Hash :=
  Sum256 (BuildClearPublicInputsPreimage marketID windowID clearPrice totalVolume fillsHash).

Definition BuildShieldedLedgerPublicInputsPreimage (marketID : ID)
    (windowID clearPrice totalVolume : Z) (fillsHash : bytes) : bytes :=
  ShieldedLedgerInputsDomainTag ++ marketID ++ be 8 windowID ++ be 8 clearPrice
  ++ be 8 totalVolume ++ be 2 (wrap_u16 (len fillsHash)) ++ fillsHash.

Definition ComputeShieldedLedgerPublicInputsHash (marketID : ID)
    (windowID clearPrice totalVolume : Z) (fillsHash : bytes) : Hash :=
  Sum256 (BuildShieldedLedgerPublicInputsPreimage marketID windowID clearPrice totalVolume
                                                  fillsHash).

(** ** [strings.TrimSpace] on a byte string

    The UTF-8 images of the white-space runes: a rune is trimmed when the
    string starts, or ends, with its image. *)
Definition space_runes : list bytes :=
  [[x09]; [x0a]; [x0b]; [x0c]; [x0d]; [x20]; [xc2; x85]; [xc2; xa0]; [xe1; x9a; x80]]
  ++ map (fun b => [xe2; x80; b])
       [x80; x81; x82; x83; x84; x85; x86; x87; x88; x89; x8a; xa8; xa9; xaf]
  ++ [[xe2; x81; x9f]; [xe3; x80; x80]].

Definition starts_with (s r : bytes) : bool := bool_decide (take (length r) s = r).

(** Runes off the front, one a round; reversed images trim the reversed string. *)
Fixpoint trim_front (fuel : nat) (runes : list bytes) (s : bytes) : bytes :=
  match fuel with
  | O => s
  | S fuel' =>
      match List.find (starts_with s) runes with
      | Some r => trim_front fuel' runes (drop (length r) s)
      | None => s
      end
  end.

Definition TrimSpace (s : bytes) : bytes :=
  let s1 := trim_front (length s) space_runes s in
  rev (trim_front (length s1) (map (@rev byte) space_runes) (rev s1)).

(** ** Envelopes ([proof_verifier.go]) *)

Definition MaxProofBytesSize : Z := 131072.
Definition proofEnvelopeMagicV1 : bytes := list_byte_of_string "VZK1".
Definition proofEnvelopeMagicV2 : bytes := list_byte_of_string "VZK2".
Definition proofEnvelopeV1HeaderLen : Z := 13.
Definition proofEnvelopeV2HeaderLen : Z := 14.
Definition maxProofCircuitIDLen : Z := 63.

Definition circuit_char (b : byte) : bool :=
  let r := Z_of_byte b in
  ((97 <=? r) && (r <=? 122)) || ((48 <=? r) && (r <=? 57)) || (r =? 45) || (r =? 95)
  || (r =? 46).

(** A byte of 128 or more decodes to a rune above 127, which is refused. *)
Definition isValidProofCircuitID (circuitID : bytes) : bool :=
  if (len circuitID =? 0) || (maxProofCircuitIDLen <? len circuitID) then false
  else forallb circuit_char circuitID.

Definition BuildProofEnvelope (proofType : Z) (proof publicWitness : bytes) : Outcome bytes :=
  let? _ := guard ((proofType =? 0) || (len proof =? 0) || (MaxProofBytesSize <? len proof))
                  ErrInvalidProofEnvelope in
  let? _ := guard (len publicWitness =? 0) ErrInvalidProofEnvelope in
  let? _ := guard (MaxProofBytesSize <?
                   proofEnvelopeV1HeaderLen + len proof + len publicWitness)
                  ErrInvalidProofEnvelope in
  Ok (proofEnvelopeMagicV1 ++ be 1 proofType ++ be 4 (wrap_u32 (len proof))
      ++ be 4 (wrap_u32 (len publicWitness)) ++ proof ++ publicWitness).

Definition BuildProofEnvelopeWithCircuit (proofType : Z) (circuitID proof publicWitness : bytes)
    : Outcome bytes :=
  let circuitID := TrimSpace circuitID in
  let? _ := guard ((proofType =? 0) || (len proof =? 0) || (MaxProofBytesSize <? len proof))
                  ErrInvalidProofEnvelope in
  let? _ := guard (len publicWitness =? 0) ErrInvalidProofEnvelope in
  let? _ := guard (negb (isValidProofCircuitID circuitID)) ErrInvalidProofEnvelope in
  let totalLen := proofEnvelopeV2HeaderLen + len circuitID + len proof + len publicWitness in
  let? _ := guard (MaxProofBytesSize <? totalLen) ErrInvalidProofEnvelope in
  Ok (proofEnvelopeMagicV2 ++ be 1 proofType ++ be 1 (wrap_u8 (len circuitID))
      ++ be 4 (wrap_u32 (len proof)) ++ be 4 (wrap_u32 (len publicWitness))
      ++ circuitID ++ proof ++ publicWitness).

(** The named results of [parseProofEnvelope]. *)
Record Envelope := mk_envelope {
  env_proofType : Z; env_circuitID : bytes; env_proof : bytes; env_witness : bytes;
  env_hasEnvelope : bool
}.

Definition parseProofEnvelopeV1 (blob : bytes) : Outcome Envelope :=
  let? _ := guard (len blob <? proofEnvelopeV1HeaderLen) ErrInvalidProofEnvelope in
  let proofType := uint_at 4 1 blob in
  let proofLen := uint_at 5 4 blob in
  let witnessLen := uint_at 9 4 blob in
  let? _ := guard ((proofLen <=? 0) || (witnessLen <=? 0)) ErrInvalidProofEnvelope in
  let totalLen := proofEnvelopeV1HeaderLen + proofLen + witnessLen in
  let? _ := guard (negb (len blob =? totalLen)) ErrInvalidProofEnvelope in
  let proofEnd := (13 + Z.to_nat proofLen)%nat in
  Ok (mk_envelope proofType [] (slice 13 (Z.to_nat proofLen) blob)
                  (slice proofEnd (Z.to_nat witnessLen) blob) true).

Definition parseProofEnvelopeV2 (blob : bytes) : Outcome Envelope :=
  let? _ := guard (len blob <? proofEnvelopeV2HeaderLen) ErrInvalidProofEnvelope in
  let proofType := uint_at 4 1 blob in
  let circuitLen := uint_at 5 1 blob in
  let proofLen := uint_at 6 4 blob in
  let witnessLen := uint_at 10 4 blob in
  let? _ := guard ((circuitLen <=? 0) || (maxProofCircuitIDLen <? circuitLen)
                   || (proofLen <=? 0) || (witnessLen <=? 0)) ErrInvalidProofEnvelope in
  let totalLen := proofEnvelopeV2HeaderLen + circuitLen + proofLen + witnessLen in
  let? _ := guard (negb (len blob =? totalLen)) ErrInvalidProofEnvelope in
  let circuitEnd := (14 + Z.to_nat circuitLen)%nat in
  let circuitID := slice 14 (Z.to_nat circuitLen) blob in
  let? _ := guard (negb (isValidProofCircuitID circuitID)) ErrInvalidProofEnvelope in
  let proofEnd := (circuitEnd + Z.to_nat proofLen)%nat in
  Ok (mk_envelope proofType circuitID (slice circuitEnd (Z.to_nat proofLen) blob)
                  (slice proofEnd (Z.to_nat witnessLen) blob) true).

Definition parseProofEnvelope (blob : bytes) : Outcome Envelope :=
  if len blob <? 4 then Ok (mk_envelope 0 [] blob [] false)
  else if bool_decide (slice 0 4 blob = proofEnvelopeMagicV1) then parseProofEnvelopeV1 blob
  else if bool_decide (slice 0 4 blob = proofEnvelopeMagicV2) then parseProofEnvelopeV2 blob
  else Ok (mk_envelope 0 [] blob [] false).

(** ** The process-wide verifier *)

(** [BatchProofVerifier.Verify]: proof type, circuit, proof, inputs hash, witness. *)
Definition BatchProofVerifier : Type := Z -> bytes -> bytes -> bytes -> bytes -> Outcome unit.

(** [proofVerifier] and [strictProofVerifier] *)
Record VerifierConfig := mk_verifier { vc_verifier : option BatchProofVerifier;
                                       vc_strict : bool }.

(** Before any configuration the variables hold their zero values. *)
Definition initial_verifier : VerifierConfig := mk_verifier None false.

Definition ConfigureBatchProofVerifier (verifier : option BatchProofVerifier) (strict : bool)
    (_ : VerifierConfig) : VerifierConfig := mk_verifier verifier strict.

Definition getBatchProofVerifier (vc : VerifierConfig) : option BatchProofVerifier * bool :=
  (vc_verifier vc, vc_strict vc).

Definition verifyBatchProofInConsensus (vc : VerifierConfig) (requiredProofType : Z)
    (proofBlob publicInputsHash : bytes) : Outcome unit :=
  let? env := parseProofEnvelope proofBlob in
  let? _ := guard (env_hasEnvelope env && negb (env_proofType env =? requiredProofType))
                  ErrProofTypeMismatch in
  match getBatchProofVerifier vc with
  | (None, strict) => if strict then Err ErrProofVerifierUnavailable else Ok tt
  | (Some verify, _) =>
      match verify requiredProofType (env_circuitID env) (env_proof env) publicInputsHash
                   (env_witness env) with
      | Err e => if errors_Is e ErrProofVerifierUnavailable then Err e
                 else Err ErrProofVerificationFailed
      | r => r
      end
  end.

(** ** Glyphs ([glyph.go]) *)

Definition glyphDomainTag : bytes := list_byte_of_string "VEIL_GLYPH_V1".
Definition GlyphRarityCommon : Z := 1.
Definition GlyphRarityRare : Z := 2.
Definition GlyphRarityEpic : Z := 3.
Definition GlyphRarityLegendary : Z := 4.
Definition GlyphRarityMythic : Z := 5.
Definition GlyphClassAsh : Z := 1.
Definition GlyphClassCrown : Z := 2.
Definition GlyphClassCipher : Z := 3.
Definition GlyphClassEclipse : Z := 4.
Definition GlyphClassAegis : Z := 5.
Definition GlyphClassRelic : Z := 6.

Definition deriveGlyphEntropy (txID marketID : ID) (windowID : Z) (prover : Address)
    (commitment : Hash) (publicInputsHash : bytes) : Hash :=
  Sum256 (glyphDomainTag ++ txID ++ marketID ++ be 8 windowID ++ prover ++ commitment
          ++ publicInputsHash).

Definition deriveGlyphClass (entropy : Hash) : Z :=
  let i := uint_at 2 1 entropy mod 6 in
  if i =? 0 then GlyphClassAsh else if i =? 1 then GlyphClassCrown
  else if i =? 2 then GlyphClassCipher else if i =? 3 then GlyphClassEclipse
  else if i =? 4 then GlyphClassAegis else GlyphClassRelic.

Definition deriveGlyphRarity (entropy : Hash) : Z :=
  let roll := wrap_u32 (uint_at 0 2 entropy * 10000) / 65536 in
  if roll <? 2 then GlyphRarityMythic else if roll <? 20 then GlyphRarityLegendary
  else if roll <? 150 then GlyphRarityEpic else if roll <? 800 then GlyphRarityRare
  else GlyphRarityCommon.

Definition deriveGlyph (txID marketID : ID) (windowID : Z) (prover : Address)
    (commitment : Hash) (publicInputsHash : bytes) (timestamp : Z) : Glyph.t :=
  let entropy := deriveGlyphEntropy txID marketID windowID prover commitment publicInputsHash in
  Glyph.mk (deriveGlyphClass entropy) (deriveGlyphRarity entropy) timestamp prover commitment
           (copy_array 32 publicInputsHash) entropy.
