(* ===== verification/AmmMath.v ===== *)
(** * The arithmetic of the pools ([actions/amm_common.go])

    Asset pairs, full-width multiply-divide, and the integer square root that
    prices the first deposit. *)
From S2P Require Import Prelude Errors Go Platform Storage Balance.

Definition AssetVEIL : Z := 0.
Definition AssetVAI : Z := 1.
Definition MinPoolFeeBips : Z := 1.
Definition MaxPoolFeeBips : Z := 1000.

Definition isSupportedAsset (asset : Z) : bool := (asset =? AssetVEIL) || (asset =? AssetVAI).

Definition validateAssetPair (asset0 asset1 : Z) : Outcome unit :=
  let? _ := guard (negb (isSupportedAsset asset0) || negb (isSupportedAsset asset1))
                  ErrUnsupportedAsset in
  guard (asset0 =? asset1) ErrInvalidAssetPair.

Definition sortedPair (asset0 asset1 : Z) : Z * Z :=
  if asset0 <=? asset1 then (asset0, asset1) else (asset1, asset0).

Definition mapPairAmounts (assetA assetB amountA amountB : Z) (pool : Pool.t)
    : Outcome (Z * Z) :=
  if (assetA =? Pool.Asset0 pool) && (assetB =? Pool.Asset1 pool) then Ok (amountA, amountB)
  else if (assetA =? Pool.Asset1 pool) && (assetB =? Pool.Asset0 pool)
  then Ok (amountB, amountA)
  else Err ErrInvalidAssetPair.

Definition mapPoolAmountsToPair (pool : Pool.t) (assetA assetB amount0 amount1 : Z)
    : Outcome (Z * Z) :=
  if (assetA =? Pool.Asset0 pool) && (assetB =? Pool.Asset1 pool) then Ok (amount0, amount1)
  else if (assetA =? Pool.Asset1 pool) && (assetB =? Pool.Asset0 pool)
  then Ok (amount1, amount0)
  else Err ErrInvalidAssetPair.

(** The product is a [big.Int]: only the quotient has to fit. *)
Definition mulDiv (a b den : Z) : Outcome Z :=
  if den =? 0 then Err (ErrMessage "division by zero")
  else let q := a * b / den in
       if q <? 2 ^ 64 then Ok q else Err (ErrMessage "overflow").

Definition minU64 (a b : Z) : Z := if a <? b then a else b.

(** The loop of [intSqrt]: [None] when the fuel runs out before the loop
    exits; dividing by a zero [x] panics. *)
Fixpoint intSqrt_loop (fuel : nat) (n x y : Z) : option (Outcome Z) :=
  match fuel with
  | O => None
  | S fuel' =>
      if y <? x
      then if y =? 0 then Some Panic
           else intSqrt_loop fuel' n y (wrap_u64 (y + n / y) / 2)
      else Some (Ok x)
  end.

(** An iteration at least halves the distance of [x] to the root, so 66 rounds
    are enough for a 64-bit argument ([intSqrt_loop_root]). *)
Definition intSqrt_fuel : nat := 66.

Definition intSqrt (n : Z) : Outcome Z :=
  if n =? 0 then Ok 0
  else default Panic (intSqrt_loop intSqrt_fuel n n (wrap_u64 (n + 1) / 2)).

Section asset_balances.
Context {PF : Platform} {M : Type} {MU : Mutable M}.

Definition subAssetBalance (actor : Address) (asset amount : Z) : ST M Z :=
  if asset =? AssetVEIL then SubBalance actor amount
  else if asset =? AssetVAI then SubVAIBalance actor amount
  else fail ErrUnsupportedAsset.

Definition addAssetBalance (actor : Address) (asset amount : Z) : ST M Z :=
  if asset =? AssetVEIL then AddBalance actor amount
  else if asset =? AssetVAI then AddVAIBalance actor amount
  else fail ErrUnsupportedAsset.
End asset_balances.

(** ** Facts *)

Lemma validateAssetPair_ok a b u :
  validateAssetPair a b = Ok u -> (a = 0 /\ b = 1) \/ (a = 1 /\ b = 0).
Proof.
  unfold validateAssetPair, isSupportedAsset, AssetVEIL, AssetVAI. intros H. go_inv.
  apply orb_true_iff in H0 as [H0|H0], H1 as [H1|H1]; bool_simpl; subst; auto; lia.
Qed.

Lemma mulDiv_ok a b den q :
  mulDiv a b den = Ok q -> den <> 0 /\ q = a * b / den /\ q < 2 ^ 64.
Proof.
  unfold mulDiv. destruct (den =? 0) eqn:E; [done|]. destruct (_ <? _) eqn:E2; [|done].
  intros [= <-]. bool_simpl. auto.
Qed.

Lemma mulDiv_u64 a b d q : u64 a -> u64 b -> u64 d -> mulDiv a b d = Ok q ->
  d <> 0 /\ q = a * b / d /\ u64 q.
Proof.
  intros Ha Hb Hd H. apply mulDiv_ok in H as (Hne & -> & Hlt).
  unfold u64 in *. split_and!; try done. apply Z.div_pos; nia.
Qed.

Ltac mulDiv_step :=
  match goal with
  | H : mulDiv _ _ _ = Ok _ |- _ =>
      let D := fresh "D" in let E := fresh "A" in let R := fresh "U" in
      apply mulDiv_u64 in H; [destruct H as (D & E & R) | u64_side..]
  end.

Lemma minU64_min a b : minU64 a b = Z.min a b.
Proof. unfold minU64. destruct (a <? b) eqn:E; bool_simpl; lia. Qed.

(** One Newton step from [x], in range, between the root and [x]. *)
Lemma newton_step n x s :
  0 < s -> s * s <= n < (s + 1) * (s + 1) -> n < 2 ^ 64 - 1 -> s <= x < 2 ^ 63 ->
  wrap_u64 (x + n / x) / 2 = (x + n / x) / 2 /\
  s <= (x + n / x) / 2 /\ (s < x -> 2 * ((x + n / x) / 2 - s) <= x - s).
Proof.
  intros Hs Hn Hn64 Hx.
  assert (Hq : n / x <= s + 2) by (apply Z.div_le_upper_bound; nia).
  assert (Hq0 : 0 <= n / x) by (apply Z.div_pos; lia).
  assert (s < 2 ^ 32) by nia.
  assert (Hlo : s <= (x + n / x) / 2).
  { apply Z.div_le_lower_bound; [lia|].
    assert (2 * s - x <= n / x) by (apply Z.div_le_lower_bound; nia). lia. }
  split_and!; [|done|].
  - rewrite wrap_u64_small; [done|]. unfold u64. lia.
  - intros Hlt. assert (n / x < s + 1) by (apply Z.div_lt_upper_bound; nia).
    pose proof (Z.mul_div_le (x + n / x) 2). lia.
Qed.

(** From any [x] above the root whose next iterate is [y], the loop ends at the
    root within a number of rounds logarithmic in the distance. *)
Lemma intSqrt_loop_root fuel : forall n x y s,
  0 < s -> s * s <= n < (s + 1) * (s + 1) -> n < 2 ^ 64 - 1 ->
  s <= y < 2 ^ 63 -> s <= x -> (x = s \/ y - s < 2 ^ Z.of_nat fuel) ->
  (y < x \/ x = s) ->
  intSqrt_loop (S (S fuel)) n x y = Some (Ok s).
Proof.
  induction fuel as [|fuel IH]; intros n x y s Hs Hn H64 Hy Hx Hf Hd; cbn [intSqrt_loop];
    destruct (y <? x) eqn:E; bool_simpl.
  2,4: f_equal; f_equal; lia.
  all: replace (y =? 0) with false by lia.
  all: destruct (newton_step n y s) as (Hw & Hlo & Hhalf); [done..|].
  - assert (y = s) as -> by (change (2 ^ Z.of_nat 0) with 1 in Hf; lia).
    rewrite Hw. replace ((s + n / s) / 2 <? s) with false by lia. done.
  - rewrite Hw. destruct (decide (y = s)) as [->|Hne].
    + cbn [intSqrt_loop]. by replace ((s + n / s) / 2 <? s) with false by lia.
    + rewrite Nat2Z.inj_succ, Z.pow_succ_r in Hf by lia. apply IH; lia.
Qed.

Lemma intSqrt_loop_done n :
  0 < n < 2 ^ 64 - 1 ->
  intSqrt_loop intSqrt_fuel n n (wrap_u64 (n + 1) / 2) = Some (Ok (Z.sqrt n)).
Proof.
  intros Hn. pose proof (Z.sqrt_spec n ltac:(lia)) as Hsq. cbn zeta in Hsq.
  set (s := Z.sqrt n) in *. assert (0 < s) by (apply Z.sqrt_pos; lia).
  rewrite wrap_u64_small by (unfold u64; lia).
  assert (Hhalf : s <= (n + 1) / 2) by (apply Z.div_le_lower_bound; nia).
  pose proof (Z.mul_div_le (n + 1) 2). pose proof (Z.mod_pos_bound (n + 1) 2).
  pose proof (Z.div_mod (n + 1) 2).
  apply (intSqrt_loop_root 64); lia.
Qed.

Lemma intSqrt_runs n : 0 <= n < 2 ^ 64 - 1 -> intSqrt n = Ok (Z.sqrt n).
Proof.
  intros Hn. unfold intSqrt. destruct (n =? 0) eqn:E0; bool_simpl; [by subst|].
  rewrite intSqrt_loop_done by lia. done.
Qed.

(** C26: [intSqrt] terminates and computes the integer square root of every
    argument below [2^64 - 1]; at [2^64 - 1] its first step [(x + 1) / 2] wraps
    to zero and the next division panics. *)
Theorem intSqrt_correct n :
  u64 n -> intSqrt n = if n =? 2 ^ 64 - 1 then Panic else Ok (Z.sqrt n).
Proof.
  intros Hn. destruct (n =? 2 ^ 64 - 1) eqn:E; bool_simpl; [by subst|].
  apply intSqrt_runs. unfold u64 in Hn. lia.
Qed.

Lemma intSqrt_correct_witness : u64 (10 ^ 18) /\ intSqrt (10 ^ 18) = Ok (10 ^ 9).
Proof. split; [by vm_compute | exact (intSqrt_correct (10 ^ 18) ltac:(by vm_compute))]. Defined.

Lemma intSqrt_root n r : u64 n -> intSqrt n = Ok r -> r = Z.sqrt n /\ u64 r /\ n < 2 ^ 64 - 1.
Proof.
  intros Hn H. destruct (decide (n = 2 ^ 64 - 1)) as [->|]; [by vm_compute in H|].
  unfold u64 in *. rewrite intSqrt_runs in H by lia. simplify_eq.
  pose proof (Z.sqrt_le_lin n ltac:(lia)). pose proof (Z.sqrt_nonneg n). split; [done|]. lia.
Qed.

(** ** Balances by asset *)

Section asset_lemmas.
Context {PF : Platform} {PS : PlatformSpec} {M : Type} {MU : Mutable M} {MS : MutableSpec M}.

Definition asset_key (asset : Z) (actor : Address) : bytes :=
  if asset =? AssetVEIL then BalanceKey actor else VAIBalanceKey actor.

Lemma subAssetBalance_ok actor asset amount n (s s' : M) :
  u64 amount -> subAssetBalance actor asset amount s = (Ok n, s') ->
  cell (contents s) (asset_key asset actor) = n + amount /\ u64 n /\
  contents s' = set_cell (contents s) (asset_key asset actor) n.
Proof.
  unfold subAssetBalance, asset_key. intros Ha H.
  destruct (asset =? AssetVEIL); [|destruct (asset =? AssetVAI); [|done]];
    apply sub_cell_ok in H as (? & ? & ? & ? & ?); auto.
Qed.

Lemma addAssetBalance_ok actor asset amount n (s s' : M) :
  u64 amount -> addAssetBalance actor asset amount s = (Ok n, s') ->
  n = cell (contents s) (asset_key asset actor) + amount /\ u64 n /\
  contents s' = <[asset_key asset actor := be 8 n]> (contents s).
Proof.
  unfold addAssetBalance, asset_key. intros Ha H.
  destruct (asset =? AssetVEIL); [|destruct (asset =? AssetVAI); [|done]];
    apply add_cell_ok in H as (? & ? & ? & ?); auto.
Qed.

Lemma wo_subAssetBalance (P : bytes -> Prop) actor asset amount :
  P (BalanceKey actor) -> P (VAIBalanceKey actor) ->
  writes_only P (subAssetBalance (M := M) actor asset amount).
Proof. intros. unfold subAssetBalance, SubBalance, SubVAIBalance. footprint. Qed.

Lemma wo_addAssetBalance (P : bytes -> Prop) actor asset amount :
  P (BalanceKey actor) -> P (VAIBalanceKey actor) ->
  writes_only P (addAssetBalance (M := M) actor asset amount).
Proof. intros. unfold addAssetBalance, AddBalance, AddVAIBalance. footprint. Qed.
End asset_lemmas.
#[export] Hint Resolve wo_subAssetBalance wo_addAssetBalance : footprint.
