(* ===== verification/Pools.v ===== *)
(** * Constant-product pools

    [actions/create_pool.go], [add_liquidity.go], [remove_liquidity.go] and
    [swap_exact_in.go]: one module per action. *)
From S2P Require Import Prelude Errors Go Platform Storage Balance Action AmmMath.

Module CreatePool.

Definition CreatePoolComputeUnits : Z := 3.
Definition MaxCreatePoolSize : Z := 256.

Record t := mk { Asset0 : Z; Asset1 : Z; FeeBips : Z }.

#[global, refine] Instance struct : Struct t :=
  {| s_types := [TU8; TU8; TU16];
     s_fields a := [FU8 (Asset0 a); FU8 (Asset1 a); FU16 (FeeBips a)];
     s_of_fields fs := match fs with
                       | [FU8 x; FU8 y; FU16 f] => Some (mk x y f)
                       | _ => None
                       end;
     s_ok a := u8 (Asset0 a) /\ u8 (Asset1 a) /\ u16 (FeeBips a) |}.
Proof. all: struct_laws. Defined.

(** [CreatePoolResult] has the fields of the action. *)
Module Result.
Record t := mk { Asset0 : Z; Asset1 : Z; FeeBips : Z }.
#[global, refine] Instance struct : Struct t :=
  {| s_types := [TU8; TU8; TU16];
     s_fields a := [FU8 (Asset0 a); FU8 (Asset1 a); FU16 (FeeBips a)];
     s_of_fields fs := match fs with
                       | [FU8 x; FU8 y; FU16 f] => Some (mk x y f)
                       | _ => None
                       end;
     s_ok a := u8 (Asset0 a) /\ u8 (Asset1 a) /\ u16 (FeeBips a) |}.
Proof. all: struct_laws. Defined.
End Result.

Section action.
Context {PF : Platform} {M : Type} {MU : Mutable M}.

Definition GetTypeID : Z := CreatePoolID.
Definition StateKeys (a : t) (_ : Address) (_ : ID) : gmap bytes Permissions :=
  state_keys [(TreasuryConfigKey, state_Read); (PoolKey (Asset0 a) (Asset1 a), state_All)].
Definition Bytes (a : t) : Outcome bytes := pack CreatePoolID MaxCreatePoolSize a.
Definition Unmarshal (b : bytes) : Outcome t := unpack CreatePoolID b.
Definition ResultBytes (r : Result.t) : bytes := pack_result CreatePoolID MaxCreatePoolSize r.
Definition UnmarshalResult (b : bytes) : Outcome Result.t := unpack_result b.

Definition Execute (a : t) (_ : Z) (actor : Address) (_ : ID) : ST M bytes :=
  lift (validateAssetPair (Asset0 a) (Asset1 a)) ;;;
  fail_if ((FeeBips a <? MinPoolFeeBips) || (MaxPoolFeeBips <? FeeBips a))
          ErrInvalidPoolFee ;;;
  let* cfg := GetTreasuryConfig in
  fail_if (negb (bool_decide (actor = TreasuryConfig.Governance cfg))) ErrUnauthorized ;;;
  let* existing := catch (GetPool (Asset0 a) (Asset1 a)) in
  match existing with
  | inl _ => fail ErrPoolExists
  | inr e =>
      fail_if (negb (errors_Is e ErrPoolNotFound)) e ;;;
      let '(asset0, asset1) := sortedPair (Asset0 a) (Asset1 a) in
      let pool := Pool.mk asset0 asset1 (FeeBips a) 0 0 0 in
      PutPool pool ;;;
      ret (ResultBytes (Result.mk asset0 asset1 (FeeBips a)))
  end.

Definition ComputeUnits : Z := CreatePoolComputeUnits.
Definition ValidRange : Z * Z := AlwaysValid.
End action.
End CreatePool.

Module AddLiquidity.

Definition AddLiquidityComputeUnits : Z := 4.
Definition MaxAddLiquiditySize : Z := 512.

Record t := mk { Asset0 : Z; Asset1 : Z; Amount0 : Z; Amount1 : Z; MinLP : Z }.

#[global, refine] Instance struct : Struct t :=
  {| s_types := [TU8; TU8; TU64; TU64; TU64];
     s_fields a := [FU8 (Asset0 a); FU8 (Asset1 a); FU64 (Amount0 a); FU64 (Amount1 a);
                    FU64 (MinLP a)];
     s_of_fields fs := match fs with
                       | [FU8 x; FU8 y; FU64 n; FU64 m; FU64 l] => Some (mk x y n m l)
                       | _ => None
                       end;
     s_ok a := u8 (Asset0 a) /\ u8 (Asset1 a) /\ u64 (Amount0 a) /\ u64 (Amount1 a)
               /\ u64 (MinLP a) |}.
Proof. all: struct_laws. Defined.

Module Result.
Record t := mk { MintedLP : Z; LPBalance : Z; Reserve0 : Z; Reserve1 : Z; TotalLP : Z }.
#[global, refine] Instance struct : Struct t :=
  {| s_types := [TU64; TU64; TU64; TU64; TU64];
     s_fields r := [FU64 (MintedLP r); FU64 (LPBalance r); FU64 (Reserve0 r);
                    FU64 (Reserve1 r); FU64 (TotalLP r)];
     s_of_fields fs := match fs with
                       | [FU64 a; FU64 b; FU64 c; FU64 d; FU64 e] => Some (mk a b c d e)
                       | _ => None
                       end;
     s_ok r := u64 (MintedLP r) /\ u64 (LPBalance r) /\ u64 (Reserve0 r)
               /\ u64 (Reserve1 r) /\ u64 (TotalLP r) |}.
Proof. all: struct_laws. Defined.
End Result.

Section action.
Context {PF : Platform} {M : Type} {MU : Mutable M}.

Definition GetTypeID : Z := AddLiquidityID.
Definition StateKeys (a : t) (actor : Address) (_ : ID) : gmap bytes Permissions :=
  let rw := perm_or state_Read state_Write in
  state_keys [(BalanceKey actor, rw); (VAIBalanceKey actor, rw);
              (PoolKey (Asset0 a) (Asset1 a), rw);
              (LPBalanceKey (Asset0 a) (Asset1 a) actor, rw)].
Definition Bytes (a : t) : Outcome bytes := pack AddLiquidityID MaxAddLiquiditySize a.
Definition Unmarshal (b : bytes) : Outcome t := unpack AddLiquidityID b.
Definition ResultBytes (r : Result.t) : bytes :=
  pack_result AddLiquidityID MaxAddLiquiditySize r.
Definition UnmarshalResult (b : bytes) : Outcome Result.t := unpack_result b.

(** The LP tokens a deposit earns: lines 104-124 of the handler. *)
Definition minted_lp (pool : Pool.t) (amount0Pool amount1Pool : Z) : Outcome Z :=
  if Pool.TotalLP pool =? 0 then
    let? product := smath_Mul amount0Pool amount1Pool in
    intSqrt product
  else
    let? _ := guard ((Pool.Reserve0 pool =? 0) || (Pool.Reserve1 pool =? 0))
                    ErrInsufficientLiquidity in
    let? lp0 := mulDiv amount0Pool (Pool.TotalLP pool) (Pool.Reserve0 pool) in
    let? lp1 := mulDiv amount1Pool (Pool.TotalLP pool) (Pool.Reserve1 pool) in
    Ok (minU64 lp0 lp1).

Definition Execute (a : t) (_ : Z) (actor : Address) (_ : ID) : ST M bytes :=
  lift (validateAssetPair (Asset0 a) (Asset1 a)) ;;;
  fail_if ((Amount0 a =? 0) || (Amount1 a =? 0)) ErrInvalidLiquidityAmount ;;;
  let* pool := GetPool (Asset0 a) (Asset1 a) in
  let* amounts := lift (mapPairAmounts (Asset0 a) (Asset1 a) (Amount0 a) (Amount1 a) pool) in
  let '(amount0Pool, amount1Pool) := amounts in
  subAssetBalance actor (Asset0 a) (Amount0 a) ;;;
  subAssetBalance actor (Asset1 a) (Amount1 a) ;;;
  let* minted := lift (minted_lp pool amount0Pool amount1Pool) in
  fail_if ((minted =? 0) || (minted <? MinLP a)) ErrSlippageExceeded ;;;
  let* nextReserve0 := lift (smath_Add (Pool.Reserve0 pool) amount0Pool) in
  let* nextReserve1 := lift (smath_Add (Pool.Reserve1 pool) amount1Pool) in
  let* nextTotalLP := lift (smath_Add (Pool.TotalLP pool) minted) in
  let pool := Pool.mk (Pool.Asset0 pool) (Pool.Asset1 pool) (Pool.FeeBips pool)
                      nextReserve0 nextReserve1 nextTotalLP in
  PutPool pool ;;;
  let* lpBalance := AddLPBalance (Pool.Asset0 pool) (Pool.Asset1 pool) actor minted in
  ret (ResultBytes (Result.mk minted lpBalance (Pool.Reserve0 pool) (Pool.Reserve1 pool)
                              (Pool.TotalLP pool))).

Definition ComputeUnits : Z := AddLiquidityComputeUnits.
Definition ValidRange : Z * Z := AlwaysValid.
End action.
End AddLiquidity.

Module RemoveLiquidity.

Definition RemoveLiquidityComputeUnits : Z := 4.
Definition MaxRemoveLiquiditySize : Z := 512.

Record t := mk { Asset0 : Z; Asset1 : Z; LPAmount : Z; MinAmount0 : Z; MinAmount1 : Z }.

#[global, refine] Instance struct : Struct t :=
  {| s_types := [TU8; TU8; TU64; TU64; TU64];
     s_fields a := [FU8 (Asset0 a); FU8 (Asset1 a); FU64 (LPAmount a); FU64 (MinAmount0 a);
                    FU64 (MinAmount1 a)];
     s_of_fields fs := match fs with
                       | [FU8 x; FU8 y; FU64 l; FU64 n; FU64 m] => Some (mk x y l n m)
                       | _ => None
                       end;
     s_ok a := u8 (Asset0 a) /\ u8 (Asset1 a) /\ u64 (LPAmount a) /\ u64 (MinAmount0 a)
               /\ u64 (MinAmount1 a) |}.
Proof. all: struct_laws. Defined.

Module Result.
Record t := mk { Amount0Out : Z; Amount1Out : Z; LPBalance : Z; Reserve0 : Z;
                 Reserve1 : Z; TotalLP : Z }.
#[global, refine] Instance struct : Struct t :=
  {| s_types := [TU64; TU64; TU64; TU64; TU64; TU64];
     s_fields r := [FU64 (Amount0Out r); FU64 (Amount1Out r); FU64 (LPBalance r);
                    FU64 (Reserve0 r); FU64 (Reserve1 r); FU64 (TotalLP r)];
     s_of_fields fs := match fs with
                       | [FU64 a; FU64 b; FU64 c; FU64 d; FU64 e; FU64 f] =>
                           Some (mk a b c d e f)
                       | _ => None
                       end;
     s_ok r := u64 (Amount0Out r) /\ u64 (Amount1Out r) /\ u64 (LPBalance r)
               /\ u64 (Reserve0 r) /\ u64 (Reserve1 r) /\ u64 (TotalLP r) |}.
Proof. all: struct_laws. Defined.
End Result.

Section action.
Context {PF : Platform} {M : Type} {MU : Mutable M}.

Definition GetTypeID : Z := RemoveLiquidityID.
Definition StateKeys (a : t) (actor : Address) (_ : ID) : gmap bytes Permissions :=
  let rw := perm_or state_Read state_Write in
  state_keys [(BalanceKey actor, rw); (VAIBalanceKey actor, rw);
              (PoolKey (Asset0 a) (Asset1 a), rw);
              (LPBalanceKey (Asset0 a) (Asset1 a) actor, rw)].
Definition Bytes (a : t) : Outcome bytes := pack RemoveLiquidityID MaxRemoveLiquiditySize a.
Definition Unmarshal (b : bytes) : Outcome t := unpack RemoveLiquidityID b.
Definition ResultBytes (r : Result.t) : bytes :=
  pack_result RemoveLiquidityID MaxRemoveLiquiditySize r.
Definition UnmarshalResult (b : bytes) : Outcome Result.t := unpack_result b.

Definition Execute (a : t) (_ : Z) (actor : Address) (_ : ID) : ST M bytes :=
  lift (validateAssetPair (Asset0 a) (Asset1 a)) ;;;
  fail_if (LPAmount a =? 0) ErrInvalidLiquidityAmount ;;;
  let* pool := GetPool (Asset0 a) (Asset1 a) in
  fail_if ((Pool.TotalLP pool =? 0) || (Pool.Reserve0 pool =? 0) || (Pool.Reserve1 pool =? 0))
          ErrInsufficientLiquidity ;;;
  let* lpBalance := GetLPBalance (Pool.Asset0 pool) (Pool.Asset1 pool) actor in
  fail_if (lpBalance <? LPAmount a) ErrInsufficientLPBalance ;;;
  let* out0Pool := lift (mulDiv (LPAmount a) (Pool.Reserve0 pool) (Pool.TotalLP pool)) in
  let* out1Pool := lift (mulDiv (LPAmount a) (Pool.Reserve1 pool) (Pool.TotalLP pool)) in
  fail_if ((out0Pool =? 0) || (out1Pool =? 0)) ErrInsufficientLiquidity ;;;
  let* mins := lift (mapPairAmounts (Asset0 a) (Asset1 a) (MinAmount0 a) (MinAmount1 a) pool) in
  let '(min0Pool, min1Pool) := mins in
  fail_if ((out0Pool <? min0Pool) || (out1Pool <? min1Pool)) ErrSlippageExceeded ;;;
  let* nextReserve0 := lift (smath_Sub (Pool.Reserve0 pool) out0Pool) in
  let* nextReserve1 := lift (smath_Sub (Pool.Reserve1 pool) out1Pool) in
  let* nextTotalLP := lift (smath_Sub (Pool.TotalLP pool) (LPAmount a)) in
  let pool := Pool.mk (Pool.Asset0 pool) (Pool.Asset1 pool) (Pool.FeeBips pool)
                      nextReserve0 nextReserve1 nextTotalLP in
  PutPool pool ;;;
  let* nextLPBalance :=
    SubLPBalance (Pool.Asset0 pool) (Pool.Asset1 pool) actor (LPAmount a) in
  addAssetBalance actor (Pool.Asset0 pool) out0Pool ;;;
  addAssetBalance actor (Pool.Asset1 pool) out1Pool ;;;
  let* outs := lift (mapPoolAmountsToPair pool (Asset0 a) (Asset1 a) out0Pool out1Pool) in
  let '(out0, out1) := outs in
  ret (ResultBytes (Result.mk out0 out1 nextLPBalance (Pool.Reserve0 pool)
                              (Pool.Reserve1 pool) (Pool.TotalLP pool))).

Definition ComputeUnits : Z := RemoveLiquidityComputeUnits.
Definition ValidRange : Z * Z := AlwaysValid.
End action.
End RemoveLiquidity.

Module SwapExactIn.

Definition SwapExactInComputeUnits : Z := 3.
Definition MaxSwapExactInSize : Z := 256.

Record t := mk { AssetIn : Z; AssetOut : Z; AmountIn : Z; MinAmountOut : Z }.

#[global, refine] Instance struct : Struct t :=
  {| s_types := [TU8; TU8; TU64; TU64];
     s_fields a := [FU8 (AssetIn a); FU8 (AssetOut a); FU64 (AmountIn a);
                    FU64 (MinAmountOut a)];
     s_of_fields fs := match fs with
                       | [FU8 x; FU8 y; FU64 n; FU64 m] => Some (mk x y n m)
                       | _ => None
                       end;
     s_ok a := u8 (AssetIn a) /\ u8 (AssetOut a) /\ u64 (AmountIn a)
               /\ u64 (MinAmountOut a) |}.
Proof. all: struct_laws. Defined.

Module Result.
Record t := mk { AmountOut : Z; ReceiverBalance : Z; Reserve0 : Z; Reserve1 : Z }.
#[global, refine] Instance struct : Struct t :=
  {| s_types := [TU64; TU64; TU64; TU64];
     s_fields r := [FU64 (AmountOut r); FU64 (ReceiverBalance r); FU64 (Reserve0 r);
                    FU64 (Reserve1 r)];
     s_of_fields fs := match fs with
                       | [FU64 a; FU64 b; FU64 c; FU64 d] => Some (mk a b c d)
                       | _ => None
                       end;
     s_ok r := u64 (AmountOut r) /\ u64 (ReceiverBalance r) /\ u64 (Reserve0 r)
               /\ u64 (Reserve1 r) |}.
Proof. all: struct_laws. Defined.
End Result.

Section action.
Context {PF : Platform} {M : Type} {MU : Mutable M}.

Definition GetTypeID : Z := SwapExactInID.
Definition StateKeys (a : t) (actor : Address) (_ : ID) : gmap bytes Permissions :=
  let rw := perm_or state_Read state_Write in
  state_keys [(BalanceKey actor, rw); (VAIBalanceKey actor, rw);
              (PoolKey (AssetIn a) (AssetOut a), rw)].
Definition Bytes (a : t) : Outcome bytes := pack SwapExactInID MaxSwapExactInSize a.
Definition Unmarshal (b : bytes) : Outcome t := unpack SwapExactInID b.
Definition ResultBytes (r : Result.t) : bytes :=
  pack_result SwapExactInID MaxSwapExactInSize r.
Definition UnmarshalResult (b : bytes) : Outcome Result.t := unpack_result b.

(** The switch of lines 92-103: the direction, the reserve of each side. *)
Definition orient (a : t) (pool : Pool.t) : Outcome (bool * Z * Z) :=
  if (Pool.Asset0 pool =? AssetIn a) && (Pool.Asset1 pool =? AssetOut a)
  then Ok (true, Pool.Reserve0 pool, Pool.Reserve1 pool)
  else if (Pool.Asset0 pool =? AssetOut a) && (Pool.Asset1 pool =? AssetIn a)
  then Ok (false, Pool.Reserve1 pool, Pool.Reserve0 pool)
  else Err ErrInvalidAssetPair.

(** Lines 134-152: the reserves after the trade. *)
Definition next_reserves (inIs0 : bool) (pool : Pool.t) (amountIn amountOut : Z)
    : Outcome (Z * Z) :=
  if inIs0 then
    let? r0 := smath_Add (Pool.Reserve0 pool) amountIn in
    let? r1 := smath_Sub (Pool.Reserve1 pool) amountOut in
    Ok (r0, r1)
  else
    let? r1 := smath_Add (Pool.Reserve1 pool) amountIn in
    let? r0 := smath_Sub (Pool.Reserve0 pool) amountOut in
    Ok (r0, r1).

Definition Execute (a : t) (_ : Z) (actor : Address) (_ : ID) : ST M bytes :=
  lift (validateAssetPair (AssetIn a) (AssetOut a)) ;;;
  fail_if (AmountIn a =? 0) ErrInvalidSwapAmount ;;;
  let* pool := GetPool (AssetIn a) (AssetOut a) in
  let* direction := lift (orient a pool) in
  let '(inIs0, reserveIn, reserveOut) := direction in
  fail_if ((reserveIn =? 0) || (reserveOut =? 0)) ErrInsufficientLiquidity ;;;
  subAssetBalance actor (AssetIn a) (AmountIn a) ;;;
  let* amountInWithFee :=
    lift (mulDiv (AmountIn a) (wrap_u16 (10000 - Pool.FeeBips pool)) 10000) in
  fail_if (amountInWithFee =? 0) ErrInvalidSwapAmount ;;;
  let* den := lift (smath_Add reserveIn amountInWithFee) in
  let* amountOut := lift (mulDiv reserveOut amountInWithFee den) in
  fail_if ((amountOut =? 0) || (amountOut <? MinAmountOut a)) ErrSlippageExceeded ;;;
  fail_if (reserveOut <? amountOut) ErrInsufficientLiquidity ;;;
  let* reserves := lift (next_reserves inIs0 pool (AmountIn a) amountOut) in
  let '(reserve0, reserve1) := reserves in
  let pool := Pool.mk (Pool.Asset0 pool) (Pool.Asset1 pool) (Pool.FeeBips pool)
                      reserve0 reserve1 (Pool.TotalLP pool) in
  PutPool pool ;;;
  let* receiverBalance := addAssetBalance actor (AssetOut a) amountOut in
  ret (ResultBytes (Result.mk amountOut receiverBalance (Pool.Reserve0 pool)
                              (Pool.Reserve1 pool))).

Definition ComputeUnits : Z := SwapExactInComputeUnits.
Definition ValidRange : Z * Z := AlwaysValid.
End action.
End SwapExactIn.
