(* ===== verification/PoolFacts.v ===== *)
(** * What the pool actions do

    Every successful pool action is a [pool_step]: the pool gives the actor a
    (possibly negative) amount of each asset and of LP tokens, and nobody else
    is affected. The properties of the four actions follow. *)
From S2P Require Import Prelude Errors Go Platform Storage Concrete Balance Action AmmMath.
From S2P Require Import Pools.

(** The one pool there can be: VEIL against VAI. *)
Definition pool_at {PF : Platform} (m : gmap bytes bytes) : option Pool.t :=
  stored Pool.parse m (PoolKey AssetVEIL AssetVAI).

Definition pool_wf (p : Pool.t) : Prop :=
  Pool.Asset0 p = AssetVEIL /\ Pool.Asset1 p = AssetVAI /\
  MinPoolFeeBips <= Pool.FeeBips p <= MaxPoolFeeBips.

(** The LP balances add up to the pool's total. *)
Definition pool_inv {PF : Platform} (m : gmap bytes bytes) : Prop :=
  match pool_at m with
  | Some p => pool_wf p /\ prefix_total lpBalancePrefix m = Pool.TotalLP p
  | None => m !! PoolKey AssetVEIL AssetVAI = None /\ prefix_total lpBalancePrefix m = 0
  end.

(** A pool nobody holds a share of is empty: so every run leaves it
    ([Lifecycle.pool_backed_run]). *)
Definition pool_backed {PF : Platform} (m : gmap bytes bytes) : Prop :=
  forall p, pool_at m = Some p -> Pool.TotalLP p = 0 ->
  Pool.Reserve0 p = 0 /\ Pool.Reserve1 p = 0.

Lemma pool_backed_none {PF : Platform} m : pool_at m = None -> pool_backed m.
Proof. intros H p Hp. congruence. Qed.

Definition reserve (asset : Z) (p : Pool.t) : Z :=
  if asset =? AssetVEIL then Pool.Reserve0 p else Pool.Reserve1 p.

Lemma reserve_u64 asset p : Pool.ok p -> u64 (reserve asset p).
Proof. intros (_ & _ & _ & ? & ? & _). unfold reserve. by destruct (_ =? _). Qed.

Lemma pool_next_ok f r0 r1 l :
  MinPoolFeeBips <= f <= MaxPoolFeeBips -> u64 r0 -> u64 r1 -> u64 l ->
  Pool.ok (Pool.mk AssetVEIL AssetVAI f r0 r1 l) /\ pool_wf (Pool.mk AssetVEIL AssetVAI f r0 r1 l).
Proof.
  unfold MinPoolFeeBips, MaxPoolFeeBips. intros.
  split; [|done]. split_and!; try done; by unfold u16; cbn; lia.
Qed.

(** The pool [p] becomes [p'], paying [d0] VEIL, [d1] VAI and [dl] LP tokens to
    [actor]. *)
Record pool_step {PF : Platform} (m m' : gmap bytes bytes) (actor : Address)
    (p p' : Pool.t) (d0 d1 dl : Z) : Prop := {
  ps_before : pool_at m = Some p;
  ps_after : pool_at m' = Some p';
  ps_ok : Pool.ok p';
  ps_wf : pool_wf p';
  ps_fee : Pool.FeeBips p' = Pool.FeeBips p;
  ps_reserve0 : Pool.Reserve0 p' = Pool.Reserve0 p - d0;
  ps_reserve1 : Pool.Reserve1 p' = Pool.Reserve1 p - d1;
  ps_lp : Pool.TotalLP p' = Pool.TotalLP p + dl;
  ps_veil : prefix_total balancePrefix m' = prefix_total balancePrefix m + d0;
  ps_vai : prefix_total vaiBalancePrefix m' = prefix_total vaiBalancePrefix m + d1;
  ps_lp_total : prefix_total lpBalancePrefix m' = prefix_total lpBalancePrefix m + dl;
  ps_cell0 : cell m' (BalanceKey actor) = cell m (BalanceKey actor) + d0;
  ps_cell1 : cell m' (VAIBalanceKey actor) = cell m (VAIBalanceKey actor) + d1;
  ps_cell_lp : cell m' (LPBalanceKey AssetVEIL AssetVAI actor)
               = cell m (LPBalanceKey AssetVEIL AssetVAI actor) + dl;
  ps_range0 : u64 (cell m' (BalanceKey actor));
  ps_range1 : u64 (cell m' (VAIBalanceKey actor))
}.

Lemma pool_step_inv {PF : Platform} m m' actor p p' d0 d1 dl :
  pool_step m m' actor p p' d0 d1 dl -> pool_inv m -> pool_inv m'.
Proof.
  intros [] H. unfold pool_inv in *. rewrite ps_after0. rewrite ps_before0 in H.
  split; [done|]. lia.
Qed.

(** A supply is what the balances and the pool hold together. *)
Definition supply {PF : Platform} (p : byte) (asset : Z) (m : gmap bytes bytes) : Z :=
  prefix_total p m + from_option (reserve asset) 0 (pool_at m).

Lemma pool_step_conserves {PF : Platform} m m' actor p p' d0 d1 dl :
  pool_step m m' actor p p' d0 d1 dl ->
  supply balancePrefix AssetVEIL m' = supply balancePrefix AssetVEIL m /\
  supply vaiBalancePrefix AssetVAI m' = supply vaiBalancePrefix AssetVAI m.
Proof.
  intros []. unfold supply. rewrite ps_after0, ps_before0. cbn. lia.
Qed.

Section facts.
Context {PF : Platform} {PS : PlatformSpec} {M : Type} {MU : Mutable M} {MS : MutableSpec M}.

(** [GetPool] on a validated pair reads the pool. *)
Lemma GetPool_at a b u p (s s' : M) :
  validateAssetPair a b = Ok u -> GetPool a b s = (Ok p, s') ->
  s' = s /\ pool_at (contents s) = Some p /\ Pool.ok p.
Proof.
  intros Hp%validateAssetPair_ok H. apply get_parsed_ok in H as [-> H].
  assert (PoolKey a b = PoolKey AssetVEIL AssetVAI) as E.
  { destruct Hp as [[-> ->]|[-> ->]]; [done | apply PoolKey_comm]. }
  rewrite E in H. split; [done|]. split; [done|].
  eapply (stored_ok _ _ _ _ _ Pool_parse_ok H).
Qed.

Lemma pool_at_put m p :
  Pool.ok p -> pool_wf p ->
  pool_at (<[PoolKey (Pool.Asset0 p) (Pool.Asset1 p) := Pool.encode p]> m) = Some p.
Proof.
  intros Hok (E0 & E1 & _). unfold pool_at. rewrite E0, E1.
  apply stored_insert_eq, Pool_roundtrip; [done|]. by rewrite E0, E1.
Qed.

Ltac pool_read :=
  match goal with
  | V : validateAssetPair _ _ = Ok _, H : GetPool _ _ _ = (Ok _, _),
    P : pool_at _ = Some _ |- _ =>
      let P' := fresh in let K := fresh "Hok" in
      eapply GetPool_at in H; [|exact V]; destruct H as (-> & P' & K);
      rewrite P in P'; injection P' as <-
  end.
Ltac pair_of N := match goal with V : validateAssetPair _ _ = Ok _ |- _ => rename V into N end.

(** The contents after the balance operations and the pool update. *)
Ltac asset_steps :=
  repeat match goal with
  | H : subAssetBalance _ _ _ _ = (Ok _, _) |- _ =>
      let C := fresh "C" in let U := fresh "U" in
      apply subAssetBalance_ok in H; [destruct H as (C & U & H) | u64_side]
  | H : addAssetBalance _ _ _ _ = (Ok _, _) |- _ =>
      let C := fresh "C" in let U := fresh "U" in
      apply addAssetBalance_ok in H; [destruct H as (C & U & H) | u64_side]
  | H : PutPool _ _ = (Ok _, _) |- _ => apply put_ok in H; cbn [Pool.Asset0 Pool.Asset1] in H
  end.

(** Prove a [pool_step] from the chain of contents equations. *)
Ltac pool_step_done :=
  lazymatch goal with
  | |- pool_step _ _ _ _ ?q _ _ _ =>
      let K := fresh "K" in
      assert (K : Pool.ok q /\ pool_wf q)
        by (apply pool_next_ok; [assumption | u64_side..]);
      destruct K; try subst q
  end;
  repeat match goal with H : contents _ = _ |- _ => rewrite H in *; clear H end;
  reads_hyps; constructor; cbn [Pool.FeeBips Pool.Reserve0 Pool.Reserve1 Pool.TotalLP];
  unfold pool_at in *; reads; try assumption;
  first [ by apply (pool_at_put _ (Pool.mk _ _ _ _ _ _)) | lia ].

(** The pool after the step is the one that was written. *)
Ltac pool_exists :=
  match goal with
  | H : contents _ = <[PoolKey _ _ := Pool.encode ?q]> _ |- ex _ => exists q
  end.

(** ** SwapExactIn *)

Lemma orient_ok a pool b i o u :
  validateAssetPair (SwapExactIn.AssetIn a) (SwapExactIn.AssetOut a) = Ok u ->
  pool_wf pool -> SwapExactIn.orient a pool = Ok (b, i, o) ->
  b = (SwapExactIn.AssetIn a =? AssetVEIL) /\
  i = reserve (SwapExactIn.AssetIn a) pool /\ o = reserve (SwapExactIn.AssetOut a) pool.
Proof.
  intros Hp%validateAssetPair_ok (E0 & E1 & _) H. unfold SwapExactIn.orient in H.
  unfold reserve, AssetVEIL, AssetVAI in *. rewrite E0, E1 in H.
  destruct Hp as [[E2 E3]|[E2 E3]]; rewrite E2, E3 in *; cbn in *; by simplify_eq.
Qed.

(** The payout of a swap, from the amount and the reserves. *)
Definition swap_in_fee (amountIn fee : Z) : Z := amountIn * (10000 - fee) / 10000.
Definition swap_out (reserveIn reserveOut inFee : Z) : Z :=
  reserveOut * inFee / (reserveIn + inFee).

Lemma swap_ok a ts actor tx out (s s' : M) p :
  s_ok a -> pool_at (contents s) = Some p -> pool_wf p ->
  SwapExactIn.Execute a ts actor tx s = (Ok out, s') ->
  let i := SwapExactIn.AssetIn a in
  let o := SwapExactIn.AssetOut a in
  let inFee := swap_in_fee (SwapExactIn.AmountIn a) (Pool.FeeBips p) in
  let amountOut := swap_out (reserve i p) (reserve o p) inFee in
  ((i = AssetVEIL /\ o = AssetVAI) \/ (i = AssetVAI /\ o = AssetVEIL)) /\
  0 < SwapExactIn.AmountIn a /\ 0 < inFee /\ 0 < reserve i p /\ 0 < reserve o p /\
  0 < amountOut /\ SwapExactIn.MinAmountOut a <= amountOut /\
  exists p', pool_step (contents s) (contents s') actor p p'
               (if i =? AssetVEIL then - SwapExactIn.AmountIn a else amountOut)
               (if i =? AssetVEIL then amountOut else - SwapExactIn.AmountIn a) 0.
Proof.
  intros (Hi & Ho & Ha & Hmin) Hp Hwf H. cbv zeta.
  unfold SwapExactIn.Execute in H. go_inv. pool_read.
  pose proof Hwf as (W0 & W1 & Hfee). unfold MinPoolFeeBips, MaxPoolFeeBips in Hfee.
  pose proof Hok as (_ & _ & Hf & Hr0 & Hr1 & Hlp). pair_of Hpair.
  match goal with Hd : SwapExactIn.orient _ _ = _ |- _ =>
    apply (orient_ok _ _ _ _ _ _ Hpair Hwf) in Hd as (-> & -> & ->) end.
  pose proof (reserve_u64 (SwapExactIn.AssetIn a) p Hok) as Hri.
  pose proof (reserve_u64 (SwapExactIn.AssetOut a) p Hok) as Hro.
  rewrite (wrap_u16_small (10000 - _)) in * by (unfold u16 in *; lia).
  repeat first [mulDiv_step | smath_step]. asset_steps.
  match goal with
  | Hx : ?x = SwapExactIn.AmountIn a * _ / 10000, Hy : ?y = _ * ?x / ?d, Hd : ?d = _ + ?x |- _ =>
      rename x into inFee, y into amountOut;
      change (inFee = swap_in_fee (SwapExactIn.AmountIn a) (Pool.FeeBips p)) in Hx;
      rewrite Hd in Hy; rewrite <-Hx; fold (swap_out (reserve (SwapExactIn.AssetIn a) p)
        (reserve (SwapExactIn.AssetOut a) p) inFee) in Hy; rewrite <-Hy
  end.
  apply validateAssetPair_ok in Hpair.
  assert (0 < amountOut) by (unfold u64 in *; lia).
  unfold u64 in Ha, Hri, Hro, U.
  split_and!; try done; try lia.
  rewrite W0, W1 in *.
  unfold SwapExactIn.next_reserves in *.
  destruct Hpair as [[Ei Eo]|[Ei Eo]]; rewrite Ei, Eo in *;
    cbn [reserve asset_key AssetVEIL AssetVAI Z.eqb Pos.eqb] in *; go_inv;
    repeat smath_step; pool_exists; pool_step_done.
Qed.

(** ** AddLiquidity *)

(** The amount of [asset] among the two amounts of a pair action. *)
Definition pick (asset assetA amountA amountB : Z) : Z :=
  if asset =? assetA then amountA else amountB.

Lemma mapPairAmounts_ok a b x y p r0 r1 u :
  validateAssetPair a b = Ok u -> pool_wf p -> mapPairAmounts a b x y p = Ok (r0, r1) ->
  r0 = pick AssetVEIL a x y /\ r1 = pick AssetVAI a x y.
Proof.
  intros Hp%validateAssetPair_ok (E0 & E1 & _) H. unfold mapPairAmounts, pick in *.
  rewrite E0, E1 in H. unfold AssetVEIL, AssetVAI in *.
  destruct Hp as [[-> ->]|[-> ->]]; cbn in *; by simplify_eq.
Qed.

(** What a deposit of [x] VEIL and [y] VAI earns. *)
Definition lp_for (p : Pool.t) (x y : Z) : Z :=
  if Pool.TotalLP p =? 0 then Z.sqrt (x * y)
  else Z.min (x * Pool.TotalLP p / Pool.Reserve0 p) (y * Pool.TotalLP p / Pool.Reserve1 p).

Lemma minted_lp_ok p x y l :
  Pool.ok p -> u64 x -> u64 y -> AddLiquidity.minted_lp p x y = Ok l ->
  u64 l /\ l = lp_for p x y /\
  (Pool.TotalLP p <> 0 -> 0 < Pool.Reserve0 p /\ 0 < Pool.Reserve1 p).
Proof.
  intros (_ & _ & _ & H0 & H1 & Hl) Hx Hy. unfold AddLiquidity.minted_lp, lp_for.
  destruct (Pool.TotalLP p =? 0) eqn:E; intros H; go_inv; repeat first [mulDiv_step | smath_step].
  - subst. apply intSqrt_root in H as (-> & ? & _); [|done]. by split_and!.
  - rewrite minU64_min. subst. unfold u64 in *. split_and!; [lia|lia|done|lia].
Qed.

Lemma add_liquidity_ok a ts actor tx out (s s' : M) p :
  s_ok a -> pool_at (contents s) = Some p -> pool_wf p ->
  AddLiquidity.Execute a ts actor tx s = (Ok out, s') ->
  let x := pick AssetVEIL (AddLiquidity.Asset0 a) (AddLiquidity.Amount0 a) (AddLiquidity.Amount1 a) in
  let y := pick AssetVAI (AddLiquidity.Asset0 a) (AddLiquidity.Amount0 a) (AddLiquidity.Amount1 a) in
  0 < x /\ 0 < y /\ 0 < lp_for p x y /\ AddLiquidity.MinLP a <= lp_for p x y /\
  (Pool.TotalLP p <> 0 -> 0 < Pool.Reserve0 p /\ 0 < Pool.Reserve1 p) /\
  exists p', pool_step (contents s) (contents s') actor p p' (- x) (- y) (lp_for p x y).
Proof.
  intros (Hi & Ho & Ha & Hb & Hmin) Hp Hwf H. cbv zeta.
  unfold AddLiquidity.Execute, AddLPBalance in H. go_inv. pool_read.
  pose proof Hwf as (W0 & W1 & Hfee).
  pose proof Hok as (_ & _ & Hf & Hr0 & Hr1 & Hlp). pair_of Hpair.
  match goal with Hd : mapPairAmounts _ _ _ _ _ = _ |- _ =>
    apply (mapPairAmounts_ok _ _ _ _ _ _ _ _ Hpair Hwf) in Hd as (-> & ->) end.
  apply validateAssetPair_ok in Hpair. asset_steps. cbn [Pool.Asset0 Pool.Asset1] in *.
  rewrite W0, W1 in *.
  destruct Hpair as [[Ei Eo]|[Ei Eo]]; rewrite Ei, Eo in *;
    unfold pick in *; cbn [asset_key AssetVEIL AssetVAI Z.eqb Pos.eqb] in *;
    match goal with Hm : AddLiquidity.minted_lp _ _ _ = _ |- _ =>
      apply minted_lp_ok in Hm as (Ul & Hlpfor & Hpos); [|done..]; rewrite <-Hlpfor end;
    repeat smath_step; repeat op_step;
    (split_and!; [unfold u64 in *; lia..|done|]);
    pool_exists; pool_step_done.
Qed.

(** ** RemoveLiquidity *)

(** The share of a reserve that [l] LP tokens of [p] redeem. *)
Definition redeem (p : Pool.t) (asset l : Z) : Z := l * reserve asset p / Pool.TotalLP p.

Lemma remove_liquidity_ok a ts actor tx out (s s' : M) p :
  s_ok a -> pool_at (contents s) = Some p -> pool_wf p ->
  RemoveLiquidity.Execute a ts actor tx s = (Ok out, s') ->
  let l := RemoveLiquidity.LPAmount a in
  let x := redeem p AssetVEIL l in
  let y := redeem p AssetVAI l in
  0 < l <= Pool.TotalLP p /\ 0 < Pool.Reserve0 p /\ 0 < Pool.Reserve1 p /\
  0 < x /\ 0 < y /\
  pick AssetVEIL (RemoveLiquidity.Asset0 a) (RemoveLiquidity.MinAmount0 a)
       (RemoveLiquidity.MinAmount1 a) <= x /\
  pick AssetVAI (RemoveLiquidity.Asset0 a) (RemoveLiquidity.MinAmount0 a)
       (RemoveLiquidity.MinAmount1 a) <= y /\
  l <= cell (contents s) (LPBalanceKey AssetVEIL AssetVAI actor) /\
  exists p', pool_step (contents s) (contents s') actor p p' x y (- l).
Proof.
  intros (Hi & Ho & Ha & Hm0 & Hm1) Hp Hwf H. cbv zeta.
  unfold RemoveLiquidity.Execute, SubLPBalance, GetLPBalance in H. go_inv. pool_read.
  pose proof Hwf as (W0 & W1 & Hfee).
  pose proof Hok as (_ & _ & Hf & Hr0 & Hr1 & Hlp). pair_of Hpair.
  match goal with Hd : mapPairAmounts _ _ _ _ _ = _ |- _ =>
    apply (mapPairAmounts_ok _ _ _ _ _ _ _ _ Hpair Hwf) in Hd as (-> & ->) end.
  match goal with Hr : read_cell _ _ = (Ok (_, ?e), _) |- _ =>
    apply read_cell_ok in Hr as (-> & -> & Hbal & _) end.
  repeat first [mulDiv_step | smath_step]. cbn [Pool.Asset0 Pool.Asset1] in *.
  rewrite W0, W1 in *. asset_steps. repeat op_step.
  cbn [asset_key AssetVEIL AssetVAI Z.eqb Pos.eqb] in *. unfold redeem.
  repeat match goal with
  | A : _ = _ * Pool.Reserve0 p / _ |- _ =>
      change (Pool.Reserve0 p) with (reserve AssetVEIL p) in A; rewrite <-A in *
  | A : _ = _ * Pool.Reserve1 p / _ |- _ =>
      change (Pool.Reserve1 p) with (reserve AssetVAI p) in A; rewrite <-A in *
  end.
  split_and!; try (unfold u64 in *; lia).
  pool_exists; pool_step_done.
Qed.

(** ** CreatePool *)

Lemma Pool_parse_error v : Pool.parse v <> Err ErrPoolNotFound.
Proof. unfold Pool.parse. by destruct (_ <? _). Qed.

Lemma create_pool_ok a ts actor tx out (s s' : M) :
  s_ok a -> CreatePool.Execute a ts actor tx s = (Ok out, s') ->
  let p := Pool.mk AssetVEIL AssetVAI (CreatePool.FeeBips a) 0 0 0 in
  (exists cfg, stored TreasuryConfig.parse (contents s) TreasuryConfigKey = Some cfg /\
               actor = TreasuryConfig.Governance cfg) /\
  contents s !! PoolKey AssetVEIL AssetVAI = None /\ pool_wf p /\ Pool.ok p /\
  pool_at (contents s') = Some p /\
  contents s' = <[PoolKey AssetVEIL AssetVAI := Pool.encode p]> (contents s).
Proof.
  intros (Hi & Ho & Hf) H. cbv zeta. unfold CreatePool.Execute in H. go_inv.
  match goal with G : GetTreasuryConfig _ = _ |- _ => apply get_parsed_ok in G as [-> Hcfg] end.
  match goal with G : catch _ _ = _ |- _ => apply catch_ok in G; rename G into Hcatch end.
  match goal with r : (Pool.t + Error)%type |- _ => destruct r as [q|e]; [done|] end. go_inv.
  match goal with G : errors_Is _ _ = true |- _ => apply bool_decide_eq_true in G as -> end.
  match goal with V : validateAssetPair _ _ = _ |- _ =>
    apply validateAssetPair_ok in V as Hpair end.
  assert (HK : PoolKey (CreatePool.Asset0 a) (CreatePool.Asset1 a)
               = PoolKey AssetVEIL AssetVAI /\
               sortedPair (CreatePool.Asset0 a) (CreatePool.Asset1 a) = (AssetVEIL, AssetVAI)).
  { destruct Hpair as [[-> ->]|[-> ->]]; [done|]. split; [apply PoolKey_comm | done]. }
  destruct HK as [HK HS]. rewrite HS in *. unfold GetPool in Hcatch. rewrite HK in Hcatch.
  apply get_parsed_missed in Hcatch as [-> Hnone]; [|apply Pool_parse_error|done].
  go_inv. asset_steps.
  destruct (pool_next_ok (CreatePool.FeeBips a) 0 0 0) as [? ?]; [done..|].
  split_and!; eauto.
  match goal with G : contents _ = _ |- _ => rewrite G end.
  by apply (pool_at_put _ (Pool.mk _ _ _ _ _ _)).
Qed.
End facts.

(** ** Arithmetic of the properties *)

Lemma swap_in_fee_bounds amt fee :
  0 <= amt -> MinPoolFeeBips <= fee <= MaxPoolFeeBips -> 0 <= swap_in_fee amt fee <= amt.
Proof.
  unfold MinPoolFeeBips, MaxPoolFeeBips, swap_in_fee. intros Ha Hf.
  split; [apply Z.div_pos; nia | apply Z.div_le_upper_bound; nia].
Qed.

(** The product of the reserves does not fall, the payout stays below the
    reserve, and its price is at most the one of the reserves. *)
Lemma swap_out_product ri ro f amt :
  0 < ri -> 0 < ro -> 0 <= f <= amt ->
  ri * ro <= (ri + amt) * (ro - swap_out ri ro f) /\ swap_out ri ro f < ro /\
  swap_out ri ro f * ri <= ro * amt.
Proof.
  intros Hi Ho Hf. unfold swap_out. set (q := ro * f / (ri + f)).
  assert (Hq : q * (ri + f) <= ro * f)
    by (rewrite Z.mul_comm; apply Z.mul_div_le; lia).
  assert (q < ro) by (apply Z.div_lt_upper_bound; nia).
  assert (0 <= q) by (apply Z.div_pos; nia).
  split_and!; [|done|]; nia.
Qed.

(** Redeeming at most the tokens a deposit earned returns at most the deposit. *)
Lemma redeem_bound x k t r t' m :
  0 < r -> 0 < x -> 0 < t -> 0 < k <= m -> t' = t + m -> m <= x * t / r ->
  k * (r + x) / t' <= x.
Proof.
  intros Hr Hx Ht Hk -> Hm. assert (m * r <= x * t).
  { pose proof (Z.mul_div_le (x * t) r Hr). nia. }
  apply Z.div_le_upper_bound; nia.
Qed.

(** All of the first deposit's tokens, and fewer, return at most the deposit. *)
Lemma redeem_first x k t' m : 0 < x -> 0 < k <= m -> t' = 0 + m -> k * (0 + x) / t' <= x.
Proof. intros Hx Hk ->. apply Z.div_le_upper_bound; nia. Qed.

Section pool_properties.
Context {PF : Platform} {PS : PlatformSpec} {M : Type} {MU : Mutable M} {MS : MutableSpec M}.

(** Under the invariant, an action that read the pool read a well-formed one. *)
Lemma pool_inv_read a b u p (s s' : M) :
  pool_inv (contents s) -> validateAssetPair a b = Ok u -> GetPool a b s = (Ok p, s') ->
  pool_at (contents s) = Some p /\ pool_wf p /\ Pool.ok p /\
  prefix_total lpBalancePrefix (contents s) = Pool.TotalLP p.
Proof.
  intros Hinv V H. eapply GetPool_at in H as (-> & Hp & Hok); [|done].
  unfold pool_inv in Hinv. rewrite Hp in Hinv. destruct Hinv. by split_and!.
Qed.

Ltac read_pool :=
  go_inv;
  match goal with
  | I : pool_inv _, V : validateAssetPair _ _ = Ok _, H : GetPool _ _ _ = (Ok ?p, _) |- _ =>
      exists p; exact (pool_inv_read _ _ _ _ _ _ I V H)
  end.

Lemma swap_pool a ts actor tx out (s s' : M) :
  pool_inv (contents s) -> SwapExactIn.Execute a ts actor tx s = (Ok out, s') ->
  exists p, pool_at (contents s) = Some p /\ pool_wf p /\ Pool.ok p /\
            prefix_total lpBalancePrefix (contents s) = Pool.TotalLP p.
Proof. unfold SwapExactIn.Execute. intros. read_pool. Qed.

Lemma add_liquidity_pool a ts actor tx out (s s' : M) :
  pool_inv (contents s) -> AddLiquidity.Execute a ts actor tx s = (Ok out, s') ->
  exists p, pool_at (contents s) = Some p /\ pool_wf p /\ Pool.ok p /\
            prefix_total lpBalancePrefix (contents s) = Pool.TotalLP p.
Proof. unfold AddLiquidity.Execute. intros. read_pool. Qed.

Lemma remove_liquidity_pool a ts actor tx out (s s' : M) :
  pool_inv (contents s) -> RemoveLiquidity.Execute a ts actor tx s = (Ok out, s') ->
  exists p, pool_at (contents s) = Some p /\ pool_wf p /\ Pool.ok p /\
            prefix_total lpBalancePrefix (contents s) = Pool.TotalLP p.
Proof. unfold RemoveLiquidity.Execute. intros. read_pool. Qed.

(** C22: a swap that succeeds never lowers the product of the reserves, pays
    less than the whole reserve, at least the caller's minimum, and at most
    what the reserve ratio gives; both reserves stay positive. *)
Theorem swap_constant_product a ts actor tx out (s s' : M) :
  s_ok a -> pool_inv (contents s) ->
  SwapExactIn.Execute a ts actor tx s = (Ok out, s') ->
  exists p p' paid,
    pool_at (contents s) = Some p /\ pool_at (contents s') = Some p' /\
    Pool.Reserve0 p * Pool.Reserve1 p <= Pool.Reserve0 p' * Pool.Reserve1 p' /\
    0 < Pool.Reserve0 p' /\ 0 < Pool.Reserve1 p' /\
    reserve (SwapExactIn.AssetIn a) p'
      = reserve (SwapExactIn.AssetIn a) p + SwapExactIn.AmountIn a /\
    reserve (SwapExactIn.AssetOut a) p' = reserve (SwapExactIn.AssetOut a) p - paid /\
    SwapExactIn.MinAmountOut a <= paid /\
    paid * reserve (SwapExactIn.AssetIn a) p
      <= reserve (SwapExactIn.AssetOut a) p * SwapExactIn.AmountIn a.
Proof.
  intros Ha Hinv H. destruct (swap_pool _ _ _ _ _ _ _ Hinv H) as (p & Hp & Hwf & Hok & _).
  pose proof (swap_ok _ _ _ _ _ _ _ _ Ha Hp Hwf H) as Hsw; cbv zeta in Hsw.
  destruct Hsw as (Hio & Ha0 & Hf0 & Hri & Hro & Hout & Hmin & p' & []).
  pose proof (swap_in_fee_bounds (SwapExactIn.AmountIn a) (Pool.FeeBips p)
                ltac:(lia) (proj2 (proj2 Hwf))) as Hf.
  pose proof (swap_out_product _ _ _ _ Hri Hro Hf) as (Hk & Hlt & Hprice).
  exists p, p', (swap_out (reserve (SwapExactIn.AssetIn a) p)
                   (reserve (SwapExactIn.AssetOut a) p)
                   (swap_in_fee (SwapExactIn.AmountIn a) (Pool.FeeBips p))).
  destruct Hio as [[Ei Eo]|[Ei Eo]]; rewrite Ei, Eo in *;
    cbn [reserve AssetVEIL AssetVAI Z.eqb Pos.eqb] in *;
    rewrite ps_reserve2, ps_reserve3; split_and!; try done; lia.
Qed.

(** What redeeming returns of one asset, after a deposit, the first included. *)
Lemma redeem_deposit p p' (asset x y k : Z) :
  Pool.ok p -> (asset = AssetVEIL \/ asset = AssetVAI) -> 0 < x -> 0 < y -> 0 < k <= lp_for p x y ->
  (Pool.TotalLP p <> 0 -> 0 < Pool.Reserve0 p /\ 0 < Pool.Reserve1 p) ->
  (Pool.TotalLP p = 0 -> Pool.Reserve0 p = 0 /\ Pool.Reserve1 p = 0) ->
  Pool.TotalLP p' = Pool.TotalLP p + lp_for p x y ->
  Pool.Reserve0 p' = Pool.Reserve0 p - - x -> Pool.Reserve1 p' = Pool.Reserve1 p - - y ->
  redeem p' asset k <= (if asset =? AssetVEIL then x else y).
Proof.
  intros (_ & _ & _ & _ & _ & Ht) Has Hx Hy Hk Hpos Hzero E E0 E1. unfold redeem, reserve.
  rewrite E0, E1, !Z.sub_opp_r. unfold u64 in Ht.
  destruct (Z.eq_dec (Pool.TotalLP p) 0) as [HT|HT].
  - destruct (Hzero HT) as [R0 R1]. rewrite R0, R1. rewrite HT in E.
    destruct Has as [-> | ->]; cbn; by eapply redeem_first.
  - destruct (Hpos HT) as [R0 R1]. unfold lp_for in *. rewrite (proj2 (Z.eqb_neq _ _) HT) in *.
    destruct Has as [-> | ->]; cbn; (eapply redeem_bound; [..|exact E|]; lia).
Qed.

(** C24: a deposit followed by the redemption of at most the tokens it earned
    never leaves the depositor with more of either asset. The deposit may be the
    first one, whose tokens are the square root of the product; a pool without
    tokens is then empty, as every run leaves it. *)
Theorem add_then_remove_no_profit a r ts ts' actor tx tx' o1 o2 (s s1 s2 : M) :
  s_ok a -> s_ok r -> pool_inv (contents s) -> pool_backed (contents s) ->
  AddLiquidity.Execute a ts actor tx s = (Ok o1, s1) ->
  RemoveLiquidity.Execute r ts' actor tx' s1 = (Ok o2, s2) ->
  cell (contents s) (LPBalanceKey AssetVEIL AssetVAI actor) + RemoveLiquidity.LPAmount r
    <= cell (contents s1) (LPBalanceKey AssetVEIL AssetVAI actor) ->
  cell (contents s2) (BalanceKey actor) <= cell (contents s) (BalanceKey actor) /\
  cell (contents s2) (VAIBalanceKey actor) <= cell (contents s) (VAIBalanceKey actor).
Proof.
  intros Ha Hr Hinv Hback H1 H2 Hle.
  destruct (add_liquidity_pool _ _ _ _ _ _ _ Hinv H1) as (p & Hp & Hwf & Hok & _).
  pose proof (add_liquidity_ok _ _ _ _ _ _ _ _ Ha Hp Hwf H1) as Hadd; cbv zeta in Hadd.
  destruct Hadd as (Hx & Hy & Hl & _ & Hres & p' & St1).
  pose proof (remove_liquidity_ok _ _ _ _ _ _ _ _ Hr (ps_after _ _ _ _ _ _ _ _ St1)
    (ps_wf _ _ _ _ _ _ _ _ St1) H2) as Hrem; cbv zeta in Hrem.
  destruct Hrem as (Hlr & _ & _ & _ & _ & _ & _ & _ & p'' & St2).
  rewrite (ps_cell0 _ _ _ _ _ _ _ _ St2), (ps_cell0 _ _ _ _ _ _ _ _ St1).
  rewrite (ps_cell1 _ _ _ _ _ _ _ _ St2), (ps_cell1 _ _ _ _ _ _ _ _ St1).
  rewrite (ps_cell_lp _ _ _ _ _ _ _ _ St1) in Hle. destruct St1.
  set (x := pick AssetVEIL _ _ _) in *. set (y := pick AssetVAI _ _ _) in *.
  set (k := RemoveLiquidity.LPAmount r) in *.
  assert (Hrd : forall asset, asset = AssetVEIL \/ asset = AssetVAI ->
    redeem p' asset k <= (if asset =? AssetVEIL then x else y))
    by (intros asset Has; apply (redeem_deposit p); (done || lia || auto)).
  pose proof (Hrd AssetVEIL (or_introl eq_refl)) as Hd0.
  pose proof (Hrd AssetVAI (or_intror eq_refl)) as Hd1. cbn in Hd0, Hd1. lia.
Qed.

(** Neither deposits nor withdrawals dilute the remaining liquidity
    providers: the reserves behind one LP token never fall. *)
Theorem liquidity_not_diluted actor (s s' : M) :
  pool_inv (contents s) ->
  (exists a ts tx out, s_ok a /\ AddLiquidity.Execute a ts actor tx s = (Ok out, s')) \/
  (exists a ts tx out, s_ok a /\ RemoveLiquidity.Execute a ts actor tx s = (Ok out, s')) ->
  exists p p', pool_at (contents s) = Some p /\ pool_at (contents s') = Some p' /\
    (Pool.TotalLP p <> 0 ->
     Pool.Reserve0 p * Pool.TotalLP p' <= Pool.Reserve0 p' * Pool.TotalLP p /\
     Pool.Reserve1 p * Pool.TotalLP p' <= Pool.Reserve1 p' * Pool.TotalLP p).
Proof.
  intros Hinv [(a & ts & tx & out & Ha & H)|(a & ts & tx & out & Ha & H)].
  - destruct (add_liquidity_pool _ _ _ _ _ _ _ Hinv H) as (p & Hp & Hwf & Hok & _).
    pose proof (add_liquidity_ok _ _ _ _ _ _ _ _ Ha Hp Hwf H) as Hadd; cbv zeta in Hadd.
    destruct Hadd as (Hx & Hy & Hl & _ & Hres & p' & []). exists p, p'.
    split; [done|]. split; [done|]. intros Hlp. destruct (Hres Hlp).
    rewrite ps_reserve2, ps_reserve3, ps_lp0. unfold lp_for.
    rewrite (proj2 (Z.eqb_neq _ _) Hlp). destruct Hok as (_ & _ & _ & ? & ? & ?).
    unfold u64 in *. set (x := pick AssetVEIL _ _ _) in *. set (y := pick AssetVAI _ _ _) in *.
    pose proof (Z.mul_div_le (x * Pool.TotalLP p) (Pool.Reserve0 p) ltac:(lia)).
    pose proof (Z.mul_div_le (y * Pool.TotalLP p) (Pool.Reserve1 p) ltac:(lia)).
    split; nia.
  - destruct (remove_liquidity_pool _ _ _ _ _ _ _ Hinv H) as (p & Hp & Hwf & Hok & _).
    pose proof (remove_liquidity_ok _ _ _ _ _ _ _ _ Ha Hp Hwf H) as Hrem; cbv zeta in Hrem.
    destruct Hrem as (Hl & Hr0 & Hr1 & _ & _ & _ & _ & _ & p' & []). exists p, p'.
    split; [done|]. split; [done|]. intros Hlp.
    rewrite ps_reserve2, ps_reserve3, ps_lp0. unfold redeem.
    change (reserve AssetVEIL p) with (Pool.Reserve0 p).
    change (reserve AssetVAI p) with (Pool.Reserve1 p).
    set (l := RemoveLiquidity.LPAmount a) in *.
    pose proof (Z.mul_div_le (l * Pool.Reserve0 p) (Pool.TotalLP p) ltac:(lia)).
    pose proof (Z.mul_div_le (l * Pool.Reserve1 p) (Pool.TotalLP p) ltac:(lia)).
    split; nia.
Qed.

(** Only the treasury's governance address opens the pool, once, empty,
    with a fee between 1 and 1000 basis points; nothing else changes. *)
Theorem create_pool_governed a ts actor tx out (s s' : M) :
  s_ok a -> CreatePool.Execute a ts actor tx s = (Ok out, s') ->
  (exists cfg, stored TreasuryConfig.parse (contents s) TreasuryConfigKey = Some cfg /\
               actor = TreasuryConfig.Governance cfg) /\
  contents s !! PoolKey AssetVEIL AssetVAI = None /\
  pool_at (contents s')
    = Some (Pool.mk AssetVEIL AssetVAI (CreatePool.FeeBips a) 0 0 0) /\
  MinPoolFeeBips <= CreatePool.FeeBips a <= MaxPoolFeeBips /\
  forall k, k <> PoolKey AssetVEIL AssetVAI -> contents s' !! k = contents s !! k.
Proof.
  intros Ha H. pose proof (create_pool_ok _ _ _ _ _ _ _ Ha H) as Hc; cbv zeta in Hc.
  destruct Hc as (Hgov & Hnone & (H0 & H1 & H2 & H3) & Hok & Hat & E).
  split_and!; try done. rewrite E. intros k Hk. by rewrite lookup_insert_ne.
Qed.

(** The invariant through each pool action. *)
Lemma create_pool_inv a ts actor tx out (s s' : M) :
  s_ok a -> pool_inv (contents s) -> CreatePool.Execute a ts actor tx s = (Ok out, s') ->
  pool_inv (contents s').
Proof.
  intros Ha Hinv H. pose proof (create_pool_ok _ _ _ _ _ _ _ Ha H) as Hc; cbv zeta in Hc.
  destruct Hc as (_ & Hnone & Hwf & Hok & Hat & E). unfold pool_inv in *. rewrite Hat, E.
  split; [done|].
  replace (pool_at (contents s)) with (@None Pool.t) in Hinv
    by (unfold pool_at, stored; by rewrite Hnone).
  reads. by destruct Hinv as [_ ->].
Qed.

(** A pool without tokens stays empty through each pool action. *)
Lemma create_pool_backed a ts actor tx out (s s' : M) :
  s_ok a -> CreatePool.Execute a ts actor tx s = (Ok out, s') -> pool_backed (contents s').
Proof.
  intros Ha H p Hp _. pose proof (create_pool_ok _ _ _ _ _ _ _ Ha H) as Hc; cbv zeta in Hc.
  destruct Hc as (_ & _ & _ & _ & Hat & _). rewrite Hat in Hp. by injection Hp as <-.
Qed.

Lemma add_liquidity_backed a ts actor tx out (s s' : M) :
  s_ok a -> pool_inv (contents s) -> AddLiquidity.Execute a ts actor tx s = (Ok out, s') ->
  pool_backed (contents s').
Proof.
  intros Ha Hinv H q Hq HT. destruct (add_liquidity_pool _ _ _ _ _ _ _ Hinv H) as (p & Hp & Hwf & Hok & _).
  pose proof (add_liquidity_ok _ _ _ _ _ _ _ _ Ha Hp Hwf H) as Hadd; cbv zeta in Hadd.
  destruct Hadd as (_ & _ & Hl & _ & _ & p' & []). rewrite Hq in ps_after0. injection ps_after0 as <-.
  destruct Hok as (_ & _ & _ & _ & _ & Ht). unfold u64 in Ht. lia.
Qed.

Lemma remove_liquidity_backed a ts actor tx out (s s' : M) :
  s_ok a -> pool_inv (contents s) -> RemoveLiquidity.Execute a ts actor tx s = (Ok out, s') ->
  pool_backed (contents s').
Proof.
  intros Ha Hinv H q Hq HT.
  destruct (remove_liquidity_pool _ _ _ _ _ _ _ Hinv H) as (p & Hp & Hwf & Hok & _).
  pose proof (remove_liquidity_ok _ _ _ _ _ _ _ _ Ha Hp Hwf H) as Hrem; cbv zeta in Hrem.
  destruct Hrem as (Hl & _ & _ & _ & _ & _ & _ & _ & p' & []).
  rewrite Hq in ps_after0. injection ps_after0 as <-.
  assert (E : RemoveLiquidity.LPAmount a = Pool.TotalLP p) by lia.
  unfold redeem in *. rewrite E in *. rewrite !(Z.mul_comm (Pool.TotalLP p)), !Z.div_mul in * by lia.
  cbn [reserve AssetVEIL AssetVAI Z.eqb] in *. lia.
Qed.

Lemma swap_backed a ts actor tx out (s s' : M) :
  s_ok a -> pool_inv (contents s) -> pool_backed (contents s) ->
  SwapExactIn.Execute a ts actor tx s = (Ok out, s') -> pool_backed (contents s').
Proof.
  intros Ha Hinv Hback H q Hq HT. destruct (swap_pool _ _ _ _ _ _ _ Hinv H) as (p & Hp & Hwf & Hok & _).
  pose proof (swap_ok _ _ _ _ _ _ _ _ Ha Hp Hwf H) as Hsw; cbv zeta in Hsw.
  destruct Hsw as (Hio & _ & _ & Hri & _ & _ & _ & p' & []).
  rewrite Hq in ps_after0. injection ps_after0 as <-.
  destruct (Hback p Hp) as [R0 R1]; [lia|]. unfold reserve in Hri. destruct (_ =? _); lia.
Qed.

Lemma pool_actions_step actor (s s' : M) :
  pool_inv (contents s) ->
  (exists a ts tx out, s_ok a /\ AddLiquidity.Execute a ts actor tx s = (Ok out, s')) \/
  (exists a ts tx out, s_ok a /\ RemoveLiquidity.Execute a ts actor tx s = (Ok out, s')) \/
  (exists a ts tx out, s_ok a /\ SwapExactIn.Execute a ts actor tx s = (Ok out, s')) ->
  exists p p' d0 d1 dl, pool_step (contents s) (contents s') actor p p' d0 d1 dl.
Proof.
  intros Hinv [(a & ts & tx & out & Ha & H)|[(a & ts & tx & out & Ha & H)
    |(a & ts & tx & out & Ha & H)]].
  - destruct (add_liquidity_pool _ _ _ _ _ _ _ Hinv H) as (p & Hp & Hwf & Hok & _).
    edestruct add_liquidity_ok as (_ & _ & _ & _ & _ & p' & ?); [done..|]. eauto 10.
  - destruct (remove_liquidity_pool _ _ _ _ _ _ _ Hinv H) as (p & Hp & Hwf & Hok & _).
    edestruct remove_liquidity_ok as (_ & _ & _ & _ & _ & _ & _ & _ & p' & ?); [done..|].
    eauto 10.
  - destruct (swap_pool _ _ _ _ _ _ _ Hinv H) as (p & Hp & Hwf & Hok & _).
    edestruct swap_ok as (_ & _ & _ & _ & _ & _ & _ & p' & ?); [done..|]. eauto 10.
Qed.
End pool_properties.

(** ** Evaluations *)

Module Samples.
Definition alice : Address := addr 1.
Definition pool : Pool.t := Pool.mk AssetVEIL AssetVAI 30 1000000 2000000 1414213.
Definition st : Store :=
  cells [(PoolKey AssetVEIL AssetVAI, Pool.encode pool);
         (BalanceKey alice, be 8 50000); (VAIBalanceKey alice, be 8 90000);
         (LPBalanceKey AssetVEIL AssetVAI alice, be 8 1414213)].
Definition new_pool : Pool.t := Pool.mk AssetVEIL AssetVAI 30 0 0 0.
Definition fresh : Store :=
  cells [(PoolKey AssetVEIL AssetVAI, Pool.encode new_pool);
         (BalanceKey alice, be 8 50000); (VAIBalanceKey alice, be 8 90000);
         (LPBalanceKey AssetVEIL AssetVAI alice, be 8 0)].
Definition swap : SwapExactIn.t := SwapExactIn.mk AssetVEIL AssetVAI 10000 1.
Definition add : AddLiquidity.t := AddLiquidity.mk AssetVAI AssetVEIL 20000 10000 1.
Definition rem : RemoveLiquidity.t := RemoveLiquidity.mk AssetVEIL AssetVAI 14142 0 0.
Definition gov : TreasuryConfig.t := TreasuryConfig.mk alice alice 100 60.
Definition st0 : Store := cells [(TreasuryConfigKey, TreasuryConfig.encode gov)].
Definition create : CreatePool.t := CreatePool.mk AssetVAI AssetVEIL 30.
Definition run_swap := SwapExactIn.Execute swap 0 alice no_tx.
Definition run_add := AddLiquidity.Execute add 0 alice no_tx.
Definition run_rem := RemoveLiquidity.Execute rem 0 alice no_tx.
Definition run_create := CreatePool.Execute create 0 alice no_tx.
End Samples.
Import Samples.

Lemma st_inv : pool_inv (contents st).
Proof. vm_compute. repeat split; congruence. Qed.

Lemma swap_constant_product_witness : exists p p' paid,
  pool_at (contents st) = Some p /\ pool_at (contents (final run_swap st)) = Some p' /\
  Pool.Reserve0 p * Pool.Reserve1 p <= Pool.Reserve0 p' * Pool.Reserve1 p' /\
  0 < Pool.Reserve0 p' /\ 0 < Pool.Reserve1 p' /\
  reserve AssetVEIL p' = reserve AssetVEIL p + 10000 /\
  reserve AssetVAI p' = reserve AssetVAI p - paid /\ 1 <= paid /\
  paid * reserve AssetVEIL p <= reserve AssetVAI p * 10000.
Proof.
  eapply (swap_constant_product swap 0 alice no_tx _ st (final run_swap st));
    [eval_ok | apply st_inv | eval_ok].
Defined.

Lemma pool_backed_some p m :
  pool_at m = Some p -> (Pool.TotalLP p = 0 -> Pool.Reserve0 p = 0 /\ Pool.Reserve1 p = 0) ->
  pool_backed m.
Proof. intros Hp H q Hq. rewrite Hp in Hq. injection Hq as <-. exact H. Qed.

(** A later deposit, and the first one into a new pool. *)
Lemma add_then_remove_no_profit_witness :
  (let s1 := final run_add st in
   let s2 := final run_rem s1 in
   cell (contents s2) (BalanceKey alice) <= cell (contents st) (BalanceKey alice) /\
   cell (contents s2) (VAIBalanceKey alice) <= cell (contents st) (VAIBalanceKey alice)) /\
  (let s1 := final run_add fresh in
   let s2 := final run_rem s1 in
   cell (contents s2) (BalanceKey alice) <= cell (contents fresh) (BalanceKey alice) /\
   cell (contents s2) (VAIBalanceKey alice) <= cell (contents fresh) (VAIBalanceKey alice)).
Proof.
  cbv zeta. split.
  - eapply (add_then_remove_no_profit add rem 0 0 alice no_tx no_tx _ _ st (final run_add st)
              (final run_rem (final run_add st)));
      [eval_ok | eval_ok | apply st_inv | | eval_ok | eval_ok | eval_ok].
    apply (pool_backed_some pool); [eval_ok|intros H; discriminate H].
  - eapply (add_then_remove_no_profit add rem 0 0 alice no_tx no_tx _ _ fresh (final run_add fresh)
              (final run_rem (final run_add fresh)));
      [eval_ok | eval_ok | | | eval_ok | eval_ok | eval_ok].
    + vm_compute. repeat split; congruence.
    + apply (pool_backed_some new_pool); [eval_ok|intros _; split; reflexivity].
Defined.

Lemma liquidity_not_diluted_witness : exists p p',
  pool_at (contents st) = Some p /\ pool_at (contents (final run_add st)) = Some p' /\
  (Pool.TotalLP p <> 0 ->
   Pool.Reserve0 p * Pool.TotalLP p' <= Pool.Reserve0 p' * Pool.TotalLP p /\
   Pool.Reserve1 p * Pool.TotalLP p' <= Pool.Reserve1 p' * Pool.TotalLP p).
Proof.
  apply (liquidity_not_diluted alice st (final run_add st)); [apply st_inv|].
  left. exists add, 0, no_tx. eexists. split; eval_ok.
Defined.

Lemma create_pool_governed_witness :
  (exists cfg, stored TreasuryConfig.parse (contents st0) TreasuryConfigKey = Some cfg /\
               alice = TreasuryConfig.Governance cfg) /\
  contents st0 !! PoolKey AssetVEIL AssetVAI = None /\
  pool_at (contents (final run_create st0)) = Some (Pool.mk AssetVEIL AssetVAI 30 0 0 0) /\
  MinPoolFeeBips <= 30 <= MaxPoolFeeBips /\
  forall k, k <> PoolKey AssetVEIL AssetVAI ->
    contents (final run_create st0) !! k = contents st0 !! k.
Proof.
  eapply (create_pool_governed create 0 alice no_tx _ st0 (final run_create st0)); eval_ok.
Defined.
