(* ===== verification/Vai.v ===== *)
(** * VAI: the debt-backed stable asset

    [actions/mint_vai.go], [burn_vai.go], [update_reserve_state.go] and
    [set_risk_params.go]: one module per action. *)
From S2P Require Import Prelude Errors Go Platform Storage Balance Action.

Module MintVAI.

Definition MintVAIComputeUnits : Z := 2.
Definition MaxMintVAISize : Z := 512.

Record t := mk { To : Address; Amount : Z }.

#[global, refine] Instance struct : Struct t :=
  {| s_types := [TArray 33; TU64];
     s_fields a := [FArray (To a); FU64 (Amount a)];
     s_of_fields fs := match fs with
                       | [FArray x0; FU64 x1] =>
                           Some (mk (copy_array 33 x0) x1)
                       | _ => None
                       end;
     s_ok a := u64 (Amount a) |}.
Proof. all: struct_laws. Defined.

Module Result.
Record t := mk { ToBalance : Z; TotalDebt : Z }.
#[global, refine] Instance struct : Struct t :=
  {| s_types := [TU64; TU64];
     s_fields r := [FU64 (ToBalance r); FU64 (TotalDebt r)];
     s_of_fields fs := match fs with
                       | [FU64 x0; FU64 x1] =>
                           Some (mk x0 x1)
                       | _ => None
                       end;
     s_ok r := u64 (ToBalance r) /\ u64 (TotalDebt r) |}.
Proof. all: struct_laws. Defined.
End Result.

Section action.
Context {PF : Platform} {M : Type} {MU : Mutable M}.

Definition GetTypeID : Z := MintVAIID.
Definition StateKeys (a : t) (_ : Address) (_ : ID) : gmap bytes Permissions :=
  let rw := perm_or state_Read state_Write in
  state_keys [(VAIConfigKey, state_Read); (VAIStateKey, rw); (RiskConfigKey, state_Read);
              (ReserveStateKey, state_Read); (VAIBalanceKey (To a), rw)].
Definition Bytes (a : t) : Outcome bytes := pack MintVAIID MaxMintVAISize a.
Definition Unmarshal (b : bytes) : Outcome t := unpack MintVAIID b.
Definition ResultBytes (r : Result.t) : bytes := pack_result MintVAIID MaxMintVAISize r.
Definition UnmarshalResult (b : bytes) : Outcome Result.t := unpack_result b.

(** Lines 101-107: the start of the mint epoch and what it has minted. *)
Definition roll_epoch (cfg : VAIConfig.t) (st : VAIState.t) (timestamp : Z) : Z * Z :=
  let start := if VAIState.EpochStartUnix st =? 0 then timestamp
               else VAIState.EpochStartUnix st in
  if wrap_i64 (start + wrap_i64 (VAIConfig.MintEpochSeconds cfg * 1000)) <=? timestamp
  then (timestamp, 0) else (start, VAIState.EpochMinted st).

Definition Execute (a : t) (timestamp : Z) (actor : Address) (_ : ID) : ST M bytes :=
  fail_if (Amount a =? 0) ErrInvalidVAIAmount ;;;
  let* cfg := GetVAIConfig in
  fail_if (negb (bool_decide (actor = VAIConfig.MintAuthority cfg))) ErrUnauthorized ;;;
  let* stateVal := GetVAIState in
  let '(epochStart, epochMinted) := roll_epoch cfg stateVal timestamp in
  let* nextEpochMinted := lift (smath_Add epochMinted (Amount a)) in
  fail_if (VAIConfig.EpochMintLimit cfg <? nextEpochMinted) ErrVAIEpochMintLimitExceeded ;;;
  let* nextDebt := lift (smath_Add (VAIState.TotalDebt stateVal) (Amount a)) in
  fail_if (VAIConfig.DebtCeiling cfg <? nextDebt) ErrVAIDebtCeilingExceeded ;;;
  let* riskCfg := GetRiskConfig in
  let* reserveState := GetReserveState in
  fail_if ((0 <? nextDebt)
           && (ReserveState.ExogenousReserve reserveState * 10000
               <? nextDebt * RiskConfig.BackingFloorBips riskCfg))
          ErrBackingRatioViolation ;;;
  let* toBalance := AddVAIBalance (To a) (Amount a) in
  PutVAIState (VAIState.mk nextDebt epochStart nextEpochMinted) ;;;
  ret (ResultBytes (Result.mk toBalance nextDebt)).

Definition ComputeUnits : Z := MintVAIComputeUnits.
Definition ValidRange : Z * Z := AlwaysValid.
End action.
End MintVAI.

Module BurnVAI.

Definition BurnVAIComputeUnits : Z := 2.
Definition MaxBurnVAISize : Z := 256.

Record t := mk { Amount : Z }.

#[global, refine] Instance struct : Struct t :=
  {| s_types := [TU64];
     s_fields a := [FU64 (Amount a)];
     s_of_fields fs := match fs with
                       | [FU64 x0] =>
                           Some (mk x0)
                       | _ => None
                       end;
     s_ok a := u64 (Amount a) |}.
Proof. all: struct_laws. Defined.

Module Result.
Record t := mk { ActorBalance : Z; TotalDebt : Z }.
#[global, refine] Instance struct : Struct t :=
  {| s_types := [TU64; TU64];
     s_fields r := [FU64 (ActorBalance r); FU64 (TotalDebt r)];
     s_of_fields fs := match fs with
                       | [FU64 x0; FU64 x1] =>
                           Some (mk x0 x1)
                       | _ => None
                       end;
     s_ok r := u64 (ActorBalance r) /\ u64 (TotalDebt r) |}.
Proof. all: struct_laws. Defined.
End Result.

Section action.
Context {PF : Platform} {M : Type} {MU : Mutable M}.

Definition GetTypeID : Z := BurnVAIID.
Definition StateKeys (_ : t) (actor : Address) (_ : ID) : gmap bytes Permissions :=
  let rw := perm_or state_Read state_Write in
  state_keys [(VAIBalanceKey actor, rw); (VAIStateKey, rw)].
Definition Bytes (a : t) : Outcome bytes := pack BurnVAIID MaxBurnVAISize a.
Definition Unmarshal (b : bytes) : Outcome t := unpack BurnVAIID b.
Definition ResultBytes (r : Result.t) : bytes := pack_result BurnVAIID MaxBurnVAISize r.
Definition UnmarshalResult (b : bytes) : Outcome Result.t := unpack_result b.

Definition Execute (a : t) (_ : Z) (actor : Address) (_ : ID) : ST M bytes :=
  fail_if (Amount a =? 0) ErrInvalidVAIAmount ;;;
  let* actorBalance := SubVAIBalance actor (Amount a) in
  let* stateVal := GetVAIState in
  fail_if (VAIState.TotalDebt stateVal <? Amount a) ErrVAIDebtInvariant ;;;
  let totalDebt := wrap_u64 (VAIState.TotalDebt stateVal - Amount a) in
  PutVAIState (VAIState.mk totalDebt (VAIState.EpochStartUnix stateVal)
                           (VAIState.EpochMinted stateVal)) ;;;
  ret (ResultBytes (Result.mk actorBalance totalDebt)).

Definition ComputeUnits : Z := BurnVAIComputeUnits.
Definition ValidRange : Z * Z := AlwaysValid.
End action.
End BurnVAI.

Module UpdateReserveState.

Definition UpdateReserveStateComputeUnits : Z := 2.
Definition MaxUpdateReserveStateSize : Z := 256.

Record t := mk { ExogenousReserve : Z; VAIBuffer : Z }.

#[global, refine] Instance struct : Struct t :=
  {| s_types := [TU64; TU64];
     s_fields a := [FU64 (ExogenousReserve a); FU64 (VAIBuffer a)];
     s_of_fields fs := match fs with
                       | [FU64 x0; FU64 x1] =>
                           Some (mk x0 x1)
                       | _ => None
                       end;
     s_ok a := u64 (ExogenousReserve a) /\ u64 (VAIBuffer a) |}.
Proof. all: struct_laws. Defined.

Module Result.
Record t := mk { ExogenousReserve : Z; VAIBuffer : Z }.
#[global, refine] Instance struct : Struct t :=
  {| s_types := [TU64; TU64];
     s_fields r := [FU64 (ExogenousReserve r); FU64 (VAIBuffer r)];
     s_of_fields fs := match fs with
                       | [FU64 x0; FU64 x1] =>
                           Some (mk x0 x1)
                       | _ => None
                       end;
     s_ok r := u64 (ExogenousReserve r) /\ u64 (VAIBuffer r) |}.
Proof. all: struct_laws. Defined.
End Result.

Section action.
Context {PF : Platform} {M : Type} {MU : Mutable M}.

Definition GetTypeID : Z := UpdateReserveStateID.
Definition StateKeys (_ : t) (_ : Address) (_ : ID) : gmap bytes Permissions :=
  state_keys [(TreasuryConfigKey, state_Read);
              (ReserveStateKey, perm_or state_Read state_Write)].
Definition Bytes (a : t) : Outcome bytes := pack UpdateReserveStateID MaxUpdateReserveStateSize a.
Definition Unmarshal (b : bytes) : Outcome t := unpack UpdateReserveStateID b.
Definition ResultBytes (r : Result.t) : bytes := pack_result UpdateReserveStateID MaxUpdateReserveStateSize r.
Definition UnmarshalResult (b : bytes) : Outcome Result.t := unpack_result b.

Definition Execute (a : t) (_ : Z) (actor : Address) (_ : ID) : ST M bytes :=
  let* treasuryCfg := GetTreasuryConfig in
  fail_if (negb (bool_decide (actor = TreasuryConfig.Governance treasuryCfg)))
          ErrUnauthorized ;;;
  let next := ReserveState.mk (ExogenousReserve a) (VAIBuffer a) in
  PutReserveState next ;;;
  ret (ResultBytes (Result.mk (ReserveState.ExogenousReserve next)
                              (ReserveState.VAIBuffer next))).

Definition ComputeUnits : Z := UpdateReserveStateComputeUnits.
Definition ValidRange : Z * Z := AlwaysValid.
End action.
End UpdateReserveState.

Module SetRiskParams.

Definition SetRiskParamsComputeUnits : Z := 2.
Definition MaxSetRiskParamsSize : Z := 256.

Record t := mk { BackingFloorBips : Z; VEILLtvBips : Z; WVEILLtvBips : Z;
                 WSVEILLtvBips : Z; VEILHaircutBips : Z; WVEILHaircutBips : Z;
                 WSVEILHaircutBips : Z }.

#[global, refine] Instance struct : Struct t :=
  {| s_types := [TU32; TU16; TU16; TU16; TU16; TU16; TU16];
     s_fields a := [FU32 (BackingFloorBips a); FU16 (VEILLtvBips a);
                    FU16 (WVEILLtvBips a); FU16 (WSVEILLtvBips a);
                    FU16 (VEILHaircutBips a); FU16 (WVEILHaircutBips a);
                    FU16 (WSVEILHaircutBips a)];
     s_of_fields fs := match fs with
                       | [FU32 x0; FU16 x1; FU16 x2; FU16 x3; FU16 x4; FU16 x5; FU16 x6] =>
                           Some (mk x0 x1 x2 x3 x4 x5 x6)
                       | _ => None
                       end;
     s_ok a := u32 (BackingFloorBips a) /\ u16 (VEILLtvBips a) /\
               u16 (WVEILLtvBips a) /\ u16 (WSVEILLtvBips a) /\
               u16 (VEILHaircutBips a) /\ u16 (WVEILHaircutBips a) /\
               u16 (WSVEILHaircutBips a) |}.
Proof. all: struct_laws. Defined.

Module Result.
Record t := mk { BackingFloorBips : Z; VEILLtvBips : Z; WVEILLtvBips : Z;
                 WSVEILLtvBips : Z; VEILHaircutBips : Z; WVEILHaircutBips : Z;
                 WSVEILHaircutBips : Z }.
#[global, refine] Instance struct : Struct t :=
  {| s_types := [TU32; TU16; TU16; TU16; TU16; TU16; TU16];
     s_fields r := [FU32 (BackingFloorBips r); FU16 (VEILLtvBips r);
                    FU16 (WVEILLtvBips r); FU16 (WSVEILLtvBips r);
                    FU16 (VEILHaircutBips r); FU16 (WVEILHaircutBips r);
                    FU16 (WSVEILHaircutBips r)];
     s_of_fields fs := match fs with
                       | [FU32 x0; FU16 x1; FU16 x2; FU16 x3; FU16 x4; FU16 x5;
                          FU16 x6] =>
                           Some (mk x0 x1 x2 x3 x4 x5 x6)
                       | _ => None
                       end;
     s_ok r := u32 (BackingFloorBips r) /\ u16 (VEILLtvBips r) /\
               u16 (WVEILLtvBips r) /\ u16 (WSVEILLtvBips r) /\
               u16 (VEILHaircutBips r) /\ u16 (WVEILHaircutBips r) /\
               u16 (WSVEILHaircutBips r) |}.
Proof. all: struct_laws. Defined.
End Result.

Section action.
Context {PF : Platform} {M : Type} {MU : Mutable M}.

Definition GetTypeID : Z := SetRiskParamsID.
Definition StateKeys (_ : t) (_ : Address) (_ : ID) : gmap bytes Permissions :=
  state_keys [(TreasuryConfigKey, state_Read);
              (RiskConfigKey, perm_or state_Read state_Write)].
Definition Bytes (a : t) : Outcome bytes := pack SetRiskParamsID MaxSetRiskParamsSize a.
Definition Unmarshal (b : bytes) : Outcome t := unpack SetRiskParamsID b.
Definition ResultBytes (r : Result.t) : bytes := pack_result SetRiskParamsID MaxSetRiskParamsSize r.
Definition UnmarshalResult (b : bytes) : Outcome Result.t := unpack_result b.

Definition Execute (a : t) (_ : Z) (actor : Address) (_ : ID) : ST M bytes :=
  let* treasuryCfg := GetTreasuryConfig in
  fail_if (negb (bool_decide (actor = TreasuryConfig.Governance treasuryCfg)))
          ErrUnauthorized ;;;
  let cfg := RiskConfig.mk (BackingFloorBips a) (VEILLtvBips a) (WVEILLtvBips a)
                           (WSVEILLtvBips a) (VEILHaircutBips a) (WVEILHaircutBips a)
                           (WSVEILHaircutBips a) in
  PutRiskConfig cfg ;;;
  ret (ResultBytes
         (Result.mk (RiskConfig.BackingFloorBips cfg) (RiskConfig.VEILLtvBips cfg)
                    (RiskConfig.WVEILLtvBips cfg) (RiskConfig.WSVEILLtvBips cfg)
                    (RiskConfig.VEILHaircutBips cfg) (RiskConfig.WVEILHaircutBips cfg)
                    (RiskConfig.WSVEILHaircutBips cfg))).

Definition ComputeUnits : Z := SetRiskParamsComputeUnits.
Definition ValidRange : Z * Z := AlwaysValid.
End action.
End SetRiskParams.
