(* ===== verification/Treasury.v ===== *)
(** * The treasury

    [actions/route_fees.go] and [actions/release_col_tranche.go]. *)
From S2P Require Import Prelude Errors Go Platform Storage Balance Action.

Module RouteFees.

Definition RouteFeesComputeUnits : Z := 2.
Definition MaxRouteFeesSize : Z := 256.

Record t := mk { Amount : Z }.

#[global, refine] Instance struct : Struct t :=
  {| s_types := [TU64];
     s_fields a := [FU64 (Amount a)];
     s_of_fields fs := match fs with
                       | [FU64 x0] =>
                           Some (mk x0)
                       | _ => None
                       end;
     s_ok a := u64 (Amount a) |}.
Proof. all: struct_laws. Defined.

Module Result.
Record t := mk { SenderBalance : Z; MSRBBudget : Z; COLBudget : Z; OpsBudget : Z }.
#[global, refine] Instance struct : Struct t :=
  {| s_types := [TU64; TU64; TU64; TU64];
     s_fields r := [FU64 (SenderBalance r); FU64 (MSRBBudget r); FU64 (COLBudget r);
                    FU64 (OpsBudget r)];
     s_of_fields fs := match fs with
                       | [FU64 x0; FU64 x1; FU64 x2; FU64 x3] =>
                           Some (mk x0 x1 x2 x3)
                       | _ => None
                       end;
     s_ok r := u64 (SenderBalance r) /\ u64 (MSRBBudget r) /\ u64 (COLBudget r) /\
               u64 (OpsBudget r) |}.
Proof. all: struct_laws. Defined.
End Result.

Section action.
Context {PF : Platform} {M : Type} {MU : Mutable M}.

Definition GetTypeID : Z := RouteFeesID.
Definition StateKeys (_ : t) (actor : Address) (_ : ID) : gmap bytes Permissions :=
  let rw := perm_or state_Read state_Write in
  state_keys [(BalanceKey actor, rw); (FeeRouterConfigKey, state_Read);
              (FeeRouterStateKey, rw)].
Definition Bytes (a : t) : Outcome bytes := pack RouteFeesID MaxRouteFeesSize a.
Definition Unmarshal (b : bytes) : Outcome t := unpack RouteFeesID b.
Definition ResultBytes (r : Result.t) : bytes := pack_result RouteFeesID MaxRouteFeesSize r.
Definition UnmarshalResult (b : bytes) : Outcome Result.t := unpack_result b.

(** Lines 101-103, in [uint64] arithmetic. *)
Definition shares (cfg : FeeRouterConfig.t) (amount : Z) : Z * Z * Z :=
  let msrbShare := wrap_u64 (FeeRouterConfig.MSRBBips cfg * amount) / 10000 in
  let colShare := wrap_u64 (FeeRouterConfig.COLBips cfg * amount) / 10000 in
  (msrbShare, colShare, wrap_u64 (wrap_u64 (amount - msrbShare) - colShare)).

Definition Execute (a : t) (_ : Z) (actor : Address) (_ : ID) : ST M bytes :=
  fail_if (Amount a =? 0) ErrInvalidFeeAmount ;;;
  let* cfg := GetFeeRouterConfig in
  let* stateVal := GetFeeRouterState in
  let* senderBalance := SubBalance actor (Amount a) in
  let '(msrbShare, colShare, opsShare) := shares cfg (Amount a) in
  let* nextMSRB := lift (smath_Add (FeeRouterState.MSRBBudget stateVal) msrbShare) in
  let* nextCOL := lift (smath_Add (FeeRouterState.COLBudget stateVal) colShare) in
  let* nextOps := lift (smath_Add (FeeRouterState.OpsBudget stateVal) opsShare) in
  PutFeeRouterState (FeeRouterState.mk nextMSRB nextCOL nextOps) ;;;
  ret (ResultBytes (Result.mk senderBalance nextMSRB nextCOL nextOps)).

Definition ComputeUnits : Z := RouteFeesComputeUnits.
Definition ValidRange : Z * Z := AlwaysValid.
End action.
End RouteFees.

Module ReleaseCOLTranche.

Definition ReleaseCOLTrancheComputeUnits : Z := 2.
Definition MaxReleaseCOLTrancheSize : Z := 256.

Record t := mk { Amount : Z }.

#[global, refine] Instance struct : Struct t :=
  {| s_types := [TU64];
     s_fields a := [FU64 (Amount a)];
     s_of_fields fs := match fs with
                       | [FU64 x0] =>
                           Some (mk x0)
                       | _ => None
                       end;
     s_ok a := u64 (Amount a) |}.
Proof. all: struct_laws. Defined.

Module Result.
Record t := mk { Locked : Z; Live : Z; Released : Z }.
#[global, refine] Instance struct : Struct t :=
  {| s_types := [TU64; TU64; TU64];
     s_fields r := [FU64 (Locked r); FU64 (Live r); FU64 (Released r)];
     s_of_fields fs := match fs with
                       | [FU64 x0; FU64 x1; FU64 x2] =>
                           Some (mk x0 x1 x2)
                       | _ => None
                       end;
     s_ok r := u64 (Locked r) /\ u64 (Live r) /\ u64 (Released r) |}.
Proof. all: struct_laws. Defined.
End Result.

Section action.
Context {PF : Platform} {M : Type} {MU : Mutable M}.

Definition GetTypeID : Z := ReleaseCOLTrancheID.
Definition StateKeys (_ : t) (_ : Address) (_ : ID) : gmap bytes Permissions :=
  state_keys [(TreasuryConfigKey, state_Read);
              (TreasuryStateKey, perm_or state_Read state_Write)].
Definition Bytes (a : t) : Outcome bytes := pack ReleaseCOLTrancheID MaxReleaseCOLTrancheSize a.
Definition Unmarshal (b : bytes) : Outcome t := unpack ReleaseCOLTrancheID b.
Definition ResultBytes (r : Result.t) : bytes := pack_result ReleaseCOLTrancheID MaxReleaseCOLTrancheSize r.
Definition UnmarshalResult (b : bytes) : Outcome Result.t := unpack_result b.

Definition Execute (a : t) (timestamp : Z) (actor : Address) (_ : ID) : ST M bytes :=
  fail_if (Amount a =? 0) ErrInvalidReleaseAmount ;;;
  let* cfg := GetTreasuryConfig in
  fail_if (negb (bool_decide (actor = TreasuryConfig.Governance cfg))) ErrUnauthorized ;;;
  let* st := GetTreasuryState in
  let nextAllowed := wrap_i64 (TreasuryState.LastReleaseUnix st
                               + wrap_i64 (TreasuryConfig.ReleaseEpochSeconds cfg * 1000)) in
  fail_if ((0 <? TreasuryState.LastReleaseUnix st) && (timestamp <? nextAllowed))
          ErrReleaseTooEarly ;;;
  fail_if (TreasuryState.Locked st <? Amount a) ErrInsufficientLockedCOL ;;;
  let maxRelease :=
    wrap_u64 (TreasuryState.Locked st * TreasuryConfig.MaxReleaseBips cfg) / 10000 in
  fail_if ((maxRelease =? 0) || (maxRelease <? Amount a)) ErrReleaseCapExceeded ;;;
  let locked := wrap_u64 (TreasuryState.Locked st - Amount a) in
  let* nextLive := lift (smath_Add (TreasuryState.Live st) (Amount a)) in
  let* nextReleased := lift (smath_Add (TreasuryState.Released st) (Amount a)) in
  PutTreasuryState (TreasuryState.mk locked nextLive nextReleased timestamp) ;;;
  ret (ResultBytes (Result.mk locked nextLive nextReleased)).

Definition ComputeUnits : Z := ReleaseCOLTrancheComputeUnits.
Definition ValidRange : Z * Z := AlwaysValid.
End action.
End ReleaseCOLTranche.
