(* ===== verification/VaiFacts.v ===== *)
(** * What the VAI actions do

    Minting is bounded by the debt ceiling, the epoch limit and the backing
    floor; burning retires exactly the debt it destroys; the reserve and the
    risk parameters belong to governance. *)
From S2P Require Import Prelude Errors Go Platform Storage Concrete Balance Action Vai.

Definition vai_config {PF : Platform} (m : gmap bytes bytes) : option VAIConfig.t :=
  stored VAIConfig.parse m VAIConfigKey.
Definition vai_state {PF : Platform} (m : gmap bytes bytes) : option VAIState.t :=
  stored VAIState.parse m VAIStateKey.
Definition risk_config {PF : Platform} (m : gmap bytes bytes) : option RiskConfig.t :=
  stored RiskConfig.parse m RiskConfigKey.
Definition reserve_state {PF : Platform} (m : gmap bytes bytes) : option ReserveState.t :=
  stored ReserveState.parse m ReserveStateKey.
Definition governance {PF : Platform} (m : gmap bytes bytes) : option Address :=
  option_map TreasuryConfig.Governance (stored TreasuryConfig.parse m TreasuryConfigKey).

Lemma roll_epoch_range {PF : Platform} cfg st ts :
  VAIState.ok st -> i64 ts ->
  i64 (MintVAI.roll_epoch cfg st ts).1 /\ 0 <= (MintVAI.roll_epoch cfg st ts).2 < 2 ^ 64.
Proof.
  intros (_ & He & Hm) Hts. unfold MintVAI.roll_epoch.
  destruct (_ <=? _); cbn; [split; [done|lia]|]. split; [by destruct (_ =? 0)|exact Hm].
Qed.

Section facts.
Context {PF : Platform} {PS : PlatformSpec} {M : Type} {MU : Mutable M} {MS : MutableSpec M}.

(** A mint that succeeds, in full. *)
Lemma mint_ok a ts actor tx out (s s' : M) :
  s_ok a -> i64 ts -> MintVAI.Execute a ts actor tx s = (Ok out, s') ->
  exists cfg st risk res,
    vai_config (contents s) = Some cfg /\ vai_state (contents s) = Some st /\
    risk_config (contents s) = Some risk /\ reserve_state (contents s) = Some res /\
    let '(start, minted) := MintVAI.roll_epoch cfg st ts in
    let debt := VAIState.TotalDebt st + MintVAI.Amount a in
    let bal := cell (contents s) (VAIBalanceKey (MintVAI.To a)) + MintVAI.Amount a in
    let st' := VAIState.mk debt start (minted + MintVAI.Amount a) in
    actor = VAIConfig.MintAuthority cfg /\ 0 < MintVAI.Amount a /\
    minted + MintVAI.Amount a <= VAIConfig.EpochMintLimit cfg /\
    debt <= VAIConfig.DebtCeiling cfg /\
    debt * RiskConfig.BackingFloorBips risk <= ReserveState.ExogenousReserve res * 10000 /\
    VAIState.ok st' /\ u64 bal /\
    contents s' = <[VAIStateKey := VAIState.encode st']>
                    (<[VAIBalanceKey (MintVAI.To a) := be 8 bal]> (contents s)).
Proof.
  intros Ha Hts H. unfold MintVAI.Execute, AddVAIBalance in H. cbn in Ha.
  go_inv. repeat store_step. destruct (MintVAI.roll_epoch _ _ _) as [start minted] eqn:Eroll.
  go_inv. repeat store_step.
  match goal with Gc : stored VAIConfig.parse _ _ = Some ?c,
                  Gs : stored VAIState.parse _ _ = Some ?q,
                  Gr : stored RiskConfig.parse _ _ = Some ?r,
                  Ge : stored ReserveState.parse _ _ = Some ?e |- _ =>
    exists c, q, r, e; split_and!; [done..|];
    pose proof (stored_ok _ _ _ _ _ VAIState_parse_ok Gs) as Hok;
    pose proof (roll_epoch_range c q ts Hok Hts) as Hroll; rewrite Eroll in Hroll |- *
  end.
  cbn [fst snd] in Hroll. destruct Hroll as [Hstart Hminted]. pose proof Hok as (Hdebt & _ & _).
  repeat smath_step. repeat op_step.
  match goal with Hb : (_ && _)%bool = false |- _ =>
    apply andb_false_iff in Hb as [Hb|Hb]; bool_simpl end.
  { unfold u64 in *. lia. }
  cbv zeta. subst. repeat match goal with C : contents _ = _ |- _ => rewrite C; clear C end.
  unfold u64 in Ha. split_and!; try done; lia.
Qed.

(** A burn that succeeds, in full. *)
Lemma burn_ok a ts actor tx out (s s' : M) :
  s_ok a -> BurnVAI.Execute a ts actor tx s = (Ok out, s') ->
  exists st,
    vai_state (contents s) = Some st /\
    let bal := cell (contents s) (VAIBalanceKey actor) - BurnVAI.Amount a in
    let st' := VAIState.mk (VAIState.TotalDebt st - BurnVAI.Amount a)
                           (VAIState.EpochStartUnix st) (VAIState.EpochMinted st) in
    0 < BurnVAI.Amount a <= VAIState.TotalDebt st /\ u64 bal /\ VAIState.ok st' /\
    contents s' = <[VAIStateKey := VAIState.encode st']>
                    (set_cell (contents s) (VAIBalanceKey actor) bal).
Proof.
  intros Ha H. unfold BurnVAI.Execute, SubVAIBalance in H. cbn in Ha.
  go_inv. repeat store_step. repeat op_step.
  match goal with Gs : stored VAIState.parse _ _ = Some ?q |- _ =>
    exists q; pose proof (stored_ok _ _ _ _ _ VAIState_parse_ok Gs) as (Hd & He & Hm) end.
  rewrite (wrap_u64_small (_ - _)) in * by (unfold u64 in *; lia).
  match goal with C : contents ?s0 = set_cell _ _ ?n |- _ =>
    assert (n = cell (contents s) (VAIBalanceKey actor) - BurnVAI.Amount a) as En by lia;
    rewrite En in * end.
  repeat match goal with C : contents _ = _ |- _ => rewrite C in *; clear C end.
  unfold vai_state. match goal with Gs : stored VAIState.parse _ _ = _ |- _ =>
    rewrite stored_set_ne in Gs by key_ne end.
  unfold VAIState.ok. cbv zeta. split_and!; try done; cbn; unfold u64 in *; lia.
Qed.

(** The two governance setters, in full. *)
Lemma update_reserve_ok a ts actor tx out (s s' : M) :
  UpdateReserveState.Execute a ts actor tx s = (Ok out, s') ->
  governance (contents s) = Some actor /\
  contents s' = <[ReserveStateKey :=
    ReserveState.encode (ReserveState.mk (UpdateReserveState.ExogenousReserve a)
                                         (UpdateReserveState.VAIBuffer a))]> (contents s).
Proof.
  intros H. unfold UpdateReserveState.Execute in H. go_inv. repeat store_step.
  unfold governance. match goal with G : stored _ _ _ = _ |- _ => rewrite G end. done.
Qed.

Definition risk_of (a : SetRiskParams.t) : RiskConfig.t :=
  RiskConfig.mk (SetRiskParams.BackingFloorBips a) (SetRiskParams.VEILLtvBips a)
    (SetRiskParams.WVEILLtvBips a) (SetRiskParams.WSVEILLtvBips a)
    (SetRiskParams.VEILHaircutBips a) (SetRiskParams.WVEILHaircutBips a)
    (SetRiskParams.WSVEILHaircutBips a).

Lemma set_risk_ok a ts actor tx out (s s' : M) :
  SetRiskParams.Execute a ts actor tx s = (Ok out, s') ->
  governance (contents s) = Some actor /\
  RiskConfig.validateRiskConfig (risk_of a) = Ok tt /\
  contents s' = <[RiskConfigKey := RiskConfig.encode (risk_of a)]> (contents s).
Proof.
  intros H. unfold SetRiskParams.Execute in H. go_inv. repeat store_step. repeat op_step.
  unfold governance. match goal with G : stored _ _ _ = _ |- _ => rewrite G end.
  split_and!; try done. by match goal with u : unit |- _ => destruct u end.
Qed.
End facts.

(** ** A run of mints within one epoch *)

Section runs.
Context {PF : Platform} {M : Type} {MU : Mutable M}.

(** Execute mints one after the other. *)
Fixpoint run_mints (l : list (MintVAI.t * Z * Address)) : ST M unit :=
  match l with
  | [] => ret tt
  | (a, ts, actor) :: l' =>
      MintVAI.Execute a ts actor (zero_array 32) ;;;
      run_mints l'
  end.

Definition total_minted (l : list (MintVAI.t * Z * Address)) : Z :=
  foldr (fun x acc => MintVAI.Amount x.1.1 + acc) 0 l.
End runs.

(** [ts] falls in the epoch that [st] is in, and the end of the epoch is a
    representable time. *)
Definition in_epoch (cfg : VAIConfig.t) (st : VAIState.t) (ts : Z) : Prop :=
  let epoch := VAIConfig.MintEpochSeconds cfg * 1000 in
  VAIState.EpochStartUnix st <> 0 /\ i64 epoch /\ i64 (VAIState.EpochStartUnix st + epoch) /\
  i64 ts /\ ts < VAIState.EpochStartUnix st + epoch.

Lemma roll_epoch_in {PF : Platform} cfg st ts :
  in_epoch cfg st ts ->
  MintVAI.roll_epoch cfg st ts = (VAIState.EpochStartUnix st, VAIState.EpochMinted st).
Proof.
  intros (Hne & H1 & H2 & _ & Hlt). unfold MintVAI.roll_epoch.
  rewrite (proj2 (Z.eqb_neq _ _) Hne), !wrap_i64_small by (rewrite ?wrap_i64_small; done).
  by rewrite (proj2 (Z.leb_gt _ _) Hlt).
Qed.

Section vai_properties.
Context {PF : Platform} {PS : PlatformSpec} {M : Type} {MU : Mutable M} {MS : MutableSpec M}.

(** What a mint leaves behind: the configuration, and the next VAI state. *)
Lemma mint_next a ts actor tx out (s s' : M) cfg st :
  s_ok a -> i64 ts -> MintVAI.Execute a ts actor tx s = (Ok out, s') ->
  vai_config (contents s) = Some cfg -> vai_state (contents s) = Some st ->
  vai_config (contents s') = Some cfg /\
  0 < MintVAI.Amount a /\
  (MintVAI.roll_epoch cfg st ts).2 + MintVAI.Amount a <= VAIConfig.EpochMintLimit cfg /\
  vai_state (contents s') = Some
    (VAIState.mk (VAIState.TotalDebt st + MintVAI.Amount a) (MintVAI.roll_epoch cfg st ts).1
       ((MintVAI.roll_epoch cfg st ts).2 + MintVAI.Amount a)).
Proof.
  intros Ha Hts H Hcfg Hst.
  destruct (mint_ok _ _ _ _ _ _ _ Ha Hts H) as (cfg' & st' & risk & res & Hc & Hs & _ & _ & Hm).
  rewrite Hcfg in Hc. rewrite Hst in Hs. injection Hc as <-. injection Hs as <-.
  destruct (MintVAI.roll_epoch _ _ _) as [start minted].
  destruct Hm as (_ & Hpos & Hlim & _ & _ & Hok & _ & E). rewrite E.
  unfold vai_config, vai_state in *. reads. split_and!; try done.
  by stored_put.
Qed.

(** C25: a mint that succeeds was signed by the mint authority and keeps the
    debt under the ceiling and fully backed by the exogenous reserve at the
    configured floor; the recipient and the recorded debt grow by exactly the
    amount, and no other cell of the chain changes. *)
Theorem mint_bounded a ts actor tx out (s s' : M) :
  s_ok a -> i64 ts -> MintVAI.Execute a ts actor tx s = (Ok out, s') ->
  exists cfg st st' risk res,
    vai_config (contents s) = Some cfg /\ actor = VAIConfig.MintAuthority cfg /\
    vai_state (contents s) = Some st /\ vai_state (contents s') = Some st' /\
    risk_config (contents s) = Some risk /\ reserve_state (contents s) = Some res /\
    VAIState.TotalDebt st' = VAIState.TotalDebt st + MintVAI.Amount a /\
    VAIState.TotalDebt st' <= VAIConfig.DebtCeiling cfg /\
    VAIState.EpochMinted st' <= VAIConfig.EpochMintLimit cfg /\
    VAIState.TotalDebt st' * RiskConfig.BackingFloorBips risk
      <= ReserveState.ExogenousReserve res * 10000 /\
    cell (contents s') (VAIBalanceKey (MintVAI.To a))
      = cell (contents s) (VAIBalanceKey (MintVAI.To a)) + MintVAI.Amount a /\
    forall k, k <> VAIStateKey -> k <> VAIBalanceKey (MintVAI.To a) ->
      contents s' !! k = contents s !! k.
Proof.
  intros Ha Hts H.
  destruct (mint_ok _ _ _ _ _ _ _ Ha Hts H) as (cfg & st & risk & res & Hc & Hs & Hr & Hv & Hm).
  destruct (MintVAI.roll_epoch _ _ _) as [start minted].
  destruct Hm as (Hauth & Hpos & Hlim & Hceil & Hback & Hok & Hbal & E).
  exists cfg, st. eexists (VAIState.mk _ start _), risk, res. rewrite E. unfold vai_state in *.
  stored_put; [|done]. reads.
  split_and!; try done. intros k Hk1 Hk2. by rewrite !lookup_insert_ne.
Qed.

(** However many mints succeed within one epoch, together with what the
    epoch had already minted they stay within the epoch limit. *)
Theorem mint_epoch_limit l (s s' : M) cfg st :
  vai_config (contents s) = Some cfg -> vai_state (contents s) = Some st ->
  Forall (fun x => s_ok x.1.1 /\ in_epoch cfg st x.1.2) l ->
  run_mints l s = (Ok tt, s') -> l <> [] ->
  VAIState.EpochMinted st + total_minted l <= VAIConfig.EpochMintLimit cfg.
Proof.
  revert s st. induction l as [|[[a ts] actor] l IH]; intros s st Hc Hs Hl Hrun Hne; [done|].
  inversion_clear Hl as [|? ? [Ha Hin] Hl']. cbn [fst snd] in *. cbn [run_mints] in Hrun.
  apply bind_ok in Hrun as (o & s1 & E & Hrun).
  pose proof Hin as (_ & _ & _ & Hts & _).
  destruct (mint_next _ _ _ _ _ _ _ _ _ Ha Hts E Hc Hs) as (Hc1 & Hpos & Hlim & Hs1).
  rewrite roll_epoch_in in * by done. cbn [fst snd] in *.
  unfold total_minted in *. cbn [foldr fst]. destruct l as [|y l]; [cbn; lia|].
  specialize (IH s1 _ Hc1 Hs1 Hl' Hrun ltac:(done)). cbn [VAIState.EpochMinted] in IH. lia.
Qed.

(** A burn that succeeds retires exactly the debt it destroys: the actor
    held the amount, the debt covered it, and both fall by it. *)
Theorem burn_retires_debt a ts actor tx out (s s' : M) :
  s_ok a -> BurnVAI.Execute a ts actor tx s = (Ok out, s') ->
  exists st st',
    vai_state (contents s) = Some st /\ vai_state (contents s') = Some st' /\
    0 < BurnVAI.Amount a <= VAIState.TotalDebt st /\
    VAIState.TotalDebt st' = VAIState.TotalDebt st - BurnVAI.Amount a /\
    cell (contents s) (VAIBalanceKey actor)
      = cell (contents s') (VAIBalanceKey actor) + BurnVAI.Amount a /\
    prefix_total vaiBalancePrefix (contents s)
      = prefix_total vaiBalancePrefix (contents s') + BurnVAI.Amount a.
Proof.
  intros Ha H. destruct (burn_ok _ _ _ _ _ _ _ Ha H) as (st & Hs & Hamt & Hbal & Hok & E).
  exists st. eexists. rewrite E. unfold vai_state in *.
  stored_put; [|done]. reads.
  split_and!; try done; [cbn; lia..].
Qed.

(** Risk parameters change only by the governance address, and only to
    values [GetRiskConfig] accepts: a positive backing floor, ratios of at
    most one, and no credit against wsVEIL. *)
Theorem set_risk_params_valid a ts actor tx out (s s' : M) :
  s_ok a -> SetRiskParams.Execute a ts actor tx s = (Ok out, s') ->
  governance (contents s) = Some actor /\
  risk_config (contents s') = Some (risk_of a) /\
  0 < SetRiskParams.BackingFloorBips a /\ SetRiskParams.WSVEILLtvBips a = 0 /\
  SetRiskParams.VEILLtvBips a <= bipsDenominator /\
  SetRiskParams.VEILHaircutBips a <= bipsDenominator /\
  forall k, k <> RiskConfigKey -> contents s' !! k = contents s !! k.
Proof.
  intros Ha H. destruct (set_risk_ok _ _ _ _ _ _ _ H) as (Hgov & Hval & E).
  pose proof Hval as Hv. unfold RiskConfig.validateRiskConfig in Hv. go_inv.
  repeat match goal with Hor : (_ || _)%bool = false |- _ => apply orb_false_iff in Hor as [? ?] end.
  bool_simpl. cbn in *. unfold u32, u16 in *. rewrite E. split_and!; try done; try lia.
  - unfold risk_config. by stored_put.
  - intros k Hk. by rewrite lookup_insert_ne.
Qed.
End vai_properties.

(** ** Evaluations *)

Module Samples.
Definition alice : Address := addr 1.
Definition cfg : VAIConfig.t := VAIConfig.mk alice 1000 500 60.
Definition state : VAIState.t := VAIState.mk 100 7 50.
Definition risk : RiskConfig.t := RiskConfig.mk 12000 5000 5000 0 1000 1000 1000.
Definition res : ReserveState.t := ReserveState.mk 2000 0.
Definition gov : TreasuryConfig.t := TreasuryConfig.mk alice alice 100 60.
Definition st : Store :=
  cells [(VAIConfigKey, VAIConfig.encode cfg); (VAIStateKey, VAIState.encode state);
         (RiskConfigKey, RiskConfig.encode risk); (ReserveStateKey, ReserveState.encode res);
         (TreasuryConfigKey, TreasuryConfig.encode gov);
         (VAIBalanceKey alice, be 8 100)].
Definition mint : MintVAI.t := MintVAI.mk (addr 2) 40.
Definition burn : BurnVAI.t := BurnVAI.mk 30.
Definition params : SetRiskParams.t := SetRiskParams.mk 15000 4000 4000 0 500 500 500.
Definition run_mint := MintVAI.Execute mint 1000 alice no_tx.
Definition run_burn := BurnVAI.Execute burn 1000 alice no_tx.
Definition run_params := SetRiskParams.Execute params 1000 alice no_tx.
End Samples.
Import Samples.

Lemma mint_bounded_witness : exists cfg0 st0 st' risk0 res0,
  vai_config (contents st) = Some cfg0 /\ alice = VAIConfig.MintAuthority cfg0 /\
  vai_state (contents st) = Some st0 /\ vai_state (contents (final run_mint st)) = Some st' /\
  risk_config (contents st) = Some risk0 /\ reserve_state (contents st) = Some res0 /\
  VAIState.TotalDebt st' = VAIState.TotalDebt st0 + 40 /\
  VAIState.TotalDebt st' <= VAIConfig.DebtCeiling cfg0 /\
  VAIState.EpochMinted st' <= VAIConfig.EpochMintLimit cfg0 /\
  VAIState.TotalDebt st' * RiskConfig.BackingFloorBips risk0
    <= ReserveState.ExogenousReserve res0 * 10000 /\
  cell (contents (final run_mint st)) (VAIBalanceKey (addr 2))
    = cell (contents st) (VAIBalanceKey (addr 2)) + 40 /\
  forall k, k <> VAIStateKey -> k <> VAIBalanceKey (addr 2) ->
    contents (final run_mint st) !! k = contents st !! k.
Proof. eapply (mint_bounded mint 1000 alice no_tx _ st (final run_mint st)); eval_ok. Defined.

Lemma mint_epoch_limit_witness :
  let l := [(mint, 1000, alice); (mint, 2000, alice)] in
  VAIState.EpochMinted state + total_minted l <= VAIConfig.EpochMintLimit cfg.
Proof.
  cbv zeta.
  apply (mint_epoch_limit [(mint, 1000, alice); (mint, 2000, alice)] st
    (final (run_mints [(mint, 1000, alice); (mint, 2000, alice)]) st) cfg state);
    [eval_ok | eval_ok | | eval_ok | done].
  repeat (apply Forall_cons_2; [vm_compute; intuition congruence|]). by apply Forall_nil_2.
Defined.

Lemma burn_retires_debt_witness : exists st0 st',
  vai_state (contents st) = Some st0 /\ vai_state (contents (final run_burn st)) = Some st' /\
  0 < 30 <= VAIState.TotalDebt st0 /\
  VAIState.TotalDebt st' = VAIState.TotalDebt st0 - 30 /\
  cell (contents st) (VAIBalanceKey alice)
    = cell (contents (final run_burn st)) (VAIBalanceKey alice) + 30 /\
  prefix_total vaiBalancePrefix (contents st)
    = prefix_total vaiBalancePrefix (contents (final run_burn st)) + 30.
Proof. eapply (burn_retires_debt burn 1000 alice no_tx _ st (final run_burn st)); eval_ok. Defined.

Lemma set_risk_params_valid_witness :
  governance (contents st) = Some alice /\
  risk_config (contents (final run_params st)) = Some (risk_of params) /\
  0 < 15000 /\ SetRiskParams.WSVEILLtvBips params = 0 /\ 4000 <= bipsDenominator /\
  500 <= bipsDenominator /\
  forall k, k <> RiskConfigKey -> contents (final run_params st) !! k = contents st !! k.
Proof.
  eapply (set_risk_params_valid params 1000 alice no_tx _ st (final run_params st)); eval_ok.
Defined.
