(* ===== verification/TreasuryFacts.v ===== *)
(** * What the treasury actions do

    Fee routing splits a payment into three budgets without losing a unit, also
    when the [uint64] product wraps; a release moves at most the capped share of
    the locked liquidity, at most once per epoch. *)
From S2P Require Import Prelude Errors Go Platform Storage Concrete Balance Action Treasury.

Definition fee_state {PF : Platform} (m : gmap bytes bytes) : option FeeRouterState.t :=
  stored FeeRouterState.parse m FeeRouterStateKey.
Definition fee_config {PF : Platform} (m : gmap bytes bytes) : option FeeRouterConfig.t :=
  stored FeeRouterConfig.parse m FeeRouterConfigKey.
Definition treasury_state {PF : Platform} (m : gmap bytes bytes) : option TreasuryState.t :=
  stored TreasuryState.parse m TreasuryStateKey.
Definition treasury_config {PF : Platform} (m : gmap bytes bytes) : option TreasuryConfig.t :=
  stored TreasuryConfig.parse m TreasuryConfigKey.

Definition budgets (st : FeeRouterState.t) : Z :=
  FeeRouterState.MSRBBudget st + FeeRouterState.COLBudget st + FeeRouterState.OpsBudget st.

(** ** The split *)

Lemma wrapped_share_le bips amount :
  0 <= bips -> 0 <= amount -> 0 <= wrap_u64 (bips * amount) / 10000 <= bips * amount / 10000.
Proof.
  intros. assert (0 <= wrap_u64 (bips * amount) <= bips * amount).
  { unfold wrap_u64. split; [apply Z.mod_pos_bound; lia | apply Z.mod_le; nia]. }
  split; [apply Z.div_pos; lia | apply Z.div_le_mono; lia].
Qed.

(** The three shares are amounts and add up to the payment, also when a product
    wraps. *)
Lemma shares_sum {PF : Platform} cfg amount a b c :
  FeeRouterConfig.ok cfg -> u64 amount -> RouteFees.shares cfg amount = (a, b, c) ->
  a + b + c = amount /\ 0 <= a /\ 0 <= b /\ 0 <= c.
Proof.
  unfold FeeRouterConfig.ok, u16, u64, bipsDenominator, RouteFees.shares.
  intros (Hm & Hc & Ho & Hsum) Ha Heq.
  pose proof (wrapped_share_le (FeeRouterConfig.MSRBBips cfg) amount ltac:(lia) ltac:(lia)) as H1.
  pose proof (wrapped_share_le (FeeRouterConfig.COLBips cfg) amount ltac:(lia) ltac:(lia)) as H2.
  set (x := wrap_u64 (FeeRouterConfig.MSRBBips cfg * amount) / 10000) in *.
  set (y := wrap_u64 (FeeRouterConfig.COLBips cfg * amount) / 10000) in *.
  assert (x + y <= amount).
  { pose proof (Z.mul_div_le (FeeRouterConfig.MSRBBips cfg * amount) 10000).
    pose proof (Z.mul_div_le (FeeRouterConfig.COLBips cfg * amount) 10000). nia. }
  rewrite !wrap_u64_small in Heq by (rewrite ?wrap_u64_small; unfold u64; lia).
  injection Heq as <- <- <-. lia.
Qed.

(** Without wrap-around the shares are the configured ones, rounded down, and
    the operations budget takes the rest. *)
Lemma shares_exact {PF : Platform} cfg amount a b c :
  FeeRouterConfig.ok cfg -> u64 amount ->
  FeeRouterConfig.MSRBBips cfg * amount < 2 ^ 64 ->
  FeeRouterConfig.COLBips cfg * amount < 2 ^ 64 ->
  RouteFees.shares cfg amount = (a, b, c) ->
  a = FeeRouterConfig.MSRBBips cfg * amount / 10000 /\
  b = FeeRouterConfig.COLBips cfg * amount / 10000 /\
  FeeRouterConfig.OpsBips cfg * amount <= c * 10000 < FeeRouterConfig.OpsBips cfg * amount + 20000.
Proof.
  intros Hok Ha Hw1 Hw2 Heq. pose proof (shares_sum _ _ _ _ _ Hok Ha Heq) as (Hsum & _).
  destruct Hok as (Hm & Hc & Ho & Hs). unfold u16, u64, bipsDenominator in *.
  unfold RouteFees.shares in Heq. rewrite (wrap_u64_small (_ * _)) in Heq by (unfold u64; nia).
  rewrite (wrap_u64_small (FeeRouterConfig.COLBips cfg * _)) in Heq by (unfold u64; nia).
  injection Heq as Ea Eb _.
  pose proof (Z.div_mod (FeeRouterConfig.MSRBBips cfg * amount) 10000).
  pose proof (Z.div_mod (FeeRouterConfig.COLBips cfg * amount) 10000).
  pose proof (Z.mod_pos_bound (FeeRouterConfig.MSRBBips cfg * amount) 10000).
  pose proof (Z.mod_pos_bound (FeeRouterConfig.COLBips cfg * amount) 10000).
  assert (FeeRouterConfig.MSRBBips cfg * amount + FeeRouterConfig.COLBips cfg * amount
          + FeeRouterConfig.OpsBips cfg * amount = 10000 * amount) by nia.
  split_and!; [done|done|lia|lia].
Qed.

Section facts.
Context {PF : Platform} {PS : PlatformSpec} {M : Type} {MU : Mutable M} {MS : MutableSpec M}.

Lemma route_fees_ok a ts actor tx out (s s' : M) :
  s_ok a -> RouteFees.Execute a ts actor tx s = (Ok out, s') ->
  exists cfg st x y z,
    fee_config (contents s) = Some cfg /\ FeeRouterConfig.ok cfg /\
    fee_state (contents s) = Some st /\
    RouteFees.shares cfg (RouteFees.Amount a) = (x, y, z) /\
    let bal := cell (contents s) (BalanceKey actor) - RouteFees.Amount a in
    let st' := FeeRouterState.mk (FeeRouterState.MSRBBudget st + x)
                 (FeeRouterState.COLBudget st + y) (FeeRouterState.OpsBudget st + z) in
    0 < RouteFees.Amount a /\ u64 bal /\ FeeRouterState.ok st' /\
    contents s' = <[FeeRouterStateKey := FeeRouterState.encode st']>
                    (set_cell (contents s) (BalanceKey actor) bal).
Proof.
  intros Ha H. unfold RouteFees.Execute, SubBalance in H. cbn in Ha. go_inv.
  destruct (RouteFees.shares _ _) as [[x y] z] eqn:Esh. go_inv.
  repeat store_step.
  match goal with Gc : stored FeeRouterConfig.parse _ _ = Some ?c,
                  Gs : stored FeeRouterState.parse _ _ = Some ?q |- _ =>
    exists c, q, x, y, z;
    pose proof (stored_ok _ _ _ _ _ FeeRouterConfig_parse_ok Gc) as Hcfg;
    pose proof (stored_ok _ _ _ _ _ FeeRouterState_parse_ok Gs) as (Hm & Hc & Ho);
    pose proof (shares_sum _ _ _ _ _ Hcfg Ha Esh) as (Hsum & Hx & Hy & Hz)
  end.
  repeat op_step. repeat smath_step. subst.
  match goal with C : contents ?s0 = set_cell _ _ ?n, N : cell _ _ = ?n + _ |- _ =>
    replace n with (cell (contents s) (BalanceKey actor) - RouteFees.Amount a) in * by lia end.
  repeat match goal with C : contents _ = _ |- _ => rewrite C in *; clear C end.
  unfold FeeRouterState.ok. cbv zeta. split_and!; try done; unfold u64 in *; lia.
Qed.

Lemma release_ok a ts actor tx out (s s' : M) :
  s_ok a -> ReleaseCOLTranche.Execute a ts actor tx s = (Ok out, s') ->
  exists cfg st,
    treasury_config (contents s) = Some cfg /\ actor = TreasuryConfig.Governance cfg /\
    treasury_state (contents s) = Some st /\ TreasuryState.ok st /\
    let amount := ReleaseCOLTranche.Amount a in
    let st' := TreasuryState.mk (TreasuryState.Locked st - amount)
                 (TreasuryState.Live st + amount) (TreasuryState.Released st + amount) ts in
    0 < amount <= TreasuryState.Locked st /\
    amount <= wrap_u64 (TreasuryState.Locked st * TreasuryConfig.MaxReleaseBips cfg) / 10000 /\
    (0 < TreasuryState.LastReleaseUnix st ->
     wrap_i64 (TreasuryState.LastReleaseUnix st
               + wrap_i64 (TreasuryConfig.ReleaseEpochSeconds cfg * 1000)) <= ts) /\
    (i64 ts -> TreasuryState.ok st') /\
    contents s' = <[TreasuryStateKey := TreasuryState.encode st']> (contents s).
Proof.
  intros Ha H. unfold ReleaseCOLTranche.Execute in H. cbn in Ha. go_inv. repeat store_step.
  match goal with Gc : stored TreasuryConfig.parse _ _ = Some ?c,
                  Gs : stored TreasuryState.parse _ _ = Some ?q |- _ =>
    exists c, q; pose proof (stored_ok _ _ _ _ _ TreasuryState_parse_ok Gs) as Hok
  end.
  pose proof Hok as (Hl & Hv & Hr & Ht). repeat smath_step. subst.
  rewrite (wrap_u64_small (_ - _)) in * by (unfold u64 in *; lia).
  unfold TreasuryState.ok. cbv zeta. split_and!; try done; try (unfold u64 in *; lia).
  intros. unfold u64 in *. cbn. split_and!; try done; lia.
Qed.
End facts.

(** ** Where the products wrap *)

(** Half of the 64-bit range, split 50/30/20: both products wrap to zero and the
    operations budget receives everything. *)
Lemma shares_wrap :
  RouteFees.shares (FeeRouterConfig.mk 5000 3000 2000) (2 ^ 63) = (0, 0, 2 ^ 63).
Proof. reflexivity. Qed.

(** With the same amount locked, a release cap of one percent evaluates to zero,
    which refuses every release. *)
Lemma release_cap_wrap : wrap_u64 (2 ^ 63 * 100) / 10000 = 0.
Proof. reflexivity. Qed.

(** ** A run of releases *)

Section runs.
Context {PF : Platform} {M : Type} {MU : Mutable M}.

Fixpoint run_releases (l : list (ReleaseCOLTranche.t * Z * Address)) : ST M unit :=
  match l with
  | [] => ret tt
  | (a, ts, actor) :: l' =>
      ReleaseCOLTranche.Execute a ts actor (zero_array 32) ;;;
      run_releases l'
  end.

Definition total_released (l : list (ReleaseCOLTranche.t * Z * Address)) : Z :=
  foldr (fun x acc => ReleaseCOLTranche.Amount x.1.1 + acc) 0 l.

(** Each time is at least [epoch] after the one before it; [last] is zero when
    there was none. *)
Fixpoint spaced (epoch last : Z) (l : list (ReleaseCOLTranche.t * Z * Address)) : Prop :=
  match l with
  | [] => True
  | (_, ts, _) :: l' => (0 < last -> last + epoch <= ts) /\ spaced epoch ts l'
  end.
End runs.

(** The configured epoch in milliseconds, and times far from the end of [int64]. *)
Definition epoch_ms (cfg : TreasuryConfig.t) : Z := TreasuryConfig.ReleaseEpochSeconds cfg * 1000.
Definition sane_time (ts : Z) : Prop := 0 < ts < 2 ^ 62.

Section treasury_properties.
Context {PF : Platform} {PS : PlatformSpec} {M : Type} {MU : Mutable M} {MS : MutableSpec M}.

(** Routing a fee conserves value: what leaves the payer's balance is what
    the three budgets gain, for every amount and configuration. *)
Theorem route_fees_conserves a ts actor tx out (s s' : M) :
  s_ok a -> RouteFees.Execute a ts actor tx s = (Ok out, s') ->
  exists st st',
    fee_state (contents s) = Some st /\ fee_state (contents s') = Some st' /\
    0 < RouteFees.Amount a /\
    budgets st' = budgets st + RouteFees.Amount a /\
    FeeRouterState.MSRBBudget st <= FeeRouterState.MSRBBudget st' /\
    FeeRouterState.COLBudget st <= FeeRouterState.COLBudget st' /\
    FeeRouterState.OpsBudget st <= FeeRouterState.OpsBudget st' /\
    cell (contents s) (BalanceKey actor)
      = cell (contents s') (BalanceKey actor) + RouteFees.Amount a /\
    prefix_total balancePrefix (contents s) + budgets st
      = prefix_total balancePrefix (contents s') + budgets st'.
Proof.
  intros Ha H. destruct (route_fees_ok _ _ _ _ _ _ _ Ha H)
    as (cfg & st & x & y & z & _ & Hcfg & Hst & Hsh & Hpos & Hbal & Hok & E).
  pose proof (shares_sum _ _ _ _ _ Hcfg Ha Hsh) as (Hsum & Hx & Hy & Hz).
  exists st. eexists. rewrite E. unfold fee_state in *. stored_put; [|done]. reads.
  unfold budgets. split_and!; try done; cbn; lia.
Qed.

(** As long as no product leaves 64 bits, the security and liquidity
    budgets gain their configured share rounded down, and operations gains at
    least its own share and less than two units more. *)
Theorem route_fees_split a ts actor tx out (s s' : M) cfg :
  s_ok a -> fee_config (contents s) = Some cfg ->
  FeeRouterConfig.MSRBBips cfg * RouteFees.Amount a < 2 ^ 64 ->
  FeeRouterConfig.COLBips cfg * RouteFees.Amount a < 2 ^ 64 ->
  RouteFees.Execute a ts actor tx s = (Ok out, s') ->
  exists st st',
    fee_state (contents s) = Some st /\ fee_state (contents s') = Some st' /\
    FeeRouterState.MSRBBudget st' - FeeRouterState.MSRBBudget st
      = FeeRouterConfig.MSRBBips cfg * RouteFees.Amount a / 10000 /\
    FeeRouterState.COLBudget st' - FeeRouterState.COLBudget st
      = FeeRouterConfig.COLBips cfg * RouteFees.Amount a / 10000 /\
    FeeRouterConfig.OpsBips cfg * RouteFees.Amount a
      <= (FeeRouterState.OpsBudget st' - FeeRouterState.OpsBudget st) * 10000
      < FeeRouterConfig.OpsBips cfg * RouteFees.Amount a + 20000.
Proof.
  intros Ha Hc Hw1 Hw2 H. destruct (route_fees_ok _ _ _ _ _ _ _ Ha H)
    as (cfg' & st & x & y & z & Hc' & Hcfg & Hst & Hsh & _ & _ & Hok & E).
  rewrite Hc in Hc'. injection Hc' as <-.
  pose proof (shares_exact _ _ _ _ _ Hcfg Ha Hw1 Hw2 Hsh) as (Hx & Hy & Hz & Hz').
  exists st. eexists. rewrite E. unfold fee_state in *. stored_put; [|done].
  split_and!; try done; cbn; lia.
Qed.

(** A release that succeeds was signed by governance, moves the amount
    from locked to live and to the released counter, is at most the configured
    share of what was locked, and touches nothing but the treasury state. *)
Theorem release_capped a ts actor tx out (s s' : M) :
  s_ok a -> i64 ts -> ReleaseCOLTranche.Execute a ts actor tx s = (Ok out, s') ->
  exists cfg st st',
    treasury_config (contents s) = Some cfg /\ actor = TreasuryConfig.Governance cfg /\
    treasury_state (contents s) = Some st /\ treasury_state (contents s') = Some st' /\
    ReleaseCOLTranche.Amount a * 10000
      <= TreasuryState.Locked st * TreasuryConfig.MaxReleaseBips cfg /\
    TreasuryState.Locked st' = TreasuryState.Locked st - ReleaseCOLTranche.Amount a /\
    0 <= TreasuryState.Locked st' /\
    TreasuryState.Live st' = TreasuryState.Live st + ReleaseCOLTranche.Amount a /\
    TreasuryState.Released st' = TreasuryState.Released st + ReleaseCOLTranche.Amount a /\
    TreasuryState.LastReleaseUnix st' = ts /\
    forall k, k <> TreasuryStateKey -> contents s' !! k = contents s !! k.
Proof.
  intros Ha Hts H. destruct (release_ok _ _ _ _ _ _ _ Ha H)
    as (cfg & st & Hc & Hg & Hst & Hsok & Hamt & Hcap & _ & Hok & E).
  specialize (Hok Hts). destruct Hsok as (Hl & _).
  exists cfg, st. eexists. rewrite E. unfold treasury_state in *. stored_put; [|done].
  split_and!; try done; cbn.
  - assert (Hw : 0 <= wrap_u64 (TreasuryState.Locked st * TreasuryConfig.MaxReleaseBips cfg)
                 <= TreasuryState.Locked st * TreasuryConfig.MaxReleaseBips cfg).
    { unfold wrap_u64. split; [apply Z.mod_pos_bound; lia|]. apply Z.mod_le; [|lia].
      unfold treasury_config in Hc.
      pose proof (stored_ok _ _ _ _ _ TreasuryConfig_parse_ok Hc) as [Hb _].
      unfold u16, u64 in *. nia. }
    pose proof (Z.mul_div_le (wrap_u64 (TreasuryState.Locked st
                                        * TreasuryConfig.MaxReleaseBips cfg)) 10000). lia.
  - lia.
  - intros k Hk. by rewrite lookup_insert_ne.
Qed.

Lemma release_next a ts actor tx out (s s' : M) cfg st :
  s_ok a -> ReleaseCOLTranche.Execute a ts actor tx s = (Ok out, s') ->
  treasury_config (contents s) = Some cfg -> treasury_state (contents s) = Some st ->
  0 <= epoch_ms cfg < 2 ^ 62 -> sane_time ts ->
  (0 < TreasuryState.LastReleaseUnix st -> sane_time (TreasuryState.LastReleaseUnix st)) ->
  (0 < TreasuryState.LastReleaseUnix st ->
   TreasuryState.LastReleaseUnix st + epoch_ms cfg <= ts) /\
  treasury_config (contents s') = Some cfg /\
  exists st', treasury_state (contents s') = Some st' /\
    TreasuryState.LastReleaseUnix st' = ts /\
    TreasuryState.Locked st' = TreasuryState.Locked st - ReleaseCOLTranche.Amount a.
Proof.
  intros Ha H Hc Hst He Hts Hlast. destruct (release_ok _ _ _ _ _ _ _ Ha H)
    as (cfg' & st0 & Hc' & _ & Hst' & _ & _ & _ & Hsp & Hok & E).
  rewrite Hc in Hc'. injection Hc' as <-. rewrite Hst in Hst'. injection Hst' as <-.
  unfold sane_time, epoch_ms in *. split_and!.
  - intros Hpos. specialize (Hsp Hpos). specialize (Hlast Hpos).
    rewrite !wrap_i64_small in Hsp by (rewrite ?wrap_i64_small; unfold i64; lia). lia.
  - rewrite E. unfold treasury_config in *. by reads.
  - eexists. rewrite E. unfold treasury_state in *. stored_put; [done|].
    apply Hok. unfold i64. lia.
Qed.

(** In every run of releases that succeed, consecutive releases are at
    least one epoch apart, the first one also from the release before the run,
    and the locked amount falls by exactly what was released. *)
Theorem releases_spaced l (s s' : M) cfg st :
  treasury_config (contents s) = Some cfg -> treasury_state (contents s) = Some st ->
  0 <= epoch_ms cfg < 2 ^ 62 ->
  (0 < TreasuryState.LastReleaseUnix st -> sane_time (TreasuryState.LastReleaseUnix st)) ->
  Forall (fun x => s_ok x.1.1 /\ sane_time x.1.2) l ->
  run_releases l s = (Ok tt, s') ->
  spaced (epoch_ms cfg) (TreasuryState.LastReleaseUnix st) l /\
  exists st', treasury_state (contents s') = Some st' /\
    TreasuryState.Locked st' = TreasuryState.Locked st - total_released l.
Proof.
  intros Hc Hst He. revert s st Hc Hst.
  induction l as [|[[a ts] actor] l IH]; intros s st Hc Hst Hlast Hl Hrun.
  { cbn in Hrun. injection Hrun as <-. split; [done|]. exists st. split; [done|]. cbn. lia. }
  inversion_clear Hl as [|? ? [Ha Hts] Hl']. cbn [fst snd] in *. cbn [run_releases] in Hrun.
  apply bind_ok in Hrun as (o & s1 & E & Hrun).
  destruct (release_next _ _ _ _ _ _ _ _ _ Ha E Hc Hst He Hts Hlast)
    as (Hsp & Hc1 & st1 & Hst1 & Hl1 & Hlk).
  destruct (IH s1 st1 Hc1 Hst1) as (Hs & st2 & Hst2 & Hlk2); [by rewrite Hl1 | done | done |].
  rewrite Hl1 in Hs. split; [done|]. exists st2. split; [done|].
  rewrite Hlk2, Hlk. unfold total_released. cbn. lia.
Qed.
End treasury_properties.

(** ** Evaluations *)

Module Samples.
Definition alice : Address := addr 1.
Definition gov : TreasuryConfig.t := TreasuryConfig.mk alice alice 1000 60.
Definition tstate : TreasuryState.t := TreasuryState.mk 100000 0 0 0.
Definition fcfg : FeeRouterConfig.t := FeeRouterConfig.mk 5000 3000 2000.
Definition fstate : FeeRouterState.t := FeeRouterState.mk 1 2 3.
Definition st : Store :=
  cells [(TreasuryConfigKey, TreasuryConfig.encode gov);
         (TreasuryStateKey, TreasuryState.encode tstate);
         (FeeRouterConfigKey, FeeRouterConfig.encode fcfg);
         (FeeRouterStateKey, FeeRouterState.encode fstate); (BalanceKey alice, be 8 1000)].
Definition fees : RouteFees.t := RouteFees.mk 777.
Definition rel : ReleaseCOLTranche.t := ReleaseCOLTranche.mk 9000.
Definition run_fees := RouteFees.Execute fees 1000 alice no_tx.
Definition run_rel := ReleaseCOLTranche.Execute rel 1000 alice no_tx.
Definition two : list (ReleaseCOLTranche.t * Z * Address) :=
  [(rel, 1000, alice); (rel, 61000, alice)].
End Samples.
Import Samples.

Lemma route_fees_conserves_witness : exists st0 st',
  fee_state (contents st) = Some st0 /\ fee_state (contents (final run_fees st)) = Some st' /\
  0 < 777 /\ budgets st' = budgets st0 + 777 /\
  FeeRouterState.MSRBBudget st0 <= FeeRouterState.MSRBBudget st' /\
  FeeRouterState.COLBudget st0 <= FeeRouterState.COLBudget st' /\
  FeeRouterState.OpsBudget st0 <= FeeRouterState.OpsBudget st' /\
  cell (contents st) (BalanceKey alice)
    = cell (contents (final run_fees st)) (BalanceKey alice) + 777 /\
  prefix_total balancePrefix (contents st) + budgets st0
    = prefix_total balancePrefix (contents (final run_fees st)) + budgets st'.
Proof. eapply (route_fees_conserves fees 1000 alice no_tx _ st (final run_fees st)); eval_ok. Defined.

Lemma route_fees_split_witness : exists st0 st',
  fee_state (contents st) = Some st0 /\ fee_state (contents (final run_fees st)) = Some st' /\
  FeeRouterState.MSRBBudget st' - FeeRouterState.MSRBBudget st0 = 5000 * 777 / 10000 /\
  FeeRouterState.COLBudget st' - FeeRouterState.COLBudget st0 = 3000 * 777 / 10000 /\
  2000 * 777 <= (FeeRouterState.OpsBudget st' - FeeRouterState.OpsBudget st0) * 10000
    < 2000 * 777 + 20000.
Proof. eapply (route_fees_split fees 1000 alice no_tx _ st (final run_fees st) fcfg); eval_ok. Defined.

Lemma release_capped_witness : exists cfg st0 st',
  treasury_config (contents st) = Some cfg /\ alice = TreasuryConfig.Governance cfg /\
  treasury_state (contents st) = Some st0 /\
  treasury_state (contents (final run_rel st)) = Some st' /\
  9000 * 10000 <= TreasuryState.Locked st0 * TreasuryConfig.MaxReleaseBips cfg /\
  TreasuryState.Locked st' = TreasuryState.Locked st0 - 9000 /\ 0 <= TreasuryState.Locked st' /\
  TreasuryState.Live st' = TreasuryState.Live st0 + 9000 /\
  TreasuryState.Released st' = TreasuryState.Released st0 + 9000 /\
  TreasuryState.LastReleaseUnix st' = 1000 /\
  forall k, k <> TreasuryStateKey -> contents (final run_rel st) !! k = contents st !! k.
Proof. eapply (release_capped rel 1000 alice no_tx _ st (final run_rel st)); eval_ok. Defined.

Lemma releases_spaced_witness :
  spaced 60000 0 two /\
  exists st', treasury_state (contents (final (run_releases two) st)) = Some st' /\
    TreasuryState.Locked st' = TreasuryState.Locked tstate - total_released two.
Proof.
  apply (releases_spaced two st (final (run_releases two) st) gov tstate);
    [eval_ok | eval_ok | eval_ok | eval_ok | | eval_ok].
  repeat (apply Forall_cons_2; [vm_compute; intuition congruence|]). by apply Forall_nil_2.
Defined.
