(* ===== verification/ProofEnvelopeFacts.v ===== *)
(** * Facts about proof payloads and public inputs

    Envelopes parse back to what was built, the preimages are injective and
    domain-separated, the verifier hook fails closed, and every derived glyph is
    one that can be stored. *)
From S2P Require Import Prelude Errors Go Platform Sha256 Storage ProofEnvelope.

(** ** Slices of a header followed by byte strings *)

Lemma slice_after (hdr p rest : bytes) off n :
  length hdr = off -> length p = n -> slice off n (hdr ++ p ++ rest) = p.
Proof. intros Hh <-. rewrite (slice_app_skip hdr) by done. by rewrite take_app_length. Qed.

Lemma slice_last (hdr p : bytes) off n :
  length hdr = off -> length p = n -> slice off n (hdr ++ p) = p.
Proof. intros Hh <-. rewrite (slice_app_skip hdr) by done. by rewrite firstn_all. Qed.

Lemma slice_in_header (hdr rest : bytes) off n k :
  length hdr = k -> (off + n <= k)%nat -> slice off n (hdr ++ rest) = slice off n hdr.
Proof.
  intros <- H. unfold slice. rewrite drop_app_le, take_app_le; rewrite ?length_drop; lia || done.
Qed.

Lemma to_nat_len v : Z.to_nat (len v) = length v.
Proof. unfold len. lia. Qed.

Lemma len_app v w : len (v ++ w) = len v + len w.
Proof. unfold len. rewrite length_app. lia. Qed.

Lemma len_be n z : len (be n z) = Z.of_nat n.
Proof. unfold len. by rewrite length_be. Qed.

(** ** Circuit identifiers *)

(** No byte of a circuit identifier starts or ends the image of a space. *)
Definition no_space_byte (b : byte) (runes : list bytes) : bool :=
  forallb (fun r => match head r with
                    | Some x => negb (bool_decide (x = b))
                    | None => false
                    end) runes.

Lemma circuit_char_no_space b :
  circuit_char b = true ->
  no_space_byte b space_runes = true /\ no_space_byte b (map (@rev byte) space_runes) = true.
Proof. by destruct b; vm_compute. Qed.

Lemma find_no_space b s runes :
  no_space_byte b runes = true -> List.find (starts_with (b :: s)) runes = None.
Proof.
  induction runes as [|r runes IH]; cbn [no_space_byte forallb List.find]; [done|].
  destruct r as [|x r]; cbn [head]; [done|]. intros [Hx Hr]%andb_true_iff.
  assert (starts_with (b :: s) (x :: r) = false) as ->.
  { unfold starts_with. apply bool_decide_eq_false. cbn. intros [= -> _].
    by rewrite bool_decide_true in Hx. }
  by apply IH.
Qed.

Lemma trim_front_id fuel runes b s :
  no_space_byte b runes = true -> trim_front fuel runes (b :: s) = b :: s.
Proof. destruct fuel; cbn [trim_front]; [done|]. intros H. by rewrite find_no_space. Qed.

Lemma valid_circuit_chars c :
  isValidProofCircuitID c = true -> 0 < len c <= 63 /\ forallb circuit_char c = true.
Proof.
  unfold isValidProofCircuitID, maxProofCircuitIDLen. destruct (_ || _)%bool eqn:E; [done|].
  intros. bool_simpl. unfold len in *. split; [lia|done].
Qed.

(** Trimming leaves a valid circuit identifier alone. *)
Lemma TrimSpace_valid c : isValidProofCircuitID c = true -> TrimSpace c = c.
Proof.
  intros (Hl & Hc)%valid_circuit_chars. unfold TrimSpace.
  destruct c as [|b c]; [done|]. cbn [forallb] in Hc. apply andb_true_iff in Hc as [Hb Hc].
  rewrite trim_front_id by by apply circuit_char_no_space.
  destruct (rev (b :: c)) as [|z w] eqn:E.
  { apply (f_equal (@List.length byte)) in E. rewrite length_rev in E. done. }
  rewrite trim_front_id; [rewrite <-E; apply rev_involutive|].
  apply circuit_char_no_space.
  assert (Hz : In z (b :: c)) by (apply in_rev; rewrite E; by left).
  destruct Hz as [<-|Hz]; [done|]. by apply (proj1 (forallb_forall _ _) Hc).
Qed.

(** Trimming twice is trimming once. *)

Lemma starts_with_app s r : starts_with s r = true <-> exists t, s = r ++ t.
Proof.
  unfold starts_with. rewrite bool_decide_eq_true. split.
  - intros E. exists (drop (List.length r) s). rewrite <-E at 1. by rewrite take_drop.
  - intros [t ->]. by rewrite take_app_length.
Qed.

(** No rune is left where the trimming began, and what is left is a suffix. *)
Lemma trim_front_spec runes fuel s :
  (forall r, In r runes -> r <> []) -> (List.length s <= fuel)%nat ->
  List.find (starts_with (trim_front fuel runes s)) runes = None /\
  exists p, s = p ++ trim_front fuel runes s.
Proof.
  intros Hr. revert s. induction fuel as [|fuel IH]; intros s Hl; cbn [trim_front].
  - destruct s as [|b s]; [|cbn in Hl; lia]. split; [|by exists nil].
    destruct (find _ runes) as [r|] eqn:E; [|done]. apply find_some in E as [Hi Hs].
    apply starts_with_app in Hs as [t Hs]. apply Hr in Hi. by destruct r.
  - destruct (find (starts_with s) runes) as [r|] eqn:E; [|split; [done|by exists nil]].
    apply find_some in E as [Hi [t Hs]%starts_with_app]. apply Hr in Hi.
    rewrite Hs, drop_app_length. rewrite Hs, length_app in Hl.
    destruct (IH t) as (Hn & p & Hp); [destruct r; [done|cbn in Hl; lia]|].
    split; [done|]. exists (r ++ p). by rewrite <-app_assoc, <-Hp.
Qed.

Lemma find_starts_none runes s p :
  List.find (starts_with (s ++ p)) runes = None -> List.find (starts_with s) runes = None.
Proof.
  intros H. destruct (find (starts_with s) runes) as [r|] eqn:E; [|done].
  apply find_some in E as [Hi [t ->]%starts_with_app].
  pose proof (find_none _ _ H r Hi) as Hn. rewrite <-app_assoc in Hn.
  rewrite (proj2 (starts_with_app _ r)) in Hn by eauto. done.
Qed.

Lemma trim_front_none fuel runes s :
  List.find (starts_with s) runes = None -> trim_front fuel runes s = s.
Proof. destruct fuel; cbn [trim_front]; [done|]. by intros ->. Qed.

Lemma TrimSpace_idem s : TrimSpace (TrimSpace s) = TrimSpace s.
Proof.
  assert (Hr : forall r, In r space_runes -> r <> []).
  { intros r Hi ->. cbn in Hi. intuition discriminate. }
  assert (Hr' : forall r, In r (map (@rev byte) space_runes) -> r <> []).
  { intros r (q & <- & Hq)%in_map_iff E. apply (Hr q Hq). by rewrite <-(rev_involutive q), E. }
  unfold TrimSpace. cbv zeta.
  destruct (trim_front_spec space_runes (List.length s) s Hr) as [Hf _]; [lia|].
  set (s1 := trim_front (List.length s) space_runes s) in *.
  destruct (trim_front_spec (map (@rev byte) space_runes) (List.length s1) (rev s1) Hr')
    as (Hb & p & Hp); [rewrite length_rev; lia|].
  set (t := trim_front (List.length s1) (map (@rev byte) space_runes) (rev s1)) in *.
  rewrite (trim_front_none _ space_runes (rev t)).
  - rewrite rev_involutive. by rewrite trim_front_none.
  - apply (find_starts_none _ _ (rev p)). rewrite <-rev_app_distr, <-Hp, rev_involutive. done.
Qed.

(** ** Envelopes *)

Ltac u32_len := unfold u32, len in *; lia.

(** What the parser finds in a VZK1 header. *)
Lemma v1_header ty p w rest (hdr := proofEnvelopeMagicV1 ++ be 1 ty ++ be 4 p ++ be 4 w) :
  u8 ty -> u32 p -> u32 w ->
  length hdr = 13%nat /\ slice 0 4 (hdr ++ rest) = proofEnvelopeMagicV1 /\
  uint_at 4 1 (hdr ++ rest) = ty /\ uint_at 5 4 (hdr ++ rest) = p /\
  uint_at 9 4 (hdr ++ rest) = w.
Proof.
  intros Ht Hp Hw. assert (Hh : length hdr = 13%nat) by (unfold hdr; by autorewrite with lengths).
  split; [done|]. unfold uint_at. rewrite !(slice_in_header hdr rest _ _ 13) by (done || lia).
  unfold hdr. rewrite (slice_app_ge 4 4 1), (slice_app_ge 4 5 4), (slice_app_ge 4 9 4)
    by (reflexivity || lia).
  cbn [Nat.sub]. rewrite slice_app_here by done. slices. decode_fields. done.
Qed.

Lemma v2_header ty c p w rest
    (hdr := proofEnvelopeMagicV2 ++ be 1 ty ++ be 1 c ++ be 4 p ++ be 4 w) :
  u8 ty -> u8 c -> u32 p -> u32 w ->
  length hdr = 14%nat /\ slice 0 4 (hdr ++ rest) = proofEnvelopeMagicV2 /\
  uint_at 4 1 (hdr ++ rest) = ty /\ uint_at 5 1 (hdr ++ rest) = c /\
  uint_at 6 4 (hdr ++ rest) = p /\ uint_at 10 4 (hdr ++ rest) = w.
Proof.
  intros Ht Hc Hp Hw.
  assert (Hh : length hdr = 14%nat) by (unfold hdr; by autorewrite with lengths).
  split; [done|]. unfold uint_at. rewrite !(slice_in_header hdr rest _ _ 14) by (done || lia).
  unfold hdr. rewrite (slice_app_ge 4 4 1), (slice_app_ge 4 5 1), (slice_app_ge 4 6 4),
    (slice_app_ge 4 10 4) by (reflexivity || lia).
  cbn [Nat.sub]. rewrite slice_app_here by done. slices. decode_fields. done.
Qed.

Ltac no_guard := rewrite guard_false by (unfold len in *; lia); cbn [obind].

(** The payload of [BuildProofEnvelope] parses back to its parts. *)
Theorem envelope_v1_roundtrip ty proof witness blob :
  u8 ty -> BuildProofEnvelope ty proof witness = Ok blob ->
  parseProofEnvelope blob = Ok (mk_envelope ty [] proof witness true).
Proof.
  intros Hty H. unfold BuildProofEnvelope, MaxProofBytesSize, proofEnvelopeV1HeaderLen in H.
  go_inv. rewrite !wrap_u32_small by u32_len.
  destruct (v1_header ty (len proof) (len witness) (proof ++ witness))
    as (Hh & Hm & Et & Ep & Ew); [done | u32_len | u32_len |].
  set (hdr := proofEnvelopeMagicV1 ++ be 1 ty ++ be 4 (len proof) ++ be 4 (len witness)) in *.
  match goal with |- parseProofEnvelope ?v = _ =>
    replace v with (hdr ++ proof ++ witness) by (unfold hdr; by rewrite <-!app_assoc) end.
  assert (Hlen : len (hdr ++ proof ++ witness) = 13 + len proof + len witness)
    by (rewrite !len_app; unfold len at 1; lia).
  unfold parseProofEnvelope. rewrite Hm, Hlen, bool_decide_true by done.
  rewrite (proj2 (Z.ltb_ge _ 4)) by (unfold len; lia).
  unfold parseProofEnvelopeV1, proofEnvelopeV1HeaderLen. rewrite Hlen, Et, Ep, Ew, !to_nat_len.
  do 3 no_guard. rewrite (slice_after hdr) by done. rewrite app_assoc.
  rewrite (slice_last (hdr ++ proof)) by (rewrite ?length_app; lia || done). done.
Qed.

Lemma v2_parses ty circuit proof witness blob :
  u8 ty -> BuildProofEnvelopeWithCircuit ty circuit proof witness = Ok blob ->
  parseProofEnvelope blob = Ok (mk_envelope ty (TrimSpace circuit) proof witness true).
Proof.
  intros Hty H. unfold BuildProofEnvelopeWithCircuit, MaxProofBytesSize,
    proofEnvelopeV2HeaderLen in H. set (c := TrimSpace circuit) in *. clearbody c.
  go_inv. pose proof (valid_circuit_chars c ltac:(done)) as [Hc _].
  rewrite !wrap_u32_small by u32_len.
  change (wrap_u8 (len c)) with (len c mod 2 ^ 8). rewrite Z.mod_small by (unfold len in *; lia).
  destruct (v2_header ty (len c) (len proof) (len witness) (c ++ proof ++ witness))
    as (Hh & Hm & Et & Ec & Ep & Ew); [done | unfold u8; lia | u32_len | u32_len |].
  set (hdr := proofEnvelopeMagicV2 ++ be 1 ty ++ be 1 (len c) ++ be 4 (len proof)
              ++ be 4 (len witness)) in *.
  match goal with |- parseProofEnvelope ?v = _ =>
    replace v with (hdr ++ c ++ proof ++ witness) by (unfold hdr; by rewrite <-!app_assoc) end.
  assert (Hlen : len (hdr ++ c ++ proof ++ witness) = 14 + len c + len proof + len witness)
    by (rewrite !len_app; unfold len at 1; lia).
  unfold parseProofEnvelope. rewrite Hm, Hlen.
  rewrite (bool_decide_false (proofEnvelopeMagicV2 = proofEnvelopeMagicV1)) by done.
  rewrite bool_decide_true by done. rewrite (proj2 (Z.ltb_ge _ 4)) by (unfold len; lia).
  unfold parseProofEnvelopeV2, proofEnvelopeV2HeaderLen, maxProofCircuitIDLen.
  rewrite Hlen, Et, Ec, Ep, Ew, !to_nat_len. do 3 no_guard.
  rewrite (slice_after hdr c) by done. rewrite guard_false by (by apply negb_false_iff).
  cbn [obind]. rewrite (app_assoc hdr c), (slice_after (hdr ++ c) proof)
    by (rewrite ?length_app; lia || done).
  rewrite app_assoc, (slice_last ((hdr ++ c) ++ proof)) by (rewrite ?length_app; lia || done).
  done.
Qed.

(** C28: the payload of [BuildProofEnvelopeWithCircuit] parses back to its
    parts; the circuit comes back trimmed and valid. *)
Theorem envelope_v2_roundtrip ty circuit proof witness blob :
  u8 ty -> BuildProofEnvelopeWithCircuit ty circuit proof witness = Ok blob ->
  parseProofEnvelope blob = Ok (mk_envelope ty (TrimSpace circuit) proof witness true) /\
  isValidProofCircuitID (TrimSpace circuit) = true.
Proof.
  intros Hty H. split; [by eapply v2_parses|]. unfold BuildProofEnvelopeWithCircuit in H. by go_inv.
Qed.

(** ** Public inputs *)

(** C29: the clear preimage determines the clear: market, window, price, volume
    and fills hash. *)
Theorem clear_preimage_inj m m' w w' p p' v v' f f' :
  u64 w -> u64 w' -> u64 p -> u64 p' -> u64 v -> u64 v' ->
  BuildClearPublicInputsPreimage m w p v f = BuildClearPublicInputsPreimage m' w' p' v' f' ->
  m = m' /\ w = w' /\ p = p' /\ v = v' /\ f = f'.
Proof.
  unfold BuildClearPublicInputsPreimage. intros ? ? ? ? ? ? H%app_inv_head. segs_inj.
  match goal with E : be 2 _ ++ _ = be 2 _ ++ _ |- _ =>
    apply app_inj_1 in E as [_ ->]; [|by rewrite !length_be] end.
  by subst.
Qed.

(** No clear preimage is a shielded-ledger preimage. *)
Theorem preimages_separated m m' w w' p p' v v' f f' :
  BuildClearPublicInputsPreimage m w p v f
  <> BuildShieldedLedgerPublicInputsPreimage m' w' p' v' f'.
Proof.
  unfold BuildClearPublicInputsPreimage, BuildShieldedLedgerPublicInputsPreimage.
  intros H%(f_equal (take 6)). rewrite !take_app_le in H by (cbn; lia). discriminate H.
Qed.

(** ** The verifier hook *)

(** An installed verifier is asked about the parsed payload. *)
Lemma verified_by vc verify ty blob inputs u :
  vc_verifier vc = Some verify ->
  verifyBatchProofInConsensus vc ty blob inputs = Ok u ->
  exists env, parseProofEnvelope blob = Ok env /\
    (env_hasEnvelope env = true -> env_proofType env = ty) /\
    verify ty (env_circuitID env) (env_proof env) inputs (env_witness env) = Ok u.
Proof.
  unfold verifyBatchProofInConsensus, getBatchProofVerifier. intros Hv H. rewrite Hv in H. go_inv.
  eexists. split; [done|].
  match goal with G : (_ && _)%bool = false |- _ => rename G into Hty end. split.
  - intros He. rewrite He in Hty. cbn in Hty. by bool_simpl.
  - destruct (verify _ _ _ _ _) as [[]|e|]; [by destruct u| |done].
    by destruct (errors_Is e _).
Qed.

(** C30: in strict mode without a verifier no payload is accepted, and with a
    verifier a payload is accepted only when the verifier accepted it. *)
Theorem verifier_fails_closed vc ty blob inputs u :
  verifyBatchProofInConsensus vc ty blob inputs = Ok u ->
  match vc_verifier vc with
  | None => vc_strict vc = false
  | Some verify => exists env, parseProofEnvelope blob = Ok env /\
      (env_hasEnvelope env = true -> env_proofType env = ty) /\
      verify ty (env_circuitID env) (env_proof env) inputs (env_witness env) = Ok u
  end.
Proof.
  intros H. destruct (vc_verifier vc) as [verify|] eqn:Hv; [by apply (verified_by vc)|].
  unfold verifyBatchProofInConsensus, getBatchProofVerifier in H. rewrite Hv in H. go_inv.
  by destruct (vc_strict vc).
Qed.

(** ** Glyphs *)

Lemma deriveGlyphClass_range e : 1 <= deriveGlyphClass e <= 6.
Proof. unfold deriveGlyphClass. repeat case_match; cbv; split; congruence. Qed.

Lemma deriveGlyphRarity_range e : 1 <= deriveGlyphRarity e <= 5.
Proof. unfold deriveGlyphRarity. repeat case_match; cbv; split; congruence. Qed.

(** The glyph of a proof accepted at a positive time passes [PutGlyph]'s
    check and is read back as it was derived. *)
Theorem derived_glyph_storable tx m w prover c pih ts :
  0 < ts < 2 ^ 63 ->
  Glyph.check (deriveGlyph tx m w prover c pih ts) = Ok tt /\
  Glyph.parse (Glyph.encode (deriveGlyph tx m w prover c pih ts))
    = Ok (deriveGlyph tx m w prover c pih ts).
Proof.
  intros Hts. set (g := deriveGlyph _ _ _ _ _ _ _).
  assert (Hg : 1 <= Glyph.Class g <= 6 /\ 1 <= Glyph.Rarity g <= 5 /\ Glyph.CreatedAtMs g = ts).
  { split_and!; try done; try apply deriveGlyphClass_range; apply deriveGlyphRarity_range. }
  split.
  - unfold Glyph.check. rewrite guard_false; [done|]. lia.
  - apply Glyph_roundtrip. unfold Glyph.ok, u8, i64. lia.
Qed.

(** ** Evaluations *)

Module Samples.
Definition proof : bytes := replicate 5 x07.
Definition witness : bytes := replicate 3 x09.
Definition circuit : bytes := String.list_byte_of_string "  clearhash-v1".
Definition accept_all : BatchProofVerifier := fun _ _ _ _ _ => Ok tt.
End Samples.
Import Samples.

Lemma envelope_v1_roundtrip_witness : exists blob,
  BuildProofEnvelope 1 proof witness = Ok blob /\
  parseProofEnvelope blob = Ok (mk_envelope 1 [] proof witness true).
Proof.
  eexists. split; [vm_compute; reflexivity|].
  apply (envelope_v1_roundtrip 1 proof witness); [done | vm_compute; reflexivity].
Defined.

Lemma envelope_v2_roundtrip_witness : exists blob,
  BuildProofEnvelopeWithCircuit 2 circuit proof witness = Ok blob /\
  parseProofEnvelope blob = Ok (mk_envelope 2 (TrimSpace circuit) proof witness true) /\
  isValidProofCircuitID (TrimSpace circuit) = true.
Proof.
  eexists. split; [vm_compute; reflexivity|].
  apply (envelope_v2_roundtrip 2 circuit proof witness); [done | vm_compute; reflexivity].
Defined.

Lemma clear_preimage_inj_witness :
  BuildClearPublicInputsPreimage (zero_array 32) 1 2 3 proof
  = BuildClearPublicInputsPreimage (zero_array 32) (3 - 2) 2 3 proof /\
  (zero_array 32 = zero_array 32 /\ 1 = 3 - 2 /\ 2 = 2 /\ 3 = 3 /\ proof = proof).
Proof.
  split; [reflexivity|].
  apply (clear_preimage_inj (zero_array 32) (zero_array 32) 1 (3 - 2) 2 2 3 3 proof proof);
    done || reflexivity.
Defined.

Lemma verifier_fails_closed_witness :
  exists env, parseProofEnvelope proof = Ok env /\
    (env_hasEnvelope env = true -> env_proofType env = 1) /\
    accept_all 1 (env_circuitID env) (env_proof env) witness (env_witness env) = Ok tt.
Proof.
  exact (verifier_fails_closed (mk_verifier (Some accept_all) true) 1 proof witness tt eq_refl).
Defined.

Lemma derived_glyph_storable_witness :
  let g := deriveGlyph (zero_array 32) (zero_array 32) 0 (zero_array 33) (zero_array 32) [] 5 in
  Glyph.check g = Ok tt /\ Glyph.parse (Glyph.encode g) = Ok g.
Proof. cbv zeta. apply derived_glyph_storable. lia. Defined.
