(* ===== verification/Metrics.v ===== *)
(** * Window metrics ([actions/zk_metrics.go])

    The process-wide collector the batch actions report to: one record per
    (market, window), evicted in order of creation once [maxWindows] is reached.
    Durations are nanosecond counts read from the clock. The map of pointers is
    a map of records: a pointer is only used under the lock it was obtained
    under, while it is in the map. *)
From stdpp Require Import strings pretty.
From S2P Require Import Prelude Errors Go Storage.

Definition defaultZKMetricsMaxWindows : Z := 200000.

Module ZKWindowMetrics.
Record t := mk {
  MarketID : string; WindowID : Z; BatchSizeHint : Z; CommitCount : Z; RevealCount : Z;
  FirstCommitAtMs : Z; LastCommitAtMs : Z; WindowCloseAtMs : Z; ProofSubmittedAtMs : Z;
  ClearAcceptedAtMs : Z; WitnessBuildMs : Z; ProofGenerationMs : Z; ProofVerificationMs : Z;
  BatchFreezeMs : Z; ProofSubmitLatencyMs : Z; BlockAcceptLatencyMs : Z;
  CommitExecUs : Z; RevealExecUs : Z; ProofSubmitExecUs : Z; ClearExecUs : Z;
  MissedDeadline : bool; Rejected : bool; LastError : string
}.
Definition new (market : string) (window : Z) : t :=
  mk market window 0 0 0 0 0 0 0 0 0 0 0 0 0 0 0 0 0 0 false false "".
End ZKWindowMetrics.

Module ZKMetricsSummary.
Record t := mk {
  TotalWindowsObserved : Z; TotalCommits : Z; TotalReveals : Z; TotalProofSubmissions : Z;
  TotalProofSubmissionErrors : Z; TotalClears : Z; TotalClearErrors : Z;
  TotalAcceptedBatches : Z; TotalRejectedBatches : Z; TotalMissedProofDeadlines : Z
}.
Definition zero : t := mk 0 0 0 0 0 0 0 0 0 0.
End ZKMetricsSummary.

Module ZKMetricsSnapshot.
Record t := mk { GeneratedAtMs : Z; Summary : ZKMetricsSummary.t;
                 Windows : list ZKWindowMetrics.t }.
End ZKMetricsSnapshot.

Record zkMetricsCollector := mk_collector {
  maxWindows : Z;
  windows : gmap string ZKWindowMetrics.t;
  order : list string;
  summary : ZKMetricsSummary.t
}.

Definition newZKMetricsCollector (max : Z) : zkMetricsCollector :=
  mk_collector max ∅ [] ZKMetricsSummary.zero.

Definition reset (c : zkMetricsCollector) : zkMetricsCollector :=
  mk_collector (maxWindows c) ∅ [] ZKMetricsSummary.zero.

(** [ids.ID.String] and [error.Error] produce the texts the records keep. *)
Class Text : Type := { ids_String : ID -> string; err_Error : Error -> string }.

(** [Duration.Microseconds] and [Duration.Milliseconds] of a positive duration. *)
Definition Microseconds (d : Z) : Z := d / 1000.
Definition Milliseconds (d : Z) : Z := d / 1000000.

Section collector.
Context {TX : Text}.
Import ZKWindowMetrics ZKMetricsSummary.

Definition zkWindowKey (marketID : ID) (windowID : Z) : string :=
  (ids_String marketID ++ ":" ++ pretty (Z.to_N windowID))%string.

(** Lines 101-105: make room for one more window. *)
Definition evict_oldest (c : zkMetricsCollector) : zkMetricsCollector :=
  if (0 <? maxWindows c) && (maxWindows c <=? Z.of_nat (length (order c))) then
    match order c with
    | oldest :: rest => mk_collector (maxWindows c) (delete oldest (windows c)) rest
                                     (summary c)
    | [] => c
    end
  else c.

(** The collector with the record in place, and the record. *)
Definition getOrCreateLocked (marketID : ID) (windowID : Z) (c : zkMetricsCollector)
    : zkMetricsCollector * ZKWindowMetrics.t :=
  let key := zkWindowKey marketID windowID in
  match windows c !! key with
  | Some w => (c, w)
  | None =>
      let c1 := evict_oldest c in
      let w := new (ids_String marketID) windowID in
      let s := summary c1 in
      (mk_collector (maxWindows c1) (<[key := w]> (windows c1)) (order c1 ++ [key])
         (ZKMetricsSummary.mk (wrap_u64 (TotalWindowsObserved s + 1)) (TotalCommits s)
            (TotalReveals s) (TotalProofSubmissions s) (TotalProofSubmissionErrors s)
            (TotalClears s) (TotalClearErrors s) (TotalAcceptedBatches s)
            (TotalRejectedBatches s) (TotalMissedProofDeadlines s)), w)
  end.

(** Write back the record a method changed through its pointer, and the summary. *)
Definition set_window (c : zkMetricsCollector) (marketID : ID) (windowID : Z)
    (w : ZKWindowMetrics.t) (s : ZKMetricsSummary.t) : zkMetricsCollector :=
  mk_collector (maxWindows c) (<[zkWindowKey marketID windowID := w]> (windows c))
               (order c) s.

Definition reject (e : Error) (w : ZKWindowMetrics.t) : ZKWindowMetrics.t :=
  ZKWindowMetrics.mk (MarketID w) (WindowID w) (BatchSizeHint w) (CommitCount w)
    (RevealCount w) (FirstCommitAtMs w) (LastCommitAtMs w) (WindowCloseAtMs w)
    (ProofSubmittedAtMs w) (ClearAcceptedAtMs w) (WitnessBuildMs w) (ProofGenerationMs w)
    (ProofVerificationMs w) (BatchFreezeMs w) (ProofSubmitLatencyMs w)
    (BlockAcceptLatencyMs w) (CommitExecUs w) (RevealExecUs w) (ProofSubmitExecUs w)
    (ClearExecUs w) (MissedDeadline w) true (err_Error e).

Definition recordCommit (marketID : ID) (windowID timestampMs exec : Z) (err : option Error)
    (c : zkMetricsCollector) : zkMetricsCollector :=
  let '(c, w) := getOrCreateLocked marketID windowID c in
  let s := summary c in
  let execUs := if 0 <? exec then wrap_u64 (CommitExecUs w + Microseconds exec)
                else CommitExecUs w in
  let upd count first last :=
    ZKWindowMetrics.mk (MarketID w) (WindowID w) (BatchSizeHint w) count
      (RevealCount w) first last (WindowCloseAtMs w)
      (ProofSubmittedAtMs w) (ClearAcceptedAtMs w) (WitnessBuildMs w) (ProofGenerationMs w)
      (ProofVerificationMs w) (BatchFreezeMs w) (ProofSubmitLatencyMs w)
      (BlockAcceptLatencyMs w) execUs (RevealExecUs w) (ProofSubmitExecUs w)
      (ClearExecUs w) (MissedDeadline w) (Rejected w) (LastError w) in
  match err with
  | Some e =>
      set_window c marketID windowID
        (reject e (upd (CommitCount w) (FirstCommitAtMs w) (LastCommitAtMs w))) s
  | None =>
      set_window c marketID windowID
        (upd (wrap_u32 (CommitCount w + 1))
             (if (FirstCommitAtMs w =? 0) || (timestampMs <? FirstCommitAtMs w)
              then timestampMs else FirstCommitAtMs w)
             (if LastCommitAtMs w <? timestampMs then timestampMs else LastCommitAtMs w))
        (ZKMetricsSummary.mk (TotalWindowsObserved s) (wrap_u64 (TotalCommits s + 1))
           (TotalReveals s) (TotalProofSubmissions s) (TotalProofSubmissionErrors s)
           (TotalClears s) (TotalClearErrors s) (TotalAcceptedBatches s)
           (TotalRejectedBatches s) (TotalMissedProofDeadlines s))
  end.

Definition recordReveal (marketID : ID) (windowID exec : Z) (err : option Error)
    (c : zkMetricsCollector) : zkMetricsCollector :=
  let '(c, w) := getOrCreateLocked marketID windowID c in
  let s := summary c in
  let execUs := if 0 <? exec then wrap_u64 (RevealExecUs w + Microseconds exec)
                else RevealExecUs w in
  let upd count :=
    ZKWindowMetrics.mk (MarketID w) (WindowID w) (BatchSizeHint w) (CommitCount w)
      count (FirstCommitAtMs w) (LastCommitAtMs w) (WindowCloseAtMs w)
      (ProofSubmittedAtMs w) (ClearAcceptedAtMs w) (WitnessBuildMs w) (ProofGenerationMs w)
      (ProofVerificationMs w) (BatchFreezeMs w) (ProofSubmitLatencyMs w)
      (BlockAcceptLatencyMs w) (CommitExecUs w) execUs (ProofSubmitExecUs w)
      (ClearExecUs w) (MissedDeadline w) (Rejected w) (LastError w) in
  match err with
  | Some e => set_window c marketID windowID (reject e (upd (RevealCount w))) s
  | None =>
      set_window c marketID windowID (upd (wrap_u32 (RevealCount w + 1)))
        (ZKMetricsSummary.mk (TotalWindowsObserved s) (TotalCommits s)
           (wrap_u64 (TotalReveals s + 1)) (TotalProofSubmissions s)
           (TotalProofSubmissionErrors s) (TotalClears s) (TotalClearErrors s)
           (TotalAcceptedBatches s) (TotalRejectedBatches s) (TotalMissedProofDeadlines s))
  end.

Definition recordProofSubmit (marketID : ID) (windowID windowCloseAtMs submittedAtMs exec : Z)
    (missedDeadline : bool) (err : option Error) (c : zkMetricsCollector)
    : zkMetricsCollector :=
  let '(c, w) := getOrCreateLocked marketID windowID c in
  let s := summary c in
  let w := ZKWindowMetrics.mk (MarketID w) (WindowID w) (BatchSizeHint w) (CommitCount w)
      (RevealCount w) (FirstCommitAtMs w) (LastCommitAtMs w)
      (if 0 <? windowCloseAtMs then windowCloseAtMs else WindowCloseAtMs w)
      (if 0 <? submittedAtMs then submittedAtMs else ProofSubmittedAtMs w)
      (ClearAcceptedAtMs w) (WitnessBuildMs w) (ProofGenerationMs w)
      (ProofVerificationMs w) (BatchFreezeMs w) (ProofSubmitLatencyMs w)
      (BlockAcceptLatencyMs w) (CommitExecUs w) (RevealExecUs w)
      (if 0 <? exec then wrap_u64 (ProofSubmitExecUs w + Microseconds exec)
       else ProofSubmitExecUs w)
      (ClearExecUs w) (MissedDeadline w || missedDeadline) (Rejected w) (LastError w) in
  let missed := if missedDeadline then wrap_u64 (TotalMissedProofDeadlines s + 1)
                else TotalMissedProofDeadlines s in
  let sum submissions errors :=
    ZKMetricsSummary.mk (TotalWindowsObserved s) (TotalCommits s) (TotalReveals s)
      submissions errors (TotalClears s) (TotalClearErrors s) (TotalAcceptedBatches s)
      (TotalRejectedBatches s) missed in
  match err with
  | Some e => set_window c marketID windowID (reject e w)
                (sum (TotalProofSubmissions s) (wrap_u64 (TotalProofSubmissionErrors s + 1)))
  | None => set_window c marketID windowID w
              (sum (wrap_u64 (TotalProofSubmissions s + 1)) (TotalProofSubmissionErrors s))
  end.

Definition recordClear (marketID : ID) (windowID acceptedAtMs verifyDuration exec : Z)
    (missedDeadline : bool) (err : option Error) (c : zkMetricsCollector)
    : zkMetricsCollector :=
  let '(c, w) := getOrCreateLocked marketID windowID c in
  let s := summary c in
  let upd accepted :=
    ZKWindowMetrics.mk (MarketID w) (WindowID w) (BatchSizeHint w) (CommitCount w)
      (RevealCount w) (FirstCommitAtMs w) (LastCommitAtMs w) (WindowCloseAtMs w)
      (ProofSubmittedAtMs w) accepted (WitnessBuildMs w) (ProofGenerationMs w)
      (if 0 <? verifyDuration then Milliseconds verifyDuration else ProofVerificationMs w)
      (BatchFreezeMs w) (ProofSubmitLatencyMs w)
      (BlockAcceptLatencyMs w) (CommitExecUs w) (RevealExecUs w) (ProofSubmitExecUs w)
      (if 0 <? exec then wrap_u64 (ClearExecUs w + Microseconds exec) else ClearExecUs w)
      (MissedDeadline w || missedDeadline) (Rejected w) (LastError w) in
  let missed := if missedDeadline then wrap_u64 (TotalMissedProofDeadlines s + 1)
                else TotalMissedProofDeadlines s in
  match err with
  | Some e =>
      set_window c marketID windowID (reject e (upd (ClearAcceptedAtMs w)))
        (ZKMetricsSummary.mk (TotalWindowsObserved s) (TotalCommits s) (TotalReveals s)
           (TotalProofSubmissions s) (TotalProofSubmissionErrors s) (TotalClears s)
           (wrap_u64 (TotalClearErrors s + 1)) (TotalAcceptedBatches s)
           (wrap_u64 (TotalRejectedBatches s + 1)) missed)
  | None =>
      set_window c marketID windowID (upd acceptedAtMs)
        (ZKMetricsSummary.mk (TotalWindowsObserved s) (TotalCommits s) (TotalReveals s)
           (TotalProofSubmissions s) (TotalProofSubmissionErrors s)
           (wrap_u64 (TotalClears s + 1)) (TotalClearErrors s)
           (wrap_u64 (TotalAcceptedBatches s + 1)) (TotalRejectedBatches s) missed)
  end.

Definition recordProverStages (marketID : ID)
    (windowID batchSizeHint witnessBuildMs proofGenerationMs : Z) (c : zkMetricsCollector)
    : zkMetricsCollector :=
  let '(c, w) := getOrCreateLocked marketID windowID c in
  set_window c marketID windowID
    (ZKWindowMetrics.mk (MarketID w) (WindowID w)
      (if 0 <? batchSizeHint then batchSizeHint else BatchSizeHint w) (CommitCount w)
      (RevealCount w) (FirstCommitAtMs w) (LastCommitAtMs w) (WindowCloseAtMs w)
      (ProofSubmittedAtMs w) (ClearAcceptedAtMs w)
      (if 0 <=? witnessBuildMs then witnessBuildMs else WitnessBuildMs w)
      (if 0 <=? proofGenerationMs then proofGenerationMs else ProofGenerationMs w)
      (ProofVerificationMs w) (BatchFreezeMs w) (ProofSubmitLatencyMs w)
      (BlockAcceptLatencyMs w) (CommitExecUs w) (RevealExecUs w) (ProofSubmitExecUs w)
      (ClearExecUs w) (MissedDeadline w) (Rejected w) (LastError w)) (summary c).

(** The copy of a record a snapshot reports, with its latencies. *)
Definition snapshot_window (w : ZKWindowMetrics.t) : ZKWindowMetrics.t :=
  let close := WindowCloseAtMs w in
  ZKWindowMetrics.mk (MarketID w) (WindowID w) (BatchSizeHint w) (CommitCount w)
    (RevealCount w) (FirstCommitAtMs w) (LastCommitAtMs w) close
    (ProofSubmittedAtMs w) (ClearAcceptedAtMs w) (WitnessBuildMs w) (ProofGenerationMs w)
    (ProofVerificationMs w)
    (if (0 <? close) && (0 <? FirstCommitAtMs w) && (FirstCommitAtMs w <=? close)
     then close - FirstCommitAtMs w else BatchFreezeMs w)
    (if (0 <? close) && (close <=? ProofSubmittedAtMs w)
     then ProofSubmittedAtMs w - close else ProofSubmitLatencyMs w)
    (if (0 <? close) && (close <=? ClearAcceptedAtMs w)
     then ClearAcceptedAtMs w - close else BlockAcceptLatencyMs w)
    (CommitExecUs w) (RevealExecUs w) (ProofSubmitExecUs w)
    (ClearExecUs w) (MissedDeadline w) (Rejected w) (LastError w).

Definition snapshot (now limit : Z) (includeWindows : bool) (c : zkMetricsCollector)
    : ZKMetricsSnapshot.t :=
  if negb includeWindows then ZKMetricsSnapshot.mk now (summary c) []
  else
    let n := Z.of_nat (length (order c)) in
    let keys := if (0 <? limit) && (limit <? n) then drop (Z.to_nat (n - limit)) (order c)
                else order c in
    ZKMetricsSnapshot.mk now (summary c)
      (omap (fun key => option_map snapshot_window (windows c !! key)) keys).
End collector.

(** The package variable [zkMetrics] before the first action. *)
Definition zkMetrics : zkMetricsCollector := newZKMetricsCollector defaultZKMetricsMaxWindows.

(** The functions of the package apply a method to that collector, which is
    part of the state here. *)
Definition ResetZKMetrics (c : zkMetricsCollector) : zkMetricsCollector := reset c.
Definition RecordCommitMetric {TX : Text} (marketID : ID) (windowID timestampMs exec : Z)
    (err : option Error) : zkMetricsCollector -> zkMetricsCollector :=
  recordCommit marketID windowID timestampMs exec err.
Definition RecordRevealMetric {TX : Text} (marketID : ID) (windowID exec : Z)
    (err : option Error) : zkMetricsCollector -> zkMetricsCollector :=
  recordReveal marketID windowID exec err.
Definition RecordProofSubmitMetric {TX : Text} (marketID : ID)
    (windowID windowCloseAtMs submittedAtMs exec : Z) (missedDeadline : bool)
    (err : option Error) : zkMetricsCollector -> zkMetricsCollector :=
  recordProofSubmit marketID windowID windowCloseAtMs submittedAtMs exec missedDeadline err.
Definition RecordClearMetric {TX : Text} (marketID : ID)
    (windowID acceptedAtMs verifyDuration exec : Z) (missedDeadline : bool)
    (err : option Error) : zkMetricsCollector -> zkMetricsCollector :=
  recordClear marketID windowID acceptedAtMs verifyDuration exec missedDeadline err.
Definition RecordProverStageMetrics {TX : Text} (marketID : ID)
    (windowID batchSizeHint witnessBuildMs proofGenerationMs : Z)
    : zkMetricsCollector -> zkMetricsCollector :=
  recordProverStages marketID windowID batchSizeHint witnessBuildMs proofGenerationMs.
Definition GetZKMetricsSnapshot (now limit : Z) (includeWindows : bool) (c : zkMetricsCollector)
    : ZKMetricsSnapshot.t := snapshot now limit includeWindows c.

(** ** The collector's invariant

    The order lists the windows that are kept, each once, and never more than
    the limit. *)
Record metrics_inv (c : zkMetricsCollector) : Prop := {
  mi_nodup : NoDup (order c);
  mi_dom : forall k, k ∈ order c <-> is_Some (windows c !! k);
  mi_size : 0 < maxWindows c -> Z.of_nat (length (order c)) <= maxWindows c
}.

Section facts.
Context {TX : Text}.

Lemma new_inv max : metrics_inv (newZKMetricsCollector max).
Proof.
  split; cbn; [constructor| |lia]. intros k. rewrite lookup_empty.
  split; [by intros ?%not_elem_of_nil | by intros []].
Qed.

Lemma evict_inv key c :
  metrics_inv c -> windows c !! key = None ->
  metrics_inv (evict_oldest c) /\ windows (evict_oldest c) !! key = None /\
  maxWindows (evict_oldest c) = maxWindows c /\
  (0 < maxWindows c -> Z.of_nat (length (order (evict_oldest c))) + 1 <= maxWindows c).
Proof.
  intros [Hn Hd Hs] Hk. unfold evict_oldest. destruct (_ && _)%bool eqn:Eb; bool_simpl.
  - destruct (order c) as [|oldest rest] eqn:Eo; [cbn in *; lia|].
    apply list.NoDup_cons in Hn as [Hnin Hn]. cbn [length] in Hs.
    split_and!; [split| | |]; cbn; try done; try lia.
    + intros k. rewrite lookup_delete. case_decide as E.
      * subst. split; [done | by intros []].
      * rewrite <-Hd, elem_of_cons. split; [by right | by intros [->|?]].
    + rewrite lookup_delete. by case_decide.
  - split_and!; try done. apply andb_false_iff in Eb as [Eb|Eb]; bool_simpl; lia.
Qed.

Lemma getOrCreate_inv m w c :
  metrics_inv c ->
  metrics_inv (getOrCreateLocked m w c).1 /\
  windows (getOrCreateLocked m w c).1 !! zkWindowKey m w = Some (getOrCreateLocked m w c).2.
Proof.
  intros Hc. unfold getOrCreateLocked. set (key := zkWindowKey m w).
  destruct (windows c !! key) as [x|] eqn:Ek; [done|]. cbn [fst snd].
  destruct (evict_inv key c Hc Ek) as ([Hn Hd Hs] & Hk & Hm & Hl).
  set (c1 := evict_oldest c) in *. clearbody c1.
  split; [split|]; cbn.
  - apply list.NoDup_app. split; [done|]. split; [|apply NoDup_singleton].
    intros k Hk1 ->%list_elem_of_singleton. apply Hd in Hk1. rewrite Hk in Hk1. by destruct Hk1.
  - intros k. rewrite elem_of_app, list_elem_of_singleton, Hd, lookup_insert.
    case_decide as E; [subst; split; [by eexists | by right]|].
    split; [by intros [?| ->] | by left].
  - rewrite length_app. cbn. lia.
  - by rewrite lookup_insert_eq.
Qed.
Lemma set_window_inv m w c x s :
  metrics_inv c -> is_Some (windows c !! zkWindowKey m w) ->
  metrics_inv (set_window c m w x s).
Proof.
  intros [Hn Hd Hs] Hk. split; cbn; [done| |done].
  intros k. rewrite lookup_insert. case_decide as E; [|apply Hd].
  subst. split; [by eexists|]. intros _. by apply Hd.
Qed.
End facts.

(** ** Runs of the collector *)

(** A report of an action or of the prover, with the values it is called with. *)
Inductive metric_event : Type :=
| EvCommit (m : ID) (w ts exec : Z) (err : option Error)
| EvReveal (m : ID) (w exec : Z) (err : option Error)
| EvProofSubmit (m : ID) (w close submitted exec : Z) (missed : bool) (err : option Error)
| EvClear (m : ID) (w accepted verify exec : Z) (missed : bool) (err : option Error)
| EvProverStages (m : ID) (w size witness proof : Z)
| EvReset.

Definition record_event {TX : Text} (ev : metric_event) (c : zkMetricsCollector)
    : zkMetricsCollector :=
  match ev with
  | EvCommit m w ts exec err => recordCommit m w ts exec err c
  | EvReveal m w exec err => recordReveal m w exec err c
  | EvProofSubmit m w close sub exec missed err => recordProofSubmit m w close sub exec missed err c
  | EvClear m w acc ver exec missed err => recordClear m w acc ver exec missed err c
  | EvProverStages m w size wit pr => recordProverStages m w size wit pr c
  | EvReset => reset c
  end.

Definition record_all {TX : Text} (evs : list metric_event) (c : zkMetricsCollector)
    : zkMetricsCollector := foldl (fun c ev => record_event ev c) c evs.

(** Each clear is counted as accepted or rejected. *)
Definition counts_agree (c : zkMetricsCollector) : Prop :=
  ZKMetricsSummary.TotalAcceptedBatches (summary c) = ZKMetricsSummary.TotalClears (summary c) /\
  ZKMetricsSummary.TotalRejectedBatches (summary c)
    = ZKMetricsSummary.TotalClearErrors (summary c).

Section runs.
Context {TX : Text}.

Lemma getOrCreate_counts m w c :
  counts_agree c -> counts_agree (getOrCreateLocked m w c).1 /\
  maxWindows (getOrCreateLocked m w c).1 = maxWindows c.
Proof.
  unfold getOrCreateLocked, counts_agree, evict_oldest.
  destruct (windows c !! _); [done|]. destruct (_ && _)%bool; [destruct (order c)|]; done.
Qed.

Lemma record_event_inv ev c :
  metrics_inv c /\ counts_agree c ->
  (metrics_inv (record_event ev c) /\ counts_agree (record_event ev c)) /\
  maxWindows (record_event ev c) = maxWindows c.
Proof.
  intros [Hi Hc]. destruct ev as [m w ? ? err|m w ? err|m w ? ? ? ? err|m w ? ? ? ? err|m w ? ? ?|];
    [..|split; [split; [apply (new_inv (maxWindows c))|done]|done]];
    cbn [record_event];
    unfold recordCommit, recordReveal, recordProofSubmit, recordClear, recordProverStages;
    destruct (getOrCreate_inv m w c Hi) as [Hi' Hk];
    destruct (getOrCreate_counts m w c Hc) as [[Ha Hr] Hm];
    destruct (getOrCreateLocked m w c) as [c1 x]; cbn [fst snd] in *;
    try destruct err; (split; [split; [apply set_window_inv; [done|by eexists]|]|done]);
    split; cbn; congruence.
Qed.

Lemma record_all_inv evs c :
  metrics_inv c /\ counts_agree c ->
  (metrics_inv (record_all evs c) /\ counts_agree (record_all evs c)) /\
  maxWindows (record_all evs c) = maxWindows c.
Proof.
  unfold record_all. revert c. induction evs as [|ev evs IH]; intros c Hc; [done|]. cbn [foldl].
  destruct (record_event_inv ev c Hc) as [Hc' Hm]. destruct (IH _ Hc') as [? ->]. done.
Qed.

(** C40: whatever is reported, the collector keeps each window once, keeps the
    map and the eviction order in step, never exceeds its limit, and counts
    every clear as exactly one of accepted and rejected. *)
Theorem metrics_bounded evs max :
  let c := record_all evs (newZKMetricsCollector max) in
  metrics_inv c /\ maxWindows c = max /\ counts_agree c.
Proof.
  cbv zeta. destruct (record_all_inv evs (newZKMetricsCollector max)) as [[? ?] ?];
    [split; [apply new_inv|done]|]. done.
Qed.

(** A snapshot of a reachable collector reports every kept window, or the
    [limit] newest ones. *)
Theorem snapshot_complete evs max now limit :
  let c := record_all evs (newZKMetricsCollector max) in
  Z.of_nat (length (ZKMetricsSnapshot.Windows (snapshot now limit true c)))
  = if 0 <? limit then Z.min limit (Z.of_nat (length (order c)))
    else Z.of_nat (length (order c)).
Proof.
  cbv zeta. destruct (record_all_inv evs (newZKMetricsCollector max)) as [[[_ Hd _] _] _];
    [split; [apply new_inv|done]|].
  set (c := record_all _ _) in *. unfold snapshot. cbn [negb ZKMetricsSnapshot.Windows].
  set (n := Z.of_nat (length (order c))).
  assert (Hall : forall l, (forall k, k ∈ l -> is_Some (windows c !! k)) ->
    length (omap (fun key => option_map snapshot_window (windows c !! key)) l) = length l).
  { induction l as [|k l IH]; intros Hl; [done|]. cbn.
    destruct (Hl k) as [x Hx]; [by left|]. rewrite Hx. cbn. f_equal. apply IH.
    intros k' ?. apply Hl. by right. }
  rewrite Hall.
  - destruct (0 <? limit) eqn:E1; cbn [andb]; [|done].
    destruct (limit <? n) eqn:E2; bool_simpl; rewrite ?length_drop; unfold n in *; lia.
  - intros k Hk. apply Hd. destruct (_ && _)%bool; [|done].
    rewrite <-(take_drop (Z.to_nat (n - limit)) (order c)), elem_of_app. by right.
Qed.
End runs.
