(* ===== verification/Markets.v ===== *)
(** * Markets: creation, sealed orders, resolution, disputes

    [actions/create_market.go], [commit_order.go], [reveal_batch.go],
    [resolve_market.go] and [dispute.go]. The batch actions report to the
    collector of [Metrics.v] when they return: their state is the store with the
    collector, and the durations they measure are inputs. *)
From S2P Require Import Prelude Errors Go Platform Storage Balance Action Metrics.

(** The deferred call of a batch action: it runs with the error the handler
    returns, which is nil while a panic unwinds. *)
Definition err_of {A} (r : Outcome A) : option Error :=
  match r with Err e => Some e | _ => None end.

Definition defer_metric {M A} (report : option Error -> zkMetricsCollector -> zkMetricsCollector)
    (body : ST (M * zkMetricsCollector) A) : ST (M * zkMetricsCollector) A :=
  fun s => let '(r, (m, c)) := body s in (r, (m, report (err_of r) c)).

Module CreateMarket.

Definition CreateMarketComputeUnits : Z := 5.
Definition MaxCreateMarketSize : Z := 4096.
Definition MaxQuestionSize : Z := 1024.

Record t := mk { MarketID : ID; Question : bytes; Outcomes : Z; ResolutionTime : Z;
                 CreatorBond : Z }.

#[global, refine] Instance struct : Struct t :=
  {| s_types := [TArray 32; TBytes; TU8; TI64; TU64];
     s_fields a := [FArray (MarketID a); FBytes (Question a); FU8 (Outcomes a);
                    FI64 (ResolutionTime a); FU64 (CreatorBond a)];
     s_of_fields fs := match fs with
                       | [FArray x0; FBytes x1; FU8 x2; FI64 x3; FU64 x4] =>
                           Some (mk (copy_array 32 x0) x1 x2 x3 x4)
                       | _ => None
                       end;
     s_ok a := u32 (len (Question a)) /\ u8 (Outcomes a) /\ i64 (ResolutionTime a) /\
               u64 (CreatorBond a) |}.
Proof. all: struct_laws. Defined.

Module Result.
Record t := mk { SenderBalance : Z }.
#[global, refine] Instance struct : Struct t :=
  {| s_types := [TU64];
     s_fields r := [FU64 (SenderBalance r)];
     s_of_fields fs := match fs with
                       | [FU64 x0] =>
                           Some (mk x0)
                       | _ => None
                       end;
     s_ok r := u64 (SenderBalance r) |}.
Proof. all: struct_laws. Defined.
End Result.

Section action.
Context {PF : Platform} {M : Type} {MU : Mutable M}.

Definition GetTypeID : Z := CreateMarketID.
Definition StateKeys (a : t) (actor : Address) (_ : ID) : gmap bytes Permissions :=
  state_keys [(BalanceKey actor, perm_or state_Read state_Write);
              (MarketKey (MarketID a), state_All)].
Definition Bytes (a : t) : Outcome bytes := pack CreateMarketID MaxCreateMarketSize a.
Definition Unmarshal (b : bytes) : Outcome t := 
  let? a := unpack CreateMarketID b in
  let? _ := guard (MaxQuestionSize <? len (Question a)) ErrQuestionTooLarge in
  Ok a.
Definition ResultBytes (r : Result.t) : bytes := pack_result CreateMarketID MaxCreateMarketSize r.
Definition UnmarshalResult (b : bytes) : Outcome Result.t := unpack_result b.

Definition Execute (a : t) (_ : Z) (actor : Address) (_ : ID) : ST M bytes :=
  fail_if (Outcomes a <? 2) ErrInvalidOutcomes ;;;
  fail_if (ResolutionTime a <=? 0) ErrInvalidResolutionTime ;;;
  fail_if (CreatorBond a =? 0) ErrCreatorBondZero ;;;
  fail_if (MaxQuestionSize <? len (Question a)) ErrQuestionTooLarge ;;;
  let* existing := catch (GetMarket (MarketID a)) in
  match existing with
  | inl _ => fail ErrMarketExists
  | inr e =>
      fail_if (negb (errors_Is e ErrMarketNotFound)) e ;;;
      let* senderBalance := SubBalance actor (CreatorBond a) in
      PutMarket (MarketID a)
        (Market.mk MarketStatusActive (Outcomes a) (ResolutionTime a) 0 (Question a)) ;;;
      ret (ResultBytes (Result.mk senderBalance))
  end.

Definition ComputeUnits : Z := CreateMarketComputeUnits.
Definition ValidRange : Z * Z := AlwaysValid.
End action.
End CreateMarket.

Module CommitOrder.

Definition CommitOrderComputeUnits : Z := 2.
Definition MaxCommitOrderSize : Z := 8192.
Definition MaxEnvelopeSize : Z := 4096.
Definition MaxCommitmentSize : Z := 64.

Record t := mk { MarketID : ID; WindowID : Z; Envelope : bytes; Commitment : bytes }.

#[global, refine] Instance struct : Struct t :=
  {| s_types := [TArray 32; TU64; TBytes; TBytes];
     s_fields a := [FArray (MarketID a); FU64 (WindowID a); FBytes (Envelope a);
                    FBytes (Commitment a)];
     s_of_fields fs := match fs with
                       | [FArray x0; FU64 x1; FBytes x2; FBytes x3] =>
                           Some (mk (copy_array 32 x0) x1 x2 x3)
                       | _ => None
                       end;
     s_ok a := u64 (WindowID a) /\ u32 (len (Envelope a)) /\ u32 (len (Commitment a)) |}.
Proof. all: struct_laws. Defined.

Module Result.
Record t := mk { WindowID : Z }.
#[global, refine] Instance struct : Struct t :=
  {| s_types := [TU64];
     s_fields r := [FU64 (WindowID r)];
     s_of_fields fs := match fs with
                       | [FU64 x0] =>
                           Some (mk x0)
                       | _ => None
                       end;
     s_ok r := u64 (WindowID r) |}.
Proof. all: struct_laws. Defined.
End Result.

Section action.
Context {PF : Platform} {M : Type} {MU : Mutable M} {TX : Text}.

Definition GetTypeID : Z := CommitOrderID.
Definition StateKeys (a : t) (actor : Address) (_ : ID) : gmap bytes Permissions :=
  state_keys [(MarketKey (MarketID a), state_Read);
              (CommitmentKey (MarketID a) (WindowID a) actor, state_All)].
Definition Bytes (a : t) : Outcome bytes := pack CommitOrderID MaxCommitOrderSize a.
Definition Unmarshal (b : bytes) : Outcome t := unpack CommitOrderID b.
Definition ResultBytes (r : Result.t) : bytes := pack_result CommitOrderID MaxCommitOrderSize r.
Definition UnmarshalResult (b : bytes) : Outcome Result.t := unpack_result b.

(** The handler without its deferred report. *)
Definition body (a : t) (actor : Address) : ST (M * zkMetricsCollector) bytes :=
  fail_if (len (Envelope a) =? 0) ErrEnvelopeEmpty ;;;
  fail_if (MaxEnvelopeSize <? len (Envelope a)) ErrEnvelopeTooLarge ;;;
  fail_if (len (Commitment a) =? 0) ErrCommitmentEmpty ;;;
  fail_if (MaxCommitmentSize <? len (Commitment a)) ErrCommitmentTooLarge ;;;
  let* market := GetMarket (MarketID a) in
  fail_if (negb (Market.Status market =? MarketStatusActive)) ErrMarketNotActive ;;;
  PutCommitment (MarketID a) (WindowID a) actor (Envelope a) (Commitment a) ;;;
  ret (ResultBytes (Result.mk (WindowID a))).

Definition Execute (exec : Z) (a : t) (timestamp : Z) (actor : Address) (_ : ID)
    : ST (M * zkMetricsCollector) bytes :=
  defer_metric (RecordCommitMetric (MarketID a) (WindowID a) timestamp exec) (body a actor).

Definition ComputeUnits : Z := CommitOrderComputeUnits.
Definition ValidRange : Z * Z := AlwaysValid.
End action.
End CommitOrder.

Module RevealBatch.

Definition RevealBatchComputeUnits : Z := 3.
Definition MaxRevealBatchSize : Z := 2048.
Definition MaxDecryptionShareSize : Z := 512.

Record t := mk { MarketID : ID; WindowID : Z; DecryptionShare : bytes;
                 ValidatorIndex : Z }.

#[global, refine] Instance struct : Struct t :=
  {| s_types := [TArray 32; TU64; TBytes; TU32];
     s_fields a := [FArray (MarketID a); FU64 (WindowID a); FBytes (DecryptionShare a);
                    FU32 (ValidatorIndex a)];
     s_of_fields fs := match fs with
                       | [FArray x0; FU64 x1; FBytes x2; FU32 x3] =>
                           Some (mk (copy_array 32 x0) x1 x2 x3)
                       | _ => None
                       end;
     s_ok a := u64 (WindowID a) /\ u32 (len (DecryptionShare a)) /\
               u32 (ValidatorIndex a) |}.
Proof. all: struct_laws. Defined.

Module Result.
Record t := mk { ValidatorIndex : Z }.
#[global, refine] Instance struct : Struct t :=
  {| s_types := [TU32];
     s_fields r := [FU32 (ValidatorIndex r)];
     s_of_fields fs := match fs with
                       | [FU32 x0] =>
                           Some (mk x0)
                       | _ => None
                       end;
     s_ok r := u32 (ValidatorIndex r) |}.
Proof. all: struct_laws. Defined.
End Result.

Section action.
Context {PF : Platform} {M : Type} {MU : Mutable M} {TX : Text}.

Definition GetTypeID : Z := RevealBatchID.
Definition StateKeys (a : t) (_ : Address) (_ : ID) : gmap bytes Permissions :=
  state_keys [(MarketKey (MarketID a), state_Read);
              (OracleKey (MarketID a) (ValidatorIndex a), state_All)].
Definition Bytes (a : t) : Outcome bytes := pack RevealBatchID MaxRevealBatchSize a.
Definition Unmarshal (b : bytes) : Outcome t := unpack RevealBatchID b.
Definition ResultBytes (r : Result.t) : bytes := pack_result RevealBatchID MaxRevealBatchSize r.
Definition UnmarshalResult (b : bytes) : Outcome Result.t := unpack_result b.

(** The handler without its deferred report. *)
Definition body (a : t) : ST (M * zkMetricsCollector) bytes :=
  fail_if (len (DecryptionShare a) =? 0) ErrDecryptionShareEmpty ;;;
  fail_if (MaxDecryptionShareSize <? len (DecryptionShare a)) ErrDecryptionShareTooLarge ;;;
  let* market := GetMarket (MarketID a) in
  fail_if (negb (Market.Status market =? MarketStatusActive)) ErrMarketNotActive ;;;
  put (OracleKey (MarketID a) (ValidatorIndex a))
      (be 8 (WindowID a) ++ DecryptionShare a) ;;;
  ret (ResultBytes (Result.mk (ValidatorIndex a))).

Definition Execute (exec : Z) (a : t) (_ : Z) (_ : Address) (_ : ID)
    : ST (M * zkMetricsCollector) bytes :=
  defer_metric (RecordRevealMetric (MarketID a) (WindowID a) exec) (body a).

Definition ComputeUnits : Z := RevealBatchComputeUnits.
Definition ValidRange : Z * Z := AlwaysValid.
End action.
End RevealBatch.

Module ResolveMarket.

Definition ResolveMarketComputeUnits : Z := 5.
Definition MaxResolveMarketSize : Z := 2048.
Definition MaxSignatureSize : Z := 256.

Record t := mk { MarketID : ID; Outcome : Z; Signature : bytes }.

#[global, refine] Instance struct : Struct t :=
  {| s_types := [TArray 32; TU8; TBytes];
     s_fields a := [FArray (MarketID a); FU8 (Outcome a); FBytes (Signature a)];
     s_of_fields fs := match fs with
                       | [FArray x0; FU8 x1; FBytes x2] =>
                           Some (mk (copy_array 32 x0) x1 x2)
                       | _ => None
                       end;
     s_ok a := u8 (Outcome a) /\ u32 (len (Signature a)) |}.
Proof. all: struct_laws. Defined.

Module Result.
Record t := mk { Outcome : Z }.
#[global, refine] Instance struct : Struct t :=
  {| s_types := [TU8];
     s_fields r := [FU8 (Outcome r)];
     s_of_fields fs := match fs with
                       | [FU8 x0] =>
                           Some (mk x0)
                       | _ => None
                       end;
     s_ok r := u8 (Outcome r) |}.
Proof. all: struct_laws. Defined.
End Result.

Section action.
Context {PF : Platform} {M : Type} {MU : Mutable M}.

Definition GetTypeID : Z := ResolveMarketID.
Definition StateKeys (a : t) (_ : Address) (_ : ID) : gmap bytes Permissions :=
  state_keys [(MarketKey (MarketID a), perm_or state_Read state_Write)].
Definition Bytes (a : t) : Go.Outcome bytes := pack ResolveMarketID MaxResolveMarketSize a.
Definition Unmarshal (b : bytes) : Go.Outcome t := unpack ResolveMarketID b.
Definition ResultBytes (r : Result.t) : bytes := pack_result ResolveMarketID MaxResolveMarketSize r.
Definition UnmarshalResult (b : bytes) : Go.Outcome Result.t := unpack_result b.

Definition Execute (a : t) (_ : Z) (_ : Address) (_ : ID) : ST M bytes :=
  fail_if (len (Signature a) =? 0) ErrSignatureEmpty ;;;
  fail_if (MaxSignatureSize <? len (Signature a)) ErrSignatureTooLarge ;;;
  let* market := GetMarket (MarketID a) in
  fail_if (negb (Market.Status market =? MarketStatusActive)) ErrMarketNotActive ;;;
  fail_if (Market.Outcomes market <=? Outcome a) ErrInvalidOutcome ;;;
  PutMarket (MarketID a)
    (Market.mk MarketStatusResolved (Market.Outcomes market) (Market.ResolutionTime market)
               (Outcome a) (Market.Question market)) ;;;
  ret (ResultBytes (Result.mk (Outcome a))).

Definition ComputeUnits : Z := ResolveMarketComputeUnits.
Definition ValidRange : Z * Z := AlwaysValid.
End action.
End ResolveMarket.

Module Dispute.

Definition DisputeComputeUnits : Z := 3.
Definition MaxDisputeSize : Z := 8192.
Definition MaxEvidenceSize : Z := 4096.

Record t := mk { MarketID : ID; Bond : Z; Evidence : bytes }.

#[global, refine] Instance struct : Struct t :=
  {| s_types := [TArray 32; TU64; TBytes];
     s_fields a := [FArray (MarketID a); FU64 (Bond a); FBytes (Evidence a)];
     s_of_fields fs := match fs with
                       | [FArray x0; FU64 x1; FBytes x2] =>
                           Some (mk (copy_array 32 x0) x1 x2)
                       | _ => None
                       end;
     s_ok a := u64 (Bond a) /\ u32 (len (Evidence a)) |}.
Proof. all: struct_laws. Defined.

Module Result.
Record t := mk { DisputerBalance : Z }.
#[global, refine] Instance struct : Struct t :=
  {| s_types := [TU64];
     s_fields r := [FU64 (DisputerBalance r)];
     s_of_fields fs := match fs with
                       | [FU64 x0] =>
                           Some (mk x0)
                       | _ => None
                       end;
     s_ok r := u64 (DisputerBalance r) |}.
Proof. all: struct_laws. Defined.
End Result.

Section action.
Context {PF : Platform} {M : Type} {MU : Mutable M}.

Definition GetTypeID : Z := DisputeID.
Definition StateKeys (a : t) (actor : Address) (_ : ID) : gmap bytes Permissions :=
  let rw := perm_or state_Read state_Write in
  state_keys [(BalanceKey actor, rw); (MarketKey (MarketID a), rw);
              (DisputeKey (MarketID a), state_All)].
Definition Bytes (a : t) : Outcome bytes := pack DisputeID MaxDisputeSize a.
Definition Unmarshal (b : bytes) : Outcome t := unpack DisputeID b.
Definition ResultBytes (r : Result.t) : bytes := pack_result DisputeID MaxDisputeSize r.
Definition UnmarshalResult (b : bytes) : Outcome Result.t := unpack_result b.

Definition Execute (a : t) (_ : Z) (actor : Address) (_ : ID) : ST M bytes :=
  fail_if (Bond a =? 0) ErrBondZero ;;;
  fail_if (len (Evidence a) =? 0) ErrEvidenceEmpty ;;;
  fail_if (MaxEvidenceSize <? len (Evidence a)) ErrEvidenceTooLarge ;;;
  let* market := GetMarket (MarketID a) in
  fail_if (negb (Market.Status market =? MarketStatusResolved)) ErrMarketNotResolved ;;;
  let* newBalance := SubBalance actor (Bond a) in
  PutMarket (MarketID a)
    (Market.mk MarketStatusDisputed (Market.Outcomes market) (Market.ResolutionTime market)
               (Market.ResolvedOutcome market) (Market.Question market)) ;;;
  PutDispute (MarketID a) (Bond a) (Evidence a) ;;;
  ret (ResultBytes (Result.mk newBalance)).

Definition ComputeUnits : Z := DisputeComputeUnits.
Definition ValidRange : Z * Z := AlwaysValid.
End action.
End Dispute.
