(* ===== verification/Proofs.v ===== *)
(** * Proof-gated batches

    [actions/submit_batch_proof.go], [clear_batch.go] and [set_proof_config.go].
    The verifier is the process-wide hook of [ProofEnvelope.v]; the durations
    the handlers measure are inputs; the variables their deferred report reads
    are kept next to the store while the body runs. *)
From S2P Require Import Prelude Errors Go Platform Sha256 Storage Balance Action ProofEnvelope.
From S2P Require Import Metrics Markets.

Definition ProofCircuitClearHashV1 : bytes := String.list_byte_of_string "clearhash-v1".
Definition ProofCircuitShieldedLedgerV1 : bytes :=
  String.list_byte_of_string "shielded-ledger-v1".

(** Readings of [time.Since], in nanoseconds: of the whole handler, of the
    verification when it succeeded, and of the verification when it returned. *)
Record Clock := mk_clock { clk_exec : Z; clk_verify : Z; clk_verify_defer : Z }.

(** The local variables a deferred report reads; [verifying] says that the
    inner deferred call of [ClearBatch] was registered. *)
Record Locals := mk_locals {
  verificationDuration : Z; missedDeadline : bool; acceptedAtMs : Z; verifying : bool
}.
Definition locals0 : Locals := mk_locals 0 false 0 false.

Section locals.
Context {S : Type}.
Definition set_missed : ST (S * Locals) unit := fun s =>
  let l := s.2 in
  (Ok tt, (s.1, mk_locals (verificationDuration l) true (acceptedAtMs l) (verifying l))).
Definition set_duration (d : Z) : ST (S * Locals) unit := fun s =>
  let l := s.2 in
  (Ok tt, (s.1, mk_locals d (missedDeadline l) (acceptedAtMs l) (verifying l))).
Definition set_accepted (ts : Z) : ST (S * Locals) unit := fun s =>
  let l := s.2 in
  (Ok tt, (s.1, mk_locals (verificationDuration l) (missedDeadline l) ts (verifying l))).
Definition set_verifying : ST (S * Locals) unit := fun s =>
  let l := s.2 in
  (Ok tt, (s.1, mk_locals (verificationDuration l) (missedDeadline l) (acceptedAtMs l) true)).

(** [missedDeadline = true; return nil, e] when [late]. *)
Definition fail_late (late : bool) (e : Error) : ST (S * Locals) unit :=
  if late then (set_missed ;;; fail e) else ret tt.
End locals.

(** Run [body] with fresh locals; [report] is the deferred call. *)
Definition with_locals {M A}
    (report : Locals -> option Error -> zkMetricsCollector -> zkMetricsCollector)
    (body : ST ((M * zkMetricsCollector) * Locals) A) : ST (M * zkMetricsCollector) A :=
  fun s => let '(r, ((m, c), l)) := body (s, locals0) in (r, (m, report l (err_of r) c)).

Module SubmitBatchProof.

Definition SubmitBatchProofComputeUnits : Z := 8.
Definition MaxSubmitBatchProofSize : Z := MaxProofBytesSize + 4096.
Definition ExpectedProofHashSize : Z := 32.

Record t := mk { MarketID : ID; WindowID : Z; WindowCloseAtMs : Z; ProofType : Z;
                 PublicInputsHash : bytes; FillsHash : bytes; Proof : bytes }.

#[global, refine] Instance struct : Struct t :=
  {| s_types := [TArray 32; TU64; TI64; TU8; TBytes; TBytes; TBytes];
     s_fields a := [FArray (MarketID a); FU64 (WindowID a); FI64 (WindowCloseAtMs a);
                    FU8 (ProofType a); FBytes (PublicInputsHash a);
                    FBytes (FillsHash a); FBytes (Proof a)];
     s_of_fields fs := match fs with
                       | [FArray x0; FU64 x1; FI64 x2; FU8 x3; FBytes x4; FBytes x5;
                          FBytes x6] =>
                           Some (mk (copy_array 32 x0) x1 x2 x3 x4 x5 x6)
                       | _ => None
                       end;
     s_ok a := u64 (WindowID a) /\ i64 (WindowCloseAtMs a) /\ u8 (ProofType a) /\
               u32 (len (PublicInputsHash a)) /\ u32 (len (FillsHash a)) /\
               u32 (len (Proof a)) |}.
Proof. all: struct_laws. Defined.

Module Result.
Record t := mk { SubmittedAtMs : Z; ProofCommitment : bytes; StoredProofBytes : Z;
                 GlyphClass : Z; GlyphRarity : Z }.
#[global, refine] Instance struct : Struct t :=
  {| s_types := [TI64; TBytes; TU32; TU8; TU8];
     s_fields r := [FI64 (SubmittedAtMs r); FBytes (ProofCommitment r);
                    FU32 (StoredProofBytes r); FU8 (GlyphClass r); FU8 (GlyphRarity r)];
     s_of_fields fs := match fs with
                       | [FI64 x0; FBytes x1; FU32 x2; FU8 x3; FU8 x4] =>
                           Some (mk x0 x1 x2 x3 x4)
                       | _ => None
                       end;
     s_ok r := i64 (SubmittedAtMs r) /\ u32 (len (ProofCommitment r)) /\
               u32 (StoredProofBytes r) /\ u8 (GlyphClass r) /\ u8 (GlyphRarity r) |}.
Proof. all: struct_laws. Defined.
End Result.

Section action.
Context {PF : Platform} {M : Type} {MU : Mutable M} {TX : Text}.

Definition GetTypeID : Z := SubmitBatchProofID.
Definition StateKeys (a : t) (actor : Address) (_ : ID) : gmap bytes Permissions :=
  state_keys [(MarketKey (MarketID a), state_Read); (ProofConfigKey, state_Read);
              (BatchProofKey (MarketID a) (WindowID a), state_All);
              (VellumProofKey (MarketID a) (WindowID a), state_All);
              (BloodswornKey actor, state_All);
              (GlyphKey (MarketID a) (WindowID a), state_All)].
Definition Bytes (a : t) : Outcome bytes := pack SubmitBatchProofID MaxSubmitBatchProofSize a.
Definition Unmarshal (b : bytes) : Outcome t := unpack SubmitBatchProofID b.
Definition ResultBytes (r : Result.t) : bytes := pack_result SubmitBatchProofID MaxSubmitBatchProofSize r.
Definition UnmarshalResult (b : bytes) : Outcome Result.t := unpack_result b.

(** Lines 165-216: verify, then record the proof, its payload, the prover's
    standing and the glyph. *)
Definition accept (vc : VerifierConfig) (a : t) (cfg : ProofConfig.t) (timestamp : Z)
    (actor : Address) (txID : ID) : ST ((M * zkMetricsCollector) * Locals) bytes :=
  lift (verifyBatchProofInConsensus vc (ProofConfig.RequiredProofType cfg) (Proof a)
                                    (PublicInputsHash a)) ;;;
  let commitment := Sum256 (Proof a) in
  let record := BatchProofRecord.mk (ProofType a) timestamp (WindowCloseAtMs a) actor
                  commitment (PublicInputsHash a) (FillsHash a) in
  PutBatchProofRecord (MarketID a) (WindowID a) record ;;;
  PutVellumProof (MarketID a) (WindowID a) (Proof a) ;;;
  let* bloodsworn := GetBloodsworn actor in
  PutBloodsworn actor
    (Bloodsworn.mk (wrap_u64 (Bloodsworn.TotalAcceptedProofs bloodsworn + 1))
                   (wrap_u64 (Bloodsworn.ActiveStreak bloodsworn + 1)) timestamp
                   (Bloodsworn.ScarCount bloodsworn)) ;;;
  let glyph := deriveGlyph txID (MarketID a) (WindowID a) actor commitment
                 (PublicInputsHash a) timestamp in
  PutGlyph (MarketID a) (WindowID a) glyph ;;;
  ret (ResultBytes (Result.mk timestamp commitment (wrap_u32 (len (Proof a)))
                              (Glyph.Class glyph) (Glyph.Rarity glyph))).

(** The handler without its deferred report. *)
Definition body (vc : VerifierConfig) (a : t) (timestamp : Z) (actor : Address) (txID : ID)
    : ST ((M * zkMetricsCollector) * Locals) bytes :=
  fail_if (WindowCloseAtMs a <=? 0) ErrInvalidProofEnvelope ;;;
  fail_if (ProofType a =? 0) ErrInvalidProofEnvelope ;;;
  fail_if (negb (len (PublicInputsHash a) =? ExpectedProofHashSize))
          ErrInvalidProofEnvelope ;;;
  fail_if (negb (len (FillsHash a) =? ExpectedFillsHashSize)) ErrInvalidProofEnvelope ;;;
  fail_if ((len (Proof a) =? 0) || (MaxProofBytesSize <? len (Proof a)))
          ErrInvalidProofEnvelope ;;;
  let* market := GetMarket (MarketID a) in
  fail_if (negb (Market.Status market =? MarketStatusActive)) ErrMarketNotActive ;;;
  let* cfg := GetProofConfig in
  fail_if (negb (ProofConfig.RequireProof cfg)) ErrInvalidProofConfig ;;;
  fail_if (negb (bool_decide (actor = ProofConfig.ProverAuthority cfg))) ErrUnauthorized ;;;
  fail_if (negb (ProofType a =? ProofConfig.RequiredProofType cfg)) ErrProofTypeMismatch ;;;
  (if ProofConfig.BatchWindowMs cfg =? 0 then panic else ret tt) ;;;
  fail_if (negb (Z.rem (WindowCloseAtMs a) (ProofConfig.BatchWindowMs cfg) =? 0))
          ErrInvalidProofEnvelope ;;;
  fail_late (timestamp <? WindowCloseAtMs a) ErrProofDeadlineMissed ;;;
  fail_late (wrap_i64 (WindowCloseAtMs a + ProofConfig.ProofDeadlineMs cfg) <? timestamp)
            ErrProofDeadlineMissed ;;;
  let* existing := catch (GetBatchProofRecord (MarketID a) (WindowID a)) in
  match existing with
  | inl _ => fail ErrProofAlreadySubmitted
  | inr e =>
      fail_if (negb (errors_Is e ErrProofNotFound)) e ;;;
      accept vc a cfg timestamp actor txID
  end.

Definition Execute (vc : VerifierConfig) (clk : Clock) (a : t) (timestamp : Z)
    (actor : Address) (txID : ID) : ST (M * zkMetricsCollector) bytes :=
  with_locals
    (fun l => RecordProofSubmitMetric (MarketID a) (WindowID a) (WindowCloseAtMs a) timestamp
                                (clk_exec clk) (missedDeadline l))
    (body vc a timestamp actor txID).

Definition ComputeUnits : Z := SubmitBatchProofComputeUnits.
Definition ValidRange : Z * Z := AlwaysValid.
End action.
End SubmitBatchProof.

Module ClearBatch.

Definition ClearBatchComputeUnits : Z := 10.
Definition MaxClearBatchSize : Z := 2048.
Definition MaxFillsHashSize : Z := 64.

Record t := mk { MarketID : ID; WindowID : Z; ClearPrice : Z; TotalVolume : Z;
                 FillsHash : bytes }.

#[global, refine] Instance struct : Struct t :=
  {| s_types := [TArray 32; TU64; TU64; TU64; TBytes];
     s_fields a := [FArray (MarketID a); FU64 (WindowID a); FU64 (ClearPrice a);
                    FU64 (TotalVolume a); FBytes (FillsHash a)];
     s_of_fields fs := match fs with
                       | [FArray x0; FU64 x1; FU64 x2; FU64 x3; FBytes x4] =>
                           Some (mk (copy_array 32 x0) x1 x2 x3 x4)
                       | _ => None
                       end;
     s_ok a := u64 (WindowID a) /\ u64 (ClearPrice a) /\ u64 (TotalVolume a) /\
               u32 (len (FillsHash a)) |}.
Proof. all: struct_laws. Defined.

Module Result.
Record t := mk { ClearPrice : Z; TotalVolume : Z }.
#[global, refine] Instance struct : Struct t :=
  {| s_types := [TU64; TU64];
     s_fields r := [FU64 (ClearPrice r); FU64 (TotalVolume r)];
     s_of_fields fs := match fs with
                       | [FU64 x0; FU64 x1] =>
                           Some (mk x0 x1)
                       | _ => None
                       end;
     s_ok r := u64 (ClearPrice r) /\ u64 (TotalVolume r) |}.
Proof. all: struct_laws. Defined.
End Result.

Section action.
Context {PF : Platform} {M : Type} {MU : Mutable M} {TX : Text}.

Definition GetTypeID : Z := ClearBatchID.
Definition StateKeys (a : t) (_ : Address) (_ : ID) : gmap bytes Permissions :=
  state_keys [(MarketKey (MarketID a), state_Read);
              (BatchKey (MarketID a) (WindowID a), state_All);
              (ProofConfigKey, state_Read);
              (BatchProofKey (MarketID a) (WindowID a), state_Read);
              (VellumProofKey (MarketID a) (WindowID a), state_Read)].
Definition Bytes (a : t) : Outcome bytes := pack ClearBatchID MaxClearBatchSize a.
Definition Unmarshal (b : bytes) : Outcome t := unpack ClearBatchID b.
Definition ResultBytes (r : Result.t) : bytes := pack_result ClearBatchID MaxClearBatchSize r.
Definition UnmarshalResult (b : bytes) : Outcome Result.t := unpack_result b.

Definition computeExpectedPublicInputsHash (circuitID : bytes) (marketID : ID)
    (windowID clearPrice totalVolume : Z) (fillsHash : bytes) : Outcome Hash :=
  let circuitID := TrimSpace circuitID in
  if bool_decide (circuitID = []) || bool_decide (circuitID = ProofCircuitClearHashV1)
  then Ok (ComputeClearPublicInputsHash marketID windowID clearPrice totalVolume fillsHash)
  else if bool_decide (circuitID = ProofCircuitShieldedLedgerV1)
  then Ok (ComputeShieldedLedgerPublicInputsHash marketID windowID clearPrice totalVolume
                                                 fillsHash)
  else Err ErrUnsupportedProofCircuit.

(** Lines 152-195: the checks of the recorded proof. *)
Definition check_proof (vc : VerifierConfig) (clk : Clock) (a : t) (proofCfg : ProofConfig.t)
    : ST ((M * zkMetricsCollector) * Locals) unit :=
  set_verifying ;;;
  let* record := GetBatchProofRecord (MarketID a) (WindowID a) in
  fail_if (negb (BatchProofRecord.ProofType record =? ProofConfig.RequiredProofType proofCfg))
          ErrProofTypeMismatch ;;;
  fail_late (wrap_i64 (BatchProofRecord.WindowCloseAtMs record
                       + ProofConfig.ProofDeadlineMs proofCfg)
             <? BatchProofRecord.SubmittedAtMs record) ErrProofDeadlineMissed ;;;
  fail_if (negb (bool_decide (BatchProofRecord.FillsHash record = FillsHash a)))
          ErrProofFillsMismatch ;;;
  let* proofBytes := GetVellumProof (MarketID a) (WindowID a) in
  fail_if (negb (bool_decide (Sum256 proofBytes = BatchProofRecord.ProofCommitment record)))
          ErrProofCommitmentMismatch ;;;
  let* env := lift (parseProofEnvelope proofBytes) in
  let* expectedInputsHash :=
    lift (computeExpectedPublicInputsHash (env_circuitID env) (MarketID a) (WindowID a)
            (ClearPrice a) (TotalVolume a) (FillsHash a)) in
  fail_if (negb (bool_decide (BatchProofRecord.PublicInputsHash record
                              = array_bytes expectedInputsHash)))
          ErrProofPublicInputsMismatch ;;;
  lift (verifyBatchProofInConsensus vc (BatchProofRecord.ProofType record) proofBytes
                                    expectedInputsHash) ;;;
  set_duration (clk_verify clk).

(** The handler without its deferred reports. *)
Definition body (vc : VerifierConfig) (clk : Clock) (a : t) (timestamp : Z) (actor : Address)
    : ST ((M * zkMetricsCollector) * Locals) bytes :=
  fail_if (ClearPrice a =? 0) ErrClearPriceZero ;;;
  fail_if (len (FillsHash a) =? 0) ErrFillsHashEmpty ;;;
  fail_if (MaxFillsHashSize <? len (FillsHash a)) ErrFillsHashTooLarge ;;;
  fail_if (negb (len (FillsHash a) =? ExpectedFillsHashSize)) ErrFillsHashWrongSize ;;;
  let* market := GetMarket (MarketID a) in
  fail_if (negb (Market.Status market =? MarketStatusActive)) ErrMarketNotActive ;;;
  let* proofCfg := GetProofConfig in
  (if ProofConfig.RequireProof proofCfg then
     fail_if (negb (bool_decide (actor = ProofConfig.ProverAuthority proofCfg)))
             ErrUnauthorized ;;;
     check_proof vc clk a proofCfg
   else ret tt) ;;;
  PutBatchResult (MarketID a) (WindowID a) (ClearPrice a) (TotalVolume a) (FillsHash a) ;;;
  set_accepted timestamp ;;;
  ret (ResultBytes (Result.mk (ClearPrice a) (TotalVolume a))).

Definition Execute (vc : VerifierConfig) (clk : Clock) (a : t) (timestamp : Z)
    (actor : Address) (_ : ID) : ST (M * zkMetricsCollector) bytes :=
  with_locals
    (fun l =>
       let duration := if verifying l && (verificationDuration l =? 0)
                       then clk_verify_defer clk else verificationDuration l in
       RecordClearMetric (MarketID a) (WindowID a) (acceptedAtMs l) duration (clk_exec clk)
                   (missedDeadline l))
    (body vc clk a timestamp actor).

Definition ComputeUnits : Z := ClearBatchComputeUnits.
Definition ValidRange : Z * Z := AlwaysValid.
End action.
End ClearBatch.

Module SetProofConfig.

Definition SetProofConfigComputeUnits : Z := 2.
Definition MaxSetProofConfigSize : Z := 256.

Record t := mk { RequireProof : bool; RequiredProofType : Z; BatchWindowMs : Z;
                 ProofDeadlineMs : Z; ProverAuthority : Address }.

#[global, refine] Instance struct : Struct t :=
  {| s_types := [TBool; TU8; TI64; TI64; TArray 33];
     s_fields a := [FBool (RequireProof a); FU8 (RequiredProofType a);
                    FI64 (BatchWindowMs a); FI64 (ProofDeadlineMs a);
                    FArray (ProverAuthority a)];
     s_of_fields fs := match fs with
                       | [FBool x0; FU8 x1; FI64 x2; FI64 x3; FArray x4] =>
                           Some (mk x0 x1 x2 x3 (copy_array 33 x4))
                       | _ => None
                       end;
     s_ok a := u8 (RequiredProofType a) /\ i64 (BatchWindowMs a) /\
               i64 (ProofDeadlineMs a) |}.
Proof. all: struct_laws. Defined.

Module Result.
Record t := mk { RequireProof : bool; RequiredProofType : Z; BatchWindowMs : Z;
                 ProofDeadlineMs : Z; ProverAuthority : Address }.
#[global, refine] Instance struct : Struct t :=
  {| s_types := [TBool; TU8; TI64; TI64; TArray 33];
     s_fields r := [FBool (RequireProof r); FU8 (RequiredProofType r);
                    FI64 (BatchWindowMs r); FI64 (ProofDeadlineMs r);
                    FArray (ProverAuthority r)];
     s_of_fields fs := match fs with
                       | [FBool x0; FU8 x1; FI64 x2; FI64 x3; FArray x4] =>
                           Some (mk x0 x1 x2 x3 (copy_array 33 x4))
                       | _ => None
                       end;
     s_ok r := u8 (RequiredProofType r) /\ i64 (BatchWindowMs r) /\
               i64 (ProofDeadlineMs r) |}.
Proof. all: struct_laws. Defined.
End Result.

Section action.
Context {PF : Platform} {M : Type} {MU : Mutable M}.

Definition GetTypeID : Z := SetProofConfigID.
Definition StateKeys (_ : t) (_ : Address) (_ : ID) : gmap bytes Permissions :=
  state_keys [(TreasuryConfigKey, state_Read);
              (ProofConfigKey, perm_or state_Read state_Write)].
Definition Bytes (a : t) : Outcome bytes := pack SetProofConfigID MaxSetProofConfigSize a.
Definition Unmarshal (b : bytes) : Outcome t := unpack SetProofConfigID b.
Definition ResultBytes (r : Result.t) : bytes := pack_result SetProofConfigID MaxSetProofConfigSize r.
Definition UnmarshalResult (b : bytes) : Outcome Result.t := unpack_result b.

Definition Execute (a : t) (_ : Z) (actor : Address) (_ : ID) : ST M bytes :=
  let* treasuryCfg := GetTreasuryConfig in
  fail_if (negb (bool_decide (actor = TreasuryConfig.Governance treasuryCfg)))
          ErrUnauthorized ;;;
  let cfg := ProofConfig.mk (RequireProof a) (RequiredProofType a) (BatchWindowMs a)
                            (ProofDeadlineMs a) (ProverAuthority a) in
  PutProofConfig cfg ;;;
  ret (ResultBytes
         (Result.mk (ProofConfig.RequireProof cfg) (ProofConfig.RequiredProofType cfg)
                    (ProofConfig.BatchWindowMs cfg) (ProofConfig.ProofDeadlineMs cfg)
                    (ProofConfig.ProverAuthority cfg))).

Definition ComputeUnits : Z := SetProofConfigComputeUnits.
Definition ValidRange : Z * Z := AlwaysValid.
End action.
End SetProofConfig.
