(* ===== verification/MarketFacts.v ===== *)
(** * What the market actions do

    The life of a market is a small state machine: it is created active, may be
    resolved once to one of its outcomes, and may then be disputed once. *)
From S2P Require Import Prelude Errors Go Platform Storage Concrete Balance Action Metrics.
From S2P Require Import Markets.

Definition market_at {PF : Platform} (m : gmap bytes bytes) (id : ID) : option Market.t :=
  stored Market.parse m (MarketKey id).

Definition with_status (status outcome : Z) (m : Market.t) : Market.t :=
  Market.mk status (Market.Outcomes m) (Market.ResolutionTime m) outcome (Market.Question m).

(** The transitions of one market. *)
Inductive market_step : option Market.t -> option Market.t -> Prop :=
| market_created m :
    Market.Status m = MarketStatusActive -> Market.ResolvedOutcome m = 0 ->
    2 <= Market.Outcomes m -> 0 < Market.ResolutionTime m ->
    market_step None (Some m)
| market_resolved m outcome :
    Market.Status m = MarketStatusActive -> 0 <= outcome < Market.Outcomes m ->
    market_step (Some m) (Some (with_status MarketStatusResolved outcome m))
| market_disputed m :
    Market.Status m = MarketStatusResolved ->
    market_step (Some m) (Some (with_status MarketStatusDisputed (Market.ResolvedOutcome m) m)).

Lemma Market_parse_error v : Market.parse v <> Err ErrMarketNotFound.
Proof. unfold Market.parse. by destruct (_ <? _). Qed.

Lemma MarketKey_inj {PF : Platform} {PS : PlatformSpec} a b :
  MarketKey a = MarketKey b -> a = b.
Proof. intros H. by apply (slot_key_inj (SMarket a) (SMarket b)) in H as [= ->]. Qed.

(** The markets after one of them is written. *)
Lemma market_at_put {PF : Platform} {PS : PlatformSpec} m id x id' :
  Market.ok x ->
  market_at (<[MarketKey id := Market.encode x]> m) id'
  = if bool_decide (id' = id) then Some x else market_at m id'.
Proof.
  intros Hx. unfold market_at. case_bool_decide as E; [subst; by stored_put|].
  apply stored_insert_ne. by intros H%MarketKey_inj.
Qed.

(** Writes to other cells leave the markets alone. *)
Lemma market_at_insert_ne {PF : Platform} m k v id :
  k <> MarketKey id -> market_at (<[k := v]> m) id = market_at m id.
Proof. apply stored_insert_ne. Qed.

Lemma market_at_set_ne {PF : Platform} m k n id :
  k <> MarketKey id -> market_at (set_cell m k n) id = market_at m id.
Proof. apply stored_set_ne. Qed.

(** A deferred report changes the collector only. *)
Lemma defer_metric_run {M A} report (body : ST (M * zkMetricsCollector) A) s r s' :
  defer_metric report body s = (r, s') ->
  exists c', body s = (r, (s'.1, c')) /\ s'.2 = report (err_of r) c'.
Proof.
  unfold defer_metric. destruct (body s) as [r0 [m c]]. intros [= <- <-]. by exists c.
Qed.

Section facts.
Context {PF : Platform} {PS : PlatformSpec} {M : Type} {MU : Mutable M} {MS : MutableSpec M}.

Lemma create_market_ok a ts actor tx out (s s' : M) :
  s_ok a -> CreateMarket.Execute a ts actor tx s = (Ok out, s') ->
  let id := CreateMarket.MarketID a in
  let x := Market.mk MarketStatusActive (CreateMarket.Outcomes a)
             (CreateMarket.ResolutionTime a) 0 (CreateMarket.Question a) in
  let bal := cell (contents s) (BalanceKey actor) - CreateMarket.CreatorBond a in
  contents s !! MarketKey id = None /\ Market.ok x /\ u64 bal /\
  2 <= CreateMarket.Outcomes a /\ 0 < CreateMarket.ResolutionTime a /\
  0 < CreateMarket.CreatorBond a /\
  contents s' = <[MarketKey id := Market.encode x]>
                  (set_cell (contents s) (BalanceKey actor) bal).
Proof.
  intros Ha H. unfold CreateMarket.Execute, SubBalance in H. cbn in Ha. destruct_and?. go_inv.
  match goal with G : catch _ _ = _ |- _ => apply catch_ok in G; rename G into Hcatch end.
  match goal with r : (Market.t + Error)%type |- _ => destruct r as [q|e]; [done|] end. go_inv.
  match goal with G : errors_Is _ _ = true |- _ => apply bool_decide_eq_true in G as -> end.
  apply get_parsed_missed in Hcatch as [-> Hnone]; [|apply Market_parse_error|done].
  go_inv. repeat op_step. repeat store_step.
  match goal with C : contents ?s0 = set_cell _ _ ?n, N : cell _ _ = ?n + _ |- _ =>
    replace n with (cell (contents s) (BalanceKey actor) - CreateMarket.CreatorBond a) in * by lia
  end.
  repeat match goal with C : contents _ = _ |- _ => rewrite C in *; clear C end.
  unfold Market.ok. cbv zeta. split_and!; try done; unfold u64, u8 in *; cbn; lia.
Qed.

Lemma resolve_market_ok a ts actor tx out (s s' : M) :
  s_ok a -> ResolveMarket.Execute a ts actor tx s = (Ok out, s') ->
  let id := ResolveMarket.MarketID a in
  exists x, market_at (contents s) id = Some x /\ Market.ok x /\
    Market.Status x = MarketStatusActive /\
    0 <= ResolveMarket.Outcome a < Market.Outcomes x /\
    let x' := with_status MarketStatusResolved (ResolveMarket.Outcome a) x in
    Market.ok x' /\ contents s' = <[MarketKey id := Market.encode x']> (contents s).
Proof.
  intros Ha H. unfold ResolveMarket.Execute in H. cbn in Ha. destruct_and?. go_inv.
  repeat store_step.
  match goal with G : stored Market.parse _ _ = Some ?q |- _ =>
    exists q; pose proof (stored_ok _ _ _ _ _ Market_parse_ok G) as (?&?&?&?) end.
  unfold Market.ok, u8 in *. cbv zeta. split_and!; try done; cbn; lia.
Qed.

Lemma dispute_ok a ts actor tx out (s s' : M) :
  s_ok a -> Dispute.Execute a ts actor tx s = (Ok out, s') ->
  let id := Dispute.MarketID a in
  let bal := cell (contents s) (BalanceKey actor) - Dispute.Bond a in
  exists x, market_at (contents s) id = Some x /\ Market.ok x /\
    Market.Status x = MarketStatusResolved /\ 0 < Dispute.Bond a /\ u64 bal /\
    let x' := with_status MarketStatusDisputed (Market.ResolvedOutcome x) x in
    Market.ok x' /\
    contents s' = <[DisputeKey id := be 8 (Dispute.Bond a) ++ Dispute.Evidence a]>
      (<[MarketKey id := Market.encode x']> (set_cell (contents s) (BalanceKey actor) bal)).
Proof.
  intros Ha H. unfold Dispute.Execute, SubBalance in H. cbn in Ha. destruct_and?. go_inv.
  repeat store_step. repeat op_step.
  match goal with G : stored Market.parse _ _ = Some ?q |- _ =>
    exists q; pose proof (stored_ok _ _ _ _ _ Market_parse_ok G) as (?&?&?&?) end.
  match goal with C : contents ?s0 = set_cell _ _ ?n, N : cell _ _ = ?n + _ |- _ =>
    replace n with (cell (contents s) (BalanceKey actor) - Dispute.Bond a) in * by lia end.
  repeat match goal with C : contents _ = _ |- _ => rewrite C in *; clear C end.
  unfold Market.ok, u64, u8 in *. cbv zeta. split_and!; try done; cbn; lia.
Qed.
End facts.

Section batch_facts.
Context {PF : Platform} {PS : PlatformSpec} {TX : Text}.
Context {M : Type} {MU : Mutable M} {MS : MutableSpec M}.

Lemma commit_order_ok exec a ts actor tx out (s s' : M * zkMetricsCollector) :
  CommitOrder.Execute exec a ts actor tx s = (Ok out, s') ->
  let id := CommitOrder.MarketID a in
  (exists x, market_at (contents s) id = Some x /\ Market.Status x = MarketStatusActive) /\
  contents s' = <[CommitmentKey id (CommitOrder.WindowID a) actor :=
                  CommitOrder.Commitment a ++ CommitOrder.Envelope a]> (contents s).
Proof.
  intros H. apply defer_metric_run in H as (c' & H & _). unfold CommitOrder.body in H. go_inv.
  repeat store_step. split; [eauto|done].
Qed.

Lemma reveal_batch_ok exec a ts actor tx out (s s' : M * zkMetricsCollector) :
  RevealBatch.Execute exec a ts actor tx s = (Ok out, s') ->
  let id := RevealBatch.MarketID a in
  (exists x, market_at (contents s) id = Some x /\ Market.Status x = MarketStatusActive) /\
  contents s' = <[OracleKey id (RevealBatch.ValidatorIndex a) :=
                  be 8 (RevealBatch.WindowID a) ++ RevealBatch.DecryptionShare a]> (contents s).
Proof.
  intros H. apply defer_metric_run in H as (c' & H & _). unfold RevealBatch.body in H. go_inv.
  repeat store_step. repeat op_step. split; [eauto|done].
Qed.
End batch_facts.
