(* ===== verification/ProofFacts.v ===== *)
(** * What the proof actions do

    In proof-gated mode a batch is cleared only against a recorded proof that
    commits to exactly this clear and that the verifier accepts; a proof is
    recorded once per window, in time, by the configured prover. *)
From S2P Require Import Prelude Errors Go Platform Sha256 Storage Concrete Balance Action.
From S2P Require Import ProofEnvelope ProofEnvelopeFacts Metrics Markets Proofs MarketFacts.

Definition proof_config {PF : Platform} (m : gmap bytes bytes) : option ProofConfig.t :=
  stored ProofConfig.parse m ProofConfigKey.
Definition proof_record {PF : Platform} (m : gmap bytes bytes) (id : ID) (w : Z)
    : option BatchProofRecord.t := stored BatchProofRecord.parse m (BatchProofKey id w).
Definition proof_payload {PF : Platform} (m : gmap bytes bytes) (id : ID) (w : Z)
    : option bytes := stored VellumProof.parse m (VellumProofKey id w).
Definition glyph_at {PF : Platform} (m : gmap bytes bytes) (id : ID) (w : Z)
    : option Glyph.t := stored Glyph.parse m (GlyphKey id w).
(** A missing standing is the zero one. *)
Definition bloodsworn_at {PF : Platform} (m : gmap bytes bytes) (x : Address)
    : option Bloodsworn.t :=
  match m !! BloodswornKey x with
  | None => Some Bloodsworn.zero
  | Some _ => stored Bloodsworn.parse m (BloodswornKey x)
  end.

(** The deadline as the handlers compute it, in [int64]. *)
Definition deadline (cfg : ProofConfig.t) (close : Z) : Z :=
  wrap_i64 (close + ProofConfig.ProofDeadlineMs cfg).

(** The recorded proof of a window that a clear relies on. *)
Definition proof_backs {PF : Platform} (vc : VerifierConfig) (cfg : ProofConfig.t)
    (a : ClearBatch.t) (m : gmap bytes bytes) : Prop :=
  let id := ClearBatch.MarketID a in
  let w := ClearBatch.WindowID a in
  exists record payload env h,
    proof_record m id w = Some record /\ proof_payload m id w = Some payload /\
    BatchProofRecord.ProofType record = ProofConfig.RequiredProofType cfg /\
    BatchProofRecord.SubmittedAtMs record <= deadline cfg (BatchProofRecord.WindowCloseAtMs record) /\
    BatchProofRecord.FillsHash record = ClearBatch.FillsHash a /\
    BatchProofRecord.ProofCommitment record = Sum256 payload /\
    parseProofEnvelope payload = Ok env /\
    ClearBatch.computeExpectedPublicInputsHash (env_circuitID env) id w
      (ClearBatch.ClearPrice a) (ClearBatch.TotalVolume a) (ClearBatch.FillsHash a) = Ok h /\
    BatchProofRecord.PublicInputsHash record = array_bytes h /\
    verifyBatchProofInConsensus vc (ProofConfig.RequiredProofType cfg) payload h = Ok tt.

(** What an accepted proof records. *)
Definition new_record (a : SubmitBatchProof.t) (ts : Z) (actor : Address)
    : BatchProofRecord.t :=
  BatchProofRecord.mk (SubmitBatchProof.ProofType a) ts (SubmitBatchProof.WindowCloseAtMs a) actor
    (Sum256 (SubmitBatchProof.Proof a)) (SubmitBatchProof.PublicInputsHash a)
    (SubmitBatchProof.FillsHash a).
Definition next_standing (b : Bloodsworn.t) (ts : Z) : Bloodsworn.t :=
  Bloodsworn.mk (wrap_u64 (Bloodsworn.TotalAcceptedProofs b + 1))
    (wrap_u64 (Bloodsworn.ActiveStreak b + 1)) ts (Bloodsworn.ScarCount b).
Definition new_glyph (a : SubmitBatchProof.t) (ts : Z) (actor : Address) (tx : ID) : Glyph.t :=
  deriveGlyph tx (SubmitBatchProof.MarketID a) (SubmitBatchProof.WindowID a) actor
    (Sum256 (SubmitBatchProof.Proof a)) (SubmitBatchProof.PublicInputsHash a) ts.

Lemma fail_late_ok {S} b e u (s s' : S * Locals) :
  fail_late b e s = (Ok u, s') -> b = false /\ s' = s.
Proof. unfold fail_late. destruct b; [done|]. by intros [= _ <-]. Qed.

Lemma with_locals_run {M A} report (body : ST ((M * zkMetricsCollector) * Locals) A) s r s' :
  with_locals report body s = (r, s') ->
  exists c' l, body (s, locals0) = (r, ((s'.1, c'), l)) /\ s'.2 = report l (err_of r) c'.
Proof.
  unfold with_locals. destruct (body (s, locals0)) as [r0 [[m c] l]]. intros [= <- <-].
  by exists c, l.
Qed.

Ltac late_step :=
  match goal with
  | H : fail_late _ _ _ = (Ok _, _) |- _ => apply fail_late_ok in H as [H ->]
  | H : set_verifying _ = (Ok _, _) |- _ => unfold set_verifying in H; injection H as <-
  | H : set_duration _ _ = (Ok _, _) |- _ => unfold set_duration in H; injection H as <-
  | H : set_accepted _ _ = (Ok _, _) |- _ => unfold set_accepted in H; injection H as <-
  end.

Lemma bloodsworn_at_insert_ne {PF : Platform} m k v x :
  k <> BloodswornKey x -> bloodsworn_at (<[k := v]> m) x = bloodsworn_at m x.
Proof.
  intros Hk. unfold bloodsworn_at. by rewrite lookup_insert_ne, stored_insert_ne by done.
Qed.

Lemma bloodsworn_ok {PF : Platform} m x b : bloodsworn_at m x = Some b -> Bloodsworn.ok b.
Proof.
  unfold bloodsworn_at. destruct (m !! _); [by apply stored_ok, Bloodsworn_parse_ok|].
  intros [= <-]. by vm_compute.
Qed.

Definition proof_config_of (a : SetProofConfig.t) : ProofConfig.t :=
  ProofConfig.mk (SetProofConfig.RequireProof a) (SetProofConfig.RequiredProofType a)
    (SetProofConfig.BatchWindowMs a) (SetProofConfig.ProofDeadlineMs a)
    (SetProofConfig.ProverAuthority a).

Section standing.
Context {PF : Platform} {M : Type} {MU : Mutable M} {MS : MutableSpec M}.

Lemma GetBloodsworn_ok x b (s s' : M) :
  GetBloodsworn x s = (Ok b, s') -> s' = s /\ bloodsworn_at (contents s) x = Some b.
Proof.
  unfold GetBloodsworn, bloodsworn_at, stored. intros H. injection H as H <-. split; [done|].
  pose proof (GetValue_sound s (BloodswornKey x)) as Hs.
  pose proof (GetValue_error s (BloodswornKey x)) as He.
  destruct (GetValue s (BloodswornKey x)) as [v|e|]; [by rewrite Hs, H| |done].
  destruct (He e eq_refl) as [->|[c ->]]; cbn in H; [|done].
  rewrite (Hs eq_refl). by injection H as <-.
Qed.

Lemma set_proof_config_ok {PS : PlatformSpec} a ts actor tx out (s s' : M) :
  SetProofConfig.Execute a ts actor tx s = (Ok out, s') ->
  (exists gov, stored TreasuryConfig.parse (contents s) TreasuryConfigKey = Some gov /\
               actor = TreasuryConfig.Governance gov) /\
  ProofConfig.validateProofConfig (proof_config_of a) = Ok tt /\
  contents s' = <[ProofConfigKey := ProofConfig.encode (proof_config_of a)]> (contents s).
Proof.
  intros H. unfold SetProofConfig.Execute in H. go_inv. repeat store_step. repeat op_step.
  repeat match goal with u : unit |- _ => destruct u end. split_and!; eauto.
Qed.

Lemma BatchProofRecord_parse_error v : BatchProofRecord.parse v <> Err ErrProofNotFound.
Proof.
  unfold BatchProofRecord.parse, guard, obind. by repeat case_match; simplify_eq.
Qed.
End standing.

Section facts.
Context {PF : Platform} {PS : PlatformSpec} {TX : Text}.
Context {M : Type} {MU : Mutable M} {MS : MutableSpec M}.

Lemma check_proof_ok vc clk a cfg u (s s' : (M * zkMetricsCollector) * Locals) :
  ClearBatch.check_proof vc clk a cfg s = (Ok u, s') ->
  s'.1 = s.1 /\ proof_backs vc cfg a (contents s).
Proof.
  intros H. unfold ClearBatch.check_proof in H. go_inv.
  repeat first [late_step | store_step]. go_inv. split; [done|].
  unfold proof_backs. repeat match goal with r : unit |- _ => destruct r end.
  do 4 eexists. split_and!; try eassumption; try reflexivity; try lia; congruence.
Qed.

(** What a successful clear has checked and written. *)
Lemma clear_batch_ok vc clk a ts actor tx out (s s' : M * zkMetricsCollector) :
  ClearBatch.Execute vc clk a ts actor tx s = (Ok out, s') ->
  let id := ClearBatch.MarketID a in
  exists x cfg,
    market_at (contents s) id = Some x /\ Market.Status x = MarketStatusActive /\
    proof_config (contents s) = Some cfg /\
    ClearBatch.ClearPrice a <> 0 /\ len (ClearBatch.FillsHash a) = ExpectedFillsHashSize /\
    (ProofConfig.RequireProof cfg = true ->
     actor = ProofConfig.ProverAuthority cfg /\ proof_backs vc cfg a (contents s)) /\
    contents s' = <[BatchKey id (ClearBatch.WindowID a) :=
      be 8 (ClearBatch.ClearPrice a) ++ be 8 (ClearBatch.TotalVolume a)
      ++ ClearBatch.FillsHash a]> (contents s).
Proof.
  intros H. apply with_locals_run in H as (c' & l & H & _). unfold ClearBatch.body in H.
  go_inv. repeat store_step.
  unfold set_accepted in *. match goal with E : (Ok tt, _) = _ |- _ => injection E as _ E _ end.
  match goal with E : (if _ then _ else _) (s, _) = (Ok _, ?s1) |- _ =>
    assert (G' : s1.1 = s /\ (ProofConfig.RequireProof r5 = true ->
      actor = ProofConfig.ProverAuthority r5 /\ proof_backs vc r5 a (contents s))) end.
  { destruct (ProofConfig.RequireProof r5); go_inv; [|done].
    match goal with C : ClearBatch.check_proof _ _ _ _ _ = _ |- _ =>
      apply check_proof_ok in C as [-> C] end. done. }
  destruct s7 as [s1 l1]. cbn in G'. destruct G' as [-> G'].
  exists r3, r5. split_and!; try done.
  transitivity (contents s8); [|done]. destruct s8 as [[] ?]. cbn in E8 |- *.
  by injection E8 as -> _.
Qed.

(** The state an accepted proof leaves behind. *)
Definition submitted (a : SubmitBatchProof.t) (ts : Z) (actor : Address) (tx : ID)
    (b : Bloodsworn.t) (m : gmap bytes bytes) : gmap bytes bytes :=
  let id := SubmitBatchProof.MarketID a in
  let w := SubmitBatchProof.WindowID a in
  <[GlyphKey id w := Glyph.encode (new_glyph a ts actor tx)]>
    (<[BloodswornKey actor := Bloodsworn.encode (next_standing b ts)]>
      (<[VellumProofKey id w := VellumProof.encode (SubmitBatchProof.Proof a)]>
        (<[BatchProofKey id w := BatchProofRecord.encode (new_record a ts actor)]> m))).

Lemma accept_ok vc a cfg ts actor tx out (s s' : (M * zkMetricsCollector) * Locals) :
  SubmitBatchProof.accept vc a cfg ts actor tx s = (Ok out, s') ->
  verifyBatchProofInConsensus vc (ProofConfig.RequiredProofType cfg)
    (SubmitBatchProof.Proof a) (SubmitBatchProof.PublicInputsHash a) = Ok tt /\
  exists b, bloodsworn_at (contents s) actor = Some b /\
    contents s' = submitted a ts actor tx b (contents s).
Proof.
  intros H. unfold SubmitBatchProof.accept in H. go_inv.
  match goal with B : GetBloodsworn _ _ = _ |- _ => apply GetBloodsworn_ok in B as [-> B] end.
  repeat first [store_step | op_step]. repeat match goal with r : unit |- _ => destruct r end.
  split; [done|].
  match goal with B : bloodsworn_at _ _ = Some ?q |- _ => exists q end.
  repeat match goal with C : contents _ = _ |- _ => rewrite C in *; clear C end.
  split; [|done].
  match goal with B : bloodsworn_at _ _ = Some _ |- _ =>
    by rewrite !bloodsworn_at_insert_ne in B by key_ne end.
Qed.

Lemma submit_ok vc clk a ts actor tx out (s s' : M * zkMetricsCollector) :
  SubmitBatchProof.Execute vc clk a ts actor tx s = (Ok out, s') ->
  let id := SubmitBatchProof.MarketID a in
  let w := SubmitBatchProof.WindowID a in
  let close := SubmitBatchProof.WindowCloseAtMs a in
  exists x cfg b,
    market_at (contents s) id = Some x /\ Market.Status x = MarketStatusActive /\
    proof_config (contents s) = Some cfg /\ ProofConfig.RequireProof cfg = true /\
    actor = ProofConfig.ProverAuthority cfg /\
    SubmitBatchProof.ProofType a = ProofConfig.RequiredProofType cfg /\
    len (SubmitBatchProof.PublicInputsHash a) = 32 /\
    len (SubmitBatchProof.FillsHash a) = 32 /\
    0 < len (SubmitBatchProof.Proof a) <= MaxProofBytesSize /\
    0 < close /\ Z.rem close (ProofConfig.BatchWindowMs cfg) = 0 /\
    close <= ts <= deadline cfg close /\
    verifyBatchProofInConsensus vc (ProofConfig.RequiredProofType cfg)
      (SubmitBatchProof.Proof a) (SubmitBatchProof.PublicInputsHash a) = Ok tt /\
    contents s !! BatchProofKey id w = None /\
    bloodsworn_at (contents s) actor = Some b /\
    contents s' = submitted a ts actor tx b (contents s).
Proof.
  intros H. apply with_locals_run in H as (c' & l & H & _). unfold SubmitBatchProof.body in H.
  go_inv. repeat first [store_step | late_step].
  match goal with E : (if _ then panic else _) _ = _ |- _ =>
    destruct (_ =? 0) in E; [done|]; unfold ret in E; injection E as _ <- end.
  match goal with G : catch _ _ = _ |- _ => apply catch_ok in G; rename G into Hc end.
  match goal with r : (BatchProofRecord.t + Error)%type |- _ => destruct r as [q|e]; [done|] end.
  go_inv.
  match goal with G : errors_Is _ _ = true |- _ => apply bool_decide_eq_true in G as -> end.
  apply get_parsed_missed in Hc as [-> Hnone];
    [|apply BatchProofRecord_parse_error|done].
  apply accept_ok in H as (Hv & b & Hb & Hs'). bool_simpl.
  eexists _, _, b. cbv zeta. unfold deadline. split_and!; try eassumption; try done.
  { unfold len in *. lia. }
Qed.

(** ** A clear that is backed runs *)

Lemma bind_fail_if {S A} b e (k : unit -> ST S A) s :
  b = false -> bind (fail_if b e) k s = k tt s.
Proof. by intros ->. Qed.

Lemma check_proof_runs vc clk a cfg (s : (M * zkMetricsCollector) * Locals) :
  let id := ClearBatch.MarketID a in
  let w := ClearBatch.WindowID a in
  granted s (BatchProofKey id w) -> granted s (VellumProofKey id w) ->
  proof_backs vc cfg a (contents s) ->
  exists l, ClearBatch.check_proof vc clk a cfg s = (Ok tt, (s.1, l)).
Proof.
  intros id w G1 G2 (rec & payload & env & h & Hr & Hp & Hty & Hd & Hf & Hc & He & Hh & Hi & Hv).
  unfold ClearBatch.check_proof. erewrite bind_run by reflexivity.
  erewrite bind_run by (apply get_parsed_granted; [exact G1|exact Hr]).
  rewrite bind_fail_if by (rewrite Hty, Z.eqb_refl; done).
  unfold deadline in Hd. rewrite (proj2 (Z.ltb_ge _ _) Hd).
  erewrite bind_run by reflexivity.
  rewrite bind_fail_if by (by rewrite bool_decide_true).
  erewrite bind_run by (apply get_parsed_granted; [exact G2|exact Hp]).
  rewrite bind_fail_if by (by rewrite bool_decide_true).
  erewrite bind_run by (unfold lift; rewrite He; reflexivity).
  erewrite bind_run by (unfold lift; rewrite Hh; reflexivity).
  rewrite bind_fail_if by (by rewrite bool_decide_true).
  erewrite bind_run by (unfold lift; rewrite Hty, Hv; reflexivity).
  by eexists.
Qed.

(** The conditions under which a clear is accepted. *)
Definition clearable (vc : VerifierConfig) (a : ClearBatch.t) (actor : Address)
    (m : gmap bytes bytes) : Prop :=
  ClearBatch.ClearPrice a <> 0 /\ len (ClearBatch.FillsHash a) = ExpectedFillsHashSize /\
  (exists x, market_at m (ClearBatch.MarketID a) = Some x /\
             Market.Status x = MarketStatusActive) /\
  exists cfg, proof_config m = Some cfg /\
    (ProofConfig.RequireProof cfg = true ->
     actor = ProofConfig.ProverAuthority cfg /\ proof_backs vc cfg a m).

Lemma clear_batch_runs vc clk a ts actor tx (s : M * zkMetricsCollector) :
  let id := ClearBatch.MarketID a in
  let w := ClearBatch.WindowID a in
  Forall (granted s) [MarketKey id; ProofConfigKey; BatchProofKey id w; VellumProofKey id w;
                      BatchKey id w] ->
  clearable vc a actor (contents s) ->
  exists out s', ClearBatch.Execute vc clk a ts actor tx s = (Ok out, s').
Proof.
  intros id w HG (Hp & Hf & (x & Hx & Hst) & cfg & Hcfg & Hreq).
  rewrite !Forall_cons_iff in HG. destruct HG as (G1 & G2 & G3 & G4 & G5 & _).
  assert (Hbody : exists out l s1,
    ClearBatch.body vc clk a ts actor (s, locals0) = (Ok out, (s1, l))).
  { unfold ClearBatch.body, ExpectedFillsHashSize in *.
    rewrite !bind_fail_if by (cbn; rewrite ?Hf; by apply Z.eqb_neq || done).
    erewrite bind_run by (apply get_parsed_granted; [exact G1|exact Hx]).
    rewrite bind_fail_if by (rewrite Hst; done).
    erewrite bind_run by (apply get_parsed_granted; [exact G2|exact Hcfg]).
    assert (Hgate : exists l, (if ProofConfig.RequireProof cfg then
       fail_if (negb (bool_decide (actor = ProofConfig.ProverAuthority cfg)))
               ErrUnauthorized ;;;
       ClearBatch.check_proof vc clk a cfg
     else ret tt) (s, locals0) = (Ok tt, (s, l))).
    { destruct (ProofConfig.RequireProof cfg); [|by eexists].
      destruct Hreq as [Ha Hb]; [done|]. rewrite bind_fail_if by (by rewrite bool_decide_true).
      by apply check_proof_runs. }
    destruct Hgate as [l Hl]. erewrite bind_run by exact Hl.
    destruct (put_granted (BatchKey id w)
      (be 8 (ClearBatch.ClearPrice a) ++ be 8 (ClearBatch.TotalVolume a)
       ++ ClearBatch.FillsHash a) (s, l)) as ([s1 l1] & Hput & _); [done| |].
    { chunks. unfold len in Hf. rewrite !length_app, !length_be.
      unfold ExpectedFillsHashSize, BatchChunks in *. lia. }
    erewrite bind_run by exact Hput. by do 3 eexists. }
  destruct Hbody as (out & l & [m c] & Hb). unfold ClearBatch.Execute, with_locals.
  rewrite Hb. by do 2 eexists.
Qed.

(** What an accepted clear returns. *)
Lemma clear_batch_output vc clk a ts actor tx out (s s' : M * zkMetricsCollector) :
  ClearBatch.Execute vc clk a ts actor tx s = (Ok out, s') ->
  out = ClearBatch.ResultBytes
          (ClearBatch.Result.mk (ClearBatch.ClearPrice a) (ClearBatch.TotalVolume a)).
Proof.
  intros H. apply with_locals_run in H as (c' & l & H & _). unfold ClearBatch.body in H.
  by go_inv.
Qed.

(** C2: a clear of a batch is accepted exactly when its arguments are well
    formed, its market is active and, in proof-gated mode, the caller is the
    prover authority and the proof recorded for that window is of the required
    type, in time, for the same fills, stored unaltered, commits to this very
    price, volume and fills, and passes the verifier. An accepted clear returns
    its price and volume and writes them, with the fills hash, in the cell of its
    window and nothing else. *)
Theorem clear_batch_iff vc clk a ts actor tx (s : M * zkMetricsCollector) :
  let id := ClearBatch.MarketID a in
  let w := ClearBatch.WindowID a in
  Forall (granted s) [MarketKey id; ProofConfigKey; BatchProofKey id w; VellumProofKey id w;
                      BatchKey id w] ->
  ((exists out s', ClearBatch.Execute vc clk a ts actor tx s = (Ok out, s')) <->
   clearable vc a actor (contents s)) /\
  forall out s', ClearBatch.Execute vc clk a ts actor tx s = (Ok out, s') ->
    out = ClearBatch.ResultBytes
            (ClearBatch.Result.mk (ClearBatch.ClearPrice a) (ClearBatch.TotalVolume a)) /\
    contents s' = <[BatchKey id w := be 8 (ClearBatch.ClearPrice a)
      ++ be 8 (ClearBatch.TotalVolume a) ++ ClearBatch.FillsHash a]> (contents s).
Proof.
  intros id w HG. split; [split; [|by apply clear_batch_runs]|].
  - intros (out & s' & H).
    apply clear_batch_ok in H as (x & cfg & ? & ? & ? & ? & ? & ? & _).
    unfold clearable. eauto 10.
  - intros out s' H. split; [by eapply clear_batch_output|].
    by apply clear_batch_ok in H as (x & cfg & _ & _ & _ & _ & _ & _ & E).
Qed.

Lemma submitted_reads a ts actor tx b m :
  let id := SubmitBatchProof.MarketID a in
  let w := SubmitBatchProof.WindowID a in
  s_ok a -> i64 ts -> Bloodsworn.ok b ->
  len (SubmitBatchProof.PublicInputsHash a) = 32 ->
  len (SubmitBatchProof.FillsHash a) = 32 ->
  0 < len (SubmitBatchProof.Proof a) <= MaxProofBytesSize ->
  let m' := submitted a ts actor tx b m in
  proof_record m' id w = Some (new_record a ts actor) /\
  proof_payload m' id w = Some (SubmitBatchProof.Proof a) /\
  bloodsworn_at m' actor = Some (next_standing b ts) /\
  glyph_at m' id w = Some (new_glyph a ts actor tx).
Proof.
  intros id w Ha Hts Hb Hp Hf Hl m'. subst m'. cbn in Ha. destruct_and?.
  unfold submitted, proof_record, proof_payload, bloodsworn_at, glyph_at.
  split_and!.
  - rewrite !stored_insert_ne by key_ne. apply stored_insert_eq, BatchProofRecord_roundtrip.
    + by split_and!.
    + unfold BatchProofRecord.check. cbn. by rewrite Hp, Hf.
  - rewrite !stored_insert_ne by key_ne. apply stored_insert_eq, VellumProof_roundtrip.
    apply guard_false. apply orb_false_iff. unfold maxVellumProofBytes, MaxProofBytesSize in *.
    lia.
  - rewrite lookup_insert_ne by key_ne. rewrite lookup_insert_eq.
    rewrite stored_insert_ne by key_ne. apply stored_insert_eq, Bloodsworn_roundtrip.
    destruct Hb as (? & ? & ? & ?). by split_and!; try apply wrap_u64_range.
  - apply stored_insert_eq, Glyph_roundtrip. split_and!; [| |done].
    + pose proof (deriveGlyphClass_range (Glyph.Entropy (new_glyph a ts actor tx))).
      unfold u8. cbn in *. lia.
    + pose proof (deriveGlyphRarity_range (Glyph.Entropy (new_glyph a ts actor tx))).
      unfold u8. cbn in *. lia.
Qed.

(** C9: a proof is accepted only for an active market and a window whose proof
    cell is empty, from the prover authority in proof-gated mode, of the required
    type, for a window that closes on the grid of the batch windows, between its
    close and the deadline, and only if the verifier accepts it; the record, the
    payload, the prover's standing with both counters advanced and the glyph can
    then be read back, and no submission for that window is accepted in the
    resulting state. *)
Theorem submit_once vc clk a ts actor tx out (s s' : M * zkMetricsCollector) :
  let id := SubmitBatchProof.MarketID a in
  let w := SubmitBatchProof.WindowID a in
  let close := SubmitBatchProof.WindowCloseAtMs a in
  s_ok a -> i64 ts -> SubmitBatchProof.Execute vc clk a ts actor tx s = (Ok out, s') ->
  contents s !! BatchProofKey id w = None /\
  (exists x, market_at (contents s) id = Some x /\ Market.Status x = MarketStatusActive) /\
  (exists cfg, proof_config (contents s) = Some cfg /\ ProofConfig.RequireProof cfg = true /\
     actor = ProofConfig.ProverAuthority cfg /\
     SubmitBatchProof.ProofType a = ProofConfig.RequiredProofType cfg /\
     Z.rem close (ProofConfig.BatchWindowMs cfg) = 0 /\ close <= ts <= deadline cfg close /\
     verifyBatchProofInConsensus vc (ProofConfig.RequiredProofType cfg)
       (SubmitBatchProof.Proof a) (SubmitBatchProof.PublicInputsHash a) = Ok tt) /\
  proof_record (contents s') id w = Some (new_record a ts actor) /\
  proof_payload (contents s') id w = Some (SubmitBatchProof.Proof a) /\
  (exists b, bloodsworn_at (contents s) actor = Some b /\
             bloodsworn_at (contents s') actor = Some (next_standing b ts)) /\
  glyph_at (contents s') id w = Some (new_glyph a ts actor tx) /\
  forall vc2 clk2 a2 ts2 actor2 tx2 out2 (t t' : M * zkMetricsCollector),
    contents t = contents s' -> SubmitBatchProof.MarketID a2 = id ->
    SubmitBatchProof.WindowID a2 = w ->
    SubmitBatchProof.Execute vc2 clk2 a2 ts2 actor2 tx2 t <> (Ok out2, t').
Proof.
  cbv zeta. intros Ha Hts H.
  apply submit_ok in H
    as (x & cfg & b & ? & ? & ? & ? & ? & ? & ? & ? & ? & ? & ? & ? & ? & ? & Hb & Hs').
  destruct (submitted_reads a ts actor tx b (contents s)) as (R1 & R2 & R3 & R4);
    [done|done|by eapply bloodsworn_ok|done..|].
  rewrite <- Hs' in *. split_and!; [done|by exists x|by exists cfg|done|done|by exists b|done|].
  intros vc2 clk2 a2 ts2 actor2 tx2 out2 t t' Ht Hid Hw
    (? & ? & ? & ? & ? & ? & ? & ? & ? & ? & ? & ? & ? & ? & ? & ? & Hnone & _)%submit_ok.
  rewrite Ht, Hid, Hw in Hnone. unfold proof_record, stored in R1. by rewrite Hnone in R1.
Qed.

(** C10: once the prover's proof for a window is accepted, the prover's clear
    of that window for the price, volume and fills the proof commits to
    succeeds, whenever it comes, and writes the batch result. *)
Theorem submit_then_clear vc clk a ts actor tx out (s s' : M * zkMetricsCollector)
    env h price volume clk' ts' tx' :
  let id := SubmitBatchProof.MarketID a in
  let w := SubmitBatchProof.WindowID a in
  let fills := SubmitBatchProof.FillsHash a in
  s_ok a -> i64 ts -> SubmitBatchProof.Execute vc clk a ts actor tx s = (Ok out, s') ->
  parseProofEnvelope (SubmitBatchProof.Proof a) = Ok env ->
  price <> 0 ->
  ClearBatch.computeExpectedPublicInputsHash (env_circuitID env) id w price volume fills
    = Ok h ->
  SubmitBatchProof.PublicInputsHash a = array_bytes h ->
  Forall (granted s') [MarketKey id; ProofConfigKey; BatchProofKey id w; VellumProofKey id w;
                       BatchKey id w] ->
  let c := ClearBatch.mk id w price volume fills in
  exists out' s'', ClearBatch.Execute vc clk' c ts' actor tx' s' = (Ok out', s'') /\
    contents s'' = <[BatchKey id w := be 8 price ++ be 8 volume ++ fills]> (contents s').
Proof.
  cbv zeta. intros Ha Hts H He Hp Hh Hi HG.
  apply submit_ok in H as (x & cfg & b & Hx & Hst & Hcfg & Hreq & Hact & Hty & Hl & Hf & Hlp
    & _ & _ & Ht & Hv & _ & Hb & Hs').
  destruct (submitted_reads a ts actor tx b (contents s)) as (R1 & R2 & _);
    [done|done|by eapply bloodsworn_ok|done..|].
  assert (Hm : market_at (contents s') (SubmitBatchProof.MarketID a) = Some x /\
               proof_config (contents s') = Some cfg).
  { rewrite Hs'. unfold submitted, market_at, proof_config.
    by rewrite !stored_insert_ne by key_ne. }
  rewrite <- Hs' in R1, R2. destruct Hm as [Hm Hpc].
  destruct (clear_batch_runs vc clk' (ClearBatch.mk (SubmitBatchProof.MarketID a)
    (SubmitBatchProof.WindowID a) price volume (SubmitBatchProof.FillsHash a)) ts' actor tx' s')
    as (out' & s'' & Hrun).
  - done.
  - unfold clearable. cbn. split_and!; [done|done|by exists x|].
    exists cfg. split; [done|]. intros _. split; [done|].
    exists (new_record a ts actor), (SubmitBatchProof.Proof a), env, h. cbn.
    rewrite <- Hi. split_and!; try done; lia.
  - exists out', s''. split; [done|].
    apply clear_batch_ok in Hrun as (? & ? & _ & _ & _ & _ & _ & _ & Hrun).
    done.
Qed.
End facts.

(** ** Evaluations *)

Module Samples.
Definition prover : Address := addr 7.
Definition id : ID := mkt 1.
Definition cfg : ProofConfig.t := ProofConfig.mk true 1 1000 5000 prover.
Definition active : Market.t := Market.mk MarketStatusActive 2 99 0 [x41].
Definition fills : bytes := replicate 32 x05.
Definition payload : bytes :=
  match BuildProofEnvelope 1 (replicate 5 x07) (replicate 3 x09) with Ok b => b | _ => [] end.
Definition inputs : Hash := ComputeClearPublicInputsHash id 4 60 10 fills.
(** A verifier that looks at its arguments. *)
Definition checker : BatchProofVerifier := fun ty _ proof hash _ =>
  if (ty =? 1) && bool_decide (proof = replicate 5 x07)
  then Ok tt else Err ErrProofVerificationFailed.
Definition vc : VerifierConfig := mk_verifier (Some checker) true.
Definition clk : Clock := mk_clock 1000 2000 3000.
Definition submit : SubmitBatchProof.t :=
  SubmitBatchProof.mk id 4 2000 1 inputs fills payload.
Definition clear : ClearBatch.t := ClearBatch.mk id 4 60 10 fills.
Definition start : Store * zkMetricsCollector :=
  (cells [(MarketKey id, Market.encode active); (ProofConfigKey, ProofConfig.encode cfg)],
   newZKMetricsCollector 10).
#[export] Instance text : Text :=
  {| ids_String i := String.string_of_list_byte (array_bytes i); err_Error _ := String.EmptyString |}.
Definition run_submit := SubmitBatchProof.Execute vc clk submit 3000 prover no_tx.
Definition after : Store * zkMetricsCollector := final run_submit start.
Definition run_clear := ClearBatch.Execute vc clk clear 9000 prover no_tx.
End Samples.
Import Samples.

(** The prover submits: the run both witnesses start from. *)
Lemma submit_runs : exists out, run_submit start = (Ok out, after).
Proof.
  assert (H : succeeds run_submit start = true) by (vm_compute; reflexivity).
  exact (run_succeeds run_submit start H).
Qed.

Lemma submit_once_witness :
  contents start !! BatchProofKey id 4 = None /\
  proof_record (contents after) id 4 = Some (new_record submit 3000 prover).
Proof.
  assert (Ha : s_ok submit) by eval_ok. assert (Ht : i64 3000) by eval_ok.
  destruct submit_runs as [out Hrun].
  destruct (submit_once vc clk submit 3000 prover no_tx out start after Ha Ht Hrun)
    as (Hn & _ & _ & H & _).
  exact (conj Hn H).
Defined.

Lemma submit_then_clear_witness : exists out' s'',
  run_clear after = (Ok out', s'') /\
  contents s'' = <[BatchKey id 4 := be 8 60 ++ be 8 10 ++ fills]> (contents after).
Proof.
  assert (Ha : s_ok submit) by eval_ok. assert (Ht : i64 3000) by eval_ok.
  assert (He : parseProofEnvelope payload
    = Ok (mk_envelope 1 [] (replicate 5 x07) (replicate 3 x09) true)) by eval_ok.
  assert (Hp : 60 <> 0) by lia. destruct submit_runs as [out Hrun].
  refine (submit_then_clear vc clk submit 3000 prover no_tx out start after _ inputs 60 10 clk 9000
            no_tx Ha Ht Hrun He Hp eq_refl eq_refl _).
  repeat (apply Forall_cons_2; [exact I|]). apply Forall_nil_2.
Defined.

Lemma clear_batch_iff_witness :
  clearable vc clear prover (contents after) /\
  exists s', run_clear after = (Ok (ClearBatch.ResultBytes (ClearBatch.Result.mk 60 10)), s') /\
    contents s' = <[BatchKey id 4 := be 8 60 ++ be 8 10 ++ fills]> (contents after).
Proof.
  assert (HG : Forall (granted after) [MarketKey id; ProofConfigKey; BatchProofKey id 4;
    VellumProofKey id 4; BatchKey id 4]).
  { repeat (apply Forall_cons_2; [exact I|]). apply Forall_nil_2. }
  destruct (clear_batch_iff vc clk clear 9000 prover no_tx after HG) as [Hiff Hout].
  destruct (run_succeeds run_clear after) as [out Hrun]; [by vm_compute|].
  split; [apply Hiff; eauto|]. destruct (Hout _ _ Hrun) as [-> Hs].
  exact (ex_intro _ _ (conj Hrun Hs)).
Defined.
