(* ===== verification/Genesis.v ===== *)
(** * The genesis state ([genesis/genesis.go])

    Loading a genesis file, the defaults of its tokenomics section, their
    validation, and the records it writes into an empty chain. The rules, the
    JSON decoder and the base genesis of the platform, which credits the custom
    allocations, are parameters. *)
From S2P Require Import Prelude Errors Go Platform Storage Balance.

(** [hypersdk/genesis.CustomAllocation]; the file gives pointers to it. *)
Record CustomAllocation := mk_alloc { alloc_Address : Address; alloc_Balance : Z }.

(** Reading through a pointer that may be nil. *)
Definition deref {A} (p : option A) : Outcome A := match p with Some a => Ok a | None => Panic end.

Module Tokenomics.
Record t := mk {
  TotalSupply : Z;
  Governance : Address; Operations : Address; MintAuthority : Address;
  COLVaultLocked : Z; COLVaultLive : Z;
  MaxReleaseBips : Z; ReleaseEpochSeconds : Z;
  FeeRouterMSRBBips : Z; FeeRouterCOLBips : Z; FeeRouterOpsBips : Z;
  VAIDebtCeiling : Z; VAIEpochMintLimit : Z; VAIMintEpochSeconds : Z;
  BackingFloorBips : Z;
  VEILLtvBips : Z; WVEILLtvBips : Z; WSVEILLtvBips : Z;
  VEILHaircutBips : Z; WVEILHaircutBips : Z; WSVEILHaircutBips : Z;
  ExogenousReserveInit : Z; VAIBufferInit : Z;
  RequireBatchProof : bool; RequiredProofType : Z; BatchWindowMs : Z; ProofDeadlineMs : Z;
  ProverAuthority : Address
}.

(** The ranges of the fields' Go types. *)
Definition ok (t : t) : Prop :=
  u64 (TotalSupply t) /\ u64 (COLVaultLocked t) /\ u64 (COLVaultLive t) /\
  u16 (MaxReleaseBips t) /\ i64 (ReleaseEpochSeconds t) /\
  u16 (FeeRouterMSRBBips t) /\ u16 (FeeRouterCOLBips t) /\ u16 (FeeRouterOpsBips t) /\
  u64 (VAIDebtCeiling t) /\ u64 (VAIEpochMintLimit t) /\ i64 (VAIMintEpochSeconds t) /\
  u32 (BackingFloorBips t) /\
  u16 (VEILLtvBips t) /\ u16 (WVEILLtvBips t) /\ u16 (WSVEILLtvBips t) /\
  u16 (VEILHaircutBips t) /\ u16 (WVEILHaircutBips t) /\ u16 (WSVEILHaircutBips t) /\
  u64 (ExogenousReserveInit t) /\ u64 (VAIBufferInit t) /\
  u8 (RequiredProofType t) /\ i64 (BatchWindowMs t) /\ i64 (ProofDeadlineMs t).
End Tokenomics.

Module Genesis.
Record t (Rules : Type) := mk {
  StateBranchFactor : Z;
  CustomAllocations : list (option CustomAllocation);
  GRules : option Rules;
  GTokenomics : option Tokenomics.t
}.
Arguments mk {_} _ _ _ _.
Arguments StateBranchFactor {_} _.
Arguments CustomAllocations {_} _.
Arguments GRules {_} _.
Arguments GTokenomics {_} _.

Definition GetStateBranchFactor {Rules} (g : t Rules) : Z := StateBranchFactor g.
End Genesis.

(** ** Defaults *)

(** [if x == 0 { x = d }] *)
Definition or_default (x d : Z) : Z := if x =? 0 then d else x.
Definition or_address (a d : Address) : Address :=
  if bool_decide (a = zero_array 33) then d else a.

(** The assignments of [applyTokenomicsDefaults]; [first] is the address of the
    first allocation, when there is one. *)
Definition tokenomics_defaults (first : option Address) (x : Tokenomics.t) : Tokenomics.t :=
  let or_first a := match first with Some d => or_address a d | None => a end in
  let governance := or_first (Tokenomics.Governance x) in
  let no_fees := (Tokenomics.FeeRouterMSRBBips x =? 0) && (Tokenomics.FeeRouterCOLBips x =? 0)
                 && (Tokenomics.FeeRouterOpsBips x =? 0) in
  let no_proof := Tokenomics.RequiredProofType x =? 0 in
  Tokenomics.mk
    (Tokenomics.TotalSupply x)
    governance (or_first (Tokenomics.Operations x)) (or_first (Tokenomics.MintAuthority x))
    (Tokenomics.COLVaultLocked x) (Tokenomics.COLVaultLive x)
    (or_default (Tokenomics.MaxReleaseBips x) 15)
    (or_default (Tokenomics.ReleaseEpochSeconds x) 86400)
    (if no_fees then 7000 else Tokenomics.FeeRouterMSRBBips x)
    (if no_fees then 2000 else Tokenomics.FeeRouterCOLBips x)
    (if no_fees then 1000 else Tokenomics.FeeRouterOpsBips x)
    (Tokenomics.VAIDebtCeiling x)
    (or_default (Tokenomics.VAIEpochMintLimit x) (Tokenomics.VAIDebtCeiling x))
    (or_default (Tokenomics.VAIMintEpochSeconds x) 3600)
    (or_default (Tokenomics.BackingFloorBips x) 10000)
    (or_default (Tokenomics.VEILLtvBips x) 3000)
    (or_default (Tokenomics.WVEILLtvBips x) 3500)
    0
    (or_default (Tokenomics.VEILHaircutBips x) 6000)
    (or_default (Tokenomics.WVEILHaircutBips x) 5500)
    (or_default (Tokenomics.WSVEILHaircutBips x) 10000)
    (or_default (Tokenomics.ExogenousReserveInit x) (Tokenomics.VAIDebtCeiling x))
    (Tokenomics.VAIBufferInit x)
    (no_proof || Tokenomics.RequireBatchProof x)
    (if no_proof then ProofTypeGroth16 else Tokenomics.RequiredProofType x)
    (or_default (Tokenomics.BatchWindowMs x) 5000)
    (or_default (Tokenomics.ProofDeadlineMs x) 10000)
    (or_address (Tokenomics.ProverAuthority x) governance).

Definition applyTokenomicsDefaults {Rules} (g : Genesis.t Rules) : Outcome (Genesis.t Rules) :=
  match Genesis.GTokenomics g with
  | None => Ok g
  | Some x =>
      let? first := match Genesis.CustomAllocations g with
                    | [] => Ok None
                    | p :: _ => let? a := deref p in Ok (Some (alloc_Address a))
                    end in
      Ok (Genesis.mk (Genesis.StateBranchFactor g) (Genesis.CustomAllocations g)
                     (Genesis.GRules g) (Some (tokenomics_defaults first x)))
  end.

(** ** Validation *)

Section genesis.
Context {PF : Platform}.

(** The loop over the allocations, from a running sum. *)
Fixpoint sum_allocations (acc : Z) (allocs : list (option CustomAllocation)) : Outcome Z :=
  match allocs with
  | [] => Ok acc
  | p :: rest =>
      let? alloc := deref p in
      let? next := smath_Add acc (alloc_Balance alloc) in
      sum_allocations next rest
  end.

Definition validateTokenomics (allocs : list (option CustomAllocation))
    (t : option Tokenomics.t) : Outcome unit :=
  match t with
  | None => Ok tt
  | Some x =>
      let? _ := guard (Tokenomics.ReleaseEpochSeconds x <=? 0) ErrInvalidTokenomicsConfig in
      let? _ := guard ((Tokenomics.MaxReleaseBips x =? 0)
                       || (bipsDenominator <? Tokenomics.MaxReleaseBips x))
                      ErrInvalidTokenomicsConfig in
      let? _ := guard (Tokenomics.VAIMintEpochSeconds x <=? 0) ErrInvalidTokenomicsConfig in
      let? _ := guard (Tokenomics.VAIDebtCeiling x =? 0) ErrInvalidTokenomicsConfig in
      let? _ := guard ((Tokenomics.VAIEpochMintLimit x =? 0)
                       || (Tokenomics.VAIDebtCeiling x <? Tokenomics.VAIEpochMintLimit x))
                      ErrInvalidTokenomicsConfig in
      let? _ := guard (Tokenomics.BackingFloorBips x =? 0) ErrInvalidRiskConfig in
      let? _ := guard (negb (Tokenomics.WSVEILLtvBips x =? 0)) ErrInvalidRiskConfig in
      let? _ := guard ((bipsDenominator <? Tokenomics.VEILLtvBips x)
                       || (bipsDenominator <? Tokenomics.WVEILLtvBips x)
                       || (bipsDenominator <? Tokenomics.WSVEILLtvBips x))
                      ErrInvalidRiskConfig in
      let? _ := guard ((bipsDenominator <? Tokenomics.VEILHaircutBips x)
                       || (bipsDenominator <? Tokenomics.WVEILHaircutBips x)
                       || (bipsDenominator <? Tokenomics.WSVEILHaircutBips x))
                      ErrInvalidRiskConfig in
      let? _ := guard (negb (Tokenomics.RequiredProofType x =? ProofTypeGroth16)
                       && negb (Tokenomics.RequiredProofType x =? ProofTypePlonk))
                      ErrInvalidProofConfig in
      let? _ := guard ((Tokenomics.BatchWindowMs x <=? 0)
                       || (Tokenomics.ProofDeadlineMs x <=? 0)) ErrInvalidProofConfig in
      let? _ := guard (bool_decide (Tokenomics.ProverAuthority x = zero_array 33))
                      ErrInvalidProofConfig in
      let feeSum := Tokenomics.FeeRouterMSRBBips x + Tokenomics.FeeRouterCOLBips x
                    + Tokenomics.FeeRouterOpsBips x in
      let? _ := guard (negb (feeSum =? bipsDenominator)) ErrInvalidFeeRouterConfig in
      let? allocSum := sum_allocations 0 allocs in
      let? total := smath_Add allocSum (Tokenomics.COLVaultLocked x) in
      let? total := smath_Add total (Tokenomics.COLVaultLive x) in
      guard (negb (Tokenomics.TotalSupply x =? 0) && negb (total =? Tokenomics.TotalSupply x))
            ErrInvalidTokenomicsConfig
  end.

(** ** The base genesis of the platform *)

Context {M : Type} {MU : Mutable M}.

(** Credit the allocations, in order, through the balance handler. *)
Fixpoint credit (allocs : list (option CustomAllocation)) : ST M unit :=
  match allocs with
  | [] => ret tt
  | p :: rest =>
      let* alloc := lift (deref p) in
      BalanceHandler.AddBalance (alloc_Address alloc) (alloc_Balance alloc) ;;;
      credit rest
  end.

(** [hypersdk/genesis.DefaultGenesis.InitializeState], as documented: when it
    succeeds it has credited the allocations. *)
Class DefaultGenesis (Rules : Type) : Type := {
  base_InitializeState : Z -> list (option CustomAllocation) -> option Rules -> ST M unit;
  base_credits bf allocs rules s s' :
    base_InitializeState bf allocs rules s = (Ok tt, s') -> credit allocs s = (Ok tt, s')
}.

Definition InitializeState {Rules} `{!DefaultGenesis Rules} (g : Genesis.t Rules) : ST M unit :=
  base_InitializeState (Genesis.StateBranchFactor g) (Genesis.CustomAllocations g)
                       (Genesis.GRules g) ;;;
  match Genesis.GTokenomics g with
  | None => ret tt
  | Some x =>
      lift (validateTokenomics (Genesis.CustomAllocations g) (Some x)) ;;;
      PutTreasuryConfig
        (TreasuryConfig.mk (Tokenomics.Governance x) (Tokenomics.Operations x)
           (Tokenomics.MaxReleaseBips x) (Tokenomics.ReleaseEpochSeconds x)) ;;;
      PutTreasuryState
        (TreasuryState.mk (Tokenomics.COLVaultLocked x) (Tokenomics.COLVaultLive x) 0 0) ;;;
      PutFeeRouterConfig
        (FeeRouterConfig.mk (Tokenomics.FeeRouterMSRBBips x) (Tokenomics.FeeRouterCOLBips x)
           (Tokenomics.FeeRouterOpsBips x)) ;;;
      PutFeeRouterState (FeeRouterState.mk 0 0 0) ;;;
      PutVAIConfig
        (VAIConfig.mk (Tokenomics.MintAuthority x) (Tokenomics.VAIDebtCeiling x)
           (Tokenomics.VAIEpochMintLimit x) (Tokenomics.VAIMintEpochSeconds x)) ;;;
      PutVAIState (VAIState.mk 0 0 0) ;;;
      PutRiskConfig
        (RiskConfig.mk (Tokenomics.BackingFloorBips x) (Tokenomics.VEILLtvBips x)
           (Tokenomics.WVEILLtvBips x) (Tokenomics.WSVEILLtvBips x)
           (Tokenomics.VEILHaircutBips x) (Tokenomics.WVEILHaircutBips x)
           (Tokenomics.WSVEILHaircutBips x)) ;;;
      PutReserveState
        (ReserveState.mk (Tokenomics.ExogenousReserveInit x) (Tokenomics.VAIBufferInit x)) ;;;
      PutProofConfig
        (ProofConfig.mk (Tokenomics.RequireBatchProof x) (Tokenomics.RequiredProofType x)
           (Tokenomics.BatchWindowMs x) (Tokenomics.ProofDeadlineMs x)
           (Tokenomics.ProverAuthority x))
  end.
End genesis.

(** ** Loading *)

(** What [Load] uses of the JSON decoder and of the platform's packages. *)
Class GenesisFile (Rules : Type) : Type := {
  json_Unmarshal : bytes -> Outcome (Genesis.t Rules);
  BranchFactor16 : Z;
  NewDefaultRules : Rules;
  (* [g.Rules.NetworkID = networkID; g.Rules.ChainID = chainID] *)
  set_network : Z -> ID -> Rules -> Rules
}.

(** The genesis, and the rules the returned rule factory hands out. *)
Definition Load {Rules} `{!GenesisFile Rules} (genesisBytes _upgradeBytes : bytes)
    (networkID : Z) (chainID : ID) : Outcome (Genesis.t Rules * Rules) :=
  let? g := json_Unmarshal genesisBytes in
  let branch := or_default (Genesis.StateBranchFactor g) BranchFactor16 in
  let rules := set_network networkID chainID
                 (match Genesis.GRules g with Some r => r | None => NewDefaultRules end) in
  let? g := applyTokenomicsDefaults
              (Genesis.mk branch (Genesis.CustomAllocations g) (Some rules)
                          (Genesis.GTokenomics g)) in
  Ok (g, rules).
