(* ===== verification/Server.v ===== *)
(** * The JSON-RPC server ([vm/server.go])

    Every method reads the chain state, copies what it found into a reply and,
    for [Reserve] and [Bloodsworn], computes figures from it; the metrics
    methods act on the collector. A method that fails leaves its reply unused.
    Tracing and the HTTP layer of the platform are left out. *)
From stdpp Require Import strings.
From S2P Require Import Prelude Errors Go Platform Storage Balance ProofEnvelope Metrics Genesis.

(** What the server asks of the VM: the reader of single keys, a view of the
    state, and the genesis. *)
Record VM (M Rules : Type) := mk_vm {
  vm_ReadState : ReadState;
  vm_ImmutableState : Outcome M;
  vm_Genesis : Genesis.t Rules
}.
Arguments mk_vm {_ _} _ _ _.
Arguments vm_ReadState {_ _} _.
Arguments vm_ImmutableState {_ _} _.
Arguments vm_Genesis {_ _} _.

Module MarketReply.
Record t := mk { Status : Z; Outcomes : Z; ResolutionTime : Z; ResolvedOutcome : Z;
                 Question : bytes }.
End MarketReply.

Module PoolReply.
Record t := mk { Asset0 : Z; Asset1 : Z; FeeBips : Z; Reserve0 : Z; Reserve1 : Z;
                 TotalLP : Z }.
End PoolReply.

Module VAIStateReply.
Record t := mk { DebtCeiling : Z; EpochMintLimit : Z; MintEpochSeconds : Z;
                 MintAuthority : Address; TotalDebt : Z; EpochStartUnix : Z;
                 EpochMinted : Z }.
End VAIStateReply.

Module TreasuryReply.
Record t := mk { Governance : Address; Operations : Address; MaxReleaseBips : Z;
                 ReleaseEpochSeconds : Z; Locked : Z; Live : Z; Released : Z;
                 LastReleaseUnix : Z }.
End TreasuryReply.

Module FeeRouterReply.
Record t := mk { MSRBBips : Z; COLBips : Z; OpsBips : Z; MSRBBudget : Z; COLBudget : Z;
                 OpsBudget : Z }.
End FeeRouterReply.

Module RiskReply.
Record t := mk { BackingFloorBips : Z; VEILLtvBips : Z; WVEILLtvBips : Z;
                 WSVEILLtvBips : Z; VEILHaircutBips : Z; WVEILHaircutBips : Z;
                 WSVEILHaircutBips : Z }.
End RiskReply.

Module ReserveReply.
Record t := mk { ExogenousReserve : Z; VAIBuffer : Z; TotalDebt : Z; BackingFloorBips : Z;
                 BackingRatioBips : Z; MeetsFloor : bool }.
End ReserveReply.

Module ProofConfigReply.
Record t := mk { RequireProof : bool; RequiredProofType : Z; BatchWindowMs : Z;
                 ProofDeadlineMs : Z; ProverAuthority : Address }.
End ProofConfigReply.

Module BatchProofReply.
Record t := mk { ProofType : Z; SubmittedAtMs : Z; WindowCloseAtMs : Z; Prover : Address;
                 ProofCommitment : bytes; PublicInputsHash : bytes; FillsHash : bytes }.
End BatchProofReply.

Module VellumProofReply.
Record t := mk { Proof : bytes; Size : Z }.
End VellumProofReply.

Module BloodswornReply.
Record t := mk { TotalAcceptedProofs : Z; ActiveStreak : Z; LastProofAtMs : Z;
                 ScarCount : Z; TrustBips : Z; TrustTier : string }.
End BloodswornReply.

Module GlyphReply.
Record t := mk { Class : Z; Rarity : Z; CreatedAtMs : Z; Prover : Address;
                 ProofCommitment : bytes; PublicInputsHash : bytes; Entropy : bytes }.
End GlyphReply.

(** ** The trust score *)

(** The score, with the [uint64] products wrapped. *)
Definition trust_score (b : Bloodsworn.t) : Z :=
  let proofBoost := Z.min (wrap_u64 (Bloodsworn.TotalAcceptedProofs b * 15)) 3500 in
  let streakBoost := Z.min (wrap_u64 (Bloodsworn.ActiveStreak b * 25)) 1500 in
  let penalty := Bloodsworn.ScarCount b * 700 in
  let score := 5000 + proofBoost + streakBoost in
  let score := if score <=? penalty then 0 else score - penalty in
  if 10000 <? score then 10000 else score.

Definition scoreBloodswornTrust (b : Bloodsworn.t) : Z * string :=
  if Bloodsworn.TotalAcceptedProofs b =? 0 then (0, "Unproven")
  else
    let score := trust_score b in
    if 9000 <=? score then (score, "Mythic")
    else if 7500 <=? score then (score, "Legend")
    else if 6000 <=? score then (score, "Proven")
    else if 4000 <=? score then (score, "Rising")
    else if 0 <? score then (score, "Fragile")
    else (0, "Unproven").

(** ** Methods on the chain state *)

Module JSONRPCServer.
Section server.
Context {PF : Platform} {M : Type} {MU : Mutable M} {Rules : Type}.
Implicit Types (j : VM M Rules).

(** [im, err := j.vm.ImmutableState(ctx)], then the getters on it. *)
Definition on_state {A} j (c : ST M A) : Outcome A :=
  let? im := vm_ImmutableState j in (c im).1.

Definition Genesis j : Genesis.t Rules := vm_Genesis j.

Definition Balance j (addr : Address) : Outcome Z := GetBalanceFromState (vm_ReadState j) addr.

Definition Market j (marketID : ID) : Outcome MarketReply.t :=
  let? m := GetMarketFromState (vm_ReadState j) marketID in
  Ok (MarketReply.mk (Market.Status m) (Market.Outcomes m) (Market.ResolutionTime m)
        (Market.ResolvedOutcome m) (Market.Question m)).

Definition Pool j (asset0 asset1 : Z) : Outcome PoolReply.t :=
  let? pool := GetPoolFromState (vm_ReadState j) asset0 asset1 in
  Ok (PoolReply.mk (Pool.Asset0 pool) (Pool.Asset1 pool) (Pool.FeeBips pool)
        (Pool.Reserve0 pool) (Pool.Reserve1 pool) (Pool.TotalLP pool)).

Definition LPBalance j (asset0 asset1 : Z) (addr : Address) : Outcome Z :=
  GetLPBalanceFromState (vm_ReadState j) asset0 asset1 addr.

Definition VAIBalance j (addr : Address) : Outcome Z :=
  GetVAIBalanceFromState (vm_ReadState j) addr.

Definition VAIState j : Outcome VAIStateReply.t :=
  on_state j (
    let* cfg := GetVAIConfig in
    let* stateVal := GetVAIState in
    ret (VAIStateReply.mk (VAIConfig.DebtCeiling cfg) (VAIConfig.EpochMintLimit cfg)
           (VAIConfig.MintEpochSeconds cfg) (VAIConfig.MintAuthority cfg)
           (VAIState.TotalDebt stateVal) (VAIState.EpochStartUnix stateVal)
           (VAIState.EpochMinted stateVal))).

Definition Treasury j : Outcome TreasuryReply.t :=
  on_state j (
    let* cfg := GetTreasuryConfig in
    let* stateVal := GetTreasuryState in
    ret (TreasuryReply.mk (TreasuryConfig.Governance cfg) (TreasuryConfig.Operations cfg)
           (TreasuryConfig.MaxReleaseBips cfg) (TreasuryConfig.ReleaseEpochSeconds cfg)
           (TreasuryState.Locked stateVal) (TreasuryState.Live stateVal)
           (TreasuryState.Released stateVal) (TreasuryState.LastReleaseUnix stateVal))).

Definition FeeRouter j : Outcome FeeRouterReply.t :=
  on_state j (
    let* cfg := GetFeeRouterConfig in
    let* stateVal := GetFeeRouterState in
    ret (FeeRouterReply.mk (FeeRouterConfig.MSRBBips cfg) (FeeRouterConfig.COLBips cfg)
           (FeeRouterConfig.OpsBips cfg) (FeeRouterState.MSRBBudget stateVal)
           (FeeRouterState.COLBudget stateVal) (FeeRouterState.OpsBudget stateVal))).

Definition Risk j : Outcome RiskReply.t :=
  on_state j (
    let* cfg := GetRiskConfig in
    ret (RiskReply.mk (RiskConfig.BackingFloorBips cfg) (RiskConfig.VEILLtvBips cfg)
           (RiskConfig.WVEILLtvBips cfg) (RiskConfig.WSVEILLtvBips cfg)
           (RiskConfig.VEILHaircutBips cfg) (RiskConfig.WVEILHaircutBips cfg)
           (RiskConfig.WSVEILHaircutBips cfg))).

(** Lines 347-362: the ratio, saturated to 64 bits, and whether it meets the
    floor. *)
Definition backing (reserve debt floor : Z) : Z * bool :=
  if debt =? 0 then (0, true)
  else
    let ratio := reserve * 10000 / debt in
    let bips := if ratio <? 2 ^ 64 then ratio else 2 ^ 64 - 1 in
    (bips, floor <=? bips).

Definition Reserve j : Outcome ReserveReply.t :=
  on_state j (
    let* reserveState := GetReserveState in
    let* riskCfg := GetRiskConfig in
    let* vaiState := GetVAIState in
    let '(ratio, meets) :=
      backing (ReserveState.ExogenousReserve reserveState) (VAIState.TotalDebt vaiState)
              (RiskConfig.BackingFloorBips riskCfg) in
    ret (ReserveReply.mk (ReserveState.ExogenousReserve reserveState)
           (ReserveState.VAIBuffer reserveState) (VAIState.TotalDebt vaiState)
           (RiskConfig.BackingFloorBips riskCfg) ratio meets)).

Definition ProofConfig j : Outcome ProofConfigReply.t :=
  on_state j (
    let* cfg := GetProofConfig in
    ret (ProofConfigReply.mk (ProofConfig.RequireProof cfg) (ProofConfig.RequiredProofType cfg)
           (ProofConfig.BatchWindowMs cfg) (ProofConfig.ProofDeadlineMs cfg)
           (ProofConfig.ProverAuthority cfg))).

Definition BatchProof j (marketID : ID) (windowID : Z) : Outcome BatchProofReply.t :=
  on_state j (
    let* rec := GetBatchProofRecord marketID windowID in
    ret (BatchProofReply.mk (BatchProofRecord.ProofType rec)
           (BatchProofRecord.SubmittedAtMs rec) (BatchProofRecord.WindowCloseAtMs rec)
           (BatchProofRecord.Prover rec) (array_bytes (BatchProofRecord.ProofCommitment rec))
           (BatchProofRecord.PublicInputsHash rec) (BatchProofRecord.FillsHash rec))).

Definition VellumProof j (marketID : ID) (windowID : Z) : Outcome VellumProofReply.t :=
  let? proof := GetVellumProofFromState (vm_ReadState j) marketID windowID in
  Ok (VellumProofReply.mk proof (wrap_u32 (len proof))).

Definition Bloodsworn j (addr : Address) : Outcome BloodswornReply.t :=
  let? b := GetBloodswornFromState (vm_ReadState j) addr in
  let '(bips, tier) := scoreBloodswornTrust b in
  Ok (BloodswornReply.mk (Bloodsworn.TotalAcceptedProofs b) (Bloodsworn.ActiveStreak b)
        (Bloodsworn.LastProofAtMs b) (Bloodsworn.ScarCount b) bips tier).

Definition Glyph j (marketID : ID) (windowID : Z) : Outcome GlyphReply.t :=
  let? glyph := GetGlyphFromState (vm_ReadState j) marketID windowID in
  Ok (GlyphReply.mk (Glyph.Class glyph) (Glyph.Rarity glyph) (Glyph.CreatedAtMs glyph)
        (Glyph.Prover glyph) (array_bytes (Glyph.ProofCommitment glyph))
        (array_bytes (Glyph.PublicInputsHash glyph)) (array_bytes (Glyph.Entropy glyph))).

Definition ClearInputsHash (marketID : ID) (windowID clearPrice totalVolume : Z)
    (fillsHash : bytes) : bytes :=
  ComputeClearPublicInputsHash marketID windowID clearPrice totalVolume fillsHash.
End server.

(** ** Methods on the metrics collector *)

Section metrics.
Context {TX : Text}.

(** [args] may be nil; [now] is the clock. *)
Definition ZKMetrics (now : Z) (args : option (Z * bool)) : ST zkMetricsCollector ZKMetricsSnapshot.t :=
  fun c =>
    let '(limit, includeWindows) := match args with Some a => a | None => (0, true) end in
    (Ok (GetZKMetricsSnapshot now limit includeWindows c), c).
Definition Zkmetrics := ZKMetrics.

Definition ZKMetricsReset : ST zkMetricsCollector bool := fun c => (Ok true, ResetZKMetrics c).
Definition Zkmetricsreset := ZKMetricsReset.

Record RecordZKProverMetricsArgs := mk_args {
  a_MarketID : ID; a_WindowID : Z; a_BatchSizeHint : Z; a_WitnessBuildMs : Z;
  a_ProofGenerationMs : Z
}.

(** The reply says whether anything was recorded. *)
Definition RecordZKProverMetrics (args : option RecordZKProverMetricsArgs)
    : ST zkMetricsCollector bool := fun c =>
  match args with
  | None => (Ok false, c)
  | Some a => (Ok true, RecordProverStageMetrics (a_MarketID a) (a_WindowID a) (a_BatchSizeHint a)
                          (a_WitnessBuildMs a) (a_ProofGenerationMs a) c)
  end.
Definition Recordzkprovermetrics := RecordZKProverMetrics.
End metrics.
End JSONRPCServer.
