(* ===== verification/Zk.v ===== *)
(** * The proof verifier ([zk/verifier.go]) and its installation ([vm/option.go])

    The verifier checks the circuit of a proof, reads the public witness, ties
    it to the hash the chain computed, and asks the backend. The backend
    ([gnark]), the files and the environment are parameters: what the source
    calls of them are the fields of [Gnark] and [OS]. *)
From stdpp Require Import strings.
From S2P Require Import Prelude Errors Go Platform Sha256 Storage Balance Action ProofEnvelope.
From S2P Require Import Metrics Markets Proofs.

(** [gnark] and [gnark-crypto] on BN254. Reading a key or a proof from a stream
    is a function of the bytes of the stream. *)
Class Gnark : Type := {
  Groth16VK : Type; Groth16Proof : Type; PlonkVK : Type; PlonkProof : Type;
  Element : Type; Witness : Type;
  groth16_VK_ReadFrom : bytes -> Outcome Groth16VK;
  groth16_Proof_ReadFrom : bytes -> Outcome Groth16Proof;
  groth16_Verify : Groth16Proof -> Groth16VK -> list Element -> Outcome unit;
  plonk_VK_ReadFrom : bytes -> Outcome PlonkVK;
  plonk_Proof_ReadFrom : bytes -> Outcome PlonkProof;
  plonk_Verify : PlonkProof -> PlonkVK -> list Element -> Outcome unit;
  (* witness.New(field), UnmarshalBinary, Public, Vector().(bn254fr.Vector) *)
  witness_New : Outcome Witness;
  witness_UnmarshalBinary : Witness -> bytes -> Outcome Witness;
  witness_Public : Witness -> Outcome Witness;
  witness_Vector : Witness -> option (list Element);
  (* ecc.BN254.ScalarField() and bn254fr.Element *)
  ScalarField : Z;
  el_SetBigInt : Z -> Element;
  el_Equal : Element -> Element -> bool;
  el_IsUint64 : Element -> bool;
  el_Uint64 : Element -> Z
}.

(** An element is the residue it represents. *)
Class GnarkSpec {GN : Gnark} : Type := {
  ScalarField_large : 2 ^ 64 < ScalarField;
  el_value : Element -> Z;
  el_SetBigInt_spec z : el_value (el_SetBigInt z) = z mod ScalarField;
  el_Equal_spec a b : el_Equal a b = true <-> el_value a = el_value b;
  el_IsUint64_spec a : el_IsUint64 a = (el_value a <? 2 ^ 64);
  el_Uint64_spec a : el_IsUint64 a = true -> el_Uint64 a = el_value a
}.

Definition ClearHashDigestLen : Z := 32.

(** ** Circuit names *)

Definition normalizeCircuitID (circuitID : bytes) : bytes :=
  let circuitID := TrimSpace circuitID in
  if bool_decide (circuitID = []) then ProofCircuitClearHashV1 else circuitID.

Definition isSupportedCircuitID (circuitID : bytes) : bool :=
  bool_decide (circuitID = ProofCircuitClearHashV1)
  || bool_decide (circuitID = ProofCircuitShieldedLedgerV1).

Section verifier.
Context {GN : Gnark}.

(** ** The public witness *)

Definition hashToFieldElement (publicInputsHash : bytes) : Outcome Element :=
  let? _ := guard (len publicInputsHash =? 0) ErrInvalidProofEnvelope in
  Ok (el_SetBigInt (unbe publicInputsHash mod ScalarField)).

(** The loop over the bytes of the digest. *)
Fixpoint match_digest (vec : list Element) (hash : bytes) : Outcome unit :=
  match vec, hash with
  | el :: vec', b :: hash' =>
      let? _ := guard (negb (el_IsUint64 el) || negb (el_Uint64 el =? Z_of_byte b))
                      ErrProofPublicInputsMismatch in
      match_digest vec' hash'
  | _, _ => Ok tt
  end.

Definition validateDigestVector (publicInputsHash : bytes) (vec : list Element) : Outcome unit :=
  match vec with
  | [el] =>
      let? expected := hashToFieldElement publicInputsHash in
      guard (negb (el_Equal el expected)) ErrProofPublicInputsMismatch
  | _ =>
      if Z.of_nat (length vec) =? ClearHashDigestLen then
        let? _ := guard (negb (len publicInputsHash =? ClearHashDigestLen))
                        ErrInvalidProofEnvelope in
        match_digest vec publicInputsHash
      else Err (ErrMessage "unsupported digest witness length: %d")
  end.

Definition buildPublicWitnessVector (circuitID publicInputsHash publicWitnessBytes : bytes)
    : Outcome (list Element) :=
  let? _ := guard (len publicWitnessBytes =? 0) ErrInvalidProofEnvelope in
  let? w := witness_New in
  let? w := witness_UnmarshalBinary w publicWitnessBytes in
  let? w := match witness_Public w with
            | Ok publicW => Ok publicW
            | Err _ => Ok w
            | Panic => Panic
            end in
  match witness_Vector w with
  | None => Err (ErrMessage "unexpected witness vector type %T")
  | Some vec =>
      let? _ := guard (bool_decide (length vec = 0%nat)) ErrInvalidProofEnvelope in
      if bool_decide (circuitID = ProofCircuitClearHashV1)
      then let? _ := validateDigestVector publicInputsHash vec in Ok vec
      else if bool_decide (circuitID = ProofCircuitShieldedLedgerV1)
      then let? _ := validateDigestVector publicInputsHash vec in Ok vec
      else Err ErrUnsupportedProofCircuit
  end.

Definition verifyGroth16 (vk : Groth16VK)
    (circuitID proofBytes publicInputsHash publicWitnessBytes : bytes) : Outcome unit :=
  let? proof := groth16_Proof_ReadFrom proofBytes in
  let? publicWitness := buildPublicWitnessVector circuitID publicInputsHash publicWitnessBytes in
  groth16_Verify proof vk publicWitness.

Definition verifyPlonk (vk : PlonkVK)
    (circuitID proofBytes publicInputsHash publicWitnessBytes : bytes) : Outcome unit :=
  let? proof := plonk_Proof_ReadFrom proofBytes in
  let? publicWitness := buildPublicWitnessVector circuitID publicInputsHash publicWitnessBytes in
  plonk_Verify proof vk publicWitness.

(** ** The verifier *)

Record Config := mk_config {
  Groth16VerifyingKeyPath : bytes; PlonkVerifyingKeyPath : bytes; RequiredCircuitID : bytes
}.

Record Verifier := mk_zk_verifier {
  groth16VK : option Groth16VK; plonkVK : option PlonkVK; requiredCircuitID : bytes
}.

Definition Verify (v : Verifier) (proofType : Z)
    (circuitID proof publicInputsHash publicWitness : bytes) : Outcome unit :=
  let circuitID := normalizeCircuitID circuitID in
  let? _ := guard (negb (bool_decide (requiredCircuitID v = []))
                   && negb (bool_decide (circuitID = requiredCircuitID v)))
                  ErrProofCircuitMismatch in
  let? _ := guard (negb (isSupportedCircuitID circuitID)) ErrUnsupportedProofCircuit in
  if proofType =? ProofTypeGroth16 then
    match groth16VK v with
    | None => Err ErrProofVerifierUnavailable
    | Some vk => verifyGroth16 vk circuitID proof publicInputsHash publicWitness
    end
  else if proofType =? ProofTypePlonk then
    match plonkVK v with
    | None => Err ErrProofVerifierUnavailable
    | Some vk => verifyPlonk vk circuitID proof publicInputsHash publicWitness
    end
  else Err ErrProofTypeMismatch.

(** ** Installation *)

(** [os.Open]/[os.ReadFile], [os.Stat] and [os.Getenv]. *)
Class OS : Type := {
  os_ReadFile : bytes -> Outcome bytes;
  os_Stat : bytes -> Outcome unit;
  os_Getenv : bytes -> bytes
}.
Context {os : OS}.

Definition loadGroth16VK (path : bytes) : Outcome Groth16VK :=
  let? f := os_ReadFile path in groth16_VK_ReadFrom f.
Definition loadPlonkVK (path : bytes) : Outcome PlonkVK :=
  let? f := os_ReadFile path in plonk_VK_ReadFrom f.

(** Load a key when a path is set. *)
Definition load_if_set {A} (load : bytes -> Outcome A) (path : bytes) : Outcome (option A) :=
  let p := TrimSpace path in
  if bool_decide (p = []) then Ok None else let? vk := load p in Ok (Some vk).

Definition NewVerifier (cfg : Config) : Outcome Verifier :=
  let? g := load_if_set loadGroth16VK (Groth16VerifyingKeyPath cfg) in
  let? p := load_if_set loadPlonkVK (PlonkVerifyingKeyPath cfg) in
  match g, p with
  | None, None => Err ErrProofVerifierUnavailable
  | _, _ =>
      let required := TrimSpace (RequiredCircuitID cfg) in
      let? _ := guard (negb (bool_decide (required = []))
                       && negb (isSupportedCircuitID required)) ErrUnsupportedProofCircuit in
      Ok (mk_zk_verifier g p required)
  end.
End verifier.

(** ** Configuration ([vm/option.go]) *)

Definition defaultLocalGroth16VKPath : bytes :=
  String.list_byte_of_string "/root/.avalanchego/zk/groth16_clearhash_vk.bin".

Record ZKVerifierConfig := mk_zk_config {
  zc_Enabled : bool; zc_Strict : bool;
  zc_Groth16VerifyingKeyPath : bytes; zc_PlonkVerifyingKeyPath : bytes;
  zc_RequiredCircuitID : bytes
}.
Record VMConfig := mk_vm_config { cfg_Enabled : bool; cfg_ZK : ZKVerifierConfig }.

Definition NewDefaultZKVerifierConfig : ZKVerifierConfig := mk_zk_config false false [] [] [].
Definition NewDefaultConfig : VMConfig := mk_vm_config true NewDefaultZKVerifierConfig.

Section option.
Context {os : OS}.

(** [strings.Split] at a byte. *)
Fixpoint split_on (sep : byte) (acc s : bytes) : list bytes :=
  match s with
  | [] => [rev acc]
  | b :: s' => if bool_decide (b = sep) then rev acc :: split_on sep [] s'
               else split_on sep (b :: acc) s'
  end.

(** The first entry with the prefix decides. *)
Fixpoint find_entry (target : bytes) (entries : list bytes) : option bytes :=
  match entries with
  | [] => None
  | entry :: rest =>
      if starts_with entry target then
        let v := TrimSpace (drop (length target) entry) in
        if bool_decide (v = []) then None else Some v
      else find_entry target rest
  end.

Definition getParentProcessEnv (name : bytes) : option bytes :=
  match os_ReadFile (String.list_byte_of_string "/proc/1/environ") with
  | Ok blob => if len blob =? 0 then None else find_entry (name ++ [x3d]) (split_on x00 [] blob)
  | _ => None
  end.

Definition getEnv (name : bytes) : option bytes :=
  let v := TrimSpace (os_Getenv name) in
  if bool_decide (v = []) then getParentProcessEnv name else Some v.

(** [strings.ToLower]: the letters of the accepted words are the lower case of
    no rune outside ASCII. *)
Definition lower_byte (b : byte) : byte :=
  let z := Z_of_byte b in if (65 <=? z) && (z <=? 90) then byte_of_Z (z + 32) else b.
Definition truthy : list bytes :=
  map String.list_byte_of_string ["1"; "true"; "t"; "yes"; "y"; "on"]%string.
Definition falsy : list bytes :=
  map String.list_byte_of_string ["0"; "false"; "f"; "no"; "n"; "off"]%string.

Definition parseEnvBool (name : bytes) : option bool :=
  match getEnv name with
  | None => None
  | Some v =>
      let w := map lower_byte v in
      if bool_decide (w ∈ truthy) then Some true
      else if bool_decide (w ∈ falsy) then Some false else None
  end.

Definition env_name (s : string) : bytes := String.list_byte_of_string s.

(** The overrides of the environment. *)
Definition override_env (cfg : ZKVerifierConfig) : ZKVerifierConfig :=
  mk_zk_config
    (default (zc_Enabled cfg) (parseEnvBool (env_name "VEIL_ZK_VERIFIER_ENABLED")))
    (default (zc_Strict cfg) (parseEnvBool (env_name "VEIL_ZK_VERIFIER_STRICT")))
    (default (zc_Groth16VerifyingKeyPath cfg) (getEnv (env_name "VEIL_ZK_GROTH16_VK_PATH")))
    (default (zc_PlonkVerifyingKeyPath cfg) (getEnv (env_name "VEIL_ZK_PLONK_VK_PATH")))
    (default (zc_RequiredCircuitID cfg) (getEnv (env_name "VEIL_ZK_REQUIRED_CIRCUIT_ID"))).

Definition resolveZKConfig (cfg : ZKVerifierConfig) : ZKVerifierConfig :=
  let cfg := override_env cfg in
  if negb (zc_Enabled cfg) && bool_decide (TrimSpace (zc_Groth16VerifyingKeyPath cfg) = [])
     && bool_decide (TrimSpace (zc_PlonkVerifyingKeyPath cfg) = []) then
    match os_Stat defaultLocalGroth16VKPath with
    | Ok _ =>
        mk_zk_config true true defaultLocalGroth16VKPath (zc_PlonkVerifyingKeyPath cfg)
          (if bool_decide (TrimSpace (zc_RequiredCircuitID cfg) = [])
           then ProofCircuitClearHashV1 else zc_RequiredCircuitID cfg)
    | _ => cfg
    end
  else cfg.

Context {GN : Gnark}.

Definition installBatchProofVerifier (cfg : ZKVerifierConfig) : ST VerifierConfig unit := fun vc =>
  if negb (zc_Enabled cfg) then
    (Ok tt, ConfigureBatchProofVerifier None (zc_Strict cfg) vc)
  else
    match NewVerifier (mk_config (zc_Groth16VerifyingKeyPath cfg) (zc_PlonkVerifyingKeyPath cfg)
                                 (zc_RequiredCircuitID cfg)) with
    | Ok verifier => (Ok tt, ConfigureBatchProofVerifier (Some (Verify verifier)) (zc_Strict cfg) vc)
    | Err e => (Err e, vc)
    | Panic => (Panic, vc)
    end.

(** The option of [With]: whether the JSON-RPC API is served. *)
Definition With (config : VMConfig) : ST VerifierConfig bool :=
  let resolved := resolveZKConfig (cfg_ZK config) in
  installBatchProofVerifier resolved ;;;
  ret (cfg_Enabled config).
End option.
