(* ===== verification/Circuits.v ===== *)
(** * The proof circuits ([zk/clearhash_circuit.go], [zk/shielded_ledger_circuit.go])

    [Define] drives the frontend of [gnark], which collects constraints: the
    frontend, its byte arithmetic and its SHA-256 gadget are parameters, the
    constraint system is the state the calls change. *)
From S2P Require Import Prelude Errors Go Platform Sha256 Storage ProofEnvelope Zk.

(** What the source calls of [gnark/frontend], [std/math/uints] and
    [std/hash/sha2]. *)
Class Frontend : Type := {
  CS : Type; Var : Type; U8 : Type; BinaryField : Type; Hasher : Type;
  constant : Z -> Var;
  U8_Val : U8 -> Var;
  uints_NewU8 : byte -> U8;
  uints_NewU8Array : bytes -> list U8;
  uints_New : ST CS BinaryField;
  ByteAssertEq : BinaryField -> U8 -> U8 -> ST CS unit;
  api_Add : Var -> Var -> ST CS Var;
  api_IsZero : Var -> ST CS Var;
  api_AssertIsEqual : Var -> Var -> ST CS unit;
  sha2_New : ST CS Hasher;
  hasher_Write : Hasher -> list U8 -> ST CS Hasher;
  hasher_Sum : Hasher -> ST CS (list U8)
}.

(** One assignment of field elements to the variables: the value of each and
    whether the collected constraints hold. Asserting adds its equation,
    computing adds equations that a value can be found for. *)
Class FrontendSpec {F : Frontend} : Type := {
  FieldSize : Z;
  FieldSize_large : 2 ^ 64 < FieldSize;
  value : Var -> Z;
  holds : CS -> Prop;
  written : Hasher -> list U8;
  value_constant z : value (constant z) = z mod FieldSize;
  value_NewU8 b : value (U8_Val (uints_NewU8 b)) = Z_of_byte b;
  value_NewU8Array l :
    map (fun u => value (U8_Val u)) (uints_NewU8Array l) = map Z_of_byte l;
  uints_New_spec uapi cs cs' : uints_New cs = (Ok uapi, cs') -> holds cs' <-> holds cs;
  ByteAssertEq_spec uapi a b x y cs cs' :
    (holds cs -> value (U8_Val a) = Z_of_byte x /\ value (U8_Val b) = Z_of_byte y) ->
    ByteAssertEq uapi a b cs = (Ok tt, cs') -> holds cs' <-> holds cs /\ x = y;
  api_Add_spec a b c cs cs' : api_Add a b cs = (Ok c, cs') ->
    (holds cs' <-> holds cs) /\ (holds cs' -> value c = (value a + value b) mod FieldSize);
  api_IsZero_spec a c cs cs' : api_IsZero a cs = (Ok c, cs') ->
    (holds cs' <-> holds cs) /\ (holds cs' -> value c = if value a =? 0 then 1 else 0);
  api_AssertIsEqual_spec a b cs cs' :
    api_AssertIsEqual a b cs = (Ok tt, cs') -> holds cs' <-> holds cs /\ value a = value b;
  sha2_New_spec h cs cs' : sha2_New cs = (Ok h, cs') -> (holds cs' <-> holds cs) /\ written h = [];
  hasher_Write_spec h l h' cs cs' : hasher_Write h l cs = (Ok h', cs') ->
    (holds cs' <-> holds cs) /\ written h' = written h ++ l;
  hasher_Sum_spec h out msg cs cs' :
    map (fun u => value (U8_Val u)) (written h) = map Z_of_byte msg ->
    hasher_Sum h cs = (Ok out, cs') ->
    (holds cs' <-> holds cs) /\
    (holds cs' -> map (fun u => value (U8_Val u)) out = map Z_of_byte (Sum256 msg))
}.

(** ** Layout *)

Definition ClearHashPreimageLen : Z :=
  len ClearInputsDomainTag + 32 + 8 + 8 + 8 + 2 + ExpectedFillsHashSize.

Definition ShieldedLedgerDigestLen : Z := 32.
Definition ShieldedLedgerDomainTagLen : Z := len ShieldedLedgerInputsDomainTag.
Definition ShieldedLedgerWindowIDLen : Z := 8.
Definition ShieldedLedgerClearPriceLen : Z := 8.
Definition ShieldedLedgerTotalVolLen : Z := 8.
Definition ShieldedLedgerHashLenLen : Z := 2.
Definition ShieldedLedgerMarketIDOffset : Z := ShieldedLedgerDomainTagLen.
Definition ShieldedLedgerWindowIDOffset : Z := ShieldedLedgerMarketIDOffset + 32.
Definition ShieldedLedgerClearPriceOffset : Z :=
  ShieldedLedgerWindowIDOffset + ShieldedLedgerWindowIDLen.
Definition ShieldedLedgerTotalVolOffset : Z :=
  ShieldedLedgerClearPriceOffset + ShieldedLedgerClearPriceLen.
Definition ShieldedLedgerFillsHashLenOffset : Z :=
  ShieldedLedgerTotalVolOffset + ShieldedLedgerTotalVolLen.
Definition ShieldedLedgerFillsHashOffset : Z :=
  ShieldedLedgerFillsHashLenOffset + ShieldedLedgerHashLenLen.
Definition ShieldedLedgerPreimageLen : Z := ShieldedLedgerFillsHashOffset + ExpectedFillsHashSize.

Section circuits.
Context {F : Frontend}.

(** Both circuits: the private preimage and the public digest. The lengths are
    those of the array types. *)
Record Circuit := mk_circuit { Preimage : list U8; Digest : list U8 }.

(** [s[from:to]] *)
Definition sub (from to : Z) (s : list U8) : list U8 :=
  take (Z.to_nat (to - from)) (drop (Z.to_nat from) s).

(** [uapi.ByteAssertEq] along two slices of one length. *)
Fixpoint assert_bytes (uapi : BinaryField) (a b : list U8) : ST CS unit :=
  match a, b with
  | x :: a', y :: b' => ByteAssertEq uapi x y ;;; assert_bytes uapi a' b'
  | _, _ => ret tt
  end.

Definition assertLiteralBytes (uapi : BinaryField) (got : list U8) (want : bytes) : ST CS unit :=
  fail_if (negb (bool_decide (length got = length want)))
          (ErrMessage "literal length mismatch: got=%d want=%d") ;;;
  assert_bytes uapi got (map uints_NewU8 want).

Fixpoint add_all (sum : Var) (b : list U8) : ST CS Var :=
  match b with
  | [] => ret sum
  | u :: b' => let* sum := api_Add sum (U8_Val u) in add_all sum b'
  end.

Definition assertByteSliceNonZero (b : list U8) : ST CS unit :=
  let* sum := add_all (constant 0) b in
  let* z := api_IsZero sum in
  api_AssertIsEqual z (constant 0).

(** The end of both circuits: hash the preimage and compare the digest. *)
Definition assert_digest (h : Hasher) (uapi : BinaryField) (digestLen : Z) (c : Circuit)
    : ST CS unit :=
  let* h := hasher_Write h (Preimage c) in
  let* sum := hasher_Sum h in
  fail_if (negb (Z.of_nat (length sum) =? digestLen)) (ErrMessage "unexpected digest size: %d") ;;;
  assert_bytes uapi (Digest c) sum.

End circuits.

Module ClearHashCircuit.
Definition Define {F : Frontend} (c : Circuit) : ST CS unit :=
  let* h := sha2_New in
  let* uapi := uints_New in
  assert_digest h uapi ClearHashDigestLen c.
End ClearHashCircuit.

Module ShieldedLedgerCircuitV1.
Definition Define {F : Frontend} (c : Circuit) : ST CS unit :=
  let* h := sha2_New in
  let* uapi := uints_New in
  assertLiteralBytes uapi (sub 0 ShieldedLedgerDomainTagLen (Preimage c))
                     ShieldedLedgerInputsDomainTag ;;;
  assertLiteralBytes uapi
    (sub ShieldedLedgerFillsHashLenOffset ShieldedLedgerFillsHashOffset (Preimage c))
    [x00; byte_of_Z ExpectedFillsHashSize] ;;;
  assertByteSliceNonZero
    (sub ShieldedLedgerMarketIDOffset ShieldedLedgerWindowIDOffset (Preimage c)) ;;;
  assertByteSliceNonZero
    (sub ShieldedLedgerWindowIDOffset ShieldedLedgerClearPriceOffset (Preimage c)) ;;;
  assertByteSliceNonZero
    (sub ShieldedLedgerClearPriceOffset ShieldedLedgerTotalVolOffset (Preimage c)) ;;;
  assertByteSliceNonZero
    (sub ShieldedLedgerTotalVolOffset ShieldedLedgerFillsHashLenOffset (Preimage c)) ;;;
  assertByteSliceNonZero
    (sub ShieldedLedgerFillsHashOffset ShieldedLedgerPreimageLen (Preimage c)) ;;;
  assert_digest h uapi ShieldedLedgerDigestLen c.
End ShieldedLedgerCircuitV1.

(** ** Assignments *)

Section assignments.
Context {F : Frontend}.

(** The loops [for i := 0; i < n; i++ { out[i] = l[i] }]. *)
Definition copy_u8 (n : Z) (l : list U8) : Outcome (list U8) :=
  if n <=? Z.of_nat (length l) then Ok (take (Z.to_nat n) l) else Panic.

Definition NewClearHashAssignment (preimage digest : bytes) : Outcome Circuit :=
  let? _ := guard (negb (len preimage =? ClearHashPreimageLen))
                  (ErrMessage "invalid clear-hash preimage size: got=%d expected=%d") in
  let? _ := guard (negb (len digest =? ClearHashDigestLen))
                  (ErrMessage "invalid clear-hash digest size: got=%d expected=%d") in
  let? pre := copy_u8 ClearHashPreimageLen (uints_NewU8Array preimage) in
  let? pub := copy_u8 ClearHashDigestLen (uints_NewU8Array digest) in
  Ok (mk_circuit pre pub).

Definition NewShieldedLedgerAssignment (preimage digest : bytes) : Outcome Circuit :=
  let? _ := guard (negb (len preimage =? ShieldedLedgerPreimageLen))
                  (ErrMessage "invalid shielded-ledger preimage size: got=%d expected=%d") in
  let? _ := guard (negb (len digest =? ShieldedLedgerDigestLen))
                  (ErrMessage "invalid shielded-ledger digest size: got=%d expected=%d") in
  let? pre := copy_u8 ShieldedLedgerPreimageLen (uints_NewU8Array preimage) in
  let? pub := copy_u8 ShieldedLedgerDigestLen (uints_NewU8Array digest) in
  Ok (mk_circuit pre pub).
End assignments.
