(* ===== verification/Client.v ===== *)
(** * The JSON-RPC client ([vm/client.go])

    Every method sends one request and returns the reply; the genesis and the
    rule factory are kept after the first answer. The requester of the platform
    and its polling loop are parameters. *)
From stdpp Require Import strings.
From S2P Require Import Prelude Errors Go Platform Storage Metrics Genesis Server.

(** A request: its arguments, and the reply it is decoded into. *)
Inductive Request (Rules : Type) : Type -> Type :=
| RqGenesis : Request Rules (Genesis.t Rules)
| RqBalance (addr : Address) : Request Rules Z
| RqMarket (marketID : ID) : Request Rules MarketReply.t
| RqPool (asset0 asset1 : Z) : Request Rules PoolReply.t
| RqLPBalance (asset0 asset1 : Z) (addr : Address) : Request Rules Z
| RqVAIBalance (addr : Address) : Request Rules Z
| RqVAIState : Request Rules VAIStateReply.t
| RqTreasury : Request Rules TreasuryReply.t
| RqFeeRouter : Request Rules FeeRouterReply.t
| RqRisk : Request Rules RiskReply.t
| RqReserve : Request Rules ReserveReply.t
| RqProofConfig : Request Rules ProofConfigReply.t
| RqBatchProof (marketID : ID) (windowID : Z) : Request Rules BatchProofReply.t
| RqVellumProof (marketID : ID) (windowID : Z) : Request Rules VellumProofReply.t
| RqBloodsworn (addr : Address) : Request Rules BloodswornReply.t
| RqGlyph (marketID : ID) (windowID : Z) : Request Rules GlyphReply.t
| RqClearInputsHash (marketID : ID) (windowID clearPrice totalVolume : Z) (fillsHash : bytes)
    : Request Rules bytes
| RqZKMetrics (limit : Z) (includeWindows : bool) : Request Rules ZKMetricsSnapshot.t
| RqZKMetricsReset : Request Rules bool
| RqRecordZKProverMetrics (args : JSONRPCServer.RecordZKProverMetricsArgs) : Request Rules bool.
Arguments RqGenesis {_}.
Arguments RqBalance {_} _.
Arguments RqMarket {_} _.
Arguments RqPool {_} _ _.
Arguments RqLPBalance {_} _ _ _.
Arguments RqVAIBalance {_} _.
Arguments RqVAIState {_}.
Arguments RqTreasury {_}.
Arguments RqFeeRouter {_}.
Arguments RqRisk {_}.
Arguments RqReserve {_}.
Arguments RqProofConfig {_}.
Arguments RqBatchProof {_} _ _.
Arguments RqVellumProof {_} _ _.
Arguments RqBloodsworn {_} _.
Arguments RqGlyph {_} _ _.
Arguments RqClearInputsHash {_} _ _ _ _ _.
Arguments RqZKMetrics {_} _ _.
Arguments RqZKMetricsReset {_}.
Arguments RqRecordZKProverMetrics {_} _.

(** The method each request names. *)
Definition method {Rules R} (r : Request Rules R) : string :=
  match r with
  | RqGenesis => "genesis"
  | RqBalance _ => "balance"
  | RqMarket _ => "market"
  | RqPool _ _ => "pool"
  | RqLPBalance _ _ _ => "lpbalance"
  | RqVAIBalance _ => "vaibalance"
  | RqVAIState => "vaistate"
  | RqTreasury => "treasury"
  | RqFeeRouter => "feerouter"
  | RqRisk => "risk"
  | RqReserve => "reserve"
  | RqProofConfig => "proofconfig"
  | RqBatchProof _ _ => "batchproof"
  | RqVellumProof _ _ => "vellumproof"
  | RqBloodsworn _ => "bloodsworn"
  | RqGlyph _ _ => "glyph"
  | RqClearInputsHash _ _ _ _ _ => "clearinputshash"
  | RqZKMetrics _ _ => "zkmetrics"
  | RqZKMetricsReset => "zkmetricsreset"
  | RqRecordZKProverMetrics _ => "recordzkprovermetrics"
  end.

(** [requester.EndpointRequester.SendRequest] over a network state [N], the
    reply decoded. *)
Class Requester (Rules N : Type) : Type := SendRequest : forall R, Request Rules R -> ST N R.
Arguments SendRequest {_ _ _ _} _ _.

(** [jsonrpc.Wait]: it returns without an error after a check that said so. *)
Class Waiter (S : Type) : Type := {
  jsonrpc_Wait : ST S bool -> ST S unit;
  Wait_done check s s' :
    jsonrpc_Wait check s = (Ok tt, s') -> exists s0, check s0 = (Ok true, s')
}.

(** ** The endpoint *)

Definition JSONRPCEndpoint : bytes := String.list_byte_of_string "/veilapi".

(** [strings.TrimSuffix(uri, "/")], then the endpoint. *)
Definition NewJSONRPCClient_uri (uri : bytes) : bytes :=
  (match rev uri with x2f :: r => rev r | _ => uri end) ++ JSONRPCEndpoint.

(** ** The client *)

Module JSONRPCClient.
(** What the client remembers; the rule factory hands out the rules. *)
Record t (Rules : Type) := mk {
  g : option (Genesis.t Rules);
  ruleFactory : option (option Rules)
}.
Arguments mk {_} _ _.
Arguments g {_} _.
Arguments ruleFactory {_} _.

Definition New {Rules} : t Rules := mk None None.

Section client.
Context {Rules N : Type} {RQ : Requester Rules N}.

Definition send {R} (r : Request Rules R) : ST (t Rules * N) R := fun s =>
  let '(o, n) := SendRequest r s.2 in (o, (s.1, n)).

Definition Genesis : ST (t Rules * N) (Genesis.t Rules) := fun s =>
  match g s.1 with
  | Some x => (Ok x, s)
  | None =>
      (let* resp := send RqGenesis in
       fun s => (Ok resp, (mk (Some resp) (ruleFactory s.1), s.2))) s
  end.

Definition Balance (addr : Address) : ST (t Rules * N) Z := send (RqBalance addr).
Definition Market (marketID : ID) : ST (t Rules * N) MarketReply.t := send (RqMarket marketID).
Definition Pool (asset0 asset1 : Z) : ST (t Rules * N) PoolReply.t := send (RqPool asset0 asset1).
Definition LPBalance (asset0 asset1 : Z) (addr : Address) : ST (t Rules * N) Z :=
  send (RqLPBalance asset0 asset1 addr).
Definition VAIBalance (addr : Address) : ST (t Rules * N) Z := send (RqVAIBalance addr).
Definition VAIState : ST (t Rules * N) VAIStateReply.t := send RqVAIState.
Definition Treasury : ST (t Rules * N) TreasuryReply.t := send RqTreasury.
Definition FeeRouter : ST (t Rules * N) FeeRouterReply.t := send RqFeeRouter.
Definition Risk : ST (t Rules * N) RiskReply.t := send RqRisk.
Definition Reserve : ST (t Rules * N) ReserveReply.t := send RqReserve.
Definition ProofConfig : ST (t Rules * N) ProofConfigReply.t := send RqProofConfig.
Definition BatchProof (marketID : ID) (windowID : Z) : ST (t Rules * N) BatchProofReply.t :=
  send (RqBatchProof marketID windowID).
Definition VellumProof (marketID : ID) (windowID : Z) : ST (t Rules * N) VellumProofReply.t :=
  send (RqVellumProof marketID windowID).
Definition Bloodsworn (addr : Address) : ST (t Rules * N) BloodswornReply.t := send (RqBloodsworn addr).
Definition Glyph (marketID : ID) (windowID : Z) : ST (t Rules * N) GlyphReply.t :=
  send (RqGlyph marketID windowID).
Definition ClearInputsHash (marketID : ID) (windowID clearPrice totalVolume : Z)
    (fillsHash : bytes) : ST (t Rules * N) bytes :=
  send (RqClearInputsHash marketID windowID clearPrice totalVolume fillsHash).
Definition ZKMetrics (limit : Z) (includeWindows : bool) : ST (t Rules * N) ZKMetricsSnapshot.t :=
  send (RqZKMetrics limit includeWindows).
Definition ResetZKMetrics : ST (t Rules * N) unit := let* _ := send RqZKMetricsReset in ret tt.
Definition RecordZKProverMetrics (marketID : ID)
    (windowID batchSizeHint witnessBuildMs proofGenerationMs : Z) : ST (t Rules * N) unit :=
  let* _ := send (RqRecordZKProverMetrics
    (JSONRPCServer.mk_args marketID windowID batchSizeHint witnessBuildMs proofGenerationMs)) in
  ret tt.

Definition WaitForBalance {W : Waiter (t Rules * N)} (addr : Address) (min : Z) : ST (t Rules * N) unit :=
  jsonrpc_Wait (
    let* balance := Balance addr in
    ret (min <=? balance)).

(** The rules the returned factory hands out. *)
Definition GetRuleFactory : ST (t Rules * N) (option Rules) := fun s =>
  match ruleFactory s.1 with
  | Some f => (Ok f, s)
  | None =>
      (let* networkGenesis := Genesis in
       fun s => (Ok (Genesis.GRules networkGenesis),
                 (mk (g s.1) (Some (Genesis.GRules networkGenesis)), s.2))) s
  end.
End client.
End JSONRPCClient.
