(* ===== verification/Tools.v ===== *)
(** * The key and fixture tools ([cmd/veilvm-keygen], [cmd/veilvm-zktool])

    The genesis file the key generator writes for a fresh address, and what the
    fixture tool does for a circuit: its names, its sample and its assignment.
    What they do with keys, randomness and files is in [Fixture.v]. *)
From stdpp Require Import strings.
From S2P Require Import Prelude Errors Go Platform Sha256 Storage ProofEnvelope.
From S2P Require Import Metrics Markets Proofs Genesis Zk Circuits.

(** ** [veilvm-keygen] *)

Module Keygen.
(** The rules the tool sets. *)
Record Limits := mk_limits {
  MinBlockGap : Z; MinEmptyBlockGap : Z; ValidityWindow : Z; MaxActionsPerTx : Z;
  MaxOutputsPerAction : Z; WindowTargetUnits : list Z; MaxBlockUnits : list Z
}.

Definition jsMax : Z := 9007199254740991.

Definition limits : Limits :=
  mk_limits 100 500 120000 16 1 [jsMax; jsMax; jsMax; jsMax; jsMax]
            [1800000; jsMax; jsMax; jsMax; jsMax].

Definition tokenomics (addr : Address) : Tokenomics.t :=
  {| Tokenomics.TotalSupply := 990999000;
     Tokenomics.Governance := addr; Tokenomics.Operations := addr;
     Tokenomics.MintAuthority := addr;
     Tokenomics.COLVaultLocked := 900000000; Tokenomics.COLVaultLive := 41449050;
     Tokenomics.MaxReleaseBips := 15; Tokenomics.ReleaseEpochSeconds := 86400;
     Tokenomics.FeeRouterMSRBBips := 7000; Tokenomics.FeeRouterCOLBips := 2000;
     Tokenomics.FeeRouterOpsBips := 1000;
     Tokenomics.VAIDebtCeiling := 2000000; Tokenomics.VAIEpochMintLimit := 100000;
     Tokenomics.VAIMintEpochSeconds := 3600; Tokenomics.BackingFloorBips := 10000;
     Tokenomics.VEILLtvBips := 3000; Tokenomics.WVEILLtvBips := 3500;
     Tokenomics.WSVEILLtvBips := 0; Tokenomics.VEILHaircutBips := 6000;
     Tokenomics.WVEILHaircutBips := 5500; Tokenomics.WSVEILHaircutBips := 10000;
     Tokenomics.ExogenousReserveInit := 2000000; Tokenomics.VAIBufferInit := 0;
     Tokenomics.RequireBatchProof := true; Tokenomics.RequiredProofType := ProofTypeGroth16;
     Tokenomics.BatchWindowMs := 5000; Tokenomics.ProofDeadlineMs := 10000;
     Tokenomics.ProverAuthority := addr |}.

(** The genesis of a fresh key's address; [tune] sets the limits in the rules of
    the platform. *)
Definition genesis {Rules} `{!GenesisFile Rules} (tune : Limits -> Rules -> Rules)
    (addr : Address) : Genesis.t Rules :=
  Genesis.mk BranchFactor16 [Some (mk_alloc addr 49549950)]
    (Some (set_network 0 (zero_array 32) (tune limits NewDefaultRules)))
    (Some (tokenomics addr)).
End Keygen.

(** ** [veilvm-zktool] *)

Module ZkTool.
Definition unsupported_circuit : Error := ErrMessage "unsupported circuit id: %q".

Inductive CircuitKind := ClearHash | ShieldedLedger.

Definition selectedCircuit (circuitID : bytes) : Outcome CircuitKind :=
  let c := TrimSpace circuitID in
  if bool_decide (c = ProofCircuitClearHashV1) then Ok ClearHash
  else if bool_decide (c = ProofCircuitShieldedLedgerV1) then Ok ShieldedLedger
  else Err unsupported_circuit.

Record Artifacts := mk_artifacts {
  pkName : string; vkName : string; samplePrefix : string; writeCompat : bool
}.

Definition artifactNames (circuitID : bytes) : Outcome Artifacts :=
  let c := TrimSpace circuitID in
  if bool_decide (c = ProofCircuitClearHashV1) then
    Ok (mk_artifacts "groth16_clearhash_pk.bin" "groth16_clearhash_vk.bin"
                     "sample_clearhash" true)
  else if bool_decide (c = ProofCircuitShieldedLedgerV1) then
    Ok (mk_artifacts "groth16_shielded_ledger_pk.bin" "groth16_shielded_ledger_vk.bin"
                     "sample_shielded_ledger" false)
  else Err unsupported_circuit.

(** The files written for a circuit, in order. *)
Definition key_files (a : Artifacts) : list string :=
  [pkName a; vkName a]
  ++ if writeCompat a then ["groth16_hashbinding_pk.bin"; "groth16_hashbinding_vk.bin"] else [].

Section frontend.
Context {F : Frontend}.

Definition buildAssignment (circuitID preimage hashBytes : bytes) : Outcome Circuit :=
  let c := TrimSpace circuitID in
  if bool_decide (c = ProofCircuitClearHashV1) then NewClearHashAssignment preimage hashBytes
  else if bool_decide (c = ProofCircuitShieldedLedgerV1)
  then NewShieldedLedgerAssignment preimage hashBytes
  else Err unsupported_circuit.

(** [Define] of the selected circuit. *)
Definition Define (k : CircuitKind) (c : Circuit) : ST CS unit :=
  match k with
  | ClearHash => ClearHashCircuit.Define c
  | ShieldedLedger => ShieldedLedgerCircuitV1.Define c
  end.
End frontend.

(** The sample, from what the random source filled in. *)
Definition buildSamplePreimage (circuitID : bytes) (marketID : Outcome ID)
    (fills : Outcome (array 32)) : Outcome (bytes * bytes) :=
  let? marketID := marketID in
  let? fills := fills in
  let windowID := 1 in
  let clearPrice := 1025 in
  let totalVolume := 3200 in
  let c := TrimSpace circuitID in
  let? preimage :=
    if bool_decide (c = ProofCircuitClearHashV1) then
      let p := BuildClearPublicInputsPreimage marketID windowID clearPrice totalVolume
                 (array_bytes fills) in
      let? _ := guard (negb (len p =? ClearHashPreimageLen))
                      (ErrMessage "invalid clear-hash sample preimage length") in
      Ok p
    else if bool_decide (c = ProofCircuitShieldedLedgerV1) then
      let p := BuildShieldedLedgerPublicInputsPreimage marketID windowID clearPrice totalVolume
                 (array_bytes fills) in
      let? _ := guard (negb (len p =? ShieldedLedgerPreimageLen))
                      (ErrMessage "invalid shielded-ledger sample preimage length") in
      Ok p
    else Err unsupported_circuit in
  Ok (preimage, array_bytes (Sum256 preimage)).
End ZkTool.
