(* ===== verification/Bench.v ===== *)
(** * The benchmark ([cmd/veilvm-zkbench/main.go])

    What the benchmark computes before it talks to the node: its configuration,
    the payloads of a window, the tampering of envelopes, and the budget of fees.
    An [int] is a 64-bit integer and wraps. *)
From Stdlib Require Import Strings.String.
From S2P Require Import Prelude Errors Go Platform Sha256 Storage ProofEnvelope.
From S2P Require Import Metrics Markets Proofs Genesis Zk Circuits Tools.

Definition text (s : string) : bytes := list_byte_of_string s.

Definition defaultNodeURL : bytes := text "http://127.0.0.1:9660".
Definition defaultKeyHex : bytes :=
  text (String.append "637404e6722a0e55a27fd82dcd29f3f0faa6f13d930f32f759e3b8412c4956ae"
                      "ee9d3919f004304c2d44dbc9121f6559fefb9b9c25daec749b0f18f605614461").
Definition defaultGasSafetyBps : Z := 13000.
Definition defaultGasReserve : Z := 250000.
Definition defaultRefuelAmount : Z := 5000000.
Definition maxUint64 : Z := 2 ^ 64 - 1.
Definition MaxProofBytesSize : Z := 131072.

(** ** What the source uses of [strings], [strconv] and [hex] *)

(** [strings.ToLower] on the runes whose image is ASCII: the letters, the dotted
    capital I and the Kelvin sign; the other runes stay outside ASCII. *)
Fixpoint ToLower (s : bytes) : bytes :=
  match s with
  | xc4 :: xb0 :: s' => x69 :: ToLower s'
  | xe2 :: x84 :: xaa :: s' => x6b :: ToLower s'
  | b :: s' => lower_byte b :: ToLower s'
  | [] => []
  end.

Definition digit (b : byte) : option Z :=
  let z := Z_of_byte b - 48 in if (0 <=? z) && (z <=? 9) then Some z else None.

Fixpoint parse_digits (acc : Z) (s : bytes) : option Z :=
  match s with
  | [] => Some acc
  | b :: s' => d ← digit b; parse_digits (acc * 10 + d) s'
  end.

(** [strconv.ParseUint(s, 10, 64)] *)
Definition ParseUint (s : bytes) : option Z :=
  match s with
  | [] => None
  | _ => n ← parse_digits 0 s; if n <? 2 ^ 64 then Some n else None
  end.

(** [strconv.Atoi] *)
Definition Atoi (s : bytes) : option Z :=
  let signed neg rest :=
    match rest with
    | [] => None
    | _ => n ← parse_digits 0 rest;
           let v := if neg : bool then - n else n in
           if (- 2 ^ 63 <=? v) && (v <? 2 ^ 63) then Some v else None
    end in
  match s with
  | x2b :: rest => signed false rest
  | x2d :: rest => signed true rest
  | _ => signed false s
  end.

Definition hex_digit (z : Z) : byte := byte_of_Z (if z <? 10 then 48 + z else 87 + z).
Definition EncodeToString (s : bytes) : bytes :=
  flat_map (fun b => [hex_digit (Z_of_byte b / 16); hex_digit (Z_of_byte b mod 16)]) s.

(** The width of the rune at the front of a string, as [range] decodes it: 1 for
    a byte that starts no valid encoding. *)
Definition rune_width (s : bytes) : nat :=
  let byte_at i := match s !! i with Some b => Z_of_byte b | None => -1 end in
  let within lo hi z := (lo <=? z) && (z <=? hi) in
  let cont i := within 128 191 (byte_at i) in
  let a := byte_at 0%nat in
  let b := byte_at 1%nat in
  if within 194 223 a && cont 1%nat then 2%nat
  else if ((within 224 224 a && within 160 191 b) || (within 237 237 a && within 128 159 b)
           || ((within 225 236 a || within 238 239 a) && cont 1%nat)) && cont 2%nat then 3%nat
  else if ((within 240 240 a && within 144 191 b) || (within 241 243 a && cont 1%nat)
           || (within 244 244 a && within 128 143 b)) && cont 2%nat && cont 3%nat then 4%nat
  else 1%nat.

Definition path_char (b : byte) : bool :=
  let z := Z_of_byte b in
  ((97 <=? z) && (z <=? 122)) || ((65 <=? z) && (z <=? 90)) || ((48 <=? z) && (z <=? 57))
  || (z =? 45) || (z =? 95) || (z =? 46).

(** The loop over the runes, at most one for each byte. *)
Fixpoint sanitize_loop (fuel : nat) (s : bytes) : bytes :=
  match fuel, s with
  | S fuel', b :: _ =>
      (if bool_decide (rune_width s = 1%nat) && path_char b then b else x5f)
      :: sanitize_loop fuel' (drop (rune_width s) s)
  | _, _ => []
  end.

Definition sanitizePathComponent (s : bytes) : bytes :=
  if bool_decide (s = []) then text "unknown" else sanitize_loop (length s) s.

(** ** Configuration *)

Section config.
Context {os : OS}.

Definition envOr (name : string) (fallback : bytes) : bytes :=
  let v := os_Getenv (text name) in if bool_decide (v = []) then fallback else v.

Definition envInt (name : string) (fallback : Z) : Z :=
  let v := os_Getenv (text name) in
  if bool_decide (v = []) then fallback else default fallback (Atoi v).

Definition envUint64 (name : string) (fallback : Z) : Z :=
  let v := TrimSpace (os_Getenv (text name)) in
  if bool_decide (v = []) then fallback else default fallback (ParseUint v).

Definition envBool (name : string) (fallback : bool) : bool :=
  let v := TrimSpace (ToLower (os_Getenv (text name))) in
  if bool_decide (v ∈ truthy) then true
  else if bool_decide (v ∈ falsy) then false else fallback.
End config.

(** ** Tampering *)

Definition normalizeProofTamperMode (raw : bytes) : Outcome bytes :=
  let mode := ToLower (TrimSpace raw) in
  if bool_decide (mode = []) || bool_decide (mode = text "none") then Ok []
  else if bool_decide (mode = text "truncate") then Ok (text "truncate")
  else if bool_decide (mode = text "flip-last-byte") then Ok (text "flip-last-byte")
  else Err (ErrMessage "invalid PROOF_TAMPER_MODE").

Definition flip_last (s : bytes) : bytes :=
  match rev s with
  | b :: r => rev (byte_of_Z (Z.lxor (Z_of_byte b) 1) :: r)
  | [] => []
  end.

Definition tamperProofEnvelope (proof mode : bytes) : Outcome bytes :=
  if bool_decide (mode = []) then Ok proof
  else if bool_decide (mode = text "truncate") then
    if len proof <=? 1 then Err (ErrMessage "cannot truncate proof envelope of length %d")
    else
      let cut := len proof / 2 in
      let cut := if cut <? 12 then len proof - 1 else cut in
      Ok (take (Z.to_nat cut) proof)
  else if bool_decide (mode = text "flip-last-byte") then
    if len proof =? 0 then Err (ErrMessage "cannot flip byte in empty proof envelope")
    else Ok (flip_last proof)
  else Err (ErrMessage "unsupported proof tamper mode %q").

(** ** Payloads *)

(** [make([]byte, n)] and a loop that sets every byte. *)
Definition make_bytes (n : Z) (f : Z -> Z) : Outcome bytes :=
  if n <? 0 then Panic
  else Ok (map (fun i => byte_of_Z (f (Z.of_nat i))) (seq 0 (Z.to_nat n))).

Definition buildEnvelope (batchSize windowID : Z) : Outcome bytes :=
  let n := wrap_i64 (batchSize * 24) in
  let n := if n <? 96 then 96 else n in
  let n := if CommitOrder.MaxEnvelopeSize <? n then CommitOrder.MaxEnvelopeSize else n in
  make_bytes n (fun i => Z.land (wrap_i64 (wrap_i64 windowID + i * 17 + batchSize)) 255).

Definition buildRevealShare (batchSize windowID : Z) : Outcome bytes :=
  let n := wrap_i64 (96 + batchSize) in
  let n := if RevealBatch.MaxDecryptionShareSize <? n then RevealBatch.MaxDecryptionShareSize
           else n in
  make_bytes n (fun i => Z.land (wrap_i64 (i * 11 + wrap_i64 windowID + batchSize * 3)) 255).

(** The eight bytes of [v], least significant first. *)
Definition little_endian (v : Z) : bytes := rev (be 8 v).

Definition buildFillsHash (batchSize windowID : Z) (envelope reveal : bytes) : bytes :=
  let loops := Z.to_nat (wrap_i64 (50 + batchSize * 5)) in
  let chunk i :=
    let v := Z.lxor (Z.lxor (Z.of_nat i) windowID) (wrap_u64 batchSize) in
    envelope ++ reveal ++ little_endian v in
  array_bytes (Sum256 (flat_map chunk (seq 0 loops))).

(** [for i := 32; i < n; i++ { out[i] = out[i-32] ^ byte(...) }], [prev] the last
    32 bytes written. *)
Fixpoint extend_blob (fuel : nat) (i batchSize : Z) (prev : bytes) : bytes :=
  match fuel, prev with
  | S fuel', p :: rest =>
      let b := byte_of_Z (Z.lxor (Z_of_byte p) (Z.land (wrap_i64 (i * 13 + batchSize)) 255)) in
      b :: extend_blob fuel' (i + 1) batchSize (rest ++ [b])
  | _, _ => []
  end.

Definition buildProofBlob (batchSize windowID : Z) (fillsHash : bytes) : Outcome bytes :=
  let n := wrap_i64 (2048 + batchSize * 64) in
  let n := if MaxProofBytesSize <? n then MaxProofBytesSize else n in
  if n <? 32 then Panic
  else
    let seed := array_bytes (Sum256 (fillsHash ++ [byte_of_Z batchSize; byte_of_Z windowID])) in
    let out := seed ++ extend_blob (Z.to_nat n - 32) 32 batchSize seed in
    let acc := Nat.iter (Z.to_nat (wrap_i64 (80 + batchSize * 8)))
                 (fun acc => array_bytes (Sum256 acc)) seed in
    Ok (take (Z.to_nat n - 32) out ++ acc).

(** ** Fees *)

(** [unitPrices] has one price for each dimension. *)
Fixpoint maxFee_loop (maxFee : Z) (unitPrices : list Z) : Z :=
  match unitPrices with
  | [] => if maxFee <? 100000 then 100000 else maxFee
  | p :: rest =>
      if maxUint64 / 10000 <? p then maxUint64
      else
        let dimFee := wrap_u64 (p * 10000) in
        if maxUint64 - dimFee <? maxFee then maxUint64
        else maxFee_loop (wrap_u64 (maxFee + dimFee)) rest
  end.
Definition estimateMaxFee (unitPrices : list Z) : Z := maxFee_loop 0 unitPrices.

Definition plannedActionCount (batchSizes : list Z) (windowsPerSize : Z) : Z :=
  let perBatch := wrap_i64 (1 + 4 * windowsPerSize) in
  wrap_i64 (1 + Z.of_nat (List.length batchSizes) * perBatch).

Definition estimateRequiredBudget (txCount maxFee gasSafetyBps gasReserve : Z) : Z :=
  if txCount <=? 0 then gasReserve
  else
    let v := maxFee * txCount * gasSafetyBps / 10000 + gasReserve in
    if v <? 2 ^ 64 then v else maxUint64.

Definition saturatingAdd (a b : Z) : Z :=
  if maxUint64 - b <? a then maxUint64 else wrap_u64 (a + b).

(** ** The configuration of a run *)

Record benchConfig := mk_bench {
  NodeURL : bytes; ChainID : bytes; PrivateKeyHex : bytes; RefuelPrivateKeyHex : bytes;
  ProofConfigPrivateKeyHex : bytes; ProofConfigFallbackPrivateKeyHex : bytes;
  ProverAuthorityPrivateKeyHex : bytes; StrictFeePreflight : bool; OutputDir : bytes;
  ProofMode : bytes; ProofCircuitID : bytes; Groth16PKPath : bytes; Groth16CSCachePath : bytes;
  ProofTamperMode : bytes; BatchSizes : list Z; WindowsPerSize : Z; BatchWindowMs : Z;
  ProofDeadlineMs : Z; ProofSubmitDelayMs : Z; PrefundOnly : bool; TimeoutMinutes : Z;
  GasSafetyBps : Z; GasReserve : Z; RefuelAmount : Z
}.

(** The loop over the parts of the list. *)
Fixpoint batch_sizes (parts : list bytes) : Outcome (list Z) :=
  match parts with
  | [] => Ok []
  | p :: rest =>
      let p := TrimSpace p in
      if bool_decide (p = []) then batch_sizes rest
      else match Atoi p with
           | Some n =>
               let? _ := guard (n <=? 0) (ErrMessage "invalid batch size %q") in
               let? out := batch_sizes rest in
               Ok (n :: out)
           | None => Err (ErrMessage "invalid batch size %q")
           end
  end.

Definition parseBatchSizes (raw : bytes) : Outcome (list Z) :=
  let? out := batch_sizes (split_on x2c [] raw) in
  let? _ := guard (bool_decide (out = [])) (ErrMessage "no valid batch sizes") in
  Ok out.

Section load.
Context {os : OS}.

(** The paths that can be read, each with its content. *)
Definition fingerprint_input (paths : list bytes) : option bytes :=
  fold_left (fun acc p =>
    match os_ReadFile p with
    | Ok b => Some (default [] acc ++ p ++ [x00] ++ b ++ [x00])
    | _ => acc
    end) paths None.

Definition sourceFingerprintHex (paths : list bytes) : bytes :=
  match fingerprint_input paths with
  | None => text "nocache"
  | Some h => EncodeToString (take 6 (array_bytes (Sum256 h)))
  end.

Definition defaultGroth16CSCachePath (circuitID : bytes) : bytes :=
  let circuitSource :=
    if bool_decide (circuitID = ProofCircuitShieldedLedgerV1)
    then text "zk/shielded_ledger_circuit.go" else text "zk/clearhash_circuit.go" in
  let fingerprint := sourceFingerprintHex [text "go.mod"; text "go.sum"; circuitSource] in
  text ".cache/zkbench/groth16_" ++ sanitizePathComponent circuitID ++ text "_"
  ++ fingerprint ++ text ".ccs.bin".

(** The checks of the proof mode; the result is the path of the cache. *)
Definition check_mode (mode circuitID pkPath csPath : bytes) : Outcome bytes :=
  if bool_decide (mode = text "synthetic") then Ok csPath
  else if bool_decide (mode = text "groth16") then
    let? _ := guard (bool_decide (TrimSpace pkPath = []))
                    (ErrMessage "GROTH16_PK_PATH is required when PROOF_MODE=groth16") in
    let? _ := guard (negb (isSupportedCircuitID circuitID))
                    (ErrMessage "invalid PROOF_CIRCUIT_ID") in
    Ok (if bool_decide (csPath = []) then defaultGroth16CSCachePath circuitID else csPath)
  else Err (ErrMessage "invalid PROOF_MODE").

Definition trimmed (name : string) : bytes := TrimSpace (os_Getenv (text name)).

Definition loadConfig : Outcome benchConfig :=
  let chainID := os_Getenv (text "CHAIN_ID") in
  let mode := ToLower (envOr "PROOF_MODE" (text "synthetic")) in
  let circuitID := TrimSpace (envOr "PROOF_CIRCUIT_ID" ProofCircuitClearHashV1) in
  let pkPath := os_Getenv (text "GROTH16_PK_PATH") in
  let windowMs := envInt "BATCH_WINDOW_MS" 5000 in
  let deadlineMs := envInt "PROOF_DEADLINE_MS" 10000 in
  let delayMs := envInt "PROOF_SUBMIT_DELAY_MS" 0 in
  let safety := envUint64 "GAS_SAFETY_BPS" defaultGasSafetyBps in
  let reserve := envUint64 "GAS_RESERVE" defaultGasReserve in
  let refuel := envUint64 "REFUEL_AMOUNT" defaultRefuelAmount in
  let? _ := guard (bool_decide (chainID = [])) (ErrMessage "CHAIN_ID is required") in
  let? csPath := check_mode mode circuitID pkPath (trimmed "GROTH16_CCS_CACHE_PATH") in
  let? tamper := normalizeProofTamperMode (trimmed "PROOF_TAMPER_MODE") in
  let? batchSizes := parseBatchSizes (envOr "BATCH_SIZES" (text "32,64,96,128")) in
  Ok {| NodeURL := envOr "NODE_URL" defaultNodeURL; ChainID := chainID;
        PrivateKeyHex := envOr "PRIVATE_KEY" defaultKeyHex;
        RefuelPrivateKeyHex := trimmed "REFUEL_PRIVATE_KEY";
        ProofConfigPrivateKeyHex := trimmed "PROOF_CONFIG_PRIVATE_KEY";
        ProofConfigFallbackPrivateKeyHex := trimmed "PROOF_CONFIG_FALLBACK_PRIVATE_KEY";
        ProverAuthorityPrivateKeyHex := trimmed "PROVER_AUTHORITY_PRIVATE_KEY";
        StrictFeePreflight := envBool "STRICT_FEE_PREFLIGHT" false;
        OutputDir := envOr "OUTPUT_DIR" (text "zkbench-out");
        ProofMode := mode; ProofCircuitID := circuitID; Groth16PKPath := pkPath;
        Groth16CSCachePath := csPath; ProofTamperMode := tamper; BatchSizes := batchSizes;
        WindowsPerSize := envInt "WINDOWS_PER_SIZE" 25; BatchWindowMs := windowMs;
        ProofDeadlineMs := if deadlineMs <=? windowMs then wrap_i64 (windowMs + 1000)
                           else deadlineMs;
        ProofSubmitDelayMs := if delayMs <? 0 then 0 else delayMs;
        PrefundOnly := envBool "PREFUND_ONLY" false;
        TimeoutMinutes := envInt "TIMEOUT_MINUTES" 60;
        GasSafetyBps := if safety <? 10000 then 10000 else safety;
        GasReserve := if reserve =? 0 then defaultGasReserve else reserve;
        RefuelAmount := if refuel =? 0 then defaultRefuelAmount else refuel |}.
End load.

(** ** Proof builders *)

(** What the builders use of [gnark]'s Groth16 backend. *)
Class Prover {F : Frontend} : Type := {
  FullWitness : Type; PublicWitness : Type; ConstraintSystem : Type; ProvingKey : Type;
  GProof : Type;
  frontend_Compile : ZkTool.CircuitKind -> Outcome ConstraintSystem;
  CS_ReadFrom : bytes -> Outcome ConstraintSystem;
  PK_ReadFrom : bytes -> Outcome ProvingKey;
  frontend_NewWitness : Circuit -> Outcome FullWitness;
  fullWitness_Public : FullWitness -> Outcome PublicWitness;
  MarshalBinary : PublicWitness -> Outcome bytes;
  groth16_Prove : ConstraintSystem -> ProvingKey -> FullWitness -> Outcome GProof;
  GProof_WriteTo : GProof -> Outcome bytes
}.

Section builders.
Context {os : OS} {F : Frontend} {PV : Prover}.

Inductive proofBuilder :=
| Synthetic
| Groth16 (ccs : ConstraintSystem) (pk : ProvingKey) (circuitID : bytes).

Definition assignment_for (circuitID preimage publicInputsHash : bytes) : Outcome Circuit :=
  if bool_decide (circuitID = ProofCircuitClearHashV1)
  then NewClearHashAssignment preimage publicInputsHash
  else if bool_decide (circuitID = ProofCircuitShieldedLedgerV1)
  then NewShieldedLedgerAssignment preimage publicInputsHash
  else Err (ErrMessage "unsupported circuit id %q").

(** The payload; the time it took is a measurement. *)
Definition Build (b : proofBuilder) (publicInputsHash preimage : bytes)
    (batchSize windowID : Z) (fillsHash : bytes) : Outcome bytes :=
  match b with
  | Synthetic => buildProofBlob batchSize windowID fillsHash
  | Groth16 ccs pk circuitID =>
      let? assignment := assignment_for circuitID preimage publicInputsHash in
      let? fullWitness := frontend_NewWitness assignment in
      let? publicWitness := fullWitness_Public fullWitness in
      let? publicWitnessBytes := MarshalBinary publicWitness in
      let? proof := groth16_Prove ccs pk fullWitness in
      let? proofBytes := GProof_WriteTo proof in
      BuildProofEnvelopeWithCircuit ProofTypeGroth16 circuitID proofBytes publicWitnessBytes
  end.

Definition Description (b : proofBuilder) : string :=
  match b with
  | Synthetic => "synthetic"
  | Groth16 _ _ circuitID =>
      if bool_decide (circuitID = ProofCircuitShieldedLedgerV1)
      then "groth16-shielded-ledger-v1" else "groth16-clearhash-v1"
  end%string.

Definition loadGroth16ProvingKey (path : bytes) : Outcome ProvingKey :=
  let? f := os_ReadFile path in PK_ReadFrom f.
Definition loadGroth16ConstraintSystem (path : bytes) : Outcome ConstraintSystem :=
  let? f := os_ReadFile path in CS_ReadFrom f.

(** ** One window of a run *)

Record Window := mk_window {
  w_commit : CommitOrder.t; w_reveal : RevealBatch.t; w_fills : bytes;
  w_price : Z; w_volume : Z; w_hash : Hash; w_preimage : bytes
}.

(** The public inputs of the configured circuit. *)
Definition public_inputs (circuitID : bytes) (marketID : ID) (windowID price volume : Z)
    (fillsHash : bytes) : Hash * bytes :=
  if bool_decide (circuitID = ProofCircuitShieldedLedgerV1)
  then (ComputeShieldedLedgerPublicInputsHash marketID windowID price volume fillsHash,
        BuildShieldedLedgerPublicInputsPreimage marketID windowID price volume fillsHash)
  else (ComputeClearPublicInputsHash marketID windowID price volume fillsHash,
        BuildClearPublicInputsPreimage marketID windowID price volume fillsHash).

(** What the loop computes for window [i] before it asks for a proof. *)
Definition prepare_window (circuitID : bytes) (marketID : ID) (batchSize i : Z)
    : Outcome Window :=
  let windowID := wrap_u64 i in
  let? envelope := buildEnvelope batchSize windowID in
  let? reveal := buildRevealShare batchSize windowID in
  let fillsHash := buildFillsHash batchSize windowID envelope reveal in
  let clearPrice := wrap_u64 (1000 + Z.rem i 97) in
  let totalVolume := wrap_u64 (batchSize * 100) in
  let '(hash, preimage) :=
    public_inputs circuitID marketID windowID clearPrice totalVolume fillsHash in
  Ok (mk_window
        (CommitOrder.mk marketID windowID envelope (array_bytes (Sum256 envelope)))
        (RevealBatch.mk marketID windowID reveal 1) fillsHash clearPrice totalVolume
        hash preimage).

Definition w_market (w : Window) : ID := CommitOrder.MarketID (w_commit w).
Definition w_id (w : Window) : Z := CommitOrder.WindowID (w_commit w).

(** The end of the window the proof names. *)
Definition window_close (acceptedTs batchWindowMs : Z) : Outcome Z :=
  if batchWindowMs =? 0 then Panic
  else
    let windowClose := acceptedTs - Z.rem acceptedTs batchWindowMs in
    Ok (if windowClose <=? 0 then acceptedTs else windowClose).

(** The payload submitted, tampered with when the configuration says so. *)
Definition window_proof (tamperMode : bytes) (b : proofBuilder) (batchSize : Z) (w : Window)
    : Outcome bytes :=
  let? proof := Build b (array_bytes (w_hash w)) (w_preimage w) batchSize (w_id w) (w_fills w) in
  if bool_decide (tamperMode = []) then Ok proof else tamperProofEnvelope proof tamperMode.

Definition submit_of (w : Window) (windowClose : Z) (proof : bytes) : SubmitBatchProof.t :=
  SubmitBatchProof.mk (w_market w) (w_id w) windowClose ProofTypeGroth16
    (array_bytes (w_hash w)) (w_fills w) proof.

Definition clear_of (w : Window) : ClearBatch.t :=
  ClearBatch.mk (w_market w) (w_id w) (w_price w) (w_volume w) (w_fills w).
End builders.

(** The expiry of a transaction: a minute after the later of the accepted time
    and the clock, on a full second. *)
Definition tx_expiry (acceptedTs nowMs : Z) : Z :=
  let anchor := if acceptedTs <? nowMs then nowMs else acceptedTs in
  let expiry := Z.quot (anchor + 60000) 1000 * 1000 in
  if expiry <=? anchor then (Z.quot anchor 1000 + 61) * 1000 else expiry.
