(* ===== verification/Chain.v ===== *)
(** * The action registry and one execution

    [vm/vm.go] registers the nineteen actions of [actions/] with a type parser;
    the platform parses a transaction's actions with it, asks each for its state
    keys and its compute units, and executes it on a view of the state. This
    file is that dispatch: the sum of the action types, and the methods of the
    [chain.Action] interface by case. *)
From S2P Require Import Prelude Errors Go Platform Storage Balance Action Transfer.
From S2P Require Import ProofEnvelope Pools Vai Treasury Metrics Markets Proofs.

(** A registered action. *)
Inductive ChainAction : Type :=
| ATransfer (a : Transfer.t)
| ACreateMarket (a : CreateMarket.t)
| ACommitOrder (a : CommitOrder.t)
| ARevealBatch (a : RevealBatch.t)
| AClearBatch (a : ClearBatch.t)
| AResolveMarket (a : ResolveMarket.t)
| ADispute (a : Dispute.t)
| ARouteFees (a : RouteFees.t)
| AReleaseCOLTranche (a : ReleaseCOLTranche.t)
| AMintVAI (a : MintVAI.t)
| ABurnVAI (a : BurnVAI.t)
| ACreatePool (a : CreatePool.t)
| AAddLiquidity (a : AddLiquidity.t)
| ARemoveLiquidity (a : RemoveLiquidity.t)
| ASwapExactIn (a : SwapExactIn.t)
| AUpdateReserveState (a : UpdateReserveState.t)
| ASetRiskParams (a : SetRiskParams.t)
| ASubmitBatchProof (a : SubmitBatchProof.t)
| ASetProofConfig (a : SetProofConfig.t).

(** What an execution takes from the process around it: the configured verifier
    and the readings of the clock that only the metrics see. *)
Record Env := mk_env { env_verifier : VerifierConfig; env_clock : Clock }.

(** [hypersdk/codec.TypeParser]: a table of registered unmarshalling functions,
    by type byte. The documented behaviour of its [Unmarshal] is the law: bytes
    that start with the type byte of a registered function go to it. *)
Class TypeParser : Type := {
  tp_Unmarshal {A} : list (Z * (bytes -> Outcome A)) -> bytes -> Outcome A;
  tp_Unmarshal_registered {A} (table : list (Z * (bytes -> Outcome A))) id f b0 rest :
    NoDup table.*1 -> (id, f) ∈ table -> Z_of_byte b0 = id ->
    tp_Unmarshal table (b0 :: rest) = f (b0 :: rest)
}.

Definition outcome_map {A B} (f : A -> B) (o : Outcome A) : Outcome B := let? a := o in Ok (f a).

Section dispatch.
Context {PF : Platform}.

Definition GetTypeID (act : ChainAction) : Z :=
  match act with
  | ATransfer _ => Transfer.GetTypeID
  | ACreateMarket _ => CreateMarket.GetTypeID
  | ACommitOrder _ => CommitOrder.GetTypeID
  | ARevealBatch _ => RevealBatch.GetTypeID
  | AClearBatch _ => ClearBatch.GetTypeID
  | AResolveMarket _ => ResolveMarket.GetTypeID
  | ADispute _ => Dispute.GetTypeID
  | ARouteFees _ => RouteFees.GetTypeID
  | AReleaseCOLTranche _ => ReleaseCOLTranche.GetTypeID
  | AMintVAI _ => MintVAI.GetTypeID
  | ABurnVAI _ => BurnVAI.GetTypeID
  | ACreatePool _ => CreatePool.GetTypeID
  | AAddLiquidity _ => AddLiquidity.GetTypeID
  | ARemoveLiquidity _ => RemoveLiquidity.GetTypeID
  | ASwapExactIn _ => SwapExactIn.GetTypeID
  | AUpdateReserveState _ => UpdateReserveState.GetTypeID
  | ASetRiskParams _ => SetRiskParams.GetTypeID
  | ASubmitBatchProof _ => SubmitBatchProof.GetTypeID
  | ASetProofConfig _ => SetProofConfig.GetTypeID
  end.

Definition ComputeUnits (act : ChainAction) : Z :=
  match act with
  | ATransfer _ => Transfer.ComputeUnits
  | ACreateMarket _ => CreateMarket.ComputeUnits
  | ACommitOrder _ => CommitOrder.ComputeUnits
  | ARevealBatch _ => RevealBatch.ComputeUnits
  | AClearBatch _ => ClearBatch.ComputeUnits
  | AResolveMarket _ => ResolveMarket.ComputeUnits
  | ADispute _ => Dispute.ComputeUnits
  | ARouteFees _ => RouteFees.ComputeUnits
  | AReleaseCOLTranche _ => ReleaseCOLTranche.ComputeUnits
  | AMintVAI _ => MintVAI.ComputeUnits
  | ABurnVAI _ => BurnVAI.ComputeUnits
  | ACreatePool _ => CreatePool.ComputeUnits
  | AAddLiquidity _ => AddLiquidity.ComputeUnits
  | ARemoveLiquidity _ => RemoveLiquidity.ComputeUnits
  | ASwapExactIn _ => SwapExactIn.ComputeUnits
  | AUpdateReserveState _ => UpdateReserveState.ComputeUnits
  | ASetRiskParams _ => SetRiskParams.ComputeUnits
  | ASubmitBatchProof _ => SubmitBatchProof.ComputeUnits
  | ASetProofConfig _ => SetProofConfig.ComputeUnits
  end.

Definition ValidRange (act : ChainAction) : Z * Z :=
  match act with
  | ATransfer _ => Transfer.ValidRange
  | ACreateMarket _ => CreateMarket.ValidRange
  | ACommitOrder _ => CommitOrder.ValidRange
  | ARevealBatch _ => RevealBatch.ValidRange
  | AClearBatch _ => ClearBatch.ValidRange
  | AResolveMarket _ => ResolveMarket.ValidRange
  | ADispute _ => Dispute.ValidRange
  | ARouteFees _ => RouteFees.ValidRange
  | AReleaseCOLTranche _ => ReleaseCOLTranche.ValidRange
  | AMintVAI _ => MintVAI.ValidRange
  | ABurnVAI _ => BurnVAI.ValidRange
  | ACreatePool _ => CreatePool.ValidRange
  | AAddLiquidity _ => AddLiquidity.ValidRange
  | ARemoveLiquidity _ => RemoveLiquidity.ValidRange
  | ASwapExactIn _ => SwapExactIn.ValidRange
  | AUpdateReserveState _ => UpdateReserveState.ValidRange
  | ASetRiskParams _ => SetRiskParams.ValidRange
  | ASubmitBatchProof _ => SubmitBatchProof.ValidRange
  | ASetProofConfig _ => SetProofConfig.ValidRange
  end.

Definition StateKeys (act : ChainAction) (actor : Address) (actionID : ID)
    : gmap bytes Permissions :=
  match act with
  | ATransfer a => Transfer.StateKeys a actor actionID
  | ACreateMarket a => CreateMarket.StateKeys a actor actionID
  | ACommitOrder a => CommitOrder.StateKeys a actor actionID
  | ARevealBatch a => RevealBatch.StateKeys a actor actionID
  | AClearBatch a => ClearBatch.StateKeys a actor actionID
  | AResolveMarket a => ResolveMarket.StateKeys a actor actionID
  | ADispute a => Dispute.StateKeys a actor actionID
  | ARouteFees a => RouteFees.StateKeys a actor actionID
  | AReleaseCOLTranche a => ReleaseCOLTranche.StateKeys a actor actionID
  | AMintVAI a => MintVAI.StateKeys a actor actionID
  | ABurnVAI a => BurnVAI.StateKeys a actor actionID
  | ACreatePool a => CreatePool.StateKeys a actor actionID
  | AAddLiquidity a => AddLiquidity.StateKeys a actor actionID
  | ARemoveLiquidity a => RemoveLiquidity.StateKeys a actor actionID
  | ASwapExactIn a => SwapExactIn.StateKeys a actor actionID
  | AUpdateReserveState a => UpdateReserveState.StateKeys a actor actionID
  | ASetRiskParams a => SetRiskParams.StateKeys a actor actionID
  | ASubmitBatchProof a => SubmitBatchProof.StateKeys a actor actionID
  | ASetProofConfig a => SetProofConfig.StateKeys a actor actionID
  end.

Definition Bytes (act : ChainAction) : Outcome bytes :=
  match act with
  | ATransfer a => Transfer.Bytes a
  | ACreateMarket a => CreateMarket.Bytes a
  | ACommitOrder a => CommitOrder.Bytes a
  | ARevealBatch a => RevealBatch.Bytes a
  | AClearBatch a => ClearBatch.Bytes a
  | AResolveMarket a => ResolveMarket.Bytes a
  | ADispute a => Dispute.Bytes a
  | ARouteFees a => RouteFees.Bytes a
  | AReleaseCOLTranche a => ReleaseCOLTranche.Bytes a
  | AMintVAI a => MintVAI.Bytes a
  | ABurnVAI a => BurnVAI.Bytes a
  | ACreatePool a => CreatePool.Bytes a
  | AAddLiquidity a => AddLiquidity.Bytes a
  | ARemoveLiquidity a => RemoveLiquidity.Bytes a
  | ASwapExactIn a => SwapExactIn.Bytes a
  | AUpdateReserveState a => UpdateReserveState.Bytes a
  | ASetRiskParams a => SetRiskParams.Bytes a
  | ASubmitBatchProof a => SubmitBatchProof.Bytes a
  | ASetProofConfig a => SetProofConfig.Bytes a
  end.

(** The ranges of the fields' Go types. *)
Definition action_ok (act : ChainAction) : Prop :=
  match act with
  | ATransfer a => s_ok a
  | ACreateMarket a => s_ok a
  | ACommitOrder a => s_ok a
  | ARevealBatch a => s_ok a
  | AClearBatch a => s_ok a
  | AResolveMarket a => s_ok a
  | ADispute a => s_ok a
  | ARouteFees a => s_ok a
  | AReleaseCOLTranche a => s_ok a
  | AMintVAI a => s_ok a
  | ABurnVAI a => s_ok a
  | ACreatePool a => s_ok a
  | AAddLiquidity a => s_ok a
  | ARemoveLiquidity a => s_ok a
  | ASwapExactIn a => s_ok a
  | AUpdateReserveState a => s_ok a
  | ASetRiskParams a => s_ok a
  | ASubmitBatchProof a => s_ok a
  | ASetProofConfig a => s_ok a
  end.

(** Lines 36-56 of [vm.go]: [ActionParser.Register], in order. *)
Definition ActionTable : list (Z * (bytes -> Outcome ChainAction)) :=
  [(Transfer.GetTypeID, fun b => outcome_map ATransfer (Transfer.Unmarshal b));
   (CreateMarket.GetTypeID, fun b => outcome_map ACreateMarket (CreateMarket.Unmarshal b));
   (CommitOrder.GetTypeID, fun b => outcome_map ACommitOrder (CommitOrder.Unmarshal b));
   (RevealBatch.GetTypeID, fun b => outcome_map ARevealBatch (RevealBatch.Unmarshal b));
   (ClearBatch.GetTypeID, fun b => outcome_map AClearBatch (ClearBatch.Unmarshal b));
   (ResolveMarket.GetTypeID, fun b => outcome_map AResolveMarket (ResolveMarket.Unmarshal b));
   (Dispute.GetTypeID, fun b => outcome_map ADispute (Dispute.Unmarshal b));
   (RouteFees.GetTypeID, fun b => outcome_map ARouteFees (RouteFees.Unmarshal b));
   (ReleaseCOLTranche.GetTypeID, fun b => outcome_map AReleaseCOLTranche (ReleaseCOLTranche.Unmarshal b));
   (MintVAI.GetTypeID, fun b => outcome_map AMintVAI (MintVAI.Unmarshal b));
   (BurnVAI.GetTypeID, fun b => outcome_map ABurnVAI (BurnVAI.Unmarshal b));
   (CreatePool.GetTypeID, fun b => outcome_map ACreatePool (CreatePool.Unmarshal b));
   (AddLiquidity.GetTypeID, fun b => outcome_map AAddLiquidity (AddLiquidity.Unmarshal b));
   (RemoveLiquidity.GetTypeID, fun b => outcome_map ARemoveLiquidity (RemoveLiquidity.Unmarshal b));
   (SwapExactIn.GetTypeID, fun b => outcome_map ASwapExactIn (SwapExactIn.Unmarshal b));
   (UpdateReserveState.GetTypeID, fun b => outcome_map AUpdateReserveState (UpdateReserveState.Unmarshal b));
   (SetRiskParams.GetTypeID, fun b => outcome_map ASetRiskParams (SetRiskParams.Unmarshal b));
   (SubmitBatchProof.GetTypeID, fun b => outcome_map ASubmitBatchProof (SubmitBatchProof.Unmarshal b));
   (SetProofConfig.GetTypeID, fun b => outcome_map ASetProofConfig (SetProofConfig.Unmarshal b))].

Definition ParseAction `{!TypeParser} (b : bytes) : Outcome ChainAction :=
  tp_Unmarshal ActionTable b.

Context {M : Type} {MU : Mutable M} {TX : Text}.

Definition Execute (env : Env) (act : ChainAction) (timestamp : Z) (actor : Address)
    (actionID : ID) : ST (M * zkMetricsCollector) bytes :=
  match act with
  | ATransfer a => Transfer.Execute a timestamp actor actionID
  | ACreateMarket a => CreateMarket.Execute a timestamp actor actionID
  | ACommitOrder a => CommitOrder.Execute (clk_exec (env_clock env)) a timestamp actor actionID
  | ARevealBatch a => RevealBatch.Execute (clk_exec (env_clock env)) a timestamp actor actionID
  | AClearBatch a => ClearBatch.Execute (env_verifier env) (env_clock env) a timestamp actor actionID
  | AResolveMarket a => ResolveMarket.Execute a timestamp actor actionID
  | ADispute a => Dispute.Execute a timestamp actor actionID
  | ARouteFees a => RouteFees.Execute a timestamp actor actionID
  | AReleaseCOLTranche a => ReleaseCOLTranche.Execute a timestamp actor actionID
  | AMintVAI a => MintVAI.Execute a timestamp actor actionID
  | ABurnVAI a => BurnVAI.Execute a timestamp actor actionID
  | ACreatePool a => CreatePool.Execute a timestamp actor actionID
  | AAddLiquidity a => AddLiquidity.Execute a timestamp actor actionID
  | ARemoveLiquidity a => RemoveLiquidity.Execute a timestamp actor actionID
  | ASwapExactIn a => SwapExactIn.Execute a timestamp actor actionID
  | AUpdateReserveState a => UpdateReserveState.Execute a timestamp actor actionID
  | ASetRiskParams a => SetRiskParams.Execute a timestamp actor actionID
  | ASubmitBatchProof a => SubmitBatchProof.Execute (env_verifier env) (env_clock env) a timestamp actor actionID
  | ASetProofConfig a => SetProofConfig.Execute a timestamp actor actionID
  end.
End dispatch.
