(* ===== verification/Wire.v ===== *)
(** * Actions on the wire

    What an action's [Bytes] produced, the registered parser reads back as the
    same action, for each of the nineteen type bytes; a memo or a question past
    its limit, which [Bytes] does not look at, it refuses. *)
From S2P Require Import Prelude Errors Go Platform Storage Concrete Balance Action Transfer.
From S2P Require Import ProofEnvelope Pools Vai Treasury Metrics Markets Proofs Chain.

(** The limits two of the unmarshalling functions enforce themselves, with the
    error past them. *)
Definition text_error (act : ChainAction) : option Error :=
  match act with
  | ATransfer a =>
      if Transfer.MaxMemoSize <? len (Transfer.Memo a) then Some ErrOutputMemoTooLarge else None
  | ACreateMarket a =>
      if CreateMarket.MaxQuestionSize <? len (CreateMarket.Question a)
      then Some ErrQuestionTooLarge else None
  | _ => None
  end.

Definition or_error {A} (a : A) (e : option Error) : Outcome A :=
  match e with None => Ok a | Some e => Err e end.

Lemma guard_or_error {A B} (f : A -> B) (b : bool) e (a : A) :
  outcome_map f (let? _ := guard b e in Ok a) = or_error (f a) (if b then Some e else None).
Proof. by destruct b. Qed.

Lemma ActionTable_NoDup {PF : Platform} : NoDup ActionTable.*1.
Proof. apply (bool_decide_unpack _). vm_compute. exact I. Qed.

Section wire.
Context {PF : Platform} {PS : PlatformSpec} {TP : TypeParser}.

(** Parsing is the registered function of the action's own type. *)
Lemma parse_registered id f b r :
  In (id, f) ActionTable -> (exists b0 rest, b = b0 :: rest /\ Z_of_byte b0 = id) ->
  f b = r -> ParseAction b = r.
Proof.
  intros Hin (b0 & rest & -> & Hb) Hf. unfold ParseAction.
  erewrite tp_Unmarshal_registered; [exact Hf|apply ActionTable_NoDup|by apply list_elem_of_In|done].
Qed.

Lemma pack_head `{!Struct A} id maxSize (a : A) b :
  s_ok a -> u8 id -> 0 < maxSize -> pack id maxSize a = Ok b ->
  exists b0 rest, b = b0 :: rest /\ Z_of_byte b0 = id.
Proof.
  intros Ha Hid Hm H. pose proof (unpack_pack _ _ _ _ Ha Hid Hm H) as Hu.
  by eapply unpack_type_byte.
Qed.

(** One row of the table. *)
Lemma wire_one `{!Struct A} id maxSize (C : A -> ChainAction) (U : bytes -> Outcome A) a b r :
  In (id, fun b => outcome_map C (U b)) ActionTable -> u8 id -> 0 < maxSize ->
  s_ok a -> pack id maxSize a = Ok b -> (unpack id b = Ok a -> outcome_map C (U b) = r) ->
  ParseAction b = r.
Proof.
  intros Hin Hid Hm Ha Hp HU. eapply parse_registered; [exact Hin|by eapply pack_head|].
  apply HU. by eapply unpack_pack.
Qed.

(** A row whose unmarshalling function is [unpack], possibly followed by a
    limit. *)
Ltac wire id C U Hb :=
  eapply (wire_one id _ C U); [| | | eassumption | exact Hb | ];
  [ unfold ActionTable; cbn [In]; repeat (first [left; reflexivity | right])
  | by vm_compute | by vm_compute
  | intros Hu; unfold Transfer.Unmarshal, CreateMarket.Unmarshal;
    first [ rewrite Hu; cbn [obind text_error]; apply (guard_or_error C)
          | exact (f_equal (outcome_map C) Hu) ] ].

(** C27: the bytes [Bytes] makes of an action whose fields are values of their Go
    types are parsed back, through the table of [vm.go], to the same action;
    unless it is a transfer with a memo of more than 256 bytes or a market with
    a question of more than 1024, which have bytes too and are refused with the
    errors of their limits. *)
Theorem action_wire_roundtrip act b :
  action_ok act -> Bytes act = Ok b -> ParseAction b = or_error act (text_error act).
Proof.
  intros Ha Hb.
  destruct act as [a|a|a|a|a|a|a|a|a|a|a|a|a|a|a|a|a|a|a];
    cbn [action_ok Bytes] in *.
  - wire TransferID ATransfer Transfer.Unmarshal Hb.
  - wire CreateMarketID ACreateMarket CreateMarket.Unmarshal Hb.
  - wire CommitOrderID ACommitOrder CommitOrder.Unmarshal Hb.
  - wire RevealBatchID ARevealBatch RevealBatch.Unmarshal Hb.
  - wire ClearBatchID AClearBatch ClearBatch.Unmarshal Hb.
  - wire ResolveMarketID AResolveMarket ResolveMarket.Unmarshal Hb.
  - wire DisputeID ADispute Dispute.Unmarshal Hb.
  - wire RouteFeesID ARouteFees RouteFees.Unmarshal Hb.
  - wire ReleaseCOLTrancheID AReleaseCOLTranche ReleaseCOLTranche.Unmarshal Hb.
  - wire MintVAIID AMintVAI MintVAI.Unmarshal Hb.
  - wire BurnVAIID ABurnVAI BurnVAI.Unmarshal Hb.
  - wire CreatePoolID ACreatePool CreatePool.Unmarshal Hb.
  - wire AddLiquidityID AAddLiquidity AddLiquidity.Unmarshal Hb.
  - wire RemoveLiquidityID ARemoveLiquidity RemoveLiquidity.Unmarshal Hb.
  - wire SwapExactInID ASwapExactIn SwapExactIn.Unmarshal Hb.
  - wire UpdateReserveStateID AUpdateReserveState UpdateReserveState.Unmarshal Hb.
  - wire SetRiskParamsID ASetRiskParams SetRiskParams.Unmarshal Hb.
  - wire SubmitBatchProofID ASubmitBatchProof SubmitBatchProof.Unmarshal Hb.
  - wire SetProofConfigID ASetProofConfig SetProofConfig.Unmarshal Hb.
Qed.
End wire.

(** ** Evaluations *)

(** A parser with the documented behaviour: look the first byte up. *)
#[export, refine] Instance table_parser : TypeParser :=
  {| tp_Unmarshal A table b :=
       match b with
       | [] => Err (ErrExternal 5)
       | b0 :: _ =>
           match List.find (fun row => row.1 =? Z_of_byte b0) table with
           | Some row => row.2 b
           | None => Err (ErrExternal 6)
           end
       end |}.
Proof.
  intros A table id f b0 rest Hnd Hin <-.
  assert (Hf : List.find (fun row => row.1 =? Z_of_byte b0) table = Some (Z_of_byte b0, f)).
  { induction table as [|[id g] table IH]; [by apply not_elem_of_nil in Hin|].
    cbn in Hnd. apply list.NoDup_cons in Hnd as [Hid Hnd]. cbn.
    apply elem_of_cons in Hin as [[= <- ->]|Hin]; [by rewrite Z.eqb_refl|].
    destruct (Z.eqb_spec id (Z_of_byte b0)) as [->|]; [|by apply IH].
    destruct Hid. apply list_elem_of_fmap. by exists (Z_of_byte b0, f). }
  by rewrite Hf.
Defined.

Module Samples.
Definition commit : ChainAction :=
  ACommitOrder (CommitOrder.mk (mkt 3) 7 [x01; x02] [x09]).
Definition wire_bytes (act : ChainAction) : bytes :=
  match Bytes act with Ok b => b | _ => [] end.
Definition verbose : ChainAction :=
  ATransfer (Transfer.mk (addr 1) 5 (replicate 300 x41)).
End Samples.
Import Samples.

Lemma action_wire_roundtrip_witness :
  wire_bytes commit <> [] /\ ParseAction (wire_bytes commit) = Ok commit /\
  wire_bytes verbose <> [] /\ ParseAction (wire_bytes verbose) = Err ErrOutputMemoTooLarge.
Proof.
  split_and!; [by vm_compute| |by vm_compute|].
  - apply (action_wire_roundtrip commit (wire_bytes commit)); by vm_compute.
  - apply (action_wire_roundtrip verbose (wire_bytes verbose)); by vm_compute.
Defined.
