(* ===== verification/Results.v ===== *)
(** * The results of actions

    [vm/vm.go] registers a parser for the result of every action: the sum of the
    result types and the dispatch over it, and that the output of an execution
    is read back as the result it was made of. *)
From S2P Require Import Prelude Errors Go Platform Storage Concrete Balance Action Transfer.
From S2P Require Import ProofEnvelope Pools Vai Treasury Metrics Markets Proofs Chain Wire.

(** A registered result. *)
Inductive ChainResult : Type :=
| RTransfer (r : Transfer.Result.t)
| RCreateMarket (r : CreateMarket.Result.t)
| RCommitOrder (r : CommitOrder.Result.t)
| RRevealBatch (r : RevealBatch.Result.t)
| RClearBatch (r : ClearBatch.Result.t)
| RResolveMarket (r : ResolveMarket.Result.t)
| RDispute (r : Dispute.Result.t)
| RRouteFees (r : RouteFees.Result.t)
| RReleaseCOLTranche (r : ReleaseCOLTranche.Result.t)
| RMintVAI (r : MintVAI.Result.t)
| RBurnVAI (r : BurnVAI.Result.t)
| RCreatePool (r : CreatePool.Result.t)
| RAddLiquidity (r : AddLiquidity.Result.t)
| RRemoveLiquidity (r : RemoveLiquidity.Result.t)
| RSwapExactIn (r : SwapExactIn.Result.t)
| RUpdateReserveState (r : UpdateReserveState.Result.t)
| RSetRiskParams (r : SetRiskParams.Result.t)
| RSubmitBatchProof (r : SubmitBatchProof.Result.t)
| RSetProofConfig (r : SetProofConfig.Result.t).

Section outputs.
Context {PF : Platform}.

(** [GetTypeID] of the results, which is that of the action. *)
Definition ResultTypeID (r : ChainResult) : Z :=
  match r with
  | RTransfer _ => TransferID
  | RCreateMarket _ => CreateMarketID
  | RCommitOrder _ => CommitOrderID
  | RRevealBatch _ => RevealBatchID
  | RClearBatch _ => ClearBatchID
  | RResolveMarket _ => ResolveMarketID
  | RDispute _ => DisputeID
  | RRouteFees _ => RouteFeesID
  | RReleaseCOLTranche _ => ReleaseCOLTrancheID
  | RMintVAI _ => MintVAIID
  | RBurnVAI _ => BurnVAIID
  | RCreatePool _ => CreatePoolID
  | RAddLiquidity _ => AddLiquidityID
  | RRemoveLiquidity _ => RemoveLiquidityID
  | RSwapExactIn _ => SwapExactInID
  | RUpdateReserveState _ => UpdateReserveStateID
  | RSetRiskParams _ => SetRiskParamsID
  | RSubmitBatchProof _ => SubmitBatchProofID
  | RSetProofConfig _ => SetProofConfigID
  end.

Definition ResultBytes (r : ChainResult) : bytes :=
  match r with
  | RTransfer r => Transfer.ResultBytes r
  | RCreateMarket r => CreateMarket.ResultBytes r
  | RCommitOrder r => CommitOrder.ResultBytes r
  | RRevealBatch r => RevealBatch.ResultBytes r
  | RClearBatch r => ClearBatch.ResultBytes r
  | RResolveMarket r => ResolveMarket.ResultBytes r
  | RDispute r => Dispute.ResultBytes r
  | RRouteFees r => RouteFees.ResultBytes r
  | RReleaseCOLTranche r => ReleaseCOLTranche.ResultBytes r
  | RMintVAI r => MintVAI.ResultBytes r
  | RBurnVAI r => BurnVAI.ResultBytes r
  | RCreatePool r => CreatePool.ResultBytes r
  | RAddLiquidity r => AddLiquidity.ResultBytes r
  | RRemoveLiquidity r => RemoveLiquidity.ResultBytes r
  | RSwapExactIn r => SwapExactIn.ResultBytes r
  | RUpdateReserveState r => UpdateReserveState.ResultBytes r
  | RSetRiskParams r => SetRiskParams.ResultBytes r
  | RSubmitBatchProof r => SubmitBatchProof.ResultBytes r
  | RSetProofConfig r => SetProofConfig.ResultBytes r
  end.

(** [OutputParser.Register], in order. *)
Definition OutputTable : list (Z * (bytes -> Outcome ChainResult)) :=
  [(TransferID, fun b => outcome_map RTransfer (Transfer.UnmarshalResult b));
   (CreateMarketID, fun b => outcome_map RCreateMarket (CreateMarket.UnmarshalResult b));
   (CommitOrderID, fun b => outcome_map RCommitOrder (CommitOrder.UnmarshalResult b));
   (RevealBatchID, fun b => outcome_map RRevealBatch (RevealBatch.UnmarshalResult b));
   (ClearBatchID, fun b => outcome_map RClearBatch (ClearBatch.UnmarshalResult b));
   (ResolveMarketID, fun b => outcome_map RResolveMarket (ResolveMarket.UnmarshalResult b));
   (DisputeID, fun b => outcome_map RDispute (Dispute.UnmarshalResult b));
   (RouteFeesID, fun b => outcome_map RRouteFees (RouteFees.UnmarshalResult b));
   (ReleaseCOLTrancheID, fun b => outcome_map RReleaseCOLTranche (ReleaseCOLTranche.UnmarshalResult b));
   (MintVAIID, fun b => outcome_map RMintVAI (MintVAI.UnmarshalResult b));
   (BurnVAIID, fun b => outcome_map RBurnVAI (BurnVAI.UnmarshalResult b));
   (CreatePoolID, fun b => outcome_map RCreatePool (CreatePool.UnmarshalResult b));
   (AddLiquidityID, fun b => outcome_map RAddLiquidity (AddLiquidity.UnmarshalResult b));
   (RemoveLiquidityID, fun b => outcome_map RRemoveLiquidity (RemoveLiquidity.UnmarshalResult b));
   (SwapExactInID, fun b => outcome_map RSwapExactIn (SwapExactIn.UnmarshalResult b));
   (UpdateReserveStateID, fun b => outcome_map RUpdateReserveState (UpdateReserveState.UnmarshalResult b));
   (SetRiskParamsID, fun b => outcome_map RSetRiskParams (SetRiskParams.UnmarshalResult b));
   (SubmitBatchProofID, fun b => outcome_map RSubmitBatchProof (SubmitBatchProof.UnmarshalResult b));
   (SetProofConfigID, fun b => outcome_map RSetProofConfig (SetProofConfig.UnmarshalResult b))].

Definition ParseOutput `{!TypeParser} (b : bytes) : Outcome ChainResult :=
  tp_Unmarshal OutputTable b.

(** The fields are values of their Go types, and marshalling, whose error
    [Bytes] ignores, succeeds. *)
Definition result_fits (r : ChainResult) : Prop :=
  match r with
  | RTransfer r => s_ok r /\ exists p, marshal_into TransferID Transfer.MaxTransferSize r = (Ok tt, p)
  | RCreateMarket r => s_ok r /\ exists p, marshal_into CreateMarketID CreateMarket.MaxCreateMarketSize r = (Ok tt, p)
  | RCommitOrder r => s_ok r /\ exists p, marshal_into CommitOrderID CommitOrder.MaxCommitOrderSize r = (Ok tt, p)
  | RRevealBatch r => s_ok r /\ exists p, marshal_into RevealBatchID RevealBatch.MaxRevealBatchSize r = (Ok tt, p)
  | RClearBatch r => s_ok r /\ exists p, marshal_into ClearBatchID ClearBatch.MaxClearBatchSize r = (Ok tt, p)
  | RResolveMarket r => s_ok r /\ exists p, marshal_into ResolveMarketID ResolveMarket.MaxResolveMarketSize r = (Ok tt, p)
  | RDispute r => s_ok r /\ exists p, marshal_into DisputeID Dispute.MaxDisputeSize r = (Ok tt, p)
  | RRouteFees r => s_ok r /\ exists p, marshal_into RouteFeesID RouteFees.MaxRouteFeesSize r = (Ok tt, p)
  | RReleaseCOLTranche r => s_ok r /\ exists p, marshal_into ReleaseCOLTrancheID ReleaseCOLTranche.MaxReleaseCOLTrancheSize r = (Ok tt, p)
  | RMintVAI r => s_ok r /\ exists p, marshal_into MintVAIID MintVAI.MaxMintVAISize r = (Ok tt, p)
  | RBurnVAI r => s_ok r /\ exists p, marshal_into BurnVAIID BurnVAI.MaxBurnVAISize r = (Ok tt, p)
  | RCreatePool r => s_ok r /\ exists p, marshal_into CreatePoolID CreatePool.MaxCreatePoolSize r = (Ok tt, p)
  | RAddLiquidity r => s_ok r /\ exists p, marshal_into AddLiquidityID AddLiquidity.MaxAddLiquiditySize r = (Ok tt, p)
  | RRemoveLiquidity r => s_ok r /\ exists p, marshal_into RemoveLiquidityID RemoveLiquidity.MaxRemoveLiquiditySize r = (Ok tt, p)
  | RSwapExactIn r => s_ok r /\ exists p, marshal_into SwapExactInID SwapExactIn.MaxSwapExactInSize r = (Ok tt, p)
  | RUpdateReserveState r => s_ok r /\ exists p, marshal_into UpdateReserveStateID UpdateReserveState.MaxUpdateReserveStateSize r = (Ok tt, p)
  | RSetRiskParams r => s_ok r /\ exists p, marshal_into SetRiskParamsID SetRiskParams.MaxSetRiskParamsSize r = (Ok tt, p)
  | RSubmitBatchProof r => s_ok r /\ exists p, marshal_into SubmitBatchProofID SubmitBatchProof.MaxSubmitBatchProofSize r = (Ok tt, p)
  | RSetProofConfig r => s_ok r /\ exists p, marshal_into SetProofConfigID SetProofConfig.MaxSetProofConfigSize r = (Ok tt, p)
  end.
End outputs.

(** ** Reading back *)

Lemma OutputTable_NoDup {PF : Platform} : NoDup OutputTable.*1.
Proof. apply (bool_decide_unpack _). vm_compute. exact I. Qed.

Section readback.
Context {PF : Platform} {PS : PlatformSpec} {TP : TypeParser}.

(** One row of the table. *)
Lemma output_one `{!Struct A} id maxSize (C : A -> ChainResult) (U : bytes -> Outcome A) r :
  In (id, fun b => outcome_map C (U b)) OutputTable -> u8 id -> 0 < maxSize -> s_ok r ->
  (exists p, marshal_into id maxSize r = (Ok tt, p)) -> (forall b, U b = unpack_result b) ->
  ParseOutput (pack_result id maxSize r) = Ok (C r).
Proof.
  intros Hin Hid Hm Hr [p Hp] HU. pose proof (unpack_result_pack _ _ _ _ Hr Hm Hp) as Hu.
  unfold pack_result in *. rewrite Hp in *. cbn [snd] in *.
  destruct (marshal_into_ok _ _ _ _ Hr Hm Hp) as (w & Hb & _). rewrite Hb in *.
  unfold ParseOutput. erewrite tp_Unmarshal_registered;
    [|apply OutputTable_NoDup|by apply list_elem_of_In|by rewrite Z_of_byte_of_Z, Z.mod_small].
  unfold outcome_map. by rewrite HU, Hu.
Qed.

Ltac row := unfold OutputTable; cbn [In]; repeat (first [left; reflexivity | right]).

Lemma parse_output r : result_fits r -> ParseOutput (ResultBytes r) = Ok r.
Proof.
  destruct r; intros [Hr Hp]; cbn [ResultBytes];
    (eapply output_one; [row|by vm_compute|by vm_compute|exact Hr|exact Hp|done]).
Qed.

(** ** What an execution returns *)

Context {M : Type} {MU : Mutable M} {TX : Text}.

(** Follow a successful run to what it returns. *)
Ltac to_return H :=
  repeat (cbv zeta in H; match type of H with
  | bind _ _ _ = (Ok _, _) => apply bind_ok in H as (? & ? & _ & H); cbn beta iota in H
  | (let '(_, _) := ?x in _) _ = (Ok _, _) => destruct x; cbn beta iota in H
  | (match ?x with _ => _ end) _ = (Ok _, _) => destruct x; cbn beta iota in H
  | fail _ _ = (Ok _, _) => discriminate H
  | panic _ = (Ok _, _) => discriminate H
  | ret _ _ = (Ok _, _) => unfold ret in H; injection H as <- _
  end).

Lemma deferred_output {A} report (body : ST (M * zkMetricsCollector) A) s a s' :
  defer_metric report body s = (Ok a, s') -> exists s1, body s = (Ok a, s1).
Proof. unfold defer_metric. destruct (body s) as [r [m c]]. intros [= -> _]. eauto. Qed.

Lemma locals_output {A} report (body : ST ((M * zkMetricsCollector) * Locals) A) s a s' :
  with_locals report body s = (Ok a, s') -> exists s0 s1, body s0 = (Ok a, s1).
Proof. unfold with_locals. destruct (body _) as [r [[m c] l]] eqn:E. intros [= -> _]. eauto. Qed.

(** The result is of the type of the action. *)
Definition result_of (act : ChainAction) (r : ChainResult) : Prop :=
  match act, r with
  | ATransfer _, RTransfer _ => True
  | ACreateMarket _, RCreateMarket _ => True
  | ACommitOrder _, RCommitOrder _ => True
  | ARevealBatch _, RRevealBatch _ => True
  | AClearBatch _, RClearBatch _ => True
  | AResolveMarket _, RResolveMarket _ => True
  | ADispute _, RDispute _ => True
  | ARouteFees _, RRouteFees _ => True
  | AReleaseCOLTranche _, RReleaseCOLTranche _ => True
  | AMintVAI _, RMintVAI _ => True
  | ABurnVAI _, RBurnVAI _ => True
  | ACreatePool _, RCreatePool _ => True
  | AAddLiquidity _, RAddLiquidity _ => True
  | ARemoveLiquidity _, RRemoveLiquidity _ => True
  | ASwapExactIn _, RSwapExactIn _ => True
  | AUpdateReserveState _, RUpdateReserveState _ => True
  | ASetRiskParams _, RSetRiskParams _ => True
  | ASubmitBatchProof _, RSubmitBatchProof _ => True
  | ASetProofConfig _, RSetProofConfig _ => True
  | _, _ => False
  end.

Lemma execute_output env act ts actor id (s s' : M * zkMetricsCollector) out :
  Execute env act ts actor id s = (Ok out, s') ->
  exists r, out = ResultBytes r /\ result_of act r.
Proof.
  intros H. destruct act; cbn [Execute] in H.
  - unfold Transfer.Execute in H. to_return H. by eexists (RTransfer _).
  - unfold CreateMarket.Execute in H. to_return H. by eexists (RCreateMarket _).
  - unfold CommitOrder.Execute in H. apply deferred_output in H as [? H].
    unfold CommitOrder.body in H. to_return H. by eexists (RCommitOrder _).
  - unfold RevealBatch.Execute in H. apply deferred_output in H as [? H].
    unfold RevealBatch.body in H. to_return H. by eexists (RRevealBatch _).
  - apply locals_output in H as (? & ? & H). unfold ClearBatch.body in H. to_return H.
    by eexists (RClearBatch _).
  - unfold ResolveMarket.Execute in H. to_return H. by eexists (RResolveMarket _).
  - unfold Dispute.Execute in H. to_return H. by eexists (RDispute _).
  - unfold RouteFees.Execute in H. to_return H. by eexists (RRouteFees _).
  - unfold ReleaseCOLTranche.Execute in H. to_return H. by eexists (RReleaseCOLTranche _).
  - unfold MintVAI.Execute in H. to_return H. by eexists (RMintVAI _).
  - unfold BurnVAI.Execute in H. to_return H. by eexists (RBurnVAI _).
  - unfold CreatePool.Execute in H. to_return H. by eexists (RCreatePool _).
  - unfold AddLiquidity.Execute in H. to_return H. by eexists (RAddLiquidity _).
  - unfold RemoveLiquidity.Execute in H. to_return H. by eexists (RRemoveLiquidity _).
  - unfold SwapExactIn.Execute in H. to_return H. by eexists (RSwapExactIn _).
  - unfold UpdateReserveState.Execute in H. to_return H. by eexists (RUpdateReserveState _).
  - unfold SetRiskParams.Execute in H. to_return H. by eexists (RSetRiskParams _).
  - apply locals_output in H as (? & ? & H).
    unfold SubmitBatchProof.body, SubmitBatchProof.accept in H. to_return H. by eexists (RSubmitBatchProof _).
  - unfold SetProofConfig.Execute in H. to_return H. by eexists (RSetProofConfig _).
Qed.

(** C38: whatever action executes, the registered output parser reads its output
    back as a result of that action's type, provided the result's fields are
    values of their Go types and fitted the packer. *)
Theorem output_parses env act ts actor id (s s' : M * zkMetricsCollector) out :
  Execute env act ts actor id s = (Ok out, s') ->
  exists r, out = ResultBytes r /\ result_of act r /\
    (result_fits r -> ParseOutput out = Ok r).
Proof.
  intros H. destruct (execute_output _ _ _ _ _ _ _ _ H) as (r & -> & Hr).
  exists r. split; [done|]. split; [done|apply parse_output].
Qed.
End readback.

(** ** Evaluations *)

Module Samples.
Definition alice : Address := addr 1.
Definition start : Store * zkMetricsCollector :=
  (cells [(BalanceKey alice, be 8 100)], newZKMetricsCollector 10).
Definition pay : ChainAction := ATransfer (Transfer.mk (addr 2) 40 []).
Definition env : Env := mk_env initial_verifier (mk_clock 0 0 0).
#[export] Instance text : Text :=
  {| ids_String i := String.string_of_list_byte (array_bytes i);
     err_Error _ := String.EmptyString |}.
Definition run := Execute env pay 1000 alice no_tx.
Definition paid : ChainResult := RTransfer (Transfer.Result.mk 60 40).
End Samples.
Import Samples.

Lemma output_parses_witness :
  run start = (Ok (ResultBytes paid), final run start) /\
  exists r, ResultBytes paid = ResultBytes r /\ result_of pay r /\
    (result_fits r -> ParseOutput (ResultBytes paid) = Ok r).
Proof.
  assert (H : run start = (Ok (ResultBytes paid), final run start)).
  { apply run_eq. vm_compute. reflexivity. }
  split; [exact H|exact (output_parses env pay 1000 alice no_tx start _ _ H)].
Defined.

Example paid_fits : result_fits paid.
Proof. split; [by vm_compute|eexists; vm_compute; reflexivity]. Qed.
