(* ===== verification/Network.v ===== *)
(** * What the command-line programs use of a node and of the host

    The benchmark and the smoke run of [cmd/] are clients: they sign transactions,
    send them to a node, poll it, and write files. The node's API, signing, the
    clock and the files are classes over the state [N] of the outside world; the
    parts of the standard library they compute with ([strings], [path/filepath],
    [encoding/hex]) are written out. *)
From stdpp Require Import strings pretty.
From S2P Require Import Prelude Errors Go Platform Storage ProofEnvelope Metrics Zk Client.

Definition str (s : string) : bytes := String.list_byte_of_string s.
Definition of_bytes (b : bytes) : string := String.string_of_list_byte b.

(** ** The platform *)

(** [chain.Base], and what [indexer.GetTxResults] reports of a transaction. *)
Record Base := mk_base { b_Timestamp : Z; b_ChainID : ID; b_MaxFee : Z }.
Record TxResult := mk_result { r_Success : bool; r_Error : bytes }.

(** [crypto/ed25519], [auth], [codec] and [chain.SignRawActionBytesTx]. The conversion of
    a slice to a private key can panic. *)
Class Signing : Type := {
  PrivateKey : Type; AuthFactory : Type;
  ed25519_PrivateKey : bytes -> Outcome PrivateKey;
  NewED25519Factory : PrivateKey -> AuthFactory;
  NewED25519Address : PrivateKey -> Address;
  addr_String : Address -> string;
  SignRawActionBytesTx : Base -> list bytes -> AuthFactory -> Outcome bytes
}.

(** [jsonrpc.JSONRPCClient] and [indexer.Client] on a world [N]. *)
Class CoreClient (N : Type) : Type := {
  Network : ST N ID;
  Accepted : ST N (Z * Z);             (* the height and the timestamp *)
  UnitPrices : bool -> ST N (list Z);
  SubmitTx : bytes -> ST N ID;
  GetTxResults : ID -> ST N (option TxResult)
}.

(** The clock in nanoseconds, [time.Sleep], [ctx.Err] and a timer against the
    context: the error of the context when that ends first. *)
Class Host (N : Type) : Type := {
  time_Now : N -> Z * N;
  time_Sleep : Z -> N -> N;
  ctx_Err : N -> option Error * N;
  ctx_Timer : Z -> N -> option Error * N
}.

Definition Millisecond : Z := 1000000.
Definition Second : Z := 1000000000.

(** Files. A write may stop after a part of the data. *)
Class Files (N : Type) : Type := {
  fs_MkdirAll : bytes -> ST N unit;
  fs_Create : bytes -> ST N unit;
  fs_Write : bytes -> bytes -> ST N unit;
  fs_Close : bytes -> ST N unit;
  fs_Remove : bytes -> ST N unit;
  fs_Rename : bytes -> bytes -> ST N unit;
  fs_WriteFile : bytes -> bytes -> ST N unit
}.

(** What each file operation does: it has its effect, or none; a write may stop
    after a part of the data. *)
Class FilesSpec (N : Type) {FI : Files N} : Type := {
  files : N -> gmap bytes bytes;
  MkdirAll_spec p n r n' : fs_MkdirAll p n = (r, n') -> r <> Panic /\ files n' = files n;
  Create_spec p n r n' : fs_Create p n = (r, n') ->
    r <> Panic /\ files n' = match r with Ok _ => <[p := []]> (files n) | _ => files n end;
  Write_spec p b n r n' : fs_Write p b n = (r, n') ->
    r <> Panic /\ exists k, files n' = <[p := default [] (files n !! p) ++ take k b]> (files n) /\
                            (r = Ok tt -> take k b = b);
  Close_spec p n r n' : fs_Close p n = (r, n') -> r <> Panic /\ files n' = files n;
  Remove_spec p n r n' : fs_Remove p n = (r, n') ->
    r <> Panic /\ files n' = match r with Ok _ => delete p (files n) | _ => files n end;
  Rename_spec a b n r n' : fs_Rename a b n = (r, n') ->
    r <> Panic /\ match r with
      | Ok _ => exists x, files n !! a = Some x /\ files n' = <[b := x]> (delete a (files n))
      | _ => files n' = files n
      end;
  WriteFile_spec p b n u n' : fs_WriteFile p b n = (Ok u, n') -> files n' = <[p := b]> (files n)
}.

(** ** Effects on the world *)

Section effects.
Context {N : Type} {HO : Host N}.

(** The clock read. *)
Definition now : ST N Z := fun n => let '(t, n') := time_Now n in (Ok t, n').
Definition sleep (d : Z) : ST N unit := fun n => (Ok tt, time_Sleep d n).
(** [select { case <-ctx.Done(): return ctx.Err(); default: }] *)
Definition check_ctx (wrap : Error -> Error) : ST N unit := fun n =>
  let '(o, n') := ctx_Err n in
  match o with Some e => (Err (wrap e), n') | None => (Ok tt, n') end.
(** The [select] between a timer and the context. *)
Definition delay (d : Z) (wrap : Error -> Error) : ST N unit := fun n =>
  let '(o, n') := ctx_Timer d n in
  match o with Some e => (Err (wrap e), n') | None => (Ok tt, n') end.
End effects.

(** A call whose error replaces the error of the rest: [%w] with a text. *)
Definition map_err {S A} (f : Error -> Error) (c : ST S A) : ST S A := fun s =>
  match c s with
  | (Err e, s') => (Err (f e), s')
  | r => r
  end.

(** A computation on one part of the state. *)
Definition on_snd {C N A} (c : ST N A) : ST (C * N) A := fun s =>
  let '(o, n) := c s.2 in (o, (s.1, n)).

(** [_ = c] *)
Definition ignore {S A} (c : ST S A) : ST S unit := let* _ := catch c in ret tt.

(** ** Texts *)

Section texts.
Context {TX : Text}.

(** [fmt.Errorf("<text>: %w", err)], where the text of the error is looked at. *)
Definition wrapf (text : string) (e : Error) : Error :=
  ErrMessage (text ++ ": " ++ err_Error e)%string.
End texts.

(** [strconv.FormatInt(z, 10)] and [%d] *)
Definition FormatInt (z : Z) : string :=
  if z <? 0 then ("-" ++ pretty (Z.to_N (- z)))%string else pretty (Z.to_N z).

(** [strings.Contains] *)
Fixpoint Contains (s sub : bytes) : bool :=
  starts_with s sub || match s with [] => false | _ :: s' => Contains s' sub end.

(** [encoding/hex] *)
Definition hex_value (b : byte) : option Z :=
  let z := Z_of_byte b in
  if (48 <=? z) && (z <=? 57) then Some (z - 48)
  else if (97 <=? z) && (z <=? 102) then Some (z - 87)
  else if (65 <=? z) && (z <=? 70) then Some (z - 55) else None.

Definition ErrHex : Error := ErrMessage "encoding/hex: invalid input".
Fixpoint hex_DecodeString (s : bytes) : Outcome bytes :=
  match s with
  | [] => Ok []
  | a :: b :: s' =>
      match hex_value a, hex_value b with
      | Some x, Some y => let? r := hex_DecodeString s' in Ok (byte_of_Z (x * 16 + y) :: r)
      | _, _ => Err ErrHex
      end
  | _ => Err ErrHex
  end.

(** ** [path/filepath] *)

Definition slash : byte := x2f.

(** One segment against the segments so far, last first. *)
Definition clean_step (rooted : bool) (acc : list bytes) (seg : bytes) : list bytes :=
  if bool_decide (seg = []) || bool_decide (seg = str ".") then acc
  else if bool_decide (seg = str "..") then
    match acc with
    | top :: acc' => if bool_decide (top = str "..") then seg :: acc else acc'
    | [] => if rooted then [] else [seg]
    end
  else seg :: acc.

Fixpoint join_slash (segs : list bytes) : bytes :=
  match segs with
  | [] => []
  | [s] => s
  | s :: rest => s ++ [slash] ++ join_slash rest
  end.

Definition filepath_Clean (path : bytes) : bytes :=
  let rooted := match path with x2f :: _ => true | _ => false end in
  let segs := rev (fold_left (clean_step rooted) (split_on slash [] path) []) in
  if rooted then slash :: join_slash segs
  else if bool_decide (segs = []) then str "." else join_slash segs.

Fixpoint drop_empty (elems : list bytes) : list bytes :=
  match elems with [] :: rest => drop_empty rest | _ => elems end.

Definition filepath_Join (elems : list bytes) : bytes :=
  match drop_empty elems with
  | [] => []
  | es => filepath_Clean (join_slash es)
  end.

(** The part up to the last slash, cleaned. *)
Fixpoint drop_name (rpath : bytes) : bytes :=
  match rpath with [] => [] | x2f :: _ => rpath | _ :: r => drop_name r end.
Definition filepath_Dir (path : bytes) : bytes := filepath_Clean (rev (drop_name (rev path))).

Example clean_parent : filepath_Clean (str "a//b/./../c/") = str "a/c".
Proof. vm_compute. reflexivity. Qed.
Example clean_above : filepath_Clean (str "../../x") = str "../../x".
Proof. vm_compute. reflexivity. Qed.
Example dir_plain : filepath_Dir (str "x") = str ".".
Proof. vm_compute. reflexivity. Qed.
