(* ===== verification/BenchReport.v ===== *)
(** * The report of the benchmark ([cmd/veilvm-zkbench/main.go])

    The percentiles of the measured windows, in the binary floating point of the
    language, and the three files of a report: the table of the windows, the
    summary, and its JSON form. *)
From stdpp Require Import strings pretty sorting.
From Stdlib Require Import Floats.SpecFloat.
From S2P Require Import Prelude Errors Go Platform ProofEnvelope Metrics Bench Network.

(** ** Statistics over windows *)

Definition float64 (z : Z) : spec_float := binary_normalize 53 1024 z 0 false.
(** The decimal constants [0.50], [0.95] and [0.99], rounded to the nearest. *)
Definition hundredths (p : Z) : spec_float := SFdiv 53 1024 (float64 p) (float64 100).

(** [int(math.Ceil(x))] of a finite number. *)
Definition ceil_int (x : spec_float) : Z :=
  match x with
  | S754_finite s m e =>
      let z := if s then Zneg m else Zpos m in
      if 0 <=? e then z * 2 ^ e else - ((- z) / 2 ^ (- e))
  | _ => 0
  end.

Definition float_le (x y : spec_float) : Prop := SFleb x y = true.
#[export] Instance float_le_dec x y : Decision (float_le x y).
Proof. unfold float_le. apply _. Defined.

(** The position of the percentile among [n] sorted values. *)
Definition percentile_index (n : Z) (p : spec_float) : Z :=
  let idx := ceil_int (SFmul 53 1024 (float64 n) p) - 1 in
  let idx := if idx <? 0 then 0 else idx in
  if n <=? idx then n - 1 else idx.

Definition percentile (values : list spec_float) (p : spec_float) : spec_float :=
  let zero := S754_zero false in
  match values with
  | [] => zero
  | _ =>
      let cp := merge_sort float_le values in
      let n := Z.of_nat (length cp) in
      if SFleb p zero then nth 0 cp zero
      else if SFleb (float64 1) p then nth (Z.to_nat (n - 1)) cp zero
      else nth (Z.to_nat (percentile_index n p)) cp zero
  end.

Record percentileStat := mk_stat { P50 : spec_float; P95 : spec_float; P99 : spec_float }.

Definition percentileFromWindows (windows : list ZKWindowMetrics.t)
    (selectFn : ZKWindowMetrics.t -> spec_float) : percentileStat :=
  let values := List.filter (fun v => SFleb (S754_zero false) v) (map selectFn windows) in
  mk_stat (percentile values (hundredths 50)) (percentile values (hundredths 95))
          (percentile values (hundredths 99)).

Record batchResult := mk_batch {
  br_BatchSize : Z; br_WindowsRun : Z; br_MetricsCSV : bytes;
  br_Summary : ZKMetricsSummary.t; br_BatchFreezeMs : percentileStat;
  br_WitnessBuildMs : percentileStat; br_ProofGenMs : percentileStat;
  br_ProofVerifyMs : percentileStat; br_AcceptMs : percentileStat
}.

(** The time of the report in nanoseconds; its rendering is left out. *)
Record benchReport := mk_report {
  rp_GeneratedAt : Z; rp_Config : benchConfig; rp_Results : list batchResult
}.

(** ** The files of a report *)

(** [encoding/csv]: a field is quoted when it could be misread. *)
Definition fieldNeedsQuotes (field : bytes) : bool :=
  if bool_decide (field = []) then false
  else bool_decide (field = str "\.")
    || existsb (fun c => bool_decide (c ∈ [x0a; x0d; x22; x2c])) field
    || match List.find (starts_with field) space_runes with Some _ => true | None => false end.

Definition csv_field (field : bytes) : bytes :=
  if fieldNeedsQuotes field
  then [x22] ++ flat_map (fun c => if bool_decide (c = x22) then [x22; x22] else [c]) field ++ [x22]
  else field.

Fixpoint csv_fields (record : list bytes) : bytes :=
  match record with
  | [] => []
  | [f] => csv_field f
  | f :: rest => csv_field f ++ [x2c] ++ csv_fields rest
  end.
Definition csv_line (record : list bytes) : bytes := csv_fields record ++ [x0a].

Definition csv_header : list bytes :=
  map str ["market_id"; "window_id"; "batch_size_hint"; "commit_count"; "reveal_count";
           "first_commit_at_ms"; "window_close_at_ms"; "proof_submitted_at_ms";
           "clear_accepted_at_ms"; "batch_freeze_ms"; "witness_build_ms";
           "proof_generation_ms"; "proof_verification_ms"; "proof_submit_latency_ms";
           "block_accept_latency_ms"; "commit_exec_us"; "reveal_exec_us";
           "proof_submit_exec_us"; "clear_exec_us"; "missed_deadline"; "rejected";
           "last_error"]%string.

Definition FormatBool (b : bool) : string := if b then "true" else "false".

Definition csv_row (row : ZKWindowMetrics.t) : list bytes :=
  map str
    [ZKWindowMetrics.MarketID row;
     FormatInt (ZKWindowMetrics.WindowID row);
     FormatInt (ZKWindowMetrics.BatchSizeHint row);
     FormatInt (ZKWindowMetrics.CommitCount row);
     FormatInt (ZKWindowMetrics.RevealCount row);
     FormatInt (ZKWindowMetrics.FirstCommitAtMs row);
     FormatInt (ZKWindowMetrics.WindowCloseAtMs row);
     FormatInt (ZKWindowMetrics.ProofSubmittedAtMs row);
     FormatInt (ZKWindowMetrics.ClearAcceptedAtMs row);
     FormatInt (ZKWindowMetrics.BatchFreezeMs row);
     FormatInt (ZKWindowMetrics.WitnessBuildMs row);
     FormatInt (ZKWindowMetrics.ProofGenerationMs row);
     FormatInt (ZKWindowMetrics.ProofVerificationMs row);
     FormatInt (ZKWindowMetrics.ProofSubmitLatencyMs row);
     FormatInt (ZKWindowMetrics.BlockAcceptLatencyMs row);
     FormatInt (ZKWindowMetrics.CommitExecUs row);
     FormatInt (ZKWindowMetrics.RevealExecUs row);
     FormatInt (ZKWindowMetrics.ProofSubmitExecUs row);
     FormatInt (ZKWindowMetrics.ClearExecUs row);
     FormatBool (ZKWindowMetrics.MissedDeadline row);
     FormatBool (ZKWindowMetrics.Rejected row);
     ZKWindowMetrics.LastError row].

Definition csv_text (windows : list ZKWindowMetrics.t) : bytes :=
  csv_line csv_header ++ flat_map (fun row => csv_line (csv_row row)) windows.

(** [%.2f]: the nearest hundredth, halves to even. *)
Definition round_even (num den : Z) : Z :=
  let q := num / den in
  let r := 2 * (num mod den) in
  if (r <? den) || ((r =? den) && Z.even q) then q else q + 1.

Definition Format_2f (x : spec_float) : string :=
  match x with
  | S754_finite s m e =>
      let h := if 0 <=? e then Zpos m * 2 ^ e * 100 else round_even (Zpos m * 100) (2 ^ (- e)) in
      let frac := h mod 100 in
      ((if s then "-" else EmptyString) ++ FormatInt (h / 100) ++ "."
       ++ (if Z.ltb frac 10 then "0" else EmptyString) ++ FormatInt frac)%string
  | S754_zero s => if s then "-0.00" else "0.00"
  | S754_infinity s => if s then "-Inf" else "+Inf"
  | S754_nan => "NaN"
  end.

Definition newline : bytes := [x0a].
Definition tick : bytes := [x60].

Definition summary_row (r : batchResult) : bytes :=
  str ("| " ++ FormatInt (br_BatchSize r) ++ " | " ++ FormatInt (br_WindowsRun r) ++ " | "
       ++ Format_2f (P95 (br_BatchFreezeMs r)) ++ " | "
       ++ Format_2f (P95 (br_WitnessBuildMs r)) ++ " | "
       ++ Format_2f (P95 (br_ProofGenMs r)) ++ " | "
       ++ Format_2f (P95 (br_ProofVerifyMs r)) ++ " | "
       ++ Format_2f (P95 (br_AcceptMs r)) ++ " | ")%string
  ++ tick ++ br_MetricsCSV r ++ tick ++ str " |" ++ newline.

Definition summary_text (report : benchReport) : bytes :=
  str "# VEIL ZK Bench Summary" ++ newline ++ newline
  ++ str "Proof mode: " ++ tick ++ ProofMode (rp_Config report) ++ tick ++ newline ++ newline
  ++ (if bool_decide (ProofMode (rp_Config report) = str "synthetic")
      then str "This run benchmarks proof-gated VEIL batch flow with synthetic order-equivalent payload sizes."
      else str "This run benchmarks proof-gated VEIL batch flow with cryptographic Groth16 payloads.")
  ++ newline ++ newline
  ++ str "| Batch Size | Windows | Freeze p95 (ms) | Witness p95 (ms) | Prove p95 (ms) | Verify p95 (ms) | Accept p95 (ms) | CSV |"
  ++ newline
  ++ str "|---:|---:|---:|---:|---:|---:|---:|---|" ++ newline
  ++ flat_map summary_row (rp_Results report).

(** [encoding/json] of a report. *)
Class ReportJSON : Type := json_MarshalIndent : benchReport -> Outcome bytes.

Section files.
Context {N : Type} {FI : Files N}.

(** [csv.Writer] over the buffer of [bufio]: a block is written when data past it
    comes; the error of the last block, which the deferred [Flush] writes, is
    not looked at. Fields are shorter than a block. *)
Definition bufio_defaultBufSize : Z := 4096.
Fixpoint buffered (fuel : nat) (path data : bytes) : ST N unit :=
  match fuel with
  | O => ret tt
  | S fuel' =>
      if len data <=? bufio_defaultBufSize then ignore (fs_Write path data)
      else
        let block := Z.to_nat bufio_defaultBufSize in
        fs_Write path (take block data) ;;;
        buffered fuel' path (drop block data)
  end.

Definition writeMetricsCSV (path : bytes) (windows : list ZKWindowMetrics.t) : ST N unit :=
  fs_Create path ;;;
  let data := csv_text windows in
  let* r := catch (buffered (S (length data)) path data) in
  ignore (fs_Close path) ;;;
  match r with inl _ => ret tt | inr e => fail e end.

Definition writeSummaryMarkdown (path : bytes) (report : benchReport) : ST N unit :=
  fs_WriteFile path (summary_text report).

Definition writeJSON `{!ReportJSON} (path : bytes) (report : benchReport) : ST N unit :=
  let* raw := lift (json_MarshalIndent report) in
  fs_WriteFile path raw.
End files.
