(* ===== verification/BenchRun.v ===== *)
(** * The run of the benchmark ([cmd/veilvm-zkbench/main.go])

    What the benchmark does with a node: it keeps the fee balance up, opens a
    market for every batch size, commits, reveals, proves and clears its windows
    one transaction at a time, and waits for each to succeed. The payloads are
    those of [Bench.v]; the state is what the client remembers and the world. *)
From stdpp Require Import strings pretty.
From S2P Require Import Prelude Errors Go Platform Sha256 Storage ProofEnvelope Metrics.
From S2P Require Import Transfer Markets Proofs Genesis Server Zk Circuits Client Tools Bench.
From S2P Require Import Chain Network BenchReport.

(** ** The constraint system and its cache *)

(** [ccs.WriteTo]: what is written before an error, if there is one. *)
Class CSWriter {F : Frontend} {PV : Prover} : Type :=
  CS_WriteTo : ConstraintSystem -> bytes * option Error.

(** [if err := c; err != nil { cleanup; return err }] *)
Definition or_cleanup {S A} (c : ST S A) (cleanup : ST S unit) : ST S A :=
  let* r := catch c in
  match r with
  | inl a => ret a
  | inr e => cleanup ;;; fail e
  end.

Section cache.
Context {os : OS} {F : Frontend} {PV : Prover} {CW : CSWriter} {N : Type} {FI : Files N}.

Definition write_cs (path : bytes) (ccs : ConstraintSystem) : ST N unit :=
  fs_Write path (CS_WriteTo ccs).1 ;;;
  match (CS_WriteTo ccs).2 with Some e => fail e | None => ret tt end.

Definition storeGroth16ConstraintSystem (path : bytes) (ccs : ConstraintSystem) : ST N unit :=
  let dir := filepath_Dir path in
  fs_MkdirAll dir ;;;
  let tmpPath := path ++ str ".tmp" in
  fs_Create tmpPath ;;;
  or_cleanup (write_cs tmpPath ccs) (ignore (fs_Close tmpPath) ;;; ignore (fs_Remove tmpPath)) ;;;
  or_cleanup (fs_Close tmpPath) (ignore (fs_Remove tmpPath)) ;;;
  ignore (fs_Remove path) ;;;
  or_cleanup (fs_Rename tmpPath path) (ignore (fs_Remove tmpPath)).

(** The cached constraint system when it can be read, else a compiled one, which
    is then stored; a failure to store is only reported. *)
Definition loadOrCompileGroth16ConstraintSystem (cachePath : bytes) (circuit : ZkTool.CircuitKind)
    : ST N ConstraintSystem :=
  let cachePath := TrimSpace cachePath in
  let compile : ST N ConstraintSystem :=
    let* ccs := lift (frontend_Compile circuit) in
    (if bool_decide (cachePath = []) then ret tt
     else ignore (storeGroth16ConstraintSystem cachePath ccs)) ;;;
    ret ccs in
  if bool_decide (cachePath = []) then compile
  else
    let* cached := catch (lift (loadGroth16ConstraintSystem cachePath)) in
    match cached with
    | inl ccs => ret ccs
    | inr _ => compile
    end.

Definition newProofBuilder (cfg : benchConfig) : ST N proofBuilder :=
  if bool_decide (ProofMode cfg = text "synthetic") then ret Synthetic
  else if bool_decide (ProofMode cfg = text "groth16") then
    let* circuit := lift (
      if bool_decide (ProofCircuitID cfg = ProofCircuitClearHashV1) then Ok ZkTool.ClearHash
      else if bool_decide (ProofCircuitID cfg = ProofCircuitShieldedLedgerV1)
      then Ok ZkTool.ShieldedLedger
      else Err (ErrMessage "unsupported PROOF_CIRCUIT_ID=%q")) in
    let* ccs := loadOrCompileGroth16ConstraintSystem (Groth16CSCachePath cfg) circuit in
    let* pk := lift (loadGroth16ProvingKey (Groth16PKPath cfg)) in
    ret (Groth16 ccs pk (ProofCircuitID cfg))
  else fail (ErrMessage "unsupported proof mode %q").
End cache.

(** ** Errors the benchmark looks into *)

Section errors.
Context {TX : Text}.

Definition isInsufficientFeeError (err : Error) : bool :=
  let s := ToLower (str (err_Error err)) in
  Contains s (str "insufficient balance") && Contains s (str "fee").

Definition isUnauthorizedError (err : Error) : bool :=
  Contains (ToLower (str (err_Error err))) (str "unauthorized").
End errors.

(** ** Keys *)

Section keys.
Context {SG : Signing}.

Definition loadSigner (pkHex : bytes) : Outcome (Address * AuthFactory) :=
  let? b := hex_DecodeString pkHex in
  let? priv := ed25519_PrivateKey b in
  Ok (NewED25519Address priv, NewED25519Factory priv).
End keys.

(** ** Polling *)

Section polling.
Context {TX : Text} {N : Type} {CC : CoreClient N} {HO : Host N}.

(** The loop: [i] rounds are left. *)
Fixpoint height_loop (i : nat) (h0 : Z) : ST N unit :=
  match i with
  | O => fail (ErrMessage "timeout waiting for height advance")
  | S i' =>
      check_ctx (fun e => e) ;;;
      sleep (500 * Millisecond) ;;;
      let* (h1, _) := Accepted in
      if h0 <? h1 then ret tt else height_loop i' h0
  end.

Definition waitForHeightAdvance : ST N unit :=
  let* (h0, _) := Accepted in
  height_loop 60 h0.

Fixpoint result_loop (i : nat) (txID : ID) (name : string) : ST N unit :=
  match i with
  | O => fail (ErrMessage (name ++ " tx result timeout: " ++ ids_String txID)%string)
  | S i' =>
      check_ctx (wrapf (name ++ " tx result wait")%string) ;;;
      let* found := map_err (wrapf (name ++ " tx result lookup")%string) (GetTxResults txID) in
      match found with
      | None => sleep (250 * Millisecond) ;;; result_loop i' txID name
      | Some resp =>
          fail_if (negb (r_Success resp))
            (ErrMessage (name ++ " execution failed: " ++ of_bytes (r_Error resp))%string)
      end
  end.

Definition waitForTxSuccess (txID : ID) (name : string) : ST N unit := result_loop 120 txID name.
End polling.

(** ** A session *)

(** What the closures of [runBench] share. *)
Record Session {SG : Signing} := mk_session {
  se_chainID : ID; se_addr : Address; se_factory : AuthFactory;
  se_refuel : option (Address * AuthFactory); se_cfg : benchConfig
}.

Section session.
Context {PF : Platform} {TX : Text} {SG : Signing} {Rules N : Type}.
Context {RQ : Requester Rules N} {CC : CoreClient N} {HO : Host N}.

(** What the client remembers, and the world. *)
Definition World : Type := (JSONRPCClient.t Rules * N)%type.

Definition hasRefuel (se : Session) : bool := bool_decide (is_Some (se_refuel se)).

Definition currentMaxFee : ST World Z :=
  let* unitPrices := on_snd (UnitPrices false) in
  ret (estimateMaxFee unitPrices).

(** [time.Now().UnixMilli()] *)
Definition now_ms : ST World Z := let* t := on_snd now in ret (t / 1000000).

Definition submitSignedAction (chainID : ID) (name : string) (signer : AuthFactory)
    (action : ChainAction) : ST World (string * Z) :=
  let* maxFee := map_err (wrapf (name ++ " unitprices")%string) currentMaxFee in
  let* (_, ts) := map_err (wrapf (name ++ " accepted")%string) (on_snd Accepted) in
  let* nowMs := now_ms in
  let base := mk_base (tx_expiry ts nowMs) chainID maxFee in
  let* raw := lift (Bytes action) in
  let* txBytes := map_err (wrapf (name ++ " sign")%string)
                    (lift (SignRawActionBytesTx base [raw] signer)) in
  let* txID := map_err (wrapf (name ++ " submit")%string) (on_snd (SubmitTx txBytes)) in
  map_err (wrapf (name ++ " wait")%string) (on_snd waitForHeightAdvance) ;;;
  on_snd (waitForTxSuccess txID name) ;;;
  ret (ids_String txID, maxFee).

Definition refuel_memo : bytes := str "zkbench-refuel".

Definition ensureBenchBalance (se : Session) (reason : string) (required : Z)
    : ST World unit :=
  let addr := se_addr se in
  let* balance := map_err (wrapf (reason ++ " bench balance")%string)
                    (JSONRPCClient.Balance addr) in
  if required <=? balance then ret tt
  else
    let deficit := wrap_u64 (required - balance) in
    match se_refuel se with
    | None => fail (ErrMessage "%s insufficient bench fee balance")
    | Some (refuelAddr, refuelFactory) =>
        fail_if (bool_decide (refuelAddr = addr))
          (ErrMessage "%s REFUEL_PRIVATE_KEY must differ from PRIVATE_KEY") ;;;
        let* refuelMaxFee := map_err (wrapf (reason ++ " unitprices for refuel")%string)
                               currentMaxFee in
        let minTopUp := saturatingAdd deficit refuelMaxFee in
        let topUpAmount := RefuelAmount (se_cfg se) in
        let topUpAmount := if topUpAmount <? minTopUp then minTopUp else topUpAmount in
        let* refuelBalance := map_err (wrapf (reason ++ " refuel balance")%string)
                                (JSONRPCClient.Balance refuelAddr) in
        let refuelRequired := saturatingAdd topUpAmount refuelMaxFee in
        fail_if (refuelBalance <? refuelRequired)
          (ErrMessage "%s refuel wallet insufficient") ;;;
        map_err (wrapf (reason ++ " refuel transfer")%string)
          (submitSignedAction (se_chainID se) "refuel_transfer" refuelFactory
             (ATransfer (Transfer.mk addr topUpAmount refuel_memo))) ;;;
        let* updatedBalance := map_err (wrapf (reason ++ " bench balance after refuel")%string)
                                 (JSONRPCClient.Balance addr) in
        fail_if (updatedBalance <? required)
          (ErrMessage "%s refuel completed but bench balance still low")
    end.

Definition submitAction (se : Session) (name : string) (action : ChainAction)
    : ST World string :=
  let* maxFee := map_err (wrapf (name ++ " unitprices")%string) currentMaxFee in
  let requiredBeforeSubmit := saturatingAdd maxFee (GasReserve (se_cfg se)) in
  (if hasRefuel se || StrictFeePreflight (se_cfg se)
   then ensureBenchBalance se (name ++ " preflight")%string requiredBeforeSubmit
   else ret tt) ;;;
  let submit := submitSignedAction (se_chainID se) name (se_factory se) action in
  let* first := catch submit in
  match first with
  | inl (txID, _) => ret txID
  | inr err =>
      fail_if (negb (isInsufficientFeeError err)) err ;;;
      fail_if (negb (hasRefuel se)) (wrapf (name ++ " insufficient fee balance")%string err) ;;;
      let retryRequired := saturatingAdd requiredBeforeSubmit maxFee in
      ensureBenchBalance se (name ++ " retry")%string retryRequired ;;;
      let* (txID, _) := submit in
      ret txID
  end.

Definition setProofConfig (chainID : ID) (signer : AuthFactory) (proverAuthority : Address)
    (cfg : benchConfig) : ST World unit :=
  map_err (wrapf "set proof config")
    (submitSignedAction chainID "set_proof_config" signer
       (ASetProofConfig (SetProofConfig.mk true ProofTypeGroth16 (BatchWindowMs cfg)
                                           (ProofDeadlineMs cfg) proverAuthority))) ;;;
  ret tt.

(** ** Windows *)

Context {os : OS} {F : Frontend} {PV : Prover}.

(** The time a computation took, in milliseconds. *)
Definition timed {A} (c : Outcome A) : ST World (A * Z) :=
  let* start := on_snd now in
  let* a := lift c in
  let* stop := on_snd now in
  ret (a, Z.quot (stop - start) 1000000).

(** One round of the inner loop. *)
Definition run_window (se : Session) (proofs : proofBuilder) (marketID : ID) (batchSize i : Z)
    : ST World unit :=
  let cfg := se_cfg se in
  let windowID := wrap_u64 i in
  let* envelope := lift (buildEnvelope batchSize windowID) in
  let commitment := Sum256 envelope in
  submitAction se "commit_order"
    (ACommitOrder (CommitOrder.mk marketID windowID envelope (array_bytes commitment))) ;;;
  let* reveal := lift (buildRevealShare batchSize windowID) in
  submitAction se "reveal_batch"
    (ARevealBatch (RevealBatch.mk marketID windowID reveal 1)) ;;;
  let* (fillsHash, witnessMs) := timed (Ok (buildFillsHash batchSize windowID envelope reveal)) in
  let* (_, acceptedTs) := map_err (wrapf "accepted before proof") (on_snd Accepted) in
  let* windowClose := lift (window_close acceptedTs (BatchWindowMs cfg)) in
  let clearPrice := wrap_u64 (1000 + Z.rem i 97) in
  let totalVolume := wrap_u64 (batchSize * 100) in
  let '(publicInputsHash, preimage) :=
    public_inputs (ProofCircuitID cfg) marketID windowID clearPrice totalVolume fillsHash in
  let* (proof, proofMs) := map_err (wrapf "build proof")
    (timed (Build proofs (array_bytes publicInputsHash) preimage batchSize windowID fillsHash)) in
  let* proof := map_err (wrapf "tamper proof") (lift (
    if bool_decide (ProofTamperMode cfg = []) then Ok proof
    else tamperProofEnvelope proof (ProofTamperMode cfg))) in
  (if 0 <? ProofSubmitDelayMs cfg
   then on_snd (delay (wrap_i64 (ProofSubmitDelayMs cfg * Millisecond))
                      (wrapf "submit proof delay interrupted"))
   else ret tt) ;;;
  submitAction se "submit_batch_proof"
    (ASubmitBatchProof (SubmitBatchProof.mk marketID windowID windowClose ProofTypeGroth16
       (array_bytes publicInputsHash) fillsHash proof)) ;;;
  map_err (wrapf "record prover metrics")
    (JSONRPCClient.RecordZKProverMetrics marketID windowID (wrap_u32 batchSize) witnessMs proofMs) ;;;
  submitAction se "clear_batch"
    (AClearBatch (ClearBatch.mk marketID windowID clearPrice totalVolume fillsHash)) ;;;
  ret tt.

(** [for i := 1; i <= cfg.WindowsPerSize; i++], [left] rounds left. *)
Fixpoint window_loop (se : Session) (proofs : proofBuilder) (marketID : ID) (batchSize : Z)
    (left : nat) (i : Z) : ST World unit :=
  match left with
  | O => ret tt
  | S left' =>
      run_window se proofs marketID batchSize i ;;;
      window_loop se proofs marketID batchSize left' (i + 1)
  end.

(** ** The run *)

Context {CW : CSWriter} {FI : Files N}.

Definition deriveMarketID (batchSize nano : Z) : ID :=
  Sum256 (str ("zkbench:" ++ FormatInt batchSize ++ ":" ++ FormatInt nano)%string).

Definition ms_of (select : ZKWindowMetrics.t -> Z) (w : ZKWindowMetrics.t) := float64 (select w).

Definition batch_result (batchSize : Z) (csvPath : bytes) (snap : ZKMetricsSnapshot.t) : batchResult :=
  let windows := ZKMetricsSnapshot.Windows snap in
  {| br_BatchSize := batchSize; br_WindowsRun := Z.of_nat (length windows);
     br_MetricsCSV := csvPath; br_Summary := ZKMetricsSnapshot.Summary snap;
     br_BatchFreezeMs := percentileFromWindows windows (ms_of ZKWindowMetrics.BatchFreezeMs);
     br_WitnessBuildMs := percentileFromWindows windows (ms_of ZKWindowMetrics.WitnessBuildMs);
     br_ProofGenMs := percentileFromWindows windows (ms_of ZKWindowMetrics.ProofGenerationMs);
     br_ProofVerifyMs :=
       percentileFromWindows windows (ms_of ZKWindowMetrics.ProofVerificationMs);
     br_AcceptMs := percentileFromWindows windows (ms_of ZKWindowMetrics.BlockAcceptLatencyMs) |}.

(** One round of the outer loop. *)
Definition run_batch (se : Session) (proofs : proofBuilder) (batchSize : Z)
    : ST World batchResult :=
  let cfg := se_cfg se in
  map_err (wrapf "reset metrics") JSONRPCClient.ResetZKMetrics ;;;
  let* nano := on_snd now in
  let marketID := deriveMarketID batchSize nano in
  let* t := on_snd now in
  submitAction se "create_market"
    (ACreateMarket (CreateMarket.mk marketID (str ("zkbench-" ++ FormatInt batchSize)%string) 2
                                    (wrap_i64 (t / Second + 86400)) 1)) ;;;
  window_loop se proofs marketID batchSize (Z.to_nat (WindowsPerSize cfg)) 1 ;;;
  let* snap := map_err (wrapf "fetch metrics") (JSONRPCClient.ZKMetrics 0 true) in
  let csvPath := filepath_Join
    [OutputDir cfg; str ("metrics_batch_" ++ FormatInt batchSize ++ ".csv")%string] in
  map_err (wrapf "write csv") (on_snd (writeMetricsCSV csvPath (ZKMetricsSnapshot.Windows snap))) ;;;
  ret (batch_result batchSize csvPath snap).

Fixpoint run_batches (se : Session) (proofs : proofBuilder) (batchSizes : list Z)
    : ST World (list batchResult) :=
  match batchSizes with
  | [] => ret []
  | b :: rest =>
      let* r := run_batch se proofs b in
      let* rs := run_batches se proofs rest in
      ret (r :: rs)
  end.

(** [strings.EqualFold] with a key in hexadecimal: its letters fold with no rune
    outside ASCII. *)
Definition EqualFold_hex (s key : bytes) : bool := bool_decide (map lower_byte s = key).

(** An optional key. *)
Definition loadSigner_if (what : string) (keyHex : bytes) : ST World (option (Address * AuthFactory)) :=
  if bool_decide (TrimSpace keyHex = []) then ret None
  else let* x := map_err (wrapf what) (lift (loadSigner keyHex)) in ret (Some x).

(** The proof policy is set; the fallback key is tried when the signer may not. *)
Definition configure_proofs (chainID : ID) (signer : AuthFactory) (proverAuthority : Address)
    (cfg : benchConfig) : ST World unit :=
  let* set := catch (setProofConfig chainID signer proverAuthority cfg) in
  match set with
  | inl _ => ret tt
  | inr err =>
      fail_if (negb (isUnauthorizedError err)) err ;;;
      let fallbackKeyHex := TrimSpace (ProofConfigFallbackPrivateKeyHex cfg) in
      let fallbackKeyHex :=
        if bool_decide (fallbackKeyHex = [])
           && bool_decide (TrimSpace (ProofConfigPrivateKeyHex cfg) = [])
           && negb (EqualFold_hex (TrimSpace (PrivateKeyHex cfg)) defaultKeyHex)
        then defaultKeyHex else fallbackKeyHex in
      fail_if (bool_decide (fallbackKeyHex = [])) err ;;;
      let* (_, fallbackSigner) :=
        map_err (wrapf "invalid PROOF_CONFIG_FALLBACK_PRIVATE_KEY") (lift (loadSigner fallbackKeyHex)) in
      setProofConfig chainID fallbackSigner proverAuthority cfg
  end.

(** The fee budget of the whole run, before it starts. *)
Definition preflight (se : Session) : ST World unit :=
  let cfg := se_cfg se in
  let* initialMaxFee := map_err (wrapf "initial unitprices") currentMaxFee in
  let* _ := map_err (wrapf "initial bench balance") (JSONRPCClient.Balance (se_addr se)) in
  let plannedTxs := plannedActionCount (BatchSizes cfg) (WindowsPerSize cfg) in
  let requiredBudget :=
    estimateRequiredBudget plannedTxs initialMaxFee (GasSafetyBps cfg) (GasReserve cfg) in
  let* r := catch (ensureBenchBalance se "startup preflight" requiredBudget) in
  match r with
  | inl _ => ret tt
  | inr err => fail_if (hasRefuel se || StrictFeePreflight cfg) err
  end.

(** What follows: the proof policy and the batches, unless only the budget was
    asked for. *)
Definition measure (se : Session) (proofConfigSigner : AuthFactory) (proverAuthority : Address)
    : ST World benchReport :=
  let cfg := se_cfg se in
  if PrefundOnly cfg then
    let* t := on_snd now in
    ret (mk_report t cfg [])
  else
    let* proofs := on_snd (newProofBuilder cfg) in
    configure_proofs (se_chainID se) proofConfigSigner proverAuthority cfg ;;;
    let* t := on_snd now in
    let* results := run_batches se proofs (BatchSizes cfg) in
    ret (mk_report t cfg results).

Definition runBench (cfg : benchConfig) : ST World benchReport :=
  let* (addr, factory) := lift (loadSigner (PrivateKeyHex cfg)) in
  let* prover := loadSigner_if "invalid PROVER_AUTHORITY_PRIVATE_KEY"
                   (ProverAuthorityPrivateKeyHex cfg) in
  let proverAuthority := match prover with Some (a, _) => a | None => addr end in
  let* policy := loadSigner_if "invalid PROOF_CONFIG_PRIVATE_KEY" (ProofConfigPrivateKeyHex cfg) in
  let proofConfigSigner := match policy with Some (_, f) => f | None => factory end in
  let* refuel := loadSigner_if "invalid REFUEL_PRIVATE_KEY" (RefuelPrivateKeyHex cfg) in
  let* chainID := map_err (wrapf "network") (on_snd Network) in
  let se := mk_session _ chainID addr factory refuel cfg in
  preflight se ;;;
  measure se proofConfigSigner proverAuthority.

(** ** The program *)

Context {RJ : ReportJSON}.

(** [main]: an error, like [fatalf], ends it with status 1; the deadline of the
    context is the world's. *)
Definition main : ST World unit :=
  let* cfg := lift loadConfig in
  on_snd (fs_MkdirAll (OutputDir cfg)) ;;;
  let* report := runBench cfg in
  let summaryPath := filepath_Join [OutputDir cfg; str "summary.md"] in
  on_snd (writeSummaryMarkdown summaryPath report) ;;;
  let jsonPath := filepath_Join [OutputDir cfg; str "summary.json"] in
  on_snd (writeJSON jsonPath report).
End session.
