(* ===== verification/Smoke.v ===== *)
(** * The smoke run ([cmd/veilvm-smoke/main.go])

    A scripted run against a live node: create the pool, mint, deposit, swap, and
    compare what the node then answers. The report is part of the state, because
    the steps before an error stay in it. *)
From stdpp Require Import strings pretty.
From S2P Require Import Prelude Errors Go Platform Storage Metrics Server Pools Vai Genesis.
From S2P Require Import AmmMath Zk Client Bench Chain Network.

Module PoolState.
Record t := mk { Reserve0 : Z; Reserve1 : Z; TotalLP : Z; FeeBips : Z }.
End PoolState.

Module Step.
Record t := mk { Name : string; Pass : bool; TxID : string; Detail : string; Err : string }.
End Step.

Module Report.
Record t := mk {
  Pass : bool; Err : string; Steps : list Step.t;
  PoolBefore : option PoolState.t; PoolAfter : option PoolState.t; LPBefore : Z; LPAfter : Z
}.
Definition new : t := mk false EmptyString [] None None 0 0.
Definition add_step (x : Step.t) (r : t) : t :=
  mk (Pass r) (Err r) (Steps r ++ [x]) (PoolBefore r) (PoolAfter r) (LPBefore r) (LPAfter r).
Definition set_before (p : PoolState.t) (r : t) : t :=
  mk (Pass r) (Err r) (Steps r) (Some p) (PoolAfter r) (LPBefore r) (LPAfter r).
Definition set_after (p : PoolState.t) (r : t) : t :=
  mk (Pass r) (Err r) (Steps r) (PoolBefore r) (Some p) (LPBefore r) (LPAfter r).
Definition set_lp_before (lp : Z) (r : t) : t :=
  mk (Pass r) (Err r) (Steps r) (PoolBefore r) (PoolAfter r) lp (LPAfter r).
Definition set_lp_after (lp : Z) (r : t) : t :=
  mk (Pass r) (Err r) (Steps r) (PoolBefore r) (PoolAfter r) (LPBefore r) lp.
Definition finish (pass : bool) (err : string) (r : t) : t :=
  mk pass err (Steps r) (PoolBefore r) (PoolAfter r) (LPBefore r) (LPAfter r).
End Report.

(** The fee cap: the sum of the prices, which can wrap, but at least 100000. *)
Definition smoke_maxFee (unitPrices : list Z) : Z :=
  let maxFee := fold_left (fun acc p => wrap_u64 (acc + wrap_u64 (p * 10000))) unitPrices 0 in
  if maxFee <? 100000 then 100000 else maxFee.

Definition smoke_expiry (ts : Z) : Z :=
  let expiry := Z.quot (ts + 60000) 1000 * 1000 in
  if expiry <=? ts then (Z.quot ts 1000 + 61) * 1000 else expiry.

Section smoke.
Context {PF : Platform} {TX : Text} {SG : Signing} {Rules N : Type}.
Context {RQ : Requester Rules N} {CC : CoreClient N} {HO : Host N}.

Definition World : Type := (Report.t * (JSONRPCClient.t Rules * N))%type.

Definition update (f : Report.t -> Report.t) : ST World unit := fun s => (Ok tt, (f s.1, s.2)).
Definition core {A} (c : ST N A) : ST World A := on_snd (on_snd c).
Definition veil {A} (c : ST (JSONRPCClient.t Rules * N) A) : ST World A := on_snd c.

(** The height of a call whose error is dropped: zero then. *)
Definition height : ST World Z :=
  let* r := catch (core Accepted) in
  ret (match r with inl (h, _) => h | inr _ => 0 end).

Fixpoint wait_loop (i : nat) (h0 : Z) : ST World unit :=
  match i with
  | O => ret tt
  | S i' =>
      core (sleep Second) ;;;
      let* h1 := height in
      if h0 <? h1 then ret tt else wait_loop i' h0
  end.

Definition submitAction (factory : AuthFactory) (action : ChainAction) : ST World string :=
  let* chainID := map_err (wrapf "network") (core Network) in
  let* (_, ts) := map_err (wrapf "accepted") (core Accepted) in
  let* unitPrices := map_err (wrapf "unitPrices") (core (UnitPrices true)) in
  let base := mk_base (smoke_expiry ts) chainID (smoke_maxFee unitPrices) in
  let* raw := lift (Bytes action) in
  let* txBytes := map_err (wrapf "sign") (lift (SignRawActionBytesTx base [raw] factory)) in
  let* txID := map_err (wrapf "submit") (core (SubmitTx txBytes)) in
  let* h0 := height in
  wait_loop 30 h0 ;;;
  ret (ids_String txID).

Definition passed (name tx detail : string) : Step.t := Step.mk name true tx detail EmptyString.

(** Submit, and note the step. *)
Definition submit_step (factory : AuthFactory) (name what detail : string) (action : ChainAction)
    : ST World unit :=
  let* r := catch (submitAction factory action) in
  match r with
  | inr err =>
      update (Report.add_step (Step.mk name false EmptyString EmptyString (err_Error err))) ;;;
      fail (wrapf what err)
  | inl txID => update (Report.add_step (passed name txID detail))
  end.

Definition pool_query (what : string) : ST World PoolReply.t :=
  map_err (wrapf what) (veil (JSONRPCClient.Pool AssetVEIL AssetVAI)).

(** A query whose error counts as zero. *)
Definition or_zero (c : ST World Z) : ST World Z :=
  let* r := catch c in ret (match r with inl z => z | inr _ => 0 end).

Definition pool_state (p : PoolReply.t) : PoolState.t :=
  PoolState.mk (PoolReply.Reserve0 p) (PoolReply.Reserve1 p) (PoolReply.TotalLP p)
               (PoolReply.FeeBips p).

(** [k=v] in the details. *)
Definition kv (k : string) (z : Z) : string := (k ++ "=" ++ FormatInt z)%string.
Definition reserves (p : PoolReply.t) : string :=
  (kv "reserve0" (PoolReply.Reserve0 p) ++ " " ++ kv "reserve1" (PoolReply.Reserve1 p) ++ " "
   ++ kv "totalLP" (PoolReply.TotalLP p))%string.

Definition create_pool : ChainAction := ACreatePool (CreatePool.mk AssetVEIL AssetVAI 30).
Definition mint (addr : Address) : ChainAction := AMintVAI (MintVAI.mk addr 10000).
Definition add_liquidity : ChainAction :=
  AAddLiquidity (AddLiquidity.mk AssetVEIL AssetVAI 10000 10000 1).
Definition swap : ChainAction := ASwapExactIn (SwapExactIn.mk AssetVEIL AssetVAI 100 1).

(** Steps 1 to 5: the balances, the pool, the mint. *)
Definition run_setup (addr : Address) (factory : AuthFactory) : ST World unit :=
  let* bal := map_err (wrapf "balance query") (veil (JSONRPCClient.Balance addr)) in
  let* vaiBal := or_zero (veil (JSONRPCClient.VAIBalance addr)) in
  update (Report.add_step (passed "query_initial_balances" EmptyString
    (kv "VEIL" bal ++ " " ++ kv "VAI" vaiBal ++ " addr=" ++ addr_String addr)%string)) ;;;
  submit_step factory "create_pool" "create_pool" "VEIL/VAI pool created, fee=30bps" create_pool ;;;
  let* pool := pool_query "pool query after create" in
  update (Report.set_before (pool_state pool)) ;;;
  update (Report.add_step (Step.mk "query_pool_created"
    ((PoolReply.FeeBips pool =? 30) && (PoolReply.Reserve0 pool =? 0)
     && (PoolReply.Reserve1 pool =? 0)) EmptyString
    (kv "fee" (PoolReply.FeeBips pool) ++ " " ++ reserves pool)%string EmptyString)) ;;;
  submit_step factory "mint_vai" "mint_vai" ("minted 10000 VAI to " ++ addr_String addr)%string
    (mint addr) ;;;
  let* lp := or_zero (veil (JSONRPCClient.LPBalance AssetVEIL AssetVAI addr)) in
  update (Report.set_lp_before lp) ;;;
  update (Report.add_step (passed "query_lp_before" EmptyString (kv "LP" lp))).

(** Steps 6 and 7: the deposit. *)
Definition run_deposit (factory : AuthFactory) : ST World unit :=
  submit_step factory "add_liquidity" "add_liquidity" "added 10000 VEIL + 10000 VAI"
    add_liquidity ;;;
  let* pool := pool_query "pool query after liquidity" in
  let ok := (0 <? PoolReply.Reserve0 pool) && (0 <? PoolReply.Reserve1 pool)
            && (0 <? PoolReply.TotalLP pool) in
  update (Report.add_step (Step.mk "query_pool_after_liquidity" ok EmptyString (reserves pool)
                                   EmptyString)) ;;;
  fail_if (negb ok) (ErrMessage "pool reserves not set after add_liquidity").

(** Steps 8 and 9: the swap. A missing pool before would panic. *)
Definition run_swap (addr : Address) (factory : AuthFactory) : ST World unit :=
  submit_step factory "swap_veil_to_vai" "swap" "swapped 100 VEIL → VAI" swap ;;;
  let* pool := pool_query "pool query after swap" in
  update (Report.set_after (pool_state pool)) ;;;
  let* lp := or_zero (veil (JSONRPCClient.LPBalance AssetVEIL AssetVAI addr)) in
  update (Report.set_lp_after lp) ;;;
  let swapOK := (10000 <? PoolReply.Reserve0 pool) && (PoolReply.Reserve1 pool <? 10000) in
  let* report := (fun s => (Ok s.1, s)) in
  match Report.PoolBefore report with
  | None => panic
  | Some before =>
      update (Report.add_step (Step.mk "verify_swap_invariants" swapOK EmptyString
        ("before(" ++ kv "r0" (PoolState.Reserve0 before) ++ ","
         ++ kv "r1" (PoolState.Reserve1 before) ++ ") after("
         ++ kv "r0" (PoolReply.Reserve0 pool) ++ "," ++ kv "r1" (PoolReply.Reserve1 pool) ++ ") "
         ++ kv "lp" lp)%string EmptyString)) ;;;
      fail_if (negb swapOK) (ErrMessage "swap invariants failed")
  end.

(** A query that is noted before its error is returned. *)
Definition noted_query {A} (name what : string) (c : ST World A) : ST World A :=
  let* r := catch c in
  match r with
  | inl a => ret a
  | inr err =>
      update (Report.add_step (Step.mk name false EmptyString EmptyString (err_Error err))) ;;;
      fail (wrapf what err)
  end.

(** Step 10: the queries once more. *)
Definition run_queries (addr : Address) : ST World unit :=
  let* pool := noted_query "rpc_pool" "rpc pool" (veil (JSONRPCClient.Pool AssetVEIL AssetVAI)) in
  update (Report.add_step (passed "rpc_pool" EmptyString
    (reserves pool ++ " " ++ kv "feeBips" (PoolReply.FeeBips pool))%string)) ;;;
  let* lp := noted_query "rpc_lpbalance" "rpc lpbalance"
               (veil (JSONRPCClient.LPBalance AssetVEIL AssetVAI addr)) in
  update (Report.add_step (Step.mk "rpc_lpbalance" (0 <? lp) EmptyString (kv "lp_balance" lp)
                                   EmptyString)).

Definition run (pkHex : bytes) : ST World unit :=
  let* pkBytes := map_err (wrapf "invalid PRIVATE_KEY hex") (lift (hex_DecodeString pkHex)) in
  let* priv := lift (ed25519_PrivateKey pkBytes) in
  let factory := NewED25519Factory priv in
  let addr := NewED25519Address priv in
  run_setup addr factory ;;;
  run_deposit factory ;;;
  run_swap addr factory ;;;
  run_queries addr.

(** [main]: the report it prints; the program ends with status 0 if it passed. *)
Definition main {os : OS} : ST (JSONRPCClient.t Rules * N) Report.t := fun w =>
  if bool_decide (os_Getenv (text "CHAIN_ID") = []) then
    (Err (ErrMessage "CHAIN_ID env required"), w)
  else
    let pkHex := envOr "PRIVATE_KEY" defaultKeyHex in
    match run pkHex (Report.new, w) with
    | (Ok _, (report, w')) => (Ok (Report.finish true EmptyString report), w')
    | (Err e, (report, w')) => (Ok (Report.finish false (err_Error e) report), w')
    | (Panic, (_, w')) => (Panic, w')
    end.
End smoke.
