(* ===== verification/Fixture.v ===== *)
(** * The programs around the node ([cmd/veilvm-zktool], [cmd/veilvm-keygen],
    [cmd/veilvm/version], [consts/])

    The fixture tool from its flags to the files it writes; the identity of the
    VM and the line its version command prints; the key generator from its
    arguments to what it prints. *)
From stdpp Require Import strings pretty.
From S2P Require Import Prelude Errors Go Platform Sha256 Storage ProofEnvelope Metrics Markets.
From S2P Require Import Proofs Genesis Zk Circuits Client Tools Bench Chain Results Network.

(** ** The fixture tool *)

(** What it uses of [gnark] besides the prover. *)
Class Setup {F : Frontend} {PV : Prover} : Type := {
  VerifyingKey : Type;
  groth16_Setup : ConstraintSystem -> Outcome (ProvingKey * VerifyingKey);
  PK_WriteTo : ProvingKey -> Outcome bytes;
  VK_WriteTo : VerifyingKey -> Outcome bytes
}.

(** [crypto/rand.Read] of 32 bytes. *)
Class Random (N : Type) : Type := rand_Read : ST N (array 32).

Record Flags := mk_flags {
  f_out : bytes; f_sample : bool; f_keys : bool; f_circuit : bytes
}.
Definition default_flags : Flags := mk_flags (str "./zk-fixture") true true ProofCircuitClearHashV1.

Section zktool.
Context {F : Frontend} {PV : Prover} {SU : Setup} {N : Type} {FI : Files N} {RN : Random N}.

Definition writeWithWriterTo (path : bytes) (obj : Outcome bytes) : ST N unit :=
  let* buf := lift obj in
  fs_WriteFile path buf.

Definition in_dir (fl : Flags) (name : string) : bytes := filepath_Join [f_out fl; str name].

(** The files of one sample, by the prefix of their names, in order. *)
Definition write_samples (fl : Flags) (prefix : string)
    (hash preimage witness proof envelope : bytes) : ST N unit :=
  let path suffix := in_dir fl (prefix ++ suffix)%string in
  fs_WriteFile (path "_public_inputs_hash.hex"%string) (EncodeToString hash) ;;;
  fs_WriteFile (path "_preimage.hex"%string) (EncodeToString preimage) ;;;
  fs_WriteFile (path "_public_witness.bin"%string) witness ;;;
  fs_WriteFile (path "_proof.bin"%string) proof ;;;
  fs_WriteFile (path "_proof_envelope.bin"%string) envelope.

Definition write_keys (fl : Flags) (a : ZkTool.Artifacts) (pk : ProvingKey) (vk : VerifyingKey)
    : ST N unit :=
  writeWithWriterTo (in_dir fl (ZkTool.pkName a)) (PK_WriteTo pk) ;;;
  writeWithWriterTo (in_dir fl (ZkTool.vkName a)) (VK_WriteTo vk) ;;;
  if ZkTool.writeCompat a then
    writeWithWriterTo (in_dir fl "groth16_hashbinding_pk.bin") (PK_WriteTo pk) ;;;
    writeWithWriterTo (in_dir fl "groth16_hashbinding_vk.bin") (VK_WriteTo vk)
  else ret tt.

(** The payload of a sample. *)
Definition prove_sample (circuitID : bytes) (ccs : ConstraintSystem) (pk : ProvingKey)
    (preimage hash : bytes) : Outcome (bytes * bytes * bytes) :=
  let? assignment := ZkTool.buildAssignment circuitID preimage hash in
  let? fullWitness := frontend_NewWitness assignment in
  let? publicWitness := fullWitness_Public fullWitness in
  let? publicWitnessBytes := MarshalBinary publicWitness in
  let? proof := groth16_Prove ccs pk fullWitness in
  let? proofBytes := GProof_WriteTo proof in
  let? envelope := BuildProofEnvelopeWithCircuit ProofTypeGroth16 circuitID proofBytes
                     publicWitnessBytes in
  Ok (publicWitnessBytes, proofBytes, envelope).

Definition write_sample (fl : Flags) (circuitID : bytes) (a : ZkTool.Artifacts)
    (ccs : ConstraintSystem) (pk : ProvingKey) : ST N unit :=
  let* marketID := rand_Read in
  let* fills := rand_Read in
  let* (preimage, hash) := lift (ZkTool.buildSamplePreimage circuitID (Ok marketID) (Ok fills)) in
  let* (witness, proof, envelope) := lift (prove_sample circuitID ccs pk preimage hash) in
  write_samples fl (ZkTool.samplePrefix a) hash preimage witness proof envelope ;;;
  if bool_decide (circuitID = ProofCircuitClearHashV1)
  then write_samples fl "sample" hash preimage witness proof envelope
  else ret tt.

(** [main]: an error, like [fatalf], ends it with status 1. *)
Definition zktool_main (fl : Flags) : ST N unit :=
  let circuitID := TrimSpace (f_circuit fl) in
  fs_MkdirAll (f_out fl) ;;;
  let* circuit := lift (ZkTool.selectedCircuit circuitID) in
  let* ccs := lift (frontend_Compile circuit) in
  let* (pk, vk) := lift (groth16_Setup ccs) in
  let* a := lift (ZkTool.artifactNames circuitID) in
  (if f_keys fl then write_keys fl a pk vk else ret tt) ;;;
  if f_sample fl then write_sample fl circuitID a ccs pk else ret tt.
End zktool.

(** ** Identity ([consts/consts.go]) *)

Module consts.
Definition Name : string := "veilvm".
Definition Symbol : string := "VEIL".
(** [copy] into a fresh array of [ids.IDLen] bytes, which [ids.ToID] accepts. *)
Definition ID : Hash := copy_array 32 (str Name).
(** [version.Semantic] *)
Record Semantic := mk_semantic { Major : Z; Minor : Z; Patch : Z }.
Definition Version : Semantic := mk_semantic 0 0 1.
End consts.

(** [cmd/veilvm/version]: the line printed; the platform renders the version. *)
Definition versionFunc {TX : Text} (render : consts.Semantic -> string) : string :=
  (consts.Name ++ "@" ++ render consts.Version ++ " (" ++ ids_String consts.ID ++ ")")%string.

(** ** The key generator *)

Inductive Printed (Rules : Type) :=
| PrintID (id : Hash)
| PrintGenesis (g : Genesis.t Rules).
Arguments PrintID {_} _.
Arguments PrintGenesis {_} _.

(** [main] on its arguments: the identifier of the VM, or the genesis for the
    address of a fresh key. *)
Definition keygen_main {Rules N} `{!GenesisFile Rules} {SG : Signing}
    (GeneratePrivateKey : ST N PrivateKey) (tune : Keygen.Limits -> Rules -> Rules)
    (args : list bytes) : ST N (Printed Rules) :=
  if match args with _ :: a :: _ => bool_decide (a = str "--vm-id") | _ => false end
  then ret (PrintID (copy_array 32 (str "veilvm")))
  else
    let* priv := GeneratePrivateKey in
    ret (PrintGenesis (Keygen.genesis tune (NewED25519Address priv))).
