(* ===== verification/Footprint.v ===== *)
(** * Declared keys are enough

    Each action declares, in [StateKeys], the keys it touches and how. Whatever
    an execution returns, an error or a panic included, the only keys it writes
    are those declared with the write permission. *)
From S2P Require Import Prelude Errors Go Platform Storage Balance Action AmmMath Transfer.
From S2P Require Import ProofEnvelope Pools PoolFacts Vai Treasury Metrics Markets Proofs.
From S2P Require Import MarketFacts ProofFacts Chain.

Definition declared_write {PF : Platform} (ks : gmap bytes Permissions) (k : bytes) : Prop :=
  exists p, ks !! k = Some p /\ perm_Has p state_Write = true.

(** ** Declared keys *)

Section declared.
Context {PF : Platform} {PS : PlatformSpec}.

Lemma state_keys_app {P} (l : list (bytes * P)) x :
  state_keys (l ++ [x]) = <[x.1 := x.2]> (state_keys l).
Proof. unfold state_keys. by rewrite foldl_app. Qed.

Lemma state_keys_lookup {P} (l : list (bytes * P)) k :
  (exists p, In (k, p) l) -> exists p, state_keys l !! k = Some p /\ In (k, p) l.
Proof.
  induction l as [|[k' p'] l IH] using rev_ind; intros [p Hp]; [done|].
  rewrite state_keys_app. cbn [fst snd]. destruct (decide (k' = k)) as [->|Hne].
  - exists p'. rewrite lookup_insert_eq. split; [done|]. apply in_or_app. right. by left.
  - rewrite lookup_insert_ne by done. apply in_app_or in Hp as [Hp|[[= -> ->]|[]]]; [|done].
    destruct IH as (q & Hq & Hin); [by exists p|]. exists q. split; [done|].
    apply in_or_app. by left.
Qed.

Lemma declared_intro (l : list (bytes * Permissions)) k :
  (exists p, In (k, p) l) -> (forall p, In (k, p) l -> perm_Has p state_Write = true) ->
  declared_write (state_keys l) k.
Proof. intros (p & H & Hin)%state_keys_lookup Hall. exists p. eauto. Qed.

Lemma undeclared_intro (l : list (bytes * Permissions)) k :
  (forall p, In (k, p) l -> perm_Has p state_Write = false) ->
  ~ declared_write (state_keys l) k.
Proof.
  intros Hall (p & Hl & Hp).
  assert (Hin : forall l0 : list (bytes * Permissions), state_keys l0 !! k = Some p -> In (k, p) l0).
  { intros l0. induction l0 as [|[k' p'] l0 IH] using rev_ind; [by cbn|].
    rewrite state_keys_app. cbn [fst snd]. destruct (decide (k' = k)) as [->|Hne].
    - rewrite lookup_insert_eq. intros [= ->]. apply in_or_app. right. by left.
    - rewrite lookup_insert_ne by done. intros H. apply in_or_app. left. by apply IH. }
  apply Hin, Hall in Hl. congruence.
Qed.

Lemma Has_All_Write : perm_Has state_All state_Write = true.
Proof. apply Has_All. cbn. tauto. Qed.
End declared.

(** Show that a key is among the declared ones, with the write permission. *)
Ltac declared :=
  apply declared_intro;
  [ eexists; cbn; eauto 8
  | cbn; intros ? Hin;
    repeat match type of Hin with _ \/ _ => destruct Hin as [Hin|Hin] end; try done;
    let Hk := fresh "Hk" in apply pair_equal_spec in Hin as [Hk <-];
    first [ apply Has_All_Write | apply Has_RW_Write | exfalso; refine ((_ : _ <> _) Hk); key_ne ] ].

(** The literal that a handler's [StateKeys] returns. *)
Ltac unfold_keys :=
  cbv delta [Transfer.StateKeys CreateMarket.StateKeys CommitOrder.StateKeys RevealBatch.StateKeys
    ClearBatch.StateKeys ResolveMarket.StateKeys Dispute.StateKeys RouteFees.StateKeys
    ReleaseCOLTranche.StateKeys MintVAI.StateKeys BurnVAI.StateKeys CreatePool.StateKeys
    AddLiquidity.StateKeys RemoveLiquidity.StateKeys SwapExactIn.StateKeys
    UpdateReserveState.StateKeys SetRiskParams.StateKeys SubmitBatchProof.StateKeys
    SetProofConfig.StateKeys]; cbv beta zeta.

(** Show that a key is not declared with the write permission. *)
Ltac undeclared :=
  apply undeclared_intro; cbn; intros ? Hin;
  repeat match type of Hin with _ \/ _ => destruct Hin as [Hin|Hin] end; try done;
  apply pair_equal_spec in Hin as [Hk <-];
  first [ apply Has_Read_Write | exfalso; refine ((_ : _ <> _) Hk); key_ne ].

(** ** Footprints from one state *)

Definition wo_at {M A} {MU : Mutable M} {MS : MutableSpec M}
    (P : bytes -> Prop) (c : ST M A) (s : M) : Prop :=
  forall r s', c s = (r, s') -> forall k, ~ P k -> contents s' !! k = contents s !! k.

Section wo_at.
Context {M : Type} {MU : Mutable M} {MS : MutableSpec M}.
Implicit Types (P : bytes -> Prop).

Lemma wo_wo_at {A} P (c : ST M A) s : writes_only P c -> wo_at P c s.
Proof. intros H r s' E. by eapply H. Qed.

(** A first part that leaves the state alone when it succeeds. *)
Lemma wo_at_bind {A B} P (c : ST M A) (k : A -> ST M B) s :
  writes_only P c -> (forall a s1, c s = (Ok a, s1) -> s1 = s /\ wo_at P (k a) s) ->
  wo_at P (bind c k) s.
Proof.
  intros Hc Hk r s' E key HP. unfold bind in E.
  destruct (c s) as [[a|e|] s1] eqn:E1; [|simplify_eq; by eapply Hc..].
  destruct (Hk a s1 eq_refl) as [-> Hw]. by eapply Hw.
Qed.
End wo_at.

(** ** The handlers with deferred reports *)

Section deferred.
Context {M : Type} {MU : Mutable M} {MS : MutableSpec M}.
Implicit Types (P : bytes -> Prop).

Lemma wo_defer_metric {A} P report (body : ST (M * zkMetricsCollector) A) :
  writes_only P body -> writes_only P (defer_metric report body).
Proof.
  intros Hb s r s' (c' & E & _)%defer_metric_run k Hk.
  apply (Hb _ _ _ E k Hk).
Qed.

Lemma wo_with_locals {A} P report (body : ST ((M * zkMetricsCollector) * Locals) A) :
  writes_only P body -> writes_only P (with_locals report body).
Proof.
  intros Hb s r s' (c' & l & E & _)%with_locals_run k Hk.
  apply (Hb _ _ _ E k Hk).
Qed.

Lemma wo_fail_late P b e : writes_only P (fail_late (S := M) b e).
Proof. destruct b; [by intros s r s' [= _ <-]|apply wo_ret]. Qed.
Lemma wo_set_duration P d : writes_only P (set_duration (S := M) d).
Proof. by intros s r s' [= _ <-]. Qed.
Lemma wo_set_accepted P ts : writes_only P (set_accepted (S := M) ts).
Proof. by intros s r s' [= _ <-]. Qed.
Lemma wo_set_verifying P : writes_only P (set_verifying (S := M)).
Proof. by intros s r s' [= _ <-]. Qed.
Lemma wo_GetBloodsworn {PF : Platform} P x : writes_only P (GetBloodsworn (M := M) x).
Proof. by intros s r s' [= _ <-]. Qed.
End deferred.
#[export] Hint Resolve wo_fail_late wo_set_duration wo_set_accepted wo_set_verifying
  wo_GetBloodsworn : footprint.

(** ** The actions *)

Section actions.
Context {PF : Platform} {PS : PlatformSpec} {M : Type} {MU : Mutable M} {MS : MutableSpec M}.
Context {TX : Text}.

(** Declare the written keys of the goal's [StateKeys], then walk the handler. *)
Ltac writes K :=
  lazymatch goal with
  | |- writes_only (declared_write ?ks) _ =>
      assert (declared_write ks K) by (unfold_keys; declared)
  end.
Ltac walk :=
  cbv delta [Transfer.Execute CreateMarket.Execute CommitOrder.Execute RevealBatch.Execute
    ClearBatch.Execute ResolveMarket.Execute Dispute.Execute RouteFees.Execute
    ReleaseCOLTranche.Execute MintVAI.Execute BurnVAI.Execute UpdateReserveState.Execute
    SetRiskParams.Execute SubmitBatchProof.Execute SetProofConfig.Execute];
  cbv beta zeta; try apply wo_defer_metric; try apply wo_with_locals;
  unfold CommitOrder.body, RevealBatch.body, ClearBatch.body, SubmitBatchProof.body,
    SubmitBatchProof.accept, ClearBatch.check_proof,
    SubBalance, AddBalance, SubVAIBalance, AddVAIBalance, PutRiskConfig, PutProofConfig,
    PutBatchProofRecord, PutVellumProof, PutGlyph; footprint.

Lemma wo_transfer a ts actor tx :
  writes_only (declared_write (Transfer.StateKeys a actor tx))
    (Transfer.Execute (M := M) a ts actor tx).
Proof. writes (BalanceKey actor). writes (BalanceKey (Transfer.To a)). walk. Qed.

Lemma wo_create_market a ts actor tx :
  writes_only (declared_write (CreateMarket.StateKeys a actor tx))
    (CreateMarket.Execute (M := M) a ts actor tx).
Proof. writes (BalanceKey actor). writes (MarketKey (CreateMarket.MarketID a)). walk. Qed.

Lemma wo_commit_order e a ts actor tx :
  writes_only (declared_write (CommitOrder.StateKeys a actor tx))
    (CommitOrder.Execute (M := M) e a ts actor tx).
Proof.
  writes (CommitmentKey (CommitOrder.MarketID a) (CommitOrder.WindowID a) actor). walk.
Qed.

Lemma wo_reveal_batch e a ts actor tx :
  writes_only (declared_write (RevealBatch.StateKeys a actor tx))
    (RevealBatch.Execute (M := M) e a ts actor tx).
Proof. writes (OracleKey (RevealBatch.MarketID a) (RevealBatch.ValidatorIndex a)). walk. Qed.

Lemma wo_clear_batch vc clk a ts actor tx :
  writes_only (declared_write (ClearBatch.StateKeys a actor tx))
    (ClearBatch.Execute (M := M) vc clk a ts actor tx).
Proof. writes (BatchKey (ClearBatch.MarketID a) (ClearBatch.WindowID a)). walk. Qed.

Lemma wo_resolve_market a ts actor tx :
  writes_only (declared_write (ResolveMarket.StateKeys a actor tx))
    (ResolveMarket.Execute (M := M) a ts actor tx).
Proof. writes (MarketKey (ResolveMarket.MarketID a)). walk. Qed.

Lemma wo_dispute a ts actor tx :
  writes_only (declared_write (Dispute.StateKeys a actor tx))
    (Dispute.Execute (M := M) a ts actor tx).
Proof.
  writes (BalanceKey actor). writes (MarketKey (Dispute.MarketID a)).
  writes (DisputeKey (Dispute.MarketID a)). walk.
Qed.

Lemma wo_route_fees a ts actor tx :
  writes_only (declared_write (RouteFees.StateKeys a actor tx))
    (RouteFees.Execute (M := M) a ts actor tx).
Proof. writes (BalanceKey actor). writes (FeeRouterStateKey). walk. Qed.

Lemma wo_release a ts actor tx :
  writes_only (declared_write (ReleaseCOLTranche.StateKeys a actor tx))
    (ReleaseCOLTranche.Execute (M := M) a ts actor tx).
Proof. writes TreasuryStateKey. walk. Qed.

Lemma wo_mint a ts actor tx :
  writes_only (declared_write (MintVAI.StateKeys a actor tx))
    (MintVAI.Execute (M := M) a ts actor tx).
Proof. writes VAIStateKey. writes (VAIBalanceKey (MintVAI.To a)). walk. Qed.

Lemma wo_burn a ts actor tx :
  writes_only (declared_write (BurnVAI.StateKeys a actor tx))
    (BurnVAI.Execute (M := M) a ts actor tx).
Proof. writes VAIStateKey. writes (VAIBalanceKey actor). walk. Qed.

Lemma wo_update_reserve a ts actor tx :
  writes_only (declared_write (UpdateReserveState.StateKeys a actor tx))
    (UpdateReserveState.Execute (M := M) a ts actor tx).
Proof. writes ReserveStateKey. walk. Qed.

Lemma wo_set_risk a ts actor tx :
  writes_only (declared_write (SetRiskParams.StateKeys a actor tx))
    (SetRiskParams.Execute (M := M) a ts actor tx).
Proof. writes RiskConfigKey. walk. Qed.

Lemma wo_submit vc clk a ts actor tx :
  writes_only (declared_write (SubmitBatchProof.StateKeys a actor tx))
    (SubmitBatchProof.Execute (M := M) vc clk a ts actor tx).
Proof.
  writes (BatchProofKey (SubmitBatchProof.MarketID a) (SubmitBatchProof.WindowID a)).
  writes (VellumProofKey (SubmitBatchProof.MarketID a) (SubmitBatchProof.WindowID a)).
  writes (BloodswornKey actor).
  writes (GlyphKey (SubmitBatchProof.MarketID a) (SubmitBatchProof.WindowID a)). walk.
Qed.

Lemma wo_set_proof_config a ts actor tx :
  writes_only (declared_write (SetProofConfig.StateKeys a actor tx))
    (SetProofConfig.Execute (M := M) a ts actor tx).
Proof. writes ProofConfigKey. walk. Qed.

(** The pool actions write the cell of the pool they read, which under the
    invariant is the one they declared. *)
Lemma pool_keys a b u p (s s1 : M) :
  pool_inv (contents s) -> validateAssetPair a b = Ok u -> GetPool a b s = (Ok p, s1) ->
  s1 = s /\ PoolKey (Pool.Asset0 p) (Pool.Asset1 p) = PoolKey a b /\
  forall x, LPBalanceKey (Pool.Asset0 p) (Pool.Asset1 p) x = LPBalanceKey a b x.
Proof.
  intros Hinv V H. pose proof (pool_inv_read _ _ _ _ _ _ Hinv V H) as (_ & (-> & -> & _) & _).
  apply get_parsed_ok in H as [-> _].
  apply validateAssetPair_ok in V as [[-> ->]|[-> ->]]; by split_and!.
Qed.

Ltac walk_pool :=
  apply wo_at_bind; [footprint|]; intros ? ? [V ->]%lift_ok; split; [done|];
  apply wo_at_bind; [footprint|]; intros ? ? [_ ->]%fail_if_ok; split; [done|];
  apply wo_at_bind; [unfold GetPool; footprint|];
  intros ? ? Hget; eapply pool_keys in Hget; [|eassumption..];
  destruct Hget as (-> & HK & HL); split; [done|];
  apply wo_wo_at; unfold AddLPBalance, SubLPBalance, GetLPBalance, PutPool;
  repeat match goal with
  | D : ?P (PoolKey _ _) |- _ => is_var P; rewrite <-HK in D; clear HK
  | D : ?P (LPBalanceKey _ _ _) |- _ => is_var P; rewrite <-HL in D; clear HL
  end; footprint.

Lemma wo_add_liquidity a ts actor tx (s : M) :
  pool_inv (contents s) ->
  wo_at (declared_write (AddLiquidity.StateKeys a actor tx))
    (AddLiquidity.Execute a ts actor tx) s.
Proof.
  intros Hinv. set (P := declared_write _).
  assert (P (BalanceKey actor) /\ P (VAIBalanceKey actor) /\
    P (PoolKey (AddLiquidity.Asset0 a) (AddLiquidity.Asset1 a)) /\
    P (LPBalanceKey (AddLiquidity.Asset0 a) (AddLiquidity.Asset1 a) actor)) as (? & ? & ? & ?)
    by (unfold P, AddLiquidity.StateKeys; split_and!; declared).
  unfold AddLiquidity.Execute. walk_pool.
Qed.

Lemma wo_remove_liquidity a ts actor tx (s : M) :
  pool_inv (contents s) ->
  wo_at (declared_write (RemoveLiquidity.StateKeys a actor tx))
    (RemoveLiquidity.Execute a ts actor tx) s.
Proof.
  intros Hinv. set (P := declared_write _).
  assert (P (BalanceKey actor) /\ P (VAIBalanceKey actor) /\
    P (PoolKey (RemoveLiquidity.Asset0 a) (RemoveLiquidity.Asset1 a)) /\
    P (LPBalanceKey (RemoveLiquidity.Asset0 a) (RemoveLiquidity.Asset1 a) actor))
    as (? & ? & ? & ?) by (unfold P, RemoveLiquidity.StateKeys; split_and!; declared).
  unfold RemoveLiquidity.Execute. walk_pool.
Qed.

Lemma wo_swap a ts actor tx (s : M) :
  pool_inv (contents s) ->
  wo_at (declared_write (SwapExactIn.StateKeys a actor tx))
    (SwapExactIn.Execute a ts actor tx) s.
Proof.
  intros Hinv. set (P := declared_write _).
  assert (P (BalanceKey actor) /\ P (VAIBalanceKey actor) /\
    P (PoolKey (SwapExactIn.AssetIn a) (SwapExactIn.AssetOut a))) as (? & ? & ?)
    by (unfold P, SwapExactIn.StateKeys; split_and!; declared).
  unfold SwapExactIn.Execute. walk_pool.
Qed.

Lemma wo_create_pool a ts actor tx :
  writes_only (declared_write (CreatePool.StateKeys a actor tx))
    (CreatePool.Execute (M := M) a ts actor tx).
Proof.
  writes (PoolKey (CreatePool.Asset0 a) (CreatePool.Asset1 a)).
  destruct (sortedPair (CreatePool.Asset0 a) (CreatePool.Asset1 a)) as [x y] eqn:Es.
  assert (HK : PoolKey x y = PoolKey (CreatePool.Asset0 a) (CreatePool.Asset1 a)).
  { unfold sortedPair in Es. destruct (_ <=? _); injection Es as <- <-; [done|].
    apply PoolKey_comm. }
  unfold CreatePool.Execute, PutPool, GetPool. rewrite Es, <-HK in *. footprint.
Qed.
End actions.

Section whole.
Context {PF : Platform} {PS : PlatformSpec} {M : Type} {MU : Mutable M} {MS : MutableSpec M}.
Context {TX : Text}.

Lemma wo_execute env act ts actor tx (s : M * zkMetricsCollector) :
  pool_inv (contents s) ->
  wo_at (declared_write (StateKeys act actor tx)) (Execute env act ts actor tx) s.
Proof.
  intros Hinv. destruct act; cbn [Execute StateKeys];
      [ apply wo_wo_at, wo_transfer | apply wo_wo_at, wo_create_market
      | apply wo_wo_at, wo_commit_order | apply wo_wo_at, wo_reveal_batch
      | apply wo_wo_at, wo_clear_batch | apply wo_wo_at, wo_resolve_market
      | apply wo_wo_at, wo_dispute | apply wo_wo_at, wo_route_fees
      | apply wo_wo_at, wo_release | apply wo_wo_at, wo_mint | apply wo_wo_at, wo_burn
      | apply wo_wo_at, wo_create_pool | by apply wo_add_liquidity
      | by apply wo_remove_liquidity | by apply wo_swap | apply wo_wo_at, wo_update_reserve
      | apply wo_wo_at, wo_set_risk | apply wo_wo_at, wo_submit
      | apply wo_wo_at, wo_set_proof_config ].
Qed.

(** A key that is not declared for writing keeps its value. *)
Lemma execute_frame env act ts actor tx r (s s' : M * zkMetricsCollector) k :
  pool_inv (contents s) -> Execute env act ts actor tx s = (r, s') ->
  ~ declared_write (StateKeys act actor tx) k -> contents s' !! k = contents s !! k.
Proof. intros Hinv H Hk. by eapply wo_execute. Qed.

(** C23: whatever an action returns, also when it fails half way, it has
    written only keys that its [StateKeys] declares with the write
    permission. *)
Theorem execute_footprint env act ts actor tx r (s s' : M * zkMetricsCollector) :
  pool_inv (contents s) -> Execute env act ts actor tx s = (r, s') ->
  forall k, contents s' !! k <> contents s !! k ->
  exists p, StateKeys act actor tx !! k = Some p /\ perm_Has p state_Write = true.
Proof.
  intros Hinv H k Hne.
  destruct (StateKeys act actor tx !! k) as [p|] eqn:Ek.
  - exists p. split; [done|]. destruct (perm_Has p state_Write) eqn:Ep; [done|].
    destruct Hne. apply (execute_frame _ _ _ _ _ _ _ _ _ Hinv H). intros (q & Hq & Hp). congruence.
  - destruct Hne. apply (execute_frame _ _ _ _ _ _ _ _ _ Hinv H). intros (q & Hq & Hp). congruence.
Qed.
End whole.
