(* ===== verification/Ledger.v ===== *)
(** * The chain as a transition system, and its books

    A run of the chain is a sequence of events: an action that succeeded, a fee
    the platform deducted, or a change of view that leaves the contents alone (a
    failed action is rolled back by the platform). Along every run the pool
    stays consistent, VEIL is accounted for to the unit, and the VAI in
    circulation moves with the recorded debt. *)
From S2P Require Import Prelude Errors Go Platform Storage Concrete Balance Action AmmMath.
From S2P Require Import Transfer ProofEnvelope Pools PoolFacts Vai VaiFacts Treasury.
From S2P Require Import TreasuryFacts Metrics Markets Proofs MarketFacts ProofFacts Chain.
From S2P Require Import Footprint.

(** ** Events *)

Inductive Event : Type :=
| EAction (env : Env) (act : ChainAction) (timestamp : Z) (actor : Address) (actionID : ID)
| EFee (sponsor : Address) (amount : Z)
| EView.

Section steps.
Context {PF : Platform} {M : Type} {MU : Mutable M} {MS : MutableSpec M} {TX : Text}.
Implicit Types (s : M * zkMetricsCollector).

Inductive chain_step : Event -> M * zkMetricsCollector -> M * zkMetricsCollector -> Prop :=
| step_action env act ts actor id out s s' :
    action_ok act -> i64 ts -> Execute env act ts actor id s = (Ok out, s') ->
    chain_step (EAction env act ts actor id) s s'
| step_fee sponsor amount s s' :
    u64 amount -> BalanceHandler.Deduct sponsor amount s = (Ok tt, s') ->
    chain_step (EFee sponsor amount) s s'
| step_view s s' : contents s' = contents s -> chain_step EView s s'.

Inductive chain_run : list Event -> M * zkMetricsCollector -> M * zkMetricsCollector -> Prop :=
| run_nil s : chain_run [] s s
| run_cons e es s s1 s' : chain_step e s s1 -> chain_run es s1 s' -> chain_run (e :: es) s s'.

(** A run, executed. *)
Definition run_event (e : Event) : ST (M * zkMetricsCollector) unit :=
  match e with
  | EAction env act ts actor id => let* _ := Execute env act ts actor id in ret tt
  | EFee sponsor amount => BalanceHandler.Deduct sponsor amount
  | EView => ret tt
  end.

Fixpoint run_events (es : list Event) : ST (M * zkMetricsCollector) unit :=
  match es with
  | [] => ret tt
  | e :: es' => run_event e ;;; run_events es'
  end.

(** The fields of the event are values of their Go types. *)
Definition event_ok (e : Event) : Prop :=
  match e with
  | EAction _ act ts _ _ => action_ok act /\ i64 ts
  | EFee _ amount => u64 amount
  | EView => True
  end.

Lemma run_events_sound es s s' :
  Forall event_ok es -> run_events es s = (Ok tt, s') -> chain_run es s s'.
Proof.
  revert s. induction es as [|e es IH]; intros s Hok H; cbn [run_events] in H.
  - unfold ret in H. injection H as <-. constructor.
  - inversion_clear Hok as [|? ? He Hes]. apply bind_ok in H as (u & s1 & E & H).
    econstructor; [|by apply IH]. destruct e as [env act ts actor id|sponsor amount|].
    + destruct He. cbn [run_event] in E. go_inv. by econstructor.
    + destruct u. by constructor.
    + injection E as _ <-. by constructor.
Qed.
End steps.

(** ** The books *)

Section books.
Context {PF : Platform}.

(** All VEIL: the balances, the pool's reserve and the fee budgets. *)
Definition veil_total (m : gmap bytes bytes) : Z :=
  supply balancePrefix AssetVEIL m + from_option budgets 0 (fee_state m).

(** VAI in circulation, beyond the recorded debt. *)
Definition vai_gap (m : gmap bytes bytes) : Z :=
  supply vaiBalancePrefix AssetVAI m - from_option VAIState.TotalDebt 0 (vai_state m).

(** What an event takes out of circulation: the bonds, which no handler pays
    back, and the fees. *)
Definition burned (e : Event) : Z :=
  match e with
  | EAction _ (ACreateMarket a) _ _ _ => CreateMarket.CreatorBond a
  | EAction _ (ADispute a) _ _ _ => Dispute.Bond a
  | EFee _ amount => amount
  | _ => 0
  end.

Definition total_burned (es : list Event) : Z := foldr (fun e acc => burned e + acc) 0 es.

Lemma pool_inv_frame (m m' : gmap bytes bytes) :
  m' !! PoolKey AssetVEIL AssetVAI = m !! PoolKey AssetVEIL AssetVAI ->
  prefix_total lpBalancePrefix m' = prefix_total lpBalancePrefix m ->
  pool_inv m -> pool_inv m'.
Proof. unfold pool_inv, pool_at, stored. by intros -> ->. Qed.

(** One event on the books. *)
Record books_step (m m' : gmap bytes bytes) (lost : Z) : Prop := {
  bs_pool : pool_inv m';
  bs_veil : veil_total m' = veil_total m - lost;
  bs_vai : vai_gap m' = vai_gap m
}.
End books.

Section effects.
Context {PF : Platform} {PS : PlatformSpec} {M : Type} {MU : Mutable M} {MS : MutableSpec M}.

(** Close a [books_step] whose second state is an update of the first. *)
Ltac books :=
  constructor;
  [ eapply pool_inv_frame; [..|eassumption]; by reads
  | unfold veil_total, supply, fee_state, pool_at in *; reads; try lia
  | unfold vai_gap, supply, vai_state, pool_at in *; reads; try lia ].

Lemma transfer_books a ts actor tx out (s s' : M) :
  s_ok a -> pool_inv (contents s) -> Transfer.Execute a ts actor tx s = (Ok out, s') ->
  books_step (contents s) (contents s') 0.
Proof.
  intros Ha Hinv (sb & rb & m1 & _ & _ & Hc & Hsb & -> & Hrb & Hr & -> & _)%Transfer.Execute_ok;
    [|done].
  books.
Qed.

Lemma create_market_books a ts actor tx out (s s' : M) :
  s_ok a -> pool_inv (contents s) -> CreateMarket.Execute a ts actor tx s = (Ok out, s') ->
  books_step (contents s) (contents s') (CreateMarket.CreatorBond a).
Proof.
  intros Ha Hinv H. pose proof (create_market_ok _ _ _ _ _ _ _ Ha H) as Hm. cbv zeta in Hm.
  destruct Hm as (_ & _ & Hbal & _ & _ & _ & ->). books.
Qed.

Lemma resolve_market_books a ts actor tx out (s s' : M) :
  s_ok a -> pool_inv (contents s) -> ResolveMarket.Execute a ts actor tx s = (Ok out, s') ->
  books_step (contents s) (contents s') 0.
Proof.
  intros Ha Hinv H. pose proof (resolve_market_ok _ _ _ _ _ _ _ Ha H) as Hm. cbv zeta in Hm.
  destruct Hm as (x & _ & _ & _ & _ & _ & ->). books.
Qed.

Lemma dispute_books a ts actor tx out (s s' : M) :
  s_ok a -> pool_inv (contents s) -> Dispute.Execute a ts actor tx s = (Ok out, s') ->
  books_step (contents s) (contents s') (Dispute.Bond a).
Proof.
  intros Ha Hinv H. pose proof (dispute_ok _ _ _ _ _ _ _ Ha H) as Hm. cbv zeta in Hm.
  destruct Hm as (x & _ & _ & _ & _ & Hbal & _ & ->). books.
Qed.

Lemma route_fees_books a ts actor tx out (s s' : M) :
  s_ok a -> pool_inv (contents s) -> RouteFees.Execute a ts actor tx s = (Ok out, s') ->
  books_step (contents s) (contents s') 0.
Proof.
  intros Ha Hinv H. destruct (route_fees_ok _ _ _ _ _ _ _ Ha H)
    as (cfg & st & x & y & z & _ & Hcfg & Hst & Hsh & Hpos & Hbal & Hok & ->).
  pose proof (shares_sum _ _ _ _ _ Hcfg Ha Hsh) as (Hsum & _).
  books. rewrite Hst. stored_put; [|done]. cbn. unfold budgets. cbn. lia.
Qed.

Lemma release_books a ts actor tx out (s s' : M) :
  s_ok a -> pool_inv (contents s) -> ReleaseCOLTranche.Execute a ts actor tx s = (Ok out, s') ->
  books_step (contents s) (contents s') 0.
Proof.
  intros Ha Hinv H. destruct (release_ok _ _ _ _ _ _ _ Ha H)
    as (cfg & st & _ & _ & _ & _ & _ & _ & _ & _ & ->). books.
Qed.

Lemma mint_books a ts actor tx out (s s' : M) :
  s_ok a -> i64 ts -> pool_inv (contents s) -> MintVAI.Execute a ts actor tx s = (Ok out, s') ->
  books_step (contents s) (contents s') 0.
Proof.
  intros Ha Hts Hinv H. destruct (mint_ok _ _ _ _ _ _ _ Ha Hts H)
    as (cfg & st & risk & res & _ & Hs & _ & _ & Hm).
  destruct (MintVAI.roll_epoch _ _ _) as [start minted].
  destruct Hm as (_ & Hpos & _ & _ & _ & Hok & Hbal & ->).
  books. unfold vai_state in Hs. rewrite Hs. stored_put; [|done]. cbn. lia.
Qed.

Lemma burn_books a ts actor tx out (s s' : M) :
  s_ok a -> pool_inv (contents s) -> BurnVAI.Execute a ts actor tx s = (Ok out, s') ->
  books_step (contents s) (contents s') 0.
Proof.
  intros Ha Hinv H. destruct (burn_ok _ _ _ _ _ _ _ Ha H) as (st & Hs & Hamt & Hbal & Hok & ->).
  books. unfold vai_state in Hs. rewrite Hs. stored_put; [|done]. cbn. lia.
Qed.

Lemma create_pool_books a ts actor tx out (s s' : M) :
  s_ok a -> pool_inv (contents s) -> CreatePool.Execute a ts actor tx s = (Ok out, s') ->
  books_step (contents s) (contents s') 0.
Proof.
  intros Ha Hinv H. pose proof (create_pool_inv _ _ _ _ _ _ _ Ha Hinv H).
  pose proof (create_pool_ok _ _ _ _ _ _ _ Ha H) as Hc; cbv zeta in Hc.
  destruct Hc as (_ & Hnone & _ & _ & Hat & E).
  assert (pool_at (contents s) = None) as Hp by (unfold pool_at, stored; by rewrite Hnone).
  constructor; [done|..].
  - unfold veil_total, supply. rewrite Hat, Hp, E. unfold fee_state. reads. cbn. lia.
  - unfold vai_gap, supply. rewrite Hat, Hp, E. unfold vai_state. reads. cbn. lia.
Qed.

(** A pool step on the books, when the two singleton records are untouched. *)
Lemma pool_step_books m m' actor p p' d0 d1 dl :
  pool_step m m' actor p p' d0 d1 dl -> pool_inv m ->
  m' !! FeeRouterStateKey = m !! FeeRouterStateKey -> m' !! VAIStateKey = m !! VAIStateKey ->
  books_step m m' 0.
Proof.
  intros Hst Hinv Hf Hv. pose proof (pool_step_conserves _ _ _ _ _ _ _ _ Hst) as [E0 E1].
  constructor; [by eapply pool_step_inv|..].
  - unfold veil_total, fee_state, stored. rewrite E0, Hf. lia.
  - unfold vai_gap, vai_state, stored. rewrite E1, Hv. lia.
Qed.

Lemma add_liquidity_books a ts actor tx out (s s' : M) :
  s_ok a -> pool_inv (contents s) -> AddLiquidity.Execute a ts actor tx s = (Ok out, s') ->
  books_step (contents s) (contents s') 0.
Proof.
  intros Ha Hinv H. destruct (pool_actions_step actor s s' Hinv) as (p & p' & d0 & d1 & dl & Hst).
  { left. eauto 10. }
  pose proof (wo_add_liquidity a ts actor tx s Hinv _ _ H) as Hw.
  eapply pool_step_books; [exact Hst|done|apply Hw..];
    unfold AddLiquidity.StateKeys; undeclared.
Qed.

Lemma remove_liquidity_books a ts actor tx out (s s' : M) :
  s_ok a -> pool_inv (contents s) -> RemoveLiquidity.Execute a ts actor tx s = (Ok out, s') ->
  books_step (contents s) (contents s') 0.
Proof.
  intros Ha Hinv H. destruct (pool_actions_step actor s s' Hinv) as (p & p' & d0 & d1 & dl & Hst).
  { right. left. eauto 10. }
  pose proof (wo_remove_liquidity a ts actor tx s Hinv _ _ H) as Hw.
  eapply pool_step_books; [exact Hst|done|apply Hw..];
    unfold RemoveLiquidity.StateKeys; undeclared.
Qed.

Lemma swap_books a ts actor tx out (s s' : M) :
  s_ok a -> pool_inv (contents s) -> SwapExactIn.Execute a ts actor tx s = (Ok out, s') ->
  books_step (contents s) (contents s') 0.
Proof.
  intros Ha Hinv H. destruct (pool_actions_step actor s s' Hinv) as (p & p' & d0 & d1 & dl & Hst).
  { right. right. eauto 10. }
  pose proof (wo_swap a ts actor tx s Hinv _ _ H) as Hw.
  eapply pool_step_books; [exact Hst|done|apply Hw..];
    unfold SwapExactIn.StateKeys; undeclared.
Qed.

Lemma update_reserve_books a ts actor tx out (s s' : M) :
  pool_inv (contents s) -> UpdateReserveState.Execute a ts actor tx s = (Ok out, s') ->
  books_step (contents s) (contents s') 0.
Proof. intros Hinv [_ ->]%update_reserve_ok. books. Qed.

Lemma set_risk_books a ts actor tx out (s s' : M) :
  pool_inv (contents s) -> SetRiskParams.Execute a ts actor tx s = (Ok out, s') ->
  books_step (contents s) (contents s') 0.
Proof. intros Hinv (_ & _ & ->)%set_risk_ok. books. Qed.

Lemma set_proof_config_books a ts actor tx out (s s' : M) :
  pool_inv (contents s) -> SetProofConfig.Execute a ts actor tx s = (Ok out, s') ->
  books_step (contents s) (contents s') 0.
Proof. intros Hinv (_ & _ & ->)%set_proof_config_ok. books. Qed.

Lemma deduct_books sponsor amount u (s s' : M) :
  u64 amount -> pool_inv (contents s) -> BalanceHandler.Deduct sponsor amount s = (Ok u, s') ->
  books_step (contents s) (contents s') amount.
Proof.
  intros Ha Hinv H. unfold BalanceHandler.Deduct, SubBalance in H. go_inv. repeat op_step.
  match goal with C : contents _ = _ |- _ => rewrite C end. books.
Qed.

Context {TX : Text}.

Lemma commit_order_books e a ts actor tx out (s s' : M * zkMetricsCollector) :
  pool_inv (contents s) -> CommitOrder.Execute e a ts actor tx s = (Ok out, s') ->
  books_step (contents s) (contents s') 0.
Proof. intros Hinv H. apply commit_order_ok in H as [_ ->]. books. Qed.

Lemma reveal_batch_books e a ts actor tx out (s s' : M * zkMetricsCollector) :
  pool_inv (contents s) -> RevealBatch.Execute e a ts actor tx s = (Ok out, s') ->
  books_step (contents s) (contents s') 0.
Proof. intros Hinv H. apply reveal_batch_ok in H as [_ ->]. books. Qed.

Lemma clear_batch_books vc clk a ts actor tx out (s s' : M * zkMetricsCollector) :
  pool_inv (contents s) -> ClearBatch.Execute vc clk a ts actor tx s = (Ok out, s') ->
  books_step (contents s) (contents s') 0.
Proof.
  intros Hinv H. apply clear_batch_ok in H as (x & cfg & _ & _ & _ & _ & _ & _ & ->). books.
Qed.

Lemma submit_books vc clk a ts actor tx out (s s' : M * zkMetricsCollector) :
  pool_inv (contents s) -> SubmitBatchProof.Execute vc clk a ts actor tx s = (Ok out, s') ->
  books_step (contents s) (contents s') 0.
Proof.
  intros Hinv H. apply submit_ok in H
    as (x & cfg & b & _ & _ & _ & _ & _ & _ & _ & _ & _ & _ & _ & _ & _ & _ & _ & ->).
  unfold submitted. books.
Qed.
End effects.

(** ** Along every run *)

Section runs.
Context {PF : Platform} {PS : PlatformSpec} {M : Type} {MU : Mutable M} {MS : MutableSpec M}.
Context {TX : Text}.
Implicit Types (s : M * zkMetricsCollector).

Lemma action_books env act ts actor id out s s' :
  action_ok act -> i64 ts -> pool_inv (contents s) ->
  Execute env act ts actor id s = (Ok out, s') ->
  books_step (contents s) (contents s') (burned (EAction env act ts actor id)).
Proof.
  intros Ha Hts Hinv H. destruct act; cbn [Execute burned action_ok] in *.
  - by eapply transfer_books.
  - by eapply create_market_books.
  - by eapply commit_order_books.
  - by eapply reveal_batch_books.
  - by eapply clear_batch_books.
  - by eapply resolve_market_books.
  - by eapply dispute_books.
  - by eapply route_fees_books.
  - by eapply release_books.
  - by eapply mint_books.
  - by eapply burn_books.
  - by eapply create_pool_books.
  - by eapply add_liquidity_books.
  - by eapply remove_liquidity_books.
  - by eapply swap_books.
  - by eapply update_reserve_books.
  - by eapply set_risk_books.
  - by eapply submit_books.
  - by eapply set_proof_config_books.
Qed.

Lemma step_books e s s' :
  chain_step e s s' -> pool_inv (contents s) ->
  books_step (contents s) (contents s') (burned e).
Proof.
  intros Hst Hinv. destruct Hst as [env act ts actor id out s s' Ha Hts H|sponsor amount s s' Ha H
    |s s' E].
  - by eapply action_books.
  - by eapply deduct_books.
  - rewrite E. constructor; [done|by rewrite Z.sub_0_r|done].
Qed.

Lemma run_books es s s' :
  chain_run es s s' -> pool_inv (contents s) ->
  books_step (contents s) (contents s') (total_burned es).
Proof.
  induction 1 as [s|e es s s1 s' Hst _ IH]; intros Hinv.
  - constructor; [done|by rewrite Z.sub_0_r|done].
  - destruct (step_books _ _ _ Hst Hinv) as [H1 H2 H3]. destruct (IH H1) as [H4 H5 H6].
    constructor; [done|change (total_burned (e :: es)) with (burned e + total_burned es); lia|congruence].
Qed.

(** C6: along every run of the chain VEIL is accounted for to the unit: what
    the balances, the pool and the fee budgets hold together falls by exactly
    the bonds posted and the fees deducted, and nothing creates any. *)
Theorem veil_accounted es s s' :
  pool_inv (contents s) -> chain_run es s s' ->
  veil_total (contents s') = veil_total (contents s) - total_burned es.
Proof. intros Hinv H. apply (bs_veil _ _ _ (run_books _ _ _ H Hinv)). Qed.

(** C7: if the VAI held by accounts and by the pool equals the recorded debt,
    it does so after every run: only minting and burning change either, and
    they change both alike. *)
Theorem vai_tracks_debt es s s' :
  pool_inv (contents s) -> chain_run es s s' ->
  supply vaiBalancePrefix AssetVAI (contents s)
    = from_option VAIState.TotalDebt 0 (vai_state (contents s)) ->
  supply vaiBalancePrefix AssetVAI (contents s')
    = from_option VAIState.TotalDebt 0 (vai_state (contents s')).
Proof.
  intros Hinv H E. pose proof (bs_vai _ _ _ (run_books _ _ _ H Hinv)) as Hg.
  unfold vai_gap in Hg. lia.
Qed.

(** After every run there is at most the one VEIL/VAI pool, with a fee
    between 1 and 1000 basis points, and the LP tokens its providers hold add
    up to its recorded total. *)
Theorem pool_always_consistent es s s' :
  pool_inv (contents s) -> chain_run es s s' -> pool_inv (contents s').
Proof. intros Hinv H. apply (bs_pool _ _ _ (run_books _ _ _ H Hinv)). Qed.
End runs.

(** ** Evaluations *)

Module Samples.
Definition alice : Address := addr 1.
Definition bob : Address := addr 2.
Definition pool : Pool.t := Pool.mk AssetVEIL AssetVAI 30 1000000 2000000 1414213.
Definition start : Store * zkMetricsCollector :=
  (cells [(PoolKey AssetVEIL AssetVAI, Pool.encode pool);
          (BalanceKey alice, be 8 50000); (VAIBalanceKey alice, be 8 90000);
          (LPBalanceKey AssetVEIL AssetVAI alice, be 8 1414213);
          (VAIConfigKey, VAIConfig.encode (VAIConfig.mk alice 3000000 500 60));
          (VAIStateKey, VAIState.encode (VAIState.mk 2090000 7 50));
          (RiskConfigKey,
           RiskConfig.encode (RiskConfig.mk 12000 5000 5000 0 1000 1000 1000));
          (ReserveStateKey, ReserveState.encode (ReserveState.mk 9000000 0));
          (FeeRouterConfigKey, FeeRouterConfig.encode (FeeRouterConfig.mk 5000 3000 2000));
          (FeeRouterStateKey, FeeRouterState.encode (FeeRouterState.mk 1 2 3))],
   newZKMetricsCollector 10).
Definition env : Env := mk_env initial_verifier (mk_clock 0 0 0).
Definition act (x : ChainAction) : Event := EAction env x 1000 alice no_tx.
#[export] Instance text : Text :=
  {| ids_String i := String.string_of_list_byte (array_bytes i);
     err_Error _ := String.EmptyString |}.
(** Pay Bob, open a market, trade, mint to Bob, burn, route a fee, pay gas. *)
Definition events : list Event :=
  [act (ATransfer (Transfer.mk bob 40 []));
   act (ACreateMarket (CreateMarket.mk (mkt 1) [x41] 2 99 10));
   act (ASwapExactIn (SwapExactIn.mk AssetVEIL AssetVAI 10000 1));
   act (AMintVAI (MintVAI.mk bob 40)); act (ABurnVAI (BurnVAI.mk 70));
   act (ARouteFees (RouteFees.mk 999)); EFee bob 5; EView].
Definition finish : Store * zkMetricsCollector := final (run_events events) start.
End Samples.
Import Samples.

Lemma sample_run : chain_run events start finish.
Proof.
  apply run_events_sound.
  - repeat (apply Forall_cons_2; [by vm_compute|]). apply Forall_nil_2.
  - assert (H : succeeds (run_events events) start = true) by (vm_compute; reflexivity).
    destruct (run_succeeds (run_events events) start H) as [[] E]. exact E.
Qed.

Lemma start_inv : pool_inv (contents start).
Proof. vm_compute. repeat split; congruence. Qed.

Lemma veil_accounted_witness :
  veil_total (contents finish) = veil_total (contents start) - 15.
Proof. exact (veil_accounted events start finish start_inv sample_run). Defined.

Lemma vai_tracks_debt_witness :
  supply vaiBalancePrefix AssetVAI (contents finish)
  = from_option VAIState.TotalDebt 0 (vai_state (contents finish)).
Proof.
  apply (vai_tracks_debt events start finish start_inv sample_run). vm_compute. reflexivity.
Defined.

Lemma pool_always_consistent_witness : pool_inv (contents finish).
Proof. exact (pool_always_consistent events start finish start_inv sample_run). Defined.
