(* ===== verification/Lifecycle.v ===== *)
(** * Life cycles along runs

    What no run of the chain can undo: a market only moves from active to
    resolved to disputed and keeps its outcome, the dispute record of a disputed
    market is final, and a recorded proof with its payload and its glyph stays
    as it was accepted. *)
From S2P Require Import Prelude Errors Go Platform Storage Concrete Balance Action AmmMath.
From S2P Require Import Transfer ProofEnvelope Pools PoolFacts Vai VaiFacts Treasury.
From S2P Require Import TreasuryFacts Metrics Markets Proofs MarketFacts ProofFacts Chain.
From S2P Require Import Footprint Ledger.

Lemma stored_same {A} (parse : bytes -> Outcome A) m m' k :
  m' !! k = m !! k -> stored parse m' k = stored parse m k.
Proof. unfold stored. by intros ->. Qed.

Section steps.
Context {PF : Platform} {PS : PlatformSpec} {M : Type} {MU : Mutable M} {MS : MutableSpec M}.
Context {TX : Text}.
Implicit Types (s : M * zkMetricsCollector).

(** A key that no action but [act] declares keeps its value; discharges all the
    other actions. *)
Ltac framed H Hinv :=
  apply (execute_frame _ _ _ _ _ _ _ _ _ Hinv H); cbn [StateKeys]; unfold_keys; undeclared.

Lemma action_market env act ts actor tx out s s' id :
  action_ok act -> pool_inv (contents s) ->
  Execute env act ts actor tx s = (Ok out, s') ->
  market_at (contents s') id = market_at (contents s) id \/
  market_step (market_at (contents s) id) (market_at (contents s') id).
Proof.
  intros Ha Hinv H.
  destruct act; try (left; unfold market_at; apply stored_same; by framed H Hinv).
  all: cbn [Execute action_ok] in *.
  - pose proof (create_market_ok _ _ _ _ _ _ _ Ha H) as Hm. cbv zeta in Hm.
    destruct Hm as (Hnone & Hok & _ & H2 & Ht & _ & ->). rewrite market_at_put by done.
    case_bool_decide as E; [|left; by rewrite market_at_set_ne by key_ne]. subst id. right.
    unfold market_at, stored. rewrite Hnone. by constructor.
  - pose proof (resolve_market_ok _ _ _ _ _ _ _ Ha H) as Hm. cbv zeta in Hm.
    destruct Hm as (x & Hx & _ & Hs & Ho & Hok & ->). rewrite market_at_put by done.
    case_bool_decide as E; [|by left]. subst id. right. rewrite Hx. by constructor.
  - pose proof (dispute_ok _ _ _ _ _ _ _ Ha H) as Hm. cbv zeta in Hm.
    destruct Hm as (x & Hx & _ & Hs & _ & _ & Hok & ->). rewrite market_at_insert_ne by key_ne.
    rewrite market_at_put by done.
    case_bool_decide as E; [|left; by rewrite market_at_set_ne by key_ne]. subst id. right. rewrite Hx.
    by constructor.
Qed.

(** What an event other than an action does to the cells. *)
Lemma fee_cells sponsor amount s s' :
  u64 amount -> BalanceHandler.Deduct sponsor amount s = (Ok tt, s') ->
  exists n, contents s' = set_cell (contents s) (BalanceKey sponsor) n.
Proof.
  intros Ha H. unfold BalanceHandler.Deduct, SubBalance in H. go_inv. repeat op_step. eauto.
Qed.

Lemma step_market e s s' id :
  chain_step e s s' -> pool_inv (contents s) ->
  market_at (contents s') id = market_at (contents s) id \/
  market_step (market_at (contents s) id) (market_at (contents s') id).
Proof.
  intros Hst Hinv. destruct Hst as [env act ts actor tx out s s' Ha Hts H
    |sponsor amount s s' Ha H|s s' E].
  - by eapply action_market.
  - left. destruct (fee_cells _ _ _ _ Ha H) as [n ->]. by rewrite market_at_set_ne by key_ne.
  - left. by rewrite E.
Qed.

(** Once a proof is recorded for a window, no event writes its three cells. *)
Lemma step_proof e s s' id w :
  chain_step e s s' -> pool_inv (contents s) -> u64 w ->
  is_Some (contents s !! BatchProofKey id w) ->
  Forall (fun k => contents s' !! k = contents s !! k)
    [BatchProofKey id w; VellumProofKey id w; GlyphKey id w].
Proof.
  intros Hst Hinv Hw Hsome. destruct Hst as [env act ts actor tx out s s' Ha Hts H
    |sponsor amount s s' Ha H|s s' E].
  - destruct act; try (repeat (apply Forall_cons_2; [by framed H Hinv|]); by apply Forall_nil_2).
    cbn [Execute action_ok] in *. apply submit_ok in H
      as (x & cfg & b & _ & _ & _ & _ & _ & _ & _ & _ & _ & _ & _ & _ & _ & Hnone & _ & ->).
    cbn in Ha. destruct_and?.
    assert (Hne : (SubmitBatchProof.MarketID a, SubmitBatchProof.WindowID a) <> (id, w)).
    { intros [= E1 E2]. rewrite E1, E2 in Hnone. rewrite Hnone in Hsome. by destruct Hsome. }
    unfold submitted. repeat apply Forall_cons_2; [..|by apply Forall_nil_2];
      rewrite !lookup_insert_ne;
      first [ done | key_ne | intros HK; destruct Hne;
        first [ apply (slot_key_inj (SBatchProof _ _) (SBatchProof _ _)) in HK
              | apply (slot_key_inj (SVellumProof _ _) (SVellumProof _ _)) in HK
              | apply (slot_key_inj (SGlyph _ _) (SGlyph _ _)) in HK ]; [|done..];
        by injection HK as -> -> ].
  - destruct (fee_cells _ _ _ _ Ha H) as [n ->].
    repeat apply Forall_cons_2; [..|by apply Forall_nil_2]; by reads.
  - rewrite E. repeat apply Forall_cons_2; [..|by apply Forall_nil_2]; done.
Qed.

(** A reveal needs an active market and a dispute a resolved one: the dispute
    record of a disputed market is not written again, although a reveal by the
    validator of index [0xFFFFFFFF] has the same key. *)
Lemma step_dispute e s s' id x :
  chain_step e s s' -> pool_inv (contents s) ->
  market_at (contents s) id = Some x -> Market.Status x = MarketStatusDisputed ->
  contents s' !! DisputeKey id = contents s !! DisputeKey id.
Proof.
  intros Hst Hinv Hx Hd. destruct Hst as [env act ts actor tx out s s' Ha Hts H
    |sponsor amount s s' Ha H|s s' E].
  - destruct act; try by framed H Hinv.
    all: cbn [Execute action_ok] in *.
    + apply reveal_batch_ok in H as [(y & Hy & Hact) ->]. apply lookup_insert_ne. intros HK.
      cbn in Ha. destruct_and?.
      apply (slot_key_inj (SOracle _ _) (SOracle id 0xFFFFFFFF)) in HK; [|done|by vm_compute].
      injection HK as E _. rewrite E, Hx in Hy. injection Hy as <-. by rewrite Hact in Hd.
    + pose proof (dispute_ok _ _ _ _ _ _ _ Ha H) as Hm. cbv zeta in Hm.
      destruct Hm as (y & Hy & _ & Hs & _ & _ & _ & ->).
      rewrite lookup_insert_ne; [by reads|]. intros HK.
      apply (slot_key_inj (SOracle _ 0xFFFFFFFF) (SOracle id 0xFFFFFFFF)) in HK;
        [|by vm_compute..].
      injection HK as E. rewrite E, Hx in Hy. injection Hy as <-. by rewrite Hs in Hd.
  - destruct (fee_cells _ _ _ _ Ha H) as [n ->]. by reads.
  - by rewrite E.
Qed.

Lemma step_pool_inv e s s' : chain_step e s s' -> pool_inv (contents s) -> pool_inv (contents s').
Proof. intros H Hinv. apply (bs_pool _ _ _ (step_books _ _ _ H Hinv)). Qed.

(** Induction along a run whose events all satisfy [Q], with the invariant at
    hand. *)
Lemma run_ind_forall (Q : Event -> Prop) (P : gmap bytes bytes -> Prop) es s s' :
  (forall e t t', Q e -> chain_step e t t' -> pool_inv (contents t) -> P (contents t) ->
                  P (contents t')) ->
  chain_run es s s' -> Forall Q es -> pool_inv (contents s) -> P (contents s) -> P (contents s').
Proof.
  intros Hstep Hrun. induction Hrun as [s|e es s s1 s' Hst _ IH]; intros HQ Hinv HP; [done|].
  inversion_clear HQ. apply IH; [done|by eapply step_pool_inv|by eapply Hstep].
Qed.

Lemma run_ind_inv (P : gmap bytes bytes -> Prop) es s s' :
  (forall e t t', chain_step e t t' -> pool_inv (contents t) -> P (contents t) ->
                  P (contents t')) ->
  chain_run es s s' -> pool_inv (contents s) -> P (contents s) -> P (contents s').
Proof.
  intros Hstep Hrun. apply (run_ind_forall (fun _ => True) P es s s'); [|done|].
  - intros e t t' _. apply Hstep.
  - by apply list.Forall_true.
Qed.

(** A pool without tokens is empty after every run from a state where it is so,
    as it is where there is no pool yet. *)
Lemma step_pool_backed e s s' :
  chain_step e s s' -> pool_inv (contents s) -> pool_backed (contents s) ->
  pool_backed (contents s').
Proof.
  intros Hst Hinv HP.
  assert (Hsame : forall m' : gmap bytes bytes,
    (forall x y, m' !! PoolKey x y = contents s !! PoolKey x y) -> pool_backed m').
  { intros m' E p Hp. apply HP. unfold pool_at in *. by rewrite (stored_same _ _ _ _ (E _ _)) in Hp. }
  destruct Hst as [env act ts actor tx out s s' Ha Hts H|sponsor amount s s' Ha H|s s' E].
  - destruct act; try (apply Hsame; intros x y; by framed H Hinv).
    all: cbn [Execute action_ok] in *.
    + by eapply create_pool_backed.
    + by eapply add_liquidity_backed.
    + by eapply remove_liquidity_backed.
    + by eapply swap_backed.
  - destruct (fee_cells _ _ _ _ Ha H) as [n ->]. apply Hsame. intros x y. by reads.
  - apply Hsame. by rewrite E.
Qed.

Lemma pool_backed_run es s s' :
  chain_run es s s' -> pool_inv (contents s) -> pool_backed (contents s) ->
  pool_backed (contents s').
Proof. apply run_ind_inv. intros e t t'. apply step_pool_backed. Qed.

(** C14: along every run each market follows its life cycle: it is created
    active with at least two outcomes, may be resolved to one of them, and may
    then be disputed; nothing else ever happens to it. *)
Theorem market_lifecycle es s s' id :
  pool_inv (contents s) -> chain_run es s s' ->
  rtc market_step (market_at (contents s) id) (market_at (contents s') id).
Proof.
  intros Hinv Hrun.
  apply (run_ind_inv (fun m => rtc market_step (market_at (contents s) id) (market_at m id))
           es s s'); [|done..|apply rtc_refl].
  intros e t t' Hst Ht H. destruct (step_market _ _ _ id Hst Ht) as [->|H1]; [done|].
  by eapply rtc_r.
Qed.

(** The settled part of a market: what resolution fixes. *)
Definition settled (x x' : Market.t) : Prop :=
  Market.ResolvedOutcome x' = Market.ResolvedOutcome x /\
  Market.Question x' = Market.Question x /\ Market.Outcomes x' = Market.Outcomes x /\
  (Market.Status x' = Market.Status x \/
   Market.Status x = MarketStatusResolved /\ Market.Status x' = MarketStatusDisputed).

(** C15: the outcome of a market that was resolved is final: in every later
    state the market has the same outcome, question and number of outcomes, it
    is never active again, and once it is disputed its dispute record is not
    rewritten either. *)
Theorem outcome_final es s s' id x :
  pool_inv (contents s) -> chain_run es s s' ->
  market_at (contents s) id = Some x -> Market.Status x <> MarketStatusActive ->
  (exists x', market_at (contents s') id = Some x' /\ settled x x') /\
  (Market.Status x = MarketStatusDisputed ->
   contents s' !! DisputeKey id = contents s !! DisputeKey id).
Proof.
  intros Hinv Hrun Hx Hna.
  apply (run_ind_inv (fun m => (exists x', market_at m id = Some x' /\ settled x x') /\
    (Market.Status x = MarketStatusDisputed -> m !! DisputeKey id = contents s !! DisputeKey id))
    es s s'); [|done..|split; [exists x; split; [done|unfold settled; auto]|done]].
  intros e t t' Hst Ht [(y & Hy & Hset) Hd]. split.
  - destruct (step_market _ _ _ id Hst Ht) as [->|H1]; [by exists y|].
    rewrite Hy in H1. inversion H1 as [|? ? Hact|? Hres]; subst.
    + destruct Hset as (_ & _ & _ & [E|[_ E]]); rewrite Hact in E; by rewrite <-?E in Hna.
    + eexists. split; [done|]. destruct Hset as (? & ? & ? & [E|[E1 E2]]).
      * split_and!; try done. right. by rewrite <-E.
      * split_and!; try done. by rewrite Hres in E2.
  - intros Hdis. rewrite <-Hd by done. eapply step_dispute; [done..|].
    destruct Hset as (_ & _ & _ & [E|[E _]]); [congruence|by rewrite E in Hdis].
Qed.

(** C13: a recorded proof is final: after every run its record, its payload and
    its glyph read as they did when it was recorded. *)
Theorem proof_final es s s' id w r :
  pool_inv (contents s) -> chain_run es s s' -> u64 w ->
  proof_record (contents s) id w = Some r ->
  proof_record (contents s') id w = Some r /\
  proof_payload (contents s') id w = proof_payload (contents s) id w /\
  glyph_at (contents s') id w = glyph_at (contents s) id w.
Proof.
  intros Hinv Hrun Hw Hr.
  set (ks := [BatchProofKey id w; VellumProofKey id w; GlyphKey id w]).
  assert (Hs : is_Some (contents s !! BatchProofKey id w)).
  { unfold proof_record, stored in Hr. by destruct (contents s !! _). }
  assert (H : Forall (fun k => contents s' !! k = contents s !! k) ks).
  { apply (run_ind_inv (fun m => Forall (fun k => m !! k = contents s !! k) ks) es s s');
      [|done..|by repeat apply Forall_cons_2; [..|apply Forall_nil_2]].
    intros e t t' Hst Ht H. pose proof H as HF. inversion_clear H as [|? ? H1 _].
    assert (Ht' : is_Some (contents t !! BatchProofKey id w)) by (by rewrite H1).
    pose proof (step_proof _ _ _ id w Hst Ht Hw Ht') as HF'. clear - HF HF'.
    fold ks in HF'. induction ks as [|k l IH]; [done|].
    inversion_clear HF; inversion_clear HF'. constructor; [congruence|auto]. }
  inversion_clear H as [|? ? H1 H']. inversion_clear H' as [|? ? H2 H''].
  inversion_clear H'' as [|? ? H3 _].
  unfold proof_record, proof_payload, glyph_at in *.
  by rewrite !(stored_same _ (contents s) (contents s')) by done.
Qed.
End steps.

(** ** Evaluations *)

Module Samples.
Export Ledger.Samples.
Definition market : Market.t := Market.mk MarketStatusActive 3 99 0 [x41].
Definition fresh : Store * zkMetricsCollector :=
  (cells [(MarketKey (mkt 1), Market.encode market); (BalanceKey alice, be 8 500)],
   newZKMetricsCollector 10).
Definition resolve : list Event := [act (AResolveMarket (ResolveMarket.mk (mkt 1) 2 [x01]))].
Definition dispute : list Event :=
  [act (ADispute (Dispute.mk (mkt 1) 50 [x02; x03])); EFee alice 7].
Definition resolved : Store * zkMetricsCollector := final (run_events resolve) fresh.
Definition disputed : Store * zkMetricsCollector := final (run_events dispute) resolved.
(** The state a proof was recorded in, and what may follow. *)
Definition recorded : Store * zkMetricsCollector := ProofFacts.Samples.after.
Definition later : list Event :=
  [EAction (mk_env ProofFacts.Samples.vc ProofFacts.Samples.clk)
     (AClearBatch ProofFacts.Samples.clear) 9000 ProofFacts.Samples.prover no_tx; EView].
Definition cleared : Store * zkMetricsCollector := final (run_events later) recorded.
End Samples.
Import Samples.

(** A run found by evaluation. *)
Lemma evaluated_run es s :
  Forall event_ok es -> succeeds (run_events es) s = true -> chain_run es s (final (run_events es) s).
Proof.
  intros Hok H. apply run_events_sound; [done|].
  destruct (run_succeeds (run_events es) s H) as [[] E]. exact E.
Qed.

Ltac events_ok := repeat (apply Forall_cons_2; [by vm_compute|]); apply Forall_nil_2.

Lemma resolve_run : chain_run resolve fresh resolved.
Proof. apply evaluated_run; [events_ok | vm_compute; reflexivity]. Qed.
Lemma dispute_run : chain_run dispute resolved disputed.
Proof. apply evaluated_run; [events_ok | vm_compute; reflexivity]. Qed.

Lemma recorded_run : chain_run later recorded cleared.
Proof. apply evaluated_run; [events_ok | vm_compute; reflexivity]. Qed.

Lemma market_lifecycle_witness :
  rtc market_step (market_at (contents fresh) (mkt 1)) (market_at (contents resolved) (mkt 1)).
Proof.
  refine (market_lifecycle resolve fresh resolved (mkt 1) _ resolve_run).
  vm_compute. split; reflexivity.
Defined.

Lemma outcome_final_witness :
  let x := with_status MarketStatusResolved 2 market in
  exists x', market_at (contents disputed) (mkt 1) = Some x' /\ settled x x'.
Proof.
  refine (proj1 (outcome_final dispute resolved disputed (mkt 1) _ _ dispute_run _ _)).
  - vm_compute. split; reflexivity.
  - vm_compute. reflexivity.
  - vm_compute. discriminate.
Defined.

Lemma proof_final_witness :
  let r := new_record ProofFacts.Samples.submit 3000 ProofFacts.Samples.prover in
  proof_record (contents cleared) (mkt 1) 4 = Some r.
Proof.
  assert (Hw : u64 4) by (by vm_compute).
  assert (Hr : proof_record (contents recorded) (mkt 1) 4
    = Some (new_record ProofFacts.Samples.submit 3000 ProofFacts.Samples.prover))
    by (vm_compute; reflexivity).
  assert (Hi : pool_inv (contents recorded)) by (vm_compute; split; reflexivity).
  exact (proj1 (proof_final later recorded cleared (mkt 1) 4 _ Hi recorded_run Hw Hr)).
Defined.

Lemma execute_footprint_witness :
  exists p, StateKeys (ATransfer (Transfer.mk bob 40 [])) alice no_tx !! BalanceKey bob = Some p /\
            perm_Has p state_Write = true.
Proof.
  refine (execute_footprint env (ATransfer (Transfer.mk bob 40 [])) 1000 alice no_tx _ fresh _ _
            (surjective_pairing _) (BalanceKey bob) _).
  - vm_compute. split; reflexivity.
  - vm_compute. discriminate.
Defined.
