(* ===== verification/Authority.v ===== *)
(** * Who may change what

    No action changes the genesis configuration of the treasury, the fee router
    or VAI, so the governance and mint addresses are fixed; without an action
    signed by them the parameters they control, and the VAI debt, cannot be
    changed or raised. *)
From S2P Require Import Prelude Errors Go Platform Storage Concrete Balance Action AmmMath.
From S2P Require Import Transfer ProofEnvelope Pools PoolFacts Vai VaiFacts Treasury.
From S2P Require Import TreasuryFacts Metrics Markets Proofs MarketFacts ProofFacts Chain.
From S2P Require Import Footprint Ledger Lifecycle.

Definition signed_by (x : Address) (e : Event) : Prop :=
  match e with EAction _ _ _ actor _ => actor = x | _ => False end.

Section authority.
Context {PF : Platform}.

(** Configuration that only genesis writes. *)
Definition config_keys : list bytes := [TreasuryConfigKey; FeeRouterConfigKey; VAIConfigKey].
(** State that governance writes. *)
Definition governed_keys : list bytes :=
  [TreasuryStateKey; ReserveStateKey; RiskConfigKey; ProofConfigKey].

Definition kept (ks : list bytes) (m m' : gmap bytes bytes) : Prop :=
  Forall (fun k => m' !! k = m !! k) ks.

Lemma kept_refl ks m : kept ks m m.
Proof. by apply list.Forall_true. Qed.

Lemma kept_trans ks m m1 m' : kept ks m m1 -> kept ks m1 m' -> kept ks m m'.
Proof.
  unfold kept. intros H1. induction H1 as [|k ks E _ IH]; intros H2; [constructor|].
  inversion_clear H2. constructor; [congruence|by apply IH].
Qed.

Lemma kept_config m m' :
  kept config_keys m m' ->
  governance m' = governance m /\ vai_config m' = vai_config m.
Proof.
  intros H. inversion_clear H as [|? ? E1 H']. inversion_clear H' as [|? ? _ H''].
  inversion_clear H'' as [|? ? E3 _].
  unfold governance, vai_config. by rewrite !(stored_same _ m m') by done.
Qed.

Context {PS : PlatformSpec} {M : Type} {MU : Mutable M} {MS : MutableSpec M} {TX : Text}.
Implicit Types (s : M * zkMetricsCollector).

Ltac framed H Hinv :=
  apply (execute_frame _ _ _ _ _ _ _ _ _ Hinv H); cbn [StateKeys]; unfold_keys; undeclared.
Ltac all_kept tac := repeat apply Forall_cons_2; [..|apply Forall_nil_2]; tac.

Lemma step_config e s s' :
  chain_step e s s' -> pool_inv (contents s) -> kept config_keys (contents s) (contents s').
Proof.
  intros Hst Hinv. destruct Hst as [env act ts actor tx out s s' Ha Hts H
    |sponsor amount s s' Ha H|s s' E].
  - destruct act; all_kept ltac:(by framed H Hinv).
  - destruct (fee_cells _ _ _ _ Ha H) as [n ->]. all_kept ltac:(by reads).
  - rewrite E. apply kept_refl.
Qed.

Lemma step_governed e s s' gov :
  chain_step e s s' -> pool_inv (contents s) -> governance (contents s) = Some gov ->
  ~ signed_by gov e -> kept governed_keys (contents s) (contents s').
Proof.
  intros Hst Hinv Hgov Hns. destruct Hst as [env act ts actor tx out s s' Ha Hts H
    |sponsor amount s s' Ha H|s s' E].
  - destruct act; try (all_kept ltac:(by framed H Hinv));
      cbn [Execute action_ok signed_by] in *; destruct Hns.
    + apply release_ok in H as (cfg & st & Hc & -> & _); [|done].
      unfold governance, treasury_config in *. rewrite Hc in Hgov. by injection Hgov.
    + apply update_reserve_ok in H as [Hg _]. congruence.
    + apply set_risk_ok in H as [Hg _]. congruence.
    + apply set_proof_config_ok in H as ((g & Hg & ->) & _).
      unfold governance in Hgov. rewrite Hg in Hgov. by injection Hgov.
  - destruct (fee_cells _ _ _ _ Ha H) as [n ->]. all_kept ltac:(by reads).
  - rewrite E. apply kept_refl.
Qed.

Definition debt (m : gmap bytes bytes) : Z := from_option VAIState.TotalDebt 0 (vai_state m).

Lemma step_debt e s s' cfg :
  chain_step e s s' -> pool_inv (contents s) -> vai_config (contents s) = Some cfg ->
  ~ signed_by (VAIConfig.MintAuthority cfg) e -> debt (contents s') <= debt (contents s).
Proof.
  intros Hst Hinv Hcfg Hns.
  assert (Hsame : contents s' !! VAIStateKey = contents s !! VAIStateKey ->
                  debt (contents s') <= debt (contents s)).
  { intros Hk. unfold debt, vai_state. rewrite (stored_same _ (contents s) (contents s')) by done.
    lia. }
  destruct Hst as [env act ts actor tx out s s' Ha Hts H|sponsor amount s s' Ha H|s s' E].
  - destruct act; try (apply Hsame; by framed H Hinv);
      cbn [Execute action_ok signed_by] in *.
    + destruct (mint_ok _ _ _ _ _ _ _ Ha Hts H) as (c & st & risk & res & Hc & _ & _ & _ & Hm).
      destruct (MintVAI.roll_epoch _ _ _). destruct Hm as (-> & _). destruct Hns. congruence.
    + destruct (burn_ok _ _ _ _ _ _ _ Ha H) as (st & Hs & Hamt & _ & Hok & ->).
      unfold debt. rewrite Hs. unfold vai_state. stored_put; [|done]. cbn. lia.
  - apply Hsame. destruct (fee_cells _ _ _ _ Ha H) as [n ->]. by reads.
  - apply Hsame. by rewrite E.
Qed.

(** C18: the configuration written at genesis never changes; in particular
    the governance address is fixed, and a run in which it signs no action
    leaves the treasury, the reserve, the risk parameters and the proof policy
    exactly as they were. *)
Theorem governance_only es s s' gov :
  pool_inv (contents s) -> chain_run es s s' -> governance (contents s) = Some gov ->
  kept config_keys (contents s) (contents s') /\ governance (contents s') = Some gov /\
  (Forall (fun e => ~ signed_by gov e) es -> kept governed_keys (contents s) (contents s')).
Proof.
  intros Hinv Hrun. revert Hinv. induction Hrun as [s|e es s s1 s' Hst _ IH]; intros Hinv Hgov.
  - split_and!; [apply kept_refl|done|intros _; apply kept_refl].
  - pose proof (step_config _ _ _ Hst Hinv) as Hc. pose proof (kept_config _ _ Hc) as [Hg _].
    destruct IH as (IH1 & IH2 & IH3); [by eapply step_pool_inv|congruence|].
    split_and!; [by eapply kept_trans|done|]. intros Hns. inversion_clear Hns.
    eapply kept_trans; [by eapply step_governed|by apply IH3].
Qed.

(** C21: VAI debt cannot be raised without the mint authority, whose address
    never changes: in a run in which it signs nothing, the debt only falls. *)
Theorem mint_authority_only es s s' cfg :
  pool_inv (contents s) -> chain_run es s s' -> vai_config (contents s) = Some cfg ->
  vai_config (contents s') = Some cfg /\
  (Forall (fun e => ~ signed_by (VAIConfig.MintAuthority cfg) e) es ->
   debt (contents s') <= debt (contents s)).
Proof.
  intros Hinv Hrun. revert Hinv. induction Hrun as [s|e es s s1 s' Hst _ IH]; intros Hinv Hcfg.
  - split; [done|lia].
  - pose proof (step_config _ _ _ Hst Hinv) as Hc. pose proof (kept_config _ _ Hc) as [_ Hv].
    destruct IH as (IH1 & IH2); [by eapply step_pool_inv|congruence|].
    split; [done|]. intros Hns. inversion_clear Hns.
    pose proof (step_debt _ _ _ _ Hst Hinv Hcfg ltac:(done)). specialize (IH2 ltac:(done)). lia.
Qed.
End authority.

(** ** Evaluations *)

Module Samples.
Export Ledger.Samples.
Definition chief : Address := addr 9.
Definition vcfg : VAIConfig.t := VAIConfig.mk chief 3000000 500 60.
Definition before : Store * zkMetricsCollector :=
  (cells [(TreasuryConfigKey, TreasuryConfig.encode (TreasuryConfig.mk chief bob 100 60));
          (TreasuryStateKey, TreasuryState.encode (TreasuryState.mk 1000 0 0 0));
          (VAIConfigKey, VAIConfig.encode vcfg);
          (VAIStateKey, VAIState.encode (VAIState.mk 900 7 50));
          (BalanceKey alice, be 8 50000); (VAIBalanceKey alice, be 8 900)],
   newZKMetricsCollector 10).
Definition quiet : list Event :=
  [act (ATransfer (Transfer.mk bob 40 [])); act (ABurnVAI (BurnVAI.mk 70)); EFee bob 5].
Definition after : Store * zkMetricsCollector := final (run_events quiet) before.
End Samples.
Import Samples.

Lemma quiet_run : chain_run quiet before after.
Proof. apply evaluated_run; [events_ok | vm_compute; reflexivity]. Qed.

Lemma quiet_unsigned : Forall (fun e => ~ signed_by chief e) quiet.
Proof. repeat (apply Forall_cons_2; [by vm_compute|]). apply Forall_nil_2. Qed.

Lemma governance_only_witness :
  governance (contents after) = Some chief /\
  kept governed_keys (contents before) (contents after).
Proof.
  assert (Hi : pool_inv (contents before)) by (vm_compute; split; reflexivity).
  assert (Hg : governance (contents before) = Some chief) by (vm_compute; reflexivity).
  destruct (governance_only quiet before after chief Hi quiet_run Hg) as (_ & H1 & H2).
  exact (conj H1 (H2 quiet_unsigned)).
Defined.

Lemma mint_authority_only_witness : debt (contents after) <= debt (contents before).
Proof.
  assert (Hi : pool_inv (contents before)) by (vm_compute; split; reflexivity).
  assert (Hc : vai_config (contents before) = Some vcfg) by (vm_compute; reflexivity).
  exact (proj2 (mint_authority_only quiet before after vcfg Hi quiet_run Hc) quiet_unsigned).
Defined.
