(* ===== verification/Reference.v ===== *)
(** * The reference machine

    What the nineteen actions do, said without bytes, keys, permissions or
    database errors: the state is a few functions from accounts, markets and
    windows to typed values, and an event either has no effect at all or yields
    the one next state. The file [Refinement.v] shows that the chain implements
    this machine. *)
From S2P Require Import Prelude Errors Go Platform Sha256 Storage Concrete Balance Action.
From S2P Require Import AmmMath Transfer ProofEnvelope Pools PoolFacts Vai VaiFacts Treasury.
From S2P Require Import TreasuryFacts Metrics Markets Proofs MarketFacts ProofFacts Chain.
From S2P Require Import Footprint Ledger Lifecycle Authority.

(** ** The state *)

Section points.
Context {K A : Type} `{EqDecision K}.

(** The function [f] with one value replaced. *)
Definition upd (f : K -> A) (k : K) (v : A) : K -> A := fun x => if decide (x = k) then v else f x.

Lemma upd_eq f k v : upd f k v k = v.
Proof. unfold upd. by rewrite decide_True. Qed.
Lemma upd_ne f k v x : x <> k -> upd f k v x = f x.
Proof. intros. unfold upd. by rewrite decide_False. Qed.
End points.

(** What each account holds. *)
Record Accounts := mk_accounts {
  veil : Address -> Z; vai : Address -> Z; lp : Address -> Z }.

(** The totals: the pool, the debt, the fee budgets, the reserve, the treasury. *)
Record Economy := mk_economy {
  pool : option Pool.t; issued : option VAIState.t; fees : option FeeRouterState.t;
  backing : option ReserveState.t; treasury : option TreasuryState.t }.

(** The parameters. *)
Record Rules := mk_rules {
  mint_rules : option VAIConfig.t; fee_rules : option FeeRouterConfig.t;
  risk_rules : option RiskConfig.t; treasury_rules : option TreasuryConfig.t;
  proof_rules : option ProofConfig.t }.

(** The result of a cleared batch. *)
Record Settled := mk_settled { clear_price : Z; clear_volume : Z; clear_fills : bytes }.

(** The prediction markets and their batches. *)
Record Desk := mk_desk {
  market : ID -> option Market.t;
  order : ID * Z * Address -> option bytes;
  share : ID * Z -> option (Z * bytes);
  result : ID * Z -> option Settled;
  record : ID * Z -> option BatchProofRecord.t;
  payload : ID * Z -> option bytes;
  glyph : ID * Z -> option Glyph.t;
  standing : Address -> option Bloodsworn.t }.

Record State := mk_state { accounts : Accounts; economy : Economy; rules : Rules; desk : Desk }.

(** ** Equality of states, point by point *)

Record accounts_equiv (x y : Accounts) : Prop := {
  eq_veil a : veil x a = veil y a; eq_vai a : vai x a = vai y a; eq_lp a : lp x a = lp y a }.
Record desk_equiv (x y : Desk) : Prop := {
  eq_market i : market x i = market y i; eq_order i : order x i = order y i;
  eq_share i : share x i = share y i; eq_result i : result x i = result y i;
  eq_record i : record x i = record y i; eq_payload i : payload x i = payload y i;
  eq_glyph i : glyph x i = glyph y i; eq_standing i : standing x i = standing y i }.

#[export] Instance Accounts_equiv : Equiv Accounts := accounts_equiv.
#[export] Instance Desk_equiv : Equiv Desk := desk_equiv.
#[export] Instance State_equiv : Equiv State := fun x y =>
  accounts x ≡ accounts y /\ economy x = economy y /\ rules x = rules y /\ desk x ≡ desk y.

#[export] Instance Accounts_equivalence : Equivalence (≡@{Accounts}).
Proof.
  split; [done|intros x y []|intros x y z [] []]; constructor; congruence.
Qed.
#[export] Instance Desk_equivalence : Equivalence (≡@{Desk}).
Proof.
  split; [done|intros x y []|intros x y z [] []]; constructor; congruence.
Qed.
#[export] Instance State_equivalence : Equivalence (≡@{State}).
Proof.
  split; [by intros x|intros x y (? & ? & ? & ?)|intros x y z (? & ? & ? & ?) (? & ? & ? & ?)];
    split_and!; by etrans || by symmetry || congruence.
Qed.

(** ** Reading and updating *)

Definition on_accounts (f : Accounts -> Accounts) (s : State) : State :=
  mk_state (f (accounts s)) (economy s) (rules s) (desk s).
Definition on_economy (f : Economy -> Economy) (s : State) : State :=
  mk_state (accounts s) (f (economy s)) (rules s) (desk s).
Definition on_rules (f : Rules -> Rules) (s : State) : State :=
  mk_state (accounts s) (economy s) (f (rules s)) (desk s).
Definition on_desk (f : Desk -> Desk) (s : State) : State :=
  mk_state (accounts s) (economy s) (rules s) (f (desk s)).

Definition with_pool p (e : Economy) : Economy :=
  mk_economy p (issued e) (fees e) (backing e) (treasury e).
Definition with_issued v (e : Economy) : Economy :=
  mk_economy (pool e) v (fees e) (backing e) (treasury e).
Definition with_fees v (e : Economy) : Economy :=
  mk_economy (pool e) (issued e) v (backing e) (treasury e).
Definition with_backing v (e : Economy) : Economy :=
  mk_economy (pool e) (issued e) (fees e) v (treasury e).
Definition with_treasury v (e : Economy) : Economy :=
  mk_economy (pool e) (issued e) (fees e) (backing e) v.
Definition with_risk v (r : Rules) : Rules :=
  mk_rules (mint_rules r) (fee_rules r) v (treasury_rules r) (proof_rules r).
Definition with_proof_rules v (r : Rules) : Rules :=
  mk_rules (mint_rules r) (fee_rules r) (risk_rules r) (treasury_rules r) v.

Definition with_market id x (d : Desk) : Desk :=
  mk_desk (upd (market d) id x) (order d) (share d) (result d) (record d) (payload d) (glyph d)
    (standing d).
Definition with_order i x (d : Desk) : Desk :=
  mk_desk (market d) (upd (order d) i x) (share d) (result d) (record d) (payload d) (glyph d)
    (standing d).
Definition with_share i x (d : Desk) : Desk :=
  mk_desk (market d) (order d) (upd (share d) i x) (result d) (record d) (payload d) (glyph d)
    (standing d).
Definition with_result i x (d : Desk) : Desk :=
  mk_desk (market d) (order d) (share d) (upd (result d) i x) (record d) (payload d) (glyph d)
    (standing d).
(** A proof of the window [i] by [who]: its record, payload, glyph and the
    standing of the prover. *)
Definition with_proof i r p g who b (d : Desk) : Desk :=
  mk_desk (market d) (order d) (share d) (result d) (upd (record d) i r) (upd (payload d) i p)
    (upd (glyph d) i g) (upd (standing d) who b).

(** Go on only if [P]. *)
Definition require {A} (P : Prop) {_ : Decision P} (k : option A) : option A :=
  if decide P then k else None.

#[export] Instance u64_dec z : Decision (u64 z).
Proof. unfold u64. apply _. Defined.
#[export] Instance u32_dec z : Decision (u32 z).
Proof. unfold u32. apply _. Defined.
#[export] Instance pool_ok_dec p : Decision (Pool.ok p).
Proof. unfold Pool.ok, u8, u16. apply _. Defined.
#[export] Instance fees_ok_dec st : Decision (FeeRouterState.ok st).
Proof. unfold FeeRouterState.ok. apply _. Defined.

Definition is_ok {A} (o : Outcome A) : bool := match o with Ok _ => true | _ => false end.

(** ** Money *)

(** Change what [x] holds by [d], within the range of a balance. *)
Definition post_veil (x : Address) (d : Z) (s : State) : option State :=
  let b := veil (accounts s) x + d in
  require (u64 b)
    (Some (on_accounts (fun a => mk_accounts (upd (veil a) x b) (vai a) (lp a)) s)).
Definition post_vai (x : Address) (d : Z) (s : State) : option State :=
  let b := vai (accounts s) x + d in
  require (u64 b)
    (Some (on_accounts (fun a => mk_accounts (veil a) (upd (vai a) x b) (lp a)) s)).
Definition post_lp (x : Address) (d : Z) (s : State) : option State :=
  let b := lp (accounts s) x + d in
  require (u64 b)
    (Some (on_accounts (fun a => mk_accounts (veil a) (vai a) (upd (lp a) x b)) s)).

(** Only the governance account goes on. *)
Definition governed {A} (actor : Address) (s : State) (k : option A) : option A :=
  cfg ← treasury_rules (rules s); require (actor = TreasuryConfig.Governance cfg) k.

Definition transfer (a : Transfer.t) (actor : Address) (s : State) : option State :=
  require (0 < Transfer.Value a /\ len (Transfer.Memo a) <= Transfer.MaxMemoSize)
    (s1 ← post_veil actor (- Transfer.Value a) s; post_veil (Transfer.To a) (Transfer.Value a) s1).

Definition route_fees {PF : Platform} (a : RouteFees.t) (actor : Address) (s : State)
    : option State :=
  cfg ← fee_rules (rules s);
  st ← fees (economy s);
  let '(x, y, z) := RouteFees.shares cfg (RouteFees.Amount a) in
  let st' := FeeRouterState.mk (FeeRouterState.MSRBBudget st + x)
               (FeeRouterState.COLBudget st + y) (FeeRouterState.OpsBudget st + z) in
  require (0 < RouteFees.Amount a /\ FeeRouterState.ok st')
    (s1 ← post_veil actor (- RouteFees.Amount a) s; Some (on_economy (with_fees (Some st')) s1)).

Definition release (a : ReleaseCOLTranche.t) (ts : Z) (actor : Address) (s : State)
    : option State :=
  cfg ← treasury_rules (rules s);
  st ← treasury (economy s);
  let amount := ReleaseCOLTranche.Amount a in
  require (actor = TreasuryConfig.Governance cfg /\ 0 < amount <= TreasuryState.Locked st /\
      amount <= wrap_u64 (TreasuryState.Locked st * TreasuryConfig.MaxReleaseBips cfg) / 10000 /\
      u64 (TreasuryState.Live st + amount) /\ u64 (TreasuryState.Released st + amount))
    (require (TreasuryState.LastReleaseUnix st <= 0 \/
        wrap_i64 (TreasuryState.LastReleaseUnix st
                  + wrap_i64 (TreasuryConfig.ReleaseEpochSeconds cfg * 1000)) <= ts)
      (Some (on_economy (with_treasury (Some
        (TreasuryState.mk (TreasuryState.Locked st - amount) (TreasuryState.Live st + amount)
           (TreasuryState.Released st + amount) ts))) s))).

Definition mint {PF : Platform} (a : MintVAI.t) (ts : Z) (actor : Address) (s : State)
    : option State :=
  cfg ← mint_rules (rules s);
  st ← issued (economy s);
  risk ← risk_rules (rules s);
  res ← backing (economy s);
  let '(start, minted) := MintVAI.roll_epoch cfg st ts in
  let debt := VAIState.TotalDebt st + MintVAI.Amount a in
  let minted' := minted + MintVAI.Amount a in
  require (actor = VAIConfig.MintAuthority cfg /\ 0 < MintVAI.Amount a /\
      minted' <= VAIConfig.EpochMintLimit cfg /\ debt <= VAIConfig.DebtCeiling cfg /\
      debt * RiskConfig.BackingFloorBips risk <= ReserveState.ExogenousReserve res * 10000)
    (s1 ← post_vai (MintVAI.To a) (MintVAI.Amount a) s;
     Some (on_economy (with_issued (Some (VAIState.mk debt start minted'))) s1)).

Definition burn (a : BurnVAI.t) (actor : Address) (s : State) : option State :=
  st ← issued (economy s);
  require (0 < BurnVAI.Amount a <= VAIState.TotalDebt st)
    (s1 ← post_vai actor (- BurnVAI.Amount a) s;
     Some (on_economy (with_issued (Some
       (VAIState.mk (VAIState.TotalDebt st - BurnVAI.Amount a) (VAIState.EpochStartUnix st)
          (VAIState.EpochMinted st)))) s1)).

Definition update_reserve (a : UpdateReserveState.t) (actor : Address) (s : State)
    : option State :=
  governed actor s (Some (on_economy (with_backing (Some
    (ReserveState.mk (UpdateReserveState.ExogenousReserve a) (UpdateReserveState.VAIBuffer a))))
    s)).

Definition set_risk (a : SetRiskParams.t) (actor : Address) (s : State) : option State :=
  governed actor s (require (is_ok (RiskConfig.validateRiskConfig (risk_of a)) = true)
    (Some (on_rules (with_risk (Some (risk_of a))) s))).

(** ** The pool *)

(** The pool pays [d0] VEIL, [d1] VAI and [dl] LP tokens to [actor]. *)
Definition settle (actor : Address) (p : Pool.t) (d0 d1 dl : Z) (s : State) : option State :=
  let p' := Pool.mk (Pool.Asset0 p) (Pool.Asset1 p) (Pool.FeeBips p) (Pool.Reserve0 p - d0)
              (Pool.Reserve1 p - d1) (Pool.TotalLP p + dl) in
  require (Pool.ok p')
    (s1 ← post_veil actor d0 s; s2 ← post_vai actor d1 s1; s3 ← post_lp actor dl s2;
     Some (on_economy (with_pool (Some p')) s3)).

(** The two assets of the pool, in either order. *)
Definition is_pair (a b : Z) : Prop :=
  (a = AssetVEIL /\ b = AssetVAI) \/ (a = AssetVAI /\ b = AssetVEIL).
#[export] Instance is_pair_dec a b : Decision (is_pair a b).
Proof. unfold is_pair. apply _. Defined.

(** The tokens a deposit of [x] VEIL and [y] VAI earns can be computed in 64
    bits: a first deposit has a product below [2^64 - 1]. *)
Definition deposit_fits (p : Pool.t) (x y : Z) : Prop :=
  if Pool.TotalLP p =? 0 then x * y < 2 ^ 64 - 1
  else 0 < Pool.Reserve0 p /\ 0 < Pool.Reserve1 p /\
       x * Pool.TotalLP p / Pool.Reserve0 p < 2 ^ 64 /\
       y * Pool.TotalLP p / Pool.Reserve1 p < 2 ^ 64.
#[export] Instance deposit_fits_dec p x y : Decision (deposit_fits p x y).
Proof. unfold deposit_fits. destruct (_ =? _); apply _. Defined.

Definition create_pool (a : CreatePool.t) (actor : Address) (s : State) : option State :=
  governed actor s
    (match pool (economy s) with
     | None => require (is_pair (CreatePool.Asset0 a) (CreatePool.Asset1 a) /\
           MinPoolFeeBips <= CreatePool.FeeBips a <= MaxPoolFeeBips)
         (Some (on_economy (with_pool (Some
            (Pool.mk AssetVEIL AssetVAI (CreatePool.FeeBips a) 0 0 0))) s))
     | Some _ => None
     end).

Definition add_liquidity (a : AddLiquidity.t) (actor : Address) (s : State) : option State :=
  p ← pool (economy s);
  let x := pick AssetVEIL (AddLiquidity.Asset0 a) (AddLiquidity.Amount0 a) (AddLiquidity.Amount1 a) in
  let y := pick AssetVAI (AddLiquidity.Asset0 a) (AddLiquidity.Amount0 a) (AddLiquidity.Amount1 a) in
  require (is_pair (AddLiquidity.Asset0 a) (AddLiquidity.Asset1 a) /\ deposit_fits p x y)
    (require (0 < x /\ 0 < y /\ 0 < lp_for p x y /\ AddLiquidity.MinLP a <= lp_for p x y)
      (settle actor p (- x) (- y) (lp_for p x y) s)).

Definition remove_liquidity (a : RemoveLiquidity.t) (actor : Address) (s : State)
    : option State :=
  p ← pool (economy s);
  let l := RemoveLiquidity.LPAmount a in
  let x := redeem p AssetVEIL l in
  let y := redeem p AssetVAI l in
  require (is_pair (RemoveLiquidity.Asset0 a) (RemoveLiquidity.Asset1 a) /\
      0 < l <= Pool.TotalLP p /\ 0 < x /\ 0 < y /\
      pick AssetVEIL (RemoveLiquidity.Asset0 a) (RemoveLiquidity.MinAmount0 a)
        (RemoveLiquidity.MinAmount1 a) <= x /\
      pick AssetVAI (RemoveLiquidity.Asset0 a) (RemoveLiquidity.MinAmount0 a)
        (RemoveLiquidity.MinAmount1 a) <= y)
    (settle actor p x y (- l) s).

Definition swap (a : SwapExactIn.t) (actor : Address) (s : State) : option State :=
  p ← pool (economy s);
  let i := SwapExactIn.AssetIn a in
  let o := SwapExactIn.AssetOut a in
  let n := SwapExactIn.AmountIn a in
  let inFee := swap_in_fee n (Pool.FeeBips p) in
  let out := swap_out (reserve i p) (reserve o p) inFee in
  require (is_pair i o)
    (require (0 < n /\ 0 < inFee /\ 0 < reserve i p /\ 0 < reserve o p /\
        0 < out /\ SwapExactIn.MinAmountOut a <= out)
      (if i =? AssetVEIL then settle actor p (- n) out 0 s else settle actor p out (- n) 0 s)).

(** ** Markets and batches *)

Definition active (id : ID) (s : State) : option Market.t :=
  x ← market (desk s) id; require (Market.Status x = MarketStatusActive) (Some x).

Definition open_market (a : CreateMarket.t) (actor : Address) (s : State) : option State :=
  let x := Market.mk MarketStatusActive (CreateMarket.Outcomes a)
             (CreateMarket.ResolutionTime a) 0 (CreateMarket.Question a) in
  match market (desk s) (CreateMarket.MarketID a) with
  | None =>
      require (2 <= CreateMarket.Outcomes a /\ 0 < CreateMarket.ResolutionTime a /\
               0 < CreateMarket.CreatorBond a /\
               len (CreateMarket.Question a) <= CreateMarket.MaxQuestionSize)
        (s1 ← post_veil actor (- CreateMarket.CreatorBond a) s;
         Some (on_desk (with_market (CreateMarket.MarketID a) (Some x)) s1))
  | Some _ => None
  end.

Definition resolve (a : ResolveMarket.t) (s : State) : option State :=
  x ← active (ResolveMarket.MarketID a) s;
  require (0 <= ResolveMarket.Outcome a < Market.Outcomes x /\
      0 < len (ResolveMarket.Signature a) <= ResolveMarket.MaxSignatureSize)
    (Some (on_desk (with_market (ResolveMarket.MarketID a)
       (Some (with_status MarketStatusResolved (ResolveMarket.Outcome a) x))) s)).

(** The evidence of a dispute is kept where the share of the last possible
    validator would be. *)
Definition dispute_slot : Z := 0xFFFFFFFF.

Definition dispute (a : Dispute.t) (actor : Address) (s : State) : option State :=
  let id := Dispute.MarketID a in
  x ← market (desk s) id;
  require (Market.Status x = MarketStatusResolved /\ 0 < Dispute.Bond a /\
      0 < len (Dispute.Evidence a) <= Dispute.MaxEvidenceSize)
    (s1 ← post_veil actor (- Dispute.Bond a) s;
     Some (on_desk (with_share (id, dispute_slot) (Some (Dispute.Bond a, Dispute.Evidence a)))
       (on_desk (with_market id
          (Some (with_status MarketStatusDisputed (Market.ResolvedOutcome x) x))) s1))).

Definition commit_order (a : CommitOrder.t) (actor : Address) (s : State) : option State :=
  let id := CommitOrder.MarketID a in
  _ ← active id s;
  require (0 < len (CommitOrder.Envelope a) <= CommitOrder.MaxEnvelopeSize /\
      0 < len (CommitOrder.Commitment a) <= CommitOrder.MaxCommitmentSize)
    (Some (on_desk (with_order (id, CommitOrder.WindowID a, actor)
       (Some (CommitOrder.Commitment a ++ CommitOrder.Envelope a))) s)).

Definition reveal (a : RevealBatch.t) (s : State) : option State :=
  let id := RevealBatch.MarketID a in
  _ ← active id s;
  require (0 < len (RevealBatch.DecryptionShare a) <= RevealBatch.MaxDecryptionShareSize)
    (Some (on_desk (with_share (id, RevealBatch.ValidatorIndex a)
       (Some (RevealBatch.WindowID a, RevealBatch.DecryptionShare a))) s)).

(** ** Proofs *)

(** The recorded proof of the window is of the required type, in time and
    unaltered, commits to this clear, and passes the verifier. *)
Definition backed {PF : Platform} (vc : VerifierConfig) (cfg : ProofConfig.t) (a : ClearBatch.t)
    (s : State) : bool :=
  let id := ClearBatch.MarketID a in
  let w := ClearBatch.WindowID a in
  match record (desk s) (id, w), payload (desk s) (id, w) with
  | Some r, Some proof =>
      match parseProofEnvelope proof with
      | Ok env =>
          match ClearBatch.computeExpectedPublicInputsHash (env_circuitID env) id w
                  (ClearBatch.ClearPrice a) (ClearBatch.TotalVolume a) (ClearBatch.FillsHash a) with
          | Ok h =>
              bool_decide (BatchProofRecord.ProofType r = ProofConfig.RequiredProofType cfg /\
                BatchProofRecord.SubmittedAtMs r
                  <= deadline cfg (BatchProofRecord.WindowCloseAtMs r) /\
                BatchProofRecord.FillsHash r = ClearBatch.FillsHash a /\
                BatchProofRecord.ProofCommitment r = Sum256 proof /\
                BatchProofRecord.PublicInputsHash r = array_bytes h)
              && is_ok (verifyBatchProofInConsensus vc (ProofConfig.RequiredProofType cfg) proof h)
          | _ => false
          end
      | _ => false
      end
  | _, _ => false
  end.

Definition clear {PF : Platform} (vc : VerifierConfig) (a : ClearBatch.t) (actor : Address)
    (s : State) : option State :=
  let id := ClearBatch.MarketID a in
  _ ← active id s;
  cfg ← proof_rules (rules s);
  require (ClearBatch.ClearPrice a <> 0 /\ len (ClearBatch.FillsHash a) = ExpectedFillsHashSize)
    (require (ProofConfig.RequireProof cfg = true ->
              actor = ProofConfig.ProverAuthority cfg /\ backed vc cfg a s = true)
      (Some (on_desk (with_result (id, ClearBatch.WindowID a) (Some (mk_settled
        (ClearBatch.ClearPrice a) (ClearBatch.TotalVolume a) (ClearBatch.FillsHash a)))) s))).

Definition submit {PF : Platform} (vc : VerifierConfig) (a : SubmitBatchProof.t) (ts : Z)
    (actor : Address) (tx : ID) (s : State) : option State :=
  let i := (SubmitBatchProof.MarketID a, SubmitBatchProof.WindowID a) in
  let close := SubmitBatchProof.WindowCloseAtMs a in
  let proof := SubmitBatchProof.Proof a in
  _ ← active (SubmitBatchProof.MarketID a) s;
  cfg ← proof_rules (rules s);
  b ← standing (desk s) actor;
  require (ProofConfig.RequireProof cfg = true /\ actor = ProofConfig.ProverAuthority cfg /\
      SubmitBatchProof.ProofType a = ProofConfig.RequiredProofType cfg /\
      len (SubmitBatchProof.PublicInputsHash a) = 32 /\
      len (SubmitBatchProof.FillsHash a) = 32 /\ 0 < len proof <= MaxProofBytesSize)
    (require (0 < close /\ Z.rem close (ProofConfig.BatchWindowMs cfg) = 0 /\
        close <= ts <= deadline cfg close /\
        is_ok (verifyBatchProofInConsensus vc (ProofConfig.RequiredProofType cfg) proof
                 (SubmitBatchProof.PublicInputsHash a)) = true)
      match record (desk s) i with
      | Some _ => None
      | None =>
          Some (on_desk (with_proof i (Some (new_record a ts actor)) (Some proof)
            (Some (new_glyph a ts actor tx)) actor (Some (next_standing b ts))) s)
      end).

Definition set_proof_rules (a : SetProofConfig.t) (actor : Address) (s : State)
    : option State :=
  governed actor s
    (require (is_ok (ProofConfig.validateProofConfig (proof_config_of a)) = true)
      (Some (on_rules (with_proof_rules (Some (proof_config_of a))) s))).

(** ** Events *)

Definition perform {PF : Platform} (env : Env) (act : ChainAction) (ts : Z) (actor : Address)
    (tx : ID) (s : State) : option State :=
  match act with
  | ATransfer a => transfer a actor s
  | ACreateMarket a => open_market a actor s
  | ACommitOrder a => commit_order a actor s
  | ARevealBatch a => reveal a s
  | AClearBatch a => clear (env_verifier env) a actor s
  | AResolveMarket a => resolve a s
  | ADispute a => dispute a actor s
  | ARouteFees a => route_fees a actor s
  | AReleaseCOLTranche a => release a ts actor s
  | AMintVAI a => mint a ts actor s
  | ABurnVAI a => burn a actor s
  | ACreatePool a => create_pool a actor s
  | AAddLiquidity a => add_liquidity a actor s
  | ARemoveLiquidity a => remove_liquidity a actor s
  | ASwapExactIn a => swap a actor s
  | AUpdateReserveState a => update_reserve a actor s
  | ASetRiskParams a => set_risk a actor s
  | ASubmitBatchProof a => submit (env_verifier env) a ts actor tx s
  | ASetProofConfig a => set_proof_rules a actor s
  end.

Definition apply {PF : Platform} (e : Event) (s : State) : option State :=
  match e with
  | EAction env act ts actor tx => perform env act ts actor tx s
  | EFee sponsor amount => post_veil sponsor (- amount) s
  | EView => Some s
  end.

Fixpoint apply_all {PF : Platform} (es : list Event) (s : State) : option State :=
  match es with
  | [] => Some s
  | e :: es' => apply e s ≫= apply_all es'
  end.

(** ** Equal states behave alike *)

Section proper.
Context {PF : Platform}.

Lemma upd_proper {K A} `{EqDecision K} (f g : K -> A) k v x :
  (forall y, f y = g y) -> upd f k v x = upd g k v x.
Proof. intros H. unfold upd. by case_decide. Qed.

Lemma require_proper (P : Prop) `{Decision P} (k k' : option State) :
  k ≡ k' -> require P k ≡ require P k'.
Proof. intros Hk. unfold require. by case_decide. Qed.

Lemma bind_proper (o o' : option State) (k k' : State -> option State) :
  o ≡ o' -> (forall s s', s ≡ s' -> k s ≡ k' s') -> (o ≫= k) ≡ (o' ≫= k').
Proof. intros H Hk. destruct H; [by apply Hk|constructor]. Qed.

Lemma bind_same {A} (o : option A) (k k' : A -> option State) :
  (forall a, k a ≡ k' a) -> (o ≫= k) ≡ (o ≫= k').
Proof. intros Hk. destruct o; [apply Hk|constructor]. Qed.

#[export] Instance on_accounts_proper (f : Accounts -> Accounts) :
  Proper ((≡) ==> (≡)) f -> Proper ((≡) ==> (≡)) (on_accounts f).
Proof. intros Hf s s' (HA & HE & HR & HD). split_and!; try done. by apply Hf. Qed.
#[export] Instance on_desk_proper (f : Desk -> Desk) :
  Proper ((≡) ==> (≡)) f -> Proper ((≡) ==> (≡)) (on_desk f).
Proof. intros Hf s s' (HA & HE & HR & HD). split_and!; try done. by apply Hf. Qed.
#[export] Instance on_economy_proper f : Proper ((≡) ==> (≡)) (on_economy f).
Proof. intros s s' (HA & HE & HR & HD). split_and!; try done. cbn. by rewrite HE. Qed.
#[export] Instance on_rules_proper f : Proper ((≡) ==> (≡)) (on_rules f).
Proof. intros s s' (HA & HE & HR & HD). split_and!; try done. cbn. by rewrite HR. Qed.

Ltac points := let u := fresh in let v := fresh in intros u v []; constructor; intros; cbn; try done; by apply upd_proper.
#[export] Instance with_market_proper id x : Proper ((≡) ==> (≡)) (with_market id x).
Proof. points. Qed.
#[export] Instance with_order_proper i x : Proper ((≡) ==> (≡)) (with_order i x).
Proof. points. Qed.
#[export] Instance with_share_proper i x : Proper ((≡) ==> (≡)) (with_share i x).
Proof. points. Qed.
#[export] Instance with_result_proper i x : Proper ((≡) ==> (≡)) (with_result i x).
Proof. points. Qed.
#[export] Instance with_proof_proper i r p g who b :
  Proper ((≡) ==> (≡)) (with_proof i r p g who b).
Proof. points. Qed.

(** Rewrite the left side with the equations of an equivalence of states. *)
Ltac states E :=
  let HA := fresh in let HE := fresh in let HR := fresh in let HD := fresh in
  pose proof E as (HA & HE & HR & HD);
  rewrite ?HE, ?HR, ?(eq_veil _ _ HA), ?(eq_vai _ _ HA), ?(eq_lp _ _ HA),
    ?(eq_market _ _ HD), ?(eq_record _ _ HD), ?(eq_payload _ _ HD), ?(eq_standing _ _ HD);
  clear HA HE HR HD.

#[export] Instance post_veil_proper x d : Proper ((≡) ==> (≡)) (post_veil x d).
Proof.
  intros s s' E. unfold post_veil. states E. apply require_proper. constructor.
  apply on_accounts_proper; [|done]. points.
Qed.
#[export] Instance post_vai_proper x d : Proper ((≡) ==> (≡)) (post_vai x d).
Proof.
  intros s s' E. unfold post_vai. states E. apply require_proper. constructor.
  apply on_accounts_proper; [|done]. points.
Qed.
#[export] Instance post_lp_proper x d : Proper ((≡) ==> (≡)) (post_lp x d).
Proof.
  intros s s' E. unfold post_lp. states E. apply require_proper. constructor.
  apply on_accounts_proper; [|done]. points.
Qed.

Lemma governed_proper actor s s' (k k' : option State) :
  s ≡ s' -> k ≡ k' -> governed actor s k ≡ governed actor s' k'.
Proof.
  intros E Hk. unfold governed. states E. apply bind_same. intros. by apply require_proper.
Qed.
Lemma active_same id s s' : s ≡ s' -> active id s = active id s'.
Proof. intros E. unfold active. by states E. Qed.
Lemma backed_same vc cfg a s s' : s ≡ s' -> backed vc cfg a s = backed vc cfg a s'.
Proof. intros E. unfold backed. by states E. Qed.

(** Walk two runs of one operation from equivalent states. *)
Ltac respect :=
  repeat match goal with
  | E : ?s ≡ ?s' |- _ ≡ _ => progress states E
  | E : ?s ≡ ?s' |- context [active ?id ?s] => rewrite (active_same id s s' E)
  | E : ?s ≡ ?s' |- context [backed ?v ?c ?a ?s] => rewrite (backed_same v c a s s' E)
  | |- governed _ _ _ ≡ _ => apply governed_proper; [done|]
  | |- require _ _ ≡ _ => apply require_proper
  | |- (?o ≫= _) ≡ (?o ≫= _) => apply bind_same; intros
  | |- (_ ≫= _) ≡ _ => apply bind_proper; [|intros]
  | |- Some _ ≡ Some _ => constructor
  | |- context [match ?x with _ => _ end] => destruct x
  | |- on_desk _ _ ≡ on_desk _ _ => apply on_desk_proper; [apply _|]
  | |- _ ≡ _ => solve [assumption | reflexivity | f_equiv; assumption]
  end.

#[export] Instance settle_proper actor p d0 d1 dl :
  Proper ((≡) ==> (≡)) (settle actor p d0 d1 dl).
Proof. intros s s' E. unfold settle. respect. Qed.

#[export] Instance perform_proper env act ts actor tx :
  Proper ((≡) ==> (≡)) (perform env act ts actor tx).
Proof.
  intros s s' E. destruct act; cbn [perform];
    unfold transfer, route_fees, release, mint, burn, update_reserve, set_risk, create_pool,
      add_liquidity, remove_liquidity, swap, open_market, resolve, dispute, commit_order, reveal,
      clear, submit, set_proof_rules; respect.
Qed.

#[export] Instance apply_proper e : Proper ((≡) ==> (≡)) (apply e).
Proof. intros s s' E. destruct e; cbn [apply]; [by f_equiv..|by constructor]. Qed.

#[export] Instance apply_all_proper es : Proper ((≡) ==> (≡)) (apply_all es).
Proof.
  induction es as [|e es IH]; intros s s' E; cbn [apply_all]; [by constructor|].
  apply bind_proper; [by f_equiv|]. apply IH.
Qed.
End proper.

(** ** Nobody else spends *)

(** The account an event may charge. *)
Definition charges (x : Address) (e : Event) : Prop :=
  match e with
  | EAction _ _ _ actor _ => actor = x
  | EFee sponsor _ => sponsor = x
  | EView => False
  end.

Lemma require_ok {A} (P : Prop) `{Decision P} (k : option A) a :
  require P k = Some a -> P /\ k = Some a.
Proof. unfold require. case_decide; [done|]. discriminate. Qed.

(** Take a successful operation apart. *)
Ltac op_inv :=
  repeat match goal with
  | H : require _ _ = Some _ |- _ => apply require_ok in H as [? H]
  | H : governed _ _ _ = Some _ |- _ => unfold governed in H
  | H : (_ ≫= _) = Some _ |- _ => apply bind_Some in H as (? & ? & H)
  | H : match ?o with Some _ => None | None => _ end = Some _ |- _ => destruct o; [discriminate H|]
  | H : context [RouteFees.shares ?c ?n] |- _ => destruct (RouteFees.shares c n) as [[? ?] ?]
  | H : context [MintVAI.roll_epoch ?c ?s ?t] |- _ => destruct (MintVAI.roll_epoch c s t)
  | H : (if ?b then _ else _) = Some _ |- _ => destruct b
  | H : settle _ _ _ _ _ _ = Some _ |- _ => unfold settle in H
  | H : Some _ = Some _ |- _ => injection H as <-
  end.

(** [x] holds at least as much of everything. *)
Definition no_poorer (x : Address) (s s' : State) : Prop :=
  veil (accounts s) x <= veil (accounts s') x /\ vai (accounts s) x <= vai (accounts s') x /\
  lp (accounts s) x <= lp (accounts s') x.

Section funds.
Context {PF : Platform}.

Lemma no_poorer_refl x s : no_poorer x s s.
Proof. unfold no_poorer. lia. Qed.
Lemma no_poorer_trans x s t u : no_poorer x s t -> no_poorer x t u -> no_poorer x s u.
Proof. unfold no_poorer. lia. Qed.

Lemma post_veil_keeps x y d s s' :
  post_veil y d s = Some s' -> y <> x \/ 0 <= d -> no_poorer x s s'.
Proof.
  intros [_ [= <-]]%require_ok Hd. split_and!; cbn; [|done..]. unfold upd.
  case_decide; [|done]. subst. destruct Hd; [done|lia].
Qed.
Lemma post_vai_keeps x y d s s' :
  post_vai y d s = Some s' -> y <> x \/ 0 <= d -> no_poorer x s s'.
Proof.
  intros [_ [= <-]]%require_ok Hd. split_and!; cbn; [done| |done]. unfold upd.
  case_decide; [|done]. subst. destruct Hd; [done|lia].
Qed.
Lemma post_lp_keeps x y d s s' :
  post_lp y d s = Some s' -> y <> x \/ 0 <= d -> no_poorer x s s'.
Proof.
  intros [_ [= <-]]%require_ok Hd. split_and!; cbn; [done..|]. unfold upd.
  case_decide; [|done]. subst. destruct Hd; [done|lia].
Qed.

Lemma apply_keeps x e s s' :
  ~ charges x e -> apply e s = Some s' -> no_poorer x s s'.
Proof.
  intros Hx H. destruct e as [env act ts actor tx|sponsor amount|]; cbn [apply charges] in *.
  - destruct act; cbn [perform] in H;
      unfold transfer, route_fees, release, mint, burn, update_reserve, set_risk, create_pool,
        add_liquidity, remove_liquidity, swap, open_market, resolve, dispute, commit_order, reveal,
        clear, submit, set_proof_rules in H; op_inv;
    repeat match goal with
    | P : post_veil _ _ ?t = Some _ |- no_poorer x ?t _ =>
        eapply no_poorer_trans; [apply (post_veil_keeps _ _ _ _ _ P); first [by left|right; lia]|]
    | P : post_vai _ _ ?t = Some _ |- no_poorer x ?t _ =>
        eapply no_poorer_trans; [apply (post_vai_keeps _ _ _ _ _ P); first [by left|right; lia]|]
    | P : post_lp _ _ ?t = Some _ |- no_poorer x ?t _ =>
        eapply no_poorer_trans; [apply (post_lp_keeps _ _ _ _ _ P); first [by left|right; lia]|]
    end; unfold no_poorer; cbn; lia.
  - eapply post_veil_keeps; [done|by left].
  - injection H as <-. apply no_poorer_refl.
Qed.

Lemma apply_all_keeps x es s s' :
  Forall (fun e => ~ charges x e) es -> apply_all es s = Some s' -> no_poorer x s s'.
Proof.
  revert s. induction es as [|e es IH]; intros s Hes H; cbn [apply_all] in H.
  - injection H as <-. apply no_poorer_refl.
  - inversion_clear Hes. apply bind_Some in H as (t & Ht & H).
    eapply no_poorer_trans; [by eapply apply_keeps|by apply IH].
Qed.
End funds.
