(* ===== verification/Refinement.v ===== *)
(** * The chain implements the reference machine

    [abs] reads a reference state out of the contents of the database. Every
    event of the chain is the event of the reference machine on what is read,
    and so is every run; what holds of the reference machine then holds of the
    chain. *)
From S2P Require Import Prelude Errors Go Platform Sha256 Storage Concrete Balance Action.
From S2P Require Import AmmMath Transfer ProofEnvelope Pools PoolFacts Vai VaiFacts Treasury.
From S2P Require Import TreasuryFacts Metrics Markets Proofs MarketFacts ProofFacts Chain.
From S2P Require Import Footprint Ledger Lifecycle Authority Reference.

(** ** Reading the state *)

Section abstraction.
Context {PF : Platform}.

(** A number followed by bytes, and the result of a batch. *)
Definition numbered (v : bytes) : Z * bytes := (uint_at 0 8 v, drop 8 v).
Definition settled_of (v : bytes) : Settled :=
  mk_settled (uint_at 0 8 v) (uint_at 8 8 v) (drop 16 v).

Definition abs_accounts (m : gmap bytes bytes) : Accounts :=
  mk_accounts (fun x => cell m (BalanceKey x)) (fun x => cell m (VAIBalanceKey x))
    (fun x => cell m (LPBalanceKey AssetVEIL AssetVAI x)).
Definition abs_economy (m : gmap bytes bytes) : Economy :=
  mk_economy (pool_at m) (vai_state m) (fee_state m) (reserve_state m) (treasury_state m).
Definition abs_rules (m : gmap bytes bytes) : Rules :=
  mk_rules (vai_config m) (fee_config m) (risk_config m) (treasury_config m) (proof_config m).
(** Windows are [uint64] and validators [uint32]: other numbers index nothing. *)
Definition abs_desk (m : gmap bytes bytes) : Desk :=
  mk_desk (market_at m)
    (fun '(id, w, x) => require (u64 w) (m !! CommitmentKey id w x))
    (fun '(id, i) => require (u32 i) (numbered <$> m !! OracleKey id i))
    (fun '(id, w) => require (u64 w) (settled_of <$> m !! BatchKey id w))
    (fun '(id, w) => require (u64 w) (proof_record m id w))
    (fun '(id, w) => require (u64 w) (proof_payload m id w))
    (fun '(id, w) => require (u64 w) (glyph_at m id w))
    (bloodsworn_at m).
Definition abs (m : gmap bytes bytes) : State :=
  mk_state (abs_accounts m) (abs_economy m) (abs_rules m) (abs_desk m).

Lemma require_intro {A} (P : Prop) `{Decision P} (k : option A) : P -> require P k = k.
Proof. intros. unfold require. by rewrite decide_True. Qed.

Lemma numbered_app n v : u64 n -> numbered (be 8 n ++ v) = (n, v).
Proof. intros. unfold numbered. slices. by rewrite unbe_be_8. Qed.

Lemma settled_of_app p v f : u64 p -> u64 v -> settled_of (be 8 p ++ be 8 v ++ f) = mk_settled p v f.
Proof. intros. unfold settled_of. slices. by rewrite !unbe_be_8. Qed.
End abstraction.

(** ** Keys of one family *)

Lemma slot_key_distinct {PF : Platform} {PS : PlatformSpec} s1 s2 :
  slot_ok s1 -> slot_ok s2 -> s1 <> s2 -> slot_key s1 <> slot_key s2.
Proof. intros H1 H2 Hne Hk. by apply Hne, slot_key_inj. Qed.

(** Two keys of one family differ when their indices do. *)
Ltac same_family :=
  lazymatch goal with
  | |- ?k1 <> ?k2 =>
      let s1 := slot_of k1 in let s2 := slot_of k2 in
      apply (slot_key_distinct s1 s2);
      [ cbn; first [assumption | done] .. | congruence ]
  end.

Section simulation.
Context {PF : Platform} {PS : PlatformSpec} {M : Type} {MU : Mutable M} {MS : MutableSpec M}.
Context {TX : Text}.
Implicit Types (m : gmap bytes bytes).

Lemma veil_set m x n y :
  u64 n -> cell (set_cell m (BalanceKey x) n) (BalanceKey y)
           = upd (fun y => cell m (BalanceKey y)) x n y.
Proof.
  intros. unfold upd. case_decide; [subst; by apply cell_set|]. apply cell_set_ne. same_family.
Qed.
Lemma veil_insert m x n y :
  u64 n -> cell (<[BalanceKey x := be 8 n]> m) (BalanceKey y)
           = upd (fun y => cell m (BalanceKey y)) x n y.
Proof.
  intros. unfold upd. case_decide; [subst; by apply cell_insert|]. apply cell_insert_ne. same_family.
Qed.
Lemma vai_set m x n y :
  u64 n -> cell (set_cell m (VAIBalanceKey x) n) (VAIBalanceKey y)
           = upd (fun y => cell m (VAIBalanceKey y)) x n y.
Proof.
  intros. unfold upd. case_decide; [subst; by apply cell_set|]. apply cell_set_ne. same_family.
Qed.
Lemma vai_insert m x n y :
  u64 n -> cell (<[VAIBalanceKey x := be 8 n]> m) (VAIBalanceKey y)
           = upd (fun y => cell m (VAIBalanceKey y)) x n y.
Proof.
  intros. unfold upd. case_decide; [subst; by apply cell_insert|]. apply cell_insert_ne. same_family.
Qed.

(** What [m'] reads like, where the cells of [m] were written. *)
Ltac views :=
  unfold market_at, proof_record, proof_payload, glyph_at, bloodsworn_at, pool_at, vai_state,
    fee_state, reserve_state, treasury_state, vai_config, fee_config, risk_config,
    treasury_config, proof_config; reads; try reflexivity.

(** Compute the projections of an updated state. *)
Ltac project :=
  unfold abs, abs_accounts, abs_economy, abs_rules, abs_desk, on_accounts, on_economy, on_rules,
    on_desk, with_pool, with_issued, with_fees, with_backing, with_treasury, with_risk,
    with_proof_rules, with_market, with_order, with_share, with_result, with_proof;
  cbn [accounts economy rules desk veil vai lp pool issued fees backing treasury mint_rules
    fee_rules risk_rules treasury_rules proof_rules market order share result record payload
    glyph standing].

(** Two states are equal at every point; leaves the points that differ. *)
Ltac pointwise :=
  project;
  lazymatch goal with
  | |- @equiv State _ _ _ =>
      split_and!;
      [ constructor; intros ?; project; views
      | project; f_equal; views
      | project; f_equal; views
      | constructor; intros ?; project; repeat case_match; views ]
  end.

(** *** One write at a time *)

Lemma abs_veil_set m x n :
  u64 n ->
  abs (set_cell m (BalanceKey x) n)
    ≡ on_accounts (fun a => mk_accounts (upd (veil a) x n) (vai a) (lp a)) (abs m).
Proof. intros Hn. pointwise. by rewrite veil_set. Qed.

Lemma abs_veil_insert m x n :
  u64 n ->
  abs (<[BalanceKey x := be 8 n]> m)
    ≡ on_accounts (fun a => mk_accounts (upd (veil a) x n) (vai a) (lp a)) (abs m).
Proof. intros Hn. pointwise. by rewrite veil_insert. Qed.

Lemma abs_vai_set m x n :
  u64 n ->
  abs (set_cell m (VAIBalanceKey x) n)
    ≡ on_accounts (fun a => mk_accounts (veil a) (upd (vai a) x n) (lp a)) (abs m).
Proof. intros Hn. pointwise. by rewrite vai_set. Qed.

Lemma abs_vai_insert m x n :
  u64 n ->
  abs (<[VAIBalanceKey x := be 8 n]> m)
    ≡ on_accounts (fun a => mk_accounts (veil a) (upd (vai a) x n) (lp a)) (abs m).
Proof. intros Hn. pointwise. by rewrite vai_insert. Qed.

Lemma abs_issued m st :
  VAIState.ok st ->
  abs (<[VAIStateKey := VAIState.encode st]> m) ≡ on_economy (with_issued (Some st)) (abs m).
Proof. intros Hst. pointwise. by stored_put. Qed.

Lemma abs_fees m st :
  FeeRouterState.ok st ->
  abs (<[FeeRouterStateKey := FeeRouterState.encode st]> m)
    ≡ on_economy (with_fees (Some st)) (abs m).
Proof. intros Hst. pointwise. by stored_put. Qed.

Lemma abs_backing m st :
  ReserveState.ok st ->
  abs (<[ReserveStateKey := ReserveState.encode st]> m)
    ≡ on_economy (with_backing (Some st)) (abs m).
Proof. intros Hst. pointwise. by stored_put. Qed.

Lemma abs_treasury m st :
  TreasuryState.ok st ->
  abs (<[TreasuryStateKey := TreasuryState.encode st]> m)
    ≡ on_economy (with_treasury (Some st)) (abs m).
Proof. intros Hst. pointwise. by stored_put. Qed.

Lemma abs_pool m f :
  let p := Pool.mk AssetVEIL AssetVAI f 0 0 0 in
  pool_at (<[PoolKey AssetVEIL AssetVAI := Pool.encode p]> m) = Some p ->
  abs (<[PoolKey AssetVEIL AssetVAI := Pool.encode p]> m)
    ≡ on_economy (with_pool (Some p)) (abs m).
Proof. intros p Hp. unfold pool_at in Hp. by pointwise. Qed.

Lemma abs_risk m c :
  RiskConfig.in_range c -> RiskConfig.validateRiskConfig c = Ok tt ->
  abs (<[RiskConfigKey := RiskConfig.encode c]> m) ≡ on_rules (with_risk (Some c)) (abs m).
Proof. intros Hc Hv. pointwise. by stored_put. Qed.

Lemma abs_proof_rules m c :
  ProofConfig.in_range c -> ProofConfig.validateProofConfig c = Ok tt ->
  abs (<[ProofConfigKey := ProofConfig.encode c]> m)
    ≡ on_rules (with_proof_rules (Some c)) (abs m).
Proof. intros Hc Hv. pointwise. by stored_put. Qed.

(** The points of a function on the desk: the one written and the others. *)
Ltac point :=
  unfold upd; case_decide;
  [ simplify_eq; rewrite ?require_intro by done; rewrite ?lookup_insert_eq
  | unfold require; try case_decide;
    first [ rewrite stored_insert_ne by same_family | rewrite lookup_insert_ne by same_family
          | idtac ]; try reflexivity ].

Lemma abs_market m id x :
  Market.ok x ->
  abs (<[MarketKey id := Market.encode x]> m) ≡ on_desk (with_market id (Some x)) (abs m).
Proof. intros Hx. pointwise. point. by stored_put. Qed.

Lemma abs_order m id w x v :
  u64 w ->
  abs (<[CommitmentKey id w x := v]> m) ≡ on_desk (with_order (id, w, x) (Some v)) (abs m).
Proof. intros Hw. pointwise. by point. Qed.

Lemma abs_share m id i n v :
  u32 i -> u64 n ->
  abs (<[OracleKey id i := be 8 n ++ v]> m) ≡ on_desk (with_share (id, i) (Some (n, v))) (abs m).
Proof. intros Hi Hn. pointwise. point. by apply (f_equal Some), numbered_app. Qed.

Lemma abs_result m id w p n f :
  u64 w -> u64 p -> u64 n ->
  abs (<[BatchKey id w := be 8 p ++ be 8 n ++ f]> m)
    ≡ on_desk (with_result (id, w) (Some (mk_settled p n f))) (abs m).
Proof. intros Hw Hp Hn. pointwise. point. by apply (f_equal Some), settled_of_app. Qed.

Lemma abs_submitted m a ts actor tx b :
  s_ok a -> i64 ts -> Bloodsworn.ok b ->
  len (SubmitBatchProof.PublicInputsHash a) = 32 ->
  len (SubmitBatchProof.FillsHash a) = 32 ->
  0 < len (SubmitBatchProof.Proof a) <= MaxProofBytesSize ->
  abs (submitted a ts actor tx b m)
    ≡ on_desk (with_proof (SubmitBatchProof.MarketID a, SubmitBatchProof.WindowID a)
        (Some (new_record a ts actor)) (Some (SubmitBatchProof.Proof a))
        (Some (new_glyph a ts actor tx)) actor (Some (next_standing b ts))) (abs m).
Proof.
  intros Ha Hts Hb Hp Hf Hl.
  destruct (submitted_reads a ts actor tx b m) as (R1 & R2 & R3 & R4); [done..|].
  cbn in Ha. destruct_and?.
  unfold submitted, proof_record, proof_payload, glyph_at, bloodsworn_at in *.
  revert R1 R2 R3 R4. reads. rewrite lookup_insert_eq. intros R1 R2 R3 R4.
  pointwise; point; try eassumption; rewrite ?lookup_insert_ne by same_family; by reads.
Qed.

(** *** Postings *)

Lemma bind_step (o : option State) t (k : State -> option State) r :
  o ≡ Some t -> (forall s, s ≡ t -> k s ≡ r) -> (o ≫= k) ≡ r.
Proof. intros H Hk. inversion H; subst. by apply Hk. Qed.

Lemma bind_read {A} (o : option A) a (k : A -> option State) r :
  o = Some a -> k a ≡ r -> (o ≫= k) ≡ r.
Proof. by intros ->. Qed.

Lemma post_veil_set m x d n :
  cell m (BalanceKey x) + d = n -> u64 n ->
  post_veil x d (abs m) ≡ Some (abs (set_cell m (BalanceKey x) n)).
Proof. intros <- Hn. unfold post_veil. rewrite require_intro, abs_veil_set by done. done. Qed.
Lemma post_veil_insert m x d n :
  cell m (BalanceKey x) + d = n -> u64 n ->
  post_veil x d (abs m) ≡ Some (abs (<[BalanceKey x := be 8 n]> m)).
Proof. intros <- Hn. unfold post_veil. rewrite require_intro, abs_veil_insert by done. done. Qed.
Lemma post_vai_set m x d n :
  cell m (VAIBalanceKey x) + d = n -> u64 n ->
  post_vai x d (abs m) ≡ Some (abs (set_cell m (VAIBalanceKey x) n)).
Proof. intros <- Hn. unfold post_vai. rewrite require_intro, abs_vai_set by done. done. Qed.
Lemma post_vai_insert m x d n :
  cell m (VAIBalanceKey x) + d = n -> u64 n ->
  post_vai x d (abs m) ≡ Some (abs (<[VAIBalanceKey x := be 8 n]> m)).
Proof. intros <- Hn. unfold post_vai. rewrite require_intro, abs_vai_insert by done. done. Qed.
End simulation.

(** ** The checks on arguments *)

Section arguments.
Context {PF : Platform} {PS : PlatformSpec} {M : Type} {MU : Mutable M} {MS : MutableSpec M}.
Context {TX : Text}.

Lemma create_market_args a ts actor tx out (s s' : M) :
  CreateMarket.Execute a ts actor tx s = (Ok out, s') ->
  len (CreateMarket.Question a) <= CreateMarket.MaxQuestionSize.
Proof. intros H. unfold CreateMarket.Execute in H. go_inv. lia. Qed.

Lemma resolve_market_args a ts actor tx out (s s' : M) :
  ResolveMarket.Execute a ts actor tx s = (Ok out, s') ->
  0 < len (ResolveMarket.Signature a) <= ResolveMarket.MaxSignatureSize.
Proof. intros H. unfold ResolveMarket.Execute in H. go_inv. unfold len in *. lia. Qed.

Lemma dispute_args a ts actor tx out (s s' : M) :
  Dispute.Execute a ts actor tx s = (Ok out, s') ->
  0 < len (Dispute.Evidence a) <= Dispute.MaxEvidenceSize.
Proof. intros H. unfold Dispute.Execute in H. go_inv. unfold len in *. lia. Qed.

Lemma commit_order_args e a ts actor tx out (s s' : M * zkMetricsCollector) :
  CommitOrder.Execute e a ts actor tx s = (Ok out, s') ->
  0 < len (CommitOrder.Envelope a) <= CommitOrder.MaxEnvelopeSize /\
  0 < len (CommitOrder.Commitment a) <= CommitOrder.MaxCommitmentSize.
Proof.
  intros (c' & H & _)%defer_metric_run. unfold CommitOrder.body in H. go_inv.
  unfold len in *. lia.
Qed.

Lemma reveal_args e a ts actor tx out (s s' : M * zkMetricsCollector) :
  RevealBatch.Execute e a ts actor tx s = (Ok out, s') ->
  0 < len (RevealBatch.DecryptionShare a) <= RevealBatch.MaxDecryptionShareSize.
Proof.
  intros (c' & H & _)%defer_metric_run. unfold RevealBatch.body in H. go_inv.
  unfold len in *. lia.
Qed.

Lemma create_pool_args a ts actor tx out (s s' : M) :
  CreatePool.Execute a ts actor tx s = (Ok out, s') ->
  is_pair (CreatePool.Asset0 a) (CreatePool.Asset1 a).
Proof.
  intros H. unfold CreatePool.Execute in H. go_step.
  apply lift_ok in E as [E _]. by apply validateAssetPair_ok in E.
Qed.

Lemma remove_liquidity_args a ts actor tx out (s s' : M) :
  RemoveLiquidity.Execute a ts actor tx s = (Ok out, s') ->
  is_pair (RemoveLiquidity.Asset0 a) (RemoveLiquidity.Asset1 a).
Proof.
  intros H. unfold RemoveLiquidity.Execute in H. go_step.
  apply lift_ok in E as [E _]. by apply validateAssetPair_ok in E.
Qed.

(** When exactly the tokens of a deposit can be computed. *)
Lemma minted_lp_iff p x y :
  Pool.ok p -> u64 x -> u64 y ->
  deposit_fits p x y <-> exists l, AddLiquidity.minted_lp p x y = Ok l.
Proof.
  intros (_ & _ & _ & H0 & H1 & Hl) Hx Hy. unfold deposit_fits, AddLiquidity.minted_lp.
  destruct (Pool.TotalLP p =? 0) eqn:E.
  - rewrite smath_Mul_spec by done. destruct (x * y <? 2 ^ 64) eqn:E2; bool_simpl; cbn [obind].
    + assert (Hn : u64 (x * y)) by (unfold u64 in *; nia). split.
      * intros Hlt. eexists. apply intSqrt_runs. unfold u64 in Hn. lia.
      * intros [l Hsq]. by apply intSqrt_root in Hsq as (_ & _ & ?).
    + split; [lia|by intros [l Hs]].
  - unfold mulDiv. destruct (Pool.Reserve0 p =? 0) eqn:R0; [split; [lia|by intros [l Hs]]|].
    destruct (Pool.Reserve1 p =? 0) eqn:R1; [split; [lia|by intros [l Hs]]|].
    cbn [orb guard obind]. destruct (_ <? 2 ^ 64) eqn:Q0; cbn [obind];
      [|split; [lia|by intros [l Hs]]].
    destruct (y * _ / _ <? 2 ^ 64) eqn:Q1; cbn [obind]; [|split; [lia|by intros [l Hs]]].
    split; [by eexists|]. unfold u64 in *. lia.
Qed.

Lemma add_liquidity_args a ts actor tx out (s s' : M) p :
  s_ok a -> pool_at (contents s) = Some p -> pool_wf p ->
  AddLiquidity.Execute a ts actor tx s = (Ok out, s') ->
  is_pair (AddLiquidity.Asset0 a) (AddLiquidity.Asset1 a) /\
  deposit_fits p
    (pick AssetVEIL (AddLiquidity.Asset0 a) (AddLiquidity.Amount0 a) (AddLiquidity.Amount1 a))
    (pick AssetVAI (AddLiquidity.Asset0 a) (AddLiquidity.Amount0 a) (AddLiquidity.Amount1 a)).
Proof.
  intros (_ & _ & Ha & Hb & _) Hp Hwf H. unfold AddLiquidity.Execute in H. go_inv.
  match goal with V : validateAssetPair _ _ = Ok _, G : GetPool _ _ _ = _ |- _ =>
    apply (GetPool_at _ _ _ _ _ _ V) in G as (-> & Hp' & Hok); rename V into Hpair end.
  rewrite Hp in Hp'. injection Hp' as <-.
  match goal with Hd : mapPairAmounts _ _ _ _ _ = _ |- _ =>
    apply (mapPairAmounts_ok _ _ _ _ _ _ _ _ Hpair Hwf) in Hd as (-> & ->) end.
  split; [by apply validateAssetPair_ok in Hpair|]. apply minted_lp_iff; [done| | |by eexists];
    unfold pick; by destruct (_ =? _).
Qed.
End arguments.

(** ** The actions *)

Section actions.
Context {PF : Platform} {PS : PlatformSpec} {M : Type} {MU : Mutable M} {MS : MutableSpec M}.
Context {TX : Text}.

Lemma transfer_refines a ts actor tx out (s s' : M) :
  s_ok a -> Transfer.Execute a ts actor tx s = (Ok out, s') ->
  transfer a actor (abs (contents s)) ≡ Some (abs (contents s')).
Proof.
  intros Ha H. apply Transfer.Execute_ok in H
    as (sb & rb & m1 & Hv & Hl & Hsb & Usb & -> & Hrb & Urb & -> & _); [|done].
  unfold transfer. rewrite require_intro by done.
  eapply bind_step; [apply post_veil_set; [|exact Usb]; lia|]. intros t ->.
  by apply post_veil_insert.
Qed.

Lemma route_fees_refines a ts actor tx out (s s' : M) :
  s_ok a -> RouteFees.Execute a ts actor tx s = (Ok out, s') ->
  route_fees a actor (abs (contents s)) ≡ Some (abs (contents s')).
Proof.
  intros Ha H. apply route_fees_ok in H
    as (cfg & st & x & y & z & Hc & _ & Hst & Hsh & Hpos & Hbal & Hok & ->); [|done].
  unfold route_fees. eapply bind_read; [exact Hc|]. eapply bind_read; [exact Hst|].
  rewrite Hsh, require_intro by done.
  eapply bind_step; [apply post_veil_set; [|exact Hbal]; lia|]. intros t ->.
  constructor. by rewrite abs_fees.
Qed.

Lemma release_refines a ts actor tx out (s s' : M) :
  s_ok a -> i64 ts -> ReleaseCOLTranche.Execute a ts actor tx s = (Ok out, s') ->
  release a ts actor (abs (contents s)) ≡ Some (abs (contents s')).
Proof.
  intros Ha Hts H. apply release_ok in H
    as (cfg & st & Hc & Hact & Hst & _ & Hamt & Hcap & Hep & Hok & ->); [|done].
  unfold release. eapply bind_read; [exact Hc|]. eapply bind_read; [exact Hst|].
  destruct (Hok Hts) as (_ & ? & ? & _).
  rewrite !require_intro; [|lia|done]. constructor. rewrite abs_treasury by auto. done.
Qed.

Lemma mint_refines a ts actor tx out (s s' : M) :
  s_ok a -> i64 ts -> MintVAI.Execute a ts actor tx s = (Ok out, s') ->
  mint a ts actor (abs (contents s)) ≡ Some (abs (contents s')).
Proof.
  intros Ha Hts H. apply mint_ok in H as (cfg & st & risk & res & Hc & Hst & Hr & Hres & H); [|done..].
  unfold mint. eapply bind_read; [exact Hc|]. eapply bind_read; [exact Hst|].
  eapply bind_read; [exact Hr|]. eapply bind_read; [exact Hres|].
  destruct (MintVAI.roll_epoch cfg st ts) as [start minted].
  destruct H as (Hact & Hpos & Hlim & Hceil & Hback & Hok & Hbal & ->).
  rewrite require_intro by done.
  eapply bind_step; [by apply post_vai_insert|]. intros t ->.
  constructor. by rewrite abs_issued.
Qed.

Lemma burn_refines a ts actor tx out (s s' : M) :
  s_ok a -> BurnVAI.Execute a ts actor tx s = (Ok out, s') ->
  burn a actor (abs (contents s)) ≡ Some (abs (contents s')).
Proof.
  intros Ha H. apply burn_ok in H as (st & Hst & Hpos & Hbal & Hok & ->); [|done].
  unfold burn. eapply bind_read; [exact Hst|]. rewrite require_intro by done.
  eapply bind_step; [apply post_vai_set; [|exact Hbal]; lia|]. intros t ->.
  constructor. by rewrite abs_issued.
Qed.

(** Governance acts. *)
Lemma governed_refines m actor (k r : option State) :
  governance m = Some actor -> k ≡ r -> governed actor (abs m) k ≡ r.
Proof.
  unfold governance. intros H Hk. apply fmap_Some in H as (cfg & Hc & E).
  unfold governed. eapply bind_read; [exact Hc|]. by rewrite require_intro.
Qed.

Lemma update_reserve_refines a ts actor tx out (s s' : M) :
  s_ok a -> UpdateReserveState.Execute a ts actor tx s = (Ok out, s') ->
  update_reserve a actor (abs (contents s)) ≡ Some (abs (contents s')).
Proof.
  intros Ha H. apply update_reserve_ok in H as [Hg ->]. apply governed_refines; [done|].
  constructor. by rewrite abs_backing.
Qed.

Lemma set_risk_refines a ts actor tx out (s s' : M) :
  s_ok a -> SetRiskParams.Execute a ts actor tx s = (Ok out, s') ->
  set_risk a actor (abs (contents s)) ≡ Some (abs (contents s')).
Proof.
  intros Ha H. apply set_risk_ok in H as (Hg & Hv & ->). apply governed_refines; [done|].
  rewrite require_intro by (by rewrite Hv). constructor. by rewrite abs_risk.
Qed.

Lemma set_proof_rules_refines a ts actor tx out (s s' : M) :
  s_ok a -> SetProofConfig.Execute a ts actor tx s = (Ok out, s') ->
  set_proof_rules a actor (abs (contents s)) ≡ Some (abs (contents s')).
Proof.
  intros Ha H. apply set_proof_config_ok in H as ((gov & Hg & Hact) & Hv & ->).
  apply governed_refines; [unfold governance; by rewrite Hg, Hact|].
  rewrite require_intro by (by rewrite Hv). constructor. by rewrite abs_proof_rules.
Qed.

Lemma open_market_refines a ts actor tx out (s s' : M) :
  s_ok a -> CreateMarket.Execute a ts actor tx s = (Ok out, s') ->
  open_market a actor (abs (contents s)) ≡ Some (abs (contents s')).
Proof.
  intros Ha H. pose proof (create_market_args _ _ _ _ _ _ _ H) as Hq. apply create_market_ok in H as (Hn & Hok & Hbal & Ho & Ht & Hb & ->); [|done].
  unfold open_market. change (market (desk (abs ?m)) ?id) with (market_at m id).
  unfold market_at at 1, stored. rewrite Hn. rewrite require_intro by done.
  eapply bind_step; [apply post_veil_set; [|exact Hbal]; lia|]. intros t ->.
  constructor. by rewrite abs_market.
Qed.

Lemma active_abs m id x :
  market_at m id = Some x -> Market.Status x = MarketStatusActive ->
  active id (abs m) = Some x.
Proof.
  intros Hx Hs. unfold active. change (market (desk (abs m)) id) with (market_at m id).
  rewrite Hx. by apply require_intro.
Qed.

Lemma resolve_refines a ts actor tx out (s s' : M) :
  s_ok a -> ResolveMarket.Execute a ts actor tx s = (Ok out, s') ->
  resolve a (abs (contents s)) ≡ Some (abs (contents s')).
Proof.
  intros Ha H. pose proof (resolve_market_args _ _ _ _ _ _ _ H). apply resolve_market_ok in H as (x & Hx & _ & Hs & Ho & Hok & ->); [|done].
  unfold resolve. eapply bind_read; [by apply active_abs|]. rewrite require_intro by done.
  constructor. by rewrite abs_market.
Qed.

Lemma dispute_refines a ts actor tx out (s s' : M) :
  s_ok a -> Dispute.Execute a ts actor tx s = (Ok out, s') ->
  dispute a actor (abs (contents s)) ≡ Some (abs (contents s')).
Proof.
  intros Ha H. pose proof (dispute_args _ _ _ _ _ _ _ H). apply dispute_ok in H as (x & Hx & _ & Hs & Hpos & Hbal & Hok & ->); [|done].
  unfold dispute. eapply bind_read; [exact Hx|]. rewrite require_intro by done.
  eapply bind_step; [apply post_veil_set; [|exact Hbal]; lia|]. intros t ->.
  constructor. cbn in Ha. destruct_and?.
  change (DisputeKey (Dispute.MarketID a)) with (OracleKey (Dispute.MarketID a) dispute_slot).
  by rewrite abs_share, abs_market by done.
Qed.

Lemma commit_order_refines e a ts actor tx out (s s' : M * zkMetricsCollector) :
  s_ok a -> CommitOrder.Execute e a ts actor tx s = (Ok out, s') ->
  commit_order a actor (abs (contents s)) ≡ Some (abs (contents s')).
Proof.
  intros Ha H. pose proof (commit_order_args _ _ _ _ _ _ _ _ H).
  apply commit_order_ok in H as [(x & Hx & Hs) ->]. cbn in Ha.
  unfold commit_order. eapply bind_read; [by apply active_abs|]. rewrite require_intro by done.
  destruct_and?.   constructor. by rewrite abs_order.
Qed.

Lemma reveal_refines e a ts actor tx out (s s' : M * zkMetricsCollector) :
  s_ok a -> RevealBatch.Execute e a ts actor tx s = (Ok out, s') ->
  reveal a (abs (contents s)) ≡ Some (abs (contents s')).
Proof.
  intros Ha H. pose proof (reveal_args _ _ _ _ _ _ _ _ H).
  apply reveal_batch_ok in H as [(x & Hx & Hs) ->]. cbn in Ha.
  unfold reveal. eapply bind_read; [by apply active_abs|]. rewrite require_intro by done.
  destruct_and?.   constructor. by rewrite abs_share.
Qed.

(** ** Proofs *)

Lemma backed_abs vc cfg a m :
  u64 (ClearBatch.WindowID a) -> proof_backs vc cfg a m -> backed vc cfg a (abs m) = true.
Proof.
  intros Hw (r & proof & env & h & Hr & Hp & Hty & Hd & Hf & Hc & He & Hh & Hi & Hv).
  unfold backed.
  change (record (desk (abs m)) (?id, ?w)) with (require (u64 w) (proof_record m id w)).
  change (payload (desk (abs m)) (?id, ?w)) with (require (u64 w) (proof_payload m id w)).
  rewrite !require_intro, Hr, Hp, He, Hh, Hv by done.
  apply andb_true_iff. split; [|done]. by apply bool_decide_eq_true.
Qed.

Lemma clear_refines vc clk a ts actor tx out (s s' : M * zkMetricsCollector) :
  s_ok a -> ClearBatch.Execute vc clk a ts actor tx s = (Ok out, s') ->
  clear vc a actor (abs (contents s)) ≡ Some (abs (contents s')).
Proof.
  intros Ha H. apply clear_batch_ok in H as (x & cfg & Hx & Hs & Hc & Hp & Hf & Hreq & ->).
  cbn in Ha. destruct_and?.
  unfold clear. eapply bind_read; [by apply active_abs|]. eapply bind_read; [exact Hc|].
  rewrite !require_intro; [|by intros [? ?]%Hreq; split; [|apply backed_abs]|done].
  constructor. by rewrite abs_result.
Qed.

Lemma submit_refines vc clk a ts actor tx out (s s' : M * zkMetricsCollector) :
  s_ok a -> i64 ts -> SubmitBatchProof.Execute vc clk a ts actor tx s = (Ok out, s') ->
  submit vc a ts actor tx (abs (contents s)) ≡ Some (abs (contents s')).
Proof.
  intros Ha Hts H. apply submit_ok in H as (x & cfg & b & Hx & Hs & Hc & Hreq & Hact & Hty & Hpi
    & Hf & Hl & Hcl & Hwin & Hdl & Hv & Hnone & Hb & ->).
  unfold submit. eapply bind_read; [by apply active_abs|]. eapply bind_read; [exact Hc|].
  eapply bind_read; [exact Hb|].
  rewrite !require_intro; [|by rewrite Hv|done].
  match goal with |- context [record (desk (abs ?m)) (?id, ?w)] =>
    change (record (desk (abs m)) (id, w)) with (require (u64 w) (proof_record m id w)) end.
  rewrite require_intro by (cbn in Ha; tauto). unfold proof_record, stored. rewrite Hnone.
  constructor. by rewrite abs_submitted by (done || by eapply bloodsworn_ok).
Qed.
End actions.

(** ** The pool *)

Section pool_actions.
Context {PF : Platform} {PS : PlatformSpec} {M : Type} {MU : Mutable M} {MS : MutableSpec M}.
Context {TX : Text}.
Implicit Types (m : gmap bytes bytes) (s : M * zkMetricsCollector).

Lemma lp_key_owner a b c d x y : LPBalanceKey a b x = LPBalanceKey c d y -> x = y.
Proof.
  unfold LPBalanceKey. destruct (sortedAssetPair a b) as [a' b'], (sortedAssetPair c d) as [c' d'].
  intros H%(f_equal tail). cbn [tail] in H.
  do 2 (apply app_inj_1 in H as [_ H]; [|by rewrite !length_be]).
  by apply array_app_inj in H as [-> _].
Qed.

(** Only the pool and the balances of [actor] may differ. *)
Definition settled_for (actor : Address) m m' : Prop :=
  forall k, k <> BalanceKey actor -> k <> VAIBalanceKey actor ->
    (forall a b, k <> PoolKey a b) -> (forall a b, k <> LPBalanceKey a b actor) ->
    m' !! k = m !! k.

Lemma create_pool_refines a ts actor tx out (s s' : M * zkMetricsCollector) :
  s_ok a -> CreatePool.Execute a ts actor tx s = (Ok out, s') ->
  create_pool a actor (abs (contents s)) ≡ Some (abs (contents s')).
Proof.
  intros Ha H. pose proof (create_pool_args _ _ _ _ _ _ _ H). apply create_pool_ok in H as ((cfg & Hc & Hact) & Hn & Hwf & _ & Hp & E); [|done].
  rewrite E in *. unfold create_pool.
  apply governed_refines; [unfold governance; by rewrite Hc, Hact|].
  change (pool (economy (abs ?m))) with (pool_at m). unfold pool_at at 1, stored. rewrite Hn.
  rewrite require_intro by (split; [done|apply Hwf]). constructor. by rewrite abs_pool.
Qed.

(** The pool after a step. *)
Lemma pool_step_next m m' actor p p' d0 d1 dl :
  pool_step m m' actor p p' d0 d1 dl -> pool_wf p ->
  p' = Pool.mk (Pool.Asset0 p) (Pool.Asset1 p) (Pool.FeeBips p) (Pool.Reserve0 p - d0)
         (Pool.Reserve1 p - d1) (Pool.TotalLP p + dl).
Proof.
  intros [] (E0 & E1 & _). destruct ps_wf as (E0' & E1' & _). destruct p, p'. cbn in *. congruence.
Qed.

Lemma cell_same m m' k : m' !! k = m !! k -> cell m' k = cell m k.
Proof. unfold cell. by intros ->. Qed.

Lemma settled_desk actor m m' : settled_for actor m m' -> abs_desk m ≡ abs_desk m'.
Proof.
  intros F. constructor; intros i; cbn [market order share result record payload glyph standing
    abs_desk]; repeat case_match; unfold market_at, proof_record, proof_payload, glyph_at,
    bloodsworn_at, stored; by rewrite F by (intros; key_ne).
Qed.

Lemma settled_rules actor m m' : settled_for actor m m' -> abs_rules m = abs_rules m'.
Proof.
  intros F. unfold abs_rules. f_equal; unfold vai_config, fee_config, risk_config,
    treasury_config, proof_config, stored; by rewrite F by (intros; key_ne).
Qed.

Lemma settled_economy actor m m' p' :
  settled_for actor m m' -> pool_at m' = Some p' -> with_pool (Some p') (abs_economy m) = abs_economy m'.
Proof.
  intros F Hp. unfold with_pool, abs_economy. cbn [issued fees backing treasury]. rewrite Hp.
  f_equal; unfold vai_state, fee_state, reserve_state, treasury_state, stored;
    by rewrite F by (intros; key_ne).
Qed.

Lemma settle_refines m m' actor p p' d0 d1 dl :
  pool_inv m -> pool_step m m' actor p p' d0 d1 dl -> settled_for actor m m' ->
  settle actor p d0 d1 dl (abs m) ≡ Some (abs m').
Proof.
  intros Hinv Hst F. pose proof Hinv as Hp. unfold pool_inv in Hp.
  rewrite (ps_before _ _ _ _ _ _ _ _ Hst) in Hp. destruct Hp as [Hwf _].
  pose proof (pool_step_next _ _ _ _ _ _ _ _ Hst Hwf) as Hnext.
  pose proof (pool_step_inv _ _ _ _ _ _ _ _ Hst Hinv) as Hinv'. unfold pool_inv in Hinv'.
  rewrite (ps_after _ _ _ _ _ _ _ _ Hst) in Hinv'. destruct Hinv' as [_ Hlp].
  destruct Hst as [_ Hafter Hok _ _ _ _ _ _ _ _ Hc0 Hc1 Hcl Hu0 Hu1].
  assert (Hul : u64 (cell m' (LPBalanceKey AssetVEIL AssetVAI actor))).
  { pose proof (cell_le_total lpBalancePrefix m' (LPBalanceKey AssetVEIL AssetVAI actor) eq_refl).
    destruct Hok as (_ & _ & _ & _ & _ & Hl). unfold u64 in *. rewrite Hlp in *.
    split; [|lia]. unfold cell. destruct (_ !! _); cbn; [apply unbe_range|done]. }
  unfold settle. rewrite <-Hnext. rewrite require_intro by done.
  rewrite Hc0 in Hu0. rewrite Hc1 in Hu1. rewrite Hcl in Hul.
  unfold post_veil, post_vai, post_lp.
  rewrite require_intro by exact Hu0. cbn [mbind option_bind].
  rewrite require_intro by exact Hu1. cbn [mbind option_bind].
  rewrite require_intro by exact Hul. cbn [mbind option_bind].
  constructor. split_and!.
  - constructor; intros y; cbn [on_economy on_accounts accounts economy veil vai lp abs abs_accounts];
      unfold upd; case_decide; subst; try done;
      symmetry; apply cell_same, F; intros; try key_ne; try same_family;
      intros E%lp_key_owner; by subst.
  - by eapply settled_economy.
  - by eapply settled_rules.
  - by eapply settled_desk.
Qed.

(** The keys the action declares for writing are the pool's and the actor's. *)
Ltac only_settled H Hinv :=
  intros k H1 H2 H3 H4; apply (execute_frame _ _ _ _ _ _ _ _ _ Hinv H); cbn [StateKeys];
  unfold_keys; apply undeclared_intro; cbn [In]; intros ? Hin;
  repeat match type of Hin with _ \/ _ => destruct Hin as [Hin|Hin] end; try done;
  apply pair_equal_spec in Hin as [Hk _]; exfalso;
  first [ by apply H1 | by apply H2 | by eapply H3 | by eapply H4 ].

Lemma add_liquidity_refines env a ts actor tx out s s' :
  s_ok a -> pool_inv (contents s) ->
  Execute env (AAddLiquidity a) ts actor tx s = (Ok out, s') ->
  add_liquidity a actor (abs (contents s)) ≡ Some (abs (contents s')).
Proof.
  intros Ha Hinv H.
  assert (F : settled_for actor (contents s) (contents s')) by only_settled H Hinv.
  cbn [Execute] in H. destruct (add_liquidity_pool _ _ _ _ _ _ _ Hinv H) as (p & Hp & Hwf & _).
  pose proof (add_liquidity_args _ _ _ _ _ _ _ p Ha Hp Hwf H).
  apply (add_liquidity_ok _ _ _ _ _ _ _ p) in H as (Hx & Hy & Hl & Hm & _ & p' & Hst); [|done..].
  unfold add_liquidity. eapply bind_read; [exact Hp|]. rewrite !require_intro by done.
  by eapply settle_refines.
Qed.

Lemma remove_liquidity_refines env a ts actor tx out s s' :
  s_ok a -> pool_inv (contents s) ->
  Execute env (ARemoveLiquidity a) ts actor tx s = (Ok out, s') ->
  remove_liquidity a actor (abs (contents s)) ≡ Some (abs (contents s')).
Proof.
  intros Ha Hinv H.
  assert (F : settled_for actor (contents s) (contents s')) by only_settled H Hinv.
  cbn [Execute] in H. destruct (remove_liquidity_pool _ _ _ _ _ _ _ Hinv H) as (p & Hp & Hwf & _).
  pose proof (remove_liquidity_args _ _ _ _ _ _ _ H).
  apply (remove_liquidity_ok _ _ _ _ _ _ _ p) in H
    as (Hl & _ & _ & Hx & Hy & Hm0 & Hm1 & _ & p' & Hst); [|done..].
  unfold remove_liquidity. eapply bind_read; [exact Hp|]. rewrite require_intro by done.
  by eapply settle_refines.
Qed.

Lemma swap_refines env a ts actor tx out s s' :
  s_ok a -> pool_inv (contents s) ->
  Execute env (ASwapExactIn a) ts actor tx s = (Ok out, s') ->
  swap a actor (abs (contents s)) ≡ Some (abs (contents s')).
Proof.
  intros Ha Hinv H.
  assert (F : settled_for actor (contents s) (contents s')) by only_settled H Hinv.
  cbn [Execute] in H. destruct (swap_pool _ _ _ _ _ _ _ Hinv H) as (p & Hp & Hwf & _).
  apply (swap_ok _ _ _ _ _ _ _ p) in H
    as (Hio & Hn & Hf & Hi & Ho & Hpos & Hmin & p' & Hst); [|done..].
  unfold swap. eapply bind_read; [exact Hp|]. rewrite !require_intro by done.
  destruct (_ =? _); by eapply settle_refines.
Qed.
End pool_actions.

(** ** Events and runs *)

Section runs.
Context {PF : Platform} {PS : PlatformSpec} {M : Type} {MU : Mutable M} {MS : MutableSpec M}.
Context {TX : Text}.
Implicit Types (s : M * zkMetricsCollector).

Lemma fee_refines sponsor amount s s' :
  u64 amount -> BalanceHandler.Deduct sponsor amount s = (Ok tt, s') ->
  post_veil sponsor (- amount) (abs (contents s)) ≡ Some (abs (contents s')).
Proof.
  intros Ha H. unfold BalanceHandler.Deduct, SubBalance in H. go_inv. repeat op_step.
  match goal with C : contents s' = _ |- _ => rewrite C end.
  apply post_veil_set; [lia|done].
Qed.

Lemma step_refines e s s' :
  chain_step e s s' -> pool_inv (contents s) ->
  apply e (abs (contents s)) ≡ Some (abs (contents s')).
Proof.
  intros Hst Hinv. destruct Hst as [env act ts actor tx out s s' Ha Hts H
    |sponsor amount s s' Ha H|s s' E]; cbn [apply].
  - destruct act; cbn [perform action_ok] in *;
      [ cbn [Execute] in H; by eapply transfer_refines
      | cbn [Execute] in H; by eapply open_market_refines
      | cbn [Execute] in H; by eapply commit_order_refines
      | cbn [Execute] in H; by eapply reveal_refines
      | cbn [Execute] in H; by eapply clear_refines
      | cbn [Execute] in H; by eapply resolve_refines
      | cbn [Execute] in H; by eapply dispute_refines
      | cbn [Execute] in H; by eapply route_fees_refines
      | cbn [Execute] in H; by eapply release_refines
      | cbn [Execute] in H; by eapply mint_refines
      | cbn [Execute] in H; by eapply burn_refines
      | cbn [Execute] in H; by eapply create_pool_refines
      | by eapply add_liquidity_refines
      | by eapply remove_liquidity_refines
      | by eapply swap_refines
      | cbn [Execute] in H; by eapply update_reserve_refines
      | cbn [Execute] in H; by eapply set_risk_refines
      | cbn [Execute] in H; by eapply submit_refines
      | cbn [Execute] in H; by eapply set_proof_rules_refines ].
  - by apply fee_refines.
  - by rewrite E.
Qed.

Lemma run_refines es s s' :
  chain_run es s s' -> pool_inv (contents s) ->
  apply_all es (abs (contents s)) ≡ Some (abs (contents s')).
Proof.
  induction 1 as [s|e es s s1 s' Hst _ IH]; intros Hinv; [done|].
  cbn [apply_all]. eapply bind_step; [by apply step_refines|]. intros t ->.
  apply IH. by eapply step_pool_inv.
Qed.

(** C3: the chain implements the reference machine: whatever run of events the
    chain accepts, the reference machine accepts it too, event by event, and
    ends in the state that the chain's database reads as. *)
Theorem chain_refines_reference es s s' :
  pool_inv (contents s) -> chain_run es s s' ->
  apply_all es (abs (contents s)) ≡ Some (abs (contents s')).
Proof. intros Hinv Hrun. by apply run_refines. Qed.

(** C16: nobody loses funds to others: along every run, an account that signs
    none of the actions and sponsors none of the fees ends with at least the
    VEIL, the VAI and the pool tokens it started with. *)
Theorem unsigned_funds_safe es s s' x :
  pool_inv (contents s) -> chain_run es s s' -> Forall (fun e => ~ charges x e) es ->
  cell (contents s) (BalanceKey x) <= cell (contents s') (BalanceKey x) /\
  cell (contents s) (VAIBalanceKey x) <= cell (contents s') (VAIBalanceKey x) /\
  cell (contents s) (LPBalanceKey AssetVEIL AssetVAI x)
    <= cell (contents s') (LPBalanceKey AssetVEIL AssetVAI x).
Proof.
  intros Hinv Hrun Hes. pose proof (run_refines _ _ _ Hrun Hinv) as H.
  inversion H as [t u Htu Ht Hu|]. destruct Htu as (HA & _).
  symmetry in Ht. apply (apply_all_keeps x) in Ht as (H1 & H2 & H3); [|done].
  rewrite (eq_veil _ _ HA) in H1. rewrite (eq_vai _ _ HA) in H2. rewrite (eq_lp _ _ HA) in H3.
  done.
Qed.
End runs.

(** ** Two nodes *)

(** The same event at two nodes, whose clocks may differ. *)
Definition same_event (e e' : Event) : Prop :=
  match e, e' with
  | EAction env act ts actor tx, EAction env' act' ts' actor' tx' =>
      env_verifier env = env_verifier env' /\ (act, ts, actor, tx) = (act', ts', actor', tx')
  | EAction _ _ _ _ _, _ | _, EAction _ _ _ _ _ => False
  | _, _ => e = e'
  end.

Section nodes.
Context {PF : Platform} {PS : PlatformSpec} {TX : Text}.
Context {M : Type} {MU : Mutable M} {MS : MutableSpec M}.
Context {N : Type} {NU : Mutable N} {NS : MutableSpec N}.

Lemma apply_same e e' s : same_event e e' -> apply e s = apply e' s.
Proof.
  destruct e as [env act ts actor tx| |], e' as [env' act' ts' actor' tx'| |]; cbn [same_event];
    try done; try congruence.
  intros [Hv [= <- <- <- <-]]. cbn [apply]. unfold perform. by rewrite Hv.
Qed.

Lemma apply_all_same es es' s : Forall2 same_event es es' -> apply_all es s = apply_all es' s.
Proof.
  intros H. revert s. induction H as [|e e' es es' He _ IH]; intros s; [done|].
  cbn [apply_all]. rewrite (apply_same _ _ _ He). destruct (apply e' s); [apply IH|done].
Qed.

(** C17: nodes stay in agreement: two nodes, whatever their databases, metrics
    and clocks, that read the same state and apply the same events under
    verifiers that agree read the same state afterwards. *)
Theorem nodes_agree es es' (s s' : M * zkMetricsCollector) (t t' : N * zkMetricsCollector) :
  pool_inv (contents s) -> pool_inv (contents t) ->
  chain_run es s s' -> chain_run es' t t' -> Forall2 same_event es es' ->
  abs (contents s) ≡ abs (contents t) -> abs (contents s') ≡ abs (contents t').
Proof.
  intros Hs Ht Hrs Hrt Hes E.
  pose proof (run_refines _ _ _ Hrs Hs) as H1. pose proof (run_refines _ _ _ Hrt Ht) as H2.
  rewrite (apply_all_same _ _ _ Hes), E, H2 in H1. by inversion H1.
Qed.
End nodes.

(** ** Evaluations *)

Module Samples.
Export Ledger.Samples.
(** Alice pays Bob and mints to him. *)
Definition gifts : list Event :=
  [act (ATransfer (Transfer.mk bob 40 [])); act (AMintVAI (MintVAI.mk bob 40)); EFee alice 7].
Definition given : Store * zkMetricsCollector := final (run_events gifts) start.
(** The same events at a node with another clock and smaller metrics. *)
Definition start' : Store * zkMetricsCollector := (start.1, newZKMetricsCollector 3).
Definition act' (x : ChainAction) : Event :=
  EAction (mk_env initial_verifier (mk_clock 5 6 7)) x 1000 alice no_tx.
Definition gifts' : list Event :=
  [act' (ATransfer (Transfer.mk bob 40 [])); act' (AMintVAI (MintVAI.mk bob 40)); EFee alice 7].
Definition given' : Store * zkMetricsCollector := final (run_events gifts') start'.
End Samples.
Import Samples.

Lemma gifts_run : chain_run gifts start given.
Proof. apply evaluated_run; [events_ok | vm_compute; reflexivity]. Qed.
Lemma gifts_run' : chain_run gifts' start' given'.
Proof. apply evaluated_run; [events_ok | vm_compute; reflexivity]. Qed.

(** The reference machine computes: Bob receives 40, mints included, and pays 5. *)
Example reference_runs :
  (fun t => (veil (accounts t) bob, vai (accounts t) bob)) <$> apply_all events (abs (contents start))
  = Some (35, 40).
Proof. vm_compute. reflexivity. Qed.

Lemma chain_refines_reference_witness :
  apply_all events (abs (contents start)) ≡ Some (abs (contents finish)).
Proof. exact (chain_refines_reference events start finish start_inv sample_run). Defined.

Lemma unsigned_funds_safe_witness :
  cell (contents start) (BalanceKey bob) <= cell (contents given) (BalanceKey bob).
Proof.
  assert (He : Forall (fun e => ~ charges bob e) gifts).
  { repeat (apply Forall_cons_2; [by vm_compute|]). apply Forall_nil_2. }
  exact (proj1 (unsigned_funds_safe gifts start given bob start_inv gifts_run He)).
Defined.

Lemma nodes_agree_witness : abs (contents given) ≡ abs (contents given').
Proof.
  assert (He : Forall2 same_event gifts gifts') by (repeat constructor).
  exact (nodes_agree gifts gifts' start given start' given' start_inv start_inv
           gifts_run gifts_run' He (reflexivity _)).
Defined.
