(* ===== verification/GenesisFacts.v ===== *)
(** * From genesis on

    What the tokenomics defaults make of a sparse file, what a successful
    initialization leaves in an empty chain, and what holds from there along
    every run: VEIL adds up to the total supply, VAI to its debt, and the debt
    stays under the ceiling written at genesis. *)
From S2P Require Import Prelude Errors Go Platform Storage Concrete Balance Action AmmMath.
From S2P Require Import Transfer ProofEnvelope Pools PoolFacts Vai VaiFacts Treasury.
From S2P Require Import TreasuryFacts Metrics Markets Proofs MarketFacts ProofFacts Chain.
From S2P Require Import Footprint Ledger Lifecycle Authority Genesis.

(** ** Allocations *)

(** A JSON list holds no nil pointer and amounts in range. *)
Definition alloc_ok (p : option CustomAllocation) : Prop :=
  match p with Some a => u64 (alloc_Balance a) | None => False end.

Definition alloc_total (l : list (option CustomAllocation)) : Z :=
  foldr (fun p acc => from_option alloc_Balance 0 p + acc) 0 l.

(** What the list allocates to one address, and the addresses it names. *)
Definition allocated (x : Address) (l : list (option CustomAllocation)) : Z :=
  foldr (fun p acc => match p with
                      | Some a => if bool_decide (alloc_Address a = x) then alloc_Balance a + acc
                                  else acc
                      | None => acc
                      end) 0 l.
Definition alloc_addresses (l : list (option CustomAllocation)) : list Address :=
  omap (fmap alloc_Address) l.

Section validation.
Context {PF : Platform} {PS : PlatformSpec}.

Lemma sum_allocations_ok l acc r :
  u64 acc -> Forall alloc_ok l -> sum_allocations acc l = Ok r -> r = acc + alloc_total l /\ u64 r.
Proof.
  intros Hacc Hl. revert acc Hacc. induction Hl as [|[a|] l Ha _ IH]; intros acc Hacc H; [|..|done].
  - injection H as <-. cbn. split; [lia|done].
  - cbn [sum_allocations deref obind] in H. cbn [alloc_ok] in Ha. go_inv. smath_step.
    destruct (IH _ U H) as [-> Hr]. unfold alloc_total. cbn. split; [lia|done].
Qed.

(** What a validated section satisfies. *)
Record tokenomics_valid (l : list (option CustomAllocation)) (x : Tokenomics.t) : Prop := {
  tv_fees : Tokenomics.FeeRouterMSRBBips x + Tokenomics.FeeRouterCOLBips x
            + Tokenomics.FeeRouterOpsBips x = bipsDenominator;
  tv_limit : 0 < Tokenomics.VAIEpochMintLimit x <= Tokenomics.VAIDebtCeiling x;
  tv_release : 0 < Tokenomics.MaxReleaseBips x <= bipsDenominator;
  tv_epochs : 0 < Tokenomics.ReleaseEpochSeconds x /\ 0 < Tokenomics.VAIMintEpochSeconds x;
  tv_supply : Tokenomics.TotalSupply x <> 0 ->
    alloc_total l + Tokenomics.COLVaultLocked x + Tokenomics.COLVaultLive x
    = Tokenomics.TotalSupply x
}.

Lemma validateTokenomics_ok l x u :
  Tokenomics.ok x -> Forall alloc_ok l -> validateTokenomics l (Some x) = Ok u ->
  tokenomics_valid l x.
Proof.
  intros Hx Hl H. unfold Tokenomics.ok in Hx. destruct_and?. unfold validateTokenomics in H.
  go_inv. match goal with S : sum_allocations _ _ = Ok _ |- _ =>
    apply sum_allocations_ok in S as [-> Hs]; [|unfold u64; lia|done] end.
  repeat smath_step. subst. unfold u64, u16 in *.
  constructor; lia.
Qed.
End validation.

(** ** The initial state *)

Section initial.
Context {PF : Platform} {PS : PlatformSpec} {M : Type} {MU : Mutable M} {MS : MutableSpec M}.

(** Crediting touches balances only, and adds exactly the allocations. *)
Lemma credit_ok l (s s' : M) :
  Forall alloc_ok l -> credit l s = (Ok tt, s') ->
  prefix_total balancePrefix (contents s')
    = prefix_total balancePrefix (contents s) + alloc_total l /\
  (forall j, 0 < j <= 20 ->
     prefix_total (prefix j) (contents s') = prefix_total (prefix j) (contents s)) /\
  forall k, head k <> Some balancePrefix -> contents s' !! k = contents s !! k.
Proof.
  intros Hl. revert s. induction Hl as [|[a|] l Ha _ IH]; intros s H; [..|done].
  - injection H as <-. cbn. split_and!; [lia|done..].
  - cbn [credit deref alloc_ok] in *. unfold BalanceHandler.AddBalance, AddBalance in H.
    go_inv. repeat op_step. destruct (IH _ H) as (H1 & H2 & H3).
    match goal with E : contents _ = <[_ := _]> _ |- _ => rewrite E in H1, H2, H3 end.
    split_and!.
    + rewrite H1. reads. unfold alloc_total. cbn. lia.
    + intros j Hj. rewrite H2, prefix_total_insert_other; [done| |done].
      apply (head_slot_ne (SBalance _) j); cbn; lia.
    + intros k Hk. rewrite H3 by done. apply lookup_insert_ne. intros <-. by destruct Hk.
Qed.

Lemma allocated_cons x a l :
  allocated x (Some a :: l)
  = (if bool_decide (alloc_Address a = x) then alloc_Balance a else 0) + allocated x l.
Proof. unfold allocated. cbn [foldr]. by destruct (bool_decide _). Qed.

Lemma allocated_none x l : x ∉ alloc_addresses l -> allocated x l = 0.
Proof.
  induction l as [|[a|] l IH]; intros Hx; [done|..|by apply IH].
  change (x ∉ alloc_Address a :: alloc_addresses l) in Hx.
  apply not_elem_of_cons in Hx as [Hne Hx]. rewrite allocated_cons, IH by done.
  by rewrite bool_decide_false by congruence.
Qed.

(** Every address gets what the list allocates to it, and no other cell changes. *)
Lemma credit_cells l (s s' : M) :
  Forall alloc_ok l -> credit l s = (Ok tt, s') ->
  (forall x, contents s' !! BalanceKey x =
     if bool_decide (x ∈ alloc_addresses l)
     then Some (be 8 (cell (contents s) (BalanceKey x) + allocated x l))
     else contents s !! BalanceKey x) /\
  (forall x, x ∈ alloc_addresses l -> u64 (cell (contents s) (BalanceKey x) + allocated x l)) /\
  forall k, (forall x, k <> BalanceKey x) -> contents s' !! k = contents s !! k.
Proof.
  intros Hl. revert s. induction Hl as [|[a|] l Ha _ IH]; intros s H; [|..|done].
  { injection H as <-. split_and!; [done| |done]. by intros x ?%not_elem_of_nil. }
  cbn [credit deref alloc_ok] in *. unfold BalanceHandler.AddBalance, AddBalance in H.
  go_inv. repeat op_step. destruct (IH _ H) as (H1 & H3 & H2).
  match goal with E : contents _ = <[_ := _]> _ |- _ => rewrite E in H1, H2, H3 end.
  split_and!; [intros x; rewrite H1, allocated_cons| |
    intros k Hk; rewrite H2 by done; by apply lookup_insert_ne].
  2: { intros x Hin. specialize (H3 x). rewrite allocated_cons.
       change (x ∈ alloc_Address r :: alloc_addresses l) in Hin. revert H3.
       destruct (decide (alloc_Address r = x)) as [<-|Hne].
       - rewrite cell_insert by done. intros H3. rewrite (bool_decide_true (_ = _)) by done.
         destruct (decide (alloc_Address r ∈ alloc_addresses l)) as [Hx|Hx].
         + specialize (H3 Hx). unfold u64 in *. lia.
         + rewrite allocated_none by done. unfold u64 in *. lia.
       - rewrite cell_insert_ne by (intros HK;
           by apply (slot_key_inj (SBalance _) (SBalance _)) in HK as [= ?]).
         rewrite (bool_decide_false (_ = x)) by done. intros H3. apply H3. set_solver. }
  change (alloc_addresses (Some r :: l)) with (alloc_Address r :: alloc_addresses l).
  rewrite (bool_decide_ext (x ∈ _ :: _) _ (elem_of_cons _ _ _)).
  destruct (decide (alloc_Address r = x)) as [<-|Hne].
  - rewrite cell_insert, lookup_insert_eq by done. rewrite !(bool_decide_true (_ = _)) by done.
    rewrite (bool_decide_true (_ \/ _)) by auto. case_bool_decide as Hx; do 2 f_equal; [lia|].
    rewrite allocated_none by done. lia.
  - assert (BalanceKey (alloc_Address r) <> BalanceKey x).
    { intros HK. by apply (slot_key_inj (SBalance _) (SBalance _)) in HK as [= ?]. }
    rewrite cell_insert_ne, lookup_insert_ne by done. rewrite (bool_decide_false (_ = x)) by done.
    rewrite (bool_decide_ext (_ \/ _) (x ∈ alloc_addresses l)) by naive_solver.
    by rewrite Z.add_0_l.
Qed.

Definition treasury_config_of (x : Tokenomics.t) : TreasuryConfig.t :=
  TreasuryConfig.mk (Tokenomics.Governance x) (Tokenomics.Operations x)
    (Tokenomics.MaxReleaseBips x) (Tokenomics.ReleaseEpochSeconds x).
Definition vault_of (x : Tokenomics.t) : TreasuryState.t :=
  TreasuryState.mk (Tokenomics.COLVaultLocked x) (Tokenomics.COLVaultLive x) 0 0.
Definition fee_config_of (x : Tokenomics.t) : FeeRouterConfig.t :=
  FeeRouterConfig.mk (Tokenomics.FeeRouterMSRBBips x) (Tokenomics.FeeRouterCOLBips x)
    (Tokenomics.FeeRouterOpsBips x).
Definition vai_config_of (x : Tokenomics.t) : VAIConfig.t :=
  VAIConfig.mk (Tokenomics.MintAuthority x) (Tokenomics.VAIDebtCeiling x)
    (Tokenomics.VAIEpochMintLimit x) (Tokenomics.VAIMintEpochSeconds x).
Definition risk_config_of (x : Tokenomics.t) : RiskConfig.t :=
  RiskConfig.mk (Tokenomics.BackingFloorBips x) (Tokenomics.VEILLtvBips x)
    (Tokenomics.WVEILLtvBips x) (Tokenomics.WSVEILLtvBips x) (Tokenomics.VEILHaircutBips x)
    (Tokenomics.WVEILHaircutBips x) (Tokenomics.WSVEILHaircutBips x).
Definition reserve_of (x : Tokenomics.t) : ReserveState.t :=
  ReserveState.mk (Tokenomics.ExogenousReserveInit x) (Tokenomics.VAIBufferInit x).
Definition genesis_proof_config (x : Tokenomics.t) : ProofConfig.t :=
  ProofConfig.mk (Tokenomics.RequireBatchProof x) (Tokenomics.RequiredProofType x)
    (Tokenomics.BatchWindowMs x) (Tokenomics.ProofDeadlineMs x) (Tokenomics.ProverAuthority x).

(** The nine records genesis writes over the credited balances. *)
Definition genesis_cells (x : Tokenomics.t) (m : gmap bytes bytes) : gmap bytes bytes :=
  <[ProofConfigKey := ProofConfig.encode (genesis_proof_config x)]>
  (<[ReserveStateKey := ReserveState.encode (reserve_of x)]>
  (<[RiskConfigKey := RiskConfig.encode (risk_config_of x)]>
  (<[VAIStateKey := VAIState.encode (VAIState.mk 0 0 0)]>
  (<[VAIConfigKey := VAIConfig.encode (vai_config_of x)]>
  (<[FeeRouterStateKey := FeeRouterState.encode (FeeRouterState.mk 0 0 0)]>
  (<[FeeRouterConfigKey := FeeRouterConfig.encode (fee_config_of x)]>
  (<[TreasuryStateKey := TreasuryState.encode (vault_of x)]>
  (<[TreasuryConfigKey := TreasuryConfig.encode (treasury_config_of x)]> m)))))))).

Context {Rules : Type} {DG : DefaultGenesis (M := M) Rules}.

Lemma initialize_ok (g : Genesis.t Rules) x (s s' : M) :
  Tokenomics.ok x -> Forall alloc_ok (Genesis.CustomAllocations g) ->
  Genesis.GTokenomics g = Some x -> InitializeState g s = (Ok tt, s') ->
  exists s1, credit (Genesis.CustomAllocations g) s = (Ok tt, s1) /\
    tokenomics_valid (Genesis.CustomAllocations g) x /\
    RiskConfig.validateRiskConfig (risk_config_of x) = Ok tt /\
    ProofConfig.validateProofConfig (genesis_proof_config x) = Ok tt /\
    contents s' = genesis_cells x (contents s1).
Proof.
  intros Hx Hl Hg H. unfold InitializeState in H. rewrite Hg in H. go_step. destruct r.
  apply base_credits in E. exists s0. split; [done|].
  go_step. apply lift_ok in E0 as [Hv ->].
  split; [by eapply validateTokenomics_ok|].
  go_inv. repeat store_step. repeat op_step.
  repeat match goal with u : unit |- _ => destruct u end.
  split_and!; try done. unfold genesis_cells.
  repeat match goal with E : contents _ = _ |- _ => rewrite E; clear E end. done.
Qed.
End initial.

(** ** Runs from genesis *)

Section from_genesis.
Context {PF : Platform} {PS : PlatformSpec}.

(** What holds after genesis and along every run from it. *)
Record genesis_inv (x : Tokenomics.t) (m : gmap bytes bytes) : Prop := {
  gi_pool : pool_inv m;
  gi_gap : vai_gap m = 0;
  gi_config : vai_config m = Some (vai_config_of x);
  gi_governance : governance m = Some (Tokenomics.Governance x);
  gi_ceiling : debt m <= Tokenomics.VAIDebtCeiling x;
  gi_vault : exists st, treasury_state m = Some st /\
    TreasuryState.Locked st + TreasuryState.Live st
    = Tokenomics.COLVaultLocked x + Tokenomics.COLVaultLive x
}.

Context {M : Type} {MU : Mutable M} {MS : MutableSpec M} {TX : Text}.
Implicit Types (s : M * zkMetricsCollector).

Ltac framed H Hinv :=
  apply (execute_frame _ _ _ _ _ _ _ _ _ Hinv H); cbn [StateKeys]; unfold_keys; undeclared.

(** Only a mint raises the debt, and not above the ceiling. *)
Lemma step_ceiling e s s' cfg :
  chain_step e s s' -> pool_inv (contents s) -> vai_config (contents s) = Some cfg ->
  debt (contents s) <= VAIConfig.DebtCeiling cfg ->
  debt (contents s') <= VAIConfig.DebtCeiling cfg.
Proof.
  intros Hst Hinv Hcfg Hd.
  assert (Hsame : contents s' !! VAIStateKey = contents s !! VAIStateKey ->
                  debt (contents s') <= VAIConfig.DebtCeiling cfg).
  { intros Hk. unfold debt, vai_state. by rewrite (stored_same _ (contents s) (contents s')). }
  destruct Hst as [env act ts actor tx out s s' Ha Hts H|sponsor amount s s' Ha H|s s' E].
  - destruct act; try (apply Hsame; by framed H Hinv); cbn [Execute action_ok] in *.
    + destruct (mint_ok _ _ _ _ _ _ _ Ha Hts H) as (c & st & risk & res & Hc & _ & _ & _ & Hm).
      destruct (MintVAI.roll_epoch _ _ _).
      destruct Hm as (_ & _ & _ & Hle & _ & Hok & _ & ->).
      assert (c = cfg) as -> by congruence.
      unfold debt, vai_state. by stored_put.
    + destruct (burn_ok _ _ _ _ _ _ _ Ha H) as (st & Hs & Hamt & _ & Hok & ->).
      unfold debt in *. rewrite Hs in Hd. unfold vai_state. stored_put; [|done]. cbn in *. lia.
  - apply Hsame. destruct (fee_cells _ _ _ _ Ha H) as [n ->]. by reads.
  - apply Hsame. by rewrite E.
Qed.

(** A release moves liquidity inside the vault; nothing else touches it. *)
Lemma step_vault e s s' st :
  chain_step e s s' -> pool_inv (contents s) -> treasury_state (contents s) = Some st ->
  exists st', treasury_state (contents s') = Some st' /\
    TreasuryState.Locked st' + TreasuryState.Live st'
    = TreasuryState.Locked st + TreasuryState.Live st.
Proof.
  intros Hst Hinv Hs.
  assert (Hsame : contents s' !! TreasuryStateKey = contents s !! TreasuryStateKey ->
    exists st', treasury_state (contents s') = Some st' /\
      TreasuryState.Locked st' + TreasuryState.Live st'
      = TreasuryState.Locked st + TreasuryState.Live st).
  { intros Hk. exists st. unfold treasury_state in *.
    by rewrite (stored_same _ (contents s) (contents s')). }
  destruct Hst as [env act ts actor tx out s s' Ha Hts H|sponsor amount s s' Ha H|s s' E].
  - destruct act; try (apply Hsame; by framed H Hinv); cbn [Execute action_ok] in *.
    apply release_ok in H as (cfg & st0 & _ & _ & Hs0 & _ & _ & _ & _ & Hok & ->); [|done].
    eexists. split.
    { unfold treasury_state. stored_put; [done|by apply Hok]. }
    cbn. assert (st0 = st) as -> by congruence. lia.
  - apply Hsame. destruct (fee_cells _ _ _ _ Ha H) as [n ->]. by reads.
  - apply Hsame. by rewrite E.
Qed.

Lemma step_genesis_inv e s s' x :
  chain_step e s s' -> genesis_inv x (contents s) -> genesis_inv x (contents s').
Proof.
  intros Hst [Hp Hg Hc Hgov Hd (st & Hs & Hsum)].
  destruct (step_books _ _ _ Hst Hp) as [Hp' _ Hg'].
  destruct (kept_config _ _ (step_config _ _ _ Hst Hp)) as [Egov Ecfg].
  destruct (step_vault _ _ _ _ Hst Hp Hs) as (st' & Hs' & Hsum').
  constructor; try congruence.
  - by eapply (step_ceiling _ _ _ _ Hst Hp Hc).
  - exists st'. split; [done|lia].
Qed.

Lemma run_genesis_inv es s s' x :
  chain_run es s s' -> genesis_inv x (contents s) -> genesis_inv x (contents s').
Proof.
  induction 1 as [|e es s s1 s' Hst _ IH]; intros H; [done|].
  by eapply IH, step_genesis_inv.
Qed.
End from_genesis.

Section state.
Context {PF : Platform} {PS : PlatformSpec} {M : Type} {MU : Mutable M} {MS : MutableSpec M}.
Context {TX : Text} {Rules : Type} {DG : DefaultGenesis (M := M) Rules}.

Definition genesis_keys : list bytes :=
  [TreasuryConfigKey; TreasuryStateKey; FeeRouterConfigKey; FeeRouterStateKey; VAIConfigKey;
   VAIStateKey; RiskConfigKey; ReserveStateKey; ProofConfigKey].

Lemma genesis_cells_reads x m :
  Tokenomics.ok x -> Tokenomics.FeeRouterMSRBBips x + Tokenomics.FeeRouterCOLBips x
                     + Tokenomics.FeeRouterOpsBips x = bipsDenominator ->
  RiskConfig.validateRiskConfig (risk_config_of x) = Ok tt ->
  ProofConfig.validateProofConfig (genesis_proof_config x) = Ok tt ->
  let m' := genesis_cells x m in
  treasury_config m' = Some (treasury_config_of x) /\
  treasury_state m' = Some (vault_of x) /\
  fee_config m' = Some (fee_config_of x) /\
  fee_state m' = Some (FeeRouterState.mk 0 0 0) /\
  vai_config m' = Some (vai_config_of x) /\
  vai_state m' = Some (VAIState.mk 0 0 0) /\
  risk_config m' = Some (risk_config_of x) /\
  reserve_state m' = Some (reserve_of x) /\
  proof_config m' = Some (genesis_proof_config x).
Proof.
  intros Hx Hfees Hr Hp. unfold Tokenomics.ok in Hx. destruct_and?.
  unfold genesis_cells, treasury_config, treasury_state, fee_config, fee_state, vai_config,
    vai_state, risk_config, reserve_state, proof_config.
  assert (0 <= 0 < 2 ^ 64) by done. assert (i64 0) by done.
  split_and!; reads; stored_put; done.
Qed.

Lemma genesis_cells_other x m k :
  k ∉ genesis_keys -> genesis_cells x m !! k = m !! k.
Proof.
  unfold genesis_keys, genesis_cells. rewrite !not_elem_of_cons. intros Hk. destruct_and?.
  by rewrite !lookup_insert_ne by congruence.
Qed.

Lemma genesis_prefix_total x m j :
  j = 0 \/ j = 11 \/ j = 13 -> prefix_total (prefix j) (genesis_cells x m) = prefix_total (prefix j) m.
Proof.
  intros Hj. unfold genesis_cells. rewrite !prefix_total_insert_other; [done|..];
    match goal with |- head ?k <> _ => let s := slot_of k in apply (head_slot_ne s j) end;
    cbn; lia.
Qed.

(** An empty chain has no balances. *)
Lemma empty_prefix_total p : prefix_total p ∅ = 0.
Proof. apply map_sum_empty. Qed.

Lemma initial_inv g x (s s' : M) :
  contents s = ∅ -> Tokenomics.ok x -> Forall alloc_ok (Genesis.CustomAllocations g) ->
  Genesis.GTokenomics g = Some x -> InitializeState g s = (Ok tt, s') ->
  genesis_inv x (contents s') /\
  veil_total (contents s') = alloc_total (Genesis.CustomAllocations g) /\
  tokenomics_valid (Genesis.CustomAllocations g) x.
Proof.
  intros Hs Hx Hl Hg H. destruct (initialize_ok _ _ _ _ Hx Hl Hg H) as (s1 & Hc & Hv & Hr & Hp & E).
  destruct (credit_ok _ _ _ Hl Hc) as (Htot & Hother & Hcells). rewrite Hs in Htot, Hother, Hcells.
  pose proof (genesis_cells_reads x (contents s1) Hx (tv_fees _ _ Hv) Hr Hp) as R.
  cbv zeta in R. rewrite <-E in R. destruct R as (R1 & R2 & _ & R4 & R5 & R6 & _).
  assert (Hnopool : contents s' !! PoolKey AssetVEIL AssetVAI = None).
  { rewrite E. unfold genesis_cells. reads.
    rewrite Hcells, lookup_empty; [done|]. apply (head_slot_ne (SPool _ _) 0); cbn; lia. }
  assert (Hpool : pool_at (contents s') = None) by (unfold pool_at, stored; by rewrite Hnopool).
  assert (Hlp : prefix_total lpBalancePrefix (contents s') = 0).
  { rewrite E. rewrite (genesis_prefix_total x _ 13) by lia.
    rewrite (Hother 13) by lia. apply empty_prefix_total. }
  assert (Hvai : prefix_total vaiBalancePrefix (contents s') = 0).
  { rewrite E. rewrite (genesis_prefix_total x _ 11) by lia.
    rewrite (Hother 11) by lia. apply empty_prefix_total. }
  assert (Hveil : prefix_total balancePrefix (contents s')
                  = alloc_total (Genesis.CustomAllocations g)).
  { rewrite E. change balancePrefix with (prefix 0) in *.
    rewrite (genesis_prefix_total x _ 0) by lia. rewrite Htot, empty_prefix_total. lia. }
  split_and!; [constructor|..|done].
  - unfold pool_inv. by rewrite Hpool.
  - unfold vai_gap, supply. rewrite Hpool, Hvai, R6. done.
  - done.
  - unfold governance, treasury_config in *. by rewrite R1.
  - unfold debt. rewrite R6. cbn. destruct Hv. lia.
  - by exists (vault_of x).
  - unfold veil_total, supply. rewrite Hpool, Hveil, R4. unfold budgets. cbn. lia.
Qed.

(** C19: a genesis that initializes an empty chain writes the balance of every
    address its list names, which is what the list allocates to it, and nine
    records, each of which reads back as configured, and no other cell: there
    is no other balance, market, pool, proof or VAI yet. The balances add up to
    the list, and when a total supply is declared, with the vault to that. *)
Theorem genesis_state g x (s s' : M) :
  contents s = ∅ -> Tokenomics.ok x -> Forall alloc_ok (Genesis.CustomAllocations g) ->
  Genesis.GTokenomics g = Some x -> InitializeState g s = (Ok tt, s') ->
  let m := contents s' in
  let l := Genesis.CustomAllocations g in
  treasury_config m = Some (treasury_config_of x) /\
  treasury_state m = Some (vault_of x) /\
  fee_config m = Some (fee_config_of x) /\
  fee_state m = Some (FeeRouterState.mk 0 0 0) /\
  vai_config m = Some (vai_config_of x) /\
  vai_state m = Some (VAIState.mk 0 0 0) /\
  risk_config m = Some (risk_config_of x) /\
  reserve_state m = Some (reserve_of x) /\
  proof_config m = Some (genesis_proof_config x) /\
  (forall y, m !! BalanceKey y =
     if bool_decide (y ∈ alloc_addresses l) then Some (be 8 (allocated y l)) else None) /\
  (forall y, cell m (BalanceKey y) = allocated y l) /\
  (forall k, k ∉ genesis_keys -> (forall y, k <> BalanceKey y) -> m !! k = None) /\
  prefix_total balancePrefix m = alloc_total l /\
  (Tokenomics.TotalSupply x <> 0 ->
   prefix_total balancePrefix m + Tokenomics.COLVaultLocked x + Tokenomics.COLVaultLive x
   = Tokenomics.TotalSupply x).
Proof.
  intros Hs Hx Hl Hg H m l.
  destruct (initialize_ok _ _ _ _ Hx Hl Hg H) as (s1 & Hc & Hv & Hr & Hp & E).
  destruct (credit_ok _ _ _ Hl Hc) as (Htot & _ & _). rewrite Hs in Htot.
  destruct (credit_cells _ _ _ Hl Hc) as (Hcells & Hu & Hother). rewrite Hs in Hcells, Hu, Hother.
  pose proof (genesis_cells_reads x (contents s1) Hx (tv_fees _ _ Hv) Hr Hp) as R.
  assert (Hsum : prefix_total balancePrefix m = alloc_total l).
  { unfold m. rewrite E. change balancePrefix with (prefix 0) in *.
    rewrite (genesis_prefix_total x _ 0) by lia. rewrite Htot, empty_prefix_total. done. }
  assert (Hbal : forall y, m !! BalanceKey y =
    if bool_decide (y ∈ alloc_addresses l) then Some (be 8 (allocated y l)) else None).
  { intros y. unfold m. rewrite E. unfold genesis_cells. reads. apply Hcells. }
  unfold m in R |- *. cbv zeta in R. rewrite <- E in R. destruct_and!.
  split_and!; try done; fold m.
  - intros y. specialize (Hu y). unfold cell. rewrite Hbal. case_bool_decide as Hy.
    + specialize (Hu Hy). cbn in Hu. apply unbe_be_8. exact Hu.
    + cbn. by rewrite allocated_none.
  - intros k Hk Hb. unfold m. by rewrite E, genesis_cells_other, Hother, lookup_empty.
  - intros Hne. rewrite Hsum. exact (tv_supply _ _ Hv Hne).
Qed.

(** C8: from genesis on, along every run: the VEIL that accounts, the pool and
    the fee budgets hold, the vault, and what bonds and fees burned add up to
    the declared total supply; VAI in circulation is exactly the debt, under
    the ceiling written at genesis; governance and mint authority are the
    configured ones. *)
Theorem chain_from_genesis g x (s s1 : M) c es (s2 : M * zkMetricsCollector) :
  contents s = ∅ -> Tokenomics.ok x -> Forall alloc_ok (Genesis.CustomAllocations g) ->
  Genesis.GTokenomics g = Some x -> InitializeState g s = (Ok tt, s1) ->
  chain_run es (s1, c) s2 ->
  let m := contents s2 in
  (exists vault, treasury_state m = Some vault /\
     (Tokenomics.TotalSupply x <> 0 ->
      veil_total m + TreasuryState.Locked vault + TreasuryState.Live vault + total_burned es
      = Tokenomics.TotalSupply x)) /\
  supply vaiBalancePrefix AssetVAI m = debt m /\
  debt m <= Tokenomics.VAIDebtCeiling x /\
  vai_config m = Some (vai_config_of x) /\ governance m = Some (Tokenomics.Governance x) /\
  pool_inv m.
Proof.
  intros Hs Hx Hl Hg H Hrun m. destruct (initial_inv _ _ _ _ Hs Hx Hl Hg H) as (Hi & Hveil & Hv).
  assert (Hi1 : genesis_inv x (contents (s1, c))) by done.
  destruct (run_genesis_inv _ _ _ _ Hrun Hi1) as [Hp Hgap Hc Hgov Hd (vault & Hvs & Hsum)].
  pose proof (bs_veil _ _ _ (run_books _ _ _ Hrun (gi_pool _ _ Hi1))) as Hb.
  change (contents (s1, c)) with (contents s1) in Hb. rewrite Hveil in Hb.
  unfold m in *. split_and!; try done.
  - exists vault. split; [done|]. intros Hne. pose proof (tv_supply _ _ Hv Hne). lia.
  - unfold vai_gap in Hgap. unfold debt. lia.
Qed.
End state.

(** ** Defaults *)

Section defaults.
Context {PF : Platform} {PS : PlatformSpec}.

Lemma guard_then_iff {A} b e (k : Outcome A) a :
  (let? _ := guard b e in k) = Ok a <-> b = false /\ k = Ok a.
Proof.
  destruct b; cbn; [split; [done|by intros []]|]. split; [by split|by intros []].
Qed.

Lemma guard_iff b e : guard b e = Ok tt <-> b = false.
Proof. by destruct b. Qed.

Lemma alloc_total_nonneg l : Forall alloc_ok l -> 0 <= alloc_total l.
Proof.
  induction 1 as [|[a|] l Ha _ IH]; [done| |done].
  unfold alloc_total in *.
  cbn in *. unfold u64 in Ha. lia.
Qed.

Lemma sum_allocations_iff l acc r :
  u64 acc -> Forall alloc_ok l ->
  sum_allocations acc l = Ok r <-> r = acc + alloc_total l /\ acc + alloc_total l < 2 ^ 64.
Proof.
  intros Hacc Hl. split.
  { intros H. destruct (sum_allocations_ok _ _ _ Hacc Hl H) as [-> Hr]. unfold u64 in Hr. lia. }
  revert acc Hacc. induction Hl as [|[a|] l Ha Hl IH]; intros acc Hacc [-> Hlt]; [|..|done].
  - cbn. by rewrite Z.add_0_r.
  - cbn [alloc_ok] in Ha. pose proof (alloc_total_nonneg l Hl) as Hpos.
    assert (E : alloc_total (Some a :: l) = alloc_Balance a + alloc_total l) by done.
    rewrite E in *. unfold u64 in *. cbn [sum_allocations deref obind].
    rewrite smath_Add_spec by (unfold u64; lia).
    rewrite (proj2 (Z.ltb_lt _ _)) by lia. cbn [obind].
    apply IH; [lia|]. split; lia.
Qed.

(** The supply check at the end of [validateTokenomics]. *)
Lemma supply_check_iff l x :
  Tokenomics.ok x -> Forall alloc_ok l ->
  (let? allocSum := sum_allocations 0 l in
   let? total := smath_Add allocSum (Tokenomics.COLVaultLocked x) in
   let? total := smath_Add total (Tokenomics.COLVaultLive x) in
   guard (negb (Tokenomics.TotalSupply x =? 0) && negb (total =? Tokenomics.TotalSupply x))
         ErrInvalidTokenomicsConfig) = Ok tt <->
  let total := alloc_total l + Tokenomics.COLVaultLocked x + Tokenomics.COLVaultLive x in
  total < 2 ^ 64 /\ (Tokenomics.TotalSupply x = 0 \/ total = Tokenomics.TotalSupply x).
Proof.
  intros Hx Hl. unfold Tokenomics.ok in Hx. destruct_and?. cbv zeta.
  pose proof (alloc_total_nonneg l Hl) as Hpos. split.
  - intros Hok. go_inv. match goal with S : sum_allocations _ _ = Ok _ |- _ =>
      apply sum_allocations_ok in S as [-> Hs]; [|done|done] end.
    repeat smath_step. subst. unfold u64 in *. lia.
  - intros [Hlt Heq]. unfold u64 in *.
    rewrite (proj2 (sum_allocations_iff l 0 (0 + alloc_total l) ltac:(done) Hl))
      by (split; [done|lia]).
    cbn [obind]. rewrite smath_Add_spec by (unfold u64; lia).
    rewrite (proj2 (Z.ltb_lt _ _)) by lia. cbn [obind].
    rewrite smath_Add_spec by (unfold u64; lia).
    rewrite (proj2 (Z.ltb_lt _ _)) by lia. cbn [obind]. apply guard_iff. lia.
Qed.

(** The address of the first allocation, the zero address when there is none. *)
Definition first_address (l : list (option CustomAllocation)) : Address :=
  match l with Some a :: _ => alloc_Address a | _ => zero_array 33 end.

(** [v'] is what the file says, [v], or [d] when the file leaves it at zero. *)
Definition set_or (v d v' : Z) : Prop := (v <> 0 /\ v' = v) \/ (v = 0 /\ v' = d).
Definition address_or (v d v' : Address) : Prop :=
  (v <> zero_array 33 /\ v' = v) \/ (v = zero_array 33 /\ v' = d).

(** The section [x'] that a file's section [x] stands for: every default of the
    program, field by field. *)
Record filled (l : list (option CustomAllocation)) (x x' : Tokenomics.t) : Prop := {
  fl_supply : Tokenomics.TotalSupply x' = Tokenomics.TotalSupply x;
  fl_governance : address_or (Tokenomics.Governance x) (first_address l) (Tokenomics.Governance x');
  fl_operations : address_or (Tokenomics.Operations x) (first_address l) (Tokenomics.Operations x');
  fl_mint : address_or (Tokenomics.MintAuthority x) (first_address l) (Tokenomics.MintAuthority x');
  fl_locked : Tokenomics.COLVaultLocked x' = Tokenomics.COLVaultLocked x;
  fl_live : Tokenomics.COLVaultLive x' = Tokenomics.COLVaultLive x;
  fl_release : set_or (Tokenomics.MaxReleaseBips x) 15 (Tokenomics.MaxReleaseBips x');
  fl_epoch : set_or (Tokenomics.ReleaseEpochSeconds x) 86400 (Tokenomics.ReleaseEpochSeconds x');
  fl_fees :
    let all y := [Tokenomics.FeeRouterMSRBBips y; Tokenomics.FeeRouterCOLBips y;
                  Tokenomics.FeeRouterOpsBips y] in
    (all x = [0; 0; 0] /\ all x' = [7000; 2000; 1000]) \/ (all x <> [0; 0; 0] /\ all x' = all x);
  fl_ceiling : Tokenomics.VAIDebtCeiling x' = Tokenomics.VAIDebtCeiling x;
  fl_mint_limit : set_or (Tokenomics.VAIEpochMintLimit x) (Tokenomics.VAIDebtCeiling x)
                    (Tokenomics.VAIEpochMintLimit x');
  fl_mint_epoch : set_or (Tokenomics.VAIMintEpochSeconds x) 3600
                    (Tokenomics.VAIMintEpochSeconds x');
  fl_floor : set_or (Tokenomics.BackingFloorBips x) 10000 (Tokenomics.BackingFloorBips x');
  fl_ltv : set_or (Tokenomics.VEILLtvBips x) 3000 (Tokenomics.VEILLtvBips x');
  fl_wltv : set_or (Tokenomics.WVEILLtvBips x) 3500 (Tokenomics.WVEILLtvBips x');
  fl_wsltv : Tokenomics.WSVEILLtvBips x' = 0;
  fl_cut : set_or (Tokenomics.VEILHaircutBips x) 6000 (Tokenomics.VEILHaircutBips x');
  fl_wcut : set_or (Tokenomics.WVEILHaircutBips x) 5500 (Tokenomics.WVEILHaircutBips x');
  fl_wscut : set_or (Tokenomics.WSVEILHaircutBips x) 10000 (Tokenomics.WSVEILHaircutBips x');
  fl_reserve : set_or (Tokenomics.ExogenousReserveInit x) (Tokenomics.VAIDebtCeiling x)
                 (Tokenomics.ExogenousReserveInit x');
  fl_buffer : Tokenomics.VAIBufferInit x' = Tokenomics.VAIBufferInit x;
  fl_proof : set_or (Tokenomics.RequiredProofType x) ProofTypeGroth16
               (Tokenomics.RequiredProofType x');
  fl_gate : Tokenomics.RequireBatchProof x' = true <->
            Tokenomics.RequiredProofType x = 0 \/ Tokenomics.RequireBatchProof x = true;
  fl_window : set_or (Tokenomics.BatchWindowMs x) 5000 (Tokenomics.BatchWindowMs x');
  fl_deadline : set_or (Tokenomics.ProofDeadlineMs x) 10000 (Tokenomics.ProofDeadlineMs x');
  fl_prover : address_or (Tokenomics.ProverAuthority x) (Tokenomics.Governance x')
                (Tokenomics.ProverAuthority x')
}.

(** What a file has to get right in the values it sets: a zero asks for the
    default. *)
Definition file_ok (l : list (option CustomAllocation)) (x : Tokenomics.t) : Prop :=
  0 <= Tokenomics.ReleaseEpochSeconds x /\ 0 <= Tokenomics.VAIMintEpochSeconds x /\
  0 <= Tokenomics.BatchWindowMs x /\ 0 <= Tokenomics.ProofDeadlineMs x /\
  Tokenomics.MaxReleaseBips x <= bipsDenominator /\
  0 < Tokenomics.VAIDebtCeiling x /\
  Tokenomics.VAIEpochMintLimit x <= Tokenomics.VAIDebtCeiling x /\
  Tokenomics.VEILLtvBips x <= bipsDenominator /\ Tokenomics.WVEILLtvBips x <= bipsDenominator /\
  Tokenomics.VEILHaircutBips x <= bipsDenominator /\
  Tokenomics.WVEILHaircutBips x <= bipsDenominator /\
  Tokenomics.WSVEILHaircutBips x <= bipsDenominator /\
  Tokenomics.RequiredProofType x <= ProofTypePlonk /\
  (Tokenomics.ProverAuthority x <> zero_array 33 \/ Tokenomics.Governance x <> zero_array 33 \/
   first_address l <> zero_array 33) /\
  (let sum := Tokenomics.FeeRouterMSRBBips x + Tokenomics.FeeRouterCOLBips x
              + Tokenomics.FeeRouterOpsBips x in sum = 0 \/ sum = bipsDenominator) /\
  (let total := alloc_total l + Tokenomics.COLVaultLocked x + Tokenomics.COLVaultLive x in
   total < 2 ^ 64 /\ (Tokenomics.TotalSupply x = 0 \/ total = Tokenomics.TotalSupply x)).

Lemma or_default_set v d : set_or v d (or_default v d).
Proof. unfold set_or, or_default. destruct (Z.eqb_spec v 0); auto. Qed.
Lemma or_address_set v d : address_or v d (or_address v d).
Proof. unfold address_or, or_address. case_bool_decide; auto. Qed.
Lemma or_address_zero a : or_address a (zero_array 33) = a.
Proof. unfold or_address. by case_bool_decide. Qed.
Lemma or_address_nonzero a d :
  or_address a d <> zero_array 33 <-> a <> zero_array 33 \/ d <> zero_array 33.
Proof. unfold or_address. case_bool_decide; naive_solver. Qed.

(** Without an allocation the addresses stay as they are, as with a zero one. *)
Lemma defaults_none x : tokenomics_defaults None x = tokenomics_defaults (Some (zero_array 33)) x.
Proof. unfold tokenomics_defaults. by rewrite !or_address_zero. Qed.

Lemma defaults_filled l x : filled l x (tokenomics_defaults (Some (first_address l)) x).
Proof.
  destruct x. unfold tokenomics_defaults. constructor;
    cbn -[first_address zero_array]; try done; try apply or_default_set; try apply or_address_set.
  - destruct (Z.eqb_spec FeeRouterMSRBBips 0), (Z.eqb_spec FeeRouterCOLBips 0),
      (Z.eqb_spec FeeRouterOpsBips 0); cbn; subst; first [by left | right; split; congruence].
  - rewrite orb_true_iff, Z.eqb_eq. done.
Qed.

(** A checked field with its default in place. *)
Lemma or_default_pos a d : 0 < d -> ((or_default a d <=? 0) = false <-> 0 <= a).
Proof. unfold or_default. destruct (a =? 0) eqn:E; lia. Qed.
Lemma or_default_nz a d : (or_default a d =? 0) = false <-> a <> 0 \/ d <> 0.
Proof. unfold or_default. destruct (a =? 0) eqn:E; lia. Qed.
Lemma or_default_le a d m :
  0 <= m -> d <= m -> ((m <? or_default a d) = false <-> a <= m).
Proof. unfold or_default. destruct (a =? 0) eqn:E; lia. Qed.

(** The fee router's shares with their defaults. *)
Lemma fee_defaults_iff m c o :
  0 <= m -> 0 <= c -> 0 <= o ->
  let none := (m =? 0) && (c =? 0) && (o =? 0) in
  negb ((if none then 7000 else m) + (if none then 2000 else c) + (if none then 1000 else o)
        =? bipsDenominator) = false <-> m + c + o = 0 \/ m + c + o = bipsDenominator.
Proof.
  intros ? ? ?. cbv zeta. unfold bipsDenominator. destruct (_ && _)%bool eqn:E; lia.
Qed.

Lemma proof_default_iff p :
  0 <= p -> let p' := if p =? 0 then ProofTypeGroth16 else p in
  (negb (p' =? ProofTypeGroth16) && negb (p' =? ProofTypePlonk))%bool = false
  <-> p <= ProofTypePlonk.
Proof. intros ?. unfold ProofTypeGroth16, ProofTypePlonk. destruct (p =? 0) eqn:E; lia. Qed.

(** After the defaults, validation accepts exactly the files that are right in
    what they set. *)
Lemma defaults_valid_iff l x d :
  Tokenomics.ok x -> Forall alloc_ok l -> d = first_address l ->
  validateTokenomics l (Some (tokenomics_defaults (Some d) x)) = Ok tt <-> file_ok l x.
Proof.
  intros Hx Hl ->. pose proof (supply_check_iff l x Hx Hl) as Hs.
  assert (Hp : bool_decide (or_address (Tokenomics.ProverAuthority x)
            (or_address (Tokenomics.Governance x) (first_address l)) = zero_array 33) = false <->
          Tokenomics.ProverAuthority x <> zero_array 33 \/
          Tokenomics.Governance x <> zero_array 33 \/ first_address l <> zero_array 33).
  { by rewrite bool_decide_eq_false, or_address_nonzero, or_address_nonzero. }
  unfold Tokenomics.ok in Hx. destruct_and?.
  unfold validateTokenomics, file_ok. rewrite !guard_then_iff.
  destruct x; unfold tokenomics_defaults; cbn -[Z.pow Z.lt Z.le] in *.
  rewrite Hs, Hp, fee_defaults_iff, proof_default_iff, !orb_false_iff, !or_default_pos,
    !or_default_nz, !or_default_le by (unfold u8, u16, u64, bipsDenominator in *; lia).
  unfold u64, bipsDenominator in *. clear Hs Hp.
  split; intros; destruct_and!; split_and!; first [done | lia].
Qed.
End defaults.

Section loading.
Context {PF : Platform} {PS : PlatformSpec} {Rules : Type} {GF : GenesisFile Rules}.

Lemma head_address l :
  Forall alloc_ok l ->
  match l with
  | [] => Ok None
  | p :: _ => let? a := deref p in Ok (Some (alloc_Address a))
  end = Ok (match l with Some a :: _ => Some (alloc_Address a) | _ => None end).
Proof. by destruct 1 as [|[a|] l ? _]. Qed.

(** C20: every genesis file the decoder reads is loaded, with its allocations as
    they are, the rules of the network, and every field its tokenomics leave at
    zero replaced by its default ([filled]); what is loaded is accepted exactly
    when there are no tokenomics or the fields they set are in range, some
    address can be the prover, the debt ceiling is positive and the amounts add
    up ([file_ok]). *)
Theorem load_accepts_iff b upgrade net chain g :
  json_Unmarshal b = Ok g -> Forall alloc_ok (Genesis.CustomAllocations g) ->
  (forall x, Genesis.GTokenomics g = Some x -> Tokenomics.ok x) ->
  let l := Genesis.CustomAllocations g in
  let rules := set_network net chain (default NewDefaultRules (Genesis.GRules g)) in
  exists g', Load b upgrade net chain = Ok (g', rules) /\
    set_or (Genesis.StateBranchFactor g) BranchFactor16 (Genesis.StateBranchFactor g') /\
    Genesis.GRules g' = Some rules /\ Genesis.CustomAllocations g' = l /\
    match Genesis.GTokenomics g with
    | None => Genesis.GTokenomics g' = None
    | Some x => exists x', Genesis.GTokenomics g' = Some x' /\ filled l x x'
    end /\
    (validateTokenomics l (Genesis.GTokenomics g') = Ok tt <->
     match Genesis.GTokenomics g with None => True | Some x => file_ok l x end).
Proof.
  intros Hj Hl Hok l rules. unfold Load. rewrite Hj. cbn [obind].
  unfold applyTokenomicsDefaults. cbn [Genesis.GTokenomics Genesis.CustomAllocations].
  destruct (Genesis.GTokenomics g) as [x|].
  - rewrite head_address by done. cbn [obind].
    assert (E : tokenomics_defaults
      match l with Some a :: _ => Some (alloc_Address a) | _ => None end x
      = tokenomics_defaults (Some (first_address l)) x).
    { unfold l, first_address. destruct Hl as [|[a|] ? ? _]; [apply defaults_none|done..]. }
    fold l. rewrite E. eexists. split; [reflexivity|].
    cbn [Genesis.StateBranchFactor Genesis.GRules Genesis.GTokenomics Genesis.CustomAllocations].
    split_and!; [apply or_default_set|done|done| |by apply defaults_valid_iff; [apply Hok| |]].
    eexists. split; [reflexivity|]. apply defaults_filled.
  - eexists. split; [reflexivity|]. split_and!; [apply or_default_set|done..].
Qed.
End loading.

(** ** Evaluations *)

Module Samples.
Export Ledger.Samples.

(** A file that sets the supply, the vault and the debt ceiling. *)
Definition sparse : Tokenomics.t :=
  Tokenomics.mk 1000000 (zero_array 33) (zero_array 33) (zero_array 33) 100000 0 0 0 0 0 0
    5000 0 0 0 0 0 0 0 0 0 0 0 false 0 0 0 (zero_array 33).
Definition allocs : list (option CustomAllocation) :=
  [Some (mk_alloc alice 700000); Some (mk_alloc bob 200000)].
Definition file : Genesis.t unit := Genesis.mk 0 allocs None (Some sparse).
#[export] Instance genesis_file : GenesisFile unit :=
  {| json_Unmarshal _ := Ok file; BranchFactor16 := 16; NewDefaultRules := tt;
     set_network _ _ r := r |}.
#[export, refine] Instance default_genesis : DefaultGenesis (M := Store) unit :=
  {| base_InitializeState _ allocs _ := credit allocs |}.
Proof. done. Defined.

Definition full : Tokenomics.t := tokenomics_defaults (Some alice) sparse.
Definition loaded : Genesis.t unit := Genesis.mk 16 allocs (Some tt) (Some full).
Definition empty : Store := ∅.
Definition genesis_store : Store := final (InitializeState loaded) empty.
Definition first : Store * zkMetricsCollector := (genesis_store, newZKMetricsCollector 10).
(** Pay, mint, open the pool, provide, trade, release, pay gas. *)
Definition history : list Event :=
  [act (ATransfer (Transfer.mk bob 40 [])); act (AMintVAI (MintVAI.mk alice 4000));
   act (ACreatePool (CreatePool.mk AssetVEIL AssetVAI 30));
   act (AAddLiquidity (AddLiquidity.mk AssetVEIL AssetVAI 3000 3000 1));
   act (ASwapExactIn (SwapExactIn.mk AssetVEIL AssetVAI 500 1));
   act (AReleaseCOLTranche (ReleaseCOLTranche.mk 100)); EFee bob 5].
Definition last : Store * zkMetricsCollector := final (run_events history) first.
End Samples.
Import Samples.

Lemma sparse_ok : Tokenomics.ok full.
Proof. vm_compute. intuition congruence. Qed.
Lemma sparse_file_ok : Tokenomics.ok sparse.
Proof. vm_compute. intuition congruence. Qed.
Lemma allocs_ok : Forall alloc_ok allocs.
Proof. repeat (apply Forall_cons_2; [by vm_compute|]). apply Forall_nil_2. Qed.

Lemma genesis_runs : InitializeState loaded empty = (Ok tt, genesis_store).
Proof. apply run_eq. vm_compute. reflexivity. Qed.

Lemma history_runs : chain_run history first last.
Proof. apply evaluated_run; [events_ok | vm_compute; reflexivity]. Qed.

Lemma genesis_state_witness :
  proof_config (contents genesis_store) = Some (ProofConfig.mk true 1 5000 10000 alice) /\
  cell (contents genesis_store) (BalanceKey bob) = 200000 /\
  contents genesis_store !! BalanceKey (addr 9) = None.
Proof.
  assert (He : contents empty = ∅) by reflexivity.
  assert (Hg : Genesis.GTokenomics loaded = Some full) by reflexivity.
  destruct (genesis_state loaded full empty genesis_store He sparse_ok allocs_ok Hg genesis_runs)
    as (_ & _ & _ & _ & _ & _ & _ & _ & H & Hb & Hc & _).
  split; [exact H|]. split; [exact (Hc bob)|exact (Hb (addr 9))].
Defined.

Lemma chain_from_genesis_witness :
  supply vaiBalancePrefix AssetVAI (contents last) = debt (contents last) /\
  debt (contents last) <= 5000.
Proof.
  assert (He : contents empty = ∅) by reflexivity.
  assert (Hg : Genesis.GTokenomics loaded = Some full) by reflexivity.
  destruct (chain_from_genesis loaded full empty genesis_store (newZKMetricsCollector 10)
    history last He sparse_ok allocs_ok Hg genesis_runs history_runs) as (_ & H1 & H2 & _).
  exact (conj H1 H2).
Defined.

Lemma load_accepts_iff_witness :
  exists g' x', Load [] [] 1 (mkt 1) = Ok (g', tt) /\ Genesis.GTokenomics g' = Some x' /\
    Tokenomics.Governance x' = alice /\ Tokenomics.WVEILLtvBips x' = 3500 /\
    validateTokenomics allocs (Some x') = Ok tt.
Proof.
  assert (Hj : json_Unmarshal [] = Ok file) by reflexivity.
  assert (Hok : forall x, Genesis.GTokenomics file = Some x -> Tokenomics.ok x).
  { intros x [= <-]. exact sparse_file_ok. }
  destruct (load_accepts_iff [] [] 1 (mkt 1) file Hj allocs_ok Hok)
    as (g' & H1 & _ & _ & _ & (x' & H2 & Hf) & H3).
  exists g', x'. split; [exact H1|]. split; [exact H2|]. rewrite H2 in H3. split_and!.
  - destruct (fl_governance _ _ _ Hf) as [[H _]|[_ H]]; [by destruct H|exact H].
  - destruct (fl_wltv _ _ _ Hf) as [[H _]|[_ H]]; [by destruct H|exact H].
  - apply H3. vm_compute. intuition congruence.
Defined.
