(* ===== verification/TypedStore.v ===== *)
(** * Every cell holds a value of its type

    What any handler writes under a key of the state, whatever it returns, is
    an encoding that the getters of that key parse. So a store that starts from
    genesis never holds a cell that fails to parse. *)
From S2P Require Import Prelude Errors Go Platform Sha256 Storage Concrete Balance Action.
From S2P Require Import AmmMath Transfer ProofEnvelope ProofEnvelopeFacts Pools PoolFacts Vai.
From S2P Require Import VaiFacts Treasury TreasuryFacts Metrics Markets Proofs MarketFacts.
From S2P Require Import ProofFacts Genesis Chain Footprint Ledger Lifecycle GenesisFacts.

(** ** Types of cells *)

Definition parses {A} (parse : bytes -> Outcome A) (v : bytes) : Prop := exists a, parse v = Ok a.

(** The type of the values of a slot. *)
Definition slot_typed (s : Slot) (v : bytes) : Prop :=
  match s with
  | SBalance _ | SVAIBalance _ | SLPBalance _ _ _ => length v = 8%nat
  | SMarket _ => parses Market.parse v
  | SCommitment _ _ _ => 0 < len v
  | SBatch _ _ => len v = 16 + ExpectedFillsHashSize
  | SOracle _ _ => 8 < len v
  | STreasuryConfig => parses TreasuryConfig.parse v
  | STreasuryState => parses TreasuryState.parse v
  | SFeeRouterConfig => parses FeeRouterConfig.parse v
  | SFeeRouterState => parses FeeRouterState.parse v
  | SVAIConfig => parses VAIConfig.parse v
  | SVAIState => parses VAIState.parse v
  | SPool _ _ => parses Pool.parse v
  | SRiskConfig => parses RiskConfig.parse v
  | SReserveState => parses ReserveState.parse v
  | SProofConfig => parses ProofConfig.parse v
  | SBatchProof _ _ => parses BatchProofRecord.parse v
  | SVellumProof _ _ => parses VellumProof.parse v
  | SBloodsworn _ => parses Bloodsworn.parse v
  | SGlyph _ _ => parses Glyph.parse v
  end.

Definition store_typed {PF : Platform} (m : gmap bytes bytes) : Prop :=
  forall s v, m !! slot_key s = Some v -> slot_typed s v.

Lemma slot_typed_tag s s' v : slot_tag s = slot_tag s' -> slot_typed s v -> slot_typed s' v.
Proof. by destruct s, s'. Qed.

(** ** Encodings parse *)

Ltac parses_back :=
  eexists; len_false; cbn [guard obind]; reflexivity.

Lemma Market_parses x : parses Market.parse (Market.encode x).
Proof. unfold parses, Market.parse, Market.encode. parses_back. Qed.
Lemma Pool_parses p : parses Pool.parse (Pool.encode p).
Proof.
  unfold parses, Pool.parse, Pool.encode. destruct (sortedAssetPair _ _). parses_back.
Qed.
Lemma TreasuryConfig_parses c : parses TreasuryConfig.parse (TreasuryConfig.encode c).
Proof. unfold parses, TreasuryConfig.parse, TreasuryConfig.encode. parses_back. Qed.
Lemma TreasuryState_parses c : parses TreasuryState.parse (TreasuryState.encode c).
Proof. unfold parses, TreasuryState.parse, TreasuryState.encode. parses_back. Qed.
Lemma FeeRouterState_parses c : parses FeeRouterState.parse (FeeRouterState.encode c).
Proof. unfold parses, FeeRouterState.parse, FeeRouterState.encode. parses_back. Qed.
Lemma VAIConfig_parses c : parses VAIConfig.parse (VAIConfig.encode c).
Proof. unfold parses, VAIConfig.parse, VAIConfig.encode. parses_back. Qed.
Lemma VAIState_parses c : parses VAIState.parse (VAIState.encode c).
Proof. unfold parses, VAIState.parse, VAIState.encode. parses_back. Qed.
Lemma ReserveState_parses c : parses ReserveState.parse (ReserveState.encode c).
Proof. unfold parses, ReserveState.parse, ReserveState.encode. parses_back. Qed.
Lemma Bloodsworn_parses c : parses Bloodsworn.parse (Bloodsworn.encode c).
Proof. unfold parses, Bloodsworn.parse, Bloodsworn.encode. parses_back. Qed.
Lemma Glyph_parses c : parses Glyph.parse (Glyph.encode c).
Proof. unfold parses, Glyph.parse, Glyph.encode. parses_back. Qed.
Lemma FeeRouterConfig_parses c :
  FeeRouterConfig.ok c -> parses FeeRouterConfig.parse (FeeRouterConfig.encode c).
Proof. intros. eexists. by apply FeeRouterConfig_roundtrip. Qed.
Lemma RiskConfig_parses c :
  RiskConfig.in_range c -> RiskConfig.validateRiskConfig c = Ok tt ->
  parses RiskConfig.parse (RiskConfig.encode c).
Proof. intros. eexists. by apply RiskConfig_roundtrip. Qed.
Lemma ProofConfig_parses c :
  ProofConfig.in_range c -> ProofConfig.validateProofConfig c = Ok tt ->
  parses ProofConfig.parse (ProofConfig.encode c).
Proof. intros. eexists. by apply ProofConfig_roundtrip. Qed.
Lemma BatchProofRecord_parses r :
  BatchProofRecord.in_range r -> BatchProofRecord.check r = Ok tt ->
  parses BatchProofRecord.parse (BatchProofRecord.encode r).
Proof. intros. eexists. by apply BatchProofRecord_roundtrip. Qed.
Lemma VellumProof_parses p :
  VellumProof.check p = Ok tt -> parses VellumProof.parse (VellumProof.encode p).
Proof. intros. eexists. by apply VellumProof_roundtrip. Qed.

Create HintDb typed.
#[export] Hint Resolve Market_parses Pool_parses TreasuryConfig_parses TreasuryState_parses
  FeeRouterState_parses VAIConfig_parses VAIState_parses ReserveState_parses Bloodsworn_parses
  Glyph_parses FeeRouterConfig_parses RiskConfig_parses ProofConfig_parses
  BatchProofRecord_parses VellumProof_parses : typed.

(** ** Writes *)

Section writes.
Context {PF : Platform} {PS : PlatformSpec}.

Lemma typed_insert m s v :
  store_typed m -> slot_typed s v -> store_typed (<[slot_key s := v]> m).
Proof.
  intros Hm Hv s' v'. destruct (decide (slot_key s = slot_key s')) as [E|E].
  - rewrite E, lookup_insert_eq. intros [= <-]. apply slot_key_tag in E. by eapply slot_typed_tag.
  - rewrite lookup_insert_ne by done. apply Hm.
Qed.

Lemma typed_delete m k : store_typed m -> store_typed (delete k m).
Proof. intros Hm s v [_ H]%lookup_delete_Some. by apply Hm. Qed.

Lemma typed_empty : store_typed ∅.
Proof. intros s v H. by rewrite lookup_empty in H. Qed.
End writes.

(** [keeps_typed c]: whatever [c] returns, a typed store stays typed. *)
Definition keeps_typed {PF : Platform} {M A} {MU : Mutable M} {MS : MutableSpec M}
    (c : ST M A) : Prop :=
  forall s r s', c s = (r, s') -> store_typed (contents s) -> store_typed (contents s').

Section keeps.
Context {PF : Platform} {PS : PlatformSpec} {M : Type} {MU : Mutable M} {MS : MutableSpec M}.

(** Reading leaves a typed store typed. *)
Lemma kt_reads {A} (c : ST M A) : writes_only (fun _ => False) c -> keeps_typed c.
Proof.
  intros H s r s' E Ht sl v. rewrite (H _ _ _ E (slot_key sl) (fun F => F)). apply Ht.
Qed.

Lemma kt_put s v : slot_typed s v -> keeps_typed (put (M := M) (slot_key s) v).
Proof.
  intros Hv t r t' E Ht. unfold put in E. pose proof (Insert_sound t (slot_key s) v) as H.
  rewrite E in H. destruct r; [|by rewrite H|done]. rewrite H. by apply typed_insert.
Qed.

Lemma kt_remove k : keeps_typed (remove (M := M) k).
Proof.
  intros t r t' E Ht. unfold remove in E. pose proof (Remove_sound t k) as H.
  rewrite E in H. destruct r; [|by rewrite H|done]. rewrite H. by apply typed_delete.
Qed.

Lemma kt_bind {A B} (c : ST M A) (k : A -> ST M B) :
  keeps_typed c -> (forall a, keeps_typed (k a)) -> keeps_typed (bind c k).
Proof.
  intros Hc Hk s r s' E Ht. unfold bind in E.
  destruct (c s) as [[a|e|] s1] eqn:E1; [|simplify_eq; by eapply Hc..].
  eapply Hk; [done|]. by eapply Hc.
Qed.

(** A check keeps what it established. *)
Lemma kt_fail_if {A} b e (k : unit -> ST M A) :
  (b = false -> keeps_typed (k tt)) -> keeps_typed (bind (fail_if b e) k).
Proof.
  intros Hk s r s' E Ht. unfold bind in E.
  destruct b; cbn in E; [by simplify_eq|by eapply Hk].
Qed.
Lemma kt_lift {A B} (o : Outcome A) (k : A -> ST M B) :
  (forall a, o = Ok a -> keeps_typed (k a)) -> keeps_typed (bind (lift o) k).
Proof.
  intros Hk s r s' E Ht. unfold bind, lift in E. destruct o; [by eapply Hk|by simplify_eq..].
Qed.

Lemma kt_catch {A} (c : ST M A) : keeps_typed c -> keeps_typed (catch c).
Proof.
  intros Hc s r s' E. unfold catch in E.
  destruct (c s) as [[a|e|] s1] eqn:E1; simplify_eq; by eapply Hc.
Qed.

(** A cell of a balance. *)
Definition balance_slot (s : Slot) : Prop := forall n, slot_typed s (be 8 n).

Lemma kt_setBalance s n : balance_slot s -> keeps_typed (setBalance (M := M) (slot_key s) n).
Proof. intros Hs. apply kt_put, Hs. Qed.

Lemma kt_add_cell s amount e :
  balance_slot s -> keeps_typed (add_cell (M := M) (slot_key s) amount e).
Proof.
  intros Hs. unfold add_cell. apply kt_bind; [apply kt_reads; footprint|]. intros [bal ex].
  apply kt_lift. intros. apply kt_bind; [by apply kt_setBalance|].
  intros. apply kt_reads. footprint.
Qed.

Lemma kt_sub_cell s amount e :
  balance_slot s -> keeps_typed (sub_cell (M := M) (slot_key s) amount e).
Proof.
  intros Hs. unfold sub_cell. apply kt_bind; [apply kt_reads; footprint|].
  intros [[bal []]|?]; [|apply kt_reads; footprint..].
  apply kt_lift. intros nbal _. destruct (nbal =? 0).
  - apply kt_bind; [apply kt_remove|]. intros. apply kt_reads. footprint.
  - apply kt_bind; [by apply kt_setBalance|]. intros. apply kt_reads. footprint.
Qed.

Lemma balance_slots s :
  match s with SBalance _ | SVAIBalance _ | SLPBalance _ _ _ => True | _ => False end ->
  balance_slot s.
Proof. intros H n. destruct s; try done; apply length_be. Qed.
End keeps.

(** ** The handlers *)

Section deferred.
Context {PF : Platform} {M : Type} {MU : Mutable M} {MS : MutableSpec M}.

Lemma kt_defer_metric {A} report (body : ST (M * zkMetricsCollector) A) :
  keeps_typed body -> keeps_typed (defer_metric report body).
Proof. intros Hb s r s' (c' & E & _)%defer_metric_run Ht. apply (Hb _ _ _ E Ht). Qed.

Lemma kt_with_locals {A} report (body : ST ((M * zkMetricsCollector) * Locals) A) :
  keeps_typed body -> keeps_typed (with_locals report body).
Proof. intros Hb s r s' (c' & l & E & _)%with_locals_run Ht. apply (Hb _ _ _ E Ht). Qed.
End deferred.

(** Walk a handler; what is left are the types of the values it writes. *)
Ltac kt_step :=
  lazymatch goal with
  | |- keeps_typed (bind (fail_if _ _) _) => apply kt_fail_if; intros ?
  | |- keeps_typed (bind (lift _) _) => apply kt_lift; intros ? ?
  | |- keeps_typed (bind _ _) => apply kt_bind; [|intros ?]
  | |- keeps_typed (match ?x with _ => _ end) => destruct x eqn:?
  | |- keeps_typed (put ?k ?v) => let s := slot_of k in apply (kt_put s v); cbn [slot_typed]
  | |- keeps_typed (add_cell ?k _ _) =>
      let s := slot_of k in apply (kt_add_cell s); by apply balance_slots
  | |- keeps_typed (sub_cell ?k _ _) =>
      let s := slot_of k in apply (kt_sub_cell s); by apply balance_slots
  | |- keeps_typed _ => apply kt_reads; solve [footprint]
  end.
Ltac kt_walk := repeat kt_step; eauto with typed.

Section handlers.
Context {PF : Platform} {PS : PlatformSpec} {M : Type} {MU : Mutable M} {MS : MutableSpec M}.
Context {TX : Text}.

Lemma kt_transfer a ts actor tx : keeps_typed (Transfer.Execute (M := M) a ts actor tx).
Proof. unfold Transfer.Execute, SubBalance, AddBalance. kt_walk. Qed.
Lemma kt_create_market a ts actor tx : keeps_typed (CreateMarket.Execute (M := M) a ts actor tx).
Proof. unfold CreateMarket.Execute, SubBalance, PutMarket. kt_walk. Qed.
Lemma kt_commit_order e a ts actor tx :
  keeps_typed (CommitOrder.Execute (M := M) e a ts actor tx).
Proof.
  unfold CommitOrder.Execute, CommitOrder.body, PutCommitment. apply kt_defer_metric. kt_walk.
  bool_simpl. unfold len in *. rewrite length_app. lia.
Qed.
Lemma kt_reveal_batch e a ts actor tx :
  keeps_typed (RevealBatch.Execute (M := M) e a ts actor tx).
Proof.
  unfold RevealBatch.Execute, RevealBatch.body. apply kt_defer_metric. kt_walk.
  bool_simpl. unfold len in *. rewrite length_app, length_be. lia.
Qed.
Lemma kt_resolve_market a ts actor tx : keeps_typed (ResolveMarket.Execute (M := M) a ts actor tx).
Proof. unfold ResolveMarket.Execute, PutMarket. kt_walk. Qed.
Lemma kt_dispute a ts actor tx : keeps_typed (Dispute.Execute (M := M) a ts actor tx).
Proof.
  unfold Dispute.Execute, SubBalance, PutMarket, PutDispute. kt_walk.
  bool_simpl. unfold len in *. rewrite length_app, length_be. lia.
Qed.
Lemma kt_route_fees a ts actor tx : keeps_typed (RouteFees.Execute (M := M) a ts actor tx).
Proof. unfold RouteFees.Execute, SubBalance, PutFeeRouterState. kt_walk. Qed.
Lemma kt_release a ts actor tx : keeps_typed (ReleaseCOLTranche.Execute (M := M) a ts actor tx).
Proof. unfold ReleaseCOLTranche.Execute, PutTreasuryState. kt_walk. Qed.
Lemma kt_mint a ts actor tx : keeps_typed (MintVAI.Execute (M := M) a ts actor tx).
Proof. unfold MintVAI.Execute, AddVAIBalance, PutVAIState. kt_walk. Qed.
Lemma kt_burn a ts actor tx : keeps_typed (BurnVAI.Execute (M := M) a ts actor tx).
Proof. unfold BurnVAI.Execute, SubVAIBalance, PutVAIState. kt_walk. Qed.
Lemma kt_update_reserve a ts actor tx :
  keeps_typed (UpdateReserveState.Execute (M := M) a ts actor tx).
Proof. unfold UpdateReserveState.Execute, PutReserveState. kt_walk. Qed.

Ltac tts := repeat match goal with u : unit |- _ => destruct u end.

Lemma kt_set_risk a ts actor tx :
  s_ok a -> keeps_typed (SetRiskParams.Execute (M := M) a ts actor tx).
Proof.
  intros Ha. unfold SetRiskParams.Execute, PutRiskConfig. kt_walk. tts. by apply RiskConfig_parses.
Qed.
Lemma kt_set_proof_config a ts actor tx :
  s_ok a -> keeps_typed (SetProofConfig.Execute (M := M) a ts actor tx).
Proof.
  intros Ha. cbn in Ha. unfold SetProofConfig.Execute, PutProofConfig. kt_walk. tts.
  destruct_and?. apply ProofConfig_parses; [by split_and!|done].
Qed.

Lemma kt_asset_sub actor asset amount :
  keeps_typed (subAssetBalance (M := M) actor asset amount).
Proof. unfold subAssetBalance, SubBalance, SubVAIBalance. kt_walk. Qed.
Lemma kt_asset_add actor asset amount :
  keeps_typed (addAssetBalance (M := M) actor asset amount).
Proof. unfold addAssetBalance, AddBalance, AddVAIBalance. kt_walk. Qed.

Lemma kt_create_pool a ts actor tx : keeps_typed (CreatePool.Execute (M := M) a ts actor tx).
Proof. unfold CreatePool.Execute, PutPool. kt_walk. Qed.

(** The pool actions, through the balances by asset. *)
Ltac kt_assets :=
  repeat match goal with
  | |- keeps_typed (subAssetBalance _ _ _) => apply kt_asset_sub
  | |- keeps_typed (addAssetBalance _ _ _) => apply kt_asset_add
  | _ => kt_step
  end; eauto with typed.

Lemma kt_add_liquidity a ts actor tx : keeps_typed (AddLiquidity.Execute (M := M) a ts actor tx).
Proof. unfold AddLiquidity.Execute, PutPool, AddLPBalance. kt_assets. Qed.
Lemma kt_remove_liquidity a ts actor tx :
  keeps_typed (RemoveLiquidity.Execute (M := M) a ts actor tx).
Proof. unfold RemoveLiquidity.Execute, PutPool, SubLPBalance, GetLPBalance. kt_assets. Qed.
Lemma kt_swap a ts actor tx : keeps_typed (SwapExactIn.Execute (M := M) a ts actor tx).
Proof. unfold SwapExactIn.Execute, PutPool. kt_assets. Qed.

Lemma kt_clear_batch vc clk a ts actor tx :
  keeps_typed (ClearBatch.Execute (M := M) vc clk a ts actor tx).
Proof.
  unfold ClearBatch.Execute, ClearBatch.body, ClearBatch.check_proof, PutBatchResult.
  apply kt_with_locals. kt_walk. bool_simpl. unfold len, ExpectedFillsHashSize in *.
  rewrite !length_app, !length_be. lia.
Qed.

Lemma kt_submit vc clk a ts actor tx :
  s_ok a -> i64 ts -> keeps_typed (SubmitBatchProof.Execute (M := M) vc clk a ts actor tx).
Proof.
  intros Ha Hts. cbn in Ha. destruct_and?.
  unfold SubmitBatchProof.Execute, SubmitBatchProof.body, SubmitBatchProof.accept,
    PutBatchProofRecord, PutVellumProof, PutBloodsworn, PutGlyph.
  apply kt_with_locals. kt_walk; tts; [|by apply VellumProof_parses].
  apply BatchProofRecord_parses; [by split_and!|done].
Qed.

End handlers.

(** ** Runs *)

Section runs.
Context {PF : Platform} {PS : PlatformSpec} {M : Type} {MU : Mutable M} {MS : MutableSpec M}.
Context {TX : Text}.
Implicit Types (s : M * zkMetricsCollector).

Lemma kt_execute env act ts actor tx :
  action_ok act -> i64 ts -> keeps_typed (Execute (M := M) env act ts actor tx).
Proof.
  intros Ha Hts. destruct act; cbn [Execute action_ok] in *;
    [ apply kt_transfer | apply kt_create_market | apply kt_commit_order | apply kt_reveal_batch
    | apply kt_clear_batch | apply kt_resolve_market | apply kt_dispute | apply kt_route_fees
    | apply kt_release | apply kt_mint | apply kt_burn | apply kt_create_pool
    | apply kt_add_liquidity | apply kt_remove_liquidity | apply kt_swap
    | apply kt_update_reserve | by apply kt_set_risk | by apply kt_submit
    | by apply kt_set_proof_config ].
Qed.

Lemma kt_deduct sponsor amount :
  keeps_typed (BalanceHandler.Deduct (M := M * zkMetricsCollector) sponsor amount).
Proof. unfold BalanceHandler.Deduct, SubBalance. kt_walk. Qed.

Lemma step_typed e s s' :
  chain_step e s s' -> store_typed (contents s) -> store_typed (contents s').
Proof.
  intros Hst. destruct Hst as [env act ts actor tx out s s' Ha Hts H|sponsor amount s s' Ha H
    |s s' E].
  - by apply (kt_execute _ _ _ _ _ Ha Hts _ _ _ H).
  - apply (kt_deduct _ _ _ _ _ H).
  - by rewrite E.
Qed.

Lemma run_typed es s s' :
  chain_run es s s' -> store_typed (contents s) -> store_typed (contents s').
Proof. induction 1; [done|]. intros Ht. eauto using step_typed. Qed.
End runs.

(** ** From genesis *)

Section from_genesis.
Context {PF : Platform} {PS : PlatformSpec} {M : Type} {MU : Mutable M} {MS : MutableSpec M}.
Context {TX : Text} {Rules : Type} {DG : DefaultGenesis (M := M) Rules}.

Lemma kt_credit l : keeps_typed (credit (M := M) l).
Proof.
  induction l as [|p l IH]; cbn [credit]; [apply kt_reads; footprint|].
  apply kt_lift. intros alloc _. unfold BalanceHandler.AddBalance, Balance.AddBalance.
  apply kt_bind; [kt_walk|]. intros _. exact IH.
Qed.

Lemma genesis_cells_typed x m :
  Tokenomics.ok x -> RiskConfig.validateRiskConfig (risk_config_of x) = Ok tt ->
  ProofConfig.validateProofConfig (genesis_proof_config x) = Ok tt ->
  FeeRouterConfig.ok (fee_config_of x) ->
  store_typed m -> store_typed (genesis_cells x m).
Proof.
  intros Hx Hr Hp Hf Hm. unfold Tokenomics.ok in Hx. destruct_and?. unfold genesis_cells.
  repeat match goal with
  | |- store_typed (<[?k := ?v]> _) => let s := slot_of k in apply (typed_insert _ s v)
  end; cbn [slot_typed]; try done; auto with typed.
  - apply RiskConfig_parses; [by split_and!|done].
  - apply ProofConfig_parses; [by split_and!|done].
Qed.

Lemma genesis_typed g x (s s1 : M) :
  contents s = ∅ -> Tokenomics.ok x -> Forall alloc_ok (Genesis.CustomAllocations g) ->
  Genesis.GTokenomics g = Some x -> InitializeState g s = (Ok tt, s1) -> store_typed (contents s1).
Proof.
  intros Hs Hx Hl Hg H.
  destruct (initialize_ok _ _ _ _ Hx Hl Hg H) as (t & Hc & Hv & Hr & Hp & E).
  rewrite E. apply genesis_cells_typed; try done.
  - pose proof (tv_fees _ _ Hv). unfold Tokenomics.ok in Hx. destruct_and?. by split_and!.
  - apply (kt_credit _ _ _ _ Hc). rewrite Hs. apply typed_empty.
Qed.

(** C5: from genesis on the state is well typed: in every state a run reaches
    from an initialized genesis, the value of every balance cell is a 64-bit
    integer, and that of every market, pool, configuration, proof, glyph or
    other record parses: no getter of the program fails on what is stored. *)
Theorem store_always_typed g x (s s1 : M) c es (s2 : M * zkMetricsCollector) :
  contents s = ∅ -> Tokenomics.ok x -> Forall alloc_ok (Genesis.CustomAllocations g) ->
  Genesis.GTokenomics g = Some x -> InitializeState g s = (Ok tt, s1) ->
  chain_run es (s1, c) s2 -> store_typed (contents s2).
Proof.
  intros Hs Hx Hl Hg H Hrun. apply (run_typed _ _ _ Hrun).
  change (contents (s1, c)) with (contents s1). by eapply genesis_typed.
Qed.
End from_genesis.

(** ** Evaluations *)

Module Samples.
Export GenesisFacts.Samples.
End Samples.
Import Samples.

Lemma store_always_typed_witness : store_typed (contents last).
Proof.
  assert (He : contents empty = ∅) by reflexivity.
  assert (Hg : Genesis.GTokenomics loaded = Some full) by reflexivity.
  exact (store_always_typed loaded full empty genesis_store (newZKMetricsCollector 10)
    history last He sparse_ok allocs_ok Hg genesis_runs history_runs).
Defined.
