(* ===== verification/Completion.v ===== *)
(** * Computations that complete

    A calculus for the converse of the inversion lemmas: [completes G m c] says
    that [c] returns a value from every store with contents [m] that grants the
    keys [G]. One rule per primitive of the handlers. *)
From S2P Require Import Prelude Errors Go Platform Sha256 Storage Concrete Balance Action.
From S2P Require Import AmmMath Transfer ProofEnvelope ProofEnvelopeFacts Pools PoolFacts Vai.
From S2P Require Import VaiFacts Treasury TreasuryFacts Metrics Markets Proofs MarketFacts.
From S2P Require Import ProofFacts Genesis Chain Footprint Ledger Lifecycle Authority Reference.
From S2P Require Import Refinement GenesisFacts TypedStore.

(** ** Computations that complete *)

Section completes.
Context {PF : Platform} {PS : PlatformSpec} {M : Type} {MU : Mutable M} {MS : MutableSpec M}.
(** The keys that are granted. *)
Variable G : bytes -> Prop.

Definition at_contents (m : gmap bytes bytes) (s : M) : Prop :=
  contents s = m /\ forall k, G k -> granted s k.

(** From every store with these contents that grants [G], [c] returns a value. *)
Definition completes {A : Type} (m : gmap bytes bytes) (c : ST M A) : Prop :=
  forall s, at_contents m s -> exists a s', c s = (Ok a, s').

Lemma c_ret {A} m (a : A) : completes m (ret a).
Proof. intros s _. by do 2 eexists. Qed.

Lemma c_ret_bind {A B} m (a : A) (k : A -> ST M B) :
  completes m (k a) -> completes m (bind (ret a) k).
Proof. done. Qed.

Lemma c_fail_if {A} m b e (k : unit -> ST M A) :
  b = false -> completes m (k tt) -> completes m (bind (fail_if b e) k).
Proof. intros -> Hk. exact Hk. Qed.

Lemma c_assoc {A B C} m (c : ST M A) (d : A -> ST M B) (k : B -> ST M C) :
  completes m (bind c (fun x => bind (d x) k)) -> completes m (bind (bind c d) k).
Proof.
  intros H s Hs. destruct (H s Hs) as (a & s' & E). do 2 eexists. rewrite <- E.
  unfold bind. by destruct (c s) as [[| |] ?].
Qed.

Lemma c_lift {A B} m (o : Outcome A) a (k : A -> ST M B) :
  o = Ok a -> completes m (k a) -> completes m (bind (lift o) k).
Proof. intros -> Hk. exact Hk. Qed.

Lemma c_add64 {B} m x y (k : Z -> ST M B) :
  u64 x -> u64 y -> x + y < 2 ^ 64 -> completes m (k (x + y)) ->
  completes m (bind (lift (smath_Add x y)) k).
Proof.
  intros Hx Hy Hlt. apply c_lift. rewrite smath_Add_spec by done.
  by rewrite (proj2 (Z.ltb_lt _ _) Hlt).
Qed.

Lemma c_sub64 {B} m x y (k : Z -> ST M B) :
  u64 x -> u64 y -> y <= x -> completes m (k (x - y)) ->
  completes m (bind (lift (smath_Sub x y)) k).
Proof.
  intros Hx Hy Hle. apply c_lift. rewrite smath_Sub_spec by done.
  by rewrite (proj2 (Z.leb_le _ _) Hle).
Qed.

Lemma c_get {A B} m key e (parse : bytes -> Outcome A) a (k : A -> ST M B) :
  G key -> stored parse m key = Some a -> completes m (k a) ->
  completes m (bind (get_parsed key e parse) k).
Proof.
  intros HG Hs Hk s [E Hg]. subst. erewrite bind_run by (apply get_parsed_granted; eauto).
  by apply Hk.
Qed.

Lemma c_missing {A B} m key e (parse : bytes -> Outcome A) (k : A + Error -> ST M B) :
  G key -> m !! key = None -> completes m (k (inr e)) ->
  completes m (bind (catch (get_parsed key e parse)) k).
Proof.
  intros HG Hs Hk s [E Hg]. subst. unfold catch at 1, bind.
  rewrite get_parsed_missing by eauto. by apply Hk.
Qed.

Lemma c_put {B} m key v (k : unit -> ST M B) :
  G key -> len v <= 64 * key_chunks key -> completes (<[key := v]> m) (k tt) ->
  completes m (bind (put key v) k).
Proof.
  intros HG Hl Hk s [E Hg]. subst. destruct (put_granted key v s) as (s' & Hp & Hs' & Hg');
    [by apply Hg|done|]. erewrite bind_run by exact Hp. apply Hk. split; [done|]. eauto.
Qed.

Lemma c_sub {B} m key n e (k : Z -> ST M B) :
  G key -> cell_wf m key -> u64 n -> 1 <= key_chunks key -> 0 < n <= cell m key ->
  completes (set_cell m key (cell m key - n)) (k (cell m key - n)) ->
  completes m (bind (sub_cell key n e) k).
Proof.
  intros HG Hw Hu Hc Hn Hk s [E Hg]. subst.
  destruct (sub_cell_granted key n e s) as (s' & Hg' & H); [by apply Hg|done..|].
  assert (Hex : is_Some (contents s !! key)).
  { unfold cell in Hn. destruct (contents s !! key); [by eexists|cbn in Hn; lia]. }
  rewrite (bool_decide_true _ Hex), (proj2 (Z.leb_le _ _) (proj2 Hn)) in H.
  destruct H as [Hr Hs']. erewrite bind_run by exact Hr. apply Hk. split; [done|]. eauto.
Qed.

Lemma c_add {B} m key n e (k : Z -> ST M B) :
  G key -> cell_wf m key -> u64 n -> 1 <= key_chunks key -> cell m key + n < 2 ^ 64 ->
  completes (<[key := be 8 (cell m key + n)]> m) (k (cell m key + n)) ->
  completes m (bind (add_cell key n e) k).
Proof.
  intros HG Hw Hu Hc Hn Hk s [E Hg]. subst.
  destruct (add_cell_granted key n e s) as (s' & Hg' & H); [by apply Hg|done..|].
  rewrite (proj2 (Z.ltb_lt _ _) Hn) in H.
  destruct H as [Hr Hs']. erewrite bind_run by exact Hr. apply Hk. split; [done|]. eauto.
Qed.

Lemma c_read {B} m key (k : Z * bool -> ST M B) :
  G key -> cell_wf m key ->
  completes m (k (cell m key, bool_decide (is_Some (m !! key)))) ->
  completes m (bind (read_cell key) k).
Proof.
  intros HG Hw Hk s [E Hg]. subst.
  erewrite bind_run by (apply read_cell_granted; [by apply Hg|done]).
  by apply Hk.
Qed.

(** Cells stay well formed. *)
Lemma cell_wf_set m k k' n : cell_wf m k' -> cell_wf (set_cell m k n) k'.
Proof.
  unfold cell_wf, set_cell. destruct (decide (k = k')) as [->|Hne].
  - destruct (n =? 0); [by rewrite lookup_delete_eq|]. by rewrite lookup_insert_eq, length_be.
  - destruct (n =? 0); [by rewrite lookup_delete_ne|by rewrite lookup_insert_ne].
Qed.
Lemma cell_wf_add m k k' n : cell_wf m k' -> cell_wf (<[k := be 8 n]> m) k'.
Proof.
  unfold cell_wf. destruct (decide (k = k')) as [->|Hne];
    [by rewrite lookup_insert_eq, length_be|by rewrite lookup_insert_ne].
Qed.
Lemma cell_wf_insert_ne m k k' v : k <> k' -> cell_wf m k' -> cell_wf (<[k := v]> m) k'.
Proof. intros. unfold cell_wf. by rewrite lookup_insert_ne. Qed.
End completes.

Section completes_locals.
Context {M : Type} {MU : Mutable M} {MS : MutableSpec M} (G : bytes -> Prop).

Lemma c_defer_metric {A} m report (body : ST (M * zkMetricsCollector) A) :
  completes G m body -> completes G m (defer_metric report body).
Proof.
  intros Hb s Hs. destruct (Hb s Hs) as (a & [t c] & E). unfold defer_metric. rewrite E.
  by do 2 eexists.
Qed.

Lemma c_with_locals {A} m report (body : ST ((M * zkMetricsCollector) * Locals) A) :
  completes G m body -> completes G m (with_locals report body).
Proof.
  intros Hb s Hs. destruct (Hb (s, locals0) Hs) as (a & [[t c] l] & E). unfold with_locals.
  rewrite E. by do 2 eexists.
Qed.

Lemma c_fail_late {A} m b e (k : unit -> ST (M * Locals) A) :
  b = false -> completes G m (k tt) -> completes G m (bind (fail_late b e) k).
Proof. intros -> Hk. exact Hk. Qed.
End completes_locals.

(** ** Well-typed stores *)

Section typed.
Context {PF : Platform} {PS : PlatformSpec}.
Implicit Types (m : gmap bytes bytes).

Lemma typed_cell m s :
  store_typed m ->
  match s with SBalance _ | SVAIBalance _ | SLPBalance _ _ _ => True | _ => False end ->
  cell_wf m (slot_key s).
Proof.
  intros Hm Hs. unfold cell_wf. destruct (m !! slot_key s) as [v|] eqn:E; [|done].
  apply Hm in E. by destruct s.
Qed.

(** A cell that reads as nothing is empty. *)
Lemma typed_none {A} (parse : bytes -> Outcome A) m k :
  (forall v, m !! k = Some v -> parses parse v) -> stored parse m k = None -> m !! k = None.
Proof.
  unfold stored. intros Hp H. destruct (m !! k) as [v|]; [|done].
  destruct (Hp v eq_refl) as [a Ha]. by rewrite Ha in H.
Qed.

Lemma key_declared {P} (l : list (bytes * P)) k : In k l.*1 -> is_Some (state_keys l !! k).
Proof.
  intros H. destruct (state_keys_lookup l k) as (p & Hp & _); [|by eexists].
  apply list_elem_of_In, list_elem_of_fmap in H as ([k' p] & -> & H).
  exists p. by apply list_elem_of_In.
Qed.
End typed.

(** ** The actions *)

Ltac granted_key :=
  cbv beta; unfold_keys; apply key_declared; cbn [fmap list_fmap fst In];
  repeat first [left; reflexivity | right].

(** The size of a value against the chunks of its key. *)
Ltac fits_key :=
  chunks; unfold len in *; autorewrite with lengths in *; cbv [BalanceChunks
    MarketChunks CommitmentChunks BatchChunks OracleChunks TreasuryConfigChunks TreasuryStateChunks
    FeeRouterConfigChunks FeeRouterStateChunks VAIConfigChunks VAIStateChunks VAIBalanceChunks
    PoolChunks LPBalanceChunks RiskConfigChunks ReserveStateChunks ProofConfigChunks
    BatchProofChunks VellumProofChunks BloodswornChunks GlyphChunks] in *; lia.

(** A balance cell in a store reached by writes. *)
Ltac wf_cell :=
  repeat first [ apply cell_wf_set | apply cell_wf_add | apply cell_wf_insert_ne; [key_ne|] ];
  lazymatch goal with
  | |- cell_wf _ ?k => let s := slot_of k in apply (typed_cell _ s); done
  end.

(** One step of a handler whose checks pass. *)
Ltac c_step :=
  lazymatch goal with
  | |- completes _ _ (ret _) => apply c_ret
  | |- completes _ _ (bind (bind _ _) _) => apply c_assoc; cbn beta iota
  | |- completes _ _ (bind (fail_if _ _) _) => apply c_fail_if; [|cbn beta iota]
  | |- completes _ _ (bind (lift (smath_Add _ _)) _) => apply c_add64; [..|cbn beta iota]
  | |- completes _ _ (bind (lift (smath_Sub _ _)) _) => apply c_sub64; [..|cbn beta iota]
  | |- completes _ _ (bind (get_parsed _ _ _) _) =>
      eapply c_get; [granted_key|first [eassumption | reads; eassumption]|cbn beta iota]
  | |- completes _ _ (bind (put _ _) _) => apply c_put; [granted_key| |cbn beta iota]
  | |- completes _ _ (bind (read_cell _) _) =>
      apply c_read; [granted_key|wf_cell|cbn beta iota]
  | |- completes _ _ (bind (ret _) _) => apply c_ret_bind; cbn beta iota
  | |- completes _ _ (bind (sub_cell _ _ _) _) =>
      apply c_sub; [granted_key|wf_cell|u64_side|fits_key| |cbn beta iota]
  | |- completes _ _ (bind (add_cell _ _ _) _) =>
      apply c_add; [granted_key|wf_cell|u64_side|fits_key| |cbn beta iota]
  end.

Section bloodsworn.
Context {PF : Platform} {N : Type} {NU : Mutable N} {NS : MutableSpec N} (G : bytes -> Prop).

Lemma c_bloodsworn {A} m x b (k : Bloodsworn.t -> ST N A) :
  G (BloodswornKey x) -> bloodsworn_at m x = Some b -> completes G m (k b) ->
  completes G m (bind (GetBloodsworn x) k).
Proof.
  intros HG Hb Hk s [E Hg]. subst. erewrite bind_run; [by apply Hk|].
  unfold GetBloodsworn. rewrite granted_GetValue by auto. unfold bloodsworn_at, stored in Hb.
  destruct (contents s !! BloodswornKey x); [|by injection Hb as <-].
  destruct (Bloodsworn.parse _); [by injection Hb as <-|done..].
Qed.
End bloodsworn.
