(* ===== verification/Progress.v ===== *)
(** * The chain accepts exactly what the reference machine accepts

    [Refinement.v] shows that what the chain accepts the reference machine
    accepts. Here is the converse: in a well-typed store that grants the keys
    the action declares, an action the reference machine accepts succeeds,
    provided that what it writes fits the chunks of its keys. *)
From S2P Require Import Prelude Errors Go Platform Sha256 Storage Concrete Balance Action.
From S2P Require Import AmmMath Transfer ProofEnvelope ProofEnvelopeFacts Pools PoolFacts Vai.
From S2P Require Import VaiFacts Treasury TreasuryFacts Metrics Markets Proofs MarketFacts.
From S2P Require Import ProofFacts Genesis Chain Footprint Ledger Lifecycle Authority Reference.
From S2P Require Import Refinement GenesisFacts TypedStore Completion.

(** ** The actions *)

Section actions.
Context {PF : Platform} {PS : PlatformSpec} {M : Type} {MU : Mutable M} {MS : MutableSpec M}.
Context {TX : Text}.
Implicit Types (m : gmap bytes bytes).

(** What the reference machine read and checked, of the contents. *)
Ltac observed :=
  cbn [accounts economy rules desk on_accounts on_economy on_rules on_desk abs abs_accounts
    abs_economy abs_rules abs_desk veil vai lp pool issued fees backing treasury mint_rules
    fee_rules risk_rules treasury_rules proof_rules market standing] in *;
  unfold u64 in *.

Lemma transfer_completes a ts actor tx m t :
  s_ok a -> store_typed m -> transfer a actor (abs m) = Some t ->
  completes (fun k => is_Some (Transfer.StateKeys a actor tx !! k)) m
    (Transfer.Execute (M := M) a ts actor tx).
Proof.
  intros Ha Hm H. cbn in Ha. unfold transfer, post_veil in H. op_inv. destruct_and?.
  observed. unfold Transfer.Execute, SubBalance, AddBalance. repeat c_step; try lia.
  rewrite veil_set by (unfold u64; lia). rewrite Z.add_opp_r in *. lia.
Qed.

Lemma open_market_completes a ts actor tx m t :
  s_ok a -> store_typed m -> open_market a actor (abs m) = Some t ->
  len (CreateMarket.Question a) + 11 <= 64 * MarketChunks ->
  completes (fun k => is_Some (CreateMarket.StateKeys a actor tx !! k)) m
    (CreateMarket.Execute (M := M) a ts actor tx).
Proof.
  intros Ha Hm H Hfit. cbn in Ha. unfold open_market in H.
  destruct (market _ _) eqn:Hnone; [discriminate H|]. unfold post_veil in H. op_inv. destruct_and?.
  observed. apply typed_none in Hnone; [|intros v; apply (Hm (SMarket _))].
  unfold CreateMarket.Execute, SubBalance, PutMarket, GetMarket. repeat c_step; try lia.
  apply c_missing; [granted_key|done|]. cbn beta iota. repeat c_step; try lia; try done.
  unfold Market.encode. cbn [Market.Question]. fits_key.
Qed.

Lemma active_some id m x :
  active id (abs m) = Some x ->
  stored Market.parse m (MarketKey id) = Some x /\ Market.Status x = MarketStatusActive.
Proof. unfold active. intros H. op_inv. by split. Qed.

(** The market cell takes the market again. *)
Definition market_fits m (id : ID) : Prop :=
  forall x, stored Market.parse m (MarketKey id) = Some x ->
            len (Market.Question x) + 11 <= 64 * MarketChunks.

Lemma market_again m id status outcome x :
  market_fits m id -> stored Market.parse m (MarketKey id) = Some x ->
  len (Market.encode (with_status status outcome x)) <= 64 * key_chunks (MarketKey id).
Proof.
  intros Hf Hx. apply Hf in Hx. unfold Market.encode, with_status. cbn [Market.Question]. fits_key.
Qed.

Lemma resolve_completes a ts actor tx m t :
  s_ok a -> resolve a (abs m) = Some t -> market_fits m (ResolveMarket.MarketID a) ->
  completes (fun k => is_Some (ResolveMarket.StateKeys a actor tx !! k)) m
    (ResolveMarket.Execute (M := M) a ts actor tx).
Proof.
  intros Ha H Hfit. unfold resolve in H. op_inv. destruct_and?.
  match goal with E : active _ _ = Some _ |- _ => apply active_some in E as [Hx Hs] end.
  unfold ResolveMarket.Execute, PutMarket, GetMarket. unfold len in *. repeat c_step; try lia.
  by apply (market_again m _ MarketStatusResolved).
Qed.

Lemma dispute_completes a ts actor tx m t :
  s_ok a -> store_typed m -> dispute a actor (abs m) = Some t ->
  market_fits m (Dispute.MarketID a) -> len (Dispute.Evidence a) + 8 <= 64 * OracleChunks ->
  completes (fun k => is_Some (Dispute.StateKeys a actor tx !! k)) m
    (Dispute.Execute (M := M) a ts actor tx).
Proof.
  intros Ha Hm H Hfit Hev. cbn in Ha. unfold dispute, post_veil in H. op_inv. destruct_and?.
  observed. unfold Dispute.Execute, SubBalance, PutMarket, PutDispute, GetMarket.
  unfold len in *. repeat c_step; try lia.
  - by apply (market_again m _ MarketStatusDisputed).
  - fits_key.
Qed.

Lemma commit_order_completes e a ts actor tx m t :
  s_ok a -> commit_order a actor (abs m) = Some t ->
  len (CommitOrder.Commitment a) + len (CommitOrder.Envelope a) <= 64 * CommitmentChunks ->
  completes (fun k => is_Some (CommitOrder.StateKeys a actor tx !! k)) m
    (CommitOrder.Execute (M := M) e a ts actor tx).
Proof.
  intros Ha H Hfit. unfold commit_order in H. op_inv. destruct_and?.
  match goal with E : active _ _ = Some _ |- _ => apply active_some in E as [Hx Hs] end.
  unfold CommitOrder.Execute, CommitOrder.body, PutCommitment, GetMarket.
  apply c_defer_metric. unfold len in *. repeat c_step; try lia. fits_key.
Qed.

Lemma reveal_completes e a ts actor tx m t :
  s_ok a -> reveal a (abs m) = Some t ->
  len (RevealBatch.DecryptionShare a) + 8 <= 64 * OracleChunks ->
  completes (fun k => is_Some (RevealBatch.StateKeys a actor tx !! k)) m
    (RevealBatch.Execute (M := M) e a ts actor tx).
Proof.
  intros Ha H Hfit. unfold reveal in H. op_inv. destruct_and?.
  match goal with E : active _ _ = Some _ |- _ => apply active_some in E as [Hx Hs] end.
  unfold RevealBatch.Execute, RevealBatch.body, GetMarket.
  apply c_defer_metric. unfold len in *. repeat c_step; try lia. fits_key.
Qed.

Lemma route_fees_completes a ts actor tx m t :
  s_ok a -> store_typed m -> route_fees a actor (abs m) = Some t ->
  completes (fun k => is_Some (RouteFees.StateKeys a actor tx !! k)) m
    (RouteFees.Execute (M := M) a ts actor tx).
Proof.
  intros Ha Hm H. cbn in Ha. unfold route_fees in H.
  apply bind_Some in H as (cfg & Hc & H). apply bind_Some in H as (st & Hst & H).
  destruct (RouteFees.shares cfg (RouteFees.Amount a)) as [[x y] z] eqn:Hsh.
  apply require_ok in H as [[Hpos Hok] H]. apply bind_Some in H as (s1 & Hbal & _).
  apply require_ok in Hbal as [Hbal _].
  pose proof (stored_ok _ _ _ _ _ FeeRouterConfig_parse_ok Hc) as Hcfg.
  pose proof (stored_ok _ _ _ _ _ FeeRouterState_parse_ok Hst) as (? & ? & ?).
  pose proof (shares_sum _ _ _ _ _ Hcfg Ha Hsh) as (? & ? & ? & ?).
  unfold FeeRouterState.ok in Hok. cbn in Hok. observed. destruct_and?.
  unfold RouteFees.Execute, SubBalance, PutFeeRouterState, GetFeeRouterConfig, GetFeeRouterState.
  repeat c_step; rewrite ?Hsh; repeat c_step; try (unfold u64; lia).
  unfold FeeRouterState.encode. fits_key.
Qed.

Lemma release_completes a ts actor tx m t :
  s_ok a -> release a ts actor (abs m) = Some t ->
  completes (fun k => is_Some (ReleaseCOLTranche.StateKeys a actor tx !! k)) m
    (ReleaseCOLTranche.Execute (M := M) a ts actor tx).
Proof.
  intros Ha H. cbn in Ha. unfold release in H. op_inv. destruct_and?.
  match goal with H : treasury (economy _) = Some _ |- _ =>
    pose proof (stored_ok _ _ _ _ _ TreasuryState_parse_ok H) as (? & ? & ? & ?) end.
  observed. unfold ReleaseCOLTranche.Execute, PutTreasuryState, GetTreasuryConfig, GetTreasuryState.
  repeat c_step; try (unfold u64; lia); try (by rewrite bool_decide_true).
  unfold TreasuryState.encode. fits_key.
Qed.

Lemma mint_completes a ts actor tx m t :
  s_ok a -> i64 ts -> store_typed m -> mint a ts actor (abs m) = Some t ->
  completes (fun k => is_Some (MintVAI.StateKeys a actor tx !! k)) m
    (MintVAI.Execute (M := M) a ts actor tx).
Proof.
  intros Ha Hts Hm H. cbn in Ha. unfold mint in H.
  apply bind_Some in H as (cfg & Hc & H). apply bind_Some in H as (st & Hst & H).
  apply bind_Some in H as (risk & Hr & H). apply bind_Some in H as (res & Hres & H).
  destruct (MintVAI.roll_epoch cfg st ts) as [start minted] eqn:Hroll.
  apply require_ok in H as [Hg H]. apply bind_Some in H as (s1 & Hbal & _).
  apply require_ok in Hbal as [Hbal _].
  pose proof (stored_ok _ _ _ _ _ VAIConfig_parse_ok Hc) as (? & ? & ?).
  pose proof (stored_ok _ _ _ _ _ VAIState_parse_ok Hst) as Hok.
  pose proof (roll_epoch_range cfg st ts Hok Hts) as [_ Hmin]. rewrite Hroll in Hmin.
  destruct Hok as (? & ? & ?). observed. destruct_and?.
  unfold MintVAI.Execute, AddVAIBalance, PutVAIState, GetVAIConfig, GetVAIState, GetRiskConfig,
    GetReserveState.
  repeat c_step; rewrite ?Hroll; cbn beta iota; repeat c_step; try (unfold u64; cbn in *; lia);
    try (by rewrite bool_decide_true).
  unfold VAIState.encode. fits_key.
Qed.

Lemma burn_completes a ts actor tx m t :
  s_ok a -> store_typed m -> burn a actor (abs m) = Some t ->
  completes (fun k => is_Some (BurnVAI.StateKeys a actor tx !! k)) m
    (BurnVAI.Execute (M := M) a ts actor tx).
Proof.
  intros Ha Hm H. cbn in Ha. unfold burn, post_vai in H. op_inv. destruct_and?. observed.
  unfold BurnVAI.Execute, SubVAIBalance, PutVAIState, GetVAIState.
  repeat c_step; try (unfold u64; lia).
  unfold VAIState.encode. fits_key.
Qed.

(** Writing what only governance may write. *)
Lemma is_ok_tt (o : Outcome unit) : is_ok o = true -> o = Ok tt.
Proof. by destruct o as [[]| |]. Qed.

Ltac by_governance :=
  repeat c_step; try (by rewrite bool_decide_true).

Lemma update_reserve_completes a ts actor tx m t :
  update_reserve a actor (abs m) = Some t ->
  completes (fun k => is_Some (UpdateReserveState.StateKeys a actor tx !! k)) m
    (UpdateReserveState.Execute (M := M) a ts actor tx).
Proof.
  intros H. unfold update_reserve in H. op_inv. observed.
  unfold UpdateReserveState.Execute, GetTreasuryConfig, PutReserveState. by_governance.
  unfold ReserveState.encode. fits_key.
Qed.

Lemma set_risk_completes a ts actor tx m t :
  set_risk a actor (abs m) = Some t ->
  completes (fun k => is_Some (SetRiskParams.StateKeys a actor tx !! k)) m
    (SetRiskParams.Execute (M := M) a ts actor tx).
Proof.
  intros H. unfold set_risk in H. op_inv. observed.
  unfold SetRiskParams.Execute, GetTreasuryConfig, PutRiskConfig. by_governance.
  eapply c_lift; [by apply is_ok_tt|]. by_governance.
  unfold RiskConfig.encode. fits_key.
Qed.

Lemma set_proof_rules_completes a ts actor tx m t :
  set_proof_rules a actor (abs m) = Some t ->
  completes (fun k => is_Some (SetProofConfig.StateKeys a actor tx !! k)) m
    (SetProofConfig.Execute (M := M) a ts actor tx).
Proof.
  intros H. unfold set_proof_rules in H. op_inv. observed.
  unfold SetProofConfig.Execute, GetTreasuryConfig, PutProofConfig. by_governance.
  eapply c_lift; [by apply is_ok_tt|]. by_governance.
  unfold ProofConfig.encode. fits_key.
Qed.

(** ** The pool *)

Lemma is_pair_valid a b : is_pair a b -> validateAssetPair a b = Ok tt.
Proof. by intros [[-> ->]|[-> ->]]. Qed.

Lemma is_pair_sorted a b : is_pair a b -> sortedPair a b = (AssetVEIL, AssetVAI).
Proof. by intros [[-> ->]|[-> ->]]. Qed.

Lemma is_pair_key a b : is_pair a b -> PoolKey a b = PoolKey AssetVEIL AssetVAI.
Proof. by intros [[-> ->]|[-> ->]]. Qed.

Lemma pool_fits p a b : len (Pool.encode p) <= 64 * key_chunks (PoolKey a b).
Proof. unfold Pool.encode. destruct (sortedAssetPair _ _). fits_key. Qed.

Lemma create_pool_completes a ts actor tx m t :
  store_typed m -> create_pool a actor (abs m) = Some t ->
  completes (fun k => is_Some (CreatePool.StateKeys a actor tx !! k)) m
    (CreatePool.Execute (M := M) a ts actor tx).
Proof.
  intros Hm H. unfold create_pool in H. destruct (pool _) eqn:Hn; op_inv; [done|].
  observed. destruct_and?. match goal with P : is_pair _ _ |- _ => rename P into Hp end.
  apply typed_none in Hn; [|intros v; apply (Hm (SPool _ _))].
  unfold CreatePool.Execute, GetTreasuryConfig, GetPool, PutPool.
  eapply c_lift; [by apply is_pair_valid|]. repeat c_step; [lia|by rewrite bool_decide_true|].
  apply c_missing; [granted_key|by rewrite is_pair_key|]. cbn beta iota.
  rewrite (is_pair_sorted _ _ Hp). c_step; [done|].
  cbn [Pool.Asset0 Pool.Asset1]. rewrite <- (is_pair_key _ _ Hp). repeat c_step.
  apply pool_fits.
Qed.


(** The pool read from the contents, as a record of its pair. *)
Lemma pool_fields m p :
  pool_inv m -> pool_at m = Some p ->
  exists f x y l, p = Pool.mk AssetVEIL AssetVAI f x y l /\ u64 x /\ u64 y /\ u64 l /\
    MinPoolFeeBips <= f <= MaxPoolFeeBips.
Proof.
  unfold pool_inv. intros H Hp. rewrite Hp in H. destruct H as [(E0 & E1 & ?) _].
  pose proof (stored_ok _ _ _ _ _ Pool_parse_ok Hp) as (_ & _ & _ & ? & ? & ?).
  destruct p as [P0 P1 f x y l]. cbn in *. subst. by exists f, x, y, l.
Qed.


Lemma sub_veil actor n : subAssetBalance (M := M) actor AssetVEIL n = SubBalance actor n.
Proof. done. Qed.
Lemma sub_vai actor n : subAssetBalance (M := M) actor AssetVAI n = SubVAIBalance actor n.
Proof. done. Qed.
Lemma add_veil actor n : addAssetBalance (M := M) actor AssetVEIL n = AddBalance actor n.
Proof. done. Qed.
Lemma add_vai actor n : addAssetBalance (M := M) actor AssetVAI n = AddVAIBalance actor n.
Proof. done. Qed.

Lemma pick_same a x y : pick a a x y = x.
Proof. unfold pick. by rewrite Z.eqb_refl. Qed.
Lemma pick_other x y : pick AssetVEIL AssetVAI x y = y /\ pick AssetVAI AssetVEIL x y = y.
Proof. done. Qed.
Lemma pick_u64 a b x y : u64 x -> u64 y -> u64 (pick a b x y).
Proof. unfold pick. by destruct (a =? b). Qed.

Ltac fields :=
  cbn [Pool.Asset0 Pool.Asset1 Pool.FeeBips Pool.Reserve0 Pool.Reserve1 Pool.TotalLP
    AddLiquidity.Asset0 AddLiquidity.Asset1 AddLiquidity.Amount0 AddLiquidity.Amount1
    AddLiquidity.MinLP RemoveLiquidity.Asset0 RemoveLiquidity.Asset1 RemoveLiquidity.LPAmount
    RemoveLiquidity.MinAmount0 RemoveLiquidity.MinAmount1 SwapExactIn.AssetIn
    SwapExactIn.AssetOut SwapExactIn.AmountIn SwapExactIn.MinAmountOut] in *.
(** The fields of the pools and of the arguments of an action on [AssetVEIL],
    [AssetVAI] in either order. *)
Ltac pool_facts :=
  repeat match goal with H : Pool.ok _ |- _ => destruct H as (_ & _ & _ & ? & ? & ?) end;
  rewrite ?pick_same, ?(proj1 (pick_other _ _)), ?(proj2 (pick_other _ _)) in *;
  fields; unfold u64 in *.

Ltac pool_body :=
  unfold GetPool, PutPool, GetLPBalance, AddLPBalance, SubLPBalance;
  rewrite ?sub_veil, ?sub_vai, ?add_veil, ?add_vai;
  unfold SubBalance, SubVAIBalance, AddBalance, AddVAIBalance.
Ltac pool_side := first [apply pool_fits | fields; reads; unfold u64; lia].
Ltac pool_step :=
  lazymatch goal with
  | |- completes _ _ (bind (addAssetBalance _ _ _) _) => progress (fields; pool_body)
  | |- completes _ _ (bind (lift (smath_Add _ _)) _) => c_step
  | |- completes _ _ (bind (lift (smath_Sub _ _)) _) => c_step
  | |- completes _ _ (bind (lift _) _) => eapply c_lift; [first [reflexivity | eassumption]|]
  | _ => c_step
  end; cbn beta iota; try pool_side.

Lemma add_liquidity_completes a ts actor tx m t :
  s_ok a -> pool_inv m -> store_typed m -> add_liquidity a actor (abs m) = Some t ->
  completes (fun k => is_Some (AddLiquidity.StateKeys a actor tx !! k)) m
    (AddLiquidity.Execute (M := M) a ts actor tx).
Proof.
  intros Ha Hinv Hm H. unfold add_liquidity in H. apply bind_Some in H as (p & Hpool & H).
  destruct (pool_fields _ _ Hinv Hpool) as (f & R0 & R1 & T & -> & H0 & H1 & HT & _).
  apply require_ok in H as [[Hp Hfit] H]. unfold settle, post_veil, post_vai, post_lp in H.
  op_inv. pose proof Hpool as Hok. apply (stored_ok _ _ _ _ _ Pool_parse_ok) in Hok.
  destruct a as [A0 A1 X Y L]. cbn in Ha. destruct_and?.
  apply minted_lp_iff in Hfit as [l Hl]; [|by try apply pick_u64..].
  pose proof Hl as Hl2. apply minted_lp_ok in Hl2 as (Hlu & Hlp & _); [|by try apply pick_u64..].
  rewrite <- Hlp in *. clear Hlp. observed.
  destruct Hp as [[E0 E1]|[E0 E1]]; cbn in E0, E1; subst A0 A1;
    fields; pool_facts; unfold AddLiquidity.Execute; pool_body; repeat pool_step.
Qed.

Lemma mulDiv_runs a b den :
  0 < den -> a * b / den < 2 ^ 64 -> mulDiv a b den = Ok (a * b / den).
Proof.
  intros Hd Hlt. unfold mulDiv. rewrite (proj2 (Z.eqb_neq _ _)) by lia.
  by rewrite (proj2 (Z.ltb_lt _ _) Hlt).
Qed.

(** A share of a reserve is at most the reserve. *)
Lemma redeem_le l r t : 0 <= r -> 0 < l <= t -> 0 <= l * r / t <= r.
Proof.
  intros Hr Hl. split; [apply Z.div_pos; nia|]. apply Z.div_le_upper_bound; nia.
Qed.

Lemma remove_liquidity_completes a ts actor tx m t :
  s_ok a -> pool_inv m -> store_typed m -> remove_liquidity a actor (abs m) = Some t ->
  completes (fun k => is_Some (RemoveLiquidity.StateKeys a actor tx !! k)) m
    (RemoveLiquidity.Execute (M := M) a ts actor tx).
Proof.
  intros Ha Hinv Hm H. unfold remove_liquidity in H. apply bind_Some in H as (p & Hpool & H).
  destruct (pool_fields _ _ Hinv Hpool) as (f & R0 & R1 & T & -> & H0 & H1 & HT & _).
  apply require_ok in H as [(Hp & Hl & Hx & Hy & Hm0 & Hm1) H].
  unfold settle, post_veil, post_vai, post_lp in H. op_inv.
  destruct a as [A0 A1 L X Y]. cbn in Ha. destruct Ha as (_ & _ & ? & _). observed.
  unfold redeem, reserve in *.
  change (AssetVEIL =? AssetVEIL) with true in *. change (AssetVAI =? AssetVEIL) with false in *.
  cbn iota in *. fields.
  pose proof (redeem_le L R0 T (proj1 H0) Hl). pose proof (redeem_le L R1 T (proj1 H1) Hl).
  assert (mulDiv L R0 T = Ok (L * R0 / T)) by (apply mulDiv_runs; unfold u64 in *; lia).
  assert (mulDiv L R1 T = Ok (L * R1 / T)) by (apply mulDiv_runs; unfold u64 in *; lia).
  generalize dependent (L * R0 / T). intros x. generalize dependent (L * R1 / T). intros y. intros.
  destruct Hp as [[E0 E1]|[E0 E1]]; cbn in E0, E1; subst A0 A1;
    fields; pool_facts; unfold RemoveLiquidity.Execute; pool_body; repeat pool_step.
Qed.

(** A trade pays less than the reserve it draws on, and the fee stays below. *)
Lemma swap_out_le i o n : 0 <= n -> 0 < i -> 0 <= o -> 0 <= swap_out i o n <= o.
Proof.
  intros Hn Hi Ho. unfold swap_out. split; [apply Z.div_pos; nia|].
  apply Z.div_le_upper_bound; nia.
Qed.
Lemma swap_in_fee_le n f :
  0 <= n -> MinPoolFeeBips <= f <= MaxPoolFeeBips -> 0 <= swap_in_fee n f <= n.
Proof.
  unfold swap_in_fee, MinPoolFeeBips, MaxPoolFeeBips. intros Hn Hf.
  split; [apply Z.div_pos; nia|]. apply Z.div_le_upper_bound; nia.
Qed.

Lemma swap_amounts n f i o :
  u64 n -> u64 o -> 0 < i -> MinPoolFeeBips <= f <= MaxPoolFeeBips ->
  let g := swap_in_fee n f in
  (0 <= g <= n /\ 0 <= swap_out i o g <= o) /\
  mulDiv n (wrap_u16 (10000 - f)) 10000 = Ok g /\ mulDiv o g (i + g) = Ok (swap_out i o g).
Proof.
  intros Hn Ho Hi Hf g. unfold u64 in *. assert (0 <= g <= n) by (apply swap_in_fee_le; [lia|done]).
  assert (0 <= swap_out i o g <= o) by (apply swap_out_le; lia). split; [done|]. split.
  - rewrite wrap_u16_small by (unfold u16, MinPoolFeeBips, MaxPoolFeeBips in *; lia).
    subst g. unfold swap_in_fee in *. apply mulDiv_runs; lia.
  - unfold swap_out in *. apply mulDiv_runs; lia.
Qed.

Lemma next_reserves_runs (b : bool) f x y l n out :
  u64 x -> u64 y -> u64 n -> u64 out ->
  (if b then x + n < 2 ^ 64 /\ out <= y else y + n < 2 ^ 64 /\ out <= x) ->
  SwapExactIn.next_reserves b (Pool.mk AssetVEIL AssetVAI f x y l) n out
  = Ok (if b then (x + n, y - out) else (x - out, y + n)).
Proof.
  intros. unfold SwapExactIn.next_reserves. fields. destruct b; rewrite smath_Add_spec by done;
    rewrite (proj2 (Z.ltb_lt _ _)) by lia; cbn [obind]; rewrite smath_Sub_spec by done;
    by rewrite (proj2 (Z.leb_le _ _)) by lia.
Qed.

(** A trade in one direction, with what it pays named. *)
Ltac trade amounts out :=
  destruct amounts as (? & ? & ?); [done..|];
  generalize dependent out; generalize dependent swap_in_fee; intros; pool_facts;
  unfold SwapExactIn.Execute; pool_body; repeat pool_step;
  (eapply c_lift; [apply next_reserves_runs; fields; unfold u64; lia|]); cbn beta iota;
  repeat pool_step.

Lemma swap_completes a ts actor tx m t :
  s_ok a -> pool_inv m -> store_typed m -> swap a actor (abs m) = Some t ->
  completes (fun k => is_Some (SwapExactIn.StateKeys a actor tx !! k)) m
    (SwapExactIn.Execute (M := M) a ts actor tx).
Proof.
  intros Ha Hinv Hm H. unfold swap in H. apply bind_Some in H as (p & Hpool & H).
  destruct (pool_fields _ _ Hinv Hpool) as (f & R0 & R1 & T & -> & H0 & H1 & HT & Hf).
  apply require_ok in H as [Hp H]. apply require_ok in H as [(Hn & Hfee & Hi & Ho & Hout & Hmin) H].
  destruct a as [A0 A1 N X]. cbn in Ha. destruct Ha as (_ & _ & Hu & _).
  destruct Hp as [[E0 E1]|[E0 E1]]; cbn in E0, E1; subst A0 A1; fields; unfold reserve in *;
    change (AssetVEIL =? AssetVEIL) with true in *; change (AssetVAI =? AssetVEIL) with false in *;
    cbn iota in *; fields; unfold settle, post_veil, post_vai, post_lp in H; op_inv; observed.
  - trade (swap_amounts N f R0 R1) (swap_out R0 R1 (swap_in_fee N f)).
  - trade (swap_amounts N f R1 R0) (swap_out R1 R0 (swap_in_fee N f)).
Qed.

(** ** Clears and proofs *)

Lemma window_abs {A} u (o : option A) v :
  require (u64 u) o = Some v -> o = Some v.
Proof. by intros [_ ?]%require_ok. Qed.

Lemma backed_backs vc cfg a m : backed vc cfg a (abs m) = true -> proof_backs vc cfg a m.
Proof.
  unfold backed, proof_backs. intros H.
  destruct (record (desk (abs m)) _) as [r|] eqn:Hr; [|done].
  destruct (payload (desk (abs m)) _) as [proof|] eqn:Hp; [|done].
  destruct (parseProofEnvelope proof) as [env| |] eqn:He; [|done..].
  destruct (ClearBatch.computeExpectedPublicInputsHash _ _ _ _ _ _) as [h| |] eqn:Hh; [|done..].
  apply andb_true_iff in H as [(? & ? & ? & ? & ?)%bool_decide_eq_true Hv%is_ok_tt].
  exists r, proof, env, h. apply window_abs in Hr, Hp. by split_and!.
Qed.

Lemma clear_completes vc clk a ts actor tx m t :
  clear vc a actor (abs m) = Some t ->
  completes (fun k => is_Some (ClearBatch.StateKeys a actor tx !! k)) m
    (ClearBatch.Execute (M := M) vc clk a ts actor tx).
Proof.
  intros H s [E HG]. unfold clear in H. op_inv. destruct_and?.
  match goal with E : active _ _ = Some _ |- _ => apply active_some in E as [Hx Hs] end.
  apply clear_batch_runs.
  - repeat (apply Forall_cons_2; [apply HG; granted_key|]). apply Forall_nil_2.
  - rewrite E. split_and!; [done..|by eexists|]. eexists. split; [eassumption|].
    match goal with H : _ = true -> _ |- _ => intros [? ?]%H end.
    split; [done|]. by apply backed_backs.
Qed.



(** What an accepted proof writes passes the checks of its setters and fits. *)
Lemma record_checked a ts actor :
  len (SubmitBatchProof.PublicInputsHash a) = 32 -> len (SubmitBatchProof.FillsHash a) = 32 ->
  BatchProofRecord.check (new_record a ts actor) = Ok tt.
Proof. intros H1 H2. unfold BatchProofRecord.check. cbn. by rewrite H1, H2. Qed.
Lemma record_fits a ts actor id w :
  len (SubmitBatchProof.PublicInputsHash a) = 32 -> len (SubmitBatchProof.FillsHash a) = 32 ->
  len (BatchProofRecord.encode (new_record a ts actor)) <= 64 * key_chunks (BatchProofKey id w).
Proof.
  intros H1 H2. unfold BatchProofRecord.encode, new_record. cbn.
  unfold len in H1, H2. fits_key.
Qed.
Lemma proof_checked p : 0 < len p <= MaxProofBytesSize -> VellumProof.check p = Ok tt.
Proof. intros H. apply guard_false. unfold maxVellumProofBytes, MaxProofBytesSize in *. lia. Qed.
Lemma glyph_checked a ts actor tx : 0 < ts -> Glyph.check (new_glyph a ts actor tx) = Ok tt.
Proof.
  intros Hts. set (g := new_glyph _ _ _ _).
  pose proof (deriveGlyphClass_range (Glyph.Entropy g)).
  pose proof (deriveGlyphRarity_range (Glyph.Entropy g)).
  apply guard_false. cbn in *. lia.
Qed.

Lemma config_valid c :
  ProofConfig.validateProofConfig c = Ok tt ->
  0 < ProofConfig.BatchWindowMs c /\ ProofConfig.RequiredProofType c <> 0.
Proof.
  unfold ProofConfig.validateProofConfig. intros H. go_inv. split; [lia|]. intros Ht.
  by rewrite Ht in *.
Qed.

Lemma submit_completes vc clk a ts actor tx m t :
  s_ok a -> i64 ts -> store_typed m -> submit vc a ts actor tx (abs m) = Some t ->
  len (SubmitBatchProof.Proof a) + 4 <= 64 * VellumProofChunks ->
  completes (fun k => is_Some (SubmitBatchProof.StateKeys a actor tx !! k)) m
    (SubmitBatchProof.Execute (M := M) vc clk a ts actor tx).
Proof.
  intros Ha Hts Hm H Hfit. unfold submit in H.
  apply bind_Some in H as (x & Hx & H). apply active_some in Hx as [Hx Hs].
  apply bind_Some in H as (cfg & Hc & H). apply bind_Some in H as (b & Hb & H).
  apply require_ok in H as [(Hreq & Hact & Hty & Hpi & Hfh & Hl) H].
  apply require_ok in H as [(Hcl & Hrem & Ht & Hv%is_ok_tt) H].
  destruct (record (desk (abs m)) _) eqn:Hn; [done|]. cbn in Ha. destruct_and?.
  change (require (u64 (SubmitBatchProof.WindowID a)) (proof_record m
    (SubmitBatchProof.MarketID a) (SubmitBatchProof.WindowID a)) = None) in Hn.
  rewrite require_intro in Hn by done.
  apply typed_none in Hn; [|intros v; apply (Hm (SBatchProof _ _))].
  pose proof (stored_ok _ _ _ _ _ ProofConfig_parse_ok Hc) as [_ [Hwin Htype]%config_valid].
  unfold SubmitBatchProof.Execute. apply c_with_locals.
  unfold SubmitBatchProof.body, SubmitBatchProof.accept, SubmitBatchProof.ExpectedProofHashSize,
    GetMarket, GetProofConfig, GetBatchProofRecord, PutBatchProofRecord, PutVellumProof,
    PutBloodsworn, PutGlyph, ExpectedFillsHashSize.
  repeat c_step; try (by rewrite ?Hpi, ?Hfh, ?Hreq, ?bool_decide_true by done); try lia.
  rewrite (proj2 (Z.eqb_neq _ _)) by lia. repeat c_step; [by rewrite Hrem|].
  apply c_fail_late; [unfold deadline in *; lia|]. apply c_fail_late; [unfold deadline in *; lia|].
  cbn beta iota. apply c_missing; [granted_key|done|]. cbn beta iota. c_step; [done|].
  eapply c_lift; [exact Hv|]. c_step. eapply c_lift; [by apply record_checked|]. cbn beta iota.
  c_step; [by apply (record_fits a ts actor)|]. c_step. eapply c_lift; [by apply proof_checked|].
  cbn beta iota. c_step.
  { unfold VellumProof.encode. fits_key. }
  eapply c_bloodsworn; [granted_key| |].
  { unfold bloodsworn_at. reads. exact Hb. }
  c_step. { unfold Bloodsworn.encode. fits_key. }
  c_step. eapply c_lift; [apply (glyph_checked a ts actor tx); lia|]. cbn beta iota.
  c_step; [|apply c_ret]. unfold Glyph.encode. fits_key.
Qed.

End actions.

(** ** Every action *)

Section every_action.
Context {PF : Platform} {PS : PlatformSpec} {M : Type} {MU : Mutable M} {MS : MutableSpec M}.
Context {TX : Text}.
Implicit Types (m : gmap bytes bytes).

(** What the action writes fits the chunks of its cells: the argument limits of
    these six actions exceed what the cells hold. *)
Definition fits (act : ChainAction) m : Prop :=
  match act with
  | ACreateMarket a => len (CreateMarket.Question a) + 11 <= 64 * MarketChunks
  | ACommitOrder a =>
      len (CommitOrder.Commitment a) + len (CommitOrder.Envelope a) <= 64 * CommitmentChunks
  | ARevealBatch a => len (RevealBatch.DecryptionShare a) + 8 <= 64 * OracleChunks
  | AResolveMarket a => market_fits m (ResolveMarket.MarketID a)
  | ADispute a => market_fits m (Dispute.MarketID a) /\
                  len (Dispute.Evidence a) + 8 <= 64 * OracleChunks
  | ASubmitBatchProof a => len (SubmitBatchProof.Proof a) + 4 <= 64 * VellumProofChunks
  | _ => True
  end.

Lemma action_completes env act ts actor tx m t :
  action_ok act -> i64 ts -> pool_inv m -> store_typed m -> fits act m ->
  perform env act ts actor tx (abs m) = Some t ->
  completes (fun k => is_Some (StateKeys act actor tx !! k)) m
    (Execute (M := M) env act ts actor tx).
Proof.
  intros Ha Hts Hinv Hm Hfit H.
  destruct act; cbn [perform action_ok fits StateKeys Execute] in *.
  - by eapply transfer_completes.
  - by eapply open_market_completes.
  - by eapply commit_order_completes.
  - by eapply reveal_completes.
  - by eapply clear_completes.
  - by eapply resolve_completes.
  - destruct Hfit. by eapply dispute_completes.
  - by eapply route_fees_completes.
  - by eapply release_completes.
  - by eapply mint_completes.
  - by eapply burn_completes.
  - by eapply create_pool_completes.
  - by eapply add_liquidity_completes.
  - by eapply remove_liquidity_completes.
  - by eapply swap_completes.
  - by eapply update_reserve_completes.
  - by eapply set_risk_completes.
  - by eapply submit_completes.
  - by eapply set_proof_rules_completes.
Qed.

(** C4: the chain accepts exactly what the reference machine accepts: in a
    well-typed state with a consistent pool, both of which every run from genesis
    keeps, and when the platform grants the keys the action declares and its data
    fits its cells, the action succeeds if the machine performs it, with the
    state the machine ends in, and fails if the machine refuses it. *)
Theorem exactly_accepted env act ts actor tx (s : M * zkMetricsCollector) :
  action_ok act -> i64 ts -> pool_inv (contents s) -> store_typed (contents s) ->
  (forall k, is_Some (StateKeys act actor tx !! k) -> granted s k) -> fits act (contents s) ->
  match perform env act ts actor tx (abs (contents s)) with
  | Some t => exists out s', Execute env act ts actor tx s = (Ok out, s') /\ abs (contents s') ≡ t
  | None => forall out s', Execute env act ts actor tx s <> (Ok out, s')
  end.
Proof.
  intros Ha Hts Hinv Hm HG Hfit.
  assert (Href : forall out s', Execute env act ts actor tx s = (Ok out, s') ->
    perform env act ts actor tx (abs (contents s)) ≡ Some (abs (contents s'))).
  { intros out s' H. apply (step_refines (EAction env act ts actor tx)); [|done].
    by eapply step_action. }
  destruct (perform _ _ _ _ _ _) as [t|] eqn:H.
  - destruct (action_completes env act ts actor tx (contents s) t Ha Hts Hinv Hm Hfit H s)
      as (out & s' & E); [by split|].
    exists out, s'. split; [done|]. apply Href in E. inversion E. by symmetry.
  - intros out s' E. apply Href in E. inversion E.
Qed.
End every_action.

(** ** Evaluations *)

Module Samples.
Export TypedStore.Samples.
Definition trade : ChainAction := ASwapExactIn (SwapExactIn.mk AssetVEIL AssetVAI 500 1).
Definition overdraft : ChainAction := ASwapExactIn (SwapExactIn.mk AssetVEIL AssetVAI 5000000 1).
End Samples.
Import Samples.

(** The machine performs the one and refuses the other. *)
Example machine_decides :
  (fun t => vai (accounts t) alice) <$> perform env trade 1000 alice no_tx (abs (contents last))
  = Some 1747 /\
  perform env overdraft 1000 alice no_tx (abs (contents last)) = None.
Proof. split; vm_compute; reflexivity. Qed.

Lemma last_inv : pool_inv (contents last).
Proof. vm_compute. repeat split; congruence. Qed.
Lemma last_typed : store_typed (contents last).
Proof.
  apply (run_typed _ _ _ history_runs).
  exact (genesis_typed loaded full empty genesis_store eq_refl sparse_ok allocs_ok eq_refl
           genesis_runs).
Qed.

Lemma exactly_accepted_witness :
  (exists out s', Execute env trade 1000 alice no_tx last = (Ok out, s')) /\
  forall out s', Execute env overdraft 1000 alice no_tx last <> (Ok out, s').
Proof.
  assert (Ha : action_ok trade) by eval_ok. assert (Hb : action_ok overdraft) by eval_ok.
  assert (Ht : i64 1000) by eval_ok. destruct machine_decides as [(t & E & _)%fmap_Some E'].
  pose proof (exactly_accepted env trade 1000 alice no_tx last Ha Ht last_inv last_typed
    (fun _ _ => I) I) as H.
  pose proof (exactly_accepted env overdraft 1000 alice no_tx last Hb Ht last_inv last_typed
    (fun _ _ => I) I) as H'.
  rewrite E in H. rewrite E' in H'. destruct H as (out & s' & H & _).
  exact (conj (ex_intro _ out (ex_intro _ s' H)) H').
Defined.
