(* ===== verification/ServerFacts.v ===== *)
(** * What the server reports

    The single-key reader and the state view give the same answers; the reserve
    report is the very condition minting is held to; the trust score stays in
    its range. *)
From stdpp Require Import strings.
From S2P Require Import Prelude Errors Go Platform Storage Concrete Balance Action AmmMath.
From S2P Require Import ProofEnvelope Vai VaiFacts Metrics Genesis Server.

(** ** Reading *)

Section reads.
Context {PF : Platform} {M : Type} {MU : Mutable M} {Rules : Type}.

Lemma miss_as_get_or {A} k e (parse : bytes -> Outcome A) f (s : M) :
  read_one f k = GetValue s k ->
  (let? v := miss_as e (read_one f k) in parse v) = (get_parsed k e parse s).1.
Proof.
  intros ->. unfold get_parsed, bind, get_or, lift, miss_as.
  by destruct (GetValue s k) as [v|e'|].
Qed.

Lemma read_cell_from k f (s : M) :
  read_one f k = GetValue s k ->
  (let? (bal, _) := innerGetBalance (read_one f k) in Ok bal)
  = ((let* (bal, _) := read_cell k in ret bal) s).1.
Proof.
  intros ->. unfold read_cell, bind, ret.
  by destruct (innerGetBalance (GetValue s k)) as [[]| |].
Qed.

(** Over a reader that agrees with a state, the methods that read single
    keys answer exactly what the getters the actions use find in that state,
    errors included. *)
Theorem rpc_reads_agree (j : VM M Rules) (s : M) :
  (forall k, read_one (vm_ReadState j) k = GetValue s k) ->
  (forall a, JSONRPCServer.Balance j a = (GetBalance a s).1) /\
  (forall a0 a1 a, JSONRPCServer.LPBalance j a0 a1 a = (GetLPBalance a0 a1 a s).1) /\
  (forall a, JSONRPCServer.VAIBalance j a = (GetVAIBalance a s).1) /\
  (forall id, JSONRPCServer.Market j id =
     let? m := (GetMarket id s).1 in
     Ok (MarketReply.mk (Market.Status m) (Market.Outcomes m) (Market.ResolutionTime m)
           (Market.ResolvedOutcome m) (Market.Question m))) /\
  (forall a0 a1, JSONRPCServer.Pool j a0 a1 =
     let? p := (GetPool a0 a1 s).1 in
     Ok (PoolReply.mk (Pool.Asset0 p) (Pool.Asset1 p) (Pool.FeeBips p) (Pool.Reserve0 p)
           (Pool.Reserve1 p) (Pool.TotalLP p))) /\
  (forall id w, JSONRPCServer.VellumProof j id w =
     let? p := (GetVellumProof id w s).1 in Ok (VellumProofReply.mk p (wrap_u32 (len p)))) /\
  (forall id w, JSONRPCServer.Glyph j id w =
     let? g := (GetGlyph id w s).1 in
     Ok (GlyphReply.mk (Glyph.Class g) (Glyph.Rarity g) (Glyph.CreatedAtMs g) (Glyph.Prover g)
           (array_bytes (Glyph.ProofCommitment g)) (array_bytes (Glyph.PublicInputsHash g))
           (array_bytes (Glyph.Entropy g)))) /\
  (forall a, JSONRPCServer.Bloodsworn j a =
     let? b := (GetBloodsworn a s).1 in
     let '(bips, tier) := scoreBloodswornTrust b in
     Ok (BloodswornReply.mk (Bloodsworn.TotalAcceptedProofs b) (Bloodsworn.ActiveStreak b)
           (Bloodsworn.LastProofAtMs b) (Bloodsworn.ScarCount b) bips tier)).
Proof.
  intros Hf. split_and!; intros.
  - apply read_cell_from, Hf.
  - apply read_cell_from, Hf.
  - apply read_cell_from, Hf.
  - unfold JSONRPCServer.Market, GetMarketFromState. by rewrite (miss_as_get_or _ _ _ _ s).
  - unfold JSONRPCServer.Pool, GetPoolFromState. by rewrite (miss_as_get_or _ _ _ _ s).
  - unfold JSONRPCServer.VellumProof, GetVellumProofFromState.
    by rewrite (miss_as_get_or _ _ _ _ s).
  - unfold JSONRPCServer.Glyph, GetGlyphFromState. by rewrite (miss_as_get_or _ _ _ _ s).
  - unfold JSONRPCServer.Bloodsworn, GetBloodswornFromState, GetBloodsworn. by rewrite Hf.
Qed.
End reads.

(** ** The reserve report *)

Section reserve.
Context {PF : Platform} {PS : PlatformSpec} {M : Type} {MU : Mutable M} {MS : MutableSpec M}.
Context {Rules : Type}.

Lemma backing_meets reserve debt floor :
  u64 reserve -> u64 debt -> u32 floor ->
  (JSONRPCServer.backing reserve debt floor).2 = true <-> debt * floor <= reserve * 10000.
Proof.
  unfold u64, u32, JSONRPCServer.backing. intros Hr Hd Hf. destruct (debt =? 0) eqn:E; bool_simpl.
  - subst. cbn. split; [lia|done].
  - cbn [snd]. pose proof (Z.mul_div_le (reserve * 10000) debt ltac:(lia)) as Hle.
    pose proof (Z.mul_succ_div_gt (reserve * 10000) debt ltac:(lia)) as Hgt.
    set (q := reserve * 10000 / debt) in *. clearbody q.
    destruct (q <? 2 ^ 64) eqn:Hq; bool_simpl; rewrite Z.leb_le; nia.
Qed.

Lemma reserve_reply_ok (j : VM M Rules) (s : M) r :
  vm_ImmutableState j = Ok s -> JSONRPCServer.Reserve j = Ok r ->
  exists res risk st,
    reserve_state (contents s) = Some res /\ risk_config (contents s) = Some risk /\
    vai_state (contents s) = Some st /\
    let b := JSONRPCServer.backing (ReserveState.ExogenousReserve res) (VAIState.TotalDebt st)
               (RiskConfig.BackingFloorBips risk) in
    r = ReserveReply.mk (ReserveState.ExogenousReserve res) (ReserveState.VAIBuffer res)
          (VAIState.TotalDebt st) (RiskConfig.BackingFloorBips risk) b.1 b.2.
Proof.
  intros Hj H. unfold JSONRPCServer.Reserve, JSONRPCServer.on_state in H. rewrite Hj in H.
  cbn [obind] in H. apply run_eq in H. go_step. go_step. go_step. repeat store_step.
  do 3 eexists. split_and!; [eassumption..|]. cbv zeta.
  destruct (JSONRPCServer.backing _ _ _). by go_inv.
Qed.

(** C32: the reserve report gives the reserve, the debt and the floor of the state,
    the ratio of the first two in basis points, 0 without debt and saturated at
    64 bits, and says whether the debt is backed at the floor: after every mint
    that succeeded it says so, and where it does not no mint succeeds. *)
Theorem reserve_reports_mint_condition (j : VM M Rules) (s : M) r :
  vm_ImmutableState j = Ok s -> JSONRPCServer.Reserve j = Ok r ->
  (exists res risk st,
    reserve_state (contents s) = Some res /\ risk_config (contents s) = Some risk /\
    vai_state (contents s) = Some st /\
    ReserveReply.ExogenousReserve r = ReserveState.ExogenousReserve res /\
    ReserveReply.TotalDebt r = VAIState.TotalDebt st /\
    ReserveReply.BackingFloorBips r = RiskConfig.BackingFloorBips risk) /\
  ReserveReply.BackingRatioBips r =
    (if ReserveReply.TotalDebt r =? 0 then 0
     else Z.min (2 ^ 64 - 1) (ReserveReply.ExogenousReserve r * 10000 / ReserveReply.TotalDebt r)) /\
  (ReserveReply.MeetsFloor r = true <->
   ReserveReply.TotalDebt r * ReserveReply.BackingFloorBips r
     <= ReserveReply.ExogenousReserve r * 10000) /\
  (forall a ts actor tx out s0, s_ok a -> i64 ts ->
    MintVAI.Execute a ts actor tx s0 = (Ok out, s) -> ReserveReply.MeetsFloor r = true) /\
  (ReserveReply.MeetsFloor r = false -> forall a ts actor tx out s', s_ok a -> i64 ts ->
    MintVAI.Execute a ts actor tx s <> (Ok out, s')).
Proof.
  intros Hj H. destruct (reserve_reply_ok _ _ _ Hj H) as (res & risk & st & Hres & Hrisk & Hst & ->).
  pose proof (stored_ok _ _ _ _ _ ReserveState_parse_ok Hres) as (Ur & _).
  pose proof (stored_ok _ _ _ _ _ RiskConfig_parse_ok Hrisk) as ((Uf & _) & _).
  pose proof (stored_ok _ _ _ _ _ VAIState_parse_ok Hst) as (Ud & _).
  cbn [ReserveReply.MeetsFloor ReserveReply.TotalDebt ReserveReply.BackingFloorBips
       ReserveReply.ExogenousReserve ReserveReply.BackingRatioBips].
  split_and!; [by exists res, risk, st| |by apply backing_meets|..].
  - unfold JSONRPCServer.backing. destruct (_ =? 0); cbn; [done|].
    destruct (_ <? _) eqn:Hq; bool_simpl; lia.
  - intros a ts actor tx out s0 Ha Hts Hm. apply backing_meets; [done..|].
    destruct (mint_ok _ _ _ _ _ _ _ Ha Hts Hm) as (c & st0 & k0 & v0 & _ & _ & Ek & Ev & Hmint).
    destruct (MintVAI.roll_epoch _ _ _).
    destruct Hmint as (_ & _ & _ & _ & Hb & Hok & _ & E). rewrite E in *.
    unfold risk_config, reserve_state, vai_state in *. revert Hrisk Hres Hst. reads. stored_put; [|done].
    intros Hrisk Hres [= <-]. cbn. congruence || (assert (k0 = risk) as -> by congruence;
      assert (v0 = res) as -> by congruence; done).
  - intros Hno a ts actor tx out s' Ha Hts Hm.
    destruct (mint_ok _ _ _ _ _ _ _ Ha Hts Hm) as (c & st0 & k0 & v0 & _ & Es & Ek & Ev & Hmint).
    destruct (MintVAI.roll_epoch _ _ _). destruct Hmint as (_ & Hpos & _ & _ & Hb & _).
    rewrite Hst in Es. rewrite Hrisk in Ek. rewrite Hres in Ev. simplify_eq.
    apply not_true_iff_false in Hno. apply Hno, backing_meets; [done..|].
    unfold u32 in Uf. nia.
Qed.
End reserve.

(** ** The trust score *)

(** The number of the score, whatever its tier. *)
Definition scored (b : Bloodsworn.t) : Z :=
  if Bloodsworn.TotalAcceptedProofs b =? 0 then 0 else trust_score b.

Lemma trust_score_bounds b :
  0 <= Bloodsworn.ScarCount b -> 0 <= trust_score b <= 10000.
Proof.
  intros Hc. unfold trust_score.
  pose proof (wrap_u64_range (Bloodsworn.TotalAcceptedProofs b * 15)) as H1.
  pose proof (wrap_u64_range (Bloodsworn.ActiveStreak b * 25)) as H2. unfold u64 in *.
  destruct (_ <=? _) eqn:E; [done|]. destruct (10000 <? _) eqn:E2; lia.
Qed.

Lemma trust_score_exact b :
  0 <= Bloodsworn.TotalAcceptedProofs b -> 0 <= Bloodsworn.ActiveStreak b ->
  0 <= Bloodsworn.ScarCount b ->
  Bloodsworn.TotalAcceptedProofs b * 15 < 2 ^ 64 -> Bloodsworn.ActiveStreak b * 25 < 2 ^ 64 ->
  trust_score b = Z.max 0 (5000 + Z.min (Bloodsworn.TotalAcceptedProofs b * 15) 3500
                + Z.min (Bloodsworn.ActiveStreak b * 25) 1500 - Bloodsworn.ScarCount b * 700).
Proof.
  intros. unfold trust_score. rewrite !wrap_u64_small by (unfold u64; lia).
  destruct (_ <=? _) eqn:E; [change (if 10000 <? 0 then 10000 else 0) with 0; lia|].
  destruct (10000 <? _) eqn:E2; lia.
Qed.

Lemma tier_score b n tier :
  0 <= Bloodsworn.ScarCount b -> scoreBloodswornTrust b = (n, tier) -> n = scored b.
Proof.
  intros Hc. pose proof (trust_score_bounds b Hc) as Hb. unfold scoreBloodswornTrust, scored.
  destruct (_ =? 0); [by intros [= <-]|].
  repeat (destruct (_ <=? trust_score b); [by intros [= <-]|]).
  destruct (0 <? trust_score b) eqn:E; intros [= <-]; lia.
Qed.

(** A prover's trust score is between 0 and 10000, is zero without an
    accepted proof, and, as long as the two products fit 64 bits, is 5000 plus
    the capped boosts less 700 a scar, so that further proofs never lower it. *)
Theorem trust_score_range b n tier :
  Bloodsworn.ok b -> scoreBloodswornTrust b = (n, tier) ->
  0 <= n <= 10000 /\
  (Bloodsworn.TotalAcceptedProofs b = 0 -> n = 0 /\ tier = "Unproven"%string) /\
  (0 < Bloodsworn.TotalAcceptedProofs b ->
   Bloodsworn.TotalAcceptedProofs b * 15 < 2 ^ 64 -> Bloodsworn.ActiveStreak b * 25 < 2 ^ 64 ->
   n = Z.max 0 (5000 + Z.min (Bloodsworn.TotalAcceptedProofs b * 15) 3500
                + Z.min (Bloodsworn.ActiveStreak b * 25) 1500 - Bloodsworn.ScarCount b * 700) /\
   forall more, Bloodsworn.TotalAcceptedProofs b <= Bloodsworn.TotalAcceptedProofs more ->
     Bloodsworn.ActiveStreak b <= Bloodsworn.ActiveStreak more ->
     Bloodsworn.ScarCount more = Bloodsworn.ScarCount b ->
     Bloodsworn.TotalAcceptedProofs more * 15 < 2 ^ 64 ->
     Bloodsworn.ActiveStreak more * 25 < 2 ^ 64 -> n <= (scoreBloodswornTrust more).1).
Proof.
  intros (Ut & Us & _ & Uc) H. unfold u64, u32 in *.
  assert (Hr : 0 <= trust_score b <= 10000) by (apply trust_score_bounds; lia).
  pose proof (tier_score b n tier ltac:(lia) H) as Hn. subst n. unfold scored. split_and!.
  - destruct (_ =? 0); lia.
  - destruct (_ =? 0); lia.
  - intros E. unfold scoreBloodswornTrust in H. rewrite E in *. by injection H as _ <-.
  - intros Hpos Hwt Hws. replace (Bloodsworn.TotalAcceptedProofs b =? 0) with false by lia.
    split; [apply trust_score_exact; lia|]. intros more Ht Hs Hc Hwt' Hws'.
    pose proof (surjective_pairing (scoreBloodswornTrust more)) as E.
    apply tier_score in E as ->; [|lia]. unfold scored.
    replace (Bloodsworn.TotalAcceptedProofs more =? 0) with false by lia.
    rewrite !trust_score_exact by lia. lia.
Qed.

(** The product of the proof boost wraps for a count of accepted proofs that no
    chain reaches: such a prover would score lower than one with 234 proofs. *)
Lemma trust_wraps :
  trust_score (Bloodsworn.mk 1229782938247303442 0 0 0) = 5014 /\
  trust_score (Bloodsworn.mk 234 0 0 0) = 8500.
Proof. split; reflexivity. Qed.

(** ** Evaluations *)

Module Samples.
Definition alice : Address := addr 1.
Definition s0 : Store :=
  cells [(BalanceKey alice, be 8 70);
         (MarketKey (mkt 1), Market.encode (Market.mk 0 2 99 0 [x41]));
         (VAIConfigKey, VAIConfig.encode (VAIConfig.mk alice 3000 500 60));
         (VAIStateKey, VAIState.encode (VAIState.mk 900 7 50));
         (RiskConfigKey, RiskConfig.encode (RiskConfig.mk 12000 5000 5000 0 1000 1000 1000));
         (ReserveStateKey, ReserveState.encode (ReserveState.mk 2000 0))].
Definition mint : MintVAI.t := MintVAI.mk alice 40.
Definition s1 : Store := final (MintVAI.Execute mint 1000 alice no_tx) s0.
Definition read_state (s : Store) : ReadState := fun ks =>
  (map (fun k => default [] (s !! k)) ks,
   map (fun k => match s !! k with Some _ => None | None => Some database_ErrNotFound end) ks).
Definition server : VM Store unit :=
  mk_vm (read_state s1) (Ok s1) (Genesis.mk 16 [] None None).
Definition prover : Bloodsworn.t := Bloodsworn.mk 300 20 77 1.
End Samples.
Import Samples.

Lemma read_state_agrees s k : read_one (read_state s) k = GetValue s k.
Proof. unfold read_one, read_state. cbn. by destruct (s !! k). Qed.

Lemma rpc_reads_agree_witness :
  JSONRPCServer.Market server (mkt 1) = Ok (MarketReply.mk 0 2 99 0 [x41]).
Proof.
  destruct (rpc_reads_agree server s1 (read_state_agrees s1)) as (_ & _ & _ & H & _).
  rewrite (H (mkt 1)). vm_compute. reflexivity.
Defined.

Lemma reserve_reports_mint_condition_witness :
  exists r, JSONRPCServer.Reserve server = Ok r /\ ReserveReply.MeetsFloor r = true /\
            ReserveReply.BackingRatioBips r = 21276.
Proof.
  assert (Hj : vm_ImmutableState server = Ok s1) by reflexivity.
  assert (H : JSONRPCServer.Reserve server = Ok (ReserveReply.mk 2000 0 940 12000 21276 true))
    by (vm_compute; reflexivity).
  destruct (reserve_reports_mint_condition server s1 _ Hj H) as (_ & _ & _ & Hm & _).
  assert (Ha : s_ok mint) by (vm_compute; intuition congruence).
  assert (Hts : i64 1000) by (vm_compute; intuition congruence).
  assert (Hr : succeeds (MintVAI.Execute mint 1000 alice no_tx) s0 = true)
    by (vm_compute; reflexivity).
  destruct (run_succeeds _ _ Hr) as [out E].
  eexists. split; [exact H|]. split; [exact (Hm _ _ _ _ _ _ Ha Hts E)|reflexivity].
Defined.

Lemma trust_score_range_witness : scoreBloodswornTrust prover = (8300, "Legend"%string).
Proof.
  assert (Hb : Bloodsworn.ok prover) by (vm_compute; intuition congruence).
  pose proof (trust_score_range prover _ _ Hb (surjective_pairing _)) as (_ & _ & H).
  assert (H1 : 0 < Bloodsworn.TotalAcceptedProofs prover) by reflexivity.
  assert (H2 : Bloodsworn.TotalAcceptedProofs prover * 15 < 2 ^ 64) by reflexivity.
  assert (H3 : Bloodsworn.ActiveStreak prover * 25 < 2 ^ 64) by reflexivity.
  destruct (H H1 H2 H3) as [Hn _].
  rewrite (surjective_pairing (scoreBloodswornTrust prover)), Hn. reflexivity.
Defined.
