(* ===== verification/ZkFacts.v ===== *)
(** * What a verified proof is tied to

    The verifier accepts a proof only for a supported circuit, under a loaded
    key, with a public witness that spells the hash it was asked about; the
    circuits it knows are those the clear can compute inputs for; without
    configuration it is strict whenever a key is in place. *)
From S2P Require Import Prelude Errors Go Platform Sha256 Storage Concrete Balance Action.
From S2P Require Import ProofEnvelope ProofEnvelopeFacts Metrics Markets Proofs Zk.

Section binding.
Context {GN : Gnark} {GS : GnarkSpec}.

(** The public witness encodes the hash: byte by byte, or reduced to one field
    element. *)
Definition encodes_hash (vec : list Element) (hash : bytes) : Prop :=
  match vec with
  | [el] => hash <> [] /\ el_value el = unbe hash mod ScalarField
  | _ => len hash = ClearHashDigestLen /\ map el_value vec = map Z_of_byte hash
  end.

(** The elements of a public witness, as [buildPublicWitnessVector] reads it. *)
Definition witness_elements (b : bytes) (vec : list Element) : Prop :=
  b <> [] /\ vec <> [] /\ exists w0 w, witness_New = Ok w0 /\
    witness_UnmarshalBinary w0 b = Ok w /\
    match witness_Public w with
    | Ok p => witness_Vector p = Some vec
    | Err _ => witness_Vector w = Some vec
    | Panic => False
    end.

Lemma len_nil (l : bytes) : (len l =? 0) = false <-> l <> [].
Proof. rewrite Z.eqb_neq. unfold len. destruct l; cbn [length]; split; done || lia. Qed.

Lemma hashToFieldElement_ok h e :
  hashToFieldElement h = Ok e ->
  h <> [] /\ el_value e = unbe h mod ScalarField.
Proof.
  unfold hashToFieldElement. intros H. go_step. apply guard_ok, len_nil in E. go_step. split; [done|].
  by rewrite el_SetBigInt_spec, Z.mod_mod by (pose proof ScalarField_large; lia).
Qed.

Lemma el_matches_byte e b :
  (negb (el_IsUint64 e) || negb (el_Uint64 e =? Z_of_byte b))%bool = false <->
  el_value e = Z_of_byte b.
Proof.
  pose proof (Z_of_byte_range b) as Hb. rewrite orb_false_iff, !negb_false_iff, Z.eqb_eq.
  split.
  - intros [Hu <-]. by rewrite el_Uint64_spec.
  - intros E. assert (Hu : el_IsUint64 e = true) by (rewrite el_IsUint64_spec; lia).
    split; [done|]. by rewrite el_Uint64_spec.
Qed.

Lemma match_digest_iff vec h :
  length vec = length h ->
  match_digest vec h = Ok tt <-> map el_value vec = map Z_of_byte h.
Proof.
  revert h. induction vec as [|e vec IH]; intros [|b h] Hl; try done.
  cbn [match_digest map]. injection Hl as Hl. specialize (IH h Hl).
  pose proof (el_matches_byte e b) as He.
  destruct (negb (el_IsUint64 e) || negb (el_Uint64 e =? Z_of_byte b))%bool; cbn [guard obind].
  - split; [done|]. intros [= E _]. by apply He in E.
  - rewrite IH. split; [intros ->; f_equal; by apply He|by intros [= _ ->]].
Qed.

Lemma validateDigestVector_iff h vec :
  validateDigestVector h vec = Ok tt <-> encodes_hash vec h.
Proof.
  destruct vec as [|e [|e' vec]]; [..|].
  - cbn. split; [done|]. intros [Hl E]. by destruct h.
  - cbn [validateDigestVector encodes_hash]. split.
    + intros H. go_step. go_step. apply hashToFieldElement_ok in E as [Hh E].
      apply negb_false_iff, el_Equal_spec in H. split; [done|congruence].
    + intros [Hh E]. unfold hashToFieldElement. rewrite (proj2 (len_nil h) Hh).
      cbn [guard obind]. rewrite (proj2 (el_Equal_spec _ _)); [done|].
      rewrite el_SetBigInt_spec, Z.mod_mod by (pose proof ScalarField_large; lia). done.
  - set (v := e :: e' :: vec). change (validateDigestVector h v) with
      (if Z.of_nat (length v) =? ClearHashDigestLen then
         let? _ := guard (negb (len h =? ClearHashDigestLen)) ErrInvalidProofEnvelope in
         match_digest v h
       else Err (ErrMessage "unsupported digest witness length: %d")).
    change (encodes_hash v h) with
      (len h = ClearHashDigestLen /\ map el_value v = map Z_of_byte h). clearbody v.
    split.
    + destruct (_ =? _) eqn:El; [|done]. intros H. go_step. apply guard_ok in E. bool_simpl.
      split; [done|]. apply match_digest_iff; [unfold len in *; lia|done].
    + intros [Hl E]. assert (Hn : length v = length h).
      { apply (f_equal length) in E. by rewrite !length_map in E. }
      rewrite Hn. fold (len h). rewrite Hl. cbn [negb Z.eqb ClearHashDigestLen Pos.eqb guard obind].
      by apply match_digest_iff.
Qed.

Lemma supported_iff c :
  isSupportedCircuitID c = true <->
  c = ProofCircuitClearHashV1 \/ c = ProofCircuitShieldedLedgerV1.
Proof. unfold isSupportedCircuitID. by rewrite orb_true_iff, !bool_decide_eq_true. Qed.

Lemma buildPublicWitnessVector_iff c h wit vec :
  isSupportedCircuitID c = true ->
  buildPublicWitnessVector c h wit = Ok vec <->
  witness_elements wit vec /\ encodes_hash vec h.
Proof.
  intros Hc. apply supported_iff in Hc.
  assert (Htail : forall v, (if bool_decide (c = ProofCircuitClearHashV1)
      then let? _ := validateDigestVector h v in Ok v
      else if bool_decide (c = ProofCircuitShieldedLedgerV1)
      then let? _ := validateDigestVector h v in Ok v
      else Err ErrUnsupportedProofCircuit) = (let? _ := validateDigestVector h v in Ok v)).
  { intros v. destruct Hc as [->| ->]; [by rewrite bool_decide_true|].
    rewrite bool_decide_false by done. by rewrite bool_decide_true. }
  unfold buildPublicWitnessVector, witness_elements. split.
  - intros H. go_step. apply guard_ok, len_nil in E. go_step. go_step.
    apply obind_ok in H as (w & Ew & H). destruct (witness_Vector w) as [v|] eqn:Ev; [|done].
    go_step. bool_simpl. rewrite Htail in H. go_inv.
    split; [|apply validateDigestVector_iff; by destruct r3]. split; [done|].
    split; [intros ->; by apply E2|].
    exists r0, r1. split; [done|]. split; [done|].
    destruct (witness_Public r1); by simplify_eq.
  - intros ((Hb & Hv & w0 & w & -> & Hw & Hp) & He).
    rewrite (proj2 (len_nil wit) Hb). cbn [guard obind]. rewrite Hw. cbn [obind].
    apply validateDigestVector_iff in He.
    destruct (witness_Public w) as [p|e|]; [..|done]; cbn [obind]; rewrite Hp;
      (rewrite bool_decide_false by (by destruct vec)); cbn [guard obind];
      rewrite Htail, He; done.
Qed.

(** What the backend is asked: a proof of the type the caller named, read from
    the bytes, under the loaded key of that type. *)
Definition backend_accepts (v : Verifier) (proofType : Z) (proof : bytes) (vec : list Element)
    : Prop :=
  (proofType = ProofTypeGroth16 /\ exists vk p, groth16VK v = Some vk /\
     groth16_Proof_ReadFrom proof = Ok p /\ groth16_Verify p vk vec = Ok tt) \/
  (proofType = ProofTypePlonk /\ exists vk p, plonkVK v = Some vk /\
     plonk_Proof_ReadFrom proof = Ok p /\ plonk_Verify p vk vec = Ok tt).

Definition circuit_allowed (v : Verifier) (c : bytes) : Prop :=
  (requiredCircuitID v = [] \/ c = requiredCircuitID v) /\ isSupportedCircuitID c = true.

Lemma verifyGroth16_iff vk c proof h wit :
  isSupportedCircuitID c = true ->
  verifyGroth16 vk c proof h wit = Ok tt <->
  exists vec p, (witness_elements wit vec /\ encodes_hash vec h) /\
    groth16_Proof_ReadFrom proof = Ok p /\ groth16_Verify p vk vec = Ok tt.
Proof.
  intros Hc. unfold verifyGroth16. split.
  - intros H. go_step. go_step. apply buildPublicWitnessVector_iff in E0; eauto 6.
  - intros (vec & p & Hv & -> & H). cbn [obind].
    apply (buildPublicWitnessVector_iff c h wit vec Hc) in Hv. by rewrite Hv.
Qed.

Lemma verifyPlonk_iff vk c proof h wit :
  isSupportedCircuitID c = true ->
  verifyPlonk vk c proof h wit = Ok tt <->
  exists vec p, (witness_elements wit vec /\ encodes_hash vec h) /\
    plonk_Proof_ReadFrom proof = Ok p /\ plonk_Verify p vk vec = Ok tt.
Proof.
  intros Hc. unfold verifyPlonk. split.
  - intros H. go_step. go_step. apply buildPublicWitnessVector_iff in E0; eauto 6.
  - intros (vec & p & Hv & -> & H). cbn [obind].
    apply (buildPublicWitnessVector_iff c h wit vec Hc) in Hv. by rewrite Hv.
Qed.

(** What follows the circuit checks in [Verify]. *)
Lemma dispatch_iff v ty c proof h wit :
  isSupportedCircuitID c = true ->
  (if ty =? ProofTypeGroth16 then
     match groth16VK v with
     | None => Err ErrProofVerifierUnavailable
     | Some vk => verifyGroth16 vk c proof h wit
     end
   else if ty =? ProofTypePlonk then
     match plonkVK v with
     | None => Err ErrProofVerifierUnavailable
     | Some vk => verifyPlonk vk c proof h wit
     end
   else Err ErrProofTypeMismatch) = Ok tt <->
  exists vec, (witness_elements wit vec /\ encodes_hash vec h) /\ backend_accepts v ty proof vec.
Proof.
  intros Hc. unfold backend_accepts. split.
  - destruct (ty =? _) eqn:Eg; [|destruct (ty =? ProofTypePlonk) eqn:Ep; [|done]]; bool_simpl.
    + destruct (groth16VK v) as [vk|] eqn:Ek; [|done].
      intros (vec & p & H & ? & ?)%verifyGroth16_iff; [|done].
      exists vec. split; [done|left]. eauto 6.
    + destruct (plonkVK v) as [vk|] eqn:Ek; [|done].
      intros (vec & p & H & ? & ?)%verifyPlonk_iff; [|done].
      exists vec. split; [done|right]. eauto 6.
  - intros (vec & H & [(-> & vk & p & -> & ? & ?)|(-> & vk & p & -> & ? & ?)]); cbn.
    + apply verifyGroth16_iff; [done|]. eauto.
    + apply verifyPlonk_iff; [done|]. eauto.
Qed.

Lemma Verify_backed v ty c proof h wit :
  Verify v ty c proof h wit = Ok tt ->
  exists vec, (witness_elements wit vec /\ encodes_hash vec h) /\ backend_accepts v ty proof vec.
Proof.
  unfold Verify. intros H. apply obind_ok in H as (x & _ & H).
  apply obind_ok in H as (y & E & H). apply guard_ok, negb_false_iff in E.
  by apply (dispatch_iff v ty _ proof h wit E) in H.
Qed.

(** C11: [Verifier.Verify] accepts exactly the proofs of a supported circuit,
    the required one when one is required, whose public witness spells the hash
    asked about and which the backend accepts under the loaded key of the
    proof type. *)
Theorem verify_iff v ty c proof h wit :
  Verify v ty c proof h wit = Ok tt <->
  circuit_allowed v (normalizeCircuitID c) /\
  exists vec, (witness_elements wit vec /\ encodes_hash vec h) /\ backend_accepts v ty proof vec.
Proof.
  unfold Verify, circuit_allowed. set (n := normalizeCircuitID c).
  destruct (isSupportedCircuitID n) eqn:Hc; cbn [negb guard obind];
    [|split; [by destruct (guard _ _)|by intros [[] ?]]].
  destruct (negb (bool_decide (requiredCircuitID v = [])) && _)%bool eqn:Er; cbn [guard obind].
  - bool_simpl. split; [done|]. by intros [[[?|?] ?] ?].
  - rewrite dispatch_iff by done.
    split; [intros H; split; [split; [|done]|done]|by intros [_ H]].
    apply andb_false_iff in Er as [Er|Er]; bool_simpl; auto.
Qed.

(** The elements of a witness are those of one vector. *)
Lemma witness_elements_inj wit vec vec' :
  witness_elements wit vec -> witness_elements wit vec' -> vec = vec'.
Proof.
  intros (_ & _ & w0 & w & E0 & E1 & H) (_ & _ & w0' & w' & E0' & E1' & H').
  rewrite E0 in E0'. injection E0' as <-. rewrite E1 in E1'. injection E1' as <-.
  destruct (witness_Public w); by simplify_eq.
Qed.

Lemma map_Z_of_byte_inj (h h' : bytes) : map Z_of_byte h = map Z_of_byte h' -> h = h'.
Proof.
  revert h'. induction h as [|b h IH]; intros [|b' h'] [=]; [done|].
  f_equal; [by apply Z_of_byte_inj|auto].
Qed.

Lemma encodes_hash_inj vec h h' :
  encodes_hash vec h -> encodes_hash vec h' ->
  unbe h mod ScalarField = unbe h' mod ScalarField /\ (length vec <> 1%nat -> h = h').
Proof.
  destruct vec as [|e [|e' vec]]; cbn [encodes_hash].
  - intros [H E] [H' E']. assert (h = h') by (apply map_Z_of_byte_inj; congruence). by subst.
  - intros [_ E] [_ E']. split; [congruence|done].
  - intros [_ E] [_ E']. assert (h = h') by (apply map_Z_of_byte_inj; congruence). by subst.
Qed.

(** One proof payload backs one statement: two hashes the chain accepts the
    same payload for, under this verifier, are equal modulo the scalar field,
    and equal when the public witness spells them byte by byte. *)
Theorem payload_backs_one_hash v strict ty blob h h' :
  let vc := mk_verifier (Some (Verify v)) strict in
  verifyBatchProofInConsensus vc ty blob h = Ok tt ->
  verifyBatchProofInConsensus vc ty blob h' = Ok tt ->
  unbe h mod ScalarField = unbe h' mod ScalarField /\
  exists env vec, parseProofEnvelope blob = Ok env /\
    witness_elements (env_witness env) vec /\ (length vec <> 1%nat -> h = h').
Proof.
  cbv zeta. intros H H'.
  apply (verified_by _ (Verify v)) in H as (env & Ep & _ & H); [|done].
  apply (verified_by _ (Verify v)) in H' as (env' & Ep' & _ & H'); [|done].
  assert (env' = env) as -> by congruence. apply Verify_backed in H as (vec & [Hw He] & _).
  apply Verify_backed in H' as (vec' & [Hw' He'] & _).
  rewrite (witness_elements_inj _ _ _ Hw' Hw) in He'.
  destruct (encodes_hash_inj _ _ _ He He') as [Hm Hl]. eauto 6.
Qed.
End binding.

(** ** The circuits the chain knows *)

(** The verifier supports exactly the circuits whose public inputs the chain
    can compute, spaces and the missing name of old envelopes included. *)
Theorem supported_circuits_agree c m w p tv fh :
  isSupportedCircuitID (normalizeCircuitID c) = true <->
  exists h, ClearBatch.computeExpectedPublicInputsHash c m w p tv fh = Ok h.
Proof.
  rewrite supported_iff. unfold normalizeCircuitID, ClearBatch.computeExpectedPublicInputsHash.
  cbv zeta. generalize (TrimSpace c) as t. intros t.
  destruct (bool_decide_reflect (t = [])) as [->|Ht]; cbn [orb]; [split; eauto|].
  destruct (bool_decide_reflect (t = ProofCircuitClearHashV1)) as [->|]; [split; eauto|].
  destruct (bool_decide_reflect (t = ProofCircuitShieldedLedgerV1)) as [->|]; [split; eauto|].
  split; [by intros [?|?]|]. by intros [h ?].
Qed.

(** ** Installation *)

Section install.
Context {GN : Gnark} {os : OS}.

(** No verifier is asked for and no key is named, but the fixture key is there. *)
Definition fixture_applies (cfg : ZKVerifierConfig) : Prop :=
  zc_Enabled cfg = false /\ TrimSpace (zc_Groth16VerifyingKeyPath cfg) = [] /\
  TrimSpace (zc_PlonkVerifyingKeyPath cfg) = [] /\ os_Stat defaultLocalGroth16VKPath = Ok tt.

Lemma resolve_fixture cfg :
  fixture_applies (override_env cfg) ->
  zc_Enabled (resolveZKConfig cfg) = true /\ zc_Strict (resolveZKConfig cfg) = true /\
  TrimSpace (zc_RequiredCircuitID (resolveZKConfig cfg)) <> [].
Proof.
  unfold resolveZKConfig. set (o := override_env cfg). intros (-> & -> & -> & ->).
  rewrite bool_decide_true by done. cbn [negb andb]. split; [done|]. split; [done|].
  cbn [zc_RequiredCircuitID]. destruct (bool_decide_reflect (TrimSpace (zc_RequiredCircuitID o) = []));
    [|done]. vm_compute. done.
Qed.

Lemma resolve_other cfg :
  ~ fixture_applies (override_env cfg) -> resolveZKConfig cfg = override_env cfg.
Proof.
  unfold resolveZKConfig, fixture_applies. set (o := override_env cfg). intros H.
  destruct (zc_Enabled o) eqn:E1; [done|]; cbn [negb andb].
  destruct (bool_decide_reflect (TrimSpace (zc_Groth16VerifyingKeyPath o) = [])) as [E2|]; [|done].
  destruct (bool_decide_reflect (TrimSpace (zc_PlonkVerifyingKeyPath o) = [])) as [E3|]; [|done].
  cbn [andb]. destruct (os_Stat _) as [[]| |] eqn:E4; [|done..]. exfalso. by apply H.
Qed.

Lemma NewVerifier_ok cfg v :
  NewVerifier cfg = Ok v ->
  (groth16VK v <> None \/ plonkVK v <> None) /\
  requiredCircuitID v = TrimSpace (RequiredCircuitID cfg) /\
  (requiredCircuitID v = [] \/ isSupportedCircuitID (requiredCircuitID v) = true).
Proof.
  unfold NewVerifier. intros H. go_step. go_step.
  assert (Hr : (exists g, r = Some g) \/ (exists p, r0 = Some p)).
  { destruct r, r0; eauto; discriminate. }
  assert (H' : (let? _ := guard (negb (bool_decide (TrimSpace (RequiredCircuitID cfg) = []))
                  && negb (isSupportedCircuitID (TrimSpace (RequiredCircuitID cfg))))
                  ErrUnsupportedProofCircuit in
                Ok (mk_zk_verifier r r0 (TrimSpace (RequiredCircuitID cfg)))) = Ok v).
  { by destruct Hr as [[? ->]|[? ->]]; [|destruct r]. }
  clear H. go_step. apply guard_ok in E1. go_step. cbn. split.
  - destruct Hr as [[? ->]|[? ->]]; auto.
  - split; [done|]. apply andb_false_iff in E1 as [E1|E1]; bool_simpl; auto.
Qed.

(** C31: after a successful start the installed verifier holds a key and requires
    a supported circuit or none; without a verifier none was asked for. When
    the fixture key applies the hook is strict and one circuit is required,
    whatever the configuration says about enabling it. *)
Theorem installed_verifier config vc served vc' :
  With config vc = (Ok served, vc') ->
  served = cfg_Enabled config /\
  (fixture_applies (override_env (cfg_ZK config)) ->
     vc_strict vc' = true /\ vc_verifier vc' <> None) /\
  match vc_verifier vc' with
  | None => zc_Enabled (override_env (cfg_ZK config)) = false /\
            vc_strict vc' = zc_Strict (override_env (cfg_ZK config))
  | Some verify => exists v, verify = Verify v /\
      (groth16VK v <> None \/ plonkVK v <> None) /\
      (requiredCircuitID v = [] \/ isSupportedCircuitID (requiredCircuitID v) = true) /\
      (fixture_applies (override_env (cfg_ZK config)) -> requiredCircuitID v <> [])
  end.
Proof.
  unfold With. set (r := resolveZKConfig (cfg_ZK config)). cbv zeta. intros H.
  apply bind_ok in H as ([] & vc1 & H & Hret). unfold ret in Hret. injection Hret as <- <-.
  split; [done|]. unfold installBatchProofVerifier in H.
  pose proof (resolve_fixture (cfg_ZK config)) as Hf. fold r in Hf.
  pose proof (resolve_other (cfg_ZK config)) as Ho. fold r in Ho.
  destruct (zc_Enabled r) eqn:Er; cbn [negb] in H.
  - destruct (NewVerifier _) as [v| |] eqn:Ev; [|done..]. injection H as <-.
    apply NewVerifier_ok in Ev as (Hk & Hr & Hs). cbn in Hr |- *. split.
    + intros Hx. split; [by apply Hf|done].
    + exists v. split; [done|]. split; [done|]. split; [done|]. intros Hx. rewrite Hr. by apply Hf.
  - injection H as <-. cbn [ConfigureBatchProofVerifier vc_verifier vc_strict].
    assert (Hn : ~ fixture_applies (override_env (cfg_ZK config))).
    { intros Hx. by destruct (Hf Hx) as [? _]. }
    specialize (Ho Hn). split; [done|]. split; congruence.
Qed.
End install.

(** ** Evaluations *)

(** A backend whose witness is a list of bytes and which accepts the proof that
    repeats the key. *)
Module Samples.
#[export, refine] Instance backend : Gnark :=
  {| Groth16VK := bytes; Groth16Proof := bytes; PlonkVK := unit; PlonkProof := unit;
     Element := Z; Witness := bytes;
     groth16_VK_ReadFrom := Ok; groth16_Proof_ReadFrom := Ok;
     groth16_Verify p vk _ := if bool_decide (p = vk) then Ok tt else Err (ErrMessage "pairing");
     plonk_VK_ReadFrom _ := Ok tt; plonk_Proof_ReadFrom _ := Ok tt; plonk_Verify _ _ _ := Ok tt;
     witness_New := Ok []; witness_UnmarshalBinary _ b := Ok b; witness_Public := Ok;
     witness_Vector w := Some (map Z_of_byte w);
     ScalarField := 2 ^ 253; el_SetBigInt z := z mod 2 ^ 253; el_Equal := Z.eqb;
     el_IsUint64 e := e <? 2 ^ 64; el_Uint64 e := e |}.
Proof. Defined.
#[export, refine] Instance backend_spec : GnarkSpec := 
  {| el_value (e : @Element backend) := (e : Z) |}.
Proof. all: cbn; (lia || done || apply Z.eqb_eq). Defined.

Definition fixture_key : bytes := replicate 7 x2a.
#[export] Instance machine : OS :=
  {| os_ReadFile p := if bool_decide (p = defaultLocalGroth16VKPath) then Ok fixture_key
                      else Err (ErrMessage "no such file");
     os_Stat p := if bool_decide (p = defaultLocalGroth16VKPath) then Ok tt
                  else Err (ErrMessage "no such file");
     os_Getenv _ := [] |}.
Definition verifier : Verifier := mk_zk_verifier (Some fixture_key) None ProofCircuitClearHashV1.
Definition spelled : bytes := replicate 32 x05.
Definition blob : bytes :=
  match BuildProofEnvelope ProofTypeGroth16 fixture_key spelled with Ok b => b | _ => [] end.
Definition started : VerifierConfig := mk_verifier (Some (Verify verifier)) true.
End Samples.
Import Samples.

Example other_hash_refused :
  Verify verifier ProofTypeGroth16 [] fixture_key (replicate 32 x06) spelled
  = Err ErrProofPublicInputsMismatch.
Proof. vm_compute. reflexivity. Qed.

Lemma payload_backs_one_hash_witness :
  unbe spelled mod ScalarField = unbe spelled mod ScalarField /\
  exists env vec, parseProofEnvelope blob = Ok env /\
    witness_elements (env_witness env) vec /\ (length vec <> 1%nat -> spelled = spelled).
Proof.
  apply (payload_backs_one_hash verifier true ProofTypeGroth16 blob spelled spelled);
    vm_compute; reflexivity.
Defined.

Lemma installed_verifier_witness :
  true = true /\
  (fixture_applies (override_env NewDefaultZKVerifierConfig) ->
     vc_strict started = true /\ vc_verifier started <> None) /\
  exists v, Verify verifier = Verify v /\ (groth16VK v <> None \/ plonkVK v <> None) /\
    (requiredCircuitID v = [] \/ isSupportedCircuitID (requiredCircuitID v) = true) /\
    (fixture_applies (override_env NewDefaultZKVerifierConfig) -> requiredCircuitID v <> []).
Proof.
  apply (installed_verifier NewDefaultConfig initial_verifier true started).
  assert (E : resolveZKConfig NewDefaultZKVerifierConfig
    = mk_zk_config true true defaultLocalGroth16VKPath [] ProofCircuitClearHashV1).
  { vm_compute. reflexivity. }
  unfold With. cbn [NewDefaultConfig cfg_ZK cfg_Enabled]. rewrite E.
  assert (E' : NewVerifier (mk_config defaultLocalGroth16VKPath [] ProofCircuitClearHashV1)
    = Ok verifier).
  { evaluate. }
  unfold bind, installBatchProofVerifier.
  cbn [zc_Enabled zc_Strict zc_Groth16VerifyingKeyPath zc_PlonkVerifyingKeyPath
       zc_RequiredCircuitID negb]. rewrite E'. reflexivity.
Defined.

Lemma verify_iff_witness :
  circuit_allowed verifier (normalizeCircuitID []) /\
  exists vec, (witness_elements spelled vec /\ encodes_hash vec spelled) /\
    backend_accepts verifier ProofTypeGroth16 fixture_key vec.
Proof.
  apply (verify_iff verifier ProofTypeGroth16 [] fixture_key spelled spelled).
  vm_compute. reflexivity.
Defined.
