(* ===== verification/Settlement.v ===== *)
(** * Settled batches are proven

    The composition of the chain, the proof actions and the verifier: while the
    proof gate is on and governance does not touch it, every batch result that
    appears in the state is backed by a recorded proof whose public witness
    spells the hash of that very result and which the backend accepted. *)
From S2P Require Import Prelude Errors Go Platform Sha256 Storage Concrete Balance Action.
From S2P Require Import AmmMath Transfer ProofEnvelope ProofEnvelopeFacts Pools PoolFacts Vai.
From S2P Require Import VaiFacts Treasury TreasuryFacts Metrics Markets Proofs MarketFacts.
From S2P Require Import ProofFacts Zk Chain Footprint Ledger Lifecycle Authority ZkFacts.

(** The event runs under this verifier. *)
Definition verified_with (vc : VerifierConfig) (e : Event) : Prop :=
  match e with EAction env _ _ _ _ => env_verifier env = vc | _ => True end.

(** The cell a clear writes. *)
Definition batch_cell (a : ClearBatch.t) : bytes :=
  be 8 (ClearBatch.ClearPrice a) ++ be 8 (ClearBatch.TotalVolume a) ++ ClearBatch.FillsHash a.

Section settlement.
Context {PF : Platform} {PS : PlatformSpec} {M : Type} {MU : Mutable M} {MS : MutableSpec M}.
Context {TX : Text}.
Implicit Types (s : M * zkMetricsCollector).

Ltac framed H Hinv :=
  apply (execute_frame _ _ _ _ _ _ _ _ _ Hinv H); cbn [StateKeys]; unfold_keys; undeclared.

(** The batch cell of a window holds what a backed clear wrote. *)
Definition batch_backed (vc : VerifierConfig) (cfg : ProofConfig.t) (id : ID) (w : Z)
    (m : gmap bytes bytes) : Prop :=
  exists price volume fills, let a := ClearBatch.mk id w price volume fills in
    m !! BatchKey id w = Some (batch_cell a) /\ proof_backs vc cfg a m.

Lemma proof_backs_stays vc cfg a m m' :
  Forall (fun k => m' !! k = m !! k)
    [BatchProofKey (ClearBatch.MarketID a) (ClearBatch.WindowID a);
     VellumProofKey (ClearBatch.MarketID a) (ClearBatch.WindowID a);
     GlyphKey (ClearBatch.MarketID a) (ClearBatch.WindowID a)] ->
  proof_backs vc cfg a m -> proof_backs vc cfg a m'.
Proof.
  intros H. inversion_clear H as [|? ? H1 H']. inversion_clear H' as [|? ? H2 _].
  unfold proof_backs, proof_record, proof_payload.
  by rewrite (stored_same _ m m' _ H1), (stored_same _ m m' _ H2).
Qed.

Lemma backed_recorded vc cfg a m :
  proof_backs vc cfg a m ->
  is_Some (m !! BatchProofKey (ClearBatch.MarketID a) (ClearBatch.WindowID a)).
Proof.
  intros (r & _ & _ & _ & H & _). unfold proof_record, stored in H. by destruct (m !! _).
Qed.

(** Only a clear of the window writes its batch cell. *)
Lemma step_batch vc cfg e s s' id w :
  chain_step e s s' -> pool_inv (contents s) -> u64 w -> verified_with vc e ->
  proof_config (contents s) = Some cfg -> ProofConfig.RequireProof cfg = true ->
  contents s' !! BatchKey id w = contents s !! BatchKey id w \/
  exists a, ClearBatch.MarketID a = id /\ ClearBatch.WindowID a = w /\
    contents s' !! BatchKey id w = Some (batch_cell a) /\ proof_backs vc cfg a (contents s).
Proof.
  intros Hst Hinv Hw Hvc Hcfg Hreq. destruct Hst as [env act ts actor tx out s s' Ha Hts H
    |sponsor amount s s' Ha H|s s' E].
  - destruct act; try (left; by framed H Hinv). cbn [Execute action_ok verified_with] in *.
    subst vc. apply clear_batch_ok in H as (x & c & _ & _ & Hc & _ & _ & Hb & ->).
    assert (c = cfg) as -> by congruence. destruct (Hb Hreq) as [_ Hback].
    cbn in Ha. destruct_and?.
    destruct (decide (BatchKey (ClearBatch.MarketID a) (ClearBatch.WindowID a) = BatchKey id w))
      as [Ek|Ek]; [|left; by rewrite lookup_insert_ne].
    right. exists a. rewrite Ek, lookup_insert_eq.
    apply (slot_key_inj (SBatch _ _) (SBatch _ _)) in Ek; [|done..]. by injection Ek as -> ->.
  - left. destruct (fee_cells _ _ _ _ Ha H) as [n ->]. by reads.
  - left. by rewrite E.
Qed.

Lemma step_backed vc cfg e s s' id w :
  chain_step e s s' -> pool_inv (contents s) -> u64 w -> verified_with vc e ->
  proof_config (contents s) = Some cfg -> ProofConfig.RequireProof cfg = true ->
  contents s !! BatchKey id w = None \/ batch_backed vc cfg id w (contents s) ->
  contents s' !! BatchKey id w = None \/ batch_backed vc cfg id w (contents s').
Proof.
  intros Hst Hinv Hw Hvc Hcfg Hreq HP.
  assert (Hstay : forall a, ClearBatch.MarketID a = id -> ClearBatch.WindowID a = w ->
    proof_backs vc cfg a (contents s) -> proof_backs vc cfg a (contents s')).
  { intros a <- <- Hb. apply (proof_backs_stays vc cfg a (contents s)); [|done].
    apply (step_proof _ _ _ _ _ Hst Hinv Hw). by eapply backed_recorded. }
  destruct (step_batch _ _ _ _ _ id w Hst Hinv Hw Hvc Hcfg Hreq) as [E|(a & Eid & Ew & E & Hb)].
  - rewrite E. destruct HP as [HP|(p & v & f & Hc & Hb)]; [by left|right].
    exists p, v, f. cbv zeta. rewrite E. split; [done|by apply Hstay].
  - right. destruct a as [id' w' p v f]. cbn in Eid, Ew. subst id' w'. exists p, v, f.
    cbv zeta. split; [done|by apply Hstay].
Qed.

(** What the clear of a window relies on when the verifier is [Verify v]. *)
Lemma proof_backs_verified {GN : Gnark} {GS : GnarkSpec} (v : Verifier) strict cfg a m :
  proof_backs (mk_verifier (Some (Verify v)) strict) cfg a m ->
  exists payload env h vec,
    proof_payload m (ClearBatch.MarketID a) (ClearBatch.WindowID a) = Some payload /\
    parseProofEnvelope payload = Ok env /\
    ClearBatch.computeExpectedPublicInputsHash (env_circuitID env) (ClearBatch.MarketID a)
      (ClearBatch.WindowID a) (ClearBatch.ClearPrice a) (ClearBatch.TotalVolume a)
      (ClearBatch.FillsHash a) = Ok h /\
    witness_elements (env_witness env) vec /\ encodes_hash vec h /\
    backend_accepts v (ProofConfig.RequiredProofType cfg) (env_proof env) vec.
Proof.
  intros (r & payload & env & h & _ & Hp & _ & _ & _ & _ & He & Hh & _ & Hv).
  apply (verified_by _ (Verify v)) in Hv as (env' & He' & _ & Hv); [|done].
  assert (env' = env) as -> by congruence.
  apply Verify_backed in Hv as (vec & [Hw Hvec] & Hb).
  exists payload, env, h, vec. by split_and!.
Qed.

(** C1: while the proof gate is on, every batch result is proven: in a run that
    governance signs nothing of, under one verifier, a batch result that was not
    there before is a price, a volume and a fills hash for which the state holds
    a proof, recorded in time and stored unaltered, whose public witness spells
    the hash of exactly that result and which the backend accepted under the
    loaded key of the required type. *)
Theorem settled_batches_proven {GN : Gnark} {GS : GnarkSpec} (v : Verifier) strict es s s'
    gov cfg id w :
  let vc := mk_verifier (Some (Verify v)) strict in
  pool_inv (contents s) -> chain_run es s s' -> governance (contents s) = Some gov ->
  proof_config (contents s) = Some cfg -> ProofConfig.RequireProof cfg = true ->
  Forall (fun e => ~ signed_by gov e /\ verified_with vc e) es ->
  u64 w -> contents s !! BatchKey id w = None ->
  contents s' !! BatchKey id w = None \/
  exists price volume fills record payload env h vec,
    contents s' !! BatchKey id w = Some (be 8 price ++ be 8 volume ++ fills) /\
    proof_record (contents s') id w = Some record /\
    proof_payload (contents s') id w = Some payload /\
    BatchProofRecord.SubmittedAtMs record
      <= deadline cfg (BatchProofRecord.WindowCloseAtMs record) /\
    BatchProofRecord.ProofCommitment record = Sum256 payload /\
    parseProofEnvelope payload = Ok env /\
    ClearBatch.computeExpectedPublicInputsHash (env_circuitID env) id w price volume fills
      = Ok h /\
    witness_elements (env_witness env) vec /\ encodes_hash vec h /\
    backend_accepts v (ProofConfig.RequiredProofType cfg) (env_proof env) vec.
Proof.
  cbv zeta. set (vc := mk_verifier (Some (Verify v)) strict).
  intros Hinv Hrun Hgov Hcfg Hreq Hes Hw Hnone.
  set (P := fun m => (governance m = Some gov /\ proof_config m = Some cfg) /\
                     (m !! BatchKey id w = None \/ batch_backed vc cfg id w m)).
  assert (HP : P (contents s')).
  { apply (run_ind_forall (fun e => ~ signed_by gov e /\ verified_with vc e) P es s s');
      [|done..|by split; [|left]].
    intros e t t' [Hns Hvc] Hst Ht [[Hg Hc] Hb]. split; [|by eapply step_backed].
    destruct (kept_config _ _ (step_config _ _ _ Hst Ht)) as [-> _]. split; [done|].
    pose proof (step_governed _ _ _ gov Hst Ht Hg Hns) as Hk. unfold kept, governed_keys in Hk.
    rewrite !Forall_cons_iff in Hk. destruct Hk as (_ & _ & _ & Hk & _).
    unfold proof_config. by rewrite (stored_same _ _ _ _ Hk). }
  destruct HP as [_ [HP|(p & vol & f & Hcell & Hb)]]; [by left|right].
  destruct (proof_backs_verified _ _ _ _ _ Hb) as (payload & env & h & vec & Hp & H).
  destruct Hb as (record & payload' & _ & _ & Hr & Hp' & _ & Hd & _ & Hcm & _).
  assert (payload' = payload) as -> by congruence.
  destruct H as (He & Hh & Hw' & Hv & Hacc).
  exists p, vol, f, record, payload, env, h, vec. by repeat (split; [done|]).
Qed.
End settlement.

(** ** Evaluations *)

(** The prover submits a proof and clears the window with it, and a fee is paid
    in between. *)
Module Samples.
Export ProofFacts.Samples ZkFacts.Samples.
Definition chief : Address := addr 9.
Definition proven : bytes :=
  match BuildProofEnvelope ProofTypeGroth16 fixture_key (array_bytes inputs) with
  | Ok b => b | _ => [] end.
Definition env : Env := mk_env ZkFacts.Samples.started clk.
Definition submit : SubmitBatchProof.t := SubmitBatchProof.mk id 4 2000 1 inputs fills proven.
Definition opened : Store * zkMetricsCollector :=
  (cells [(MarketKey id, Market.encode active); (ProofConfigKey, ProofConfig.encode cfg);
          (TreasuryConfigKey, TreasuryConfig.encode (TreasuryConfig.mk chief prover 100 60));
          (BalanceKey prover, be 8 100)],
   newZKMetricsCollector 10).
Definition window : list Event :=
  [EAction env (ASubmitBatchProof submit) 3000 prover no_tx; EFee prover 7;
   EAction env (AClearBatch clear) 9000 prover no_tx].
Definition closed : Store * zkMetricsCollector := final (run_events window) opened.
End Samples.
Import Samples.

Lemma window_run : chain_run window opened closed.
Proof. apply evaluated_run; [events_ok | vm_compute; reflexivity]. Qed.

Lemma settled_batches_proven_witness :
  contents closed !! BatchKey id 4 = None \/
  exists price volume fills record payload env h vec,
    contents closed !! BatchKey id 4 = Some (be 8 price ++ be 8 volume ++ fills) /\
    proof_record (contents closed) id 4 = Some record /\
    proof_payload (contents closed) id 4 = Some payload /\
    BatchProofRecord.SubmittedAtMs record
      <= deadline cfg (BatchProofRecord.WindowCloseAtMs record) /\
    BatchProofRecord.ProofCommitment record = Sum256 payload /\
    parseProofEnvelope payload = Ok env /\
    ClearBatch.computeExpectedPublicInputsHash (env_circuitID env) id 4 price volume fills
      = Ok h /\
    witness_elements (env_witness env) vec /\ encodes_hash vec h /\
    backend_accepts verifier (ProofConfig.RequiredProofType cfg) (env_proof env) vec.
Proof.
  assert (Hi : pool_inv (contents opened)) by (vm_compute; split; reflexivity).
  assert (Hg : governance (contents opened) = Some chief) by (vm_compute; reflexivity).
  assert (Hc : proof_config (contents opened) = Some cfg) by (vm_compute; reflexivity).
  assert (He : Forall (fun e => ~ signed_by chief e /\
                  verified_with (mk_verifier (Some (Verify verifier)) true) e) window).
  { repeat (apply Forall_cons_2; [split; [by vm_compute|exact eq_refl || exact I]|]).
    apply Forall_nil_2. }
  assert (Hw : u64 4) by (by vm_compute).
  assert (Hn : contents opened !! BatchKey id 4 = None) by (vm_compute; reflexivity).
  exact (settled_batches_proven verifier true window opened closed chief cfg id 4
           Hi window_run Hg Hc eq_refl He Hw Hn).
Defined.

(** The run of the witness does write the batch. *)
Example window_settles : contents closed !! BatchKey id 4 = Some (batch_cell clear).
Proof. vm_compute. reflexivity. Qed.
