(* ===== verification/CircuitFacts.v ===== *)
(** * What the circuits prove

    The constraints of the clear-hash circuit hold exactly when the digest is
    the hash of the preimage; those of the shielded-ledger circuit when, besides,
    the preimage is one the chain builds for a clear none of whose fields is
    zero. *)
From S2P Require Import Prelude Errors Go Platform Sha256 Storage ProofEnvelope.
From S2P Require Import ProofEnvelopeFacts Zk Circuits.

Section facts.
Context {F : Frontend} {FS : FrontendSpec}.

(** The bytes a slice of variables is assigned. *)
Definition spells (us : list U8) (l : bytes) : Prop :=
  map (fun u => value (U8_Val u)) us = map Z_of_byte l.

Lemma spells_length us l : spells us l -> length us = length l.
Proof. intros H%(f_equal length). by rewrite !length_map in H. Qed.

Lemma spells_cons u us b l :
  spells (u :: us) (b :: l) <-> value (U8_Val u) = Z_of_byte b /\ spells us l.
Proof. unfold spells. cbn. split; [by intros [=]|by intros [-> ->]]. Qed.

Lemma spells_take n us l : spells us l -> spells (take n us) (take n l).
Proof. unfold spells. intros H. by rewrite <-!firstn_map, H. Qed.
Lemma spells_drop n us l : spells us l -> spells (drop n us) (drop n l).
Proof. unfold spells. intros H. by rewrite <-!skipn_map, H. Qed.
Lemma spells_sub from to us l :
  spells us l -> spells (sub from to us) (slice (Z.to_nat from) (Z.to_nat (to - from)) l).
Proof. intros. by apply spells_take, spells_drop. Qed.

Lemma spells_literal l : spells (map uints_NewU8 l) l.
Proof.
  induction l as [|b l IH]; [done|]. apply spells_cons. split; [apply value_NewU8|done].
Qed.

(** ** Equations and sums *)

Lemma assert_bytes_iff uapi a b x y cs cs' :
  (holds cs -> spells a x /\ spells b y) ->
  length a = length x -> length b = length y -> length x = length y ->
  assert_bytes uapi a b cs = (Ok tt, cs') -> holds cs' <-> holds cs /\ x = y.
Proof.
  revert b x y cs. induction a as [|u a IH]; intros b x y cs Hs Ha Hb Hl H.
  - destruct x; [|done]. destruct y; [|done]. cbn in H. unfold ret in H. simplify_eq. intuition.
  - destruct x as [|z x]; [done|]. destruct y as [|w y]; [done|]. destruct b as [|v b]; [done|].
    cbn [assert_bytes] in H. apply bind_ok in H as ([] & cs1 & H1 & H). cbn in Ha, Hb, Hl.
    rewrite !spells_cons in Hs. apply (ByteAssertEq_spec _ _ _ z w) in H1; [|tauto].
    apply (IH b x y) in H; [|tauto|lia..]. rewrite H, H1. split.
    + by intros [[? ->] ->].
    + by intros [? [= -> ->]].
Qed.

Lemma assertLiteralBytes_iff uapi got x want cs cs' :
  spells got x -> assertLiteralBytes uapi got want cs = (Ok tt, cs') ->
  holds cs' <-> holds cs /\ x = want.
Proof.
  intros Hx H. unfold assertLiteralBytes in H. go_step. go_step. bool_simpl.
  pose proof (spells_length _ _ Hx).
  apply (assert_bytes_iff uapi got _ x want) in H; [done| |done|by rewrite length_map|congruence].
  split; [done|apply spells_literal].
Qed.

Fixpoint byte_sum (l : bytes) : Z :=
  match l with [] => 0 | b :: l' => Z_of_byte b + byte_sum l' end.

Lemma byte_sum_range l : 0 <= byte_sum l <= 255 * len l.
Proof.
  induction l as [|b l IH]; cbn [byte_sum]; [done|].
  pose proof (Z_of_byte_range b). unfold len in *. cbn [length]. lia.
Qed.

Lemma byte_sum_zero l : byte_sum l = 0 <-> unbe l = 0.
Proof.
  induction l as [|b l IH]; [done|]. cbn [byte_sum]. rewrite unbe_cons.
  pose proof (Z_of_byte_range b). pose proof (byte_sum_range l). pose proof (unbe_range l).
  assert (0 < 256 ^ Z.of_nat (length l)) by (apply Z.pow_pos_nonneg; lia). nia.
Qed.

Lemma add_all_spec sum n us l r cs cs' :
  spells us l -> (holds cs -> value sum = n) -> 0 <= n -> n + byte_sum l < FieldSize ->
  add_all sum us cs = (Ok r, cs') ->
  (holds cs' <-> holds cs) /\ (holds cs' -> value r = n + byte_sum l).
Proof.
  revert sum n l cs. induction us as [|u us IH]; intros sum n l cs Hs Hn Hp Hb H.
  - destruct l; [|done]. cbn in H. unfold ret in H. simplify_eq. cbn. split; [done|].
    intros Hh. rewrite (Hn Hh). lia.
  - destruct l as [|b l]; [done|]. apply spells_cons in Hs as [Hu Hs].
    cbn [add_all] in H. apply bind_ok in H as (s1 & cs1 & H1 & H).
    apply api_Add_spec in H1 as [Hh1 Hv1]. cbn [byte_sum] in Hb |- *. rewrite Hu in Hv1.
    pose proof (Z_of_byte_range b). pose proof (byte_sum_range l).
    apply (IH s1 (n + Z_of_byte b) l) in H as [Hh Hv]; [|done|..|lia|lia].
    + rewrite Hh, Hh1. split; [done|]. intros Hx. rewrite Hv by by apply Hh, Hh1. lia.
    + intros Hx. rewrite Hv1, Hn by (done || by apply Hh1). apply Z.mod_small. lia.
Qed.

Lemma assertByteSliceNonZero_iff us l cs cs' :
  spells us l -> len l <= 2 ^ 32 -> assertByteSliceNonZero us cs = (Ok tt, cs') ->
  holds cs' <-> holds cs /\ unbe l <> 0.
Proof.
  intros Hs Hl H. unfold assertByteSliceNonZero in H.
  pose proof FieldSize_large as HF. pose proof (byte_sum_range l) as Hr.
  apply bind_ok in H as (sum & cs1 & H1 & H). apply bind_ok in H as (z & cs2 & H2 & H).
  apply (add_all_spec _ 0 _ l) in H1 as [Hh1 Hv1]; [|done|by rewrite value_constant|lia|lia].
  apply api_IsZero_spec in H2 as [Hh2 Hv2]. apply api_AssertIsEqual_spec in H.
  rewrite value_constant, Z.mod_0_l in H by lia. rewrite <-byte_sum_zero.
  assert (Hv : holds cs2 -> value z = 0 <-> byte_sum l <> 0).
  { intros Hx. rewrite (Hv2 Hx), (Hv1 (proj1 Hh2 Hx)).
    destruct (0 + byte_sum l =? 0) eqn:E; bool_simpl; lia. }
  rewrite H, <-Hh1, <-Hh2. split; intros [Hx ?]; (split; [done|by apply Hv]).
Qed.

Lemma assert_digest_iff h uapi c pre dig cs cs' :
  spells (Preimage c) pre -> spells (Digest c) dig -> len dig = 32 -> written h = [] ->
  assert_digest h uapi 32 c cs = (Ok tt, cs') ->
  holds cs' <-> holds cs /\ dig = Sum256 pre.
Proof.
  intros Hp Hd Hl Hw H. unfold assert_digest in H.
  apply bind_ok in H as (h1 & cs1 & H1 & H). apply bind_ok in H as (sum & cs2 & H2 & H).
  go_step. go_step. bool_simpl.
  apply hasher_Write_spec in H1 as [Hh1 Hw1]. rewrite Hw in Hw1. cbn in Hw1.
  apply (hasher_Sum_spec _ _ pre) in H2 as [Hh2 Hv2]; [|by rewrite Hw1].
  apply (assert_bytes_iff uapi _ _ dig (Sum256 pre)) in H.
  - by rewrite H, Hh2, Hh1.
  - intros Hx. split; [done|by apply Hv2].
  - by apply spells_length.
  - rewrite length_array. lia.
  - rewrite length_array. unfold len in Hl. lia.
Qed.

(** ** Assignments *)

Lemma copied n l us : copy_u8 n (uints_NewU8Array l) = Ok us -> len l = n -> spells us l.
Proof.
  unfold copy_u8. intros H Hl. assert (Hs : spells (uints_NewU8Array l) l)
    by apply value_NewU8Array. pose proof (spells_length _ _ Hs). unfold len in Hl.
  destruct (_ <=? _); [|done]. simplify_eq. rewrite take_ge by lia. done.
Qed.

Lemma clear_assignment_spells pre dig c :
  NewClearHashAssignment pre dig = Ok c ->
  len pre = ClearHashPreimageLen /\ len dig = 32 /\ spells (Preimage c) pre /\
  spells (Digest c) dig.
Proof.
  unfold NewClearHashAssignment. intros H. go_inv. unfold ClearHashDigestLen in *.
  split_and!; try done; by eapply copied.
Qed.

Lemma shielded_assignment_spells pre dig c :
  NewShieldedLedgerAssignment pre dig = Ok c ->
  len pre = ShieldedLedgerPreimageLen /\ len dig = 32 /\ spells (Preimage c) pre /\
  spells (Digest c) dig.
Proof.
  unfold NewShieldedLedgerAssignment. intros H. go_inv. unfold ShieldedLedgerDigestLen in *.
  split_and!; try done; by eapply copied.
Qed.

Lemma clear_define_iff pre dig c cs cs' :
  len dig = 32 -> spells (Preimage c) pre -> spells (Digest c) dig ->
  ClearHashCircuit.Define c cs = (Ok tt, cs') ->
  holds cs' <-> holds cs /\ dig = Sum256 pre.
Proof.
  intros Hl Hp Hd H. unfold ClearHashCircuit.Define in H.
  apply bind_ok in H as (h & cs1 & H1 & H). apply bind_ok in H as (uapi & cs2 & H2 & H).
  apply sha2_New_spec in H1 as [Hh1 Hw]. apply uints_New_spec in H2.
  apply (assert_digest_iff _ _ _ _ _ _ _ Hp Hd Hl Hw) in H. by rewrite H, H2, Hh1.
Qed.

(** The constraints of the clear-hash circuit hold for an assignment exactly
    when its digest is the SHA-256 of its preimage; for the preimage the chain
    builds, when it is the hash the chain expects. *)
Theorem clear_circuit_iff m w p tv fh dig c cs cs' :
  NewClearHashAssignment (BuildClearPublicInputsPreimage m w p tv fh) dig = Ok c ->
  ClearHashCircuit.Define c cs = (Ok tt, cs') -> holds cs ->
  holds cs' <-> dig = ComputeClearPublicInputsHash m w p tv fh.
Proof.
  intros Ha H Hc. apply clear_assignment_spells in Ha as (_ & Hl & Hp & Hd).
  rewrite (clear_define_iff _ _ _ _ _ Hl Hp Hd H). unfold ComputeClearPublicInputsHash.
  intuition.
Qed.

(** The fields a shielded preimage is cut into. *)
Definition well_shaped (pre : bytes) : Prop :=
  slice 0 23 pre = ShieldedLedgerInputsDomainTag /\ slice 79 2 pre = [x00; x20] /\
  unbe (slice 23 32 pre) <> 0 /\ unbe (slice 55 8 pre) <> 0 /\ unbe (slice 63 8 pre) <> 0 /\
  unbe (slice 71 8 pre) <> 0 /\ unbe (slice 81 32 pre) <> 0.

Lemma shielded_define_iff pre dig c cs cs' :
  len dig = 32 -> len pre = ShieldedLedgerPreimageLen ->
  spells (Preimage c) pre -> spells (Digest c) dig ->
  ShieldedLedgerCircuitV1.Define c cs = (Ok tt, cs') ->
  holds cs' <-> holds cs /\ well_shaped pre /\ dig = Sum256 pre.
Proof.
  intros Hl Hn Hp Hd H. unfold ShieldedLedgerCircuitV1.Define in H.
  assert (Hs : forall from to, len (slice (Z.to_nat from) (Z.to_nat (to - from)) pre) <= 2 ^ 32).
  { intros from to. unfold len, slice in *. rewrite length_take, length_drop.
    change ShieldedLedgerPreimageLen with 113 in Hn. lia. }
  apply bind_ok in H as (h & cs1 & H1 & H). apply sha2_New_spec in H1 as [Hh1 Hw].
  apply bind_ok in H as (uapi & cs2 & H2 & H). apply uints_New_spec in H2.
  apply bind_ok in H as ([] & cs3 & H3 & H).
  apply (assertLiteralBytes_iff _ _ _ _ _ _ (spells_sub _ _ _ _ Hp)) in H3.
  apply bind_ok in H as ([] & cs4 & H4 & H).
  apply (assertLiteralBytes_iff _ _ _ _ _ _ (spells_sub _ _ _ _ Hp)) in H4.
  do 5 (let Hx := fresh "Hx" in apply bind_ok in H as ([] & ? & Hx & H);
        apply (assertByteSliceNonZero_iff _ _ _ _ (spells_sub _ _ _ _ Hp) (Hs _ _)) in Hx).
  apply (assert_digest_iff _ _ _ _ _ _ _ Hp Hd Hl Hw) in H.
  repeat match goal with E : holds _ <-> _ |- _ => rewrite E; clear E end.
  unfold well_shaped. split.
  - intros [[[[[[[[? ?] ?] ?] ?] ?] ?] ?] ?]. by repeat (split; [assumption|]).
  - intros (? & (? & ? & ? & ? & ? & ? & ?) & ?). repeat split; assumption.
Qed.

(** The slices of a preimage built from its fields, and back. *)
Lemma built_slices m w p tv fh :
  u64 w -> u64 p -> u64 tv -> len fh = 32 ->
  let pre := BuildShieldedLedgerPublicInputsPreimage m w p tv fh in
  slice 0 23 pre = ShieldedLedgerInputsDomainTag /\ slice 79 2 pre = [x00; x20] /\
  slice 23 32 pre = array_bytes m /\ unbe (slice 55 8 pre) = w /\ unbe (slice 63 8 pre) = p /\
  unbe (slice 71 8 pre) = tv /\ slice 81 32 pre = fh.
Proof.
  intros Hw Hp Ht Hf. cbv zeta. unfold BuildShieldedLedgerPublicInputsPreimage.
  assert (Hn : length fh = 32%nat) by (unfold len in Hf; lia). rewrite Hf.
  split; [done|]. set (tag := ShieldedLedgerInputsDomainTag).
  split_and!; rewrite (slice_app_ge 23) by (done || lia); cbn [Nat.sub]; slices;
    rewrite ?unbe_be_8 by done; done.
Qed.

Lemma slice_app_next off n k (l : bytes) :
  slice off n l ++ slice (off + n) k l = slice off (n + k) l.
Proof. unfold slice. by rewrite <-drop_drop, take_take_drop. Qed.

Lemma rebuilt pre :
  len pre = 113 -> well_shaped pre ->
  BuildShieldedLedgerPublicInputsPreimage (copy_array 32 (slice 23 32 pre))
    (unbe (slice 55 8 pre)) (unbe (slice 63 8 pre)) (unbe (slice 71 8 pre)) (slice 81 32 pre)
  = pre.
Proof.
  intros Hl (Ht & Hh & _). unfold len in Hl.
  assert (Hn : forall off n, (off + n <= 113)%nat -> length (slice off n pre) = n).
  { intros off n H. apply length_slice. lia. }
  unfold BuildShieldedLedgerPublicInputsPreimage. rewrite <-Ht.
  rewrite copy_array_bytes by (apply Hn; lia).
  assert (Hb : forall off, (off + 8 <= 113)%nat -> be 8 (unbe (slice off 8 pre)) = slice off 8 pre).
  { intros off H. rewrite <-(Hn off 8%nat) at 1 by lia. apply be_unbe. }
  rewrite !Hb by lia. replace (be 2 _) with (slice 79 2 pre);
    [|rewrite Hh; unfold len; rewrite Hn by lia; reflexivity].
  rewrite (slice_app_next 79 2 32), (slice_app_next 71 8), (slice_app_next 63 8),
    (slice_app_next 55 8), (slice_app_next 23 32), (slice_app_next 0 23).
  apply slice_all. lia.
Qed.

(** C12: the constraints of the shielded-ledger circuit hold for an assignment
    exactly when its preimage is one the chain builds for a clear with a fills
    hash of 32 bytes and no zero field, and its digest is the hash the chain
    computes for that clear. *)
Theorem shielded_circuit_iff pre dig c cs cs' :
  NewShieldedLedgerAssignment pre dig = Ok c ->
  ShieldedLedgerCircuitV1.Define c cs = (Ok tt, cs') -> holds cs ->
  holds cs' <-> exists m w p tv fh,
    unbe (array_bytes m) <> 0 /\ (u64 w /\ w <> 0) /\ (u64 p /\ p <> 0) /\ (u64 tv /\ tv <> 0) /\
    (len fh = 32 /\ unbe fh <> 0) /\ pre = BuildShieldedLedgerPublicInputsPreimage m w p tv fh /\
    dig = ComputeShieldedLedgerPublicInputsHash m w p tv fh.
Proof.
  intros (Hn & Hl & Hp & Hd)%shielded_assignment_spells H Hc.
  rewrite (shielded_define_iff _ _ _ _ _ Hl Hn Hp Hd H).
  unfold ComputeShieldedLedgerPublicInputsHash. split.
  - intros (_ & Hw & Hdig). pose proof (rebuilt pre Hn Hw) as Hr.
    destruct Hw as (_ & _ & Hm & Hww & Hpp & Htv & Hf).
    assert (Hu : forall off, u64 (unbe (slice off 8 pre)))
      by (intros off; apply uint_at_8_range).
    change (Z.of_nat (length pre) = 113) in Hn.
    eexists _, _, _, _, _. rewrite Hr. split_and!; try done.
    + rewrite copy_array_bytes by (apply length_slice; lia). done.
    + unfold len. rewrite length_slice by lia. done.
  - intros (m & w & p & tv & fh & Hm & [Hw ?] & [Hp' ?] & [Ht ?] & [Hf ?] & -> & ->).
    split; [done|]. split; [|done].
    destruct (built_slices m w p tv fh Hw Hp' Ht Hf) as (E1 & E2 & E3 & E4 & E5 & E6 & E7).
    unfold well_shaped. rewrite E1, E2, E3, E4, E5, E6, E7. done.
Qed.
End facts.

(** ** Evaluations *)

(** A frontend that evaluates: variables are field elements, the constraint
    system is whether everything asserted so far holds. *)
Module Samples.
Definition field : Z := 2 ^ 253.
Definition sum_bytes (h : list Z) : list Z :=
  map Z_of_byte (Sum256 (map byte_of_Z h)).
#[export, refine] Instance engine : Frontend :=
  {| CS := bool; Var := Z; U8 := Z; BinaryField := unit; Hasher := list Z;
     constant z := z mod field; U8_Val u := u; uints_NewU8 := Z_of_byte;
     uints_NewU8Array := map Z_of_byte; uints_New := ret tt;
     ByteAssertEq _ a b cs := (Ok tt, cs && (a =? b));
     api_Add a b := ret ((a + b) mod field); api_IsZero a := ret (if a =? 0 then 1 else 0);
     api_AssertIsEqual a b cs := (Ok tt, cs && (a =? b));
     sha2_New := ret []; hasher_Write h l := ret (h ++ l);
     hasher_Sum h := ret (sum_bytes h) |}.
Proof. Defined.

Lemma bytes_back l : map byte_of_Z (map Z_of_byte l) = l.
Proof. induction l as [|b l IH]; cbn; [done|]. by rewrite byte_of_Z_of_byte, IH. Qed.

#[export, refine] Instance engine_spec : FrontendSpec :=
  {| FieldSize := field; value (v : @Var engine) := (v : Z);
     holds (cs : @CS engine) := (cs : bool) = true;
     written (h : @Hasher engine) := (h : list Z) |}.
Proof.
  all: cbn; unfold ret; intros; simplify_eq; try done.
  - by rewrite map_id.
  - rewrite andb_true_iff, Z.eqb_eq. split; intros [Hc E]; split; try done.
    + apply Z_of_byte_inj. destruct (H Hc) as [<- <-]. done.
    + destruct (H Hc) as [-> ->]. by subst.
  - by rewrite andb_true_iff, Z.eqb_eq.
  - split; [done|]. intros _. rewrite map_id in *. unfold sum_bytes. subst.
    by rewrite bytes_back.
Defined.

Definition market : ID := copy_array 32 [x01].
Definition fills : bytes := replicate 32 x07.
Definition clear_digest : bytes := ComputeClearPublicInputsHash market 1 2 3 fills.
Definition shielded_digest : bytes := ComputeShieldedLedgerPublicInputsHash market 1 2 3 fills.
Definition assigned (o : Outcome Circuit) : Circuit :=
  match o with Ok c => c | _ => mk_circuit [] [] end.
Definition clear_pre : bytes := BuildClearPublicInputsPreimage market 1 2 3 fills.
Definition shielded_pre : bytes := BuildShieldedLedgerPublicInputsPreimage market 1 2 3 fills.
(** A clear without volume. *)
Definition no_volume : bytes := BuildShieldedLedgerPublicInputsPreimage market 1 2 0 fills.
End Samples.
Import Samples.

Example shielded_without_volume :
  let c := assigned (NewShieldedLedgerAssignment no_volume (Sum256 no_volume)) in
  ShieldedLedgerCircuitV1.Define c true = (Ok tt, false).
Proof. intros c. evaluate. Qed.

Lemma clear_circuit_iff_witness :
  @holds engine engine_spec true <-> clear_digest = ComputeClearPublicInputsHash market 1 2 3 fills.
Proof.
  apply (clear_circuit_iff market 1 2 3 fills clear_digest
           (assigned (NewClearHashAssignment clear_pre clear_digest)) true true).
  - evaluate.
  - evaluate.
  - reflexivity.
Defined.

Lemma shielded_circuit_iff_witness : exists m w p tv fh,
  unbe (array_bytes m) <> 0 /\ (u64 w /\ w <> 0) /\ (u64 p /\ p <> 0) /\ (u64 tv /\ tv <> 0) /\
  (len fh = 32 /\ unbe fh <> 0) /\
  shielded_pre = BuildShieldedLedgerPublicInputsPreimage m w p tv fh /\
  shielded_digest = ComputeShieldedLedgerPublicInputsHash m w p tv fh.
Proof.
  apply (shielded_circuit_iff shielded_pre shielded_digest
           (assigned (NewShieldedLedgerAssignment shielded_pre shielded_digest)) true true).
  - evaluate.
  - evaluate.
  - reflexivity.
  - reflexivity.
Defined.
