(* ===== verification/ClientFacts.v ===== *)
(** * The client against the server

    Which methods of the server the client asks for by their name, over any
    connection that does not answer for a method the server lacks, and what the
    client remembers. *)
From stdpp Require Import strings.
From S2P Require Import Prelude Errors Go Platform Storage Concrete Metrics Genesis Server Client.

(** ** The names of the methods *)

(** The platform title-cases the name of a request ("zkmetrics" is answered by
    [Zkmetrics], as the aliases of [vm/server.go] say). *)
Definition title (s : string) : string :=
  match s with
  | String c rest =>
      let n := Ascii.nat_of_ascii c in
      String (if (97 <=? n)%nat && (n <=? 122)%nat then Ascii.ascii_of_nat (n - 32) else c) rest
  | EmptyString => EmptyString
  end.

(** The names the server's methods for a request have. *)
Definition handler_names {Rules R} (r : Request Rules R) : list string :=
  match r with
  | RqGenesis => ["Genesis"]
  | RqBalance _ => ["Balance"]
  | RqMarket _ => ["Market"]
  | RqPool _ _ => ["Pool"]
  | RqLPBalance _ _ _ => ["LPBalance"]
  | RqVAIBalance _ => ["VAIBalance"]
  | RqVAIState => ["VAIState"]
  | RqTreasury => ["Treasury"]
  | RqFeeRouter => ["FeeRouter"]
  | RqRisk => ["Risk"]
  | RqReserve => ["Reserve"]
  | RqProofConfig => ["ProofConfig"]
  | RqBatchProof _ _ => ["BatchProof"]
  | RqVellumProof _ _ => ["VellumProof"]
  | RqBloodsworn _ => ["Bloodsworn"]
  | RqGlyph _ _ => ["Glyph"]
  | RqClearInputsHash _ _ _ _ _ => ["ClearInputsHash"]
  | RqZKMetrics _ _ => ["ZKMetrics"; "Zkmetrics"]
  | RqZKMetricsReset => ["ZKMetricsReset"; "Zkmetricsreset"]
  | RqRecordZKProverMetrics _ => ["RecordZKProverMetrics"; "Recordzkprovermetrics"]
  end.

(** A connection to the server: what it answers is the platform's affair, but a
    method the server does not have is not answered. *)
Class Serves {Rules N : Type} (RQ : Requester Rules N) : Prop :=
  not_served R (r : Request Rules R) n x n' :
    title (method r) ∉ handler_names r -> SendRequest r n <> (Ok x, n').

(** The requests whose lower-case name has one capital in the server. *)
Definition reachable {Rules R} (r : Request Rules R) : bool :=
  match r with
  | RqLPBalance _ _ _ | RqVAIBalance _ | RqVAIState | RqFeeRouter | RqProofConfig
  | RqBatchProof _ _ | RqVellumProof _ _ | RqClearInputsHash _ _ _ _ _ => false
  | _ => true
  end.

Lemma reachable_named {Rules R} (r : Request Rules R) :
  reachable r = bool_decide (title (method r) ∈ handler_names r).
Proof. destruct r; cbn [reachable method handler_names]; vm_compute; reflexivity. Qed.

Section served.
Context {Rules N : Type} {RQ : Requester Rules N} {SV : Serves RQ}.

Lemma send_unnamed {R} (r : Request Rules R) x s s' :
  reachable r = false -> JSONRPCClient.send r s <> (Ok x, s').
Proof.
  rewrite reachable_named. intros Hr%bool_decide_eq_false H. unfold JSONRPCClient.send in H.
  destruct (SendRequest r s.2) as [o n] eqn:E. injection H as -> _. by eapply not_served.
Qed.

(** The eight methods whose server name has a second capital and no alias, the
    clear hash, batch proof and vellum proof of the README's table among them,
    return no answer. *)
Theorem client_unanswered (s s' : JSONRPCClient.t Rules * N) :
  (forall a0 a1 a x, JSONRPCClient.LPBalance a0 a1 a s <> (Ok x, s')) /\
  (forall a x, JSONRPCClient.VAIBalance a s <> (Ok x, s')) /\
  (forall x, JSONRPCClient.VAIState s <> (Ok x, s')) /\
  (forall x, JSONRPCClient.FeeRouter s <> (Ok x, s')) /\
  (forall x, JSONRPCClient.ProofConfig s <> (Ok x, s')) /\
  (forall m w x, JSONRPCClient.BatchProof m w s <> (Ok x, s')) /\
  (forall m w x, JSONRPCClient.VellumProof m w s <> (Ok x, s')) /\
  (forall m w p v f x, JSONRPCClient.ClearInputsHash m w p v f s <> (Ok x, s')).
Proof. split_and!; intros; by apply send_unnamed. Qed.
End served.

(** ** What the client remembers *)

Section memory.
Context {Rules N : Type} {RQ : Requester Rules N}.
Implicit Types s : JSONRPCClient.t Rules * N.

(** After one answer the genesis and its rules come from memory: neither call
    reaches the network again. *)
Theorem genesis_fetched_once x s s' :
  JSONRPCClient.Genesis s = (Ok x, s') ->
  JSONRPCClient.Genesis s' = (Ok x, s') /\
  (JSONRPCClient.ruleFactory s.1 = None -> exists s'',
     JSONRPCClient.GetRuleFactory s' = (Ok (Genesis.GRules x), s'') /\ s''.2 = s'.2 /\
     JSONRPCClient.GetRuleFactory s'' = (Ok (Genesis.GRules x), s'')).
Proof.
  unfold JSONRPCClient.Genesis. intros H.
  assert (Hg : JSONRPCClient.g s'.1 = Some x /\
               JSONRPCClient.ruleFactory s'.1 = JSONRPCClient.ruleFactory s.1).
  { destruct (JSONRPCClient.g s.1) eqn:E; [by simplify_eq|].
    unfold bind, JSONRPCClient.send in H. destruct (SendRequest _ _) as [[] ?]; by simplify_eq/=. }
  destruct Hg as [Hg Hr]. rewrite Hg. split; [done|]. intros Hn. rewrite Hn in Hr.
  unfold JSONRPCClient.GetRuleFactory, JSONRPCClient.Genesis, bind. rewrite Hr, Hg.
  eexists. split; [reflexivity|]. done.
Qed.

(** A wait that returns has just seen a balance of at least the minimum. *)
Theorem WaitForBalance_ok {W : Waiter (JSONRPCClient.t Rules * N)} addr min s s' :
  JSONRPCClient.WaitForBalance addr min s = (Ok tt, s') ->
  exists s0 b, JSONRPCClient.Balance addr s0 = (Ok b, s') /\ min <= b.
Proof.
  intros (s0 & H)%Wait_done. go_step. unfold ret in H. simplify_eq.
  exists s0, r. split; [done|]. lia.
Qed.
End memory.

(** ** Evaluations *)

(** A node that answers the requests by the server's methods, and a connection
    that looks the method up by its title-cased name. *)
Module Samples.
Record Node (M Rules : Type) := mk_node {
  node_vm : VM M Rules; node_now : Z; node_metrics : zkMetricsCollector
}.
Arguments mk_node {_ _} _ _ _.
Arguments node_vm {_ _} _.
Arguments node_now {_ _} _.
Arguments node_metrics {_ _} _.
#[export] Instance texts : Text := {| ids_String _ := ""; err_Error _ := "" |}.
Definition no_such_method : Error := ErrMessage "can't find method".
Definition on_metrics {A} (c : ST zkMetricsCollector A) : ST (Node Store unit) A := fun n =>
  let '(o, mt) := c (node_metrics n) in (o, mk_node (node_vm n) (node_now n) mt).
Definition handle {R} (r : Request unit R) : ST (Node Store unit) R := fun n =>
  let j := node_vm n in
  match r with
  | RqGenesis => (Ok (JSONRPCServer.Genesis j), n)
  | RqBalance a => (JSONRPCServer.Balance j a, n)
  | RqMarket m => (JSONRPCServer.Market j m, n)
  | RqPool a0 a1 => (JSONRPCServer.Pool j a0 a1, n)
  | RqLPBalance a0 a1 a => (JSONRPCServer.LPBalance j a0 a1 a, n)
  | RqVAIBalance a => (JSONRPCServer.VAIBalance j a, n)
  | RqVAIState => (JSONRPCServer.VAIState j, n)
  | RqTreasury => (JSONRPCServer.Treasury j, n)
  | RqFeeRouter => (JSONRPCServer.FeeRouter j, n)
  | RqRisk => (JSONRPCServer.Risk j, n)
  | RqReserve => (JSONRPCServer.Reserve j, n)
  | RqProofConfig => (JSONRPCServer.ProofConfig j, n)
  | RqBatchProof m w => (JSONRPCServer.BatchProof j m w, n)
  | RqVellumProof m w => (JSONRPCServer.VellumProof j m w, n)
  | RqBloodsworn a => (JSONRPCServer.Bloodsworn j a, n)
  | RqGlyph m w => (JSONRPCServer.Glyph j m w, n)
  | RqClearInputsHash m w p v f => (Ok (JSONRPCServer.ClearInputsHash m w p v f), n)
  | RqZKMetrics l i => on_metrics (JSONRPCServer.ZKMetrics (node_now n) (Some (l, i))) n
  | RqZKMetricsReset => on_metrics JSONRPCServer.ZKMetricsReset n
  | RqRecordZKProverMetrics a => on_metrics (JSONRPCServer.RecordZKProverMetrics (Some a)) n
  end.
Definition rpc : Requester unit (Node Store unit) := fun R r n =>
  if bool_decide (title (method r) ∈ handler_names r) then handle r n
  else (Err no_such_method, n).
Lemma rpc_serves : Serves rpc.
Proof. intros R r n x n' H. unfold SendRequest, rpc. by rewrite bool_decide_false. Qed.
Definition held : VM Store unit :=
  mk_vm (fun keys => (map (fun _ => be 8 7) keys, map (fun _ => None) keys)) (Err no_such_method)
        (Genesis.mk 16 [] None None).
Definition node : Node Store unit := mk_node held 5 (newZKMetricsCollector 10).
Definition client : JSONRPCClient.t unit := JSONRPCClient.New.
End Samples.
Import Samples.

(** The balance is answered, the VAI balance is not. *)
Example rpc_answers :
  let RQ := rpc in
  (JSONRPCClient.Balance (zero_array 33) (client, node)).1 = Ok 7 /\
  (JSONRPCClient.VAIBalance (zero_array 33) (client, node)).1 = Err no_such_method.
Proof. vm_compute. split; reflexivity. Qed.
