(* ===== verification/ToolFacts.v ===== *)
(** * What the tools produce is accepted

    The generated genesis is complete and valid; the sample of each circuit
    satisfies its constraints. *)
From S2P Require Import Prelude Errors Go Platform Concrete Sha256 Storage ProofEnvelope.
From S2P Require Import Metrics Markets Proofs Genesis Zk Circuits CircuitFacts Tools.

Section keygen.
Context {PF : Platform} {PS : PlatformSpec} {Rules : Type} {GF : GenesisFile Rules}.

(** The generated genesis leaves nothing to the defaults, and its amounts add
    up to the declared supply: for an address other than the zero address,
    loading changes none of its tokenomics and the validation accepts it. *)
Theorem keygen_genesis_valid (tune : Keygen.Limits -> Rules -> Rules) addr :
  addr <> zero_array 33 ->
  applyTokenomicsDefaults (Keygen.genesis tune addr) = Ok (Keygen.genesis tune addr) /\
  validateTokenomics (Genesis.CustomAllocations (Keygen.genesis tune addr))
    (Genesis.GTokenomics (Keygen.genesis tune addr)) = Ok tt /\
  Tokenomics.ok (Keygen.tokenomics addr).
Proof.
  intros Ha. unfold Keygen.genesis, applyTokenomicsDefaults.
  cbn [Genesis.GTokenomics Genesis.CustomAllocations deref obind]. split; [|split].
  - do 3 f_equal. unfold tokenomics_defaults, or_address. cbn.
    rewrite !bool_decide_false by done. done.
  - unfold validateTokenomics. cbn. rewrite bool_decide_false by done. cbn.
    do 3 (rewrite smath_Add_spec by (unfold u64; lia);
          rewrite (proj2 (Z.ltb_lt _ _)) by lia; cbn [obind Z.add Pos.add Pos.succ]).
    done.
  - vm_compute. intuition congruence.
Qed.
End keygen.

(** ** Samples *)

Section samples.
Context {F : Frontend} {FS : FrontendSpec}.

Lemma clear_preimage_len m w p tv (fh : array 32) :
  len (BuildClearPublicInputsPreimage m w p tv (array_bytes fh)) = ClearHashPreimageLen.
Proof.
  unfold BuildClearPublicInputsPreimage, len. autorewrite with lengths. reflexivity.
Qed.

Lemma shielded_preimage_len m w p tv (fh : array 32) :
  len (BuildShieldedLedgerPublicInputsPreimage m w p tv (array_bytes fh))
  = ShieldedLedgerPreimageLen.
Proof.
  unfold BuildShieldedLedgerPublicInputsPreimage, len. autorewrite with lengths. reflexivity.
Qed.

Lemma copy_all l n : len l = n -> copy_u8 n (uints_NewU8Array l) = Ok (uints_NewU8Array l).
Proof.
  intros Hl. pose proof (spells_length _ _ (value_NewU8Array l)) as H. unfold len in Hl.
  unfold copy_u8. rewrite (proj2 (Z.leb_le _ _)) by lia. by rewrite take_ge by lia.
Qed.

Lemma clear_assignment pre (hash : array 32) :
  len pre = ClearHashPreimageLen ->
  NewClearHashAssignment pre (array_bytes hash)
  = Ok (mk_circuit (uints_NewU8Array pre) (uints_NewU8Array (array_bytes hash))).
Proof.
  intros Hl. assert (Hh : len (array_bytes hash) = 32) by (unfold len; by rewrite length_array).
  unfold NewClearHashAssignment. rewrite (copy_all pre), (copy_all (array_bytes hash)) by done.
  by rewrite Hl, Hh, Z.eqb_refl.
Qed.

Lemma shielded_assignment pre (hash : array 32) :
  len pre = ShieldedLedgerPreimageLen ->
  NewShieldedLedgerAssignment pre (array_bytes hash)
  = Ok (mk_circuit (uints_NewU8Array pre) (uints_NewU8Array (array_bytes hash))).
Proof.
  intros Hl. assert (Hh : len (array_bytes hash) = 32) by (unfold len; by rewrite length_array).
  unfold NewShieldedLedgerAssignment. rewrite (copy_all pre), (copy_all (array_bytes hash)) by done.
  by rewrite Hl, Hh, Z.eqb_refl.
Qed.

(** The assignment of the chain's own preimage and hash satisfies the circuit, for
    the shielded-ledger circuit when no field is zero. *)
Lemma clear_provable m w p tv (fh : array 32) :
  let pre := BuildClearPublicInputsPreimage m w p tv (array_bytes fh) in
  exists a, NewClearHashAssignment pre (array_bytes (Sum256 pre)) = Ok a /\
    forall cs cs', ClearHashCircuit.Define a cs = (Ok tt, cs') -> holds cs -> holds cs'.
Proof.
  cbv zeta. set (pre := BuildClearPublicInputsPreimage m w p tv (array_bytes fh)).
  assert (Hl : len pre = ClearHashPreimageLen) by apply clear_preimage_len.
  eexists. split; [by apply clear_assignment|].
  intros cs cs' H Hc. apply (clear_define_iff pre (Sum256 pre)) in H;
    [by apply H| unfold len; by rewrite length_array|apply value_NewU8Array..].
Qed.

Lemma shielded_provable m w p tv (fh : array 32) :
  u64 w -> u64 p -> u64 tv -> w <> 0 -> p <> 0 -> tv <> 0 ->
  unbe (array_bytes m) <> 0 -> unbe (array_bytes fh) <> 0 ->
  let pre := BuildShieldedLedgerPublicInputsPreimage m w p tv (array_bytes fh) in
  exists a, NewShieldedLedgerAssignment pre (array_bytes (Sum256 pre)) = Ok a /\
    forall cs cs', ShieldedLedgerCircuitV1.Define a cs = (Ok tt, cs') -> holds cs -> holds cs'.
Proof.
  intros Hw Hp Ht ? ? ? ? ?. cbv zeta.
  set (pre := BuildShieldedLedgerPublicInputsPreimage m w p tv (array_bytes fh)).
  assert (Hl : len pre = ShieldedLedgerPreimageLen) by apply shielded_preimage_len.
  eexists. split; [by apply shielded_assignment|].
  intros cs cs' Hd Hc. apply (shielded_define_iff pre (Sum256 pre)) in Hd;
    [|unfold len; by rewrite length_array|done|apply value_NewU8Array..].
  apply Hd. split; [done|]. split; [|done].
  destruct (built_slices m w p tv (array_bytes fh)) as (E1 & E2 & E3 & E4 & E5 & E6 & E7);
    [done..|unfold len; by rewrite length_array|].
  unfold well_shaped, pre. by rewrite E1, E2, E3, E4, E5, E6, E7.
Qed.

(** For a supported circuit the tool's sample is computed, and for random
    values that are not zero it gives an assignment for which the constraints of
    the selected circuit hold. *)
Theorem sample_satisfies c k m (fh : array 32) :
  ZkTool.selectedCircuit c = Ok k -> unbe (array_bytes m) <> 0 -> unbe (array_bytes fh) <> 0 ->
  exists pre hash a, ZkTool.buildSamplePreimage c (Ok m) (Ok fh) = Ok (pre, hash) /\
    ZkTool.buildAssignment c pre hash = Ok a /\
    forall cs cs', ZkTool.Define k a cs = (Ok tt, cs') -> holds cs -> holds cs'.
Proof.
  unfold ZkTool.selectedCircuit, ZkTool.buildSamplePreimage, ZkTool.buildAssignment.
  cbn [obind]. destruct (bool_decide_reflect (TrimSpace c = ProofCircuitClearHashV1)) as [E|E].
  - intros [= <-] _ _. rewrite clear_preimage_len, Z.eqb_refl. cbn [negb guard obind].
    destruct (clear_provable m 1 1025 3200 fh) as (a & Ha & H). eauto 6.
  - destruct (bool_decide_reflect (TrimSpace c = ProofCircuitShieldedLedgerV1)) as [E'|E'];
      [|done].
    intros [= <-] Hm Hf. rewrite shielded_preimage_len, Z.eqb_refl. cbn [negb guard obind].
    destruct (shielded_provable m 1 1025 3200 fh) as (a & Ha & H); [done..|]. eauto 6.
Qed.
End samples.

(** ** Evaluations *)

Module Samples.
Definition key : Address := copy_array 33 [x00; x01].
#[export] Instance file : GenesisFile unit :=
  {| json_Unmarshal _ := Err (ErrMessage "no file"); BranchFactor16 := 16;
     NewDefaultRules := tt; set_network _ _ r := r |}.
Definition generated : Genesis.t unit := Keygen.genesis (fun _ r => r) key.
End Samples.
Import Samples.

Lemma keygen_genesis_valid_witness :
  applyTokenomicsDefaults generated = Ok generated /\
  validateTokenomics (Genesis.CustomAllocations generated) (Genesis.GTokenomics generated)
    = Ok tt /\
  Tokenomics.ok (Keygen.tokenomics key).
Proof.
  apply (keygen_genesis_valid (fun _ r => r) key). intros H.
  apply (f_equal (fun a => unbe (array_bytes a))) in H. vm_compute in H. discriminate H.
Defined.

Lemma sample_satisfies_witness :
  exists pre hash a,
    ZkTool.buildSamplePreimage ProofCircuitShieldedLedgerV1 (Ok (copy_array 32 [x01]))
      (Ok (copy_array 32 [x02])) = Ok (pre, hash) /\
    ZkTool.buildAssignment ProofCircuitShieldedLedgerV1 pre hash = Ok a /\
    forall cs cs', ZkTool.Define ZkTool.ShieldedLedger a cs = (Ok tt, cs') ->
      @holds CircuitFacts.Samples.engine CircuitFacts.Samples.engine_spec cs ->
      @holds CircuitFacts.Samples.engine CircuitFacts.Samples.engine_spec cs'.
Proof.
  apply (sample_satisfies ProofCircuitShieldedLedgerV1 ZkTool.ShieldedLedger
           (copy_array 32 [x01]) (copy_array 32 [x02])); by vm_compute.
Defined.
