(* ===== verification/BenchFacts.v ===== *)
(** * What the benchmark submits

    Its configuration is in range, its fees are saturated sums, its windows are
    ones the actions take and the circuits can prove, and what it truncates is
    refused. *)
From Stdlib Require Import Strings.String.
From S2P Require Import Prelude Errors Go Platform Sha256 Storage ProofEnvelope.
From S2P Require Import ProofEnvelopeFacts.
From S2P Require Import Metrics Markets Proofs Zk Circuits CircuitFacts Tools ToolFacts Bench.

(** ** Fees *)

Fixpoint dim_fees (prices : list Z) : Z :=
  match prices with [] => 0 | p :: ps => p * 10000 + dim_fees ps end.

Lemma dim_fees_nonneg prices : Forall u64 prices -> 0 <= dim_fees prices.
Proof. induction 1 as [|p ps Hp H IH]; cbn [dim_fees]; [done|]. unfold u64 in Hp. lia. Qed.

Lemma maxFee_loop_spec fee prices :
  u64 fee -> Forall u64 prices ->
  maxFee_loop fee prices = Z.min maxUint64 (Z.max 100000 (fee + dim_fees prices)).
Proof.
  intros Hf H. revert fee Hf. induction H as [|p ps Hp H IH]; intros fee Hf;
    cbn [maxFee_loop dim_fees].
  - unfold u64, maxUint64 in *. destruct (fee <? 100000) eqn:E; lia.
  - pose proof (dim_fees_nonneg ps H).
    change (maxUint64 / 10000) with 1844674407370955. unfold u64 in *.
    destruct (1844674407370955 <? p) eqn:E; bool_simpl; [unfold maxUint64; lia|].
    rewrite wrap_u64_small by (unfold u64; lia).
    destruct (maxUint64 - p * 10000 <? fee) eqn:E'; bool_simpl; unfold maxUint64 in *; [lia|].
    rewrite wrap_u64_small by (unfold u64; lia). rewrite IH by lia. lia.
Qed.

(** The fee the benchmark offers is ten thousand units in every dimension at
    the current prices, at least 100000 and saturated at 64 bits. *)
Theorem estimateMaxFee_spec prices :
  Forall u64 prices ->
  estimateMaxFee prices = Z.min maxUint64 (Z.max 100000 (dim_fees prices)).
Proof. intros H. unfold estimateMaxFee. by rewrite maxFee_loop_spec. Qed.

(** With a safety margin of at least one the budget pays for every transaction
    and leaves the reserve, as far as 64 bits reach. *)
Lemma budget_covers n fee bps reserve :
  0 < n -> 0 <= fee -> 10000 <= bps -> 0 <= reserve ->
  Z.min maxUint64 (n * fee + reserve) <= estimateRequiredBudget n fee bps reserve.
Proof.
  intros Hn Hf Hb Hr. unfold estimateRequiredBudget, maxUint64.
  rewrite (proj2 (Z.leb_gt n 0)) by lia.
  assert (n * fee <= fee * n * bps / 10000) by (apply Z.div_le_lower_bound; nia).
  destruct (_ <? 2 ^ 64); lia.
Qed.

Lemma saturatingAdd_spec a b : u64 a -> u64 b -> saturatingAdd a b = Z.min maxUint64 (a + b).
Proof.
  unfold u64, saturatingAdd, maxUint64. intros Ha Hb. destruct (_ <? a) eqn:E; bool_simpl; [lia|].
  rewrite wrap_u64_small by (unfold u64; lia). lia.
Qed.

(** A transaction expires after the accepted time and after the clock, within 61
    seconds of the later one, on a full second. *)
Lemma tx_expiry_spec acceptedTs nowMs :
  0 <= acceptedTs -> 0 <= nowMs ->
  let anchor := Z.max acceptedTs nowMs in
  anchor + 59000 < tx_expiry acceptedTs nowMs <= anchor + 60000 /\
  tx_expiry acceptedTs nowMs mod 1000 = 0.
Proof.
  intros Ha Hn anchor. unfold tx_expiry.
  assert (Hx : (if acceptedTs <? nowMs then nowMs else acceptedTs) = anchor)
    by (unfold anchor; destruct (_ <? _) eqn:E; bool_simpl; lia).
  rewrite Hx. clear Hx. assert (0 <= anchor) by lia. clearbody anchor.
  rewrite Z.quot_div_nonneg by lia.
  pose proof (Z.div_mod (anchor + 60000) 1000 ltac:(lia)) as Hd.
  pose proof (Z.mod_pos_bound (anchor + 60000) 1000 ltac:(lia)).
  rewrite (proj2 (Z.leb_gt _ _)) by lia. split; [lia|]. by apply Z.mod_mul.
Qed.

(** ** Truncation *)

Lemma slice_take off n k (l : bytes) :
  (off + n <= k)%nat -> slice off n (take k l) = slice off n l.
Proof. intros H. unfold slice. by rewrite skipn_firstn_comm, take_take, Nat.min_l by lia. Qed.

Lemma uint_at_take off n k (l : bytes) :
  (off + n <= k)%nat -> uint_at off n (take k l) = uint_at off n l.
Proof. intros. unfold uint_at. by rewrite slice_take. Qed.

Lemma len_take k (l : bytes) : Z.of_nat k < len l -> len (take k l) = Z.of_nat k.
Proof. unfold len. rewrite length_take. lia. Qed.

Lemma v1_short blob env k :
  parseProofEnvelopeV1 blob = Ok env -> Z.of_nat k < len blob ->
  parseProofEnvelopeV1 (take k blob) = Err ErrInvalidProofEnvelope.
Proof.
  unfold parseProofEnvelopeV1. intros H Hk. rewrite len_take by done.
  go_step. go_step. go_step. apply guard_ok in E, E0, E1.
  destruct (Z.of_nat k <? proofEnvelopeV1HeaderLen) eqn:Es; [done|].
  unfold proofEnvelopeV1HeaderLen in *. bool_simpl. cbn [guard obind].
  rewrite !uint_at_take by lia. rewrite guard_false by lia. cbn [obind].
  rewrite (proj2 (Z.eqb_neq (Z.of_nat k) _)) by lia. done.
Qed.

Lemma v2_short blob env k :
  parseProofEnvelopeV2 blob = Ok env -> Z.of_nat k < len blob ->
  parseProofEnvelopeV2 (take k blob) = Err ErrInvalidProofEnvelope.
Proof.
  unfold parseProofEnvelopeV2. intros H Hk. rewrite len_take by done.
  go_step. go_step. go_step. apply guard_ok in E, E0, E1.
  destruct (Z.of_nat k <? proofEnvelopeV2HeaderLen) eqn:Es; [done|].
  unfold proofEnvelopeV2HeaderLen in *. bool_simpl. cbn [guard obind].
  rewrite !uint_at_take by lia. rewrite guard_false by lia. cbn [obind].
  rewrite (proj2 (Z.eqb_neq (Z.of_nat k) _)) by lia. done.
Qed.

Lemma envelope_short blob env k :
  parseProofEnvelope blob = Ok env -> env_hasEnvelope env = true ->
  4 <= Z.of_nat k < len blob ->
  parseProofEnvelope (take k blob) = Err ErrInvalidProofEnvelope.
Proof.
  unfold parseProofEnvelope. intros H He Hk. rewrite len_take, slice_take by lia.
  rewrite (proj2 (Z.ltb_ge _ 4)) in H by lia. rewrite (proj2 (Z.ltb_ge _ 4)) by lia.
  destruct (bool_decide (slice 0 4 blob = proofEnvelopeMagicV1)); [eapply v1_short; [done|lia]|].
  destruct (bool_decide (slice 0 4 blob = proofEnvelopeMagicV2)); [eapply v2_short; [done|lia]|].
  by simplify_eq.
Qed.

Lemma envelope_long blob env :
  parseProofEnvelope blob = Ok env -> env_hasEnvelope env = true -> 13 <= len blob.
Proof.
  unfold parseProofEnvelope, parseProofEnvelopeV1, parseProofEnvelopeV2. intros H He.
  unfold proofEnvelopeV1HeaderLen, proofEnvelopeV2HeaderLen in H.
  destruct (len blob <? 4) eqn:E; [by simplify_eq|].
  repeat case_match; try (by simplify_eq); go_step; apply guard_ok in E0; bool_simpl; lia.
Qed.

(** An envelope the benchmark truncates is no envelope any more: the chain
    refuses it before it looks for a verifier. *)
Theorem truncated_refused blob env t ty inputs vc :
  parseProofEnvelope blob = Ok env -> env_hasEnvelope env = true ->
  tamperProofEnvelope blob (text "truncate") = Ok t ->
  parseProofEnvelope t = Err ErrInvalidProofEnvelope /\
  verifyBatchProofInConsensus vc ty t inputs = Err ErrInvalidProofEnvelope.
Proof.
  intros Hp He Ht.
  assert (H : parseProofEnvelope t = Err ErrInvalidProofEnvelope);
    [|split; [done|unfold verifyBatchProofInConsensus; by rewrite H]].
  pose proof (envelope_long _ _ Hp He) as Hl.
  unfold tamperProofEnvelope in Ht. rewrite bool_decide_false in Ht by done.
  rewrite bool_decide_true in Ht by done. destruct (len blob <=? 1) eqn:E1; [done|].
  set (cut := if len blob / 2 <? 12 then len blob - 1 else len blob / 2) in Ht.
  assert (4 <= cut < len blob).
  { unfold cut. pose proof (Z.mul_div_le (len blob) 2 ltac:(lia)).
    destruct (_ <? 12) eqn:E; bool_simpl; lia. }
  injection Ht as <-. apply (envelope_short _ env); [done..|lia].
Qed.

(** ** Configuration *)

Lemma batch_sizes_positive parts out :
  batch_sizes parts = Ok out -> Forall (fun n => 0 < n) out.
Proof.
  revert out. induction parts as [|p parts IH]; intros out H; cbn [batch_sizes] in H.
  - by go_inv.
  - destruct (bool_decide _); [by apply IH|]. destruct (Atoi _) as [n|]; [|done].
    go_step. apply guard_ok in E. bool_simpl. go_step. go_step. constructor; [lia|by apply IH].
Qed.

Lemma check_mode_ok {os : OS} mode c pk cs path :
  check_mode mode c pk cs = Ok path ->
  mode = text "synthetic" \/
  (mode = text "groth16" /\ TrimSpace pk <> [] /\ isSupportedCircuitID c = true /\ path <> []).
Proof.
  unfold check_mode. destruct (bool_decide_reflect (mode = text "synthetic")) as [|_]; [auto|].
  destruct (bool_decide_reflect (mode = text "groth16")) as [->|]; [|done].
  intros H. right. go_inv. split_and!; try done.
  destruct (bool_decide_reflect (cs = [])) as [|Hc]; [|done]. unfold defaultGroth16CSCachePath. done.
Qed.

Lemma Atoi_range s n : Atoi s = Some n -> i64 n.
Proof.
  assert (Hs : forall neg rest,
    match rest with
    | [] => None
    | _ => n ← parse_digits 0 rest;
           let v := if neg : bool then - n else n in
           if (- 2 ^ 63 <=? v) && (v <? 2 ^ 63) then Some v else None
    end = Some n -> i64 n).
  { intros neg rest. destruct rest as [|b rest]; [done|].
    destruct (parse_digits 0 (b :: rest)) as [m|]; [|done].
    cbn [mbind option_bind]. cbv zeta. destruct (_ && _)%bool eqn:E; [|done].
    intros [= <-]. bool_simpl. unfold i64. lia. }
  unfold Atoi. destruct s as [|b s]; [done|].
  destruct b; first [exact (Hs false (_ :: s))|exact (Hs false s)|exact (Hs true s)].
Qed.

Lemma envInt_range {os : OS} name fallback : i64 fallback -> i64 (envInt name fallback).
Proof.
  intros H. unfold envInt. destruct (bool_decide _); [done|].
  destruct (Atoi _) eqn:E; [by eapply Atoi_range|done].
Qed.

Lemma normalize_modes raw mode :
  normalizeProofTamperMode raw = Ok mode ->
  mode ∈ [[]; text "truncate"; text "flip-last-byte"].
Proof.
  unfold normalizeProofTamperMode. intros H.
  repeat case_match; simplify_eq; rewrite !elem_of_cons; auto.
Qed.

(** A configuration that is accepted names a chain, asks for at least one
    batch size, all positive, has a margin of at least one, a reserve and a
    refuel amount, no negative delay, a deadline beyond the window, a known
    tamper mode, and a proof mode whose circuit the chain supports. *)
Theorem loadConfig_ok {os : OS} cfg :
  loadConfig = Ok cfg -> BatchWindowMs cfg < 2 ^ 63 - 1000 ->
  ChainID cfg <> [] /\ BatchSizes cfg <> [] /\ Forall (fun n => 0 < n) (BatchSizes cfg) /\
  10000 <= GasSafetyBps cfg /\ GasReserve cfg <> 0 /\ RefuelAmount cfg <> 0 /\
  0 <= ProofSubmitDelayMs cfg /\ BatchWindowMs cfg < ProofDeadlineMs cfg /\
  ProofTamperMode cfg ∈ [[]; text "truncate"; text "flip-last-byte"] /\
  (ProofMode cfg = text "synthetic" \/
   (ProofMode cfg = text "groth16" /\ TrimSpace (Groth16PKPath cfg) <> [] /\
    isSupportedCircuitID (ProofCircuitID cfg) = true /\ Groth16CSCachePath cfg <> [])).
Proof.
  unfold loadConfig. cbv zeta. intros H Hw. go_step. apply guard_ok in E. bool_simpl.
  go_step. apply check_mode_ok in E0. go_step. go_step. injection H as <-.
  cbn [BatchWindowMs] in Hw.
  cbn [ChainID BatchSizes GasSafetyBps GasReserve RefuelAmount ProofSubmitDelayMs BatchWindowMs
       ProofDeadlineMs ProofTamperMode ProofMode Groth16PKPath ProofCircuitID Groth16CSCachePath].
  pose proof (envInt_range "BATCH_WINDOW_MS" 5000 ltac:(done)) as Hr. unfold i64 in Hr.
  unfold parseBatchSizes in E2. apply obind_ok in E2 as (out & Eb & E2).
  apply obind_ok in E2 as (u & Eg & E2). apply guard_ok in Eg. bool_simpl. injection E2 as <-.
  split_and!; try done.
  - by eapply batch_sizes_positive.
  - destruct (_ <? 10000) eqn:Es; bool_simpl; lia.
  - destruct (_ =? 0) eqn:Es; bool_simpl; done.
  - destruct (envUint64 "REFUEL_AMOUNT" _ =? 0) eqn:Es; bool_simpl; done.
  - destruct (_ <? 0) eqn:Es; bool_simpl; lia.
  - destruct (_ <=? _) eqn:Es; bool_simpl; [|lia]. rewrite wrap_i64_small by (unfold i64; lia). lia.
  - by eapply normalize_modes.
Qed.

(** ** Windows *)

Lemma make_bytes_ok n f : 0 <= n -> exists l, make_bytes n f = Ok l /\ len l = n.
Proof.
  intros Hn. unfold make_bytes. rewrite (proj2 (Z.ltb_ge n 0)) by done.
  eexists. split; [reflexivity|]. unfold len. rewrite length_map, length_seq. lia.
Qed.

Lemma buildEnvelope_len bs w :
  0 < bs < 2 ^ 32 -> exists l, buildEnvelope bs w = Ok l /\
    len l = Z.min CommitOrder.MaxEnvelopeSize (Z.max 96 (bs * 24)).
Proof.
  intros Hb. unfold buildEnvelope, CommitOrder.MaxEnvelopeSize.
  rewrite (wrap_i64_small (bs * 24)) by (unfold i64; lia).
  set (n := if bs * 24 <? 96 then 96 else bs * 24).
  set (n' := if 4096 <? n then 4096 else n).
  assert (n' = Z.min 4096 (Z.max 96 (bs * 24)))
    by (unfold n', n; repeat (destruct (_ <? _) eqn:?; bool_simpl); lia).
  destruct (make_bytes_ok n' (fun j => Z.land (wrap_i64 (wrap_i64 w + j * 17 + bs)) 255))
    as (l & -> & Hl); [lia|]. exists l. split; [done|lia].
Qed.

Lemma buildEnvelope_ok bs w :
  0 < bs < 2 ^ 32 -> exists l, buildEnvelope bs w = Ok l /\
    0 < len l <= CommitOrder.MaxEnvelopeSize.
Proof.
  intros Hb. destruct (buildEnvelope_len bs w Hb) as (l & El & Hl). exists l.
  split; [done|]. unfold CommitOrder.MaxEnvelopeSize in *. lia.
Qed.

Lemma buildRevealShare_ok bs w :
  0 < bs < 2 ^ 32 -> exists l, buildRevealShare bs w = Ok l /\
    0 < len l <= RevealBatch.MaxDecryptionShareSize.
Proof.
  intros Hb. unfold buildRevealShare, RevealBatch.MaxDecryptionShareSize.
  rewrite (wrap_i64_small (96 + bs)) by (unfold i64; lia).
  set (n' := if 512 <? 96 + bs then 512 else 96 + bs).
  assert (0 < n' <= 512) by (unfold n'; destruct (_ <? _) eqn:E; bool_simpl; lia).
  destruct (make_bytes_ok n' (fun j => Z.land (wrap_i64 (j * 11 + wrap_i64 w + bs * 3)) 255))
    as (l & -> & Hl); [lia|]. exists l. split; [done|lia].
Qed.

Lemma exact_circuits c :
  isSupportedCircuitID c = true ->
  TrimSpace c = c /\ (c = ProofCircuitClearHashV1 \/ c = ProofCircuitShieldedLedgerV1).
Proof.
  unfold isSupportedCircuitID. rewrite orb_true_iff, !bool_decide_eq_true.
  intros [-> | ->]; (split; [vm_compute; reflexivity|auto]).
Qed.

Lemma buildProofBlob_total bs w f : 0 < bs < 2 ^ 32 -> exists l, buildProofBlob bs w f = Ok l.
Proof.
  intros Hb. unfold buildProofBlob. rewrite (wrap_i64_small (2048 + _)) by (unfold i64; lia).
  destruct (MaxProofBytesSize <? _) eqn:E; destruct (_ <? 32) eqn:E'; eauto;
    bool_simpl; unfold MaxProofBytesSize in *; lia.
Qed.

(** The payload does not begin like an envelope. *)
Definition bare (payload : bytes) : Prop :=
  slice 0 4 payload <> proofEnvelopeMagicV1 /\ slice 0 4 payload <> proofEnvelopeMagicV2.

Lemma bare_parses payload :
  bare payload -> parseProofEnvelope payload = Ok (mk_envelope 0 [] payload [] false).
Proof.
  intros [H1 H2]. unfold parseProofEnvelope. destruct (_ <? _); [done|].
  by rewrite !bool_decide_false by done.
Qed.

(** The circuit the chain reads from the payload gives, for the clear of the
    window, the hash that was submitted. *)
Definition hash_matches (w : Window) (payload : bytes) : Prop :=
  let a := clear_of w in
  exists env, parseProofEnvelope payload = Ok env /\
    ClearBatch.computeExpectedPublicInputsHash (env_circuitID env) (ClearBatch.MarketID a)
      (ClearBatch.WindowID a) (ClearBatch.ClearPrice a) (ClearBatch.TotalVolume a)
      (ClearBatch.FillsHash a) = Ok (w_hash w).

Section windows.
Context {F : Frontend} {FS : FrontendSpec} {PV : Prover}.

Lemma groth16_names_circuit ccs pk c h pre bs w f payload :
  TrimSpace c = c -> Build (Groth16 ccs pk c) h pre bs w f = Ok payload ->
  exists env, parseProofEnvelope payload = Ok env /\ env_circuitID env = c.
Proof.
  intros Ht H. unfold Build in H. do 6 (apply obind_ok in H as (? & _ & H)).
  apply v2_parses in H; [|done]. eexists. split; [exact H|exact Ht].
Qed.

(** C39: for a supported circuit, a batch size below 2^32 and a positive round
    every window of a run can be prepared; its commit and reveal are of a size
    their actions take and the commitment is the hash of the envelope. The clear
    it sends is checked against the hash it submits when the payload is a
    Groth16 envelope of the configured circuit, and in synthetic mode, whose
    payload names no circuit, when the configured one is the clear-hash circuit
    and the payload does not begin with the four bytes of an envelope. The
    preimage has an assignment that satisfies the circuit; for the shielded
    ledger when market and fills hash are not zero. *)
Theorem window_ready c m bs i :
  isSupportedCircuitID c = true -> 0 < bs < 2 ^ 32 -> 0 < i < 2 ^ 63 ->
  exists w, prepare_window c m bs i = Ok w /\
    0 < len (CommitOrder.Envelope (w_commit w)) <= CommitOrder.MaxEnvelopeSize /\
    CommitOrder.Commitment (w_commit w) = Sum256 (CommitOrder.Envelope (w_commit w)) /\
    0 < len (RevealBatch.DecryptionShare (w_reveal w)) <= RevealBatch.MaxDecryptionShareSize /\
    len (w_fills w) = ExpectedFillsHashSize /\ w_price w <> 0 /\
    (forall close proof, SubmitBatchProof.PublicInputsHash (submit_of w close proof) = w_hash w) /\
    (forall ccs pk payload,
       window_proof [] (Groth16 ccs pk c) bs w = Ok payload -> hash_matches w payload) /\
    (exists payload, window_proof [] Synthetic bs w = Ok payload /\
       (c = ProofCircuitClearHashV1 -> bare payload -> hash_matches w payload)) /\
    ((c = ProofCircuitShieldedLedgerV1 ->
        unbe (array_bytes m) <> 0 /\ unbe (w_fills w) <> 0) ->
     exists k a, ZkTool.selectedCircuit c = Ok k /\
       assignment_for c (w_preimage w) (array_bytes (w_hash w)) = Ok a /\
       forall cs cs', ZkTool.Define k a cs = (Ok tt, cs') -> holds cs -> holds cs').
Proof.
  intros Hs Hb Hi. apply exact_circuits in Hs as [Ht Hc]. unfold prepare_window. cbv zeta.
  rewrite (wrap_u64_small i) by (unfold u64; lia).
  destruct (buildEnvelope_ok bs i Hb) as (env & -> & Henv). cbn [obind].
  destruct (buildRevealShare_ok bs i Hb) as (rev & -> & Hrev). cbn [obind].
  unfold buildFillsHash. set (fh := Sum256 (flat_map _ _)).
  pose proof (Z.rem_bound_pos i 97 ltac:(lia) ltac:(lia)).
  rewrite (wrap_u64_small (1000 + Z.rem i 97)) by (unfold u64; lia).
  rewrite (wrap_u64_small (bs * 100)) by (unfold u64; lia).
  set (price := 1000 + Z.rem i 97) in *. set (tv := bs * 100).
  destruct (buildProofBlob_total bs i (array_bytes fh) Hb) as [blob Eblob].
  assert (Hf : len (array_bytes fh) = ExpectedFillsHashSize) by (unfold len; by rewrite length_array).
  unfold ZkTool.selectedCircuit. rewrite Ht. unfold public_inputs.
  destruct Hc as [-> | ->]; eexists; (split; [reflexivity|]);
    cbn [w_commit w_reveal w_fills w_price w_hash w_preimage CommitOrder.Envelope
         CommitOrder.Commitment RevealBatch.DecryptionShare];
    (split_and!; [lia|lia|done|lia|lia|done|lia|done| | |]).
  - intros ccs pk payload (p & Hp & [= <-])%obind_ok.
    apply groth16_names_circuit in Hp as (e & He & Hn); [|done].
    exists e. split; [exact He|]. by rewrite Hn.
  - exists blob. split; [by unfold window_proof, Build; cbn; rewrite Eblob|].
    intros _ Hbare%bare_parses. eexists. by split.
  - intros _. destruct (clear_provable m i price tv fh) as (a & Ha & Hd). by exists ZkTool.ClearHash, a.
  - intros ccs pk payload (p & Hp & [= <-])%obind_ok.
    apply groth16_names_circuit in Hp as (e & He & Hn); [|done].
    exists e. split; [exact He|]. by rewrite Hn.
  - exists blob. split; [by unfold window_proof, Build; cbn; rewrite Eblob|done].
  - intros [Hm Hfills]; [done|]. destruct (shielded_provable m i price tv fh) as (a & Ha & Hd);
      [done || (unfold u64, tv; lia) || (unfold tv; lia)..|]. by exists ZkTool.ShieldedLedger, a.
Qed.
End windows.

(** ** Evaluations *)

Module Samples.
(** A machine on which only the chain is named. *)
#[export] Instance shell : OS :=
  {| os_ReadFile _ := Err (ErrMessage "no such file");
     os_Stat _ := Err (ErrMessage "no such file");
     os_Getenv n := if bool_decide (n = text "CHAIN_ID") then text "veil" else [] |}.
Definition loaded : benchConfig :=
  match loadConfig with
  | Ok c => c
  | _ => mk_bench [] [] [] [] [] [] [] false [] [] [] [] [] [] [] 0 0 0 0 false 0 0 0 0
  end.
Definition blob : bytes :=
  match BuildProofEnvelope ProofTypeGroth16 (replicate 9 x01) (replicate 9 x02) with
  | Ok b => b
  | _ => []
  end.
#[export, refine] Instance one_byte : @Prover CircuitFacts.Samples.engine :=
  {| FullWitness := unit; PublicWitness := unit; ConstraintSystem := unit; ProvingKey := unit;
     GProof := unit; frontend_Compile _ := Ok tt; CS_ReadFrom _ := Ok tt; PK_ReadFrom _ := Ok tt;
     frontend_NewWitness _ := Ok tt; fullWitness_Public := Ok; MarshalBinary _ := Ok [x01];
     groth16_Prove _ _ _ := Ok tt; GProof_WriteTo _ := Ok [x01] |}.
Proof. Defined.
Definition proved : @proofBuilder CircuitFacts.Samples.engine one_byte :=
  Groth16 (PV := one_byte) tt tt ProofCircuitClearHashV1.
Definition cut : bytes :=
  match tamperProofEnvelope blob (text "truncate") with Ok b => b | _ => [] end.
End Samples.
Import Samples.

Example default_fee : estimateMaxFee [100; 100; 100; 100; 100] = 5000000.
Proof. reflexivity. Qed.
Example huge_price : estimateMaxFee [1; 2 ^ 63; 1; 1; 1] = 2 ^ 64 - 1.
Proof. reflexivity. Qed.

Lemma loadConfig_ok_witness :
  BatchSizes loaded <> [] /\ 10000 <= GasSafetyBps loaded /\
  BatchWindowMs loaded < ProofDeadlineMs loaded.
Proof.
  assert (H : loadConfig = Ok loaded) by evaluate.
  assert (Hw : BatchWindowMs loaded < 2 ^ 63 - 1000) by (vm_compute; reflexivity).
  pose proof (loadConfig_ok loaded H Hw) as Hok.
  exact (conj (proj1 (proj2 Hok))
          (conj (proj1 (proj2 (proj2 (proj2 Hok))))
            (proj1 (proj2 (proj2 (proj2 (proj2 (proj2 (proj2 (proj2 Hok)))))))))).
Defined.

Lemma truncated_refused_witness :
  parseProofEnvelope cut = Err ErrInvalidProofEnvelope /\
  verifyBatchProofInConsensus initial_verifier ProofTypeGroth16 cut [x01]
  = Err ErrInvalidProofEnvelope.
Proof.
  apply (truncated_refused blob (mk_envelope 1 [] (replicate 9 x01) (replicate 9 x02) true));
    vm_compute; reflexivity.
Defined.

Lemma estimateMaxFee_spec_witness :
  estimateMaxFee [100; 200] = Z.min maxUint64 (Z.max 100000 (dim_fees [100; 200])).
Proof.
  apply estimateMaxFee_spec. repeat (apply Forall_cons_2; [done|]). apply Forall_nil_2.
Defined.

(** A backend that proves everything by one byte: the payload of a window of the
    clear-hash circuit names that circuit and is checked against its hash. *)
Lemma window_ready_witness : exists w payload,
  prepare_window ProofCircuitClearHashV1 (copy_array 32 [x01]) 32 1 = Ok w /\
  window_proof [] proved 32 w = Ok payload /\
  hash_matches w payload.
Proof.
  destruct (window_ready (F := CircuitFacts.Samples.engine)
              (FS := CircuitFacts.Samples.engine_spec) (PV := one_byte)
              ProofCircuitClearHashV1 (copy_array 32 [x01]) 32 1
              ltac:(reflexivity) ltac:(lia) ltac:(lia))
    as (w & H & _ & _ & _ & _ & _ & _ & Hg & _ & Ha).
  destruct Ha as (k & a & _ & Ha & _); [intros E; discriminate E|].
  assert (Hp : exists payload,
    window_proof [] proved 32 w = Ok payload).
  { unfold window_proof, Build, proved. rewrite Ha. eexists. vm_compute. reflexivity. }
  destruct Hp as [payload Hp]. exists w, payload.
  split; [exact H|]. split; [exact Hp|exact (Hg tt tt payload Hp)].
Defined.
