(* ===== verification/Capacity.v ===== *)
(** * What the store takes of what the actions accept

    A key allows its value a number of 64-byte chunks ([storage/storage.go]), and
    an action bounds the sizes it accepts; the two limits are stated in
    different files. Here: when exactly a sealed order is stored, and which
    windows of the benchmark that leaves. *)
From S2P Require Import Prelude Errors Go Platform Sha256 Storage Concrete Balance Metrics.
From S2P Require Import Markets MarketFacts Proofs ProofFacts Circuits CircuitFacts Bench BenchFacts.

Section facts.
Context {PF : Platform} {PS : PlatformSpec} {TX : Text}.
Context {M : Type} {MU : Mutable M} {MS : MutableSpec M}.

(** A granted key takes a value exactly when its chunks do. *)
Lemma put_granted_iff {T} {MT : Mutable T} {MTS : MutableSpec T} k v (s : T) :
  granted s k -> (exists s', put k v s = (Ok tt, s')) <-> len v <= 64 * key_chunks k.
Proof.
  intros G. unfold len. rewrite <-(granted_Insert s k v G). unfold put. split.
  - by intros [s' ->].
  - intros H. destruct (Insert s k v) as [r s']. cbn in H. subst. eauto.
Qed.

(** When a commit is accepted, its storage included. *)
Definition storable (a : CommitOrder.t) (m : gmap bytes bytes) : Prop :=
  0 < len (CommitOrder.Envelope a) <= CommitOrder.MaxEnvelopeSize /\
  0 < len (CommitOrder.Commitment a) <= CommitOrder.MaxCommitmentSize /\
  (exists x, market_at m (CommitOrder.MarketID a) = Some x /\
             Market.Status x = MarketStatusActive) /\
  len (CommitOrder.Commitment a) + len (CommitOrder.Envelope a) <= 64 * CommitmentChunks.

Lemma commit_order_iff exec a ts actor tx (s : M * zkMetricsCollector) :
  Forall (granted s) [MarketKey (CommitOrder.MarketID a);
                      CommitmentKey (CommitOrder.MarketID a) (CommitOrder.WindowID a) actor] ->
  (exists out s', CommitOrder.Execute exec a ts actor tx s = (Ok out, s')) <->
  storable a (contents s).
Proof.
  rewrite !Forall_cons_iff. intros (G1 & G2 & _).
  set (k := CommitmentKey _ _ _) in *. set (v := CommitOrder.Commitment a ++ CommitOrder.Envelope a).
  assert (Hk : 64 * key_chunks k = 64 * CommitmentChunks) by (unfold k; by chunks).
  assert (Hv : len v = len (CommitOrder.Commitment a) + len (CommitOrder.Envelope a))
    by (unfold v, len; rewrite length_app; lia).
  unfold storable. rewrite <-Hv, <-Hk, <-(put_granted_iff k v s G2). split.
  - intros (out & s' & H). pose proof (commit_order_ok _ _ _ _ _ _ _ _ H) as [Hx _].
    apply defer_metric_run in H as (c' & H & _). unfold CommitOrder.body in H. go_inv.
    match goal with E : GetMarket _ _ = _ |- _ => apply get_parsed_ok in E as [-> _] end.
    unfold len in *. split; [lia|]. split; [lia|]. split; [done|].
    match goal with E : PutCommitment _ _ _ _ _ _ = (Ok ?u, ?t) |- _ =>
      exists t; by destruct u end.
  - intros (He & Hc & (x & Hx & Hst) & [m c] & Hput). unfold CommitOrder.Execute, defer_metric.
    unfold CommitOrder.body. unfold len in He, Hc.
    rewrite !bind_fail_if by (unfold len; (apply Z.eqb_neq || apply Z.ltb_ge); lia).
    erewrite bind_run by (apply get_parsed_granted; [exact G1|exact Hx]).
    rewrite bind_fail_if by (by rewrite Hst).
    erewrite bind_run by exact Hput. by do 2 eexists.
Qed.

(** ** The windows of the benchmark *)

Lemma window_prepared c m bs i :
  0 < bs < 2 ^ 32 -> 0 < i < 2 ^ 63 ->
  exists w, prepare_window c m bs i = Ok w /\ w_market w = m /\ w_id w = i /\
    len (CommitOrder.Commitment (w_commit w)) = 32 /\
    len (CommitOrder.Envelope (w_commit w))
      = Z.min CommitOrder.MaxEnvelopeSize (Z.max 96 (bs * 24)).
Proof.
  intros Hb Hi. unfold prepare_window. cbv zeta. rewrite (wrap_u64_small i) by (unfold u64; lia).
  destruct (buildEnvelope_len bs i Hb) as (env & -> & Henv). cbn [obind].
  destruct (buildRevealShare_ok bs i Hb) as (rev & -> & _). cbn [obind].
  destruct (public_inputs _ _ _ _ _ _) as [h p]. eexists. split; [reflexivity|].
  unfold w_market, w_id. cbn [w_commit CommitOrder.MarketID CommitOrder.WindowID
    CommitOrder.Commitment CommitOrder.Envelope].
  do 2 (split; [done|]). split; [unfold len; by rewrite length_array|done].
Qed.

(** C33: on an active market whose cells are granted, the sealed order of a
    benchmark window is accepted exactly for batch sizes up to 41: what larger
    ones build fits the action, and not the cell it is stored in. Of the default
    sizes 32, 64, 96 and 128 only the first can be run. *)
Theorem bench_commit_iff c m bs i w exec ts actor tx (s : M * zkMetricsCollector) x :
  0 < bs < 2 ^ 32 -> 0 < i < 2 ^ 63 -> prepare_window c m bs i = Ok w ->
  Forall (granted s) [MarketKey m; CommitmentKey m i actor] ->
  market_at (contents s) m = Some x -> Market.Status x = MarketStatusActive ->
  (exists out s', CommitOrder.Execute exec (w_commit w) ts actor tx s = (Ok out, s')) <-> bs <= 41.
Proof.
  intros Hb Hi Hw HG Hx Hst.
  destruct (window_prepared c m bs i Hb Hi) as (w' & E & Hm & Hid & Hc & He).
  assert (w' = w) as -> by congruence. unfold w_market, w_id in *.
  rewrite commit_order_iff by (by rewrite Hm, Hid). unfold storable. rewrite Hc, He, Hm.
  unfold CommitOrder.MaxEnvelopeSize, CommitOrder.MaxCommitmentSize, CommitmentChunks. split.
  - intros (_ & _ & _ & H). lia.
  - intros H. split; [lia|]. split; [lia|]. split; [eauto|lia].
Qed.
End facts.

(** ** Evaluations *)

Module Samples.
Definition market : ID := copy_array 32 [x05].
Definition alice : Address := addr 1.
Definition open_market : Market.t := Market.mk MarketStatusActive 2 1000 0 [].
Definition start : Store * zkMetricsCollector :=
  (cells [(MarketKey market, Market.encode open_market)], newZKMetricsCollector 10).
#[export] Instance text : Text :=
  {| ids_String i := String.string_of_list_byte (array_bytes i);
     err_Error _ := String.EmptyString |}.
End Samples.
Import Samples.

(** The first window of the default batch sizes 32 and 64. *)
Lemma bench_commit_iff_witness : exists w w',
  prepare_window ProofCircuitClearHashV1 market 32 1 = Ok w /\
  prepare_window ProofCircuitClearHashV1 market 64 1 = Ok w' /\
  (exists out s', CommitOrder.Execute 0 (w_commit w) 5 alice no_tx start = (Ok out, s')) /\
  ~ (exists out s', CommitOrder.Execute 0 (w_commit w') 5 alice no_tx start = (Ok out, s')).
Proof.
  destruct (window_prepared ProofCircuitClearHashV1 market 32 1 ltac:(lia) ltac:(lia)) as (w & Hw & _).
  destruct (window_prepared ProofCircuitClearHashV1 market 64 1 ltac:(lia) ltac:(lia)) as (w' & Hw' & _).
  exists w, w'. split; [exact Hw|]. split; [exact Hw'|].
  assert (HG : Forall (granted start) [MarketKey market; CommitmentKey market 1 alice])
    by (repeat constructor).
  assert (Hx : market_at (contents start) market = Some open_market) by (vm_compute; reflexivity).
  split.
  - apply (bench_commit_iff ProofCircuitClearHashV1 market 32 1 w 0 5 alice no_tx start open_market
             ltac:(lia) ltac:(lia) Hw HG Hx eq_refl). lia.
  - intros H. apply (bench_commit_iff ProofCircuitClearHashV1 market 64 1 w' 0 5 alice no_tx start
      open_market ltac:(lia) ltac:(lia) Hw' HG Hx eq_refl) in H. lia.
Defined.
