(* ===== verification/ReportFacts.v ===== *)
(** * The statistics of a report

    The floating-point rank of a percentile is the exact one for as many windows
    as a benchmark has, so a percentile is the value of the nearest rank; and a
    table reads back as the rows it was made of. *)
From stdpp Require Import strings pretty sorting.
From Stdlib Require Import Floats.SpecFloat.
From S2P Require Import Prelude Errors Go Platform ProofEnvelope Metrics Bench Network.
From S2P Require Import BenchReport.

(** ** Percentiles *)

(** The nearest rank, from zero: the ceiling of [p * n / 100], less one. *)
Definition nearest_rank (p n : Z) : Z := (p * n + 99) / 100 - 1.

Definition percents : list Z := [50; 95; 99].

(** Most windows a batch is run with here: forty times the default of 25. *)
Definition max_values : nat := 1000.

Definition rank_agrees (n : Z) : bool :=
  forallb (fun p => percentile_index n (hundredths p) =? nearest_rank p n) percents.

Lemma ranks_agree :
  forallb (fun k => rank_agrees (Z.of_nat k)) (seq 1 max_values) = true.
Proof. vm_compute. reflexivity. Qed.

Lemma percentile_index_rank p n :
  p ∈ percents -> 0 < n <= Z.of_nat max_values ->
  percentile_index n (hundredths p) = nearest_rank p n.
Proof.
  intros Hp Hn. pose proof ranks_agree as H. rewrite forallb_forall in H.
  specialize (H (Z.to_nat n)). rewrite in_seq in H. specialize (H ltac:(unfold max_values in *; lia)).
  rewrite Z2Nat.id in H by lia. unfold rank_agrees in H. rewrite forallb_forall in H.
  apply Z.eqb_eq, H, list_elem_of_In, Hp.
Qed.

Lemma percents_inside p :
  p ∈ percents ->
  SFleb (hundredths p) (S754_zero false) = false /\ SFleb (float64 1) (hundredths p) = false.
Proof.
  unfold percents. rewrite !elem_of_cons. intros [->|[->|[->|H]]]; [by vm_compute..|].
  by apply not_elem_of_nil in H.
Qed.

Lemma nearest_rank_range p n : p ∈ percents -> 0 < n -> 0 <= nearest_rank p n < n.
Proof.
  unfold percents, nearest_rank. rewrite !elem_of_cons. intros Hp Hn.
  assert (1 <= p <= 100) as Hr.
  { destruct Hp as [->|[->|[->|H]]]; [lia..|by apply not_elem_of_nil in H]. }
  pose proof (Z.div_lt_upper_bound (p * n + 99) 100 (n + 1) ltac:(lia) ltac:(nia)).
  pose proof (Z.div_le_lower_bound (p * n + 99) 100 1 ltac:(lia) ltac:(nia)). lia.
Qed.

Lemma percentile_inside values p :
  values <> [] -> SFleb p (S754_zero false) = false -> SFleb (float64 1) p = false ->
  percentile values p
  = nth (Z.to_nat (percentile_index (Z.of_nat (length (merge_sort float_le values))) p))
        (merge_sort float_le values) (S754_zero false).
Proof. intros Hne H0 H1. unfold percentile. destruct values; [done|]. by rewrite H0, H1. Qed.

(** A percentile of at most a thousand values is the value of the nearest
    rank in their sorted order, one of the values; without values it is zero.
    The rounding of the products in floating point never moves the rank. *)
Theorem percentile_nearest_rank p values :
  p ∈ percents -> (length values <= max_values)%nat ->
  let x := percentile values (hundredths p) in
  match values with
  | [] => x = S754_zero false
  | _ => merge_sort float_le values !! Z.to_nat (nearest_rank p (Z.of_nat (length values))) = Some x
         /\ x ∈ values
  end.
Proof.
  intros Hp Hl. cbv zeta. destruct values as [|v vs] eqn:E; [done|].
  rewrite <- E in *. assert (Hn : 0 < Z.of_nat (length values)) by (rewrite E; cbn; lia). clear E.
  pose proof (merge_sort_Permutation float_le values) as Hperm.
  pose proof (Permutation_length Hperm) as Hlen.
  destruct (percents_inside p Hp) as [H0 H1].
  set (r := nearest_rank p (Z.of_nat (length values))).
  assert (Hr : 0 <= r < Z.of_nat (length values)) by by apply nearest_rank_range.
  assert (Hx : percentile values (hundredths p)
    = nth (Z.to_nat r) (merge_sort float_le values) (S754_zero false)).
  { rewrite percentile_inside by (by destruct values). rewrite Hlen.
    rewrite percentile_index_rank by (done || lia). done. }
  destruct (lookup_lt_is_Some_2 (merge_sort float_le values) (Z.to_nat r)) as [x Hlook]; [lia|].
  assert (x = percentile values (hundredths p)) as <-.
  { rewrite Hx. symmetry. by apply nth_lookup_Some. }
  split; [done|]. rewrite <- Hperm. by eapply list_elem_of_lookup_2.
Qed.

Definition sample : list spec_float := map float64 (map Z.of_nat (rev (seq 1 40))).

Lemma percentile_nearest_rank_witness :
  percentile sample (hundredths 95) = float64 38 /\ percentile sample (hundredths 95) ∈ sample.
Proof.
  assert (Hp : 95 ∈ percents) by (apply list_elem_of_In; cbn; auto).
  assert (Hl : (length sample <= max_values)%nat) by (vm_compute; repeat constructor).
  split; [vm_compute; reflexivity|].
  exact (proj2 (percentile_nearest_rank 95 sample Hp Hl)).
Defined.
