(* ===== verification/RunFacts.v ===== *)
(** * What a finished benchmark means

    The polling ends; the balance that was asked for is there; a report is only
    made when the node said of every transaction of every window that it
    succeeded; the cache of the constraint system is replaced whole or not at
    all; the percentiles are of the nearest rank. *)
From stdpp Require Import strings pretty sorting.
From Stdlib Require Import Floats.SpecFloat.
From S2P Require Import Prelude Errors Go Platform Concrete Sha256 Storage ProofEnvelope Metrics.
From S2P Require Import Transfer Markets Proofs Genesis Server Zk Circuits CircuitFacts Client.
From S2P Require Import Tools Bench Chain Network BenchReport BenchRun.

(** ** Effects *)

Lemma map_err_ok {S A} f (c : ST S A) a s s' :
  map_err f c s = (Ok a, s') -> c s = (Ok a, s').
Proof. unfold map_err. destruct (c s) as [[] ?]; by intros [=]; subst. Qed.

Lemma on_snd_ok {C N A} (c : ST N A) a (s s' : C * N) :
  on_snd c s = (Ok a, s') -> c s.2 = (Ok a, s'.2) /\ s'.1 = s.1.
Proof. unfold on_snd. destruct (c s.2) as [o n]. by intros [= -> <-]. Qed.

Ltac run_step :=
  match goal with
  | H : map_err _ _ _ = (Ok _, _) |- _ => apply map_err_ok in H
  | H : on_snd _ _ = (Ok _, _) |- _ => apply on_snd_ok in H as [H _]
  | H : bind _ _ _ = (Ok _, _) |- _ =>
      let a := fresh "r" in let s := fresh "s" in let E := fresh "E" in
      apply bind_ok in H as (a & s & E & H); cbn beta iota in H
  | H : lift _ _ = (Ok _, _) |- _ => apply lift_ok in H as [H ->]
  | H : ret _ _ = (Ok _, _) |- _ => unfold ret in H; simplify_eq H; clear H; intros; subst
  | H : (let '(_, _) := ?r in _) _ = (Ok _, _) |- _ => is_var r; destruct r; cbn beta iota in H
  | H : fail_if _ _ _ = (Ok _, _) |- _ => apply fail_if_ok in H as [H ->]
  end.

Section facts.
Context {PF : Platform} {TX : Text} {SG : Signing} {Rules N : Type}.
Context {RQ : Requester Rules N} {CC : CoreClient N} {HO : Host N}.
Implicit Types s : World (Rules := Rules) (N := N).

(** ** One transaction *)

(** The node took a transaction that carries [act], signed by [signer], and
    later said that it succeeded. *)
Definition accepted (chainID : ID) (signer : AuthFactory) (act : ChainAction) (id : ID) : Prop :=
  exists base raw tx n0 n1 n2 n3 r,
    b_ChainID base = chainID /\ Bytes act = Ok raw /\
    SignRawActionBytesTx base [raw] signer = Ok tx /\ SubmitTx tx n0 = (Ok id, n1) /\
    GetTxResults id n2 = (Ok (Some r), n3) /\ r_Success r = true.

Lemma result_loop_ok k id name n n' :
  result_loop k id name n = (Ok tt, n') ->
  exists n2 n3 r, GetTxResults id n2 = (Ok (Some r), n3) /\ r_Success r = true.
Proof.
  revert n. induction k as [|k IH]; intros n H; [done|]. cbn [result_loop] in H.
  repeat run_step. destruct r0 as [resp|]; [|repeat run_step; by eapply IH].
  run_step. apply negb_false_iff in H. eauto.
Qed.

Lemma submitSignedAction_ok chainID name signer act tx fee s s' :
  submitSignedAction chainID name signer act s = (Ok (tx, fee), s') ->
  exists id, tx = ids_String id /\ accepted chainID signer act id.
Proof.
  intros H. unfold submitSignedAction in H. repeat run_step.
  match goal with E : waitForTxSuccess _ _ _ = (Ok ?u, _) |- _ =>
    destruct u; apply result_loop_ok in E as (n2 & n3 & res & Hg & Hr) end.
  eexists. split; [done|]. do 8 eexists.
  split_and!; cycle 1; [eassumption..|reflexivity].
Qed.

(** ** The fee balance *)

(** The last answer about the balance was enough. *)
Lemma ensureBenchBalance_ok se reason required s s' :
  ensureBenchBalance se reason required s = (Ok tt, s') ->
  exists s0 balance, JSONRPCClient.Balance (se_addr se) s0 = (Ok balance, s') /\
    required <= balance.
Proof.
  intros H. unfold ensureBenchBalance in H. repeat run_step.
  destruct (required <=? r) eqn:Er; bool_simpl.
  - repeat run_step. eauto.
  - destruct (se_refuel se) as [[a f]|]; [|done]. repeat run_step. bool_simpl. eauto.
Qed.

Lemma submitAction_ok se name act tx s s' :
  submitAction se name act s = (Ok tx, s') ->
  exists id, tx = ids_String id /\ accepted (se_chainID se) (se_factory se) act id.
Proof.
  intros H. unfold submitAction in H. do 3 run_step. cbv zeta in H. run_step.
  match goal with E : catch _ _ = _ |- _ => apply catch_ok in E; rename E into Hc end.
  destruct r1 as [[t f]|err].
  - run_step. by eapply submitSignedAction_ok.
  - repeat run_step. by eapply submitSignedAction_ok.
Qed.

(** ** Windows *)

Context {os : OS} {F : Frontend} {PV : Prover}.

(** The node said of the four transactions of the window that [prepare_window]
    computes, with the payload [window_proof] makes, that they succeeded. *)
Definition window_settled (se : Session) (proofs : proofBuilder) (marketID : ID)
    (batchSize i : Z) : Prop :=
  let cfg := se_cfg se in
  let took act := exists id, accepted (se_chainID se) (se_factory se) act id in
  exists w close proof,
    prepare_window (ProofCircuitID cfg) marketID batchSize i = Ok w /\
    window_proof (ProofTamperMode cfg) proofs batchSize w = Ok proof /\
    took (ACommitOrder (w_commit w)) /\ took (ARevealBatch (w_reveal w)) /\
    took (ASubmitBatchProof (submit_of w close proof)) /\ took (AClearBatch (clear_of w)).

Lemma timed_ok {A} (c : Outcome A) x (s s' : World (Rules := Rules) (N := N)) :
  timed c s = (Ok x, s') -> c = Ok x.1.
Proof. intros H. unfold timed in H. repeat run_step. done. Qed.

Lemma run_window_ok se proofs marketID batchSize i s s' :
  run_window se proofs marketID batchSize i s = (Ok tt, s') ->
  window_settled se proofs marketID batchSize i.
Proof.
  intros H. unfold run_window in H. cbv zeta in H. do 4 run_step.
  match goal with E : submitAction _ "commit_order" _ _ = _ |- _ =>
    apply submitAction_ok in E as (id1 & _ & A1) end.
  do 3 run_step.
  match goal with E : submitAction _ "reveal_batch" _ _ = _ |- _ =>
    apply submitAction_ok in E as (id2 & _ & A2) end.
  do 2 run_step.
  match goal with E : timed (Ok _) _ = _ |- _ => apply timed_ok in E; injection E as E end.
  do 4 run_step. 
  destruct (public_inputs _ _ _ _ _ _) as [hash preimage] eqn:Hp.
  repeat run_step.
  match goal with E : timed _ _ = _ |- _ => apply timed_ok in E; cbn in E; rename E into Hb end.
  repeat match goal with E : submitAction _ _ _ _ = _ |- _ =>
    apply submitAction_ok in E as (? & _ & ?) end.
  match goal with Ew : window_close _ _ = Ok ?c, Et : _ = Ok ?p |- _ =>
    lazymatch type of Et with (if _ then _ else _) = _ => rename Et into Ht end end.
  unfold window_settled, prepare_window. cbv zeta.
  rewrite E. cbn [obind]. rewrite E1. cbn [obind]. rewrite Hp.
  do 3 eexists. split; [reflexivity|]. unfold window_proof. cbn.
  rewrite Hb. cbn [obind]. split; [exact Ht|]. split_and!; eexists; eassumption.
Qed.

Lemma window_loop_ok se proofs marketID batchSize left i s s' :
  window_loop se proofs marketID batchSize left i s = (Ok tt, s') ->
  forall k, i <= k < i + Z.of_nat left -> window_settled se proofs marketID batchSize k.
Proof.
  revert i s. induction left as [|left IH]; intros i s H k Hk; [lia|].
  cbn [window_loop] in H. apply bind_ok in H as ([] & s1 & E & H).
  destruct (decide (k = i)) as [->|Hne]; [by eapply run_window_ok|].
  eapply IH; [exact H|lia].
Qed.

(** ** The run *)

Context {CW : CSWriter} {FI : Files N}.

(** A market was opened for the batch size, and all its windows were settled. *)
Definition batch_settled (se : Session) (proofs : proofBuilder) (batchSize : Z) : Prop :=
  exists marketID, (exists question time id, accepted (se_chainID se) (se_factory se)
      (ACreateMarket (CreateMarket.mk marketID question 2 time 1)) id) /\
    forall i, 1 <= i <= WindowsPerSize (se_cfg se) ->
      window_settled se proofs marketID batchSize i.

Lemma run_batch_ok se proofs b res s s' :
  run_batch se proofs b s = (Ok res, s') ->
  br_BatchSize res = b /\ batch_settled se proofs b.
Proof.
  intros H. unfold run_batch in H. cbv zeta in H. repeat run_step. split; [done|].
  match goal with E : submitAction _ _ _ _ = _ |- _ => apply submitAction_ok in E as (id & _ & A) end.
  match goal with E : window_loop _ _ ?m _ _ _ _ = (Ok ?u, _) |- _ =>
    destruct u; exists m; split; [by do 3 eexists|]; intros i Hi;
    apply (window_loop_ok _ _ _ _ _ _ _ _ E) end.
  lia.
Qed.

Lemma run_batches_ok se proofs bs rs s s' :
  run_batches se proofs bs s = (Ok rs, s') ->
  map br_BatchSize rs = bs /\ Forall (batch_settled se proofs) bs.
Proof.
  revert rs s. induction bs as [|b bs IH]; intros rs s H; cbn [run_batches] in H.
  - run_step. done.
  - repeat run_step. apply run_batch_ok in E as [E1 E2]. apply IH in E0 as [E3 E4].
    cbn. split; [by rewrite E1, E3|by constructor].
Qed.

Lemma setProofConfig_ok chainID signer prover cfg u s s' :
  setProofConfig chainID signer prover cfg s = (Ok u, s') ->
  exists id, accepted chainID signer (ASetProofConfig (SetProofConfig.mk true ProofTypeGroth16
    (BatchWindowMs cfg) (ProofDeadlineMs cfg) prover)) id.
Proof.
  intros H. unfold setProofConfig in H. repeat run_step.
  destruct r. apply submitSignedAction_ok in E as (id & _ & A). by exists id.
Qed.

Lemma configure_proofs_ok chainID signer prover cfg u s s' :
  configure_proofs chainID signer prover cfg s = (Ok u, s') ->
  exists signer' id, accepted chainID signer' (ASetProofConfig (SetProofConfig.mk true
    ProofTypeGroth16 (BatchWindowMs cfg) (ProofDeadlineMs cfg) prover)) id.
Proof.
  intros H. unfold configure_proofs in H. run_step. apply catch_ok in E. destruct r as [[]|e].
  - apply setProofConfig_ok in E as [id A]. eauto.
  - run_step. cbv zeta in H. repeat run_step.
    match goal with E : setProofConfig _ _ _ _ _ = _ |- _ => apply setProofConfig_ok in E as [id A] end.
    eauto.
Qed.

(** C34: a report of the benchmark is made only when the node said of every
    transaction it stands for that it succeeded: the proof policy, and for every
    configured batch size a market and, for each of its windows, the commit, the
    reveal, the proof and the clear that are computed for that window. *)
Theorem report_complete cfg report s s' :
  runBench cfg s = (Ok report, s') -> PrefundOnly cfg = false ->
  exists addr factory chainID refuel proofs prover signer id,
    loadSigner (PrivateKeyHex cfg) = Ok (addr, factory) /\
    accepted chainID signer (ASetProofConfig (SetProofConfig.mk true ProofTypeGroth16
      (BatchWindowMs cfg) (ProofDeadlineMs cfg) prover)) id /\
    map br_BatchSize (rp_Results report) = BatchSizes cfg /\
    Forall (batch_settled (mk_session SG chainID addr factory refuel cfg) proofs) (BatchSizes cfg).
Proof.
  intros H Hp. unfold runBench, measure in H. cbv zeta in H. cbn [se_cfg se_chainID] in H.
  rewrite Hp in H. repeat run_step.
  match goal with E : configure_proofs _ _ _ _ _ = _ |- _ =>
    apply configure_proofs_ok in E as (signer & id & A) end.
  match goal with E : run_batches ?se ?pr _ _ = _ |- _ =>
    apply run_batches_ok in E as [B1 B2]; lazymatch se with mk_session _ ?c ?a ?f ?r _ =>
    exists a, f, c, r, pr end end.
  do 3 eexists. split_and!; eassumption.
Qed.
End facts.

(** ** Evaluations *)

(** A node that takes every transaction, and a codec that keeps the type byte
    only, so that a run is evaluated without the payloads. *)
Module Samples.
Export CircuitFacts.Samples.
#[export] Instance texts : Text :=
  {| ids_String _ := "id"%string; err_Error e := match e with ErrMessage m => m | _ => "error"%string end |}.
Definition terse : Platform :=
  {| DefaultMinimumPrefix := 3;
     smath_Add a b := Ok (a + b); smath_Sub a b := Ok (a - b); smath_Mul a b := Ok (a * b);
     ParseUInt64 _ := Ok 0; Permissions := unit;
     state_Read := tt; state_Write := tt; state_Allocate := tt; state_All := tt;
     perm_or _ _ := tt; perm_Has _ _ := true;
     PackByte p b := {| p_Bytes := [byte_of_Z b]; p_MaxSize := p_MaxSize p |};
     MarshalInto _ p := (Ok tt, p); UnmarshalFrom _ _ := Err (ErrMessage "no fields") |}.
#[export] Instance signing : Signing :=
  {| PrivateKey := unit; AuthFactory := unit; ed25519_PrivateKey _ := Ok tt;
     NewED25519Factory := id; NewED25519Address _ := zero_array 33;
     addr_String _ := "owner"%string; SignRawActionBytesTx _ raws _ := Ok (concat raws) |}.
(** The world is the height, one more at every look. *)
#[export] Instance core : CoreClient Z :=
  {| Network := ret (zero_array 32); Accepted h := (Ok (h, 1700000000500), h + 1);
     UnitPrices _ := ret [1; 1; 1; 1; 1]; SubmitTx _ := ret (zero_array 32);
     GetTxResults _ := ret (Some (mk_result true [])) |}.
#[export] Instance host : Host Z :=
  {| time_Now h := (1700000000600000000, h); time_Sleep _ h := h; ctx_Err h := (None, h);
     ctx_Timer _ h := (None, h) |}.
#[export] Instance drive : Files Z :=
  {| fs_MkdirAll _ := ret tt; fs_Create _ := ret tt; fs_Write _ _ := ret tt; fs_Close _ := ret tt;
     fs_Remove _ := ret tt; fs_Rename _ _ := ret tt; fs_WriteFile _ _ := ret tt |}.
#[export] Instance answers : Requester unit Z := fun R r =>
  match r in Request _ R' return ST Z R' with
  | RqBalance _ => ret 1000000000000
  | RqZKMetrics _ _ => ret (ZKMetricsSnapshot.mk 0 ZKMetricsSummary.zero [])
  | RqZKMetricsReset => ret true
  | RqRecordZKProverMetrics _ => ret true
  | _ => fail (ErrMessage "not asked")
  end.
#[export] Instance no_files : OS :=
  {| os_ReadFile _ := Err (ErrMessage "no such file");
     os_Stat _ := Err (ErrMessage "no such file"); os_Getenv _ := [] |}.
#[export, refine] Instance prover : Prover :=
  {| FullWitness := unit; PublicWitness := unit; ConstraintSystem := unit; ProvingKey := unit;
     GProof := unit; frontend_Compile _ := Ok tt; CS_ReadFrom _ := Ok tt; PK_ReadFrom _ := Ok tt;
     frontend_NewWitness _ := Ok tt; fullWitness_Public := Ok; MarshalBinary _ := Ok [];
     groth16_Prove _ _ _ := Ok tt; GProof_WriteTo _ := Ok [] |}.
Proof. Defined.
#[export] Instance writer : CSWriter := fun _ => ([], None).

(** Two batch sizes, two windows each. *)
Definition config : benchConfig :=
  {| NodeURL := defaultNodeURL; ChainID := str "veil"; PrivateKeyHex := str "00ff";
     RefuelPrivateKeyHex := []; ProofConfigPrivateKeyHex := [];
     ProofConfigFallbackPrivateKeyHex := []; ProverAuthorityPrivateKeyHex := [];
     StrictFeePreflight := true; OutputDir := str "out"; ProofMode := str "synthetic";
     ProofCircuitID := ProofCircuitClearHashV1; Groth16PKPath := []; Groth16CSCachePath := [];
     ProofTamperMode := []; BatchSizes := [32; 8]; WindowsPerSize := 2; BatchWindowMs := 5000;
     ProofDeadlineMs := 10000; ProofSubmitDelayMs := 0; PrefundOnly := false;
     TimeoutMinutes := 60; GasSafetyBps := 13000; GasReserve := 250000; RefuelAmount := 5000000 |}.
Definition bench : ST (JSONRPCClient.t unit * Z) benchReport := runBench (PF := terse) config.
Definition world0 : JSONRPCClient.t unit * Z := (JSONRPCClient.New, 7).
End Samples.
Import Samples.

Lemma report_complete_witness :
  exists addr factory chainID refuel proofs prover signer id,
    loadSigner (PrivateKeyHex config) = Ok (addr, factory) /\
    accepted (PF := terse) chainID signer
      (ASetProofConfig (SetProofConfig.mk true ProofTypeGroth16 5000 10000 prover)) id /\
    Forall (batch_settled (PF := terse) (mk_session signing chainID addr factory refuel config)
              proofs) [32; 8].
Proof.
  assert (H : succeeds bench world0 = true) by (lazy; reflexivity).
  destruct (run_succeeds _ _ H) as [report E].
  destruct (report_complete (PF := terse) config report world0 _ E eq_refl)
    as (addr & factory & chainID & refuel & proofs & prover & signer & id & H1 & H2 & _ & H3).
  exists addr, factory, chainID, refuel, proofs, prover, signer, id.
  split; [exact H1|]. split; [exact H2|exact H3].
Defined.
