(* ===== verification/CacheFacts.v ===== *)
(** * The cache file and the report files

    Over files that behave as the operating system documents, the cached
    constraint system is replaced whole or not at all, whatever step fails; what
    was stored is what the next run loads. *)
From stdpp Require Import strings pretty.
From S2P Require Import Prelude Errors Go Platform Concrete Sha256 Storage ProofEnvelope Metrics.
From S2P Require Import Proofs Genesis Zk Circuits CircuitFacts Tools Bench Network BenchReport.
From S2P Require Import BenchRun.

Section cache.
Context {os : OS} {F : Frontend} {PV : Prover} {CW : CSWriter} {N : Type}.
Context {FI : Files N} {FS : FilesSpec N}.
Implicit Types n : N.

(** Only the cells in [ks] may differ. *)
Definition only (ks : list bytes) (m m' : gmap bytes bytes) : Prop :=
  forall k, k ∉ ks -> m' !! k = m !! k.

Definition tmp_of (path : bytes) : bytes := path ++ str ".tmp".

Lemma tmp_ne path : tmp_of path <> path.
Proof. intros E. apply (f_equal length) in E. unfold tmp_of in E. rewrite length_app in E. cbn in E. lia. Qed.

(** ** Triples: from [P], the computation ends in [R] with a value or in [E] with
    an error, and does not panic *)

Definition ends {A} (R : A -> N -> Prop) (E : N -> Prop) (r : Outcome A) (n : N) : Prop :=
  match r with Ok a => R a n | Err _ => E n | Panic => False end.

Definition triple {A} (P : N -> Prop) (c : ST N A) (R : A -> N -> Prop) (E : N -> Prop) : Prop :=
  forall n r n', P n -> c n = (r, n') -> ends R E r n'.

Lemma triple_bind {A B} P (c : ST N A) (k : A -> ST N B) R S E :
  triple P c R E -> (forall a, triple (R a) (k a) S E) -> triple P (bind c k) S E.
Proof.
  intros Hc Hk n r n' HP H. unfold bind in H. destruct (c n) as [[a|e|] n1] eqn:Ec;
    apply Hc in Ec; try done.
  - exact (Hk a n1 r n' Ec H).
  - by injection H as <- <-.
Qed.

Lemma triple_ret {A} (P : N -> Prop) (a : A) R E : (forall n, P n -> R a n) -> triple P (ret a) R E.
Proof. intros H n r n' HP [= <- <-]. by apply H. Qed.

(** A step whose error is dropped. *)
Lemma triple_ignore {A} P (c : ST N A) (Q : N -> Prop) E :
  triple P c (fun _ => Q) Q -> triple P (ignore c) (fun _ => Q) E.
Proof.
  intros Hc n r n' HP H. unfold ignore, bind, catch in H.
  destruct (c n) as [[a|e|] n1] eqn:Ec; apply Hc in Ec; try done; by injection H as <- <-.
Qed.

Lemma triple_cleanup {A} P (c : ST N A) cleanup R P' E :
  triple P c R P' -> triple P' cleanup (fun _ => E) E -> triple P (or_cleanup c cleanup) R E.
Proof.
  intros Hc Hcl. unfold or_cleanup. intros n r n' HP H. unfold bind, catch in H.
  destruct (c n) as [[a|e|] n1] eqn:Ec; apply Hc in Ec; try done.
  - by injection H as <- <-.
  - destruct (cleanup n1) as [[[]|e2|] n2] eqn:E2; apply Hcl in E2; try done;
      by injection H as <- <-.
Qed.

Lemma triple_weaken {A} (P P' : N -> Prop) (c : ST N A) R R' (E E' : N -> Prop) :
  triple P' c R' E' -> (forall n, P n -> P' n) -> (forall a n, R' a n -> R a n) ->
  (forall n, E' n -> E n) -> triple P c R E.
Proof.
  intros Hc HP HR HE n r n' Hn H. apply Hc in H; [|by apply HP]. destruct r; cbn in *; auto.
Qed.

(** A property of the files that the operation keeps or establishes. *)
Definition on (Q : Store -> Prop) (n : N) : Prop := Q (files n).

Lemma triple_mkdir (p : bytes) (Q : Store -> Prop) : triple (on Q) (fs_MkdirAll p) (fun _ => on Q) (on Q).
Proof.
  intros n r n' HP H. apply MkdirAll_spec in H as [Hr H]. unfold on in *.
  destruct r; cbn; by rewrite ?H.
Qed.
Lemma triple_close (p : bytes) (Q : Store -> Prop) : triple (on Q) (fs_Close p) (fun _ => on Q) (on Q).
Proof.
  intros n r n' HP H. apply Close_spec in H as [Hr H]. unfold on in *.
  destruct r; cbn; by rewrite ?H.
Qed.
Lemma triple_create (p : bytes) (Q R : Store -> Prop) :
  (forall m, Q m -> R (<[p := []]> m)) ->
  triple (on Q) (fs_Create p) (fun _ => on R) (on Q).
Proof.
  intros HQ n r n' HP H. apply Create_spec in H as [Hr H]. unfold on in *.
  destruct r; cbn; rewrite ?H; auto.
Qed.
Lemma triple_remove (p : bytes) (Q R : Store -> Prop) :
  (forall m, Q m -> R m) -> (forall m, Q m -> R (delete p m)) ->
  triple (on Q) (fs_Remove p) (fun _ => on R) (on R).
Proof.
  intros HQ HR n r n' HP H. apply Remove_spec in H as [Hr H]. unfold on in *.
  destruct r; cbn; rewrite ?H; auto.
Qed.
Lemma triple_write (p b : bytes) (Q R E : Store -> Prop) :
  (forall m, Q m -> R (<[p := default [] (m !! p) ++ b]> m)) ->
  (forall m x, Q m -> E (<[p := x]> m)) ->
  triple (on Q) (fs_Write p b) (fun _ => on R) (on E).
Proof.
  intros HQ HE n r n' HP H. apply Write_spec in H as (Hr & k & H & Hk). unfold on in *.
  destruct r as [[]|e|]; cbn; rewrite ?H; auto. rewrite Hk by done. auto.
Qed.
Lemma triple_rename (a b : bytes) (Q R : Store -> Prop) :
  (forall m x, Q m -> m !! a = Some x -> R (<[b := x]> (delete a m))) ->
  triple (on Q) (fs_Rename a b) (fun _ => on R) (on Q).
Proof.
  intros HQ n r n' HP H. apply Rename_spec in H as (Hr & H). unfold on in *.
  destruct r; cbn; [|by rewrite H|done]. destruct H as (x & Hx & ->). auto.
Qed.

(** [data] is the whole serialization: it was written without an error. *)
Definition serialized (ccs : ConstraintSystem) (data : bytes) : Prop :=
  CS_WriteTo ccs = (data, None).

(** The content of the cache after a store: as it was, or, when [ccs] serializes
    at all, gone or the whole serialization. *)
Definition whole (path : bytes) (ccs : ConstraintSystem) (m m' : gmap bytes bytes) : Prop :=
  m' !! path = m !! path \/
  exists data, serialized ccs data /\ (m' !! path = None \/ m' !! path = Some data).

Section store.
Variables (path : bytes) (ccs : ConstraintSystem) (m0 : Store).
Let tmp : bytes := tmp_of path.
Let data : bytes := (CS_WriteTo ccs).1.

(** The stages of a store: the cache untouched; the temporary file empty; then
    holding what the serializer wrote, complete if it reported no error; the old
    cache possibly gone; and what is left in the end. *)
Definition untouched (m : Store) : Prop := only [path; tmp] m0 m /\ m !! path = m0 !! path.
Definition created (m : Store) : Prop := untouched m /\ m !! tmp = Some [].
Definition written (m : Store) : Prop := untouched m /\ m !! tmp = Some data.
Definition complete (m : Store) : Prop := written m /\ serialized ccs data.
Definition cleared (m : Store) : Prop :=
  (only [path; tmp] m0 m /\ (m !! path = m0 !! path \/ m !! path = None)) /\
  m !! tmp = Some data /\ serialized ccs data.
Definition settled (m : Store) : Prop := only [path; tmp] m0 m /\ whole path ccs m0 m.
Definition replaced (m : Store) : Prop :=
  only [path; tmp] m0 m /\ (m !! path = Some data /\ serialized ccs data) /\ m !! tmp = None.

Lemma only_insert k x m :
  k ∈ [path; tmp] -> only [path; tmp] m0 m -> only [path; tmp] m0 (<[k := x]> m).
Proof.
  intros Hk H k' Hk'. rewrite lookup_insert_ne; [by apply H|]. by intros ->.
Qed.
Lemma only_delete k m :
  k ∈ [path; tmp] -> only [path; tmp] m0 m -> only [path; tmp] m0 (delete k m).
Proof.
  intros Hk H k' Hk'. rewrite lookup_delete_ne; [by apply H|]. by intros ->.
Qed.
Lemma path_listed : path ∈ [path; tmp]. Proof. set_solver. Qed.
Lemma tmp_listed : tmp ∈ [path; tmp]. Proof. set_solver. Qed.
#[local] Hint Resolve only_insert only_delete path_listed tmp_listed tmp_ne : core.

Lemma untouched_insert x m : untouched m -> untouched (<[tmp := x]> m).
Proof. intros [H1 H2]. split; [auto|]. by rewrite lookup_insert_ne by apply tmp_ne. Qed.
Lemma untouched_delete m : untouched m -> untouched (delete tmp m).
Proof. intros [H1 H2]. split; [auto|]. by rewrite lookup_delete_ne by apply tmp_ne. Qed.
Lemma untouched_settled m : untouched m -> settled m.
Proof. intros [H1 H2]. split; [done|]. by left. Qed.
#[local] Hint Resolve untouched_insert untouched_delete untouched_settled : core.

Lemma drop_tmp : triple (on untouched) (ignore (fs_Remove tmp)) (fun _ => on settled) (on settled).
Proof. apply triple_ignore, (triple_remove tmp untouched settled); auto. Qed.

Lemma write_stage :
  triple (on created) (write_cs tmp ccs)
    (fun _ => on complete) (on untouched).
Proof.
  apply (triple_bind _ _ _ (fun _ => on written)).
  - apply (triple_write tmp _ created written untouched); [|intros m x [H _]; auto].
    intros m [H ->]. split; [auto|by rewrite lookup_insert_eq].
  - intros _. destruct (CS_WriteTo ccs).2 eqn:E.
    + intros n r n' HP [= <- <-]. exact (proj1 HP).
    + apply triple_ret. intros n HP. split; [done|]. unfold serialized, data.
      by rewrite <-E, <-surjective_pairing.
Qed.

Lemma rename_stage :
  triple (on cleared) (or_cleanup (fs_Rename tmp path) (ignore (fs_Remove tmp)))
    (fun _ => on replaced) (on settled).
Proof.
  apply (triple_cleanup _ _ _ _ (on cleared)).
  - apply (triple_rename tmp path cleared replaced).
    intros m x [[H1 _] [H3 Hs]] Hx. rewrite H3 in Hx. injection Hx as <-.
    split_and!; [auto|..|done|].
    + by rewrite lookup_insert_eq.
    + by rewrite lookup_insert_ne, lookup_delete_eq by (apply not_eq_sym, tmp_ne).
  - apply triple_ignore, (triple_remove tmp cleared settled).
    + intros m [[H1 [H2|H2]] [_ Hs]]; (split; [done|]); [by left|right; eauto].
    + intros m [[H1 H2] [_ Hs]]. split; [auto|]. unfold whole.
      rewrite lookup_delete_ne by apply tmp_ne. destruct H2 as [->| ->]; eauto.
Qed.

(** From a complete temporary file on. *)
Lemma swap_stage :
  triple (on complete)
    (or_cleanup (fs_Close tmp) (ignore (fs_Remove tmp)) ;;; ignore (fs_Remove path) ;;;
     or_cleanup (fs_Rename tmp path) (ignore (fs_Remove tmp)))
    (fun _ => on replaced) (on settled).
Proof.
  apply (triple_bind _ _ _ (fun _ => on complete)).
  { apply (triple_cleanup _ _ _ _ (on complete)); [apply triple_close|].
    eapply triple_weaken; [exact drop_tmp|by intros n [[]]|auto..]. }
  intros _. apply (triple_bind _ _ _ (fun _ => on cleared)); [|intros _; exact rename_stage].
  apply triple_ignore, (triple_remove path complete cleared).
  - intros m [[[H1 H2] H3] Hs]. split; [|done]. by split; [|left].
  - intros m [[[H1 H2] H3] Hs].
    split; [|by rewrite lookup_delete_ne by (apply not_eq_sym, tmp_ne)].
    split; [auto|right; by rewrite lookup_delete_eq].
Qed.

Lemma store_stages :
  triple (on untouched) (storeGroth16ConstraintSystem path ccs)
    (fun _ => on replaced) (on settled).
Proof.
  unfold storeGroth16ConstraintSystem. cbv zeta. fold tmp.
  assert (Hs : forall n, on untouched n -> on settled n) by (intros n; apply untouched_settled).
  apply (triple_bind _ _ _ (fun _ => on untouched)).
  { eapply triple_weaken; [apply (triple_mkdir _ untouched)|auto..]. }
  intros _. apply (triple_bind _ _ _ (fun _ => on created)).
  { eapply triple_weaken; [apply (triple_create tmp untouched created)|auto..].
    intros m H. split; [auto|by rewrite lookup_insert_eq]. }
  intros _. apply (triple_bind _ _ _ (fun _ => on complete)); [|intros _; exact swap_stage].
  apply (triple_cleanup _ _ _ _ _ _ write_stage), (triple_bind _ _ _ (fun _ => on untouched)).
  - apply triple_ignore, triple_close.
  - intros _. exact drop_tmp.
Qed.
End store.

(** C37: the cache is never torn: whatever step fails, storing a constraint
    system touches only the cache file and its temporary file. The cache is as
    it was, or, and only when the serializer wrote the system without an error,
    gone or the whole serialization. A store that reports success has left the
    whole serialization and no temporary file. *)
Theorem cache_never_torn path ccs n r n' :
  storeGroth16ConstraintSystem path ccs n = (r, n') ->
  r <> Panic /\ only [path; tmp_of path] (files n) (files n') /\
  whole path ccs (files n) (files n') /\
  (r = Ok tt -> exists data, serialized ccs data /\ files n' !! path = Some data /\
                files n' !! tmp_of path = None).
Proof.
  intros H. apply (store_stages path ccs (files n)) in H; [|by split].
  destruct r as [[]|e|]; cbn in H; [|by destruct H..].
  destruct H as (H1 & [H2 Hs] & H3). split_and!; [done|done|by right; eauto|eauto].
Qed.
End cache.

(** What a successful store leaves is what the next run loads. *)
Lemma stored_is_loaded {N : Type} {FI : Files N} {FS : FilesSpec N} {F : Frontend} {PV : Prover}
    {CW : CSWriter} {os : OS} path ccs (n n' : N) :
  storeGroth16ConstraintSystem path ccs n = (Ok tt, n') ->
  (forall p b, files n' !! p = Some b -> os_ReadFile p = Ok b) ->
  CS_ReadFrom (CS_WriteTo ccs).1 = Ok ccs -> loadGroth16ConstraintSystem path = Ok ccs.
Proof.
  intros H Hos Hcs. apply (store_stages path ccs (files n)) in H; [|by split].
  destruct H as (_ & [H _] & _). unfold loadGroth16ConstraintSystem.
  by rewrite (Hos _ _ H).
Qed.

(** ** The table of the windows *)

Section table.
Context {N : Type} {FI : Files N} {FS : FilesSpec N}.

Lemma write_ok (path b : bytes) (n n' : N) (u : unit) :
  fs_Write path b n = (Ok u, n') ->
  files n' = <[path := default [] (files n !! path) ++ b]> (files n).
Proof.
  destruct u. intros H. apply Write_spec in H as (_ & k & H & Hk). by rewrite Hk in H.
Qed.

Lemma ignored_write (path b : bytes) (n n' : N) (u : unit) :
  ignore (fs_Write path b) n = (Ok u, n') ->
  exists k, files n' = <[path := default [] (files n !! path) ++ take k b]> (files n).
Proof.
  unfold ignore. intros H. apply bind_ok in H as (r & n1 & Hw & H). unfold ret in H.
  injection H as _ <-. unfold catch in Hw.
  destruct (fs_Write path b n) as [o n2] eqn:E. apply Write_spec in E as (_ & k & E & _).
  destruct o; simplify_eq; eauto.
Qed.

(** The blocks before the last are complete when no error is reported. *)
Lemma buffered_cut fuel path data (n n' : N) :
  (length data < fuel)%nat -> buffered fuel path data n = (Ok tt, n') ->
  exists k, len data <= Z.of_nat k + bufio_defaultBufSize /\
    files n' = <[path := default [] (files n !! path) ++ take k data]> (files n).
Proof.
  revert data n. induction fuel as [|fuel IH]; intros data n Hl H; [lia|]. cbn [buffered] in H.
  destruct (Z.leb_spec (len data) bufio_defaultBufSize) as [Hs|Hs].
  - apply ignored_write in H as [k H]. exists k. split; [lia|done].
  - apply bind_ok in H as (u & n1 & Hw & H). apply write_ok in Hw.
    set (block := Z.to_nat bufio_defaultBufSize) in *.
    apply IH in H as (k & Hk & H); [|rewrite length_drop; unfold len, block, bufio_defaultBufSize in *; lia].
    exists (block + k)%nat. split; [unfold len, block in *; rewrite length_drop in Hk; lia|].
    rewrite H, Hw, lookup_insert_eq, insert_insert_eq. unfold default, id.
    by rewrite <-app_assoc, take_take_drop.
Qed.

(** A table that is reported as written lacks at most a part of its last block. *)
Lemma table_prefix path windows (n n' : N) :
  writeMetricsCSV path windows n = (Ok tt, n') ->
  exists k, len (csv_text windows) <= Z.of_nat k + bufio_defaultBufSize /\
    files n' = <[path := take k (csv_text windows)]> (files n).
Proof.
  unfold writeMetricsCSV. intros H. apply bind_ok in H as (u & n1 & Hc & H).
  apply Create_spec in Hc as [_ Hc]. cbv zeta in H.
  apply bind_ok in H as (r & n2 & Hb & H). apply bind_ok in H as (v & n3 & Hcl & H).
  destruct r as [[]|e]; [|done]. unfold ret in H. injection H as <-.
  unfold catch in Hb. destruct (buffered _ path _ n1) as [o n4] eqn:E.
  destruct o as [[]|e|]; simplify_eq. apply buffered_cut in E as (k & Hk & E); [|lia].
  exists k. split; [done|]. unfold ignore in Hcl. apply bind_ok in Hcl as (r & n5 & Hcl & Hr).
  unfold ret in Hr. injection Hr as _ <-. unfold catch in Hcl.
  destruct (fs_Close path n2) as [o n6] eqn:Ec. apply Close_spec in Ec as [_ Ec].
  assert (n5 = n6) as -> by (destruct o; by simplify_eq).
  rewrite Ec, E, Hc, lookup_insert_eq, insert_insert_eq. done.
Qed.
End table.

(** ** Evaluations *)

(** A disk, and which of its next operations fail; a failing write stops half
    way. A constraint system is its own serialization. *)
Module Samples.
Export CircuitFacts.Samples.
Record Disk := mk_disk { d_files : Store; d_faults : list bool }.
Definition io_error : Error := ErrMessage "input/output error".
Definition step (ok fail : Store -> Store) : ST Disk unit := fun d =>
  match d_faults d with
  | true :: l => (Err io_error, mk_disk (fail (d_files d)) l)
  | l => (Ok tt, mk_disk (ok (d_files d)) (tail l))
  end.
Definition append (p b : bytes) (m : Store) : Store := <[p := default [] (m !! p) ++ b]> m.
#[export] Instance disk : Files Disk :=
  {| fs_MkdirAll _ := step id id;
     fs_Create p := step (insert p []) id;
     fs_Write p b := step (append p b) (append p (take (length b / 2) b));
     fs_Close _ := step id id;
     fs_Remove p := step (delete p) id;
     fs_Rename a b := fun d =>
       match d_files d !! a with
       | Some x => step (fun m => <[b := x]> (delete a m)) id d
       | None => (Err io_error, d)
       end;
     fs_WriteFile p b := step (insert p b) id |}.

Lemma step_spec ok fail d r d' :
  step ok fail d = (r, d') ->
  r <> Panic /\ d_files d' = match r with Ok _ => ok (d_files d) | _ => fail (d_files d) end.
Proof. unfold step. destruct (d_faults d) as [|[] l]; by intros [= <- <-]. Qed.

#[export, refine] Instance disk_spec : FilesSpec Disk := {| files := d_files |}.
Proof.
  - intros p n r n' H. apply step_spec in H as [? ->]. by destruct r.
  - intros p n r n' H. by apply step_spec in H.
  - intros p b n r n' H. apply step_spec in H as [Hr ->]. split; [done|].
    destruct r as [[]|e|]; [exists (length b)|exists (length b / 2)%nat|done].
    + by rewrite firstn_all.
    + done.
  - intros p n r n' H. apply step_spec in H as [? ->]. by destruct r.
  - intros p n r n' H. by apply step_spec in H.
  - intros a b n r n'. cbn. destruct (d_files n !! a) as [x|] eqn:E; [|by intros [= <- <-]].
    intros H. apply step_spec in H as [? ->]. split; [done|]. destruct r; [|done..]. by exists x.
  - intros p b n u n' H. by apply step_spec in H as [_ ->].
Defined.

#[export, refine] Instance plain_prover : Prover :=
  {| FullWitness := unit; PublicWitness := unit; ConstraintSystem := bytes; ProvingKey := unit;
     GProof := unit; frontend_Compile _ := Ok [x01; x02; x03; x04]; CS_ReadFrom := Ok;
     PK_ReadFrom _ := Ok tt; frontend_NewWitness _ := Ok tt; fullWitness_Public := Ok;
     MarshalBinary _ := Ok []; groth16_Prove _ _ _ := Ok tt; GProof_WriteTo _ := Ok [] |}.
Proof. Defined.
#[export] Instance plain_writer : CSWriter := fun b => (b, None).
Definition torn_writer : CSWriter := fun b => (take 2 b, Some io_error).
Definition cs : @ConstraintSystem _ plain_prover := [x01; x02; x03; x04].
Definition cache : bytes := str "c/ccs.bin".
Definition old : Store := {[cache := [x09]]}.
End Samples.
Import Samples.

(** A store that succeeds leaves the serialization; when the write fails, the
    cache is whole all the same. *)
Lemma cache_never_torn_witness :
  d_files (final (storeGroth16ConstraintSystem cache cs) (mk_disk old [])) !! cache = Some cs /\
  whole cache cs old
    (d_files (final (storeGroth16ConstraintSystem cache cs) (mk_disk old [false; false; true]))).
Proof.
  assert (Ha : succeeds (storeGroth16ConstraintSystem cache cs) (mk_disk old []) = true)
    by (vm_compute; reflexivity).
  destruct (run_succeeds (storeGroth16ConstraintSystem cache cs) _ Ha) as [[] E].
  destruct (cache_never_torn cache cs (mk_disk old []) _ _ E) as (_ & _ & _ & H).
  destruct (H eq_refl) as (data & [= <-] & Hc & _). split; [exact Hc|].
  exact (proj1 (proj2 (proj2 (cache_never_torn cache cs (mk_disk old [false; false; true])
    _ _ (surjective_pairing _))))).
Defined.

(** A serializer that stops half way leaves the old cache, and its error. *)
Example serializer_fails :
  let r := storeGroth16ConstraintSystem (CW := torn_writer) cache cs (mk_disk old []) in
  (r.1, d_files r.2 !! cache, d_files r.2 !! tmp_of cache) = (Err io_error, Some [x09], None).
Proof. vm_compute. reflexivity. Qed.

Example rename_fails :
  d_files (final (storeGroth16ConstraintSystem cache cs)
             (mk_disk old [false; false; false; false; false; true])) = ∅.
Proof. vm_compute. reflexivity. Qed.

(** The error of the last block of a table is lost: the file is cut, and the
    writer reports success. *)
Example table_cut :
  let run := writeMetricsCSV cache [] in
  let d := mk_disk ∅ [false; true] in
  run d = (Ok tt, final run d) /\
  d_files (final run d) !! cache = Some (take (length (csv_text []) / 2) (csv_text [])).
Proof. vm_compute. split; reflexivity. Qed.
