(* ===== verification/SmokeFacts.v ===== *)
(** * What the smoke run shows

    What a passing report says about the node; that on the server as it is no
    run passes, because its last query is never answered; and that with that
    query answered the run passes on the modelled chain. *)
From stdpp Require Import strings pretty.
From S2P Require Import Prelude Errors Go Platform Concrete Storage Balance Action Metrics Server.
From S2P Require Import AmmMath Pools Vai Genesis Zk Client ClientFacts Bench Chain Wire Network.
From S2P Require Import ProofEnvelope Proofs BenchRun RunFacts Smoke.

Section facts.
Context {PF : Platform} {TX : Text} {SG : Signing} {Rules N : Type}.
Context {RQ : Requester Rules N} {CC : CoreClient N} {HO : Host N}.
Implicit Types s : Smoke.World (Rules := Rules) (N := N).

(** The node took a transaction that carries [act], signed by [factory]. *)
Definition taken (factory : AuthFactory) (act : ChainAction) : Prop :=
  exists base raw tx id n n', Bytes act = Ok raw /\
    SignRawActionBytesTx base [raw] factory = Ok tx /\ SubmitTx tx n = (Ok id, n').

Lemma update_ok f u s s' : update f s = (Ok u, s') -> s' = (f s.1, s.2).
Proof. by intros [= _ <-]. Qed.

Lemma veil_ok {A} (c : ST (JSONRPCClient.t Rules * N) A) a s s' :
  veil c s = (Ok a, s') -> c s.2 = (Ok a, s'.2) /\ s'.1 = s.1.
Proof. apply on_snd_ok. Qed.

Lemma core_ok {A} (c : ST N A) a s s' :
  core c s = (Ok a, s') -> c s.2.2 = (Ok a, s'.2.2) /\ s'.1 = s.1.
Proof. intros H. apply on_snd_ok in H as [H E]. by apply on_snd_ok in H as [H _]. Qed.

Ltac smoke_step :=
  match goal with
  | H : veil _ _ = (Ok _, _) |- _ => apply veil_ok in H as [H ?]
  | H : core _ _ = (Ok _, _) |- _ => apply core_ok in H as [H ?]
  | H : update _ _ = (Ok _, _) |- _ => apply update_ok in H; subst
  | H : catch _ _ = (Ok _, _) |- _ => apply catch_ok in H
  | _ => run_step
  end.

Lemma submitAction_taken factory act tx s s' :
  submitAction factory act s = (Ok tx, s') -> taken factory act.
Proof.
  intros H. unfold submitAction in H. repeat smoke_step. unfold taken.
  do 6 eexists. split_and!; eassumption.
Qed.

Lemma submit_step_ok factory name what detail act u s s' :
  submit_step factory name what detail act s = (Ok u, s') -> taken factory act.
Proof.
  intros H. unfold submit_step in H. run_step. apply catch_ok in E.
  destruct r as [tx|e]; [by eapply submitAction_taken|]. run_step. done.
Qed.

Lemma noted_query_ok {A} name what (c : ST (JSONRPCClient.t Rules * N) A) a s s' :
  noted_query name what (veil c) s = (Ok a, s') -> c s.2 = (Ok a, s'.2) /\ s'.1 = s.1.
Proof.
  intros H. unfold noted_query in H. run_step. apply catch_ok in E.
  destruct r as [x|e]; [|by run_step]. apply veil_ok in E as [E ?]. run_step. done.
Qed.

Lemma run_queries_ok addr u s s' :
  run_queries addr s = (Ok u, s') ->
  Report.PoolAfter s'.1 = Report.PoolAfter s.1 /\
  exists lp w w', JSONRPCClient.LPBalance AssetVEIL AssetVAI addr w = (Ok lp, w').
Proof.
  intros H. unfold run_queries in H.
  apply bind_ok in H as (p & s1 & E1 & H). apply noted_query_ok in E1 as [_ E1].
  apply bind_ok in H as (v & s2 & E2 & H). apply update_ok in E2 as ->.
  apply bind_ok in H as (lp & s3 & E3 & H). apply noted_query_ok in E3 as [E3 E4].
  apply update_ok in H as ->. cbn in *. split; [by rewrite E4, E1|by eauto].
Qed.

Lemma run_swap_ok addr factory u s s' :
  run_swap addr factory s = (Ok u, s') ->
  taken factory swap /\ exists p, Report.PoolAfter s'.1 = Some p /\
    10000 < PoolState.Reserve0 p /\ PoolState.Reserve1 p < 10000.
Proof.
  intros H. unfold run_swap in H.
  apply bind_ok in H as (v & s1 & E1 & H). apply submit_step_ok in E1. split; [done|].
  apply bind_ok in H as (pool & s2 & E2 & H).
  apply bind_ok in H as (v2 & s3 & E3 & H). apply update_ok in E3 as ->.
  apply bind_ok in H as (lp & s4 & E4 & H).
  assert (Hs4 : s4.1 = Report.set_after (pool_state pool) s2.1).
  { unfold or_zero in E4. apply bind_ok in E4 as (r & s5 & E5 & E4).
    unfold ret in E4. injection E4 as _ <-. unfold catch, veil, on_snd in E5. cbn in E5.
    destruct (JSONRPCClient.LPBalance _ _ _ _) as [[] ?]; by injection E5 as _ <-. }
  apply bind_ok in H as (v3 & s5 & E5 & H). apply update_ok in E5 as ->. cbv zeta in H.
  apply bind_ok in H as (report & s6 & E6 & H). injection E6 as <- <-. cbn [fst] in H.
  destruct (Report.PoolBefore _) as [before|]; [|done].
  apply bind_ok in H as (v4 & s7 & E7 & H). apply update_ok in E7 as ->.
  apply fail_if_ok in H as [H ->]. apply negb_false_iff in H. bool_simpl.
  exists (pool_state pool). cbn. rewrite Hs4. done.
Qed.

(** A run of the smoke test that ends without an error has had its four
    transactions taken by the node, has seen more VEIL and less VAI in the pool
    than the deposit put there, and has had its LP query answered. *)
Theorem smoke_pass_means pkHex u s s' :
  run pkHex s = (Ok u, s') ->
  exists pkBytes priv, hex_DecodeString pkHex = Ok pkBytes /\ ed25519_PrivateKey pkBytes = Ok priv /\
    let factory := NewED25519Factory priv in
    let addr := NewED25519Address priv in
    Forall (taken factory) [create_pool; mint addr; add_liquidity; swap] /\
    (exists p, Report.PoolAfter s'.1 = Some p /\
       10000 < PoolState.Reserve0 p /\ PoolState.Reserve1 p < 10000) /\
    exists lp w w', JSONRPCClient.LPBalance AssetVEIL AssetVAI addr w = (Ok lp, w').
Proof.
  intros H. unfold run in H.
  apply bind_ok in H as (pk & t1 & E1 & H). apply map_err_ok, lift_ok in E1 as [E1 ->].
  apply bind_ok in H as (priv & t2 & E2 & H). apply lift_ok in E2 as [E2 ->].
  apply bind_ok in H as (v3 & t3 & E3 & H). apply bind_ok in H as (v4 & t4 & E4 & H).
  apply bind_ok in H as (v5 & t5 & E5 & H).
  apply run_queries_ok in H as [HP HL]. apply run_swap_ok in E5 as (T4 & p & Hp & Hr).
  unfold run_deposit in E4. apply bind_ok in E4 as (v6 & t6 & T3 & _).
  apply submit_step_ok in T3. unfold run_setup in E3. repeat smoke_step.
  repeat match goal with E : submit_step _ _ _ _ _ _ = _ |- _ => apply submit_step_ok in E end.
  exists pk, priv. split; [done|]. split; [done|]. cbv zeta. split; [by repeat constructor|].
  split; [|exact HL]. exists p. by rewrite HP.
Qed.
End facts.

(** ** Against the server as it is *)

Section server.
Context {PF : Platform} {TX : Text} {SG : Signing} {Rules N : Type}.
Context {RQ : Requester Rules N} {SV : Serves RQ} {CC : CoreClient N} {HO : Host N}.

(** C36: against a node that serves the methods of [vm/server.go] under the
    platform's naming no report passes, whatever the key and whatever the node
    answers: a run that is not stopped before fails on the LP balance,
    which the client asks for under a name the server does not have. *)
Theorem smoke_cannot_pass (os : OS) (c : JSONRPCClient.t Rules) (n : N) report w' :
  Smoke.main (os := os) (c, n) = (Ok report, w') -> Report.Pass report = false.
Proof.
  assert (Hrun : forall pk x (s : Smoke.World (Rules := Rules) (N := N)) t,
    run pk s <> (Ok x, t)).
  { intros pk x s t H. unfold run in H.
    apply bind_ok in H as (b & t1 & _ & H). apply bind_ok in H as (priv & t2 & _ & H).
    apply bind_ok in H as (v3 & t3 & _ & H). apply bind_ok in H as (v4 & t4 & _ & H).
    apply bind_ok in H as (v5 & t5 & _ & H).
    apply run_queries_ok in H as (_ & lp & w & w1 & H).
    by apply send_unnamed in H. }
  unfold Smoke.main.
  destruct (bool_decide _); [done|]. cbv zeta.
  destruct (run _ _) as [[[]|e|] [rep w]] eqn:E; [|by intros [= <- _]|done].
  by apply Hrun in E.
Qed.
End server.

(** ** The run on the modelled chain *)

(** A node that executes each transaction as it is submitted: a transaction is
    the signer's address and the action's bytes, and the height is the clock. *)
Module Samples.
Export ClientFacts.Samples.
#[export] Instance texts : Text :=
  {| ids_String i := of_bytes (array_bytes i);
     err_Error e := match e with ErrMessage m => m | _ => "error"%string end |}.
Definition sim_time : Z := 1700000000500.
Definition sim_env : Env := mk_env initial_verifier (mk_clock 0 0 0).
Definition sim_reads (st : Store) : ReadState := fun ks =>
  (map (fun k => default [] (st !! k)) ks,
   map (fun k => match st !! k with Some _ => None | None => Some database_ErrNotFound end) ks).
Definition sim_node (height : Z) (st : Store) (mt : zkMetricsCollector) : Node Store unit :=
  mk_node (mk_vm (sim_reads st) (Ok st) (Genesis.mk 16 [] None None)) height mt.

Definition sim_submit (tx : bytes) : ST (Node Store unit) ID := fun n =>
  match ParseAction (drop 33 tx), vm_ImmutableState (node_vm n) with
  | Ok act, Ok st =>
      let actor := copy_array 33 (take 33 tx) in
      let '(o, (st', mt)) := Execute sim_env act sim_time actor no_tx (st, node_metrics n) in
      (Ok no_tx, sim_node (node_now n + 1) (match o with Ok _ => st' | _ => st end) mt)
  | _, _ => (Err (ErrMessage "rejected"), n)
  end.

#[export] Instance sim_core : CoreClient (Node Store unit) :=
  {| Network := ret no_tx;
     Accepted := fun n => (Ok (node_now n, sim_time), n);
     UnitPrices _ := ret [1; 1; 1; 1; 1];
     SubmitTx := sim_submit;
     GetTxResults _ := ret None |}.
#[export] Instance sim_host : Host (Node Store unit) :=
  {| time_Now n := (sim_time * 1000000, n); time_Sleep _ n := n; ctx_Err n := (None, n);
     ctx_Timer _ n := (None, n) |}.
#[export] Instance sim_signing : Signing :=
  {| PrivateKey := Address; AuthFactory := Address;
     ed25519_PrivateKey b := Ok (copy_array 33 b);
     NewED25519Factory a := a; NewED25519Address a := a; addr_String _ := "owner"%string;
     SignRawActionBytesTx _ raws a := Ok (array_bytes a ++ concat raws) |}.
(** The chain is named, and the key is the default one. *)
#[export] Instance shell : OS :=
  {| os_ReadFile _ := Err (ErrMessage "no such file");
     os_Stat _ := Err (ErrMessage "no such file");
     os_Getenv n := if bool_decide (n = text "CHAIN_ID") then text "veil" else [] |}.
(** The requests under their right names. *)
Definition answered : Requester unit (Node Store unit) := fun R r n => handle r n.

Definition owner : Address :=
  match hex_DecodeString defaultKeyHex with Ok b => copy_array 33 b | _ => zero_array 33 end.
Definition genesis_state : Store :=
  cells [(BalanceKey owner, be 8 500000); (VAIBalanceKey owner, be 8 0);
         (TreasuryConfigKey, TreasuryConfig.encode (TreasuryConfig.mk owner owner 100 60));
         (VAIConfigKey, VAIConfig.encode (VAIConfig.mk owner 3000000 500000 60));
         (VAIStateKey, VAIState.encode (VAIState.mk 0 0 0));
         (RiskConfigKey, RiskConfig.encode (RiskConfig.mk 12000 5000 5000 0 1000 1000 1000));
         (ReserveStateKey, ReserveState.encode (ReserveState.mk 2000000 0))].
Definition world0 : JSONRPCClient.t unit * Node Store unit :=
  (JSONRPCClient.New, sim_node 0 genesis_state (newZKMetricsCollector 10)).
(** A first and a second run on one chain, all queries answered. *)
Definition smoke := run (RQ := answered) defaultKeyHex.
Definition first := final smoke (Report.new, world0).
Definition second := final smoke (Report.new, first.2).
Definition verdict (r : Report.t) : list (string * bool) :=
  map (fun x => (Step.Name x, Step.Pass x)) (Report.Steps r).
End Samples.
Import Samples.

Lemma smoke_pass_means_witness :
  succeeds smoke (Report.new, world0) = true /\
  exists p, Report.PoolAfter first.1 = Some p /\
    10000 < PoolState.Reserve0 p /\ PoolState.Reserve1 p < 10000.
Proof.
  assert (H : succeeds smoke (Report.new, world0) = true) by (vm_compute; reflexivity).
  split; [exact H|]. destruct (run_succeeds _ _ H) as [u E].
  destruct (smoke_pass_means (RQ := answered) _ _ _ _ E) as (pk & priv & _ & _ & _ & Hp & _).
  exact Hp.
Defined.

Lemma smoke_cannot_pass_witness :
  exists report w', Smoke.main (RQ := rpc) world0 = (Ok report, w') /\
    Report.Pass report = false /\ length (Report.Steps report) = 11%nat.
Proof.
  assert (H : succeeds (Smoke.main (RQ := rpc)) world0 = true) by (vm_compute; reflexivity).
  destruct (run_succeeds _ _ H) as [report E]. exists report, (final (Smoke.main (RQ := rpc)) world0).
  split; [exact E|]. split; [exact (smoke_cannot_pass (SV := rpc_serves) _ _ _ _ _ E)|].
  assert (Hl : match outcome (Smoke.main (RQ := rpc)) world0 with
               | Ok r => length (Report.Steps r) | _ => 0%nat end = 11%nat) by (vm_compute; reflexivity).
  unfold outcome in Hl. by rewrite E in Hl.
Defined.

(** On a chain whose pool exists the step that creates it is still noted as
    passed, since only the submission is looked at; the run fails later. *)
Example second_run :
  outcome smoke (Report.new, first.2) = Err (ErrMessage "swap invariants failed") /\
  take 3 (verdict second.1)
  = [("query_initial_balances", true); ("create_pool", true); ("query_pool_created", false)]%string.
Proof. vm_compute. split; reflexivity. Qed.
