(* ===== verification/FixtureFacts.v ===== *)
(** * The fixture verifies

    What the fixture tool writes belongs together: a node that loads the written
    verifying key accepts the written envelope for the written hash. *)
From stdpp Require Import strings pretty.
From S2P Require Import Prelude Errors Go Platform Concrete Sha256 Storage ProofEnvelope.
From S2P Require Import ProofEnvelopeFacts Metrics Markets Proofs Genesis Zk ZkFacts Circuits.
From S2P Require Import CircuitFacts Client Tools ToolFacts Bench Network Fixture CacheFacts.

(** ** Names in a directory *)

(** A file name: not special, and without a slash. *)
Definition simple_name (name : bytes) : bool :=
  negb (bool_decide (name = [])) && negb (bool_decide (name = str ".")) &&
  negb (bool_decide (name = str "..")) && forallb (fun b => negb (bool_decide (b = slash))) name.

Lemma split_plain acc name :
  forallb (fun b => negb (bool_decide (b = slash))) name = true ->
  split_on slash acc name = [rev acc ++ name].
Proof.
  revert acc. induction name as [|b name IH]; intros acc H; cbn in *.
  - by rewrite app_nil_r.
  - apply andb_true_iff in H as [Hb H]. apply negb_true_iff in Hb. rewrite Hb, IH by done.
    cbn. by rewrite <-app_assoc.
Qed.

Lemma split_join acc dir name :
  forallb (fun b => negb (bool_decide (b = slash))) name = true ->
  split_on slash acc (dir ++ slash :: name) = split_on slash acc dir ++ [name].
Proof.
  intros H. revert acc. induction dir as [|b dir IH]; intros acc; cbn.
  - by rewrite split_plain.
  - destruct (bool_decide (b = slash)); cbn; by rewrite IH.
Qed.

Lemma clean_step_name rooted acc name :
  simple_name name = true -> clean_step rooted acc name = name :: acc.
Proof.
  unfold simple_name, clean_step. intros H. bool_simpl.
  by rewrite !bool_decide_false by done.
Qed.

Lemma join_slash_snoc l name :
  l <> [] -> join_slash (l ++ [name]) = join_slash l ++ slash :: name.
Proof.
  induction l as [|x [|y l] IH]; intros H; [done|done|].
  change ((x :: y :: l) ++ [name]) with (x :: (y :: l) ++ [name]).
  change (join_slash (x :: (y :: l) ++ [name])) with (x ++ [slash] ++ join_slash ((y :: l) ++ [name])).
  rewrite IH by done. change (join_slash (x :: y :: l)) with (x ++ [slash] ++ join_slash (y :: l)).
  by rewrite <-!app_assoc.
Qed.

Lemma join_slash_inj l a b : join_slash (l ++ [a]) = join_slash (l ++ [b]) -> a = b.
Proof.
  destruct l as [|x l]; [by cbn|]. rewrite !join_slash_snoc by done. intros H.
  apply app_inv_head in H. by injection H.
Qed.

(** All names in one directory differ in their last segment only. *)
Lemma in_dir_form fl :
  exists (rooted : bool) l, forall name, simple_name (str name) = true ->
    in_dir fl name = if rooted then slash :: join_slash (l ++ [str name])
                     else join_slash (l ++ [str name]).
Proof.
  unfold in_dir, filepath_Join. destruct (f_out fl) as [|d dir].
  - exists false, []. intros name Hn. cbn [drop_empty app join_slash].
    set (n := str name) in *. clearbody n. unfold filepath_Clean.
    pose proof Hn as H. unfold simple_name in H. bool_simpl.
    destruct n as [|c n]; [done|]. cbn [drop_empty join_slash].
    rewrite (split_plain [] (c :: n)) by done. cbn [rev app fold_left].
    assert (c <> x2f) by (cbn in *; bool_simpl; done).
    replace (match c :: n with x2f :: _ => true | _ => false end) with false by (by destruct c).
    rewrite clean_step_name by done. cbn. done.
  - exists (match d with x2f => true | _ => false end),
      (rev (fold_left (clean_step (match d with x2f => true | _ => false end))
                      (split_on slash [] (d :: dir)) [])).
    intros name Hn. set (n := str name) in *. clearbody n.
    pose proof Hn as H. unfold simple_name in H. bool_simpl.
    change (drop_empty [d :: dir; n]) with [d :: dir; n]. cbn [join_slash].
    unfold filepath_Clean. change ((d :: dir) ++ [slash] ++ n) with ((d :: dir) ++ slash :: n).
    rewrite split_join by done. change ((d :: dir) ++ slash :: n) with (d :: (dir ++ slash :: n)).
    rewrite fold_left_app. cbn [fold_left]. rewrite clean_step_name by done. cbn [rev].
    destruct d; try reflexivity; (rewrite bool_decide_false by (by destruct (rev _)); reflexivity).
Qed.

Lemma str_inj a b : str a = str b -> a = b.
Proof.
  intros H. apply (f_equal of_bytes) in H. unfold of_bytes, str in H.
  by rewrite !String.string_of_list_byte_of_string in H.
Qed.

Lemma in_dir_ne fl a b :
  simple_name (str a) = true -> simple_name (str b) = true -> a <> b ->
  in_dir fl a <> in_dir fl b.
Proof.
  intros Ha Hb Hne H. destruct (in_dir_form fl) as (rooted & l & Hf). rewrite !Hf in H by done.
  destruct Hne. apply str_inj, (join_slash_inj l). destruct rooted; [by injection H|done].
Qed.

Lemma in_dir_nonempty fl name : simple_name (str name) = true -> in_dir fl name <> [].
Proof.
  intros Hn H. destruct (in_dir_form fl) as ([] & l & Hf); rewrite Hf in H by done; [done|].
  destruct l as [|x l]; [cbn in H; by rewrite H in Hn|].
  rewrite join_slash_snoc in H by done. by apply app_eq_nil in H as [_ H].
Qed.

(** ** The files of one run *)

(** The laws of the prover: what is written is read back, the public witness
    holds the digest, and a proof that was made is accepted with the key of the
    same setup. The random source leaves the files alone. *)
Class SetupSpec {F : Frontend} {FS : FrontendSpec} {PV : Prover} {SU : Setup} {GN : Gnark}
    {GS : GnarkSpec} {N : Type} {FI : Files N} {FIS : FilesSpec N} {RN : Random N} : Type := {
  vk_of : VerifyingKey -> Groth16VK;
  proof_of : GProof -> Groth16Proof;
  VK_WriteTo_read vk b : VK_WriteTo vk = Ok b -> groth16_VK_ReadFrom b = Ok (vk_of vk);
  GProof_WriteTo_read p b : GProof_WriteTo p = Ok b -> groth16_Proof_ReadFrom b = Ok (proof_of p);
  public_elements c fw pw b : Digest c <> [] -> frontend_NewWitness c = Ok fw ->
    fullWitness_Public fw = Ok pw -> MarshalBinary pw = Ok b ->
    exists vec, witness_elements b vec /\
      map el_value vec = map (fun u => value (U8_Val u)) (Digest c);
  groth16_complete k ccs pk vk fw pw b vec p : frontend_Compile k = Ok ccs ->
    groth16_Setup ccs = Ok (pk, vk) -> groth16_Prove ccs pk fw = Ok p ->
    fullWitness_Public fw = Ok pw -> MarshalBinary pw = Ok b -> witness_elements b vec ->
    groth16_Verify (proof_of p) (vk_of vk) vec = Ok tt;
  rand_Read_files n a n' : rand_Read n = (Ok a, n') -> files n' = files n
}.

Section tool.
Context {F : Frontend} {FS : FrontendSpec} {PV : Prover} {SU : Setup} {GN : Gnark}
  {GS : GnarkSpec} {N : Type} {FI : Files N} {FIS : FilesSpec N} {RN : Random N} {SS : SetupSpec}.

Lemma write_then {A} (p b : bytes) (c : ST N A) n r n' :
  (fs_WriteFile p b ;;; c) n = (Ok r, n') ->
  exists n1, files n1 = <[p := b]> (files n) /\ c n1 = (Ok r, n').
Proof.
  intros H. apply bind_ok in H as (u & n1 & Hw & H). exists n1. split; [|done].
  by apply (WriteFile_spec p b n u).
Qed.

Lemma written_then {A} (p : bytes) (o : Outcome bytes) (c : ST N A) n r n' :
  (writeWithWriterTo p o ;;; c) n = (Ok r, n') ->
  exists b n1, o = Ok b /\ files n1 = <[p := b]> (files n) /\ c n1 = (Ok r, n').
Proof.
  intros H. apply bind_ok in H as (u & n1 & Hw & H). unfold writeWithWriterTo in Hw.
  apply bind_ok in Hw as (b & n2 & Hb & Hw). unfold lift in Hb. injection Hb as Hb <-.
  exists b, n1. split; [done|]. split; [|done]. by apply (WriteFile_spec p b n u).
Qed.

Lemma write_samples_files fl prefix h pre w p e n n' :
  write_samples fl prefix h pre w p e n = (Ok tt, n') ->
  files n' = <[in_dir fl (prefix ++ "_proof_envelope.bin") := e]>
    (<[in_dir fl (prefix ++ "_proof.bin") := p]>
    (<[in_dir fl (prefix ++ "_public_witness.bin") := w]>
    (<[in_dir fl (prefix ++ "_preimage.hex") := EncodeToString pre]>
    (<[in_dir fl (prefix ++ "_public_inputs_hash.hex") := EncodeToString h]> (files n))))).
Proof.
  unfold write_samples. intros H. do 4 (apply write_then in H as (? & ? & H)).
  apply WriteFile_spec in H. congruence.
Qed.

Lemma write_keys_files fl a pk vk n n' :
  write_keys fl a pk vk n = (Ok tt, n') ->
  exists pkb vkb, VK_WriteTo vk = Ok vkb /\
    files n' = (if ZkTool.writeCompat a then
                  fun m => <[in_dir fl "groth16_hashbinding_vk.bin" := vkb]>
                             (<[in_dir fl "groth16_hashbinding_pk.bin" := pkb]> m)
                else id)
               (<[in_dir fl (ZkTool.vkName a) := vkb]>
                  (<[in_dir fl (ZkTool.pkName a) := pkb]> (files n))).
Proof.
  unfold write_keys. intros H. apply written_then in H as (pkb & n1 & Hp & E1 & H).
  apply written_then in H as (vkb & n2 & Hv & E2 & H). exists pkb, vkb. split; [done|].
  destruct (ZkTool.writeCompat a).
  - apply written_then in H as (b & n3 & Hb & E3 & H). assert (b = pkb) as -> by congruence.
    unfold writeWithWriterTo in H. apply bind_ok in H as (b & n4 & Hb' & H).
    unfold lift in Hb'. injection Hb' as Hb' <-. apply WriteFile_spec in H.
    assert (b = vkb) as -> by congruence. congruence.
  - unfold ret in H. injection H as <-. unfold id. congruence.
Qed.

(** The assignment of the sample has the digest of the sample's preimage. *)
Lemma sample_digest c m f pre h a :
  ZkTool.buildSamplePreimage c (Ok m) (Ok f) = Ok (pre, h) ->
  ZkTool.buildAssignment c pre h = Ok a ->
  len h = 32 /\ Digest a = uints_NewU8Array h.
Proof.
  unfold ZkTool.buildSamplePreimage, ZkTool.buildAssignment. cbn [obind]. intros Hs Ha.
  apply obind_ok in Hs as (p & Hp & Hs). revert Hs. generalize (Sum256 p). intros d [= <- <-].
  split; [unfold len; by rewrite length_array|].
  destruct (bool_decide (TrimSpace c = ProofCircuitClearHashV1)).
  - rewrite clear_preimage_len, Z.eqb_refl in Hp. injection Hp as <-.
    rewrite clear_assignment in Ha by apply clear_preimage_len. by injection Ha as <-.
  - destruct (bool_decide (TrimSpace c = ProofCircuitShieldedLedgerV1)); [|done].
    rewrite shielded_preimage_len, Z.eqb_refl in Hp. injection Hp as <-.
    rewrite shielded_assignment in Ha by apply shielded_preimage_len. by injection Ha as <-.
Qed.

(** The payload of a sample, checked with the key of the setup. *)
Lemma sample_verifies k c ccs pk vk m f pre h wit prf env v :
  isSupportedCircuitID c = true -> TrimSpace c = c ->
  frontend_Compile k = Ok ccs -> groth16_Setup ccs = Ok (pk, vk) ->
  ZkTool.buildSamplePreimage c (Ok m) (Ok f) = Ok (pre, h) ->
  prove_sample c ccs pk pre h = Ok (wit, prf, env) ->
  groth16VK v = Some (vk_of vk) -> requiredCircuitID v = c ->
  verifyBatchProofInConsensus (mk_verifier (Some (Verify v)) true) ProofTypeGroth16 env h = Ok tt.
Proof.
  intros Hc Ht Hk Hs Hp H Hv Hr. unfold prove_sample in H.
  apply obind_ok in H as (a & Ha & H). destruct (sample_digest c m f pre h a Hp Ha) as [Hl Hd].
  assert (Hne : Digest a <> []).
  { rewrite Hd. intros E. pose proof (spells_length _ _ (value_NewU8Array h)) as El.
    rewrite E in El. unfold len in Hl. cbn in El. lia. }
  apply obind_ok in H as (fw & Hf & H). apply obind_ok in H as (pw & Hw & H).
  apply obind_ok in H as (wb & Hm & H). apply obind_ok in H as (p & Hpr & H).
  apply obind_ok in H as (pb & Hpb & H). apply obind_ok in H as (e & He & [= <- <- <-]).
  destruct (public_elements a fw pw wb Hne Hf Hw Hm) as (vec & Hvec & Hel).
  rewrite Hd, value_NewU8Array in Hel.
  assert (Hver : Verify v ProofTypeGroth16 c pb h wb = Ok tt).
  { unfold Verify. replace (normalizeCircuitID c) with c.
    2:{ unfold normalizeCircuitID. rewrite Ht. by rewrite bool_decide_false by (by intros ->). }
    rewrite Hr, (bool_decide_true (c = c)), andb_false_r by done. cbn [guard obind].
    rewrite Hc. cbn [negb guard obind]. apply (dispatch_iff v ProofTypeGroth16 c pb h wb Hc).
    exists vec. split; [split; [done|]|].
    - pose proof (f_equal length Hel) as E. rewrite !length_map in E. unfold len in Hl.
      destruct vec as [|x [|y vec]]; cbn in E; [lia..|]. by split.
    - left. split; [done|]. exists (vk_of vk), (proof_of p). split; [done|].
      split; [by apply GProof_WriteTo_read|]. by apply (groth16_complete k ccs pk vk fw pw wb). }
  unfold verifyBatchProofInConsensus, getBatchProofVerifier.
  rewrite (v2_parses ProofTypeGroth16 c pb wb e) by (done || (unfold u8; cbv; split; congruence)).
  rewrite Ht. cbn. by rewrite Hver.
Qed.

(** A machine on which the written files are found. *)
Definition found_by (o : OS) (m : Store) : Prop :=
  forall p b, m !! p = Some b -> @os_ReadFile o p = Ok b.

Lemma new_verifier (o : OS) p b vk c :
  @os_ReadFile o p = Ok b -> groth16_VK_ReadFrom b = Ok vk -> TrimSpace p = p -> p <> [] ->
  isSupportedCircuitID c = true -> TrimSpace c = c ->
  NewVerifier (mk_config p [] c) = Ok (mk_zk_verifier (Some vk) None c).
Proof.
  intros Hb Hv Hp Hne Hc Ht. unfold NewVerifier, load_if_set.
  cbn [Groth16VerifyingKeyPath PlonkVerifyingKeyPath RequiredCircuitID].
  rewrite Hp, bool_decide_false by done. unfold loadGroth16VK. rewrite Hb. cbn [obind].
  rewrite Hv. cbn [obind].
  rewrite (bool_decide_true (TrimSpace [] = [])) by reflexivity. cbn [obind].
  rewrite Ht, Hc. by rewrite andb_false_r.
Qed.

Ltac other_file :=
  rewrite lookup_insert_ne by (apply in_dir_ne; [reflexivity|reflexivity|discriminate]).

(** Where the run leaves the key, the hash and the envelope. *)
Lemma zktool_files fl n n' :
  let c := TrimSpace (f_circuit fl) in
  zktool_main fl n = (Ok tt, n') -> f_keys fl = true -> f_sample fl = true ->
  isSupportedCircuitID c = true /\
  exists k ccs pk vk vkb a m f pre hash wit prf env,
    frontend_Compile k = Ok ccs /\ groth16_Setup ccs = Ok (pk, vk) /\ VK_WriteTo vk = Ok vkb /\
    ZkTool.artifactNames c = Ok a /\
    ZkTool.buildSamplePreimage c (Ok m) (Ok f) = Ok (pre, hash) /\
    prove_sample c ccs pk pre hash = Ok (wit, prf, env) /\
    files n' !! in_dir fl (ZkTool.vkName a) = Some vkb /\
    files n' !! in_dir fl (ZkTool.samplePrefix a ++ "_public_inputs_hash.hex")
      = Some (EncodeToString hash) /\
    files n' !! in_dir fl (ZkTool.samplePrefix a ++ "_proof_envelope.bin") = Some env.
Proof.
  intros c H Hk Hs. unfold zktool_main in H. cbv zeta in H. fold c in H. rewrite Hk, Hs in H.
  apply bind_ok in H as ([] & n1 & _ & H). apply bind_ok in H as (k & n2 & Ek & H).
  apply bind_ok in H as (ccs & n3 & Ec & H). apply bind_ok in H as ([pk vk] & n4 & Es & H).
  apply bind_ok in H as (a & n5 & Ea & H). apply bind_ok in H as ([] & n6 & Hw & H).
  apply lift_ok in Ek as [Ek ->], Ec as [Ec ->], Es as [Es ->], Ea as [Ea ->].
  apply write_keys_files in Hw as (pkb & vkb & Hvk & Hfiles).
  unfold write_sample in H. apply bind_ok in H as (m & n7 & Em & H).
  apply bind_ok in H as (f & n8 & Ef & H). apply bind_ok in H as ([pre hash] & n9 & Ep & H).
  apply bind_ok in H as ([[wit prf] env] & n10 & Ev & H).
  apply bind_ok in H as ([] & n11 & Hw & H).
  apply lift_ok in Ep as [Ep ->], Ev as [Ev ->].
  apply rand_Read_files in Em, Ef. apply write_samples_files in Hw.
  rewrite Ef, Em, Hfiles in Hw. clear Hfiles Em Ef.
  assert (Ht : TrimSpace c = c) by apply TrimSpace_idem. clearbody c.
  unfold ZkTool.selectedCircuit in Ek. cbv zeta in Ek. rewrite Ht in Ek.
  pose proof Ea as Ea'. unfold ZkTool.artifactNames in Ea'. cbv zeta in Ea'. rewrite Ht in Ea'.
  destruct (bool_decide_reflect (c = ProofCircuitClearHashV1)) as [->|Hc].
  - split; [reflexivity|]. exists k, ccs, pk, vk, vkb, a, m, f, pre, hash, wit, prf, env.
    injection Ea' as <-. apply write_samples_files in H. rewrite Hw in H.
    do 6 (split; [eassumption|]). rewrite H. cbn [ZkTool.writeCompat ZkTool.vkName ZkTool.pkName
      ZkTool.samplePrefix]. cbn [String.append].
    split; [do 12 other_file; apply lookup_insert_eq|].
    split; [do 9 other_file; apply lookup_insert_eq|do 5 other_file; apply lookup_insert_eq].
  - destruct (bool_decide_reflect (c = ProofCircuitShieldedLedgerV1)) as [->|Hc']; [|done].
    split; [reflexivity|]. exists k, ccs, pk, vk, vkb, a, m, f, pre, hash, wit, prf, env.
    injection Ea' as <-. unfold ret in H. injection H as <-.
    do 6 (split; [eassumption|]). rewrite Hw. cbn [ZkTool.writeCompat ZkTool.vkName ZkTool.pkName
      ZkTool.samplePrefix]. cbn [String.append].
    split; [do 5 other_file; apply lookup_insert_eq|].
    split; [do 4 other_file; apply lookup_insert_eq|apply lookup_insert_eq].
Qed.

(** C35: what the fixture tool writes belongs together: after a run that writes
    keys and a sample, a node that finds the files loads the written verifying
    key for the chosen circuit, and accepts the written envelope for the written
    hash. *)
Theorem fixture_accepted fl n n' :
  let c := TrimSpace (f_circuit fl) in
  zktool_main fl n = (Ok tt, n') -> f_keys fl = true -> f_sample fl = true ->
  exists a hash env, ZkTool.artifactNames c = Ok a /\
    files n' !! in_dir fl (ZkTool.samplePrefix a ++ "_public_inputs_hash.hex")
      = Some (EncodeToString hash) /\
    files n' !! in_dir fl (ZkTool.samplePrefix a ++ "_proof_envelope.bin") = Some env /\
    forall o : OS, found_by o (files n') ->
    forall vkPath, vkPath = in_dir fl (ZkTool.vkName a) -> TrimSpace vkPath = vkPath ->
      exists v, NewVerifier (mk_config vkPath [] c) = Ok v /\
        verifyBatchProofInConsensus (mk_verifier (Some (Verify v)) true) ProofTypeGroth16 env hash
          = Ok tt.
Proof.
  cbv zeta. intros H Hk Hs.
  destruct (zktool_files fl n n' H Hk Hs) as (Hc & k & ccs & pk & vk & vkb & a & m & f & pre & hash
    & wit & prf & env & Ek & Es & Evk & Ea & Ep & Ev & Fvk & Fh & Fe).
  exists a, hash, env. do 3 (split; [done|]). intros o Ho vkPath -> Ht.
  exists (mk_zk_verifier (Some (vk_of vk)) None (TrimSpace (f_circuit fl))).
  pose proof (TrimSpace_idem (f_circuit fl)) as Hi. split.
  - eapply (new_verifier o _ vkb); try done;
      [by apply Ho|by apply VK_WriteTo_read|].
    apply in_dir_nonempty. apply supported_iff in Hc. unfold ZkTool.artifactNames in Ea.
    cbv zeta in Ea. rewrite Hi in Ea. by destruct Hc as [E|E]; rewrite E in Ea; injection Ea as <-.
  - by apply (sample_verifies k (TrimSpace (f_circuit fl)) ccs pk vk m f pre hash wit prf).
Qed.
End tool.

(** ** Evaluations *)

(** A setup whose keys and proofs are one byte string, on a disk without faults. *)
Module Samples.
Export CircuitFacts.Samples ZkFacts.Samples CacheFacts.Samples.

Definition is_byte (z : Z) : bool := (0 <=? z) && (z <? 256).
Definition marshal (w : list Z) : Outcome bytes :=
  if forallb is_byte w then Ok (map byte_of_Z w) else Err (ErrMessage "overflow").
Lemma marshal_ok w b : marshal w = Ok b -> forallb is_byte w = true /\ b = map byte_of_Z w.
Proof. unfold marshal. destruct (forallb is_byte w); [by intros [= <-]|done]. Qed.

#[export, refine] Instance prover : @Prover engine :=
  {| FullWitness := list Z; PublicWitness := list Z; ConstraintSystem := unit;
     ProvingKey := bytes; GProof := bytes; frontend_Compile _ := Ok tt; CS_ReadFrom _ := Ok tt;
     PK_ReadFrom := Ok; frontend_NewWitness c := Ok (map U8_Val (Digest c)); fullWitness_Public := Ok;
     MarshalBinary := marshal;
     groth16_Prove _ pk _ := Ok pk; GProof_WriteTo := Ok |}.
Proof. Defined.
#[export, refine] Instance keys : @Setup engine prover :=
  {| VerifyingKey := bytes; groth16_Setup _ := Ok (fixture_key, fixture_key); PK_WriteTo := Ok;
     VK_WriteTo := Ok |}.
Proof. Defined.
#[export] Instance dice : Random Disk := fun d => (Ok (copy_array 32 [x01; x02]), d).

Lemma bytes_of_Z w : forallb is_byte w = true -> map Z_of_byte (map byte_of_Z w) = w.
Proof.
  induction w as [|z w IH]; cbn; [done|]. unfold is_byte. intros H. bool_simpl.
  rewrite Z_of_byte_of_Z, IH by done. f_equal. apply Z.mod_small. lia.
Qed.

#[export, refine] Instance keys_spec :
    @SetupSpec engine engine_spec prover keys backend backend_spec Disk disk disk_spec dice :=
  {| vk_of (vk : @VerifyingKey _ _ keys) := (vk : bytes) : @Groth16VK backend;
     proof_of (p : @GProof _ prover) := (p : bytes) : @Groth16Proof backend |}.
Proof.
  - by intros vk b [= ->].
  - by intros p b [= ->].
  - intros c fw pw b Hd [= <-] [= <-] [Hb ->]%marshal_ok.
    exists (map U8_Val (Digest c)). split; [|exact (map_map _ _ _)].
    assert (Hne : (Digest c : list Z) <> []) by exact Hd.
    split; [by destruct (Digest c)|]. split; [by destruct (Digest c)|].
    exists [], (map byte_of_Z (map U8_Val (Digest c))). split; [done|]. split; [done|].
    cbn. f_equal. by apply bytes_of_Z.
  - intros k ccs pk vk fw pw b vec p _ [= <- <-] [= <-] _ _ _. reflexivity.
  - by intros n a n' [= _ <-].
Defined.

Definition blank : Disk := mk_disk (∅ : Store) [].
Definition reader (m : Store) : OS :=
  {| os_ReadFile p := match m !! p with Some b => Ok b | None => Err io_error end;
     os_Stat p := match m !! p with Some _ => Ok tt | None => Err io_error end;
     os_Getenv _ := [] |}.
End Samples.
Import Samples.

Example fixture_run : (zktool_main default_flags blank).1 = Ok tt.
Proof. vm_compute. reflexivity. Qed.

Lemma run_ok (p : Outcome unit * Disk) : p.1 = Ok tt -> p = (Ok tt, p.2).
Proof. destruct p as [o d]. cbn. by intros ->. Qed.

Lemma found_by_reader m : found_by (reader m) m.
Proof. intros p b H. unfold reader. cbn [os_ReadFile]. by rewrite H. Qed.

Lemma fixture_accepted_witness :
  let m := files (zktool_main default_flags blank).2 in
  exists hash env,
    m !! str "zk-fixture/sample_clearhash_public_inputs_hash.hex"
      = Some (EncodeToString hash) /\
    m !! str "zk-fixture/sample_clearhash_proof_envelope.bin" = Some env /\
    exists v,
      @NewVerifier backend (reader m)
        (mk_config (str "zk-fixture/groth16_clearhash_vk.bin") [] ProofCircuitClearHashV1) = Ok v /\
      verifyBatchProofInConsensus (mk_verifier (Some (Verify v)) true) ProofTypeGroth16 env hash
        = Ok tt.
Proof.
  destruct (fixture_accepted default_flags blank (zktool_main default_flags blank).2
              (run_ok _ fixture_run) eq_refl eq_refl) as (a & hash & env & Ha & Hh & He & H).
  assert (Ec : TrimSpace (f_circuit default_flags) = ProofCircuitClearHashV1) by reflexivity.
  rewrite Ec in Ha, H.
  assert (a = ZkTool.mk_artifacts "groth16_clearhash_pk.bin" "groth16_clearhash_vk.bin"
                "sample_clearhash" true) as ->
    by (vm_compute in Ha; injection Ha as <-; reflexivity).
  exists hash, env. split; [exact Hh|]. split; [exact He|].
  apply (H (reader _) (found_by_reader _)); vm_compute; reflexivity.
Defined.
