(* ===== verification/Node.v ===== *)
(** * The node ([vm/vm.go], [cmd/veilvm/main.go])

    Initialisation of the package registers the actions, the authentication
    modules and the results; [New] hands the registered parsers and the option
    of [vm/option.go] to the platform's factory; the plugin raises the file
    limit, builds the VM and serves it. What the platform and the command-line
    library do is a parameter. *)
From stdpp Require Import strings.
From S2P Require Import Prelude Errors Go Platform Storage Balance Action Transfer ProofEnvelope.
From S2P Require Import Metrics Markets Proofs Genesis Chain Results Server Zk Client Network.
From S2P Require Import Tools Fixture Wire.

(** A table of registered unmarshalling functions by type byte. *)
Definition Table (A : Type) : Type := list (Z * (bytes -> Outcome A)).

(** [codec.TypeParser.Register]: a type byte that is free is appended to the
    table, one that is taken is refused. *)
Class TypeRegistry : Type := {
  tp_Register {A} : Table A -> Z -> (bytes -> Outcome A) -> Outcome unit * Table A;
  tp_Register_fresh {A} (t : Table A) id f :
    u8 id -> id ∉ t.*1 -> tp_Register t id f = (Ok tt, t ++ [(id, f)]);
  tp_Register_taken {A} (t : Table A) id f :
    id ∈ t.*1 -> exists e, tp_Register t id f = (Err e, t)
}.

(** The authentication modules of the platform and the parser of transactions
    made of the two tables. *)
Class Authentication : Type := {
  Auth : Type; AuthProvider : Type; TxTypeParser : Type;
  ED25519 : Z * (bytes -> Outcome Auth);
  SECP256R1 : Z * (bytes -> Outcome Auth);
  BLS : Z * (bytes -> Outcome Auth);
  NewAuthProvider : AuthProvider;
  WithDefaultPrivateKeyFactories : AuthProvider -> Outcome AuthProvider;
  NewTxTypeParser : Table ChainAction -> Table Auth -> TxTypeParser
}.

(** The modules have different type bytes. *)
Class AuthenticationSpec {AU : Authentication} : Type := {
  auth_bytes : Forall u8 [ED25519.1; SECP256R1.1; BLS.1];
  auth_NoDup : NoDup [ED25519.1; SECP256R1.1; BLS.1];
  default_factories : exists p, WithDefaultPrivateKeyFactories NewAuthProvider = Ok p
}.

(** ** Initialisation *)

Section registration.
Context {PF : Platform} {TR : TypeRegistry} {AU : Authentication}.

(** The package variables. *)
Record Globals := mk_globals {
  ActionParser : Table ChainAction;
  AuthParser : Table Auth;
  OutputParser : Table ChainResult;
  Provider : AuthProvider;
  Parser : TxTypeParser
}.

(** [AuthParser.Register], in order. *)
Definition AuthTable : Table Auth := [ED25519; SECP256R1; BLS].

(** Calls of [Register] in order: each is made whatever the others returned. *)
Fixpoint register_all {A} (t : Table A) (entries : Table A) : list (Outcome unit) * Table A :=
  match entries with
  | [] => ([], t)
  | (id, f) :: l =>
      let '(r, t1) := tp_Register t id f in
      let '(rs, t2) := register_all t1 l in (r :: rs, t2)
  end.

(** [errors.Join(...) != nil] *)
Definition any_failed (rs : list (Outcome unit)) : bool :=
  existsb (fun r => match r with Ok _ => false | _ => true end) rs.

Definition init : Outcome Globals :=
  match WithDefaultPrivateKeyFactories NewAuthProvider with
  | Ok provider =>
      let '(r1, actions) := register_all [] ActionTable in
      let '(r2, auths) := register_all [] AuthTable in
      let '(r3, outputs) := register_all [] OutputTable in
      if any_failed (r1 ++ r2 ++ r3) then Panic
      else Ok (mk_globals actions auths outputs provider (NewTxTypeParser actions auths))
  | _ => Panic
  end.

(** [JSONRPCClient.GetParser] *)
Definition GetParser (g : Globals) : TxTypeParser :=
  NewTxTypeParser (ActionParser g) (AuthParser g).

(** ** Facts *)

Lemma register_all_fresh {A} (entries t : Table A) :
  Forall u8 entries.*1 -> NoDup (t.*1 ++ entries.*1) ->
  any_failed (register_all t entries).1 = false /\ (register_all t entries).2 = t ++ entries.
Proof.
  revert t. induction entries as [|[id f] l IH]; intros t Hb Hn; cbn [register_all].
  - by rewrite app_nil_r.
  - cbn in Hb, Hn. apply Forall_cons_iff in Hb as [Hid Hb].
    rewrite tp_Register_fresh; [|done|].
    + destruct (IH (t ++ [(id, f)])) as [H1 H2]; [done| |].
      { rewrite fmap_app. cbn. by rewrite <- app_assoc. }
      destruct (register_all _ _) as [rs t2]. cbn in *. split; [done|].
      by rewrite H2, <- app_assoc.
    + apply list.NoDup_app in Hn as (_ & Hn & _). intros Hin.
      apply (Hn id Hin). apply list_elem_of_here.
Qed.

Lemma any_failed_app rs rs' : any_failed (rs ++ rs') = any_failed rs || any_failed rs'.
Proof. apply existsb_app. Qed.

Lemma tables_u8 : Forall u8 ActionTable.*1 /\ Forall u8 OutputTable.*1.
Proof. split; repeat (apply Forall_cons_2; [by split|]); apply Forall_nil_2. Qed.

(** No registration collides: initialisation succeeds, with every parser of
    the node exactly the table the actions, modules and results are declared in,
    and a client made in the same process parses with the same tables. *)
Theorem init_registers {AS : AuthenticationSpec} :
  exists g, init = Ok g /\ ActionParser g = ActionTable /\ AuthParser g = AuthTable /\
    OutputParser g = OutputTable /\ GetParser g = Parser g.
Proof.
  destruct default_factories as [p Hp]. unfold init. rewrite Hp.
  destruct tables_u8 as [H1 H3].
  destruct (register_all_fresh ActionTable []) as [F1 E1]; [done|apply ActionTable_NoDup|].
  destruct (register_all_fresh AuthTable []) as [F2 E2]; [apply auth_bytes|apply auth_NoDup|].
  destruct (register_all_fresh OutputTable []) as [F3 E3]; [done|apply OutputTable_NoDup|].
  destruct (register_all [] ActionTable), (register_all [] AuthTable),
    (register_all [] OutputTable). cbn [fst snd] in *. subst.
  rewrite !any_failed_app, F1, F2, F3. by eexists.
Qed.
End registration.
Arguments Globals {_}.

(** ** The VM and the plugin *)

(** The platform's VM factory, over an option type of its own, and the plugin
    host: the world [W] is everything outside the process. *)
Class PluginHost (H W : Type) {AU : Authentication} : Type := {
  vm_Option : Type; vm_VM : Type; vm_Factory : Type; SnowVM : Type;
  vm_NewOption : bytes -> VMConfig -> (VMConfig -> ST VerifierConfig bool) -> vm_Option;
  defaultvm_NewDefaultOptions : list vm_Option;
  vm_NewFactory : Table ChainAction -> Table Auth -> Table ChainResult -> list vm_Option ->
                  vm_Factory;
  factory_New : vm_Factory -> list vm_Option -> Outcome vm_VM;
  NewSnowVM : string -> vm_VM -> SnowVM;
  DefaultFDLimit : Z;
  ulimit_Set : Z -> ST W unit;
  rpcchainvm_Serve : SnowVM -> ST W unit;
  stderr_failed : Error -> W -> W;
  Printf : string -> W -> W;
  api_NewJSONRPCHandler {M Rules} : string -> VM M Rules -> Outcome H
}.

Section plugin.
Context {PF : Platform} {AU : Authentication} {H W : Type} {PH : PluginHost H W}.
Context {GN : Gnark} {os : OS} {TX : Text}.

Definition Namespace : bytes := str "controller".

(** The parsers of the package are those of the globals; the genesis factory,
    the balance handler, the metadata manager and the authentication engines
    have no fields and are part of [vm_NewFactory]. *)
Definition NewFactory (g : Globals) : vm_Factory :=
  let options := defaultvm_NewDefaultOptions ++ [vm_NewOption Namespace NewDefaultConfig With] in
  vm_NewFactory (ActionParser g) (AuthParser g) (OutputParser g) options.

Definition New (g : Globals) (options : list vm_Option) : Outcome vm_VM :=
  factory_New (NewFactory g) options.

(** [jsonRPCServerFactory.New]: the handler at its path, with the error. *)
Record Handler := mk_handler { Path : bytes; Handler_Handler : Outcome H }.
Definition jsonRPCServerFactory_New {M Rules} (vm : VM M Rules) : Handler :=
  mk_handler JSONRPCEndpoint (api_NewJSONRPCHandler consts.Name vm).

(** The text added to the error of the file limit is not modelled. *)
Definition runFunc (g : Globals) : ST W unit :=
  ulimit_Set DefaultFDLimit ;;;
  let* v := lift (New g []) in
  rpcchainvm_Serve (NewSnowVM "v0.0.1" v).

(** A [cobra.Command]; [init] adds the version command to the root. *)
Record Command := mk_command { Use : string; RunE : ST W unit }.

(** [version.NewCommand] *)
Definition NewCommand (render : consts.Semantic -> string) : Command :=
  mk_command "version" (fun w => (Ok tt, Printf (versionFunc render) w)).
Definition rootCmd (g : Globals) : Command := mk_command "veilvm" (runFunc g).

(** [main]: the exit status; a panic ends a Go program with status 2. [Execute]
    is the command-line library's, of a command and its subcommands. *)
Definition main (g : Globals) (render : consts.Semantic -> string)
    (Execute : Command -> list Command -> ST W unit) (w : W) : Z * W :=
  match Execute (rootCmd g) [NewCommand render] w with
  | (Ok _, w1) => (0, w1)
  | (Err e, w1) => (1, stderr_failed e w1)
  | (Panic, w1) => (2, w1)
  end.

(** The plugin serves only a VM that was built, after the limit was raised. *)
Lemma runFunc_ok g (w w' : W) :
  runFunc g w = (Ok tt, w') <->
  exists w1 v, ulimit_Set DefaultFDLimit w = (Ok tt, w1) /\ New g [] = Ok v /\
    rpcchainvm_Serve (NewSnowVM "v0.0.1" v) w1 = (Ok tt, w').
Proof.
  unfold runFunc, bind, lift. split.
  - destruct (ulimit_Set _ w) as [[[]| |] w1]; [|done..].
    destruct (New g []) as [v| |]; [|done..]. eauto.
  - by intros (w1 & v & -> & -> & ->).
Qed.
End plugin.

(** ** Evaluations *)

Module Samples.
(** A registry and modules as the platform documents them. *)
#[export, refine] Instance registry : TypeRegistry :=
  {| tp_Register _ t id f :=
       if decide (id ∈ t.*1) then (Err (ErrMessage "duplicate item"), t)
       else (Ok tt, t ++ [(id, f)]) |}.
Proof.
  - intros A t id f _ H. by rewrite decide_False.
  - intros A t id f H. exists (ErrMessage "duplicate item"). by rewrite decide_True.
Defined.
#[export] Instance modules : Authentication :=
  {| Auth := bytes; AuthProvider := unit; TxTypeParser := nat;
     ED25519 := (0, Ok); SECP256R1 := (1, Ok); BLS := (2, Ok);
     NewAuthProvider := tt; WithDefaultPrivateKeyFactories := Ok;
     NewTxTypeParser a b := (length a + length b)%nat |}.
#[export] Instance modules_spec : AuthenticationSpec.
Proof.
  split; [repeat (apply Forall_cons_2; [by split|]); apply Forall_nil_2| |by eexists].
  apply (bool_decide_unpack _). vm_compute. exact I.
Qed.
End Samples.
Import Samples.

Example init_counts {PF : Platform} :
  exists g, init = Ok g /\ length (ActionParser g) = 19%nat /\ length (OutputParser g) = 19%nat /\
    Parser g = 22%nat.
Proof. eexists. split; [vm_compute; reflexivity|]. by vm_compute. Qed.
(** A second action under a taken type byte would stop the node at start. *)
Example taken_byte {PF : Platform} :
  any_failed (register_all [] (ActionTable ++ [(3, fun _ => Panic)])).1 = true.
Proof. vm_compute. reflexivity. Qed.
